(* ===== verification/_CoqProject ===== *)
-Q . S2P
Prelude.v
GoStrings.v
GoTime.v
GoStrconv.v
GoBase64.v
GoUrl.v
GoUrlFacts.v
GoUtf8.v
GoJsonText.v
GoJsonFacts.v
GoError.v
GoRfc3339.v
GoJson.v
Config.v
Initialize.v
Http.v
Crypter.v
Cookie.v
Ingress.v
RedirectUrl.v
Openid.v
SessionData.v
Store.v
Retry.v
Keeps.v
Jwks.v
Loginstatus.v
GoSha256.v
OpenidClient.v
SessionHandler.v
Frames.v
RefreshProtocol.v
RefreshRefines.v
RedisLocks.v
ErrorHandler.v
GoHtmlTemplate.v
ErrorGoHtml.v
Templates.v
AutoLogin.v
AppState.v
Standard.v
Example.v
LoginFlow.v
LogoutFlow.v
SessionApi.v
ReverseProxy.v
Completion.v
Router.v
Routes.v
RequestLog.v
Provenance.v
Concurrent.v
Main.v
Server.v
MockProvider.v
Interop.v
Served.v
Metrics.v
