(* ===== verification/Prelude.v ===== *)
(** * Wonderwall, verified

    Wonderwall is a reverse proxy that logs users in with OpenID Connect.  It
    sits in front of an application: requests under [/oauth2] are its own
    (login, callback, logout, session metadata), all others go upstream, with
    the access token of the user's session if there is one.  Sessions live in
    memory or in Redis, encrypted; the user agent holds the encrypted key of
    its session in a cookie.  This library models the program in [src/] and
    proves what makes it correct.

    ** How the program is put together, and where it is modelled

    - Go itself.  A Go string is a list of bytes (this file); the parts of the
      standard library the program calls are translated and executable:
      [GoStrings], [GoStrconv], [GoBase64], [GoUrl] ([net/url], [path]; facts in
      [GoUrlFacts]), [GoTime], [GoRfc3339] (times as text), [GoSha256], [GoUtf8],
      [GoHtmlTemplate] (the two contexts of [html/template] the error page has,
      and the user agent that reads it), and [encoding/json]: [GoJsonText] (scanner, parser, printer of the text),
      [GoJsonFacts] (they are inverse), [GoJson] (structs and scalars; each record
      of the program declares its fields).  [GoError] has error values, the pair
      (value, error) as [result], and effectful code as a state monad [M] over a
      [World]: a store, a trace of the messages sent, and a counter that is
      passed to the environment [Env] (clock, randomness, UUIDs, HTTP answers)
      at each use, so that two reads of the clock are two values.  [Http] has
      requests with the values of [pkg/middleware/context.go], responses and
      cookies.
    - [Config]: [pkg/config], [pkg/openid/config], [pkg/openid/scopes];
      [Initialize]: [config.Initialize] with its flags, environment and
      defaults, and [pkg/logging].
    - [Crypter]: [pkg/crypto/crypter.go], [pkg/strings]; [Cookie]:
      [pkg/cookie].
    - [Ingress]: [pkg/ingress], [pkg/middleware/ingress.go]; [RedirectUrl]:
      [pkg/handler/url], [pkg/router/paths].
    - [Openid]: [pkg/jwt] and [pkg/openid] (tokens, parameters, login cookie);
      [Jwks]: [pkg/openid/provider]; [OpenidClient]: [pkg/openid/client];
      [Loginstatus]: [pkg/loginstatus].
    - [SessionData]: [pkg/session/data.go]; [Store]: [store*.go] and [lock.go];
      [Retry]: [pkg/retry]; [SessionHandler]: [pkg/session/handler.go].
    - [RefreshProtocol]: [Handler.Refresh] as steps of concurrent requests;
      [RefreshRefines]: the code's runs are runs of the protocol, over any lock
      with the laws of [LockModel]; [RedisLocks]: the Redis lock has them.
    - [ErrorHandler]: [pkg/handler/error]; [Templates]: [pkg/handler/templates],
      with the text of the page in [ErrorGoHtml]; [AutoLogin]:
      [pkg/handler/autologin].
    - [AppState], [Standard]: the process state and [StandardHandler]
      ([pkg/handler/handler*.go]).  [LoginFlow], [LogoutFlow], [SessionApi]: the
      packages of [pkg/handler/api]; [ReverseProxy]: [pkg/handler/reverseproxy];
      [Router]: [pkg/router] and [pkg/middleware/correlationid.go].
      [RequestLog]: [pkg/middleware/logentry.go]; [Metrics]: [pkg/metrics],
      [pkg/middleware/prometheus.go].
    - [Main]: [run] of [cmd/wonderwall]; [Server]: [pkg/server].
    - [MockProvider]: the identity provider the tests log in with ([pkg/mock],
      [pkg/crypto/jwk*.go]); [Interop]: the program and that provider together,
      handler by handler; [Served]: the same through the program's router.
    - Of the development's own: [Keeps] (a relation kept by effectful code, with
      the tactic [walk]), [Frames] and [Routes] (what the code outside the store,
      and every route, keeps), [Completion] (what succeeds when nothing fails),
      [Provenance] (invariants of a sequence of requests), [Concurrent] (requests whose Redis commands interleave), and
      [Example] (a small concrete application, for the theorems' instances).

    A Go function keeps its name; a method whose name another component uses too
    is qualified by its receiver ([Handler_Refresh], [Metadata_Refresh]).  A
    handler takes the request and the response written so far and returns the
    response; methods that assign to their receiver return the new value; early
    returns [if err != nil] are the bind [←?].

    ** Interfaces

    Components are verified against type classes.  The session handler knows
    its store only through [Store] and [StoreLaws] (a store may lose an entry at
    any operation but never invents one); [Store] proves that the in-memory and
    the Redis store satisfy them, the latter over [RedisLaws], what Redis
    documents of GET, SET, DEL, KEEPTTL and of the lock of bsm/redislock, and
    [AppState] lifts them to the state of the process.  The error handler knows
    its page through [ErrorTemplate]; [Templates] has the page itself.  A refresh knows its lock
    through [LockModel] and [LockModelLaws]; the lease of the Redis lock is in
    [RedisLeaseLaws].  Third-party code is an interface with the documented
    behaviour the program relies on: [AEAD] (AES-GCM opens what it sealed),
    [JwtLib] (what each validation option of jwx means), [JwkCache], [OAuth2],
    [Retry] ([retry.Do] returns what its function returned last), [Doublestar],
    [Mux] (chi), [Viper] (the precedence of its sources), [Logrus],
    [Location] (the local time zone); for the composition with
    the test provider also [Jwx] with [JwxLaws] (what was signed is accepted) and
    [OAuth2Laws] (the parameters are sent, the answer is read), and for completion
    [RandAvailable], [StoreAvailable] and [RetryAvailable].  Ranging over a Go map takes the order from [MapOrder] or [LoopOrder].

    ** What is proved

    - Provenance ([Provenance], [Concurrent]): every session in the store was
      created by the callback for a login the provider vouched for, and every
      token sent upstream is that of such a session; for requests one after
      another, and for any interleaving of the Redis commands of any number of
      concurrent requests.
    - Login ([LoginFlow], [OpenidClient], [Openid]): a session cookie is only
      issued for a callback with the state of the login cookie and a verified
      id_token with its nonce; the authorization request and the login cookie
      agree; a login can be completed by the callback.
    - Interoperation ([MockProvider], [Interop], [Served]): what the test
      provider's token endpoint answers to every request; against it a login goes
      all the way, through the router, from a request for the login route to one
      that is sent upstream with its access token; so do a refresh and a logout,
      after which the cookie is worth nothing.
    - Sessions ([SessionHandler], [SessionData], [Store]): a created session
      reads back; a destroyed one does not; an access token comes from a live
      session; a refresh happens under the lock, on re-read data, and changes
      the tokens only; the arithmetic of expiry, cooldown and timeout; the
      stores refine their interface.
    - Concurrent refreshes ([RefreshProtocol], [RefreshRefines], [RedisLocks]):
      mutual exclusion as long as leases last, by induction over interleavings;
      a request can always finish; the code refines the protocol; and the runs
      that break it.
    - Logout ([LogoutFlow]), session routes ([SessionApi]), proxy
      ([ReverseProxy]), errors ([ErrorHandler]: three automatic retries at most)
      and routing ([Router]): the response on every branch.
    - The error page ([Templates]): a request changes it in two places only, and
      the link to try again leads where the retries did.
    - The process: configuration ([Initialize]), start-up ([Main]), and the
      shutdown under every schedule of its goroutines ([Server]).
    - The request log ([RequestLog]) does not depend on codes, states or cookie
      values.
    - URLs ([RedirectUrl], [Ingress]): the redirect target survives the login
      URL; redirects are local except for the cases stated; matching of
      ingresses is independent of the map order.
    - Round trips of JSON text, times, ciphertexts, cookies and session data;
      bounds of the key refreshes.

    Where the program deviates from what it intends, a theorem states the
    deviation: [CanonicalRedirect_open_redirect], [refresh_drops_token],
    [double_grant], [logout_undone], [inactive_refresh_is_500],
    [memory_update_race], [ingress_path_shadows_host], [referer_fragment_logged],
    [short_key_starts], [odd_session_survives_logout].

    ** Bounds

    Instants and durations are nanoseconds in [Z]; [Sub], the conversion to
    seconds and the multiplication by [Second] saturate or wrap as in Go.  The
    parser of JSON takes the length of its input as fuel, which is enough
    ([GoJsonFacts]), and the nesting depth of the Go package as its bound.  The
    only loop of the program without a structural argument is the select loop of
    [Handler.acquire], whose length the scheduler decides: [acquire_loop] recurs on
    the channels that become ready, and when no more do the timeout fires.  The
    runs of [Concurrent] and [Server] are lists of steps of any length.

    ** Not modelled

    The log lines the handlers write themselves, apart from those of a
    successful login, and their metric observations (nothing reads them; [Metrics]
    shows that its middleware changes nothing); the texts of errors, which only
    the log shows; of [html/template], contexts that the error page does not have;
    the transport of [httputil.ReverseProxy]; chi's [Recoverer] (a panic of a
    handler is modelled as an answer with status 500) and [NoCache]; the short
    HTML body of [http.Redirect] answers; the test servers of [httptest] and the
    cookie jar of the tests' client.  Methods that only return a field are the
    record's projections.

    ** What could follow

    The Redis store as an instance of [StoreAvailable], for deployments with
    refresh and inactivity in [Completion]; the front-channel logout of the
    provider in [Served]. *)

From Stdlib Require Export ZArith Lia Bool Ascii.
From Stdlib Require String.
From stdpp Require Export base option strings gmap sets fin_maps list.

#[export] Set Default Goal Selector "!".

(** ** Go strings

    A Go string is a finite sequence of bytes; [str] is that sequence.  The
    literal ["abc"] of the source is written [$"abc"]. *)

Abbreviation str := (list ascii).

Declare Scope go_scope.
Delimit Scope go_scope with go.
Notation "$ s" := (String.list_ascii_of_string s%string)
  (at level 1, s at level 0, format "$ s") : go_scope.
Open Scope go_scope.

(** A byte as a number, and back (the conversion [byte(z)] truncates). *)
Definition ord (c : ascii) : Z := Z.of_N (N_of_ascii c).
Definition chr (z : Z) : ascii := ascii_of_N (Z.to_N (z mod 256)).

(** Equality of bytes and strings as booleans. *)
Definition beq (a b : ascii) : bool := bool_decide (a = b).
Definition streq (s t : str) : bool := bool_decide (s = t).

#[global] Arguments beq : simpl never.
#[global] Arguments streq : simpl never.
#[global] Arguments ord : simpl never.
#[global] Arguments chr : simpl never.
#[global] Arguments andb : simpl nomatch.
#[global] Arguments orb : simpl nomatch.

(** The length of a string, as Go's [int]. *)
Definition zlen {A} (s : list A) : Z := Z.of_nat (length s).

(** Go's [len(s) == 0] on strings. *)
Definition is_empty {A} (s : list A) : bool :=
  match s with [] => true | _ :: _ => false end.

(** ** Machine integers: [int64] and [int] are 64 bits wide. *)

Definition wrap64 (z : Z) : Z := ((z + 2 ^ 63) mod 2 ^ 64 - 2 ^ 63)%Z.
Definition min_int64 : Z := (- 2 ^ 63)%Z.
Definition max_int64 : Z := (2 ^ 63 - 1)%Z.
Definition in_int64 (z : Z) : Prop := (min_int64 <= z <= max_int64)%Z.

(** ** Tactics of the development *)

(** Split the conjunctions and existentials of the context, substitute. *)
Ltac break :=
  repeat match goal with
  | H : _ /\ _ |- _ => destruct H
  | H : exists _, _ |- _ => destruct H
  end; simplify_eq/=.

(** Case analysis on the first scrutinee of the goal (or of a hypothesis). *)
Ltac case_goal :=
  match goal with
  | |- context [match ?x with _ => _ end] => destruct x eqn:?
  end.
Ltac case_hyp H :=
  match type of H with
  | context [match ?x with _ => _ end] => destruct x eqn:?
  end.

(** Turn the boolean tests of the context into propositions. *)
Ltac to_prop :=
  repeat match goal with
  | H : (_ && _) = true |- _ => apply andb_true_iff in H; destruct H
  | H : (_ || _) = false |- _ => apply orb_false_iff in H; destruct H
  | H : negb _ = true |- _ => apply negb_true_iff in H
  | H : negb _ = false |- _ => apply negb_false_iff in H
  | H : (_ <? _)%Z = true |- _ => apply Z.ltb_lt in H
  | H : (_ <? _)%Z = false |- _ => apply Z.ltb_ge in H
  | H : (_ <=? _)%Z = true |- _ => apply Z.leb_le in H
  | H : (_ <=? _)%Z = false |- _ => apply Z.leb_gt in H
  | H : (_ =? _)%Z = true |- _ => apply Z.eqb_eq in H
  | H : (_ =? _)%Z = false |- _ => apply Z.eqb_neq in H
  | H : bool_decide _ = true |- _ => apply bool_decide_eq_true in H
  | H : bool_decide _ = false |- _ => apply bool_decide_eq_false in H
  end.

Create HintDb wonderwall.
Create Rewrite HintDb wonderwall.
Create HintDb bytes.
Create Rewrite HintDb bytes.

(** ** Lemmas *)

Lemma ord_bound (c : ascii) : (0 <= ord c < 256)%Z.
Proof. unfold ord. pose proof (N_ascii_bounded c). lia. Qed.

Lemma chr_ord_N (c : ascii) : ascii_of_N (Z.to_N (ord c)) = c.
Proof. unfold ord. rewrite N2Z.id. apply ascii_N_embedding. Qed.

Lemma chr_ord (c : ascii) : chr (ord c) = c.
Proof. unfold chr. rewrite Z.mod_small by apply ord_bound. apply chr_ord_N. Qed.

Lemma chr_eq (z : Z) (c : ascii) : (z mod 256 = ord c)%Z -> chr z = c.
Proof. intros H. unfold chr. rewrite H. apply chr_ord_N. Qed.

Lemma ord_chr (z : Z) : (0 <= z < 256)%Z -> ord (chr z) = z.
Proof.
  intros H. unfold chr, ord. rewrite Z.mod_small by done.
  rewrite N_ascii_embedding by lia. lia.
Qed.

Lemma ord_inj (a b : ascii) : ord a = ord b -> a = b.
Proof. intros H. by rewrite <- (chr_ord a), <- (chr_ord b), H. Qed.

Lemma beq_refl (a : ascii) : beq a a = true.
Proof. by apply bool_decide_eq_true. Qed.

Lemma beq_true (a b : ascii) : beq a b = true <-> a = b.
Proof. apply bool_decide_eq_true. Qed.

Lemma beq_false (a b : ascii) : beq a b = false <-> a <> b.
Proof. apply bool_decide_eq_false. Qed.

Lemma streq_refl (s : str) : streq s s = true.
Proof. by apply bool_decide_eq_true. Qed.

Lemma streq_true (s t : str) : streq s t = true <-> s = t.
Proof. apply bool_decide_eq_true. Qed.

Lemma streq_false (s t : str) : streq s t = false <-> s <> t.
Proof. apply bool_decide_eq_false. Qed.

Lemma is_empty_true {A} (s : list A) : is_empty s = true <-> s = [].
Proof. by destruct s. Qed.

Lemma is_empty_false {A} (s : list A) : is_empty s = false <-> s <> [].
Proof. by destruct s. Qed.

Lemma wrap64_id (z : Z) : in_int64 z -> wrap64 z = z.
Proof.
  unfold in_int64, min_int64, max_int64, wrap64. intros H.
  rewrite Z.mod_small; lia.
Qed.

Lemma wrap64_bound (z : Z) : in_int64 (wrap64 z).
Proof.
  unfold in_int64, min_int64, max_int64, wrap64.
  pose proof (Z.mod_pos_bound (z + 2 ^ 63) (2 ^ 64) eq_refl). lia.
Qed.

(** A statement about every byte is checked by evaluating it on the 256 of
    them: the reflection principle used by the escaping proofs. *)
Definition all_bytes : list ascii :=
  map (fun n => ascii_of_nat n) (seq 0 256).

Lemma all_bytes_complete (c : ascii) : c ∈ all_bytes.
Proof.
  unfold all_bytes. apply list_elem_of_In, in_map_iff.
  exists (nat_of_ascii c). split; [apply ascii_nat_embedding|].
  apply in_seq. pose proof (nat_ascii_bounded c). lia.
Qed.

Lemma byte_cases (P : ascii -> bool) :
  forallb P all_bytes = true -> forall c, P c = true.
Proof.
  intros H c. rewrite forallb_forall in H.
  apply H. apply list_elem_of_In, all_bytes_complete.
Qed.

Lemma byte_impl (P Q : ascii -> bool) :
  forallb (fun c => negb (P c) || Q c) all_bytes = true ->
  forall c, P c = true -> Q c = true.
Proof.
  intros H c Hc. pose proof (byte_cases _ H c) as Hi. cbn in Hi. by rewrite Hc in Hi.
Qed.

Lemma forallb_impl {A} (P Q : A -> bool) (l : list A) :
  (forall x, x ∈ l -> P x = true -> Q x = true) -> forallb P l = true -> forallb Q l = true.
Proof.
  intros H. rewrite !forallb_forall. intros HP x Hx. apply H; [by apply list_elem_of_In|auto].
Qed.

#[export] Hint Resolve ord_bound beq_refl streq_refl : bytes.
#[export] Hint Rewrite chr_ord beq_refl streq_refl : bytes.
