(* ===== verification/GoStrings.v ===== *)
(** * The parts of Go's [strings] package the program uses

    Strings are byte sequences; separators are single bytes, as everywhere in
    the program and in the parts of [net/url] and [encoding/base64] below. *)

From S2P Require Import Prelude.

(** ** [strings] *)

(** [strings.HasPrefix(s, prefix)] *)
Fixpoint HasPrefix (s prefix : str) {struct prefix} : bool :=
  match prefix, s with
  | [], _ => true
  | p :: prefix', c :: s' => beq c p && HasPrefix s' prefix'
  | _ :: _, [] => false
  end.

(** [strings.HasSuffix(s, suffix)] *)
Definition HasSuffix (s suffix : str) : bool :=
  (length suffix <=? length s)%nat
  && streq (drop (length s - length suffix) s) suffix.

(** [strings.TrimSuffix(s, suffix)] *)
Definition TrimSuffix (s suffix : str) : str :=
  if HasSuffix s suffix then take (length s - length suffix) s else s.

(** [strings.TrimLeft] and [strings.TrimRight] for a one-byte cutset. *)
Fixpoint TrimLeft (s : str) (cut : ascii) : str :=
  match s with
  | c :: s' => if beq c cut then TrimLeft s' cut else s
  | [] => []
  end.
Definition TrimRight (s : str) (cut : ascii) : str := rev (TrimLeft (rev s) cut).

(** [strings.Contains(s, string(c))] *)
Definition Contains (s : str) (c : ascii) : bool := existsb (beq c) s.

(** [strings.Cut(s, string(sep))]: before, after, found. *)
Fixpoint Cut (s : str) (sep : ascii) : str * str * bool :=
  match s with
  | [] => ([], [], false)
  | c :: s' =>
      if beq c sep then ([], s', true)
      else let '(b, a, f) := Cut s' sep in
           if f then (c :: b, a, true) else (s, [], false)
  end.

(** The split at the last occurrence of [sep], as [strings.LastIndex] is used
    by [net/url]. *)
Definition CutLast (s : str) (sep : ascii) : option (str * str) :=
  let '(b, a, f) := Cut (rev s) sep in
  if f then Some (rev a, rev b) else None.

(** [strings.Count(s, string(c))] *)
Definition Count (s : str) (c : ascii) : nat := length (List.filter (beq c) s).

(** [strings.Split(s, string(sep))]: at least one segment. *)
Fixpoint Split (s : str) (sep : ascii) : list str :=
  match s with
  | [] => [[]]
  | c :: s' =>
      if beq c sep then [] :: Split s' sep
      else match Split s' sep with
           | seg :: segs => (c :: seg) :: segs
           | [] => [[c]]
           end
  end.

(** [strings.Join(elems, sep)] *)
Fixpoint Join (elems : list str) (sep : str) : str :=
  match elems with
  | [] => []
  | [e] => e
  | e :: es => e ++ sep ++ Join es sep
  end.

(** ASCII letters, digits and lower-casing ([strings.ToLower] on the scheme of
    a URL, which holds ASCII bytes only). *)
Definition in_range (lo hi c : ascii) : bool :=
  ((ord lo <=? ord c) && (ord c <=? ord hi))%Z.
Definition is_alpha (c : ascii) : bool :=
  in_range "a" "z" c || in_range "A" "Z" c.
Definition is_digit (c : ascii) : bool := in_range "0" "9" c.
Definition lower (c : ascii) : ascii :=
  if in_range "A" "Z" c then chr (ord c + 32) else c.
Definition ToLower (s : str) : str := map lower s.

(** ** Lemmas: prefixes, suffixes *)

Lemma HasPrefix_spec (s p : str) : HasPrefix s p = true <-> exists t, s = p ++ t.
Proof.
  revert s. induction p as [|a p IH]; intros s; simpl.
  - split; [by exists s|by destruct s].
  - destruct s as [|c s]; [split; [done|by intros [t ?]]|].
    simpl. rewrite andb_true_iff, beq_true, IH. split.
    + intros [-> [t ->]]. by exists t.
    + intros [t [= -> ->]]. split; [done|by exists t].
Qed.

Lemma HasPrefix_app (p t : str) : HasPrefix (p ++ t) p = true.
Proof. apply HasPrefix_spec. by exists t. Qed.

Lemma HasPrefix_one (x c : ascii) (t : str) : HasPrefix (x :: t) [c] = beq x c.
Proof. cbn. apply andb_true_r. Qed.

Lemma HasPrefix_length (s p : str) : HasPrefix s p = true -> length p <= length s.
Proof. intros [t ->]%HasPrefix_spec. rewrite length_app. lia. Qed.

Lemma HasPrefix_same_length (s p q : str) :
  HasPrefix s p = true -> HasPrefix s q = true -> length p = length q -> p = q.
Proof.
  intros [t ->]%HasPrefix_spec [u Hu]%HasPrefix_spec Hl.
  by apply app_inj_1 in Hu as [-> _].
Qed.

Lemma HasSuffix_spec (s p : str) : HasSuffix s p = true <-> exists t, s = t ++ p.
Proof.
  unfold HasSuffix. rewrite andb_true_iff, streq_true, Nat.leb_le. split.
  - intros [_ H]. exists (take (length s - length p) s).
    by rewrite <- H at 2; rewrite take_drop.
  - intros [t ->]. rewrite length_app. split; [lia|].
    replace (length t + length p - length p) with (length t) by lia.
    by rewrite drop_app_length.
Qed.

Lemma TrimSuffix_app (s p : str) : TrimSuffix (s ++ p) p = s.
Proof.
  unfold TrimSuffix.
  assert (HasSuffix (s ++ p) p = true) as -> by (apply HasSuffix_spec; by exists s).
  rewrite length_app. replace (length s + length p - length p) with (length s) by lia.
  by rewrite take_app_length.
Qed.

Lemma TrimSuffix_none (s p : str) : HasSuffix s p = false -> TrimSuffix s p = s.
Proof. unfold TrimSuffix. by intros ->. Qed.

Lemma TrimLeft_head (s : str) (c : ascii) : hd_error (TrimLeft s c) <> Some c.
Proof.
  induction s as [|a s IH]; simpl; [done|].
  destruct (beq a c) eqn:E; [done|]. simpl. apply beq_false in E. congruence.
Qed.

Lemma TrimRight_last (s : str) (c : ascii) : last (TrimRight s c) <> Some c.
Proof.
  unfold TrimRight.
  pose proof (TrimLeft_head (rev s) c) as H.
  destruct (TrimLeft (rev s) c) as [|a t]; simpl in *; [done|].
  by rewrite last_snoc.
Qed.

Lemma TrimLeft_split (s : str) (c : ascii) :
  exists n, s = replicate n c ++ TrimLeft s c.
Proof.
  induction s as [|a s [n IH]]; simpl; [by exists 0|].
  destruct (beq a c) eqn:E; [|by exists 0].
  apply beq_true in E as ->. exists (S n). simpl. by rewrite <- IH.
Qed.

Lemma rev_replicate {A} (n : nat) (c : A) : rev (replicate n c) = replicate n c.
Proof.
  induction n as [|n IH]; simpl; [done|]. rewrite IH.
  symmetry. apply replicate_cons_app.
Qed.

(** [TrimRight] removes a run of the cut byte and nothing else. *)
Lemma TrimRight_split (s : str) (c : ascii) :
  exists n, s = TrimRight s c ++ replicate n c.
Proof.
  destruct (TrimLeft_split (rev s) c) as [n Hn]. exists n.
  apply (f_equal (@rev ascii)) in Hn.
  by rewrite rev_involutive, rev_app_distr, rev_replicate in Hn.
Qed.

(** ** Lemmas: cutting *)

Lemma Contains_spec (s : str) (c : ascii) : Contains s c = true <-> c ∈ s.
Proof.
  unfold Contains. rewrite existsb_exists. split.
  - intros (x & Hin & ->%beq_true). by apply list_elem_of_In.
  - intros H. exists c. split; [by apply list_elem_of_In|apply beq_refl].
Qed.

Lemma Contains_false (s : str) (c : ascii) : Contains s c = false <-> c ∉ s.
Proof. rewrite <- Contains_spec. by destruct (Contains s c). Qed.

(** The three results of [Cut]: it splits at the first separator. *)
Lemma Cut_spec (s : str) (sep : ascii) :
  match Cut s sep with
  | (b, a, true) => s = b ++ sep :: a /\ sep ∉ b
  | (b, a, false) => b = s /\ a = [] /\ sep ∉ s
  end.
Proof.
  induction s as [|c s IH]; simpl; [repeat split; set_solver|].
  destruct (beq c sep) eqn:E.
  - apply beq_true in E as ->. split; [done|set_solver].
  - apply beq_false in E. destruct (Cut s sep) as [[b a] []].
    + destruct IH as [-> Hn]. split; [done|set_solver].
    + destruct IH as (-> & -> & Hn). repeat split; set_solver.
Qed.

Lemma Cut_app (b a : str) (sep : ascii) :
  sep ∉ b -> Cut (b ++ sep :: a) sep = (b, a, true).
Proof.
  intros Hb. induction b as [|c b IH]; simpl; [by rewrite beq_refl|].
  destruct (beq c sep) eqn:E; [apply beq_true in E; set_solver|].
  rewrite IH by set_solver. done.
Qed.

Lemma Cut_none (s : str) (sep : ascii) : sep ∉ s -> Cut s sep = (s, [], false).
Proof.
  intros H. pose proof (Cut_spec s sep) as Hs.
  destruct (Cut s sep) as [[b a] []]; [|by destruct Hs as (-> & -> & _)].
  destruct Hs as [-> _]. exfalso. set_solver.
Qed.

Lemma CutLast_none (s : str) (sep : ascii) : sep ∉ s -> CutLast s sep = None.
Proof.
  intros H. unfold CutLast. rewrite Cut_none; [done|].
  intros Hin. apply H. by rewrite list_elem_of_In, <- in_rev, <- list_elem_of_In in Hin.
Qed.

#[export] Hint Resolve HasPrefix_app : bytes.
