(* ===== verification/GoTime.v ===== *)
(** * Go's [time] package, as the program uses it

    A [time.Time] is its wall clock instant in nanoseconds since the zero Time
    (January 1, year 1, 00:00:00 UTC), so [time.Time{}] is [0]; a
    [time.Duration] is an [int64] number of nanoseconds, kept as a [Z].
    [Add] is exact: a Duration moves an instant by less than 293 years and the
    representation of an instant covers billions of them.  [Sub] saturates and
    the conversion of a Duration to seconds goes through [float64], which is
    written out. *)

From S2P Require Import Prelude.
#[local] Open Scope Z_scope.

Definition Time := Z.
Definition Duration := Z.

Definition zero_time : Time := 0.
Definition Millisecond : Duration := 1000000.
Definition Second : Duration := 1000000000.
Definition Minute : Duration := 60 * Second.
Definition Hour : Duration := 60 * Minute.

(** 1970-01-01T00:00:00Z as an instant of the model: [time.Unix(0, 0)]. *)
Definition unix_epoch : Time := 62135596800 * Second.

Definition IsZero (t : Time) : bool := t =? 0.
Definition After (t u : Time) : bool := u <? t.
Definition Before (t u : Time) : bool := t <? u.
Definition Add (t : Time) (d : Duration) : Time := t + d.

(** [t.Sub(u)] saturates at the bounds of a Duration. *)
Definition Sub (t u : Time) : Duration :=
  let d := t - u in
  if d <? min_int64 then min_int64
  else if max_int64 <? d then max_int64
  else d.

(** [t.Truncate(d)]: down to a multiple of [d] since the zero time. *)
Definition Truncate (t : Time) (d : Duration) : Time := if d <=? 0 then t else t - t mod d.

(** [d / 2] on [int64]: truncation towards zero. *)
Definition half (d : Duration) : Duration := Z.quot d 2.

(** [time.Duration(n) * time.Second] wraps around in 64 bits. *)
Definition seconds (n : Z) : Duration := wrap64 (n * Second).

(** ** [Duration.Seconds] and its truncation

    A [float64] between 2^-37 and 2^53 is an integer multiple of 2^-90; the
    model keeps that integer.  [fl p q] is the float nearest to the rational
    [p/q] (in units of 2^-90), ties to even: the 53 leading bits are kept. *)

Definition rne_div (p q : Z) : Z :=
  let d := p / q in
  let r := p mod q in
  if 2 * r <? q then d
  else if q <? 2 * r then d + 1
  else if Z.even d then d else d + 1.

Definition fl (p q : Z) : Z :=
  let k := Z.max 0 (Z.log2 (p / q) - 52) in
  rne_div p (q * 2 ^ k) * 2 ^ k.

Definition float_one : Z := 2 ^ 90.

(** [float64(sec) + float64(nsec)/1e9] for a non-negative duration. *)
Definition seconds_abs (d : Duration) : Z :=
  let sec := d / Second in
  let nsec := d mod Second in
  fl (sec * float_one + fl (nsec * float_one) 1000000000) 1.

(** [d.Seconds()]: both addends have the sign of [d], and rounding to nearest
    is symmetric. *)
Definition Seconds (d : Duration) : Z :=
  if d <? 0 then - seconds_abs (- d) else seconds_abs d.

(** [int64(f)] and [int(f)] of a float: truncation. *)
Definition float_to_int (f : Z) : Z := Z.quot f float_one.

(** ** Lemmas *)

Lemma Sub_bound (t u : Time) : in_int64 (Sub t u).
Proof.
  unfold Sub, in_int64, min_int64, max_int64.
  destruct (_ <? _) eqn:?; to_prop; [lia|]. destruct (_ <? _) eqn:?; to_prop; lia.
Qed.

Lemma Sub_exact (t u : Time) : in_int64 (t - u) -> Sub t u = t - u.
Proof.
  unfold Sub, in_int64. intros H.
  destruct (_ <? _) eqn:?; to_prop; [lia|]. destruct (_ <? _) eqn:?; to_prop; lia.
Qed.

Lemma Sub_mono (t t' u : Time) : t <= t' -> Sub t u <= Sub t' u.
Proof.
  intros H. unfold Sub, min_int64, max_int64.
  repeat (destruct (_ <? _) eqn:?; to_prop); lia.
Qed.

Lemma Truncate_bounds (t : Time) (d : Duration) : 0 < d -> t - d < Truncate t d <= t.
Proof.
  intros Hd. unfold Truncate. destruct (d <=? 0) eqn:E; to_prop; [lia|].
  pose proof (Z.mod_pos_bound t d Hd). lia.
Qed.

Lemma half_nonneg (d : Duration) : 0 <= d -> 0 <= half d <= d.
Proof. intros H. unfold half. rewrite Z.quot_div_nonneg by lia.
  split; [apply Z.div_pos; lia|]. apply Z.div_le_upper_bound; lia. Qed.

Lemma half_neg (d : Duration) : d <= 0 -> d <= half d <= 0.
Proof.
  intros H. unfold half. pose proof (half_nonneg (- d) ltac:(lia)) as Hn.
  unfold half in Hn. rewrite Z.quot_opp_l in Hn by lia. lia.
Qed.

Lemma seconds_exact (n : Z) :
  -9223372036 <= n <= 9223372036 -> seconds n = n * Second.
Proof.
  intros H. unfold seconds, Second in *. apply wrap64_id.
  unfold in_int64, min_int64, max_int64. lia.
Qed.

Lemma rne_div_le (p q n : Z) : 0 < q -> p <= n * q -> rne_div p q <= n.
Proof.
  intros Hq Hp. unfold rne_div.
  pose proof (Z.div_mod p q ltac:(lia)). pose proof (Z.mod_pos_bound p q Hq).
  destruct (Z.eq_dec (p / q) n) as [E|E].
  - assert (p mod q = 0) by nia.
    destruct (_ <? _) eqn:E1; to_prop; [lia|]. lia.
  - assert (p / q < n) by nia.
    destruct (_ <? _); [lia|]. destruct (_ <? _); [lia|]. destruct (Z.even _); lia.
Qed.

Lemma rne_div_ge (p q n : Z) : 0 < q -> n * q <= p -> n <= rne_div p q.
Proof.
  intros Hq Hp. unfold rne_div.
  assert (n <= p / q) by (apply Z.div_le_lower_bound; lia).
  destruct (_ <? _); [lia|]. destruct (_ <? _); [lia|]. destruct (Z.even _); lia.
Qed.

(** A value with at most 53 significant bits bounds the rounding of anything
    it bounds: rounding is monotone and the identity on such values. *)
Section Rounding.
Context (p q m j : Z).
Hypothesis Hq : 0 < q.
Hypothesis Hp : 0 <= p.
Hypothesis Hm : 0 <= m <= 2 ^ 53.
Hypothesis Hj : 0 <= j.

Let k := Z.max 0 (Z.log2 (p / q) - 52).

Lemma fl_grid : 0 < k -> 2 ^ (k + 52) * q <= p.
Proof.
  intros Hk. assert (k = Z.log2 (p / q) - 52) as -> by lia.
  replace (Z.log2 (p / q) - 52 + 52) with (Z.log2 (p / q)) by lia.
  assert (0 < p / q).
  { destruct (Z_lt_le_dec 0 (p / q)); [done|]. exfalso.
    pose proof (Z.log2_nonpos (p / q) l). lia. }
  pose proof (Z.log2_spec (p / q) ltac:(done)) as [H1 _].
  pose proof (Z.mul_div_le p q Hq). nia.
Qed.

(** [m * 2^j] is on the rounding grid unless it is below the binade. *)
Lemma fl_on_grid :
  (exists n, m * 2 ^ j = n * 2 ^ k) \/ (0 < k /\ m * 2 ^ j < 2 ^ (k + 52)).
Proof.
  destruct (Z_le_gt_dec k j) as [Hkj|Hkj].
  - left. exists (m * 2 ^ (j - k)).
    rewrite <- Z.mul_assoc, <- Z.pow_add_r by lia. f_equal. f_equal. lia.
  - assert (2 ^ (j + 53) <= 2 ^ (k + 52)) as Hpow by (apply Z.pow_le_mono_r; lia).
    rewrite Z.pow_add_r in Hpow by lia.
    destruct (Z.eq_dec (m * 2 ^ j) (2 ^ (k + 52))) as [E|E].
    + left. exists (2 ^ 52). rewrite E, Z.pow_add_r by lia. lia.
    + right. split; [lia|]. pose proof (Z.pow_pos_nonneg 2 j). nia.
Qed.

Lemma fl_le : p <= m * 2 ^ j * q -> fl p q <= m * 2 ^ j.
Proof.
  intros H. unfold fl. fold k.
  assert (0 < 2 ^ k) by (apply Z.pow_pos_nonneg; lia).
  destruct fl_on_grid as [[n En]|[Hk Hlt]]; [rewrite En in *|].
  - apply Z.mul_le_mono_nonneg_r; [lia|]. apply rne_div_le; [nia|]. lia.
  - pose proof (fl_grid Hk). nia.
Qed.

Lemma fl_ge : m * 2 ^ j * q <= p -> m * 2 ^ j <= fl p q.
Proof.
  intros H. unfold fl. fold k.
  assert (0 < 2 ^ k) by (apply Z.pow_pos_nonneg; lia).
  destruct fl_on_grid as [[n En]|[Hk Hlt]]; [rewrite En in *|].
  - apply Z.mul_le_mono_nonneg_r; [lia|]. apply rne_div_ge; [nia|]. lia.
  - pose proof (fl_grid Hk) as Hg. rewrite Z.pow_add_r in Hlt, Hg by lia.
    assert (2 ^ 52 <= rne_div p (q * 2 ^ k)) by (apply rne_div_ge; nia). nia.
Qed.
End Rounding.

(** The seconds of a non-negative duration, in units of 2^-90. *)
Lemma seconds_abs_bounds (d : Duration) :
  0 <= d <= 2 ^ 63 ->
  d / Second * float_one <= seconds_abs d <= (d / Second + 1) * float_one.
Proof.
  intros Hd. unfold seconds_abs, float_one, Second.
  set (s := d / 1000000000). set (n := d mod 1000000000).
  assert (0 <= s <= 9223372036) as Hs.
  { unfold s. split; [apply Z.div_pos; lia|].
    apply Z.lt_succ_r, Z.div_lt_upper_bound; lia. }
  assert (0 <= n < 1000000000) by (apply Z.mod_pos_bound; lia).
  assert (0 <= fl (n * 2 ^ 90) 1000000000 <= 1 * 2 ^ 90) as [Hf0 Hf1].
  { split.
    - apply (fl_ge (n * 2 ^ 90) 1000000000 0 0); lia.
    - apply fl_le; lia. }
  split.
  - apply fl_ge; lia.
  - apply fl_le; lia.
Qed.

(** Below 2^23 seconds (97 days) the conversion does not reach the next second. *)
Lemma seconds_abs_exact (d : Duration) :
  0 <= d < 2 ^ 23 * Second -> seconds_abs d < (d / Second + 1) * float_one.
Proof.
  intros Hd. unfold seconds_abs, float_one, Second in *.
  set (s := d / 1000000000). set (n := d mod 1000000000).
  assert (0 <= s < 2 ^ 23) as Hs.
  { unfold s. split; [apply Z.div_pos; lia|]. apply Z.div_lt_upper_bound; lia. }
  assert (0 <= n < 1000000000) by (apply Z.mod_pos_bound; lia).
  assert (fl (n * 2 ^ 90) 1000000000 <= (2 ^ 30 - 1) * 2 ^ 60) as Hf by (apply fl_le; lia).
  assert (0 <= fl (n * 2 ^ 90) 1000000000) as Hf0.
  { apply (fl_ge (n * 2 ^ 90) 1000000000 0 0); lia. }
  assert (fl (s * 2 ^ 90 + fl (n * 2 ^ 90) 1000000000) 1
          <= (s * 2 ^ 30 + 2 ^ 30 - 1) * 2 ^ 60) by (apply fl_le; lia).
  lia.
Qed.

Lemma float_to_int_between (x s : Z) :
  0 <= s -> s * float_one <= x < (s + 1) * float_one -> float_to_int x = s.
Proof.
  intros Hs H. unfold float_to_int, float_one in *. rewrite Z.quot_div_nonneg by lia.
  symmetry. apply Z.div_unique with (x - s * 2 ^ 90); lia.
Qed.

(** Truncating [d.Seconds()] gives the whole seconds of [d] or one more; it is
    exact below 97 days. *)
Lemma Seconds_trunc_bounds (d : Duration) :
  0 <= d <= max_int64 ->
  d / Second <= float_to_int (Seconds d) <= d / Second + 1.
Proof.
  intros Hd. unfold Seconds. destruct (d <? 0) eqn:E; to_prop; [lia|].
  unfold max_int64 in Hd. pose proof (seconds_abs_bounds d ltac:(lia)) as Hb.
  assert (0 <= d / Second) by (apply Z.div_pos; unfold Second; lia).
  unfold float_to_int, float_one in *. rewrite Z.quot_div_nonneg by lia. split.
  - apply Z.div_le_lower_bound; lia.
  - apply Z.lt_succ_r, Z.div_lt_upper_bound; lia.
Qed.

Lemma Seconds_trunc_exact (d : Duration) :
  0 <= d < 2 ^ 23 * Second -> float_to_int (Seconds d) = d / Second.
Proof.
  intros Hd. unfold Seconds. destruct (d <? 0) eqn:E; to_prop; [lia|].
  apply float_to_int_between; [apply Z.div_pos; unfold Second in *; lia|].
  split; [|by apply seconds_abs_exact].
  apply seconds_abs_bounds. unfold Second in *. lia.
Qed.

Lemma Seconds_trunc_neg (d : Duration) :
  min_int64 <= d < 0 -> float_to_int (Seconds d) <= 0.
Proof.
  intros Hd. unfold Seconds, min_int64 in *. destruct (d <? 0) eqn:E; to_prop; [|lia].
  pose proof (seconds_abs_bounds (- d) ltac:(lia)) as Hb.
  assert (0 <= - d / Second) by (apply Z.div_pos; unfold Second; lia).
  unfold float_to_int, float_one in *.
  rewrite Z.quot_opp_l by lia. rewrite Z.quot_div_nonneg by lia.
  pose proof (Z.div_pos (seconds_abs (- d)) (2 ^ 90)). lia.
Qed.

#[global] Arguments fl : simpl never.
#[global] Arguments Seconds : simpl never.
#[global] Arguments seconds : simpl never.
#[global] Arguments wrap64 : simpl never.
#[export] Hint Resolve Sub_bound : wonderwall.
