(* ===== verification/GoStrconv.v ===== *)
(** * [strconv]: decimal integers

    [Atoi] accepts an optional sign and decimal digits, and rejects what does
    not fit an [int]; [Itoa] prints an [int]. *)

From S2P Require Import Prelude GoStrings.
#[local] Open Scope Z_scope.

Definition digit_char (d : Z) : ascii := chr (48 + d).
Definition digit_value (c : ascii) : option Z :=
  if (48 <=? ord c) && (ord c <=? 57) then Some (ord c - 48) else None.

(** The decimal digits of [n], least significant last; the fuel is the number
    of digits at most produced. *)
Fixpoint digits (fuel : nat) (n : Z) (acc : str) : str :=
  match fuel with
  | O => acc
  | S fuel' =>
      let acc' := digit_char (n mod 10) :: acc in
      if n <? 10 then acc' else digits fuel' (n / 10) acc'
  end.

(** [strconv.Itoa]: 19 digits hold every absolute value of an [int]. *)
Definition Itoa (z : Z) : str :=
  if z <? 0 then "-"%char :: digits 19 (- z) [] else digits 19 z [].

Fixpoint digits_value (s : str) (acc : Z) : option Z :=
  match s with
  | [] => Some acc
  | c :: s' => d ← digit_value c; digits_value s' (acc * 10 + d)
  end.

(** [strconv.Atoi] *)
Definition Atoi (s : str) : option Z :=
  let '(negative, body) :=
    match s with
    | c :: s' => if beq c "-" then (true, s') else if beq c "+" then (false, s') else (false, s)
    | [] => (false, [])
    end in
  if is_empty body then None
  else
    n ← digits_value body 0;
    let z := if negative then - n else n in
    if (min_int64 <=? z) && (z <=? max_int64) then Some z else None.

(** ** Lemmas *)

Lemma digit_value_char (d : Z) : 0 <= d < 10 -> digit_value (digit_char d) = Some d.
Proof.
  intros H. unfold digit_value, digit_char. rewrite ord_chr by lia.
  rewrite (proj2 (Z.leb_le 48 _)), (proj2 (Z.leb_le _ 57)) by lia. cbn. f_equal. lia.
Qed.

Lemma digit_char_plain (d : Z) : 0 <= d < 10 -> forallb is_digit [digit_char d] = true.
Proof.
  intros H. assert (d ∈ [0; 1; 2; 3; 4; 5; 6; 7; 8; 9]) as Hd by (rewrite !elem_of_cons; lia).
  revert Hd. rewrite !elem_of_cons, elem_of_nil. intros Hd.
  repeat (destruct Hd as [-> | Hd]; [by vm_compute|]). done.
Qed.

Lemma digits_app (fuel : nat) (n : Z) (acc : str) : digits fuel n acc = digits fuel n [] ++ acc.
Proof.
  revert n acc. induction fuel as [|fuel IH]; intros n acc; [done|]. cbn [digits].
  destruct (n <? 10); [done|]. rewrite (IH _ (_ :: acc)), (IH _ [_]), <- app_assoc. done.
Qed.

Lemma digits_value_app (s t : str) (acc : Z) :
  digits_value (s ++ t) acc = (digits_value s acc ≫= digits_value t).
Proof.
  revert acc. induction s as [|c s IH]; intros acc; [done|]. cbn [app digits_value].
  destruct (digit_value c) as [d|]; [|done]. cbn [mbind option_bind]. apply IH.
Qed.

Lemma digits_spec (fuel : nat) (n : Z) :
  0 <= n < 10 ^ Z.of_nat fuel -> (0 < fuel)%nat ->
  digits_value (digits fuel n []) 0 = Some n
  /\ digits fuel n [] <> [] /\ forallb is_digit (digits fuel n []) = true.
Proof.
  revert n. induction fuel as [|fuel IH]; intros n Hn Hf; [lia|]. cbn [digits].
  pose proof (Z.mod_pos_bound n 10 eq_refl) as Hm.
  destruct (n <? 10) eqn:E.
  - apply Z.ltb_lt in E. rewrite Z.mod_small by lia.
    split; [|split; [done|by apply digit_char_plain; lia]].
    cbn [digits_value]. rewrite digit_value_char by lia. done.
  - apply Z.ltb_ge in E. destruct fuel as [|fuel]; [cbn in Hn; lia|].
    destruct (IH (n / 10)) as (Hv & Hne & Hd); [|lia|].
    { rewrite Nat2Z.inj_succ, Z.pow_succ_r in Hn by lia.
      split; [apply Z.div_pos; lia|]. apply Z.div_lt_upper_bound; lia. }
    rewrite digits_app. split; [|split].
    + rewrite digits_value_app, Hv. cbn [mbind option_bind digits_value].
      rewrite digit_value_char by lia. cbn. f_equal. pose proof (Z.div_mod n 10). lia.
    + by intros [_ H]%app_eq_nil.
    + rewrite forallb_app, Hd. by apply digit_char_plain.
Qed.

(** Printing an [int] and parsing it back gives the [int]. *)
Lemma Atoi_Itoa (z : Z) : in_int64 z -> Atoi (Itoa z) = Some z.
Proof.
  unfold in_int64. intros Hz. unfold Itoa, min_int64, max_int64 in *.
  destruct (z <? 0) eqn:E; to_prop.
  - destruct (digits_spec 19 (- z)) as (Hv & Hne & _); [cbn; lia|lia|].
    unfold Atoi. rewrite beq_refl. destruct (is_empty _) eqn:En.
    { by apply is_empty_true in En. }
    rewrite Hv. cbn [mbind option_bind]. rewrite Z.opp_involutive.
    by rewrite (proj2 (Z.leb_le min_int64 z)), (proj2 (Z.leb_le z max_int64))
      by (unfold min_int64, max_int64; lia).
  - destruct (digits_spec 19 z) as (Hv & Hne & Hd); [cbn; lia|lia|].
    destruct (digits 19 z []) as [|c s] eqn:Es; [done|]. cbn [forallb] in Hd.
    apply andb_true_iff in Hd as [Hc _]. unfold Atoi.
    assert (beq c "-" = false) as -> by (apply beq_false; by intros ->).
    assert (beq c "+" = false) as -> by (apply beq_false; by intros ->).
    cbn [is_empty]. rewrite Hv. cbn [mbind option_bind].
    by rewrite (proj2 (Z.leb_le min_int64 z)), (proj2 (Z.leb_le z max_int64))
      by (unfold min_int64, max_int64; lia).
Qed.

Lemma Atoi_range (s : str) (z : Z) : Atoi s = Some z -> in_int64 z.
Proof.
  unfold Atoi. destruct (match s with [] => _ | _ => _ end) as [neg body].
  destruct (is_empty body); [done|]. destruct (digits_value body 0) as [n|]; [|done].
  cbn [mbind option_bind]. destruct (_ && _)%bool eqn:Eb; [|done]. intros [= <-].
  unfold in_int64. by to_prop.
Qed.

(** A printed [int] goes through the cookie encoding unchanged. *)
Lemma Itoa_bytes (z : Z) :
  in_int64 z -> forallb (fun c => is_digit c || beq c "-") (Itoa z) = true.
Proof.
  unfold in_int64. intros Hz. unfold Itoa, min_int64, max_int64 in *.
  assert (H : forall n, 0 <= n <= 2 ^ 63 -> forallb (fun c => is_digit c || beq c "-") (digits 19 n []) = true).
  { intros n Hn. eapply forallb_impl; [|apply digits_spec; [cbn; lia|lia]]. by intros c _ ->. }
  destruct (z <? 0) eqn:E; to_prop.
  - cbn [forallb]. by rewrite H by lia.
  - apply H. lia.
Qed.

Example Itoa_values : map Itoa [0; 7; -3; 1200; min_int64; max_int64]
  = [$"0"; $"7"; $"-3"; $"1200"; $"-9223372036854775808"; $"9223372036854775807"].
Proof. vm_compute. reflexivity. Qed.
Example Atoi_values : map Atoi [$"12"; $"+5"; $"-0"; $""; $"-"; $"1a"; $"9223372036854775808"]
  = [Some 12; Some 5; Some 0; None; None; None; None].
Proof. vm_compute. reflexivity. Qed.
