(* ===== verification/GoBase64.v ===== *)
(** * Go's [encoding/base64]

    The two encodings the program uses: [StdEncoding] (padded) for ciphertexts
    and [RawURLEncoding] (unpadded, URL alphabet) for redirect targets and
    random identifiers.  The decoder is not strict: it skips CR and LF and
    ignores the unused low bits of the last quantum. *)

From S2P Require Import Prelude.
#[local] Open Scope Z_scope.

Record Encoding := { alphabet : str; padded : bool }.

Definition StdEncoding : Encoding :=
  {| alphabet := $"ABCDEFGHIJKLMNOPQRSTUVWXYZabcdefghijklmnopqrstuvwxyz0123456789+/";
     padded := true |}.
Definition RawURLEncoding : Encoding :=
  {| alphabet := $"ABCDEFGHIJKLMNOPQRSTUVWXYZabcdefghijklmnopqrstuvwxyz0123456789-_";
     padded := false |}.

(** The character of a sextet and the sextet of a character ([decodeMap]). *)
Definition enc_char (e : Encoding) (i : Z) : ascii :=
  nth (Z.to_nat i) (alphabet e) "="%char.

Fixpoint index_of (c : ascii) (s : str) (i : Z) : option Z :=
  match s with
  | [] => None
  | a :: s' => if beq a c then Some i else index_of c s' (i + 1)
  end.
Definition dec_char (e : Encoding) (c : ascii) : option Z := index_of c (alphabet e) 0.

(** The [i]-th sextet (from the left) of a 24-bit value. *)
Definition sextets (v : Z) : Z * Z * Z * Z :=
  (v / 262144, v / 4096 mod 64, v / 64 mod 64, v mod 64).
Definition value24 (a b c : Z) : Z := a * 65536 + b * 256 + c.

Definition padding (e : Encoding) (n : nat) : str :=
  if padded e then replicate n "="%char else [].

Fixpoint EncodeToString (e : Encoding) (s : str) : str :=
  match s with
  | [] => []
  | [a] =>
      let '(w, x, _, _) := sextets (value24 (ord a) 0 0) in
      [enc_char e w; enc_char e x] ++ padding e 2
  | [a; b] =>
      let '(w, x, y, _) := sextets (value24 (ord a) (ord b) 0) in
      [enc_char e w; enc_char e x; enc_char e y] ++ padding e 1
  | a :: b :: c :: s' =>
      let '(w, x, y, z) := sextets (value24 (ord a) (ord b) (ord c)) in
      [enc_char e w; enc_char e x; enc_char e y; enc_char e z] ++ EncodeToString e s'
  end.

(** The three bytes of four sextets. *)
Definition quantum (w x y z : Z) : Z := w * 262144 + x * 4096 + y * 64 + z.
Definition bytes24 (v : Z) : ascii * ascii * ascii :=
  (chr (v / 65536), chr (v / 256), chr v).

Definition newline (c : ascii) : bool := beq c (chr 10) || beq c (chr 13).
Definition is_pad (e : Encoding) (c : ascii) : bool := padded e && beq c "=".

(** [decodeQuantum] repeated, on a source without newlines. *)
Fixpoint decode_quanta (e : Encoding) (s : str) : option str :=
  match s with
  | [] => Some []
  | [c1; c2] =>
      if padded e then None
      else match dec_char e c1, dec_char e c2 with
           | Some w, Some x =>
               let '(a, _, _) := bytes24 (quantum w x 0 0) in Some [a]
           | _, _ => None
           end
  | [c1; c2; c3] =>
      if padded e then None
      else match dec_char e c1, dec_char e c2, dec_char e c3 with
           | Some w, Some x, Some y =>
               let '(a, b, _) := bytes24 (quantum w x y 0) in Some [a; b]
           | _, _, _ => None
           end
  | c1 :: c2 :: c3 :: c4 :: s' =>
      match dec_char e c1, dec_char e c2 with
      | Some w, Some x =>
          match dec_char e c3 with
          | Some y =>
              match dec_char e c4 with
              | Some z =>
                  let '(a, b, c) := bytes24 (quantum w x y z) in
                  (fun t => a :: b :: c :: t) <$> decode_quanta e s'
              | None =>
                  if is_pad e c4 && is_empty s'
                  then let '(a, b, _) := bytes24 (quantum w x y 0) in Some [a; b]
                  else None
              end
          | None =>
              if is_pad e c3 && is_pad e c4 && is_empty s'
              then let '(a, _, _) := bytes24 (quantum w x 0 0) in Some [a]
              else None
          end
      | _, _ => None
      end
  | _ => None
  end.

(** [enc.DecodeString(s)]; [None] is a [CorruptInputError]. *)
Definition DecodeString (e : Encoding) (s : str) : option str :=
  decode_quanta e (List.filter (fun c => negb (newline c)) s).

(** ** Lemmas *)

(** The encodings of the program: 64 characters, distinct, none of them the
    padding character or a newline. *)
Definition good_char (e : Encoding) (i : nat) : bool :=
  let c := enc_char e (Z.of_nat i) in
  bool_decide (dec_char e c = Some (Z.of_nat i)) && negb (newline c) && negb (beq c "=").
Class GoodEncoding (e : Encoding) : Prop :=
  good_encoding : forallb (good_char e) (seq 0 64) = true
                  /\ dec_char e "=" = None.

#[global] Instance StdEncoding_good : GoodEncoding StdEncoding.
Proof. split; vm_compute; reflexivity. Qed.
#[global] Instance RawURLEncoding_good : GoodEncoding RawURLEncoding.
Proof. split; vm_compute; reflexivity. Qed.

Section Roundtrip.
Context (e : Encoding) {He : GoodEncoding e}.

Lemma enc_char_good (i : Z) :
  0 <= i < 64 ->
  dec_char e (enc_char e i) = Some i /\ newline (enc_char e i) = false
  /\ beq (enc_char e i) "=" = false.
Proof.
  intros Hi. destruct He as [H _]. rewrite forallb_forall in H.
  specialize (H (Z.to_nat i)). unfold good_char in H.
  rewrite Z2Nat.id in H by lia. assert (In (Z.to_nat i) (seq 0 64)) as Hin.
  { apply in_seq. lia. }
  specialize (H Hin). to_prop. done.
Qed.

Lemma dec_enc_char (i : Z) : 0 <= i < 64 -> dec_char e (enc_char e i) = Some i.
Proof. intros Hi. by destruct (enc_char_good i Hi) as (? & _). Qed.

Lemma dec_pad : dec_char e "=" = None.
Proof. apply He. Qed.
End Roundtrip.

Lemma sextets_bound (a b c w x y z : Z) :
  0 <= a < 256 -> 0 <= b < 256 -> 0 <= c < 256 ->
  sextets (value24 a b c) = (w, x, y, z) ->
  0 <= w < 64 /\ 0 <= x < 64 /\ 0 <= y < 64 /\ 0 <= z < 64.
Proof.
  intros Ha Hb Hc [= <- <- <- <-]. unfold value24.
  split; [|split; [|split]]; [|apply Z.mod_pos_bound; lia..].
  split; [apply Z.div_pos; lia|]. apply Z.div_lt_upper_bound; lia.
Qed.

(** The sextets of a 24-bit value recompose it. *)
Lemma quantum_sextets (v w x y z : Z) :
  sextets v = (w, x, y, z) -> quantum w x y z = v.
Proof.
  intros [= <- <- <- <-]. unfold quantum.
  pose proof (Z.div_mod v 64 ltac:(lia)).
  pose proof (Z.div_mod (v / 64) 64 ltac:(lia)) as H1.
  pose proof (Z.div_mod (v / 4096) 64 ltac:(lia)) as H2.
  rewrite !Z.div_div in H1, H2 by lia. change (64 * 64) with 4096 in H1.
  change (4096 * 64) with 262144 in H2. lia.
Qed.

Lemma bytes24_value (a b c : ascii) :
  bytes24 (value24 (ord a) (ord b) (ord c)) = (a, b, c).
Proof.
  pose proof (ord_bound a). pose proof (ord_bound b). pose proof (ord_bound c).
  unfold bytes24, value24. f_equal; [f_equal|]; apply chr_eq.
  - rewrite <- (Z.mod_small (ord a) 256) at 2 by lia. f_equal.
    symmetry. apply Z.div_unique with (ord b * 256 + ord c); lia.
  - replace ((ord a * 65536 + ord b * 256 + ord c) / 256) with (ord b + ord a * 256).
    + by rewrite Z.mod_add, Z.mod_small by lia.
    + apply Z.div_unique with (ord c); lia.
  - replace (ord a * 65536 + ord b * 256 + ord c)
      with (ord c + (ord a * 256 + ord b) * 256) by lia.
    by rewrite Z.mod_add, Z.mod_small by lia.
Qed.

(** The last sextet of a short quantum is zero, so dropping it loses nothing. *)
Lemma sextets_tail1 (a w x y z : Z) :
  sextets (value24 a 0 0) = (w, x, y, z) -> y = 0 /\ z = 0.
Proof.
  intros [= <- <- <- <-]. unfold value24. split.
  - replace ((a * 65536 + 0 * 256 + 0) / 64) with (a * 1024); [|apply Z.div_unique with 0; lia].
    replace (a * 1024) with (a * 16 * 64) by lia. apply Z.mod_mul. lia.
  - replace (a * 65536 + 0 * 256 + 0) with (a * 1024 * 64) by lia. apply Z.mod_mul. lia.
Qed.

Lemma sextets_tail2 (a b w x y z : Z) :
  sextets (value24 a b 0) = (w, x, y, z) -> z = 0.
Proof.
  intros [= <- <- <- <-]. unfold value24.
  replace (a * 65536 + b * 256 + 0) with ((a * 1024 + b * 4) * 64) by lia.
  apply Z.mod_mul. lia.
Qed.

(** Induction on a byte string three bytes at a time. *)
Lemma list_ind3 {A} (P : list A -> Prop) :
  P [] -> (forall a, P [a]) -> (forall a b, P [a; b]) ->
  (forall a b c t, P t -> P (a :: b :: c :: t)) -> forall s, P s.
Proof.
  intros H0 H1 H2 H3. fix IH 1.
  intros [|a [|b [|c t]]]; [apply H0|apply H1|apply H2|apply H3, IH].
Qed.

Section RoundtripProof.
Context (e : Encoding) {He : GoodEncoding e}.

Lemma decode_quanta_encode (s : str) :
  decode_quanta e (EncodeToString e s) = Some s.
Proof.
  assert (H0 : 0 <= 0 < 256) by lia.
  induction s as [|a|a b|a b c t IH] using list_ind3; [done| | |].
  - cbn [EncodeToString]. destruct (sextets _) as [[[w x] y] z] eqn:E.
    pose proof (sextets_bound _ _ _ _ _ _ _ (ord_bound a) H0 H0 E) as (? & ? & _).
    destruct (sextets_tail1 _ _ _ _ _ E) as [-> ->].
    apply quantum_sextets in E. pose proof (bytes24_value a (chr 0) (chr 0)) as Hb.
    rewrite !(ord_chr 0) in Hb by lia. rewrite <- E in Hb.
    unfold padding. destruct (padded e) eqn:Hp; cbn -[bytes24];
      rewrite ?Hp, !(dec_enc_char e) by done; unfold is_pad; rewrite ?(dec_pad e), ?Hp, ?Hb;
      [|done]. by rewrite ?beq_refl.
  - cbn [EncodeToString]. destruct (sextets _) as [[[w x] y] z] eqn:E.
    pose proof (sextets_bound _ _ _ _ _ _ _ (ord_bound a) (ord_bound b) H0 E) as (? & ? & ? & _).
    pose proof (sextets_tail2 _ _ _ _ _ _ E) as ->.
    apply quantum_sextets in E. pose proof (bytes24_value a b (chr 0)) as Hb.
    rewrite !(ord_chr 0) in Hb by lia. rewrite <- E in Hb.
    unfold padding. destruct (padded e) eqn:Hp; cbn -[bytes24];
      rewrite ?Hp, !(dec_enc_char e) by done; unfold is_pad; rewrite ?(dec_pad e), ?Hp, ?Hb;
      [|done]. by rewrite ?beq_refl.
  - cbn [EncodeToString]. destruct (sextets _) as [[[w x] y] z] eqn:E.
    pose proof (sextets_bound _ _ _ _ _ _ _ (ord_bound a) (ord_bound b) (ord_bound c) E)
      as (? & ? & ? & ?).
    apply quantum_sextets in E. pose proof (bytes24_value a b c) as Hb. rewrite <- E in Hb.
    cbn [app decode_quanta]. rewrite !(dec_enc_char e) by done.
    by rewrite Hb, IH.
Qed.

Lemma padding_newline (n : nat) :
  Forall (fun c => newline c = false) (padding e n).
Proof.
  unfold padding. destruct (padded e); [|constructor].
  by apply Forall_replicate.
Qed.

Lemma encode_newline (s : str) :
  Forall (fun c => newline c = false) (EncodeToString e s).
Proof.
  assert (H0 : 0 <= 0 < 256) by lia.
  assert (Hc : forall i, 0 <= i < 64 -> newline (enc_char e i) = false).
  { intros i Hi. by destruct (enc_char_good e i Hi) as (_ & ? & _). }
  induction s as [|a|a b|a b c t IH] using list_ind3; cbn [EncodeToString app]; [by constructor| | |];
    destruct (sextets _) as [[[w x] y] z] eqn:E;
    apply sextets_bound in E as (? & ? & ? & ?); try apply ord_bound; try done;
    cbn [app]; repeat (apply Forall_cons_2; [by auto|]); auto using padding_newline.
Qed.

(** Decoding inverts encoding on every byte string. *)
Lemma Decode_Encode (s : str) : DecodeString e (EncodeToString e s) = Some s.
Proof.
  unfold DecodeString. rewrite <- decode_quanta_encode. f_equal.
  induction (encode_newline s) as [|c t Hc _ IH]; [done|].
  cbn. rewrite Hc. cbn. by rewrite IH.
Qed.

Lemma Encode_inj (s t : str) : EncodeToString e s = EncodeToString e t -> s = t.
Proof.
  intros H. apply (f_equal (DecodeString e)) in H. rewrite !Decode_Encode in H.
  by simplify_eq.
Qed.

Lemma Encode_nonempty (s : str) : s <> [] -> EncodeToString e s <> [].
Proof. intros Hs H. apply Hs, Encode_inj. by rewrite H. Qed.
End RoundtripProof.

(** What the 64 characters and the padding satisfy, the encoded text satisfies. *)
Lemma Encode_all (e : Encoding) (P : ascii -> bool) (s : str) :
  forallb (fun i => P (enc_char e (Z.of_nat i))) (seq 0 64) = true -> P "="%char = true ->
  forallb P (EncodeToString e s) = true.
Proof.
  intros Hall Hpad.
  assert (Hc : forall i, 0 <= i < 64 -> P (enc_char e i) = true).
  { intros i Hi. rewrite forallb_forall in Hall. specialize (Hall (Z.to_nat i)).
    rewrite Z2Nat.id in Hall by lia. apply Hall, in_seq. lia. }
  assert (H0 : 0 <= 0 < 256) by lia.
  induction s as [|a|a b|a b c t IH] using list_ind3; [done| | |];
    unfold EncodeToString; fold EncodeToString;
    destruct (sextets _) as [[[w x] y] z] eqn:Es;
    apply sextets_bound in Es as (? & ? & ? & ?); try apply ord_bound; try done;
    cbn [app padding forallb]; unfold padding; destruct (padded e); cbn [replicate forallb app];
    rewrite ?Hpad, !Hc by done; done.
Qed.

#[global] Arguments EncodeToString : simpl never.
#[global] Arguments DecodeString : simpl never.
#[export] Hint Rewrite @Decode_Encode using apply _ : bytes.
