(* ===== verification/GoUrl.v ===== *)
(** * Go's [net/url] and [path] packages, as the program uses them

    A translation of the parser, the printer, the escaping modes and the query
    values of the standard library the program is built with (Go 1.19), plus
    [path.Clean] and [path.Join].  [None] stands for the error results: the
    program never looks into them. *)

From S2P Require Import Prelude GoStrings.

(** ** Escaping *)

Inductive encoding :=
  encodePath | encodePathSegment | encodeHost | encodeZone
| encodeUserPassword | encodeQueryComponent | encodeFragment.

#[global] Instance encoding_eq_dec : EqDecision encoding.
Proof. solve_decision. Defined.

Definition is_host_mode (mode : encoding) : bool :=
  match mode with encodeHost | encodeZone => true | _ => false end.

Definition dquote : ascii := chr 34.

(** [shouldEscape(c, mode)] *)
Definition shouldEscape (c : ascii) (mode : encoding) : bool :=
  if is_alpha c || is_digit c then false
  else if is_host_mode mode && (Contains $"!$&'()*+,;=:[]<>" c || beq c dquote) then false
  else if Contains $"-_.~" c then false
  else if Contains $"$&+,/:;=?@" c && negb (is_host_mode mode) then
    match mode with
    | encodePath => beq c "?"
    | encodePathSegment => Contains $"/;,?" c
    | encodeUserPassword => Contains $"@/?:" c
    | encodeQueryComponent => true
    | _ => false
    end
  else if bool_decide (mode = encodeFragment) && Contains $"!()*" c then false
  else true.

Definition unhex (c : ascii) : option Z :=
  if in_range "0" "9" c then Some (ord c - 48)%Z
  else if in_range "a" "f" c then Some (ord c - 87)%Z
  else if in_range "A" "F" c then Some (ord c - 55)%Z
  else None.

Definition upperhex (n : Z) : ascii := nth (Z.to_nat n) $"0123456789ABCDEF" "0"%char.

Definition escape_byte (c : ascii) (mode : encoding) : str :=
  if shouldEscape c mode then
    if beq c " " && bool_decide (mode = encodeQueryComponent) then $"+"
    else ["%"%char; upperhex (ord c / 16); upperhex (ord c mod 16)]
  else [c].

(** [escape(s, mode)] *)
Fixpoint escape (s : str) (mode : encoding) : str :=
  match s with [] => [] | c :: s' => escape_byte c mode ++ escape s' mode end.

(** The checks of [unescape] on a percent-encoded byte [v]. *)
Definition pct_allowed (v : Z) (mode : encoding) : bool :=
  match mode with
  | encodeHost => (128 <=? v)%Z || (v =? 37)%Z
  | encodeZone => (v =? 37)%Z || (v =? 32)%Z || negb (shouldEscape (chr v) encodeHost)
  | _ => true
  end.

(** [unescape(s, mode)] *)
Fixpoint unescape (s : str) (mode : encoding) : option str :=
  match s with
  | [] => Some []
  | c :: s' =>
      if beq c "%" then
        match s' with
        | h1 :: h2 :: t =>
            match unhex h1, unhex h2 with
            | Some a, Some b =>
                let v := (a * 16 + b)%Z in
                if pct_allowed v mode then (cons (chr v)) <$> unescape t mode else None
            | _, _ => None
            end
        | _ => None
        end
      else if beq c "+" then
        (cons (if bool_decide (mode = encodeQueryComponent) then " "%char else "+"%char))
          <$> unescape s' mode
      else if is_host_mode mode && (ord c <? 128)%Z && shouldEscape c mode then None
      else (cons c) <$> unescape s' mode
  end.

Definition QueryEscape (s : str) : str := escape s encodeQueryComponent.
Definition QueryUnescape (s : str) : option str := unescape s encodeQueryComponent.

(** [validEncoded(s, mode)] *)
Definition validEncoded (s : str) (mode : encoding) : bool :=
  forallb (fun c => Contains $"!$&'()*+,;=:@[]%" c || negb (shouldEscape c mode)) s.

(** ** URLs *)

Record Userinfo := { username : str; password : str; passwordSet : bool }.

Record URL := mkURL {
  Scheme : str;
  Opaque : str;
  User : option Userinfo;
  Host : str;
  Path : str;
  RawPath : str;
  OmitHost : bool;
  ForceQuery : bool;
  RawQuery : str;
  Fragment : str;
  RawFragment : str }.

(** [new(url.URL)] *)
Definition empty_URL : URL :=
  mkURL [] [] None [] [] [] false false [] [] [].

Definition URL_with_path (u : URL) (p rp : str) : URL :=
  mkURL (Scheme u) (Opaque u) (User u) (Host u) p rp (OmitHost u) (ForceQuery u)
    (RawQuery u) (Fragment u) (RawFragment u).
Definition URL_with_query (u : URL) (q : str) : URL :=
  mkURL (Scheme u) (Opaque u) (User u) (Host u) (Path u) (RawPath u) (OmitHost u)
    (ForceQuery u) q (Fragment u) (RawFragment u).
Definition URL_with_fragment (u : URL) (f rf : str) : URL :=
  mkURL (Scheme u) (Opaque u) (User u) (Host u) (Path u) (RawPath u) (OmitHost u)
    (ForceQuery u) (RawQuery u) f rf.
(** [u.Scheme = ""; u.Host = ""] *)
Definition URL_strip_origin (u : URL) : URL :=
  mkURL [] (Opaque u) (User u) [] (Path u) (RawPath u) (OmitHost u) (ForceQuery u)
    (RawQuery u) (Fragment u) (RawFragment u).

(** The byte that ends a scheme, or the reason there is none. *)
Definition is_scheme_tail (c : ascii) : bool := is_digit c || Contains $"+-." c.

(** [getScheme], from position [i] on; [acc] is the scheme read so far.
    [None] is the "missing protocol scheme" error. *)
Fixpoint getScheme_from (first : bool) (acc s : str) (raw : str) : option (str * str) :=
  match s with
  | [] => Some ([], raw)
  | c :: s' =>
      if is_alpha c then getScheme_from false (acc ++ [c]) s' raw
      else if is_scheme_tail c then
        if first then Some ([], raw) else getScheme_from false (acc ++ [c]) s' raw
      else if beq c ":" then if first then None else Some (acc, s')
      else Some ([], raw)
  end.
Definition getScheme (raw : str) : option (str * str) := getScheme_from true [] raw raw.

Definition is_ctl (c : ascii) : bool := (ord c <? 32)%Z || (ord c =? 127)%Z.

Definition validOptionalPort (port : str) : bool :=
  match port with
  | [] => true
  | c :: ds => beq c ":" && forallb is_digit ds
  end.

(** [strings.Index(s, "%25")] *)
Fixpoint split_zone (s : str) : option (str * str) :=
  if HasPrefix s $"%25" then Some ([], s)
  else match s with
       | [] => None
       | c :: s' => (fun '(a, b) => (c :: a, b)) <$> split_zone s'
       end.

Definition parseHost (host : str) : option str :=
  if HasPrefix host $"[" then
    match CutLast host "]" with
    | None => None
    | Some (before, colonPort) =>
        if validOptionalPort colonPort then
          match split_zone before with
          | Some (h1, zone) =>
              h1' ← unescape h1 encodeHost;
              h2' ← unescape zone encodeZone;
              h3' ← unescape ("]"%char :: colonPort) encodeHost;
              Some (h1' ++ h2' ++ h3')
          | None => unescape host encodeHost
          end
        else None
    end
  else
    match CutLast host ":" with
    | Some (_, port) =>
        if validOptionalPort (":"%char :: port) then unescape host encodeHost else None
    | None => unescape host encodeHost
    end.

Definition validUserinfo (s : str) : bool :=
  forallb (fun c => is_alpha c || is_digit c || Contains $"-._:~!$&'()*+,;=%@" c) s.

Definition parseAuthority (authority : str) : option (option Userinfo * str) :=
  match CutLast authority "@" with
  | None => h ← parseHost authority; Some (None, h)
  | Some (userinfo, rest) =>
      h ← parseHost rest;
      if negb (validUserinfo userinfo) then None
      else let '(name, pass, has) := Cut userinfo ":" in
           name' ← unescape name encodeUserPassword;
           pass' ← unescape pass encodeUserPassword;
           Some (Some {| username := name'; password := pass'; passwordSet := has |}, h)
  end.

(** [u.setPath(p)] *)
Definition setPath (u : URL) (p : str) : option URL :=
  path ← unescape p encodePath;
  Some (URL_with_path u path (if streq p (escape path encodePath) then [] else p)).

(** [u.setFragment(f)] *)
Definition setFragment (u : URL) (f : str) : option URL :=
  frag ← unescape f encodeFragment;
  Some (URL_with_fragment u frag (if streq f (escape frag encodeFragment) then [] else f)).

(** The query part: [rest] with a lone trailing '?', or cut at the first one. *)
Definition split_query (rest : str) : str * str * bool :=
  if HasSuffix rest $"?" && (Count rest "?" =? 1)%nat
  then (TrimSuffix rest $"?", [], true)
  else let '(p, q, _) := Cut rest "?" in (p, q, false).

(** The authority part, when [rest] starts with "//". *)
Definition split_authority (rest : str) : str * str :=
  let authority := drop 2 rest in
  let '(b, a, f) := Cut authority "/" in
  if f then (b, "/"%char :: a) else (authority, []).

(** [parse(rawURL, false)] *)
Definition parse (raw : str) : option URL :=
  if existsb is_ctl raw then None
  else if streq raw $"*" then Some (URL_with_path empty_URL $"*" [])
  else
    '(scheme0, rest0) ← getScheme raw;
    let scheme := ToLower scheme0 in
    let '(rest, query, force) := split_query rest0 in
    let base := mkURL scheme [] None [] [] [] false force query [] [] in
    if negb (HasPrefix rest $"/") && negb (is_empty scheme) then
      Some (mkURL scheme rest None [] [] [] false force query [] [])
    else if negb (HasPrefix rest $"/") && Contains (Cut rest "/").1.1 ":" then None
    else if (negb (is_empty scheme) || negb (HasPrefix rest $"///")) && HasPrefix rest $"//" then
      let '(authority, rest') := split_authority rest in
      '(user, host) ← parseAuthority authority;
      setPath (mkURL scheme [] user host [] [] false force query [] []) rest'
    else if negb (is_empty scheme) && HasPrefix rest $"/" then
      setPath (mkURL scheme [] None [] [] [] true force query [] []) rest
    else setPath base rest.

(** [url.Parse(rawURL)] *)
Definition Parse (raw : str) : option URL :=
  let '(u, frag, _) := Cut raw "#" in
  url ← parse u;
  if is_empty frag then Some url else setFragment url frag.

(** [u.EscapedPath()] and [u.EscapedFragment()] *)
Definition EscapedPath (u : URL) : str :=
  let default := if streq (Path u) $"*" then $"*" else escape (Path u) encodePath in
  if negb (is_empty (RawPath u)) && validEncoded (RawPath u) encodePath then
    if bool_decide (unescape (RawPath u) encodePath = Some (Path u)) then RawPath u
    else default
  else default.

Definition EscapedFragment (u : URL) : str :=
  if negb (is_empty (RawFragment u)) && validEncoded (RawFragment u) encodeFragment then
    if bool_decide (unescape (RawFragment u) encodeFragment = Some (Fragment u))
    then RawFragment u
    else escape (Fragment u) encodeFragment
  else escape (Fragment u) encodeFragment.

Definition Userinfo_String (u : Userinfo) : str :=
  if is_empty (username u) && is_empty (password u) then []
  else escape (username u) encodeUserPassword ++
       (if passwordSet u then ":"%char :: escape (password u) encodeUserPassword else []).

(** What [String] writes before the path. *)
Definition url_prefix (u : URL) : str :=
  (if is_empty (Scheme u) then [] else Scheme u ++ $":") ++
  (if negb (is_empty (Scheme u)) || negb (is_empty (Host u)) || bool_decide (is_Some (User u))
   then if OmitHost u && is_empty (Host u) && bool_decide (User u = None) then []
        else (if negb (is_empty (Host u)) || negb (is_empty (Path u))
                 || bool_decide (is_Some (User u)) then $"//" else [])
             ++ (match User u with Some ui => Userinfo_String ui ++ $"@" | None => [] end)
             ++ escape (Host u) encodeHost
   else []).

(** What [String] writes after the path. *)
Definition url_suffix (u : URL) : str :=
  (if ForceQuery u || negb (is_empty (RawQuery u)) then "?"%char :: RawQuery u else []) ++
  (if is_empty (Fragment u) then [] else "#"%char :: EscapedFragment u).

(** [u.String()] *)
Definition URL_String (u : URL) : str :=
  (if is_empty (Opaque u) then
     let pre := url_prefix u in
     let path := EscapedPath u in
     let slash := if negb (is_empty path) && negb (HasPrefix path $"/")
                     && negb (is_empty (Host u)) then $"/" else [] in
     let dot := if is_empty (pre ++ slash) && Contains (Cut path "/").1.1 ":"
                then $"./" else [] in
     pre ++ slash ++ dot ++ path
   else (if is_empty (Scheme u) then [] else Scheme u ++ $":") ++ Opaque u)
  ++ url_suffix u.

(** ** Query values *)

(** [url.Values]: each key with its values in order. *)
Abbreviation Values := (gmap str (list str)).

Definition Values_Get (v : Values) (key : str) : str :=
  match v !! key with Some (x :: _) => x | _ => [] end.
Definition Values_Set (v : Values) (key value : str) : Values := <[key := [value]]> v.
Definition Values_Add (v : Values) (key value : str) : Values :=
  <[key := default [] (v !! key) ++ [value]]> v.

(** The byte-wise order of [sort.Strings]. *)
Fixpoint str_leb (s t : str) : bool :=
  match s, t with
  | [], _ => true
  | _ :: _, [] => false
  | a :: s', b :: t' => if beq a b then str_leb s' t' else (ord a <? ord b)%Z
  end.

(** [sort.Strings] on the keys, by insertion. *)
Fixpoint insert_sorted {A} (k : str) (a : A) (l : list (str * A)) : list (str * A) :=
  match l with
  | [] => [(k, a)]
  | (k', a') :: l' => if str_leb k k' then (k, a) :: l else (k', a') :: insert_sorted k a l'
  end.
Definition sort_entries {A} (l : list (str * A)) : list (str * A) :=
  foldr (fun '(k, a) acc => insert_sorted k a acc) [] l.

Definition encode_pair (k v : str) : str := QueryEscape k ++ "="%char :: QueryEscape v.

(** [v.Encode()] *)
Definition Values_Encode (v : Values) : str :=
  Join (sort_entries (map_to_list v) ≫= fun '(k, vs) => map (encode_pair k) vs) $"&".

(** [parseQuery]: malformed settings are dropped, as [URL.Query] does. *)
Definition parse_setting (m : Values) (setting : str) : Values :=
  if Contains setting ";" || is_empty setting then m
  else let '(k, v, _) := Cut setting "=" in
       match QueryUnescape k, QueryUnescape v with
       | Some k', Some v' => Values_Add m k' v'
       | _, _ => m
       end.
Definition ParseQuery (query : str) : Values :=
  fold_left parse_setting (Split query "&") ∅.

(** [u.Query()] *)
Definition URL_Query (u : URL) : Values := ParseQuery (RawQuery u).

(** ** [path.Clean] and [path.Join] *)

(** One path segment of [Clean]; [stack] is the output, last segment first. *)
Definition clean_step (rooted : bool) (stack : list str) (seg : str) : list str :=
  if is_empty seg || streq seg $"." then stack
  else if streq seg $".." then
    match stack with
    | top :: rest => if streq top $".." then seg :: stack else rest
    | [] => if rooted then [] else [seg]
    end
  else seg :: stack.

Definition Clean (path : str) : str :=
  if is_empty path then $"."
  else
    let rooted := HasPrefix path $"/" in
    let out := rev (fold_left (clean_step rooted) (Split path "/") []) in
    if rooted then "/"%char :: Join out $"/"
    else if is_empty out then $"." else Join out $"/".

(** [path.Join(elem...)] *)
Definition join_step (buf e : str) : str :=
  if is_empty buf then e else buf ++ "/"%char :: e.
Definition PathJoin (elems : list str) : str :=
  if forallb is_empty elems then [] else Clean (fold_left join_step elems []).

#[global] Arguments escape : simpl never.
#[global] Arguments shouldEscape : simpl never.
