(* ===== verification/GoUrlFacts.v ===== *)
(** * Facts about [net/url] and [path]

    Escaping round trips, the query values round trip, the shape of cleaned
    paths, and the conditions under which a printed URL is a local reference
    (no scheme, no authority). *)

From S2P Require Import Prelude GoStrings GoUrl.

(** ** Escaping *)

Definition is_query (mode : encoding) : bool := bool_decide (mode = encodeQueryComponent).

Definition escape_ok (mode : encoding) (c : ascii) : bool :=
  match escape_byte c mode with
  | [x] =>
      if beq x "+" then beq c (if is_query mode then " " else "+")%char
      else beq x c && negb (beq x "%")
  | [p; h1; h2] =>
      beq p "%" &&
      match unhex h1, unhex h2 with
      | Some a, Some b => (a * 16 + b =? ord c)%Z
      | _, _ => false
      end
  | _ => false
  end.

Lemma escape_ok_all (mode : encoding) (c : ascii) : escape_ok mode c = true.
Proof. destruct mode; apply byte_cases; vm_compute; reflexivity. Qed.

Lemma escape_cons (c : ascii) (s : str) (mode : encoding) :
  escape (c :: s) mode = escape_byte c mode ++ escape s mode.
Proof. done. Qed.

Lemma unescape_pct (h1 h2 : ascii) (a b : Z) (t : str) (mode : encoding) :
  is_host_mode mode = false -> unhex h1 = Some a -> unhex h2 = Some b ->
  unescape ("%"%char :: h1 :: h2 :: t) mode = cons (chr (a * 16 + b)) <$> unescape t mode.
Proof.
  intros Hm Ha Hb. cbn [unescape]. rewrite beq_refl, Ha, Hb.
  by destruct mode.
Qed.

Lemma unescape_escape_byte (c : ascii) (t : str) (mode : encoding) :
  is_host_mode mode = false ->
  unescape (escape_byte c mode ++ t) mode = cons c <$> unescape t mode.
Proof.
  intros Hm. pose proof (escape_ok_all mode c) as H. unfold escape_ok in H.
  destruct (escape_byte c mode) as [|x [|h1 [|h2 [|]]]]; try done.
  - cbn [app unescape]. destruct (beq x "+") eqn:E1.
    + apply beq_true in E1 as ->. apply beq_true in H as ->. unfold is_query.
      by destruct (bool_decide _).
    + to_prop. apply beq_true in H as ->. rewrite H0, Hm. done.
  - to_prop. apply beq_true in H as ->.
    destruct (unhex h1) eqn:E1; [|done]. destruct (unhex h2) eqn:E2; [|done].
    to_prop. cbn [app]. rewrite (unescape_pct _ _ _ _ _ _ Hm E1 E2).
    by rewrite H0, chr_ord.
Qed.

(** Unescaping inverts escaping, in every mode but the two host modes. *)
Lemma unescape_escape (s : str) (mode : encoding) :
  is_host_mode mode = false -> unescape (escape s mode) mode = Some s.
Proof.
  intros Hm. induction s as [|c s IH]; [done|].
  by rewrite escape_cons, unescape_escape_byte, IH.
Qed.

(** A check on the escapes of all bytes holds of every escaped string. *)
Lemma escape_forallb (P : ascii -> bool) (mode : encoding) :
  forallb (fun c => forallb P (escape_byte c mode)) all_bytes = true ->
  forall s, forallb P (escape s mode) = true.
Proof.
  intros H s. induction s as [|c s IH]; [done|].
  rewrite escape_cons, forallb_app, IH, (byte_cases _ H). done.
Qed.

Lemma forallb_not_in (P : ascii -> bool) (s : str) (c : ascii) :
  forallb P s = true -> P c = false -> c ∉ s.
Proof.
  intros H Hc Hin. rewrite forallb_forall in H.
  apply list_elem_of_In in Hin. apply H in Hin. congruence.
Qed.

Lemma existsb_ctl_forallb (s : str) :
  forallb (fun c => negb (is_ctl c)) s = true -> existsb is_ctl s = false.
Proof.
  induction s as [|c s IH]; [done|]. cbn. intros H. to_prop. by rewrite H, IH.
Qed.

(** Bytes that an escaped query component and an escaped path can hold. *)
Definition query_safe (c : ascii) : bool :=
  is_alpha c || is_digit c || Contains $"-_.~%+" c.
Definition path_safe (c : ascii) : bool :=
  negb (is_ctl c) && negb (Contains $"?# " c).

Lemma QueryEscape_safe (s : str) : forallb query_safe (QueryEscape s) = true.
Proof. apply escape_forallb. vm_compute. reflexivity. Qed.

Lemma escape_path_safe (s : str) : forallb path_safe (escape s encodePath) = true.
Proof. apply escape_forallb. vm_compute. reflexivity. Qed.

Lemma QueryEscape_not_in (s : str) (c : ascii) : query_safe c = false -> c ∉ QueryEscape s.
Proof. apply forallb_not_in, QueryEscape_safe. Qed.

(** A byte that is not escaped is its own escape. *)
Lemma escape_id (s : str) (mode : encoding) :
  forallb (fun c => negb (shouldEscape c mode)) s = true -> escape s mode = s.
Proof.
  induction s as [|c s IH]; [done|]. cbn. intros H. to_prop.
  rewrite escape_cons. unfold escape_byte. rewrite H. cbn. by rewrite IH.
Qed.

(** A string without '%' and '+' unescapes to itself. *)
Lemma unescape_id (s : str) (mode : encoding) :
  is_host_mode mode = false ->
  forallb (fun c => negb (beq c "%") && negb (beq c "+")) s = true ->
  unescape s mode = Some s.
Proof.
  intros Hm. induction s as [|c s IH]; [done|]. cbn [forallb unescape].
  intros H. to_prop. by rewrite H, H1, Hm, IH.
Qed.

(** The first byte: escaping and unescaping keep slashes and make none. *)
Lemma escape_byte_slash (c : ascii) (t : str) :
  escape_byte c encodePath = "/"%char :: t -> c = "/"%char /\ t = [].
Proof.
  pose (P := fun c => match escape_byte c encodePath with
                      | x :: t => negb (beq x "/") || (beq c "/" && is_empty t)
                      | [] => true end).
  assert (P c = true) as H by (apply byte_cases; vm_compute; reflexivity).
  unfold P in H. intros E. rewrite E in H. rewrite beq_refl in H. cbn in H.
  to_prop. by apply beq_true in H as ->; apply is_empty_true in H0.
Qed.

Lemma escape_path_slash (s t : str) :
  escape s encodePath = "/"%char :: t -> exists s', s = "/"%char :: s' /\ t = escape s' encodePath.
Proof.
  destruct s as [|c s]; [done|]. rewrite escape_cons.
  destruct (escape_byte c encodePath) as [|x u] eqn:E.
  - pose proof (escape_ok_all encodePath c) as H. unfold escape_ok in H. by rewrite E in H.
  - cbn. intros [= -> <-]. apply escape_byte_slash in E as [-> ->]. by exists s.
Qed.

Lemma unescape_slash (s p : str) :
  unescape ("/"%char :: s) encodePath = Some p ->
  exists p', p = "/"%char :: p' /\ unescape s encodePath = Some p'.
Proof.
  cbn [unescape]. change (beq "/" "%") with false. change (beq "/" "+") with false. cbn.
  destruct (unescape s encodePath); [|done]. cbn. intros [= <-]. by eexists.
Qed.

(** ** Query values *)

Lemma Values_Get_Add_fresh (m : Values) (k v : str) :
  m !! k = None -> Values_Add m k v = <[k := [v]]> m.
Proof. unfold Values_Add. by intros ->. Qed.

Lemma Values_Get_Add_more (m : Values) (k v : str) (ws : list str) :
  m !! k = Some ws -> Values_Add m k v = <[k := ws ++ [v]]> m.
Proof. unfold Values_Add. by intros ->. Qed.

Lemma Split_no_sep (s : str) (sep : ascii) : sep ∉ s -> Split s sep = [s].
Proof.
  induction s as [|c s IH]; [done|]. intros H. cbn [Split].
  destruct (beq c sep) eqn:E; [apply beq_true in E; set_solver|].
  rewrite IH by set_solver. done.
Qed.

Lemma Split_app (s t : str) (sep : ascii) :
  sep ∉ s -> Split (s ++ sep :: t) sep = s :: Split t sep.
Proof.
  induction s as [|c s IH]; intros H; cbn [app Split].
  - by rewrite beq_refl.
  - destruct (beq c sep) eqn:E; [apply beq_true in E; set_solver|].
    by rewrite IH by set_solver.
Qed.

Lemma Split_Join (l : list str) (sep : ascii) :
  l <> [] -> Forall (fun s => sep ∉ s) l -> Split (Join l [sep]) sep = l.
Proof.
  induction l as [|s l IH]; [done|]. intros _ [Hs Hl]%Forall_cons.
  destruct l as [|s' l].
  - cbn. by apply Split_no_sep.
  - change (Join (s :: s' :: l) [sep]) with (s ++ sep :: Join (s' :: l) [sep]).
    rewrite Split_app by done. by rewrite IH.
Qed.

(** The segments of a split hold no separator. *)
Lemma Split_segments (s : str) (sep : ascii) : Forall (fun t => sep ∉ t) (Split s sep).
Proof.
  induction s as [|c s IH]; cbn [Split].
  - constructor; [set_solver|constructor].
  - destruct (beq c sep) eqn:E.
    + constructor; [set_solver|done].
    + apply beq_false in E. destruct (Split s sep) as [|seg segs].
      * constructor; [set_solver|constructor].
      * apply Forall_cons in IH as [H1 H2]. constructor; [set_solver|done].
Qed.

Lemma encode_pair_no_amp (k v : str) : "&"%char ∉ encode_pair k v.
Proof.
  unfold encode_pair. rewrite elem_of_app, elem_of_cons.
  intros [H|[H|H]]; [|done|]; revert H; by apply QueryEscape_not_in.
Qed.

Lemma parse_setting_pair (m : Values) (k v : str) :
  parse_setting m (encode_pair k v) = Values_Add m k v.
Proof.
  unfold parse_setting.
  assert (Contains (encode_pair k v) ";" = false) as ->.
  { apply Contains_false. unfold encode_pair. rewrite elem_of_app, elem_of_cons.
    intros [H|[H|H]]; [|done|]; revert H; by apply QueryEscape_not_in. }
  assert (is_empty (encode_pair k v) = false) as ->.
  { apply is_empty_false. unfold encode_pair. by destruct (QueryEscape k). }
  cbn [orb]. unfold encode_pair. rewrite Cut_app by by apply QueryEscape_not_in.
  unfold QueryUnescape, QueryEscape. by rewrite !unescape_escape.
Qed.

Definition add_all (m : Values) (l : list (str * str)) : Values :=
  fold_left (fun m '(k, v) => Values_Add m k v) l m.

Lemma ParseQuery_pairs (l : list (str * str)) :
  l <> [] -> ParseQuery (Join (map (fun '(k, v) => encode_pair k v) l) $"&") = add_all ∅ l.
Proof.
  intros Hl. unfold ParseQuery, add_all. change $"&" with ["&"%char]. rewrite Split_Join.
  - clear Hl. generalize (∅ : Values). induction l as [|[k v] l IH]; intros m; [done|].
    cbn. rewrite parse_setting_pair. apply IH.
  - by destruct l.
  - apply Forall_map, Forall_true. intros [k v]. apply encode_pair_no_amp.
Qed.

Lemma add_all_app (m : Values) (l1 l2 : list (str * str)) :
  add_all m (l1 ++ l2) = add_all (add_all m l1) l2.
Proof. apply fold_left_app. Qed.

Lemma add_all_same_key (m : Values) (k : str) (ws vs : list str) :
  m !! k = Some ws -> add_all m (map (pair k) vs) = <[k := ws ++ vs]> m.
Proof.
  revert m ws. induction vs as [|v vs IH]; intros m ws Hm.
  - cbn. by rewrite app_nil_r, insert_id.
  - change (add_all m (map (pair k) (v :: vs)))
      with (add_all (Values_Add m k v) (map (pair k) vs)).
    rewrite (Values_Get_Add_more _ _ _ _ Hm).
    rewrite IH with (ws := ws ++ [v]) by apply lookup_insert_eq.
    by rewrite insert_insert_eq, <- app_assoc.
Qed.

Lemma add_all_fresh_key (m : Values) (k : str) (vs : list str) :
  m !! k = None -> vs <> [] -> add_all m (map (pair k) vs) = <[k := vs]> m.
Proof.
  intros Hm Hv. destruct vs as [|v vs]; [done|].
  change (add_all m (map (pair k) (v :: vs)))
    with (add_all (Values_Add m k v) (map (pair k) vs)).
  rewrite Values_Get_Add_fresh by done.
  rewrite add_all_same_key with (ws := [v]) by apply lookup_insert_eq.
  by rewrite insert_insert_eq.
Qed.

Definition entry_pairs (l : list (str * list str)) : list (str * str) :=
  l ≫= fun '(k, vs) => map (pair k) vs.

Lemma add_all_entries (l : list (str * list str)) (m : Values) :
  NoDup l.*1 -> Forall (fun e => e.2 <> []) l -> Forall (fun e => m !! e.1 = None) l ->
  add_all m (entry_pairs l) = list_to_map l ∪ m.
Proof.
  revert m. induction l as [|[k vs] l IH]; intros m Hnd Hne Hf.
  - cbn. by rewrite (left_id_L ∅ (∪)).
  - apply Forall_cons in Hne as [Hv Hne]. apply Forall_cons in Hf as [Hk Hf].
    cbn in Hnd. apply NoDup_cons in Hnd as [Hnk Hnd]. cbn in Hv, Hk.
    unfold entry_pairs. cbn [mbind list_bind]. rewrite add_all_app.
    rewrite add_all_fresh_key by done. fold (entry_pairs l). rewrite IH; [|done..|].
    + change (list_to_map ((k, vs) :: l)) with (<[k := vs]> (list_to_map l) : Values).
      rewrite <- insert_union_l, insert_union_r; [done|].
      by apply not_elem_of_list_to_map.
    + apply Forall_forall. intros e He. rewrite lookup_insert_ne.
      * rewrite Forall_forall in Hf. by apply Hf.
      * intros ->. apply Hnk. apply list_elem_of_fmap. by exists e.
Qed.

Lemma insert_sorted_perm {A} (k : str) (a : A) (l : list (str * A)) :
  insert_sorted k a l ≡ₚ (k, a) :: l.
Proof.
  induction l as [|[k' a'] l IH]; [done|]. cbn. destruct (str_leb k k'); [done|].
  rewrite IH. apply Permutation_swap.
Qed.

Lemma sort_entries_perm {A} (l : list (str * A)) : sort_entries l ≡ₚ l.
Proof.
  induction l as [|[k a] l IH]; [done|]. cbn. by rewrite insert_sorted_perm, IH.
Qed.

Lemma entry_pairs_encode (l : list (str * list str)) :
  (l ≫= fun '(k, vs) => map (encode_pair k) vs)
  = map (fun '(k, v) => encode_pair k v) (entry_pairs l).
Proof.
  induction l as [|[k vs] l IH]; [done|]. unfold entry_pairs. cbn.
  rewrite map_app, map_map, IH. done.
Qed.

Lemma parse_setting_nonempty (m : Values) (s : str) :
  map_Forall (fun _ vs => vs <> []) m -> map_Forall (fun _ vs => vs <> []) (parse_setting m s).
Proof.
  intros Hm. unfold parse_setting. destruct (_ || _); [done|].
  destruct (Cut s "=") as [[k v] b]. destruct (QueryUnescape k) as [k'|]; [|done].
  destruct (QueryUnescape v) as [v'|]; [|done]. apply map_Forall_insert_2; [|done].
  by destruct (default [] (m !! k')).
Qed.

Lemma ParseQuery_nonempty (q : str) : map_Forall (fun _ vs => vs <> []) (ParseQuery q).
Proof.
  unfold ParseQuery. assert (H : map_Forall (fun _ vs => vs <> []) (∅ : Values)) by apply map_Forall_empty.
  revert H. generalize (∅ : Values). induction (Split q "&") as [|s l IH]; intros m Hm; [done|].
  cbn. by apply IH, parse_setting_nonempty.
Qed.

Lemma Values_Add_nonempty (m : Values) (k v : str) :
  map_Forall (fun _ vs => vs <> []) m -> map_Forall (fun _ vs => vs <> []) (Values_Add m k v).
Proof.
  intros Hm. apply map_Forall_insert_2; [|done]. by destruct (default [] (m !! k)).
Qed.

(** Parsing a printed set of values gives it back: every [url.Values] whose
    keys have at least one value survives [Encode] and [Query]. *)
Lemma ParseQuery_Encode (v : Values) :
  map_Forall (fun _ vs => vs <> []) v -> ParseQuery (Values_Encode v) = v.
Proof.
  intros Hv. unfold Values_Encode. rewrite entry_pairs_encode.
  pose proof (sort_entries_perm (map_to_list v)) as Hp.
  assert (Forall (fun e => e.2 <> []) (sort_entries (map_to_list v))) as Hne.
  { rewrite Hp. apply Forall_forall. intros [k vs] He%elem_of_map_to_list.
    by apply (Hv k vs). }
  destruct (decide (entry_pairs (sort_entries (map_to_list v)) = [])) as [E|E].
  - assert (sort_entries (map_to_list v) = []) as Es.
    { destruct (sort_entries (map_to_list v)) as [|[k [|x vs]] l]; [done|..].
      - by apply Forall_cons in Hne as [? _].
      - done. }
    rewrite Es in Hp |- *. cbn. symmetry in Hp. apply Permutation_nil_r in Hp.
    by apply map_to_list_empty_iff in Hp as ->.
  - rewrite ParseQuery_pairs by done. rewrite add_all_entries; [|  |done|].
    + rewrite (right_id_L ∅ (∪)). rewrite <- (list_to_map_to_list v) at 2.
      apply list_to_map_proper; [|done]. rewrite Hp. apply NoDup_fst_map_to_list.
    + rewrite Hp. apply NoDup_fst_map_to_list.
    + apply Forall_true. intros e. apply lookup_empty.
Qed.

Lemma ParseQuery_single (k v : str) : ParseQuery (encode_pair k v) = <[k := [v]]> ∅.
Proof.
  change (encode_pair k v) with (Join (map (fun '(k, v) => encode_pair k v) [(k, v)]) $"&").
  rewrite ParseQuery_pairs by done. cbn. by apply Values_Get_Add_fresh.
Qed.

Lemma Values_Encode_single (k v : str) : Values_Encode (<[k := [v]]> ∅) = encode_pair k v.
Proof. unfold Values_Encode. rewrite insert_empty, map_to_list_singleton. done. Qed.

Lemma Values_Get_insert (m : Values) (k v : str) (vs : list str) :
  Values_Get (<[k := v :: vs]> m) k = v.
Proof. unfold Values_Get. by rewrite lookup_insert_eq. Qed.

(** ** Cleaned paths *)

Definition seg_ok (seg : str) : Prop := seg <> [] /\ "/"%char ∉ seg.

Lemma clean_step_ok (rooted : bool) (stack : list str) (seg : str) :
  "/"%char ∉ seg -> Forall seg_ok stack -> Forall seg_ok (clean_step rooted stack seg).
Proof.
  intros Hseg Hst. unfold clean_step.
  destruct (is_empty seg) eqn:E; [done|]. apply is_empty_false in E.
  cbn [orb]. destruct (streq seg $"."); [done|].
  destruct (streq seg $".."); [|by constructor].
  destruct stack as [|top rest].
  - destruct rooted; by repeat constructor.
  - destruct (streq top $".."); [by constructor|]. by apply Forall_cons in Hst as [_ ?].
Qed.

Lemma clean_fold_ok (rooted : bool) (segs stack : list str) :
  Forall (fun s => "/"%char ∉ s) segs -> Forall seg_ok stack ->
  Forall seg_ok (fold_left (clean_step rooted) segs stack).
Proof.
  revert stack. induction segs as [|seg segs IH]; intros stack Hs Hst; [done|].
  apply Forall_cons in Hs as [H1 H2]. cbn. apply IH; [done|]. by apply clean_step_ok.
Qed.

Lemma Join_no_slash_head (l : list str) :
  Forall seg_ok l -> HasPrefix (Join l $"/") $"/" = false.
Proof.
  intros Hl. destruct l as [|seg l]; [done|]. apply Forall_cons in Hl as [[Hne Hns] _].
  destruct seg as [|c seg]; [done|].
  assert (beq c "/" = false) as Hc by (apply beq_false; set_solver).
  destruct l; cbn; by rewrite Hc.
Qed.

(** A cleaned rooted path starts with exactly one slash. *)
Lemma Clean_rooted (p : str) :
  HasPrefix p $"/" = true ->
  exists t, Clean p = "/"%char :: t /\ HasPrefix t $"/" = false.
Proof.
  intros Hp. unfold Clean. destruct (is_empty p) eqn:E.
  - apply is_empty_true in E as ->. done.
  - rewrite Hp. eexists. split; [done|]. apply Join_no_slash_head.
    apply Forall_rev.
    apply clean_fold_ok; [apply Split_segments|constructor].
Qed.

Lemma PathJoin_rooted (prefix a : str) (rest : list str) :
  (prefix = [] \/ HasPrefix prefix $"/" = true) ->
  exists t, PathJoin (prefix :: ("/"%char :: a) :: rest) = "/"%char :: t
            /\ HasPrefix t $"/" = false.
Proof.
  intros Hp. unfold PathJoin.
  replace (forallb is_empty (prefix :: ("/"%char :: a) :: rest)) with false
    by (cbn; by destruct (is_empty prefix)).
  apply Clean_rooted. cbn [fold_left].
  assert (forall l b, HasPrefix b $"/" = true -> HasPrefix (fold_left join_step l b) $"/" = true) as Hfold.
  { induction l as [|e l IH]; intros b Hb; [done|]. cbn. apply IH.
    unfold join_step. destruct b as [|c b]; [done|]. exact Hb. }
  apply Hfold. unfold join_step. destruct Hp as [->|Hp]; [done|].
  destruct prefix as [|c prefix]; [done|exact Hp].
Qed.

(** ** Parsing and printing local references *)

Definition no_ctl_hash (s : str) : Prop :=
  existsb is_ctl s = false /\ "#"%char ∉ s.

Definition local_base (q : str) (force : bool) : URL :=
  mkURL [] [] None [] [] [] false force q [] [].

Lemma getScheme_slash (s : str) : getScheme ("/"%char :: s) = Some ([], "/"%char :: s).
Proof. done. Qed.

Lemma parse_rooted (s p q : str) (force : bool) :
  existsb is_ctl ("/"%char :: s) = false ->
  split_query ("/"%char :: s) = ("/"%char :: p, q, force) ->
  HasPrefix p $"/" = false \/ HasPrefix p $"//" = true ->
  parse ("/"%char :: s) = setPath (local_base q force) ("/"%char :: p).
Proof.
  intros Hctl Hq Hp. unfold parse. rewrite Hctl.
  replace (streq ("/"%char :: s) $"*") with false by (symmetry; by apply streq_false).
  rewrite getScheme_slash. cbn [mbind option_bind ToLower map]. rewrite Hq.
  replace (HasPrefix ("/"%char :: p) $"/") with true by (symmetry; by apply (HasPrefix_app $"/")).
  cbn [is_empty negb andb orb].
  replace (HasPrefix ("/"%char :: p) $"//") with (HasPrefix p $"/") by done.
  replace (HasPrefix ("/"%char :: p) $"///") with (HasPrefix p $"//") by done.
  destruct Hp as [-> | ->]; [by rewrite andb_false_r|done].
Qed.

Lemma Count_app (s t : str) (c : ascii) : Count (s ++ t) c = Count s c + Count t c.
Proof. unfold Count. by rewrite List.filter_app, length_app. Qed.

Lemma split_query_cut (p q : str) :
  "?"%char ∉ p -> q <> [] -> split_query (p ++ "?"%char :: q) = (p, q, false).
Proof.
  intros Hp Hne. unfold split_query.
  assert (HasSuffix (p ++ "?"%char :: q) $"?" && (Count (p ++ "?"%char :: q) "?" =? 1) = false) as ->.
  { apply andb_false_iff. destruct (HasSuffix _ _) eqn:E; [right|by left].
    apply HasSuffix_spec in E as [t Ht]. destruct q as [|c q _] using rev_ind; [done|].
    change $"?" with ["?"%char] in Ht. rewrite app_comm_cons, app_assoc in Ht.
    apply app_inj_tail in Ht as [_ ->]. rewrite Count_app, app_comm_cons, Count_app.
    apply Nat.eqb_neq. cbn. rewrite !beq_refl. cbn. lia. }
  by rewrite Cut_app.
Qed.

Lemma split_query_none (p : str) : "?"%char ∉ p -> split_query p = (p, [], false).
Proof.
  intros Hp. unfold split_query.
  assert (HasSuffix p $"?" = false) as ->.
  { destruct (HasSuffix _ _) eqn:E; [|done]. apply HasSuffix_spec in E as [t ->].
    set_solver. }
  cbn [andb]. by rewrite Cut_none.
Qed.

Lemma Parse_no_fragment (s : str) : "#"%char ∉ s -> Parse s = parse s.
Proof. intros H. unfold Parse. rewrite Cut_none by done. by destruct (parse s). Qed.

(** A rooted path that does not start with "//", with a query: parsed as such. *)
Lemma Parse_rooted_query (p q : str) :
  no_ctl_hash ("/"%char :: p ++ "?"%char :: q) ->
  "?"%char ∉ p -> "?"%char ∉ q -> q <> [] -> HasPrefix p $"/" = false ->
  Parse ("/"%char :: p ++ "?"%char :: q) = setPath (local_base q false) ("/"%char :: p).
Proof.
  intros [Hctl Hh] Hp Hq Hne Hs. rewrite Parse_no_fragment by done.
  apply parse_rooted; [done| |by left].
  rewrite app_comm_cons. apply split_query_cut; [set_solver|done].
Qed.

Lemma Parse_rooted_path (p : str) :
  no_ctl_hash ("/"%char :: p) -> "?"%char ∉ p -> HasPrefix p $"/" = false ->
  Parse ("/"%char :: p) = setPath (local_base [] false) ("/"%char :: p).
Proof.
  intros [Hctl Hh] Hp Hs. rewrite Parse_no_fragment by done.
  apply parse_rooted; [done| |by left]. apply split_query_none. set_solver.
Qed.

Lemma setPath_escape (u : URL) (p : str) :
  setPath u (escape p encodePath) = Some (URL_with_path u p []).
Proof. unfold setPath. rewrite unescape_escape by done. cbn. by rewrite streq_refl. Qed.

(** The path of [String]'s output for a URL without scheme, host and user. *)
Lemma URL_String_local (u : URL) :
  Scheme u = [] -> Opaque u = [] -> User u = None -> Host u = [] ->
  URL_String u =
    (if Contains (Cut (EscapedPath u) "/").1.1 ":" then $"./" else [])
      ++ EscapedPath u ++ url_suffix u.
Proof.
  intros Hs Ho Hu Hh. unfold URL_String, url_prefix. rewrite Hs, Ho, Hu, Hh. cbn.
  rewrite andb_false_r. cbn. by rewrite <- app_assoc.
Qed.

Lemma EscapedPath_rooted (u : URL) (p : str) :
  Path u = "/"%char :: p -> RawPath u = [] -> EscapedPath u = escape (Path u) encodePath.
Proof.
  intros Hp Hr. unfold EscapedPath. rewrite Hr. cbn.
  destruct (streq (Path u) _) eqn:E; [|done].
  apply streq_true in E. by rewrite Hp in E.
Qed.

(** An escaped path starts with a second slash only when the path does. *)
Lemma EscapedPath_slash (u : URL) (t : str) :
  EscapedPath u = "/"%char :: t ->
  exists p, Path u = "/"%char :: p /\
            (HasPrefix t $"/" = true -> HasPrefix p $"/" = true).
Proof.
  assert (Hdef : (if streq (Path u) $"*" then $"*" else escape (Path u) encodePath) = "/"%char :: t ->
     exists p, Path u = "/"%char :: p /\ (HasPrefix t $"/" = true -> HasPrefix p $"/" = true)).
  { destruct (streq (Path u) $"*"); [done|].
    intros (p & -> & ->)%escape_path_slash. exists p. split; [done|].
    destruct (escape p encodePath) as [|x e] eqn:E; [done|].
    change $"/" with ["/"%char]. rewrite HasPrefix_one. intros ->%beq_true.
    apply escape_path_slash in E as (p' & -> & _). done. }
  unfold EscapedPath. destruct (negb _ && _); [|done].
  destruct (bool_decide _) eqn:E; [|done]. apply bool_decide_eq_true in E.
  intros Hr. rewrite Hr in E. apply unescape_slash in E as (p & -> & Hp).
  exists p. split; [done|]. destruct t as [|x t]; [done|].
  change $"/" with ["/"%char]. rewrite HasPrefix_one. intros ->%beq_true.
  apply unescape_slash in Hp as (p' & -> & _). done.
Qed.

(** A local reference has no authority and no scheme: a user agent resolves
    it against the origin it is on. *)
Definition local_reference (s : str) : Prop :=
  HasPrefix s $"//" = false /\ getScheme s = Some ([], s).

(** Text whose first segment holds no colon, before a query, a fragment or the
    end, has no scheme. *)
Lemma getScheme_no_colon (first : bool) (acc s suf raw : str) :
  Contains (Cut s "/").1.1 ":" = false ->
  (suf = [] \/ exists c t, suf = c :: t /\ (c = "?"%char \/ c = "#"%char)) ->
  getScheme_from first acc (s ++ suf) raw = Some ([], raw).
Proof.
  intros Hs Hsuf. revert first acc Hs. induction s as [|c s IH]; intros first acc Hs.
  - destruct Hsuf as [->|(c & t & -> & [-> | ->])]; done.
  - cbn [app getScheme_from]. cbn [Cut] in Hs. destruct (beq c "/") eqn:E.
    + by apply beq_true in E as ->.
    + assert (beq c ":" = false /\ Contains (Cut s "/").1.1 ":" = false) as [Hc Hs'].
      { pose proof (Cut_spec s "/") as Hcut.
        destruct (Cut s "/") as [[b a] []]; cbn [fst snd Contains existsb] in Hs |- *.
        - unfold Contains in Hs. cbn in Hs. to_prop. split; [|done].
          apply beq_false in H. by apply beq_false.
        - destruct Hcut as (-> & -> & _). unfold Contains in Hs. cbn in Hs. to_prop.
          split; [|done]. apply beq_false in H. by apply beq_false. }
      rewrite Hc. destruct (is_alpha c); [by apply IH|].
      destruct (is_scheme_tail c); [|done]. destruct first; [done|by apply IH].
Qed.

Lemma url_suffix_head (u : URL) :
  url_suffix u = [] \/ exists c t, url_suffix u = c :: t /\ (c = "?"%char \/ c = "#"%char).
Proof.
  unfold url_suffix. destruct (ForceQuery u || _); cbn; [right; eauto|].
  destruct (is_empty (Fragment u)); [by left|right; eauto].
Qed.

(** A printed URL without scheme, host, user and opaque part is a local
    reference unless its path starts with two slashes. *)
Lemma URL_String_local_reference (u : URL) :
  Scheme u = [] -> Opaque u = [] -> User u = None -> Host u = [] ->
  HasPrefix (Path u) $"//" = false -> local_reference (URL_String u).
Proof.
  intros Hs Ho Hu Hh Hp. rewrite URL_String_local by done.
  destruct (Contains (Cut (EscapedPath u) "/").1.1 ":") eqn:E; [split; done|].
  cbn [app]. split; [|by apply getScheme_no_colon; [|apply url_suffix_head]].
  destruct (EscapedPath u) as [|c t] eqn:Ee.
  - cbn [app]. destruct (url_suffix_head u) as [->|(c & t & -> & [-> | ->])]; done.
  - cbn [app HasPrefix String.list_ascii_of_string].
    destruct (beq c "/") eqn:Ec; [|done].
    apply beq_true in Ec as ->. apply EscapedPath_slash in Ee as (p & Epath & Himp).
    rewrite Epath in Hp. change (HasPrefix p $"/" = false) in Hp.
    destruct t as [|x t]; cbn [app].
    + destruct (url_suffix_head u) as [->|(c' & t' & -> & [-> | ->])]; done.
    + change $"/" with ["/"%char] in *. rewrite HasPrefix_one in Himp.
      destruct (beq x "/") eqn:Ex; [|done]. rewrite Himp in Hp; done.
Qed.

(** ** A URL up to its query *)

(** The scheme is found before the query, whatever the query is. *)
Lemma getScheme_query (b : str) : "?"%char ∉ b ->
  forall first acc pre, "?"%char ∉ pre ->
  (forall q, getScheme_from first acc (b ++ "?"%char :: q) (pre ++ b ++ "?"%char :: q) = None)
  \/ exists scheme rest, "?"%char ∉ rest /\
       forall q, getScheme_from first acc (b ++ "?"%char :: q) (pre ++ b ++ "?"%char :: q)
                 = Some (scheme, rest ++ "?"%char :: q).
Proof.
  induction b as [|c b IH]; intros Hb first acc pre Hpre.
  - right. exists (@nil ascii), pre. by split.
  - assert (Hraw : forall q, pre ++ (c :: b) ++ "?"%char :: q = (pre ++ [c]) ++ b ++ "?"%char :: q)
      by (intros q; by rewrite <- app_assoc).
    assert (Hstop : exists scheme rest, "?"%char ∉ rest /\ forall q,
              Some (@nil ascii, pre ++ (c :: b) ++ "?"%char :: q)
              = Some (scheme, rest ++ "?"%char :: q)).
    { exists (@nil ascii), (pre ++ c :: b). split; [set_solver|]. intros q. by rewrite <- app_assoc. }
    cbn [app getScheme_from]. cbn [app] in Hraw, Hstop.
    destruct (is_alpha c).
    { setoid_rewrite Hraw. apply IH; set_solver. }
    destruct (is_scheme_tail c).
    { destruct first; [by right|]. setoid_rewrite Hraw. apply IH; set_solver. }
    destruct (beq c ":"); [|by right]. destruct first; [by left|right].
    exists acc, b. split; [set_solver|done].
Qed.

(** What [parse] does after scheme and query are cut off. *)
Definition parse_rest (scheme rest query : str) : option URL :=
  let base := mkURL scheme [] None [] [] [] false false query [] [] in
  if negb (HasPrefix rest $"/") && negb (is_empty scheme) then
    Some (mkURL scheme rest None [] [] [] false false query [] [])
  else if negb (HasPrefix rest $"/") && Contains (Cut rest "/").1.1 ":" then None
  else if (negb (is_empty scheme) || negb (HasPrefix rest $"///")) && HasPrefix rest $"//" then
    let '(authority, rest') := split_authority rest in
    '(user, host) ← parseAuthority authority;
    setPath (mkURL scheme [] user host [] [] false false query [] []) rest'
  else if negb (is_empty scheme) && HasPrefix rest $"/" then
    setPath (mkURL scheme [] None [] [] [] true false query [] []) rest
  else setPath base rest.

Lemma setPath_query (u : URL) (p q : str) :
  setPath (URL_with_query u q) p = (fun u => URL_with_query u q) <$> setPath u p.
Proof. unfold setPath. by destruct (unescape p encodePath). Qed.

Lemma parse_rest_query (scheme rest q : str) :
  parse_rest scheme rest q = (fun u => URL_with_query u q) <$> parse_rest scheme rest [].
Proof.
  unfold parse_rest. do 2 (destruct (_ && _); [done|]).
  destruct (_ && _).
  - destruct (split_authority rest) as [authority rest'].
    destruct (parseAuthority authority) as [[user host]|]; [|done]. cbn.
    by rewrite <- setPath_query.
  - destruct (_ && _); by rewrite <- setPath_query.
Qed.

(** Parsing reads the query of a URL, and nothing else depends on it. *)
Lemma Parse_query (b : str) : "?"%char ∉ b -> "#"%char ∉ b ->
  exists o, forall q, q <> [] -> "#"%char ∉ q -> existsb is_ctl q = false ->
    Parse (b ++ "?"%char :: q) = (fun u => URL_with_query u q) <$> o.
Proof.
  intros Hq Hf.
  assert (exists o, forall q, q <> [] -> existsb is_ctl q = false ->
            parse (b ++ "?"%char :: q) = (fun u => URL_with_query u q) <$> o) as [o Ho].
  { unfold parse. setoid_rewrite existsb_app. cbn [existsb].
    destruct (existsb is_ctl b) eqn:Ec; [by exists None|].
    destruct (getScheme_query b Hq true [] [] (not_elem_of_nil _)) as [Hn|(sc & rest & Hr & Hs)].
    - exists None. intros q Hne Hctl. rewrite Hctl. cbn [orb].
      rewrite (proj2 (streq_false _ _)) by (by destruct b as [|? [|? ?]]; intros [=]).
      unfold getScheme. by rewrite (Hn q : getScheme_from true [] _ (b ++ _) = _).
    - exists (parse_rest (ToLower sc) rest []). intros q Hne Hctl. rewrite Hctl. cbn [orb].
      rewrite (proj2 (streq_false _ _)) by (by destruct b as [|? [|? ?]]; intros [=]).
      unfold getScheme. rewrite (Hs q : getScheme_from true [] _ (b ++ _) = _).
      cbn [mbind option_bind]. rewrite split_query_cut by done. cbv zeta.
      rewrite <- parse_rest_query. done. }
  exists o. intros q Hne Hh Hctl. unfold Parse.
  rewrite Cut_none by (rewrite elem_of_app, elem_of_cons; intros [?|[[=]|?]]; done).
  rewrite Ho by done. by destruct o.
Qed.

Lemma Parse_no_ctl (s : str) : "#"%char ∉ s -> is_Some (Parse s) -> existsb is_ctl s = false.
Proof.
  intros Hs. unfold Parse. rewrite Cut_none by done. unfold parse.
  destruct (existsb is_ctl s); [|done]. by intros [? ?].
Qed.
