(* ===== verification/GoUtf8.v ===== *)
(** * [unicode/utf8], for [encoding/json]

    Go's decoder accepts exactly the well-formed encodings: no overlong form,
    no surrogate, nothing above U+10FFFF.  An ill-formed byte counts as one
    replacement rune. *)

From S2P Require Import Prelude.
#[local] Open Scope Z_scope.

Definition RuneError : Z := 65533.
Definition MaxRune : Z := 1114111.
Definition is_surrogate (r : Z) : bool := (55296 <=? r) && (r <=? 57343).

Definition byte_in (lo hi : Z) (c : ascii) : bool := (lo <=? ord c) && (ord c <=? hi).
Definition low6 (c : ascii) : Z := ord c - 128.

(** [utf8.DecodeRune]: the rune and its width; [None] where Go returns
    [RuneError] for an empty or ill-formed input. *)
Definition decode_rune (s : str) : option (Z * nat) :=
  match s with
  | [] => None
  | a :: s1 =>
      let x := ord a in
      if x <? 128 then Some (x, 1%nat)
      else if x <? 194 then None
      else if x <? 224 then
        match s1 with
        | b :: _ => if byte_in 128 191 b then Some ((x - 192) * 64 + low6 b, 2%nat) else None
        | _ => None
        end
      else if x <? 240 then
        match s1 with
        | b :: c :: _ =>
            if byte_in (if x =? 224 then 160 else 128) (if x =? 237 then 159 else 191) b
               && byte_in 128 191 c
            then Some ((x - 224) * 4096 + low6 b * 64 + low6 c, 3%nat) else None
        | _ => None
        end
      else if x <? 245 then
        match s1 with
        | b :: c :: d :: _ =>
            if byte_in (if x =? 240 then 144 else 128) (if x =? 244 then 143 else 191) b
               && byte_in 128 191 c && byte_in 128 191 d
            then Some ((x - 240) * 262144 + low6 b * 4096 + low6 c * 64 + low6 d, 4%nat) else None
        | _ => None
        end
      else None
  end.

(** [utf8.EncodeRune] *)
Definition encode_valid (r : Z) : str :=
  if r <? 128 then [chr r]
  else if r <? 2048 then [chr (192 + r / 64); chr (128 + r mod 64)]
  else if r <? 65536 then [chr (224 + r / 4096); chr (128 + r / 64 mod 64); chr (128 + r mod 64)]
  else [chr (240 + r / 262144); chr (128 + r / 4096 mod 64); chr (128 + r / 64 mod 64);
        chr (128 + r mod 64)].
Definition encode_rune (r : Z) : str :=
  encode_valid (if (r <? 0) || (MaxRune <? r) || is_surrogate r then RuneError else r).

(** [for _, r := range s]: the runes of a string with the bytes they cover. *)
Fixpoint runes_fuel (fuel : nat) (s : str) : list (option Z * str) :=
  match fuel, s with
  | S f, a :: s' =>
      match decode_rune s with
      | Some (r, n) => (Some r, take n s) :: runes_fuel f (drop n s)
      | None => (None, [a]) :: runes_fuel f s'
      end
  | _, _ => []
  end.
Definition runes (s : str) : list (option Z * str) := runes_fuel (length s) s.

(** [utf8.ValidString] *)
Definition valid_utf8 (s : str) : bool := forallb (fun c => bool_decide (is_Some c.1)) (runes s).

(** The string with every ill-formed byte replaced by U+FFFD. *)
Definition to_valid (s : str) : str :=
  concat (map (fun c : option Z * str => if c.1 is Some _ then c.2 else encode_rune RuneError) (runes s)).

(** ** Lemmas *)

Lemma decode_rune_width (s : str) (r : Z) (n : nat) :
  decode_rune s = Some (r, n) -> (1 <= n <= 4)%nat /\ (n <= length s)%nat.
Proof.
  unfold decode_rune. intros H.
  repeat case_hyp H; try discriminate; injection H as <- <-; cbn; lia.
Qed.

Lemma decode_rune_take (s t : str) (r : Z) (n : nat) :
  decode_rune s = Some (r, n) -> decode_rune (take n s ++ t) = Some (r, n).
Proof.
  unfold decode_rune. intros H.
  repeat case_hyp H; try discriminate; injection H as <- <-; cbn [take app];
    repeat match goal with E : ?b = _ |- context [?b] => rewrite E end; done.
Qed.

Lemma decode_rune_app (s t : str) (r : Z) (n : nat) :
  decode_rune s = Some (r, n) -> decode_rune (s ++ t) = Some (r, n).
Proof.
  intros H. rewrite <- (take_drop n s), <- app_assoc. by apply decode_rune_take.
Qed.

Lemma byte_in_spec (lo hi : Z) (c : ascii) : byte_in lo hi c = true <-> lo <= ord c <= hi.
Proof. unfold byte_in. rewrite andb_true_iff, !Z.leb_le. lia. Qed.

(** The shapes [encode_rune] produces, for the runes of each width. *)
Ltac decide_tests :=
  repeat match goal with
  | |- context [?a <? ?b] => destruct (Z.ltb_spec a b); try lia; cbn [orb andb]
  | |- context [?a <=? ?b] => destruct (Z.leb_spec a b); try lia; cbn [orb andb]
  end.

Lemma encode_rune_valid (r : Z) :
  0 <= r <= 1114111 -> r < 55296 \/ 57344 <= r -> encode_rune r = encode_valid r.
Proof.
  intros H1 H2. unfold encode_rune, is_surrogate, MaxRune.
  destruct (Z.ltb_spec r 0), (Z.ltb_spec 1114111 r), (Z.leb_spec 55296 r), (Z.leb_spec r 57343);
    (done || lia).
Qed.

Lemma encode_rune_2 (x b : Z) :
  194 <= x < 224 -> 128 <= b < 192 -> encode_rune ((x - 192) * 64 + (b - 128)) = [chr x; chr b].
Proof.
  intros Hx Hb. set (r := (x - 192) * 64 + (b - 128)).
  assert (r / 64 = x - 192 /\ r mod 64 = b - 128) as [E1 E2] by (unfold r; Z.to_euclidean_division_equations; lia).
  assert (128 <= r < 2048) by (unfold r; lia).
  rewrite encode_rune_valid by lia. unfold encode_valid. decide_tests. rewrite E1, E2. repeat f_equal; lia.
Qed.

Lemma encode_rune_3 (x b c : Z) :
  224 <= x < 240 -> (if x =? 224 then 160 else 128) <= b <= (if x =? 237 then 159 else 191) ->
  128 <= c < 192 ->
  encode_rune ((x - 224) * 4096 + (b - 128) * 64 + (c - 128)) = [chr x; chr b; chr c].
Proof.
  intros Hx Hb Hc. set (r := (x - 224) * 4096 + (b - 128) * 64 + (c - 128)).
  assert (128 <= b < 192) by (destruct (x =? 224), (x =? 237); lia).
  assert (r / 4096 = x - 224 /\ r / 64 mod 64 = b - 128 /\ r mod 64 = c - 128) as (E1 & E2 & E3)
    by (unfold r; Z.to_euclidean_division_equations; lia).
  assert (2048 <= r < 65536) by (unfold r; destruct (Z.eqb_spec x 224); lia).
  assert (r < 55296 \/ 57344 <= r) by (unfold r; destruct (Z.eqb_spec x 237); lia).
  rewrite encode_rune_valid by lia. unfold encode_valid. decide_tests; rewrite E1, E2, E3; repeat f_equal; lia.
Qed.

Lemma encode_rune_4 (x b c d : Z) :
  240 <= x < 245 -> (if x =? 240 then 144 else 128) <= b <= (if x =? 244 then 143 else 191) ->
  128 <= c < 192 -> 128 <= d < 192 ->
  encode_rune ((x - 240) * 262144 + (b - 128) * 4096 + (c - 128) * 64 + (d - 128))
  = [chr x; chr b; chr c; chr d].
Proof.
  intros Hx Hb Hc Hd.
  set (r := (x - 240) * 262144 + (b - 128) * 4096 + (c - 128) * 64 + (d - 128)).
  assert (128 <= b < 192) by (destruct (x =? 240), (x =? 244); lia).
  assert (r / 262144 = x - 240 /\ r / 4096 mod 64 = b - 128 /\ r / 64 mod 64 = c - 128
          /\ r mod 64 = d - 128) as (E1 & E2 & E3 & E4)
    by (unfold r; Z.to_euclidean_division_equations; lia).
  assert (65536 <= r) by (unfold r; destruct (Z.eqb_spec x 240); lia).
  assert (r <= 1114111) by (unfold r; destruct (Z.eqb_spec x 244); lia).
  rewrite encode_rune_valid by lia. unfold encode_valid. decide_tests; rewrite E1, E2, E3, E4; repeat f_equal; lia.
Qed.

(** Encoding a decoded rune gives its bytes back. *)
Lemma encode_decode_rune (s : str) (r : Z) (n : nat) :
  decode_rune s = Some (r, n) -> encode_rune r = take n s.
Proof.
  unfold decode_rune, low6. intros H.
  repeat case_hyp H; try discriminate; injection H as <- <-; cbn [take]; to_prop;
    repeat match goal with E : byte_in _ _ _ = true |- _ => apply byte_in_spec in E end;
    pose proof ord_bound as Hord.
  - match goal with |- encode_rune (ord ?a) = _ => pose proof (Hord a) end.
    rewrite encode_rune_valid by lia. unfold encode_valid. decide_tests. by rewrite chr_ord.
  - rewrite encode_rune_2 by lia. by rewrite !chr_ord.
  - rewrite encode_rune_3 by lia. by rewrite !chr_ord.
  - rewrite encode_rune_4 by lia. by rewrite !chr_ord.
Qed.

Lemma decode_rune_nonneg (s : str) (r : Z) (n : nat) : decode_rune s = Some (r, n) -> 0 <= r.
Proof.
  unfold decode_rune, low6. intros H. pose proof ord_bound as Hord.
  repeat case_hyp H; try discriminate; injection H as <- <-; to_prop;
    repeat match goal with E : byte_in _ _ _ = true |- _ => apply byte_in_spec in E end;
    try (apply Hord); try lia;
    match goal with H : (if ?a then _ else 128) <= _ <= _ |- _ => destruct a; lia end.
Qed.

Lemma decode_rune_small (c : ascii) (s : str) (r : Z) (n : nat) :
  decode_rune (c :: s) = Some (r, n) -> r < 128 -> ord c < 128.
Proof.
  intros E Hr. pose proof (decode_rune_nonneg _ _ _ E) as H0.
  pose proof (encode_decode_rune _ _ _ E) as He.
  pose proof (decode_rune_width _ _ _ E) as [Hn _].
  rewrite encode_rune_valid in He by lia. unfold encode_valid in He.
  destruct (Z.ltb_spec r 128); [|lia]. destruct n as [|n]; [lia|]. cbn [take] in He.
  injection He as <- _. rewrite ord_chr; lia.
Qed.

(** *** The runes of a string *)

Lemma runes_fuel_enough (f : nat) (s : str) : (length s <= f)%nat -> runes_fuel f s = runes s.
Proof.
  unfold runes. revert s. induction f as [f IH] using lt_wf_ind. intros s Hf.
  destruct s as [|a s']; [by destruct f|]. destruct f as [|f]; [cbn in Hf; lia|].
  cbn [length runes_fuel] in *. destruct (decode_rune (a :: s')) as [[r n]|] eqn:E.
  - apply decode_rune_width in E as [Hn Hl]. f_equal.
    assert (length (drop n (a :: s')) <= length s')%nat by (rewrite length_drop; cbn; lia).
    rewrite (IH f), (IH (length s')); (lia || done).
  - f_equal. rewrite (IH f) by lia. done.
Qed.

Lemma runes_cons (a : ascii) (s : str) :
  runes (a :: s) = match decode_rune (a :: s) with
                   | Some (r, n) => (Some r, take n (a :: s)) :: runes (drop n (a :: s))
                   | None => (None, [a]) :: runes s
                   end.
Proof.
  unfold runes at 1. cbn [length runes_fuel].
  destruct (decode_rune (a :: s)) as [[r n]|] eqn:E.
  - apply decode_rune_width in E as [Hn Hl]. f_equal. apply runes_fuel_enough.
    rewrite length_drop. cbn. lia.
  - f_equal.
Qed.

(** Induction along the runes of a string. *)
Lemma rune_ind (P : str -> Prop) :
  P [] ->
  (forall s r n, decode_rune s = Some (r, n) -> P (drop n s) -> P s) ->
  (forall a s, decode_rune (a :: s) = None -> P s -> P (a :: s)) ->
  forall s, P s.
Proof.
  intros H0 H1 H2 s. remember (length s) as l eqn:Hl. revert s Hl.
  induction l as [l IH] using lt_wf_ind. intros s ->.
  destruct s as [|a s]; [done|]. destruct (decode_rune (a :: s)) as [[r n]|] eqn:E.
  - apply (H1 _ r n E). eapply IH; [|done].
    apply decode_rune_width in E as [Hn Hw]. rewrite length_drop. lia.
  - apply H2; [done|]. eapply IH; [|done]. cbn. lia.
Qed.

Lemma runes_rune (s : str) (r : Z) (n : nat) :
  decode_rune s = Some (r, n) -> runes s = (Some r, take n s) :: runes (drop n s).
Proof. destruct s as [|a s]; [done|]. intros E. by rewrite runes_cons, E. Qed.

Lemma runes_concat (s : str) : concat (map snd (runes s)) = s.
Proof.
  induction s as [|s r n E IH|a s E IH] using rune_ind; [done| |].
  - rewrite (runes_rune s r n E). cbn [map concat snd]. rewrite IH. apply take_drop.
  - rewrite runes_cons, E. cbn [map concat snd app]. by rewrite IH.
Qed.

Lemma valid_utf8_rune (s : str) (r : Z) (n : nat) :
  decode_rune s = Some (r, n) -> valid_utf8 s = valid_utf8 (drop n s).
Proof. intros E. unfold valid_utf8. by rewrite (runes_rune s r n E). Qed.

Lemma valid_utf8_bad (a : ascii) (s : str) : decode_rune (a :: s) = None -> valid_utf8 (a :: s) = false.
Proof. intros E. unfold valid_utf8. by rewrite runes_cons, E. Qed.

Lemma decode_rune_ascii (a : ascii) (s : str) :
  ord a < 128 -> decode_rune (a :: s) = Some (ord a, 1%nat).
Proof. intros H. cbn. by destruct (Z.ltb_spec (ord a) 128); [|lia]. Qed.

(** ASCII strings are valid. *)
Lemma valid_utf8_ascii (s : str) : forallb (fun c => ord c <? 128) s = true -> valid_utf8 s = true.
Proof.
  induction s as [|a s IH]; [done|]. cbn [forallb]. intros H. to_prop.
  rewrite (valid_utf8_rune _ _ _ (decode_rune_ascii a s ltac:(done))). cbn [drop]. auto.
Qed.

(** *** What [encode_rune] makes is valid *)

Lemma decode_encode_valid (r : Z) (t : str) :
  0 <= r <= 1114111 -> r < 55296 \/ 57344 <= r ->
  decode_rune (encode_valid r ++ t) = Some (r, length (encode_valid r)).
Proof.
  intros H1 H2. unfold encode_valid, decode_rune, low6.
  assert (Hb : forall lo hi z, lo <= z <= hi -> 0 <= z < 256 -> byte_in lo hi (chr z) = true)
    by (intros lo hi z H Hz; apply byte_in_spec; rewrite ord_chr; done).
  destruct (Z.ltb_spec r 128).
  { cbn [app length]. rewrite ord_chr by lia. by destruct (Z.ltb_spec r 128); [|lia]. }
  destruct (Z.ltb_spec r 2048).
  { assert (2 <= r / 64 < 32 /\ 0 <= r mod 64 < 64 /\ r = r / 64 * 64 + r mod 64) as (Ha & Hl & E)
      by (Z.to_euclidean_division_equations; lia).
    cbn [app length]. rewrite !ord_chr by lia. decide_tests.
    rewrite Hb by lia. do 2 f_equal. lia. }
  destruct (Z.ltb_spec r 65536).
  { assert (0 <= r / 4096 < 16 /\ 0 <= r / 64 mod 64 < 64 /\ 0 <= r mod 64 < 64
            /\ r = r / 4096 * 4096 + r / 64 mod 64 * 64 + r mod 64) as (Ha & Hm & Hl & E)
      by (Z.to_euclidean_division_equations; lia).
    cbn [app length]. rewrite !ord_chr by lia. decide_tests.
    rewrite !Hb; try lia; [do 2 f_equal; lia|].
    destruct (Z.eqb_spec (224 + r / 4096) 224), (Z.eqb_spec (224 + r / 4096) 237); lia. }
  assert (0 <= r / 262144 < 5 /\ 0 <= r / 4096 mod 64 < 64 /\ 0 <= r / 64 mod 64 < 64
          /\ 0 <= r mod 64 < 64
          /\ r = r / 262144 * 262144 + r / 4096 mod 64 * 4096 + r / 64 mod 64 * 64 + r mod 64)
    as (Ha & Hn & Hm & Hl & E) by (Z.to_euclidean_division_equations; lia).
  cbn [app length]. rewrite !ord_chr by lia. decide_tests.
  rewrite !Hb; try lia; [do 2 f_equal; lia|].
  destruct (Z.eqb_spec (240 + r / 262144) 240), (Z.eqb_spec (240 + r / 262144) 244); lia.
Qed.

Lemma encode_rune_utf8 (r : Z) (t : str) : valid_utf8 (encode_rune r ++ t) = valid_utf8 t.
Proof.
  assert (H : forall q, 0 <= q <= 1114111 -> q < 55296 \/ 57344 <= q ->
            valid_utf8 (encode_valid q ++ t) = valid_utf8 t).
  { intros q H1 H2. pose proof (decode_encode_valid q t H1 H2) as E.
    by rewrite (valid_utf8_rune _ _ _ E), drop_app_length. }
  unfold encode_rune, is_surrogate, MaxRune.
  destruct (Z.ltb_spec r 0), (Z.ltb_spec 1114111 r), (Z.leb_spec 55296 r), (Z.leb_spec r 57343);
    cbn [orb andb]; apply H; unfold RuneError; lia.
Qed.

(** *** Replacing ill-formed bytes *)

Lemma to_valid_rune (s : str) (r : Z) (n : nat) :
  decode_rune s = Some (r, n) -> to_valid s = take n s ++ to_valid (drop n s).
Proof. intros E. unfold to_valid. by rewrite (runes_rune s r n E). Qed.

Lemma to_valid_bad (a : ascii) (s : str) :
  decode_rune (a :: s) = None -> to_valid (a :: s) = encode_rune RuneError ++ to_valid s.
Proof. intros E. unfold to_valid. by rewrite runes_cons, E. Qed.

Lemma to_valid_utf8 (s : str) : valid_utf8 (to_valid s) = true.
Proof.
  induction s as [|s r n E IH|a s E IH] using rune_ind; [done| |].
  - rewrite (to_valid_rune s r n E), <- (encode_decode_rune s r n E). by rewrite encode_rune_utf8.
  - rewrite (to_valid_bad a s E). by rewrite encode_rune_utf8.
Qed.

Lemma to_valid_id (s : str) : valid_utf8 s = true -> to_valid s = s.
Proof.
  induction s as [|s r n E IH|a s E IH] using rune_ind; intros Hv; [done| |].
  - rewrite (to_valid_rune s r n E), IH; [apply take_drop|]. by rewrite <- (valid_utf8_rune s r n E).
  - by rewrite (valid_utf8_bad a s E) in Hv.
Qed.

Lemma to_valid_nil (s : str) : to_valid s = [] <-> s = [].
Proof.
  split; [|by intros ->]. destruct s as [|a s]; [done|]. unfold to_valid. rewrite runes_cons.
  destruct (decode_rune (a :: s)) as [[r n]|] eqn:E; cbn [map concat fst snd].
  - apply decode_rune_width in E as [Hn _]. destruct n; [lia|]. cbn. discriminate.
  - vm_compute (encode_rune RuneError). discriminate.
Qed.
