(* ===== verification/GoJsonText.v ===== *)
(** * [encoding/json]: the text of JSON values

    The scanner and parser of the package, a value tree that keeps the literals
    as they are written, the printer, and the quoting of strings.  A string of
    the tree is its raw text between the quotes: [json.Unmarshal] hands the raw
    literal to the types that decode themselves ([time.Time]). *)

From S2P Require Import Prelude GoStrings GoUtf8.
#[local] Open Scope Z_scope.

Inductive json :=
| JNull
| JBool (b : bool)
| JNum (literal : str)
| JStr (raw : str)
| JArr (elems : list json)
| JObj (members : list (str * json)).

(** ** The scanner *)

Definition quote : ascii := chr 34.
Definition backslash : ascii := chr 92.
Definition is_ws (c : ascii) : bool := existsb (beq c) [chr 32; chr 9; chr 13; chr 10].
Definition is_hex (c : ascii) : bool := is_digit c || in_range "a" "f" c || in_range "A" "F" c.

Fixpoint skip_ws (s : str) : str :=
  match s with
  | c :: s' => if is_ws c then skip_ws s' else s
  | [] => []
  end.

Definition prepend (p : str) (x : option (str * str)) : option (str * str) :=
  match x with Some (a, b) => Some (p ++ a, b) | None => None end.

(** A string literal after its opening quote: raw text and rest. *)
Fixpoint scan_string (s : str) : option (str * str) :=
  match s with
  | [] => None
  | c :: t =>
      if beq c quote then Some ([], t)
      else if beq c backslash then
        match t with
        | e :: t1 =>
            if existsb (beq e) (quote :: backslash :: $"/bfnrt") then prepend [c; e] (scan_string t1)
            else if beq e "u" then
              match t1 with
              | h1 :: h2 :: h3 :: h4 :: t2 =>
                  if forallb is_hex [h1; h2; h3; h4]
                  then prepend [c; e; h1; h2; h3; h4] (scan_string t2) else None
              | _ => None
              end
            else None
        | [] => None
        end
      else if ord c <? 32 then None
      else prepend [c] (scan_string t)
  end.

Fixpoint scan_digits (s : str) : str * str :=
  match s with
  | c :: s' => if is_digit c then let '(a, b) := scan_digits s' in (c :: a, b) else ([], s)
  | [] => ([], [])
  end.

(** One digit at least. *)
Definition scan_digits1 (s : str) : option (str * str) :=
  match scan_digits s with
  | ([], _) => None
  | r => Some r
  end.

Definition scan_fraction (s : str) : option (str * str) :=
  match s with
  | c :: s' => if beq c "." then prepend [c] (scan_digits1 s') else Some ([], s)
  | [] => Some ([], [])
  end.
Definition scan_exponent (s : str) : option (str * str) :=
  match s with
  | c :: s' =>
      if beq c "e" || beq c "E" then
        match s' with
        | g :: s'' => if beq g "+" || beq g "-" then prepend [c; g] (scan_digits1 s'')
                      else prepend [c] (scan_digits1 s')
        | [] => None
        end
      else Some ([], s)
  | [] => Some ([], [])
  end.
Definition scan_integer (s : str) : option (str * str) :=
  match s with
  | c :: s' => if beq c "0" then Some ([c], s') else scan_digits1 s
  | [] => None
  end.
Definition scan_number (s : str) : option (str * str) :=
  let '(sign, s0) := match s with
                     | c :: s' => if beq c "-" then ([c], s') else ([], s)
                     | [] => ([], [])
                     end in
  match scan_integer s0 with
  | Some (i, s1) =>
      match scan_fraction s1 with
      | Some (f, s2) => prepend (sign ++ i ++ f) (scan_exponent s2)
      | None => None
      end
  | None => None
  end.

Definition keyword (k : str) (v : json) (s : str) : option (json * str) :=
  if HasPrefix s k then Some (v, drop (length k) s) else None.

(** ** The parser

    At least every other call consumes a byte, so twice the length of the input
    is fuel enough ([parse_fuel_enough]); [d] counts down [maxNestingDepth]. *)
Definition maxNestingDepth : Z := 10000.

Fixpoint parse_value (fuel : nat) (d : Z) (s : str) {struct fuel} : option (json * str) :=
  match fuel with
  | O => None
  | S f =>
      match skip_ws s with
      | [] => None
      | c :: t =>
          if beq c quote then
            match scan_string t with Some (raw, r) => Some (JStr raw, r) | None => None end
          else if beq c "{" then
            if d <=? 0 then None
            else match skip_ws t with
                 | c2 :: r =>
                     if beq c2 "}" then Some (JObj [], r)
                     else match parse_members f (d - 1) t with
                          | Some (ms, r') => Some (JObj ms, r')
                          | None => None
                          end
                 | [] => None
                 end
          else if beq c "[" then
            if d <=? 0 then None
            else match skip_ws t with
                 | c2 :: r =>
                     if beq c2 "]" then Some (JArr [], r)
                     else match parse_elems f (d - 1) t with
                          | Some (vs, r') => Some (JArr vs, r')
                          | None => None
                          end
                 | [] => None
                 end
          else if beq c "t" then keyword $"true" (JBool true) (c :: t)
          else if beq c "f" then keyword $"false" (JBool false) (c :: t)
          else if beq c "n" then keyword $"null" JNull (c :: t)
          else match scan_number (c :: t) with Some (lit, r) => Some (JNum lit, r) | None => None end
      end
  end
with parse_members (fuel : nat) (d : Z) (s : str) {struct fuel} : option (list (str * json) * str) :=
  match fuel with
  | O => None
  | S f =>
      match skip_ws s with
      | q :: t =>
          if beq q quote then
            match scan_string t with
            | Some (key, r) =>
                match skip_ws r with
                | c :: r1 =>
                    if beq c ":" then
                      match parse_value f d r1 with
                      | Some (v, r2) =>
                          match skip_ws r2 with
                          | e :: r3 =>
                              if beq e "," then
                                match parse_members f d r3 with
                                | Some (ms, r4) => Some ((key, v) :: ms, r4)
                                | None => None
                                end
                              else if beq e "}" then Some ([(key, v)], r3) else None
                          | [] => None
                          end
                      | None => None
                      end
                    else None
                | [] => None
                end
            | None => None
            end
          else None
      | [] => None
      end
  end
with parse_elems (fuel : nat) (d : Z) (s : str) {struct fuel} : option (list json * str) :=
  match fuel with
  | O => None
  | S f =>
      match parse_value f d s with
      | Some (v, r2) =>
          match skip_ws r2 with
          | e :: r3 =>
              if beq e "," then
                match parse_elems f d r3 with
                | Some (vs, r4) => Some (v :: vs, r4)
                | None => None
                end
              else if beq e "]" then Some ([v], r3) else None
          | [] => None
          end
      | None => None
      end
  end.

Definition json_parse (s : str) : option json :=
  match parse_value (2 * length s) maxNestingDepth s with
  | Some (v, r) => if is_empty (skip_ws r) then Some v else None
  | None => None
  end.

(** ** The printer *)

Fixpoint json_text (v : json) : str :=
  match v with
  | JNull => $"null"
  | JBool true => $"true"
  | JBool false => $"false"
  | JNum l => l
  | JStr raw => quote :: raw ++ [quote]
  | JArr vs => "["%char :: Join (map json_text vs) $"," ++ $"]"
  | JObj ms =>
      "{"%char :: Join (map (fun kv => quote :: kv.1 ++ quote :: ":"%char :: json_text kv.2) ms) $","
        ++ $"}"
  end.

(** ** Strings *)

Definition hex_digit (n : Z) : ascii := if n <? 10 then chr (48 + n) else chr (87 + n).
Definition u_escape (r : Z) : str :=
  backslash :: "u"%char :: map (fun k => hex_digit (r / k mod 16)) [4096; 256; 16; 1].

(** [htmlSafeSet] *)
Definition html_safe (c : ascii) : bool :=
  (32 <=? ord c) && (ord c <? 128)
  && negb (existsb (beq c) [quote; backslash; "<"%char; ">"%char; "&"%char]).

Definition quote_byte (c : ascii) : str :=
  if html_safe c then [c]
  else if beq c quote || beq c backslash then [backslash; c]
  else if beq c (chr 10) then backslash :: $"n"
  else if beq c (chr 13) then backslash :: $"r"
  else if beq c (chr 9) then backslash :: $"t"
  else u_escape (ord c).

Definition quote_rune (c : option Z * str) : str :=
  match c with
  | (None, _) => u_escape RuneError
  | (Some r, bytes) =>
      if r <? 128 then quote_byte (chr r)
      else if (r =? 8232) || (r =? 8233) then u_escape r
      else bytes
  end.

(** [encodeState.string], with HTML escaping, without the quotes *)
Definition quote_string (s : str) : str := concat (map quote_rune (runes s)).

Definition hex_value (c : ascii) : option Z :=
  if is_digit c then Some (ord c - 48)
  else if in_range "a" "f" c then Some (ord c - 87)
  else if in_range "A" "F" c then Some (ord c - 55)
  else None.

(** [getu4]: the code unit of an escape that starts at the backslash *)
Definition getu4 (s : str) : option Z :=
  match s with
  | b :: u :: h1 :: h2 :: h3 :: h4 :: _ =>
      if beq b backslash && beq u "u" then
        match hex_value h1, hex_value h2, hex_value h3, hex_value h4 with
        | Some a, Some b, Some c, Some d => Some (a * 4096 + b * 256 + c * 16 + d)
        | _, _, _, _ => None
        end
      else None
  | _ => None
  end.

(** [utf16.DecodeRune] *)
Definition utf16_decode (r1 r2 : Z) : option Z :=
  if (55296 <=? r1) && (r1 <? 56320) && (56320 <=? r2) && (r2 <? 57344)
  then Some ((r1 - 55296) * 1024 + (r2 - 56320) + 65536) else None.

Definition simple_escape (e : ascii) : option ascii :=
  if existsb (beq e) [quote; backslash; "/"%char] then Some e
  else if beq e "b" then Some (chr 8)
  else if beq e "f" then Some (chr 12)
  else if beq e "n" then Some (chr 10)
  else if beq e "r" then Some (chr 13)
  else if beq e "t" then Some (chr 9)
  else None.

(** One step of [unquoteBytes]: the bytes produced and the number consumed. *)
Definition unquote_step (s : str) : option (str * nat) :=
  match s with
  | [] => None
  | c :: t =>
      if beq c backslash then
        match t with
        | e :: _ =>
            match simple_escape e with
            | Some x => Some ([x], 2%nat)
            | None =>
                match getu4 s with
                | Some r1 =>
                    if is_surrogate r1 then
                      match getu4 (drop 6 s) with
                      | Some r2 =>
                          match utf16_decode r1 r2 with
                          | Some r => Some (encode_rune r, 12%nat)
                          | None => Some (encode_rune RuneError, 6%nat)
                          end
                      | None => Some (encode_rune RuneError, 6%nat)
                      end
                    else Some (encode_rune r1, 6%nat)
                | None => None
                end
            end
        | [] => None
        end
      else if beq c quote || (ord c <? 32) then None
      else
        match decode_rune s with
        | Some (r, n) => Some (encode_rune r, n)
        | None => Some (encode_rune RuneError, 1%nat)
        end
  end.

Fixpoint unquote_fuel (fuel : nat) (s : str) : option str :=
  match s, fuel with
  | [], _ => Some []
  | _, O => None
  | _, S f =>
      match unquote_step s with
      | Some (b, n) =>
          match unquote_fuel f (drop n s) with Some t => Some (b ++ t) | None => None end
      | None => None
      end
  end.
Definition unquote (s : str) : option str := unquote_fuel (length s) s.
