(* ===== verification/GoJsonFacts.v ===== *)
(** * Facts about JSON text

    The parser needs no more fuel than the length of its input; unquoting
    inverts quoting on valid UTF-8; parsing inverts printing. *)

From S2P Require Import Prelude GoStrings GoUtf8 GoJsonText.
#[local] Open Scope Z_scope.

(** ** Unquoting inverts quoting *)

Lemma unquote_step_width (s b : str) (n : nat) :
  unquote_step s = Some (b, n) -> (1 <= n)%nat /\ s <> [].
Proof.
  unfold unquote_step. intros H.
  repeat case_hyp H; try discriminate; simplify_eq; (split; [|done]); try lia.
  match goal with E : decode_rune _ = _ |- _ => apply decode_rune_width in E end. lia.
Qed.

Lemma unquote_fuel_enough (f : nat) (s : str) :
  (length s <= f)%nat -> unquote_fuel f s = unquote s.
Proof.
  unfold unquote. revert s. induction f as [f IH] using lt_wf_ind. intros s Hf.
  destruct s as [|a s]; [by destruct f|]. destruct f as [|f]; [cbn in Hf; lia|].
  cbn [length] in *. cbn [unquote_fuel].
  destruct (unquote_step (a :: s)) as [[b n]|] eqn:E; [|done].
  apply unquote_step_width in E as [Hn _].
  assert (length (drop n (a :: s)) <= length s)%nat by (rewrite length_drop; cbn; lia).
  by rewrite (IH f), (IH (length s)) by lia.
Qed.

Lemma unquote_run (s b : str) (n : nat) :
  unquote_step s = Some (b, n) ->
  unquote s = match unquote (drop n s) with Some t => Some (b ++ t) | None => None end.
Proof.
  intros E. pose proof (unquote_step_width _ _ _ E) as [Hn Hs].
  destruct s as [|a s]; [done|]. unfold unquote at 1. cbn [length unquote_fuel]. rewrite E.
  rewrite unquote_fuel_enough; [done|]. rewrite length_drop. cbn. lia.
Qed.

Lemma unquote_one (s t b : str) (n : nat) :
  unquote_step (s ++ t) = Some (b, n) -> n = length s ->
  unquote (s ++ t) = match unquote t with Some t' => Some (b ++ t') | None => None end.
Proof. intros E ->. by rewrite (unquote_run _ _ _ E), drop_app_length. Qed.

Lemma getu4_escape (r : Z) (t : str) : 0 <= r < 65536 -> getu4 (u_escape r ++ t) = Some r.
Proof.
  intros Hr. unfold u_escape. cbn [map app getu4].
  assert (Hd : forall n, 0 <= n < 16 -> hex_value (hex_digit n) = Some n).
  { intros n Hn. assert (n ∈ seqZ 0 16) as Hin by (apply elem_of_seqZ; lia).
    apply (proj1 (Forall_forall (fun n => hex_value (hex_digit n) = Some n) (seqZ 0 16))); [|done].
    by repeat constructor. }
  rewrite !beq_refl. cbn [andb].
  rewrite !Hd by (apply Z.mod_pos_bound; lia). f_equal.
  Z.to_euclidean_division_equations. lia.
Qed.

Lemma unquote_escape (r : Z) (t : str) :
  0 <= r < 65536 -> is_surrogate r = false ->
  unquote (u_escape r ++ t) = match unquote t with Some t' => Some (encode_rune r ++ t') | None => None end.
Proof.
  intros Hr Hs. apply (unquote_one _ _ _ 6); [|done].
  pose proof (getu4_escape r t Hr) as Hg. revert Hg. unfold u_escape. cbn [map app]. intros Hg.
  unfold unquote_step. change (beq backslash backslash) with true. cbv iota.
  change (simple_escape "u") with (@None ascii). cbv iota. rewrite Hg, Hs. done.
Qed.

(** A byte that needs no UTF-8 decoding. *)
Lemma unquote_byte (c : ascii) (t : str) :
  ord c < 128 ->
  unquote (quote_byte c ++ t) = match unquote t with Some t' => Some (c :: t') | None => None end.
Proof.
  intros Hc. unfold quote_byte. destruct (html_safe c) eqn:Es.
  { unfold html_safe in Es. to_prop.
    apply (unquote_one [c] t [c] 1); [|done]. cbn [app unquote_step].
    cbn [existsb] in *. to_prop.
    rewrite (proj2 (beq_false c backslash)) by (by apply beq_false).
    rewrite (proj2 (beq_false c quote)) by (by apply beq_false).
    destruct (Z.ltb_spec (ord c) 32); [lia|]. cbn [orb].
    rewrite decode_rune_ascii by done.
    by rewrite (encode_decode_rune _ _ _ (decode_rune_ascii c t Hc)). }
  destruct (beq c quote || beq c backslash) eqn:E1.
  { apply orb_true_iff in E1 as [E1|E1]; apply beq_true in E1 as ->;
      apply (unquote_one [_; _] t [_] 2); done. }
  destruct (beq c (chr 10)) eqn:E2.
  { apply beq_true in E2 as ->. by apply (unquote_one [_; _] t [_] 2). }
  destruct (beq c (chr 13)) eqn:E3.
  { apply beq_true in E3 as ->. by apply (unquote_one [_; _] t [_] 2). }
  destruct (beq c (chr 9)) eqn:E4.
  { apply beq_true in E4 as ->. by apply (unquote_one [_; _] t [_] 2). }
  pose proof (ord_bound c). rewrite unquote_escape; [|lia|].
  - by rewrite (encode_decode_rune _ _ _ (decode_rune_ascii c t Hc)).
  - unfold is_surrogate. by destruct (Z.leb_spec 55296 (ord c)); [lia|].
Qed.

Lemma decode_rune_lead (s : str) (r : Z) (n : nat) :
  decode_rune s = Some (r, n) -> 128 <= r ->
  exists c t, s = c :: t /\ 128 <= ord c.
Proof.
  intros H Hr. destruct s as [|c t]; [done|]. exists c, t. split; [done|].
  destruct (Z.ltb_spec (ord c) 128); [|done].
  rewrite decode_rune_ascii in H by done. injection H as <- _. lia.
Qed.

Lemma unquote_multibyte (s t : str) (r : Z) (n : nat) :
  decode_rune s = Some (r, n) -> 128 <= r ->
  unquote (take n s ++ t) = match unquote t with Some t' => Some (take n s ++ t') | None => None end.
Proof.
  intros H Hr. pose proof (decode_rune_width _ _ _ H) as [Hn Hl].
  pose proof (decode_rune_take _ t _ _ H) as Ht.
  apply (unquote_one _ _ _ n); [|by rewrite length_take_le].
  destruct (decode_rune_lead _ _ _ Ht Hr) as (c & u & E & Hc).
  rewrite E in *. unfold unquote_step.
  assert (beq c backslash = false) as -> by (apply beq_false; intros ->; vm_compute in Hc; done).
  assert (beq c quote = false) as -> by (apply beq_false; intros ->; vm_compute in Hc; done).
  destruct (Z.ltb_spec (ord c) 32); [lia|]. cbn [orb]. rewrite Ht. f_equal. f_equal.
  rewrite (encode_decode_rune _ _ _ Ht), <- E.
  rewrite take_app_le by (rewrite length_take_le; lia).
  apply take_ge. rewrite length_take. lia.
Qed.

Lemma quote_string_rune (s : str) (r : Z) (n : nat) :
  decode_rune s = Some (r, n) -> quote_string s = quote_rune (Some r, take n s) ++ quote_string (drop n s).
Proof. intros E. unfold quote_string. by rewrite (runes_rune s r n E). Qed.

(** What [json.Unmarshal] makes of the string [json.Marshal] wrote. *)
Lemma unquote_quote_any (s : str) : unquote (quote_string s) = Some (to_valid s).
Proof.
  induction s as [|s r n E IH|a s E IH] using rune_ind; [done| |].
  - rewrite (quote_string_rune s r n E), (to_valid_rune s r n E). unfold quote_rune.
    destruct (Z.ltb_spec r 128) as [Hr|Hr].
    + destruct s as [|c s']; [done|].
      assert (Hc : ord c < 128).
      { by eapply decode_rune_small. }
      rewrite decode_rune_ascii in E by done. injection E as <- <-. cbn [take drop] in *.
      rewrite chr_ord, unquote_byte by done. by rewrite IH.
    + destruct ((r =? 8232) || (r =? 8233)) eqn:Eu.
      * assert (r = 8232 \/ r = 8233) as Hr' by (apply orb_true_iff in Eu; lia).
        rewrite unquote_escape; [|lia|by destruct Hr' as [-> | ->]].
        by rewrite IH, (encode_decode_rune _ _ _ E).
      * rewrite (unquote_multibyte s _ r n E Hr). by rewrite IH.
  - rewrite (to_valid_bad a s E). unfold quote_string. rewrite runes_cons, E. cbn [map concat quote_rune].
    fold (quote_string s). rewrite unquote_escape by done. by rewrite IH.
Qed.

Lemma unquote_quote (s : str) : valid_utf8 s = true -> unquote (quote_string s) = Some s.
Proof. intros Hs. rewrite unquote_quote_any. by rewrite to_valid_id. Qed.

(** ** The scanner passes what the encoder writes *)

Definition scans (p : str) : Prop := forall t, scan_string (p ++ t) = prepend p (scan_string t).

Lemma prepend_app (p q : str) (x : option (str * str)) : prepend (p ++ q) x = prepend p (prepend q x).
Proof. destruct x as [[a b]|]; [|done]. cbn. by rewrite app_assoc. Qed.

Lemma scans_nil : scans [].
Proof. intros t. cbn. by destruct (scan_string t) as [[]|]. Qed.

Lemma scans_app (p q : str) : scans p -> scans q -> scans (p ++ q).
Proof. intros Hp Hq t. by rewrite <- app_assoc, Hp, Hq, prepend_app. Qed.

Lemma scans_concat (l : list str) : Forall scans l -> scans (concat l).
Proof. induction 1; [apply scans_nil|]. cbn. by apply scans_app. Qed.

Lemma scans_plain (c : ascii) :
  beq c quote = false -> beq c backslash = false -> 32 <= ord c -> scans [c].
Proof.
  intros H1 H2 H3 t. cbn [app scan_string]. rewrite H1, H2.
  by destruct (Z.ltb_spec (ord c) 32); [lia|].
Qed.

Lemma scans_high (s : str) : Forall (fun c => 128 <= ord c) s -> scans s.
Proof.
  induction 1 as [|c s Hc _ IH]; [apply scans_nil|].
  apply (scans_app [c] s); [|done].
  apply scans_plain; [apply beq_false; intros ->; by vm_compute in Hc..|lia].
Qed.

Lemma scans_short (e : ascii) :
  existsb (beq e) (quote :: backslash :: $"/bfnrt") = true -> scans [backslash; e].
Proof.
  intros He t. cbn [app scan_string].
  change (beq backslash quote) with false. change (beq backslash backslash) with true.
  cbv iota. by rewrite He.
Qed.

Lemma hex_digit_hex (n : Z) : 0 <= n < 16 -> is_hex (hex_digit n) = true.
Proof.
  intros Hn. assert (n ∈ seqZ 0 16) as Hin by (apply elem_of_seqZ; lia).
  apply (proj1 (Forall_forall (fun n => is_hex (hex_digit n) = true) (seqZ 0 16))); [|done].
  by repeat constructor.
Qed.

Lemma scans_u_escape (r : Z) : scans (u_escape r).
Proof.
  intros t. unfold u_escape. cbn [map app scan_string].
  change (beq backslash quote) with false. change (beq backslash backslash) with true.
  change (existsb (beq "u") (quote :: backslash :: $"/bfnrt")) with false.
  change (beq "u" "u") with true. cbv iota.
  cbn [forallb]. by rewrite !hex_digit_hex by (apply Z.mod_pos_bound; lia).
Qed.

Lemma scans_quote_byte (c : ascii) : scans (quote_byte c).
Proof.
  unfold quote_byte. destruct (html_safe c) eqn:Es.
  { unfold html_safe in Es. to_prop. cbn [existsb] in *. to_prop.
    by apply scans_plain. }
  destruct (beq c quote || beq c backslash) eqn:E1.
  { apply scans_short. apply orb_true_iff in E1 as [E1|E1]; apply beq_true in E1 as ->; done. }
  destruct (beq c (chr 10)); [by apply (scans_short "n")|].
  destruct (beq c (chr 13)); [by apply (scans_short "r")|].
  destruct (beq c (chr 9)); [by apply (scans_short "t")|].
  apply scans_u_escape.
Qed.

Lemma decode_rune_high (s : str) (r : Z) (n : nat) :
  decode_rune s = Some (r, n) -> 128 <= r -> Forall (fun c => 128 <= ord c) (take n s).
Proof.
  unfold decode_rune, low6. intros H Hr.
  repeat case_hyp H; try discriminate; injection H as <- <-; cbn [take]; to_prop;
    repeat match goal with E : byte_in _ _ _ = true |- _ => apply byte_in_spec in E end;
    repeat constructor; try lia;
    match goal with H : (if ?a then _ else 128) <= _ <= _ |- _ => destruct a; lia end.
Qed.

Lemma scans_quote_string (s : str) : scans (quote_string s).
Proof.
  induction s as [|s r n E IH|a s E IH] using rune_ind; [apply scans_nil| |].
  - rewrite (quote_string_rune s r n E). apply scans_app; [|done]. unfold quote_rune.
    destruct (Z.ltb_spec r 128); [apply scans_quote_byte|].
    destruct ((r =? 8232) || (r =? 8233)); [apply scans_u_escape|].
    apply scans_high. by eapply decode_rune_high.
  - unfold quote_string. rewrite runes_cons, E. cbn [map concat].
    apply scans_app; [apply scans_u_escape|done].
Qed.

Lemma scan_string_end (p t : str) : scans p -> scan_string (p ++ quote :: t) = Some (p, t).
Proof.
  intros Hp. rewrite Hp. cbn [scan_string]. change (beq quote quote) with true. cbv iota.
  cbn. by rewrite app_nil_r.
Qed.

(** ** Values that print canonically *)

(** What may follow a value: nothing, or a byte that ends a number. *)
Definition number_end : str := chr 10 :: $",}]".
Definition ends_number (t : str) : Prop :=
  match t with c :: _ => existsb (beq c) number_end = true | [] => True end.

Definition number_ok (l : str) : Prop :=
  (exists c l', l = c :: l' /\ (is_digit c || beq c "-") = true)
  /\ forall t, ends_number t -> scan_number (l ++ t) = Some (l, t).

(** Induction for the nested type. *)
Section JsonInd.
Context (P : json -> Prop) (Hnull : P JNull) (Hbool : forall b, P (JBool b)).
Context (Hnum : forall l, P (JNum l)) (Hstr : forall r, P (JStr r)).
Context (Harr : forall vs, Forall P vs -> P (JArr vs)).
Context (Hobj : forall ms, Forall (fun kv => P kv.2) ms -> P (JObj ms)).
Fixpoint json_nested_ind (v : json) : P v :=
  match v with
  | JNull => Hnull
  | JBool b => Hbool b
  | JNum l => Hnum l
  | JStr r => Hstr r
  | JArr vs =>
      Harr vs ((fix go (l : list json) : Forall P l :=
                  match l with
                  | [] => Forall_nil_2 P
                  | x :: l' => Forall_cons_2 P x l' (json_nested_ind x) (go l')
                  end) vs)
  | JObj ms =>
      Hobj ms ((fix go (l : list (str * json)) : Forall (fun kv => P kv.2) l :=
                  match l with
                  | [] => Forall_nil_2 _
                  | x :: l' => Forall_cons_2 (fun kv => P kv.2) x l' (json_nested_ind x.2) (go l')
                  end) ms)
  end.
End JsonInd.

Inductive canonical : json -> Prop :=
| can_null : canonical JNull
| can_bool b : canonical (JBool b)
| can_num l : number_ok l -> canonical (JNum l)
| can_str r : scans r -> canonical (JStr r)
| can_arr vs : Forall canonical vs -> canonical (JArr vs)
| can_obj ms : Forall (fun kv => scans kv.1 /\ canonical kv.2) ms -> canonical (JObj ms).

Fixpoint json_depth (v : json) : Z :=
  match v with
  | JArr vs => 1 + foldr Z.max 0 (map json_depth vs)
  | JObj ms => 1 + foldr Z.max 0 (map (fun kv => json_depth kv.2) ms)
  | _ => 0
  end.

(** Parsing inverts printing, with the printed length as fuel. *)
Lemma json_text_first (v : json) :
  canonical v ->
  exists c t, json_text v = c :: t /\ is_ws c = false /\ existsb (beq c) $",:}]" = false.
Proof.
  intros H. destruct H as [|[]|l [(c & l' & -> & Hc) _]|r| |]; cbn [json_text];
    try (by eexists _, _; split; [reflexivity|]).
  exists c, l'. split; [done|].
  pose proof (byte_impl (fun c => is_digit c || beq c "-")
    (fun c => negb (is_ws c) && negb (existsb (beq c) $",:}]")) eq_refl c Hc) as H.
  cbv beta in H. to_prop. done.
Qed.

Lemma skip_ws_first (c : ascii) (t : str) : is_ws c = false -> skip_ws (c :: t) = c :: t.
Proof. intros H. cbn [skip_ws]. by rewrite H. Qed.

Definition member_text (kv : str * json) : str :=
  quote :: kv.1 ++ quote :: ":"%char :: json_text kv.2.

(** The claim about one value, at every depth that suffices. *)
Definition parses (v : json) : Prop :=
  forall f d t, ends_number t -> json_depth v <= d -> (length (json_text v) <= f)%nat ->
    parse_value f d (json_text v ++ t) = Some (v, t).

Lemma depths_max {A} (g : A -> Z) (x : A) (l : list A) (d : Z) :
  foldr Z.max 0 (map g (x :: l)) <= d -> g x <= d /\ foldr Z.max 0 (map g l) <= d.
Proof. cbn. lia. Qed.

Lemma parse_elems_text (vs : list json) (x : json) :
  Forall parses (x :: vs) ->
  forall f d t, foldr Z.max 0 (map json_depth (x :: vs)) <= d ->
    (length (Join (map json_text (x :: vs)) $",") < f)%nat ->
    parse_elems f d (Join (map json_text (x :: vs)) $"," ++ "]"%char :: t) = Some (x :: vs, t).
Proof.
  revert x. induction vs as [|y vs IH]; intros x HP f d t Hd Hf;
    apply Forall_cons in HP as [Hx HP]; apply depths_max in Hd as [Hdx Hd];
    (destruct f as [|f]; [lia|]); cbn [parse_elems].
  - cbn [map Join] in *. rewrite Hx; [done|done|lia|lia].
  - change (Join (map json_text (x :: y :: vs)) $",")
      with (json_text x ++ $"," ++ Join (map json_text (y :: vs)) $",") in *.
    rewrite !length_app in Hf. change (length $",") with 1%nat in Hf.
    rewrite <- !app_assoc. rewrite Hx; [|done|lia|lia].
    change ($"," ++ ?r) with (","%char :: r). rewrite skip_ws_first by done.
    change (beq "," ",") with true. cbv iota. by rewrite IH by (done || lia).
Qed.

Lemma parse_members_text (ms : list (str * json)) (m : str * json) :
  Forall (fun kv => scans kv.1 /\ parses kv.2) (m :: ms) ->
  forall f d t, foldr Z.max 0 (map (fun kv => json_depth kv.2) (m :: ms)) <= d ->
    (length (Join (map member_text (m :: ms)) $",") < f)%nat ->
    parse_members f d (Join (map member_text (m :: ms)) $"," ++ "}"%char :: t) = Some (m :: ms, t).
Proof.
  revert m. induction ms as [|m2 ms IH]; intros [k v] HP f d t Hd Hf;
    apply Forall_cons in HP as [[Hk Hx] HP]; apply depths_max in Hd as [Hdx Hd];
    cbn [fst snd] in *; (destruct f as [|f]; [lia|]); cbn [parse_members].
  - cbn [map Join] in *. unfold member_text in *. cbn [fst snd app] in *.
    rewrite skip_ws_first by done. change (beq quote quote) with true. cbv iota.
    rewrite <- app_assoc. cbn [app]. rewrite scan_string_end by done.
    rewrite skip_ws_first by done. change (beq ":" ":") with true. cbv iota.
    rewrite Hx; [done|done|lia|].
    cbn [length] in Hf. rewrite length_app in Hf. cbn [length] in Hf. lia.
  - change (Join (map member_text ((k, v) :: m2 :: ms)) $",")
      with (member_text (k, v) ++ $"," ++ Join (map member_text (m2 :: ms)) $",") in *.
    rewrite !length_app in Hf. change (length $",") with 1%nat in Hf.
    rewrite <- !app_assoc. unfold member_text in Hf at 1. unfold member_text at 1.
    cbn [fst snd app length] in *. rewrite length_app in Hf. cbn [length] in Hf.
    rewrite skip_ws_first by done. change (beq quote quote) with true. cbv iota.
    rewrite <- !app_assoc. cbn [app]. rewrite scan_string_end by done.
    rewrite skip_ws_first by done. change (beq ":" ":") with true. cbv iota.
    rewrite Hx; [|done|lia|lia]. change ($"," ++ ?r) with (","%char :: r).
    rewrite skip_ws_first by done. change (beq "," ",") with true. cbv iota.
    by rewrite IH by (done || lia).
Qed.

Lemma keyword_text (k t : str) (v : json) : keyword k v (k ++ t) = Some (v, t).
Proof. unfold keyword. by rewrite HasPrefix_app, drop_app_length. Qed.

(** A number starts with none of the bytes that start another value. *)
Lemma number_first (c : ascii) :
  (is_digit c || beq c "-") = true ->
  is_ws c = false /\ beq c quote = false
  /\ existsb (beq c) $"{[tfn" = false.
Proof.
  intros H. pose proof (byte_impl (fun c => is_digit c || beq c "-")
    (fun c => negb (is_ws c) && negb (beq c quote) && negb (existsb (beq c) $"{[tfn"))
    eq_refl c H) as Hc.
  cbv beta in Hc. to_prop. done.
Qed.

Lemma parse_number (l t : str) (f : nat) (d : Z) :
  number_ok l -> ends_number t -> parse_value (S f) d (l ++ t) = Some (JNum l, t).
Proof.
  intros [(c & l' & -> & Hc) Hs] Ht. specialize (Hs t Ht). cbn [app parse_value] in *.
  destruct (number_first c Hc) as (Hw & Hq & Hf).
  cbn [existsb String.list_ascii_of_string] in Hf. to_prop.
  rewrite skip_ws_first by done. rewrite Hq.
  repeat match goal with H : beq c _ = false |- _ => rewrite H; clear H end.
  by rewrite Hs.
Qed.

Lemma Join_first (g : str) (l : list str) (sep : str) :
  exists t, Join (g :: l) sep = g ++ t.
Proof. destruct l; [exists []; cbn; by rewrite app_nil_r|by eexists]. Qed.

Lemma json_text_obj (ms : list (str * json)) :
  json_text (JObj ms) = "{"%char :: Join (map member_text ms) $"," ++ $"}".
Proof. done. Qed.

Lemma parse_text (v : json) : canonical v -> parses v.
Proof.
  induction v as [|[]|l|r|vs IH|ms IH] using json_nested_ind; intros Hc f d t Ht Hd Hf;
    destruct (json_text_first _ Hc) as (c0 & t0 & E0 & Hw0 & Hf0);
    (destruct f as [|f]; [rewrite E0 in Hf; cbn in Hf; lia|]).
  - done.
  - done.
  - done.
  - inversion Hc; subst. by apply parse_number.
  - inversion Hc; subst. cbn [json_text app parse_value].
    rewrite skip_ws_first by done. change (beq quote quote) with true. cbv iota.
    rewrite <- app_assoc. cbn [app]. by rewrite scan_string_end.
  - inversion Hc as [| | | |? Hvs|]; subst. cbn [json_text json_depth app parse_value length] in *.
    rewrite skip_ws_first by done.
    change (beq "[" quote) with false. change (beq "[" "{") with false.
    change (beq "[" "[") with true. cbv iota.
    assert (0 <= foldr Z.max 0 (map json_depth vs)) by (clear; induction vs; cbn; lia).
    destruct (Z.leb_spec d 0); [lia|].
    destruct vs as [|x vs]; [done|].
    rewrite <- app_assoc. rewrite length_app in Hf. change (length $"]") with 1%nat in Hf.
    change ($"]" ++ t) with ("]"%char :: t).
    assert (Forall parses (x :: vs)) as HP.
    { apply Forall_forall. intros v' Hv'. rewrite Forall_forall in Hvs, IH. auto. }
    pose proof (parse_elems_text vs x HP f (d - 1) t ltac:(lia) ltac:(lia)) as Hp.
    revert Hp.
    destruct (json_text_first x) as (c & t1 & E & Hw & Hb); [by apply Forall_cons in Hvs as [? _]|].
    destruct (Join_first (json_text x) (map json_text vs) $",") as (t2 & E2).
    change (map json_text (x :: vs)) with (json_text x :: map json_text vs).
    rewrite E2, E. cbn [app]. intros Hp. rewrite skip_ws_first by done.
    cbn [existsb String.list_ascii_of_string] in Hb. to_prop.
    destruct (beq c "]") eqn:Ec; [done|]. by rewrite Hp.
  - inversion Hc as [| | | | |? Hms]; subst. clear E0. rewrite json_text_obj in *.
    cbn [json_depth app parse_value length] in *.
    rewrite skip_ws_first by done.
    change (beq "{" quote) with false. change (beq "{" "{") with true. cbv iota.
    assert (0 <= foldr Z.max 0 (map (fun kv => json_depth kv.2) ms)) by (clear; induction ms; cbn; lia).
    destruct (Z.leb_spec d 0); [lia|].
    destruct ms as [|m ms]; [done|].
    rewrite <- app_assoc. rewrite length_app in Hf. change (length $"}") with 1%nat in Hf.
    change ($"}" ++ t) with ("}"%char :: t).
    assert (Forall (fun kv => scans kv.1 /\ parses kv.2) (m :: ms)) as HP.
    { apply Forall_forall. intros kv Hkv. rewrite Forall_forall in Hms, IH.
      destruct (Hms kv Hkv) as [Hk Hv]. split; [done|]. exact (IH kv Hkv Hv). }
    pose proof (parse_members_text ms m HP f (d - 1) t ltac:(lia) ltac:(lia)) as Hp.
    revert Hp.
    destruct (Join_first (member_text m) (map member_text ms) $",") as (t2 & E2).
    change (map member_text (m :: ms)) with (member_text m :: map member_text ms).
    destruct (member_text m) as [|q u] eqn:Em; [done|]. injection Em as <- _.
    rewrite E2. cbn [app]. intros Hp.
    rewrite skip_ws_first by done. change (beq quote "}") with false. cbv iota. by rewrite Hp.
Qed.

(** The parser inverts the printer on the values the encoder makes. *)
Lemma json_parse_text (v : json) :
  canonical v -> json_depth v <= maxNestingDepth -> json_parse (json_text v) = Some v.
Proof.
  intros Hc Hd. unfold json_parse.
  pose proof (parse_text v Hc (2 * length (json_text v))%nat maxNestingDepth [] I Hd ltac:(lia)) as H.
  rewrite app_nil_r in H. by rewrite H.
Qed.

(** ** The parser's fuel *)

Lemma skip_ws_length (s : str) : (length (skip_ws s) <= length s)%nat.
Proof. induction s as [|c s IH]; [done|]. cbn. case_goal; cbn; lia. Qed.

Lemma scan_string_length (s raw r : str) : scan_string s = Some (raw, r) -> (length r < length s)%nat.
Proof.
  revert raw r. remember (length s) as l eqn:El. revert s El.
  induction l as [l IH] using lt_wf_ind. intros s -> raw r H.
  assert (Hrec : forall p t raw r, prepend p (scan_string t) = Some (raw, r) ->
            (length t < length s)%nat -> (length r < length t)%nat).
  { intros p t raw' r' Hp Hlt. destruct (scan_string t) as [[a b]|] eqn:E; [|done].
    cbn in Hp. injection Hp as <- <-. by eapply IH. }
  destruct s as [|c t]; [done|]. cbn [scan_string] in H.
  repeat case_hyp H; try discriminate; simplify_eq; cbn [length] in *; try lia;
    apply Hrec in H; cbn [length] in *; lia.
Qed.

Lemma scan_digits_length (s a b : str) :
  scan_digits s = (a, b) -> length s = (length a + length b)%nat.
Proof.
  revert a b. induction s as [|c s IH]; intros a b H; cbn in H; [by simplify_eq|].
  destruct (is_digit c); [|by simplify_eq].
  destruct (scan_digits s) as [a' b'] eqn:E. simplify_eq. cbn. by rewrite (IH _ _ eq_refl).
Qed.

Lemma scan_digits1_length (s a b : str) : scan_digits1 s = Some (a, b) -> (length b < length s)%nat.
Proof.
  unfold scan_digits1. destruct (scan_digits s) as [x y] eqn:E.
  apply scan_digits_length in E. destruct x; [done|]. intros [= <- <-]. cbn in E. lia.
Qed.

Lemma prepend_Some (p : str) (x : option (str * str)) (a b : str) :
  prepend p x = Some (a, b) -> exists a', x = Some (a', b).
Proof. destruct x as [[a' b']|]; [|done]. intros [= <- <-]. by exists a'. Qed.

Lemma scan_number_length (s l r : str) : scan_number s = Some (l, r) -> (length r < length s)%nat.
Proof.
  unfold scan_number. destruct (match s with [] => _ | _ => _ end) as [sign s0] eqn:E0.
  assert (length s0 <= length s)%nat.
  { destruct s as [|c t]; [by simplify_eq|]. destruct (beq c "-"); simplify_eq; cbn; lia. }
  destruct (scan_integer s0) as [[i s1]|] eqn:E1; [|done].
  assert (length s1 < length s0)%nat.
  { unfold scan_integer in E1. destruct s0 as [|c t]; [done|].
    destruct (beq c "0"); [simplify_eq; cbn; lia|]. by apply scan_digits1_length in E1. }
  destruct (scan_fraction s1) as [[fr s2]|] eqn:E2; [|done].
  assert (length s2 <= length s1)%nat.
  { unfold scan_fraction in E2. destruct s1 as [|c t]; [by simplify_eq|].
    destruct (beq c "."); [|by simplify_eq].
    apply prepend_Some in E2 as [a' E2]. apply scan_digits1_length in E2. cbn. lia. }
  intros [a' H3]%prepend_Some. unfold scan_exponent in H3.
  destruct s2 as [|c t]; [simplify_eq; cbn in *; lia|].
  destruct (beq c "e" || beq c "E"); [|simplify_eq; lia].
  destruct t as [|g u]; [done|].
  destruct (beq g "+" || beq g "-"); apply prepend_Some in H3 as [b' H3];
    apply scan_digits1_length in H3; cbn in *; lia.
Qed.

Lemma keyword_length (k s r : str) (v w : json) :
  k <> [] -> keyword k w s = Some (v, r) -> (length r < length s)%nat.
Proof.
  intros Hk. unfold keyword. destruct (HasPrefix s k) eqn:E; [|done]. intros [= <- <-].
  apply HasPrefix_length in E. rewrite length_drop. destruct k; [done|]. cbn in *. lia.
Qed.

(** Every call that succeeds leaves less than it was given. *)
Lemma parse_consumes (f : nat) :
  (forall d s v r, parse_value f d s = Some (v, r) -> (length r < length s)%nat)
  /\ (forall d s ms r, parse_members f d s = Some (ms, r) -> (length r < length s)%nat)
  /\ (forall d s vs r, parse_elems f d s = Some (vs, r) -> (length r < length s)%nat).
Proof.
  induction f as [|f (IHv & IHm & IHe)]; [by split_and!|].
  split_and!; intros d s v r H; cbn [parse_value parse_members parse_elems] in H.
  - pose proof (skip_ws_length s) as Hs. destruct (skip_ws s) as [|c t]; [done|].
    pose proof (skip_ws_length t) as Ht. cbn [length] in Hs.
    assert (forall k w x, k <> [] -> keyword k w (c :: t) = Some (v, x) -> (length x < length s)%nat)
      as Hkey by (intros k w x Hk Hx; apply keyword_length in Hx; cbn in *; (done || lia)).
    repeat case_hyp H; try discriminate; simplify_eq; cbn [length] in *;
      repeat match goal with
      | E : scan_string _ = Some _ |- _ => apply scan_string_length in E
      | E : scan_number _ = Some _ |- _ => apply scan_number_length in E; cbn [length] in E
      | E : parse_members _ _ _ = Some _ |- _ => apply IHm in E
      | E : parse_elems _ _ _ = Some _ |- _ => apply IHe in E
      end; try lia; by eapply Hkey in H.
  - pose proof (skip_ws_length s) as Hs. destruct (skip_ws s) as [|q t]; [done|].
    destruct (beq q quote); [|done].
    destruct (scan_string t) as [[key u]|] eqn:Eu; [|done]. apply scan_string_length in Eu.
    pose proof (skip_ws_length u) as Hu. destruct (skip_ws u) as [|c r1]; [done|].
    destruct (beq c ":"); [|done].
    destruct (parse_value f d r1) as [[w r2]|] eqn:Ew; [|done]. apply IHv in Ew.
    pose proof (skip_ws_length r2) as H2. destruct (skip_ws r2) as [|e r3]; [done|].
    cbn [length] in *. destruct (beq e ",").
    + destruct (parse_members f d r3) as [[ms r4]|] eqn:Em; [|done]. apply IHm in Em.
      simplify_eq. lia.
    + destruct (beq e "}"); [|done]. simplify_eq. lia.
  - destruct (parse_value f d s) as [[w r2]|] eqn:Ew; [|done]. apply IHv in Ew.
    pose proof (skip_ws_length r2) as H2. destruct (skip_ws r2) as [|e r3]; [done|].
    cbn [length] in *. destruct (beq e ",").
    + destruct (parse_elems f d r3) as [[vs r4]|] eqn:Em; [|done]. apply IHe in Em.
      simplify_eq. lia.
    + destruct (beq e "]"); [|done]. simplify_eq. lia.
Qed.

(** More fuel than twice the input's length changes nothing. *)
Lemma parse_fuel_any (f : nat) :
  (forall f' d s, (2 * length s <= f)%nat -> (2 * length s <= f')%nat ->
     parse_value f d s = parse_value f' d s)
  /\ (forall f' d s, (2 * length s <= f)%nat -> (2 * length s <= f')%nat ->
     parse_members f d s = parse_members f' d s)
  /\ (forall f' d s, (2 * length s < f)%nat -> (2 * length s < f')%nat ->
     parse_elems f d s = parse_elems f' d s).
Proof.
  induction f as [|f (IHv & IHm & IHe)].
  { split_and!; [| |lia]; intros f' d [|c s] H _; (done || (cbn in H; lia) || by destruct f'). }
  split_and!; intros [|f'] d s H H'; try lia.
  - by destruct s; [|cbn in H'; lia].
  - cbn [parse_value]. pose proof (skip_ws_length s) as Hs.
    destruct (skip_ws s) as [|c t]; [done|]. cbn [length] in Hs.
    by rewrite (IHm f' (d - 1) t), (IHe f' (d - 1) t) by lia.
  - by destruct s; [|cbn in H'; lia].
  - cbn [parse_members]. pose proof (skip_ws_length s) as Hs.
    destruct (skip_ws s) as [|q t]; [done|]. cbn [length] in Hs. destruct (beq q quote); [|done].
    destruct (scan_string t) as [[key u]|] eqn:Eu; [|done]. apply scan_string_length in Eu.
    pose proof (skip_ws_length u) as Hu. destruct (skip_ws u) as [|c r1]; [done|]. cbn [length] in Hu.
    destruct (beq c ":"); [|done]. rewrite (IHv f' d r1) by lia.
    destruct (parse_value f' d r1) as [[w r2]|] eqn:Ew; [|done].
    apply (proj1 (parse_consumes f')) in Ew.
    pose proof (skip_ws_length r2) as H2. destruct (skip_ws r2) as [|e r3]; [done|]. cbn [length] in H2.
    by rewrite (IHm f' d r3) by lia.
  - cbn [parse_elems]. rewrite (IHv f' d s) by lia.
    destruct (parse_value f' d s) as [[w r2]|] eqn:Ew; [|done].
    apply (proj1 (parse_consumes f')) in Ew.
    pose proof (skip_ws_length r2) as H2. destruct (skip_ws r2) as [|e r3]; [done|]. cbn [length] in H2.
    by rewrite (IHe f' d r3) by lia.
Qed.

Lemma parse_fuel_enough (f : nat) (d : Z) (s : str) :
  (2 * length s <= f)%nat -> parse_value f d s = parse_value (2 * length s) d s.
Proof. intros H. by apply (proj1 (parse_fuel_any f)). Qed.

(** ** What [Unmarshal] stores in a string is valid UTF-8 *)

Lemma unquote_step_utf8 (s b t : str) (n : nat) :
  unquote_step s = Some (b, n) -> valid_utf8 (b ++ t) = valid_utf8 t.
Proof.
  unfold unquote_step. intros H.
  repeat case_hyp H; try discriminate; simplify_eq; try apply encode_rune_utf8.
  match goal with E : simple_escape ?e = Some ?x |- _ =>
    assert (ord x < 128) as Hx end.
  { unfold simple_escape in *.
    repeat match goal with E : (if ?b then _ else _) = Some _ |- _ => destruct b eqn:?; simplify_eq end;
      try (by vm_compute).
    match goal with E : existsb _ _ = true |- _ => revert E end.
    cbn. rewrite !orb_true_iff, !beq_true. intros [->|[->|[->|H]]]; by vm_compute. }
  cbn [app]. by rewrite (valid_utf8_rune _ _ _ (decode_rune_ascii _ t Hx)).
Qed.

Lemma unquote_utf8 (s t : str) : unquote s = Some t -> valid_utf8 t = true.
Proof.
  unfold unquote. generalize (length s) as f. intros f. revert s t.
  induction f as [|f IH]; intros [|c s] t H; cbn [unquote_fuel] in H; try (by simplify_eq).
  destruct (unquote_step (c :: s)) as [[b n]|] eqn:E; [|done].
  destruct (unquote_fuel f (drop n (c :: s))) as [u|] eqn:Eu; [|done].
  injection H as <-. rewrite (unquote_step_utf8 _ _ _ _ E). by eapply IH.
Qed.
