(* ===== verification/GoError.v ===== *)
(** * Go errors, (value, error) results and effectful code

    An error is what [errors.Is] can see of it: the chain of errors it wraps.
    A function returning [(T, error)] is a [result T]; an effectful function is
    a state transformer over a [World]; its error result is bound with [←?],
    the early return [if err != nil { return err }] of the source. *)

From S2P Require Import Prelude GoTime.

(** The error values compared with [errors.Is]: the package-level variables of
    the program, and those of the libraries it names. *)
Inductive sentinel :=
(* pkg/session *)
| ErrCookieNotFound | ErrExpiredAccessToken | ErrInvalidState | ErrNoSessionData
| ErrNoAccessToken | ErrSessionInactive | ErrKeyNotFound | ErrUnexpected | ErrAcquireLock
(* pkg/openid/client *)
| ErrOpenIDClient | ErrOpenIDServer
| ErrInvalidSecurityLevel | ErrInvalidLocale | ErrInvalidLoginParameter
(* net/http, context, go-redis, redislock *)
| ErrNoCookie | ContextCanceled | ContextDeadlineExceeded | RedisNil | ErrNotObtained.

#[global] Instance sentinel_eq_dec : EqDecision sentinel.
Proof. solve_decision. Defined.

(** [errors.New], [fmt.Errorf("...: %w", err)] and
    [fmt.Errorf("%w: ...%+v", err, detail)], where only the [%w] operand is
    part of the chain. *)
Inductive error :=
| Sentinel (s : sentinel)
| New (msg : string)
| Wrap (msg : string) (inner : error)
| WrapDetail (inner detail : error).

#[global] Instance error_eq_dec : EqDecision error.
Proof. solve_decision. Defined.

(** [errors.Is(err, target)] for the package-level targets. *)
Fixpoint errors_Is (e : error) (target : sentinel) : bool :=
  match e with
  | Sentinel s => bool_decide (s = target)
  | New _ => false
  | Wrap _ inner => errors_Is inner target
  | WrapDetail inner _ => errors_Is inner target
  end.

(** ** Results *)

Inductive result (A : Type) := Ok (a : A) | Err (e : error).
Arguments Ok {A} a.
Arguments Err {A} e.

#[global] Instance result_ret : MRet result := fun A a => Ok a.
#[global] Instance result_bind : MBind result := fun A B f r =>
  match r with Ok a => f a | Err e => Err e end.
#[global] Instance result_fmap : FMap result := fun A B f r =>
  match r with Ok a => Ok (f a) | Err e => Err e end.
#[global] Instance result_eq_dec `{EqDecision A} : EqDecision (result A).
Proof. solve_decision. Defined.

Definition is_ok {A} (r : result A) : bool := match r with Ok _ => true | Err _ => false end.
Definition wrap {A} (msg : string) (r : result A) : result A :=
  match r with Ok a => Ok a | Err e => Err (Wrap msg e) end.
Definition of_option {A} (e : error) (o : option A) : result A :=
  match o with Some a => Ok a | None => Err e end.

(** ** The world and effects

    The world is the session store together with the position in the sequence
    of interactions with everything outside the program, and the record of the
    requests sent.  What comes back at each interaction is the [Env] below: an
    arbitrary function of the position. *)

Record HTTPRequest := {
  rq_method : str; rq_url : str; rq_header : list (str * str); rq_body : str }.
Record HTTPResponse := { rs_status : Z; rs_body : result str }.

Inductive Event :=
| EvHTTP (rq : HTTPRequest)                        (* http.Client.Do *)
| EvExchange (code : str) (params : list (str * str))  (* oauth2.Config.Exchange *)
| EvJwksRefresh.                                   (* jwk.Cache.Refresh *)

Record World (S : Type) := mkWorld { w_tick : nat; w_store : S; w_trace : list Event }.
Arguments mkWorld {S}.
Arguments w_tick {S}.
Arguments w_store {S}.
Arguments w_trace {S}.

Definition M (S A : Type) : Type := World S -> A * World S.

#[global] Instance M_ret {S} : MRet (M S) := fun A a w => (a, w).
#[global] Instance M_bind {S} : MBind (M S) := fun A B f m w => let '(a, w') := m w in f a w'.
#[global] Instance M_fmap {S} : FMap (M S) := fun A B f m w => let '(a, w') := m w in (f a, w').

(** [x, err := m; if err != nil { return err }] *)
Definition bindE {S A B} (m : M S (result A)) (f : A -> M S (result B)) : M S (result B) :=
  fun w => match m w with (Ok a, w') => f a w' | (Err e, w') => (Err e, w') end.
Notation "x '←?' m ; k" := (bindE m (fun x => k))
  (at level 20, m at level 100, k at level 200, only parsing) : stdpp_scope.
Notation "' pat '←?' m ; k" := (bindE m (fun x => match x with pat => k end))
  (at level 20, pat pattern, m at level 100, k at level 200, only parsing) : stdpp_scope.

Definition okM {S A} (a : A) : M S (result A) := mret (Ok a).
Definition errM {S A} (e : error) : M S (result A) := mret (Err e).
(** [return fmt.Errorf("msg: %w", err)] when [m] fails. *)
Definition wrapM {S A} (msg : string) (m : M S (result A)) : M S (result A) := wrap msg <$> m.
Definition pureR {S A} (r : result A) : M S (result A) := mret r.

(** ** The environment *)

Inductive wakeup := CtxDone | TimeoutFired | TickerFired.

(** What the program cannot compute: the clock, the random sources, the
    network, and the third-party clients behind it.  Every operation is indexed
    by the position of the interaction, so it may answer differently each time. *)
Class Env := {
  env_now : nat -> Time;                               (* time.Now *)
  env_rand : nat -> nat -> result str;                 (* io.ReadFull(rand.Reader, n bytes) *)
  env_keygen : nat -> nat -> result str;               (* liberator's keygen.Keygen *)
  env_uuid : nat -> str;                               (* uuid.New().String() *)
  env_http : nat -> HTTPRequest -> result HTTPResponse; (* http.Client.Do *)
  env_select : nat -> list wakeup;                     (* outcomes of a select loop *)
}.

Section Effects.
Context {E : Env} {S : Type}.

Definition step {A} (f : nat -> A) : M S A :=
  fun w => (f (w_tick w), mkWorld (Datatypes.S (w_tick w)) (w_store w) (w_trace w)).
Definition log_event (ev : Event) : M S unit :=
  fun w => (tt, mkWorld (w_tick w) (w_store w) (w_trace w ++ [ev])).
(** Run a store operation on the store of the world. *)
Definition on_store {A} (f : S -> A * S) : M S A :=
  fun w => let '(a, s) := f (w_store w) in (a, mkWorld (w_tick w) s (w_trace w)).

Definition time_Now : M S Time := step env_now.
Definition rand_Read (n : nat) : M S (result str) := step (fun i => env_rand i n).
Definition Keygen (n : nat) : M S (result str) := step (fun i => env_keygen i n).
Definition uuid_New : M S str := step env_uuid.
Definition http_Do (rq : HTTPRequest) : M S (result HTTPResponse) :=
  (log_event (EvHTTP rq) ≫= fun _ => step (fun i => env_http i rq)).
(** [time.Until(t)] *)
Definition time_Until (t : Time) : M S Duration := now ← time_Now; mret (Sub t now).
End Effects.

(** ** Lemmas *)

Lemma bindE_Ok {S A B} (m : M S (result A)) (f : A -> M S (result B)) w b w' :
  bindE m f w = (Ok b, w') <-> exists a w1, m w = (Ok a, w1) /\ f a w1 = (Ok b, w').
Proof.
  unfold bindE. destruct (m w) as [[a|e] w1]; split; intros H; break; eauto.
Qed.

Lemma bindE_Err {S A B} (m : M S (result A)) (f : A -> M S (result B)) w e w' :
  bindE m f w = (Err e, w') <->
  m w = (Err e, w') \/ exists a w1, m w = (Ok a, w1) /\ f a w1 = (Err e, w').
Proof.
  unfold bindE. destruct (m w) as [[a|e'] w1]; split; intros H.
  - by right; eauto.
  - destruct H; break; done.
  - left. congruence.
  - destruct H; break; done.
Qed.

Lemma bind_Ok {A B} (r : result A) (f : A -> result B) b :
  (r ≫= f) = Ok b -> exists a, r = Ok a /\ f a = Ok b.
Proof. destruct r; cbn; [eauto|done]. Qed.

Lemma wrap_Ok {A} (msg : string) (r : result A) (a : A) : wrap msg r = Ok a <-> r = Ok a.
Proof. by destruct r. Qed.

Lemma wrapM_Ok {S A} (msg : string) (m : M S (result A)) w a w' :
  wrapM msg m w = (Ok a, w') <-> m w = (Ok a, w').
Proof. unfold wrapM, fmap, M_fmap. destruct (m w) as [[|] ?]; cbn; split; congruence. Qed.

Lemma wrapM_Err {S A} (msg : string) (m : M S (result A)) w e w' :
  wrapM msg m w = (Err e, w') <-> exists e', m w = (Err e', w') /\ e = Wrap msg e'.
Proof.
  unfold wrapM, fmap, M_fmap. destruct (m w) as [[|] ?]; cbn; split; intros; break; eauto.
Qed.

Lemma bind_run {S A B} (m : M S A) (f : A -> M S B) w :
  (m ≫= f) w = f (m w).1 (m w).2.
Proof. unfold mbind, M_bind. by destruct (m w). Qed.

Lemma http_Do_run {E : Env} {S} (rq : HTTPRequest) (w : World S) :
  http_Do rq w = (env_http (w_tick w) rq,
                  mkWorld (Datatypes.S (w_tick w)) (w_store w) (w_trace w ++ [EvHTTP rq])).
Proof. done. Qed.

Lemma is_ok_true {A} (r : result A) : is_ok r = true <-> exists a, r = Ok a.
Proof. destruct r; split; intros; break; eauto. Qed.

(** For evaluating runs: a run whose result is known, or known to be a value. *)
Lemma run_eq {S A} (x : A * World S) (a : A) : x.1 = a -> x = (a, x.2).
Proof. by intros <-; destruct x. Qed.
Lemma is_ok_run {S A} (x : result A * World S) : is_ok x.1 = true -> exists a w, x = (Ok a, w).
Proof. destruct x as [[a|e] w]; [by exists a, w|done]. Qed.

#[export] Hint Rewrite @bindE_Ok @wrapM_Ok : wonderwall.
