(* ===== verification/GoRfc3339.v ===== *)
(** * [time.Time] as text: RFC 3339, for [encoding/json]

    The calendar of Go's [time] package (proleptic Gregorian), the formatting
    of [RFC3339Nano] and the parsing of [RFC3339] (Go 1.19: an hour may have
    one digit, a fraction may follow the seconds), and their round trip. *)

From S2P Require Import Prelude GoStrings GoTime GoStrconv.
#[local] Open Scope Z_scope.

(** The UTC offset of [time.Local] at an instant, in seconds. *)
Class Location := local_offset : Time -> Z.
Class LocationLaws `{Location} : Prop :=
  local_offset_minutes : forall t, exists m, local_offset t = 60 * m /\ -1440 < m < 1440.

(** ** The calendar *)

Definition days_before (m : Z) : Z :=
  nth (Z.to_nat m) [0; 31; 59; 90; 120; 151; 181; 212; 243; 273; 304; 334; 365] 365.
Definition is_leap (y : Z) : bool :=
  (y mod 4 =? 0) && (negb (y mod 100 =? 0) || (y mod 400 =? 0)).
Definition days_in (m y : Z) : Z :=
  if (m =? 2) && is_leap y then 29 else days_before m - days_before (m - 1).

(** Month and day of the [yday]-th day of a year ([absDate]). *)
Definition month_day (leap : bool) (yday : Z) : Z * Z :=
  if leap && (yday =? 59) then (2, 29)
  else
    let day := if leap && (59 <? yday) then yday - 1 else yday in
    let m := day / 31 in
    if days_before (m + 1) <=? day then (m + 2, day - days_before (m + 1) + 1)
    else (m + 1, day - days_before m + 1).

(** Year, month and day of the [d]-th day since January 1, year 1. *)
Definition civil (d : Z) : Z * Z * Z :=
  let q := d / 146097 in
  let d1 := d mod 146097 in
  let c := d1 / 36524 - d1 / 36524 / 4 in
  let d2 := d1 - 36524 * c in
  let f := d2 / 1461 in
  let d3 := d2 - 1461 * f in
  let n := d3 / 365 - d3 / 365 / 4 in
  let year := 400 * q + 100 * c + 4 * f + n + 1 in
  let '(m, day) := month_day (is_leap year) (d3 - 365 * n) in
  (year, m, day).

(** [daysSinceEpoch] with the rest of [time.Date] *)
Definition year_days (year : Z) : Z :=
  let y := year - 1 in
  let r := y mod 400 in
  146097 * (y / 400) + 36524 * (r / 100) + 1461 * (r mod 100 / 4) + 365 * (r mod 100 mod 4).
Definition days_since (year m day : Z) : Z :=
  year_days year + days_before (m - 1) + (if is_leap year && (3 <=? m) then 1 else 0) + (day - 1).

(** ** Formatting *)

Fixpoint pad (w : nat) (n : Z) : str :=
  match w with
  | O => []
  | S w' => pad w' (n / 10) ++ [digit_char (n mod 10)]
  end.

Definition day_ns : Z := 24 * Hour.
Definition fraction (ns : Z) : str :=
  if ns =? 0 then [] else "."%char :: TrimRight (pad 9 ns) "0".
Definition format_zone (off : Z) : str :=
  if off =? 0 then $"Z"
  else
    let z := Z.abs (Z.quot off 60) in
    (if Z.quot off 60 <? 0 then "-"%char else "+"%char) :: pad 2 (z / 60) ++ ":"%char :: pad 2 (z mod 60).

Definition format_rfc3339 (t : Time) (off : Z) : str :=
  let l := t + off * Second in
  let '(year, m, day) := civil (l / day_ns) in
  let ns := l mod day_ns in
  pad 4 year ++ "-"%char :: pad 2 m ++ "-"%char :: pad 2 day
  ++ "T"%char :: pad 2 (ns / Hour) ++ ":"%char :: pad 2 (ns / Minute mod 60)
  ++ ":"%char :: pad 2 (ns / Second mod 60) ++ fraction (ns mod Second) ++ format_zone off.

(** [Time.Year] *)
Definition Year (t : Time) (off : Z) : Z := (civil ((t + off * Second) / day_ns)).1.1.

(** The zone a time is printed in: the zero Time is in UTC, the others come
    from the clock. *)
Definition zone_of `{Location} (t : Time) : Z := if t =? zero_time then 0 else local_offset t.

(** [Time.MarshalJSON], without the quotes *)
Definition marshal_time `{Location} (t : Time) : option str :=
  let y := Year t (zone_of t) in
  if (y <? 0) || (10000 <=? y) then None else Some (format_rfc3339 t (zone_of t)).

(** ** Parsing *)

Definition lit (c : ascii) (s : str) : option str :=
  match s with x :: s' => if beq x c then Some s' else None | [] => None end.

(** [getnum] *)
Definition getnum (fixed : bool) (s : str) : option (Z * str) :=
  match s with
  | a :: s1 =>
      match digit_value a with
      | None => None
      | Some x =>
          match s1 with
          | b :: s2 =>
              match digit_value b with
              | Some y => Some (x * 10 + y, s2)
              | None => if fixed then None else Some (x, s1)
              end
          | [] => if fixed then None else Some (x, s1)
          end
      end
  | [] => None
  end.

Definition getyear (s : str) : option (Z * str) :=
  if (length s <? 4)%nat then None
  else match digits_value (take 4 s) 0 with Some y => Some (y, drop 4 s) | None => None end.

Fixpoint split_digits (s : str) : str * str :=
  match s with
  | c :: s' => if is_digit c then let '(a, b) := split_digits s' in (c :: a, b) else ([], s)
  | [] => ([], [])
  end.

(** A fraction after the seconds, in nanoseconds: at most nine digits count. *)
Definition getfraction (s : str) : option (Z * str) :=
  match s with
  | p :: s' =>
      if beq p "." || beq p "," then
        match split_digits s' with
        | ([], _) => Some (0, s)
        | (ds, rest) =>
            let ds' := take 9 ds in
            match digits_value ds' 0 with
            | Some v => Some (v * 10 ^ (9 - zlen ds'), rest)
            | None => None
            end
        end
      else Some (0, s)
  | [] => Some (0, s)
  end.

(** [Z07:00], in seconds *)
Definition getzone (s : str) : option (Z * str) :=
  match s with
  | c :: s' =>
      if beq c "Z" then Some (0, s')
      else
        match s' with
        | h1 :: h2 :: k :: m1 :: m2 :: rest =>
            if beq k ":" && (beq c "+" || beq c "-") then
              match Atoi [h1; h2], Atoi [m1; m2] with
              | Some h, Some m =>
                  let o := (h * 60 + m) * 60 in Some (if beq c "-" then - o else o, rest)
              | _, _ => None
              end
            else None
        | _ => None
        end
  | [] => None
  end.

Definition checked (lo hi : Z) (x : option (Z * str)) : option (Z * str) :=
  match x with
  | Some (n, s) => if (lo <=? n) && (n <=? hi) then Some (n, s) else None
  | None => None
  end.

(** [time.Parse(time.RFC3339, s)] *)
Definition parse_rfc3339 (s : str) : option Time :=
  '(year, s) ← getyear s; s ← lit "-" s;
  '(m, s) ← checked 1 12 (getnum true s); s ← lit "-" s;
  '(day, s) ← getnum true s; s ← lit "T" s;
  '(hour, s) ← checked 0 23 (getnum false s); s ← lit ":" s;
  '(min, s) ← checked 0 59 (getnum true s); s ← lit ":" s;
  '(sec, s) ← checked 0 59 (getnum true s);
  '(ns, s) ← getfraction s;
  '(off, s) ← getzone s;
  if is_empty s && (1 <=? day) && (day <=? days_in m year) then
    Some (days_since year m day * day_ns + hour * Hour + min * Minute + sec * Second + ns - off * Second)
  else None.

(** ** The calendar is a bijection *)

Definition days_ok (leap : bool) (yday : Z) : bool :=
  let '(m, day) := month_day leap yday in
  (1 <=? m) && (m <=? 12) && (1 <=? day)
  && (day <=? (if (m =? 2) && leap then 29 else days_before m - days_before (m - 1)))
  && (days_before (m - 1) + (if leap && (3 <=? m) then 1 else 0) + (day - 1) =? yday).

Lemma month_day_ok (leap : bool) (yday : Z) :
  0 <= yday < (if leap then 366 else 365) -> days_ok leap yday = true.
Proof.
  intros H.
  assert (Hall : forallb (days_ok leap) (seqZ 0 (if leap then 366 else 365)) = true)
    by (destruct leap; by vm_compute).
  rewrite forallb_forall in Hall. apply Hall, list_elem_of_In, elem_of_seqZ. lia.
Qed.

(** The decomposition into 400, 100, 4 and single years. *)
Lemma civil_parts (d : Z) :
  let d1 := d mod 146097 in
  let c := d1 / 36524 - d1 / 36524 / 4 in
  let d2 := d1 - 36524 * c in
  let f := d2 / 1461 in
  let d3 := d2 - 1461 * f in
  let n := d3 / 365 - d3 / 365 / 4 in
  0 <= c <= 3 /\ 0 <= f <= 24 /\ 0 <= n <= 3 /\ 0 <= d3 - 365 * n
  /\ d3 - 365 * n < (if (n =? 3) && (negb (f =? 24) || (c =? 3)) then 366 else 365).
Proof.
  intros d1 c d2 f d3 n.
  assert (0 <= d1 < 146097) by (apply Z.mod_pos_bound; lia).
  assert (0 <= c <= 3 /\ 0 <= d2 /\ (d2 < 36524 \/ c = 3 /\ d2 < 36525)) as (? & ? & ?).
  { unfold c, d2, c. clearbody d1. clear - H. Z.to_euclidean_division_equations. lia. }
  assert (0 <= f <= 24 /\ 0 <= d3 < 1461 /\ (f = 24 -> c <> 3 -> d3 < 1460)) as (? & ? & ?).
  { unfold f, d3, f. clearbody d2 c. Z.to_euclidean_division_equations. lia. }
  assert (0 <= n <= 3 /\ 0 <= d3 - 365 * n /\ (d3 - 365 * n < 365 \/ n = 3 /\ d3 = 1460)) as (? & ? & ?).
  { unfold n. clearbody d3. Z.to_euclidean_division_equations. lia. }
  split_and!; try lia.
  clearbody n d3 f c. destruct (Z.eqb_spec n 3), (Z.eqb_spec f 24), (Z.eqb_spec c 3); cbn; lia.
Qed.

Lemma leap_parts (q c f n : Z) :
  0 <= c <= 3 -> 0 <= f <= 24 -> 0 <= n <= 3 ->
  is_leap (400 * q + 100 * c + 4 * f + n + 1) = (n =? 3) && (negb (f =? 24) || (c =? 3)).
Proof.
  intros Hc Hf Hn. unfold is_leap. set (y := 400 * q + 100 * c + 4 * f + n + 1).
  assert (y mod 4 = (n + 1) mod 4) as -> by (unfold y; Z.to_euclidean_division_equations; lia).
  assert (y mod 100 = (4 * f + n + 1) mod 100) as -> by (unfold y; Z.to_euclidean_division_equations; lia).
  assert (y mod 400 = (100 * c + 4 * f + n + 1) mod 400) as -> by (unfold y; Z.to_euclidean_division_equations; lia).
  clear y.
  destruct (Z.eqb_spec n 3) as [->|]; [|destruct (Z.eqb_spec ((n + 1) mod 4) 0); [|done];
    Z.to_euclidean_division_equations; lia].
  change ((3 + 1) mod 4 =? 0) with true. cbn [andb].
  destruct (Z.eqb_spec f 24) as [->|]; cbn [negb orb].
  - change ((4 * 24 + 3 + 1) mod 100 =? 0) with true. cbn [negb orb].
    destruct (Z.eqb_spec c 3) as [->|]; [done|].
    apply Z.eqb_neq. Z.to_euclidean_division_equations. lia.
  - apply orb_true_iff. left. apply negb_true_iff, Z.eqb_neq.
    Z.to_euclidean_division_equations. lia.
Qed.

Lemma year_days_parts (q c f n : Z) :
  0 <= c <= 3 -> 0 <= f <= 24 -> 0 <= n <= 3 ->
  year_days (400 * q + 100 * c + 4 * f + n + 1) = 146097 * q + 36524 * c + 1461 * f + 365 * n.
Proof.
  intros Hc Hf Hn. unfold year_days.
  replace (400 * q + 100 * c + 4 * f + n + 1 - 1) with (400 * q + (100 * c + 4 * f + n)) by lia.
  set (r := 100 * c + 4 * f + n).
  assert ((400 * q + r) / 400 = q /\ (400 * q + r) mod 400 = r) as [-> ->]
    by (unfold r; Z.to_euclidean_division_equations; lia).
  assert (r / 100 = c /\ r mod 100 = 4 * f + n) as [-> ->]
    by (unfold r; Z.to_euclidean_division_equations; lia).
  assert ((4 * f + n) / 4 = f /\ (4 * f + n) mod 4 = n) as [-> ->]
    by (Z.to_euclidean_division_equations; lia).
  done.
Qed.

(** The date of a day is a valid date, and it is the date of that day only. *)
Lemma civil_spec (d y m day : Z) :
  civil d = (y, m, day) ->
  days_since y m day = d /\ 1 <= m <= 12 /\ 1 <= day <= days_in m y.
Proof.
  unfold civil. intros H. pose proof (civil_parts d) as Hp. cbv zeta in Hp, H.
  set (q := d / 146097) in *.
  set (c := d mod 146097 / 36524 - d mod 146097 / 36524 / 4) in *.
  set (d2 := d mod 146097 - 36524 * c) in *. set (f := d2 / 1461) in *.
  set (d3 := d2 - 1461 * f) in *. set (n := d3 / 365 - d3 / 365 / 4) in *.
  destruct Hp as (Hc & Hf & Hn & H0 & H1).
  assert (d = 146097 * q + 36524 * c + 1461 * f + 365 * n + (d3 - 365 * n)) as Hd.
  { unfold d3, d2, q. pose proof (Z.div_mod d 146097). lia. }
  clearbody q c f n. clearbody d3. clear d2.
  rewrite <- (leap_parts q c f n) in H1 by done.
  pose proof (month_day_ok _ _ (conj H0 H1)) as Hok. unfold days_ok in Hok.
  destruct (month_day _ _) as [m' day']. simplify_eq. to_prop.
  unfold days_since, days_in. rewrite year_days_parts by done. lia.
Qed.

(** ** Parsing inverts formatting *)

Lemma digits_value_pad (w : nat) (n acc : Z) :
  0 <= n < 10 ^ Z.of_nat w ->
  digits_value (pad w n) acc = Some (acc * 10 ^ Z.of_nat w + n).
Proof.
  revert n acc. induction w as [|w IH]; intros n acc Hn.
  - cbn in *. f_equal. lia.
  - rewrite Nat2Z.inj_succ, Z.pow_succ_r in * by lia. cbn [pad].
    pose proof (Z.mod_pos_bound n 10 eq_refl). pose proof (Z.div_mod n 10).
    rewrite digits_value_app, IH by (split; [apply Z.div_pos; lia|apply Z.div_lt_upper_bound; lia]).
    cbn [mbind option_bind digits_value]. rewrite digit_value_char by done.
    cbn. f_equal. lia.
Qed.

Lemma length_pad (w : nat) (n : Z) : length (pad w n) = w.
Proof. revert n. induction w as [|w IH]; intros n; cbn; [done|]. rewrite length_app, IH. cbn. lia. Qed.

Lemma pad_digits (w : nat) (n : Z) : forallb is_digit (pad w n) = true.
Proof.
  revert n. induction w as [|w IH]; intros n; [done|]. cbn [pad].
  rewrite forallb_app, IH, digit_char_plain by (apply Z.mod_pos_bound; lia). done.
Qed.

Lemma getnum_pad (fixed : bool) (n : Z) (t : str) :
  0 <= n < 100 -> getnum fixed (pad 2 n ++ t) = Some (n, t).
Proof.
  intros Hn. cbn [pad app getnum].
  assert (0 <= n / 10 < 10 /\ 0 <= n mod 10 < 10) as [H1 H2] by (Z.to_euclidean_division_equations; lia).
  rewrite (Z.mod_small (n / 10)) by lia. rewrite !digit_value_char by lia.
  do 2 f_equal. pose proof (Z.div_mod n 10). lia.
Qed.

Lemma checked_getnum (fixed : bool) (lo hi n : Z) (t : str) :
  lo <= n <= hi -> 0 <= n < 100 ->
  checked lo hi (getnum fixed (pad 2 n ++ t)) = Some (n, t).
Proof.
  intros H Hn. rewrite getnum_pad by done. cbn.
  by rewrite (proj2 (Z.leb_le lo n)), (proj2 (Z.leb_le n hi)) by lia.
Qed.

Lemma getyear_pad (y : Z) (t : str) : 0 <= y < 10000 -> getyear (pad 4 y ++ t) = Some (y, t).
Proof.
  intros Hy. unfold getyear. rewrite length_app, length_pad.
  change (4 + length t <? 4)%nat with false. cbv iota.
  rewrite (take_app_length' _ _ 4), (drop_app_length' _ _ 4) by (by rewrite length_pad).
  rewrite digits_value_pad by done. done.
Qed.

Lemma lit_cons (c : ascii) (s : str) : lit c (c :: s) = Some s.
Proof. unfold lit. by rewrite beq_refl. Qed.

(** *** The fraction *)

Definition no_digit (t : str) : Prop :=
  match t with c :: _ => is_digit c = false /\ beq c "." = false /\ beq c "," = false | [] => True end.

Lemma split_digits_app (s t : str) :
  forallb is_digit s = true -> no_digit t -> split_digits (s ++ t) = (s, t).
Proof.
  intros Hs Ht. induction s as [|c s IH].
  - destruct t as [|c t]; [done|]. destruct Ht as (Hc & _). cbn. by rewrite Hc.
  - cbn [forallb] in Hs. to_prop. cbn [app split_digits].
    rewrite H, IH by done. done.
Qed.

Lemma digits_value_zeros (k : nat) (acc : Z) :
  digits_value (replicate k "0"%char) acc = Some (acc * 10 ^ Z.of_nat k).
Proof.
  revert acc. induction k as [|k IH]; intros acc; [cbn; f_equal; lia|].
  cbn [replicate digits_value]. change (digit_value "0") with (Some 0).
  cbn [mbind option_bind]. rewrite IH, Nat2Z.inj_succ, Z.pow_succ_r by lia. f_equal. lia.
Qed.

Lemma getfraction_format (ns : Z) (t : str) :
  0 <= ns < Second -> no_digit t -> getfraction (fraction ns ++ t) = Some (ns, t).
Proof.
  intros Hns Ht. unfold fraction. destruct (Z.eqb_spec ns 0) as [->|Hne].
  { destruct t as [|c t]; [done|]. destruct Ht as (_ & H1 & H2). cbn. by rewrite H1, H2. }
  cbn [app getfraction]. change (beq "." "." || beq "." ",") with true. cbv iota.
  destruct (TrimRight_split (pad 9 ns) "0") as (k & Hk).
  pose proof (digits_value_pad 9 ns 0 ltac:(done)) as Hv.
  pose proof (length_pad 9 ns) as Hl. pose proof (pad_digits 9 ns) as Hd.
  set (ds := TrimRight (pad 9 ns) "0") in *. rewrite Hk in Hv, Hl, Hd.
  rewrite forallb_app in Hd. to_prop. rewrite length_app, length_replicate in Hl.
  rewrite split_digits_app by done.
  rewrite digits_value_app in Hv.
  destruct (digits_value ds 0) as [v|] eqn:Ev; [|done]. cbn [mbind option_bind] in Hv.
  rewrite digits_value_zeros in Hv. injection Hv as Hv.
  destruct ds as [|d0 ds'] eqn:Eds.
  { cbn in Ev. injection Ev as <-. lia. }
  rewrite take_ge by lia. rewrite Ev. do 2 f_equal. unfold zlen.
  replace (9 - Z.of_nat (length (d0 :: ds'))) with (Z.of_nat k) by lia. lia.
Qed.

(** *** The zone *)

Lemma Atoi_pad2 (n : Z) : 0 <= n < 100 -> Atoi (pad 2 n) = Some n.
Proof.
  intros Hn.
  assert (H : forallb (fun n => bool_decide (Atoi (pad 2 n) = Some n)) (seqZ 0 100) = true) by by vm_compute.
  rewrite forallb_forall in H. eapply bool_decide_eq_true_1, H, list_elem_of_In, elem_of_seqZ. lia.
Qed.

Lemma getzone_format (m : Z) :
  -1440 < m < 1440 -> getzone (format_zone (60 * m)) = Some (60 * m, []) /\ no_digit (format_zone (60 * m)).
Proof.
  intros Hm. unfold format_zone. destruct (Z.eqb_spec (60 * m) 0) as [E|E].
  { by rewrite E. }
  rewrite (Z.mul_comm 60 m), Z.quot_mul by lia. rewrite (Z.mul_comm m 60).
  assert (0 <= Z.abs m / 60 < 100 /\ 0 <= Z.abs m mod 60 < 100) as [H1 H2]
    by (Z.to_euclidean_division_equations; lia).
  pose proof (Atoi_pad2 _ H1) as A1. pose proof (Atoi_pad2 _ H2) as A2.
  pose proof (Z.div_mod (Z.abs m) 60).
  split; [|by destruct (m <? 0)].
  cbn [pad app] in *. destruct (Z.ltb_spec m 0); cbn [getzone];
    [change (beq "-" "Z") with false|change (beq "+" "Z") with false]; cbv iota;
    change (beq ":" ":" && _) with true; cbv iota; rewrite A1, A2;
    [change (beq "-" "-") with true|change (beq "+" "-") with false]; cbv iota; do 2 f_equal; lia.
Qed.

Lemma parse_format_rfc3339 (t : Time) (m : Z) :
  -1440 < m < 1440 -> 0 <= Year t (60 * m) < 10000 ->
  parse_rfc3339 (format_rfc3339 t (60 * m)) = Some t.
Proof.
  intros Hm Hy. unfold Year in Hy. unfold parse_rfc3339, format_rfc3339.
  set (l := t + 60 * m * Second) in *.
  destruct (civil (l / day_ns)) as [[year mo] day] eqn:Ec. cbn [fst] in Hy.
  destruct (civil_spec _ _ _ _ Ec) as (Hd & Hmo & Hday).
  assert (day <= 31).
  { unfold days_in in Hday. destruct ((mo =? 2) && is_leap year); [lia|].
    assert (mo ∈ seqZ 1 12) as Hin by (apply elem_of_seqZ; lia).
    assert (Hall : Forall (fun m => days_before m - days_before (m - 1) <= 31) (seqZ 1 12))
      by (repeat constructor; vm_compute; done).
    rewrite Forall_forall in Hall. specialize (Hall mo Hin). lia. }
  assert (0 <= l mod day_ns < day_ns) as Hns by (apply Z.mod_pos_bound; done).
  pose proof (Z.div_mod l day_ns ltac:(done)) as Hl.
  set (ns := l mod day_ns) in *.
  assert (0 <= ns / Hour <= 23 /\ 0 <= ns / Minute mod 60 <= 59 /\ 0 <= ns / Second mod 60 <= 59
          /\ 0 <= ns mod Second < Second
          /\ ns = ns / Hour * Hour + ns / Minute mod 60 * Minute + ns / Second mod 60 * Second + ns mod Second)
    as (Hh & Hmi & Hs & Hf & Hsum).
  { clearbody ns. clear - Hns. unfold day_ns, Hour, Minute, Second in *.
    Z.to_euclidean_division_equations. lia. }
  destruct (getzone_format m Hm) as [Hz Hnd].
  rewrite getyear_pad by done. cbn [mbind option_bind]. rewrite lit_cons. cbn [mbind option_bind].
  rewrite checked_getnum by lia. cbn [mbind option_bind]. rewrite lit_cons. cbn [mbind option_bind].
  rewrite getnum_pad by lia. cbn [mbind option_bind]. rewrite lit_cons. cbn [mbind option_bind].
  rewrite checked_getnum by lia. cbn [mbind option_bind]. rewrite lit_cons. cbn [mbind option_bind].
  rewrite checked_getnum by lia. cbn [mbind option_bind]. rewrite lit_cons. cbn [mbind option_bind].
  rewrite checked_getnum by lia. cbn [mbind option_bind].
  rewrite getfraction_format by done. cbn [mbind option_bind]. rewrite Hz. cbn [mbind option_bind is_empty].
  rewrite (proj2 (Z.leb_le 1 day)), (proj2 (Z.leb_le day _)) by lia. cbn [andb].
  rewrite Hd. f_equal. unfold l in *. lia.
Qed.
