(* ===== verification/GoJson.v ===== *)
(** * [encoding/json]: [Marshal] and [Unmarshal]

    The program's functions are stated over the interface of a record type:
    [Codec], [Decoder], [Encoder].  The files of the records implement it on top
    of the generic part here: structs as lists of fields, and the scalar types.  [CodecLaws] is what the program relies on: what was
    encoded decodes to the record with its strings made valid UTF-8. *)

From S2P Require Import Prelude GoStrings GoTime GoStrconv GoUtf8 GoError GoJsonText GoJsonFacts GoRfc3339.
#[local] Open Scope Z_scope.

Class Codec (A : Type) := {
  json_Marshal : A -> result str;
  json_Unmarshal : str -> result A;
}.

Class CodecLaws (A : Type) `{!Codec A} (normal : A -> A) : Prop :=
  json_roundtrip : forall a s, json_Marshal a = Ok s -> json_Unmarshal s = Ok (normal a).

#[global] Arguments json_Marshal : simpl never.
#[global] Arguments json_Unmarshal : simpl never.

(** The decoder alone, for what the program only reads. *)
Class Decoder (A : Type) := json_Decode : str -> result A.

(** [json.NewEncoder(w).Encode(v)]: what it writes, with the final newline. *)
Class Encoder (A : Type) := json_Encode : A -> result str.

(** ** Scalars

    Storing a value over the current one: [null] leaves it, a value of another
    type is an error. *)
Definition store_string (v : json) (cur : str) : option str :=
  match v with JNull => Some cur | JStr raw => unquote raw | _ => None end.
Definition store_int (v : json) (cur : Z) : option Z :=
  match v with JNull => Some cur | JNum l => Atoi l | _ => None end.
Definition store_bool (v : json) (cur : bool) : option bool :=
  match v with JNull => Some cur | JBool b => Some b | _ => None end.
Definition store_time (v : json) (cur : Time) : option Time :=
  match v with JNull => Some cur | JStr raw => parse_rfc3339 raw | _ => None end.

(** A slice of strings: [null] makes it nil, an element is stored over the one in
    its place. *)
Fixpoint store_elems (vs : list json) (cur : list str) : option (list str) :=
  match vs with
  | [] => Some []
  | v :: vs' =>
      match store_string v (hd [] cur), store_elems vs' (tl cur) with
      | Some x, Some xs => Some (x :: xs)
      | _, _ => None
      end
  end.
Definition store_strings (v : json) (cur : list str) : option (list str) :=
  match v with JNull => Some [] | JArr vs => store_elems vs cur | _ => None end.

Definition dump_string (s : str) : option json := Some (JStr (quote_string s)).
Definition dump_int (n : Z) : option json := Some (JNum (Itoa n)).
Definition dump_strings (l : list str) : option json :=
  Some (JArr (map (fun s => JStr (quote_string s)) l)).
Definition dump_bool (b : bool) : option json := Some (JBool b).
Definition dump_time `{Location} (t : Time) : option json := JStr <$> marshal_time t.

(** ** Structs *)

Record Field (A : Type) := mkField {
  f_name : str;
  f_store : json -> A -> option A;
  f_dump : A -> option json }.
Arguments mkField {A} _ _ _.
Arguments f_name {A} _.
Arguments f_store {A} _ _ _.
Arguments f_dump {A} _ _.

(** A field of type [X], read with [get] and assigned with [set]. *)
Definition field {A X} (name : str) (store : json -> X -> option X) (dump : X -> option json)
    (get : A -> X) (set : X -> A -> A) : Field A :=
  mkField name (fun v a => (fun x => set x a) <$> store v (get a)) (fun a => dump (get a)).

(** A field that is checked but not kept. *)
Definition unread {A X} (name : str) (store : json -> X -> option X) (zero : X) : Field A :=
  mkField name (fun v a => (fun _ => a) <$> store v zero) (fun _ => None).

(** The field of an embedded struct, promoted. *)
Definition embed {A X} (get : A -> X) (set : X -> A -> A) (f : Field X) : Field A :=
  mkField (f_name f) (fun v a => (fun x => set x a) <$> f_store f v (get a)) (fun a => f_dump f (get a)).

Definition upper (c : ascii) : ascii := if in_range "a" "z" c then chr (ord c - 32) else c.

(** [equalFoldRight]: ASCII letters up to case, and the two letters of other
    scripts that fold to [s] and [k]. *)
Fixpoint fold_eq (name key : str) {struct name} : bool :=
  match name, key with
  | [], [] => true
  | s :: name', t :: key' =>
      if ord t <? 128 then
        (beq s t || (in_range "A" "Z" (upper s) && beq (upper s) (upper t))) && fold_eq name' key'
      else
        match decode_rune key with
        | Some (r, n) =>
            ((beq (upper s) "S" && (r =? 383)) || (beq (upper s) "K" && (r =? 8490)))
            && fold_eq name' (drop n key)
        | None => false
        end
  | _, _ => false
  end.

(** The field a key selects: the exact name, else the first that folds to it. *)
Definition find_field {A} (fs : list (Field A)) (key : str) : option (Field A) :=
  match List.find (fun f => streq (f_name f) key) fs with
  | Some f => Some f
  | None => List.find (fun f => fold_eq (f_name f) key) fs
  end.

Fixpoint store_members {A} (fs : list (Field A)) (ms : list (str * json)) (a : A) : option A :=
  match ms with
  | [] => Some a
  | (k, v) :: ms' =>
      match unquote k with
      | Some key =>
          match find_field fs key with
          | Some f => match f_store f v a with Some a' => store_members fs ms' a' | None => None end
          | None => store_members fs ms' a
          end
      | None => None
      end
  end.

Definition store_struct {A} (fs : list (Field A)) (v : json) (a : A) : option A :=
  match v with
  | JNull => Some a
  | JObj ms => store_members fs ms a
  | _ => None
  end.

Fixpoint dump_members {A} (fs : list (Field A)) (a : A) : option (list (str * json)) :=
  match fs with
  | [] => Some []
  | f :: fs' =>
      match f_dump f a, dump_members fs' a with
      | Some v, Some ms => Some ((f_name f, v) :: ms)
      | _, _ => None
      end
  end.
Definition dump_struct {A} (fs : list (Field A)) (a : A) : option json := JObj <$> dump_members fs a.

Definition struct_Marshal {A} (fs : list (Field A)) (a : A) : result str :=
  match dump_struct fs a with
  | Some v => Ok (json_text v)
  | None => Err (New "json: error calling MarshalJSON for type time.Time")
  end.
Definition struct_Unmarshal {A} (fs : list (Field A)) (zero : A) (s : str) : result A :=
  match json_parse s with
  | Some v => of_option (New "json: cannot unmarshal") (store_struct fs v zero)
  | None => Err (New "invalid JSON")
  end.
(** [json.NewDecoder(r).Decode(v)]: the first value of the stream. *)
Definition struct_Decode {A} (fs : list (Field A)) (zero : A) (s : str) : result A :=
  match parse_value (2 * length s) maxNestingDepth s with
  | Some (v, _) => of_option (New "json: cannot unmarshal") (store_struct fs v zero)
  | None => Err (New "invalid JSON")
  end.
Definition struct_Encode {A} (fs : list (Field A)) (a : A) : result str :=
  (fun s => s ++ [chr 10]) <$> struct_Marshal fs a.

(** The member of an object under a key that needs no escape. *)
Definition member (k : str) (v : json) : option json :=
  match v with
  | JObj ms => snd <$> List.find (fun kv => streq kv.1 k) ms
  | _ => None
  end.

(** ** Lemmas *)

Definition json_plain (c : ascii) : bool := html_safe c.

Lemma scans_plain_str (s : str) : forallb json_plain s = true -> scans s.
Proof.
  induction s as [|c s IH]; [intros; apply scans_nil|]. cbn [forallb]. intros H. to_prop.
  apply (scans_app [c]); [|auto]. unfold json_plain, html_safe in *. to_prop.
  cbn [existsb] in *. to_prop. by apply scans_plain.
Qed.

Lemma unquote_plain (s : str) : forallb json_plain s = true -> unquote s = Some s.
Proof.
  induction s as [|c s IH]; [done|]. cbn [forallb]. intros H. to_prop.
  match goal with H : json_plain c = true |- _ => rename H into Hc end.
  assert (ord c < 128) by (unfold json_plain, html_safe in Hc; to_prop; done).
  pose proof (unquote_byte c s ltac:(done)) as Hu. unfold quote_byte in Hu.
  unfold json_plain in Hc. rewrite Hc in Hu. cbn [app] in Hu. rewrite Hu. by rewrite IH.
Qed.

(** *** Numbers *)

Lemma digits_head (f : nat) (n : Z) :
  0 < n < 10 ^ Z.of_nat f -> exists d t, digits f n [] = digit_char d :: t /\ 1 <= d < 10.
Proof.
  revert n. induction f as [|f IH]; intros n Hn; [cbn in Hn; lia|].
  cbn [digits]. destruct (Z.ltb_spec n 10).
  { exists n, []. rewrite Z.mod_small by lia. split; [done|lia]. }
  rewrite digits_app. destruct (IH (n / 10)) as (d & t & E & Hd).
  { rewrite Nat2Z.inj_succ, Z.pow_succ_r in Hn by lia.
    split; [apply Z.div_str_pos; lia|apply Z.div_lt_upper_bound; lia]. }
  rewrite E. by exists d, (t ++ [digit_char (n mod 10)]).
Qed.

Lemma scan_digits_app (s t : str) :
  forallb is_digit s = true -> ends_number t -> scan_digits (s ++ t) = (s, t).
Proof.
  intros Hs Ht. induction s as [|c s IH].
  - destruct t as [|c t]; [done|]. cbn [app scan_digits].
    pose proof (byte_impl (fun c => existsb (beq c) number_end) (fun c => negb (is_digit c)) eq_refl c Ht) as Hc.
    cbv beta in Hc. to_prop. by rewrite Hc.
  - cbn [forallb] in Hs. to_prop. cbn [app scan_digits]. by rewrite H, IH.
Qed.

Lemma scan_no_tail (t : str) :
  ends_number t -> scan_fraction t = Some ([], t) /\ scan_exponent t = Some ([], t).
Proof.
  intros Ht. destruct t as [|c t]; [done|].
  pose proof (byte_impl (fun c => existsb (beq c) number_end)
    (fun c => negb (beq c "." || (beq c "e" || beq c "E"))) eq_refl c Ht) as Hc.
  cbv beta in Hc. to_prop. cbn [scan_fraction scan_exponent].
  repeat match goal with H : beq c _ = false |- _ => rewrite H; clear H end. done.
Qed.

Lemma scan_integer_digits (d : Z) (s t : str) :
  1 <= d < 10 -> forallb is_digit s = true -> ends_number t ->
  scan_integer ((digit_char d :: s) ++ t) = Some (digit_char d :: s, t).
Proof.
  intros Hd Hs Ht. unfold scan_integer. cbn [app].
  assert (beq (digit_char d) "0" = false) as ->.
  { assert (Hin : d ∈ seqZ 1 9) by (apply elem_of_seqZ; lia).
    assert (Hall : forallb (fun d => negb (beq (digit_char d) "0")) (seqZ 1 9) = true) by by vm_compute.
    rewrite forallb_forall in Hall. apply negb_true_iff, Hall. by apply list_elem_of_In. }
  unfold scan_digits1. change (digit_char d :: s ++ t) with ((digit_char d :: s) ++ t).
  rewrite scan_digits_app; [done| |done].
  change (forallb is_digit ([digit_char d] ++ s) = true).
  by rewrite forallb_app, digit_char_plain, Hs by lia.
Qed.

Lemma scan_number_pos (n : Z) (t sign : str) :
  0 <= n < 10 ^ 19 -> ends_number t ->
  exists i, digits 19 n [] = i /\ scan_integer (i ++ t) = Some (i, t).
Proof.
  intros Hn Ht. eexists. split; [reflexivity|].
  destruct (decide (n = 0)) as [->|Hne]; [done|].
  destruct (digits_head 19 n) as (d & s & E & Hd); [lia|].
  destruct (digits_spec 19 n) as (_ & _ & Hall); [lia|lia|].
  rewrite E in *. apply scan_integer_digits; try done.
  cbn [forallb] in Hall. by to_prop.
Qed.

Lemma number_ok_Itoa (z : Z) : in_int64 z -> number_ok (Itoa z).
Proof.
  unfold in_int64, min_int64, max_int64. intros Hz. split.
  - pose proof (Itoa_bytes z Hz) as Hb. pose proof (Atoi_Itoa z Hz) as Ha.
    destruct (Itoa z) as [|c l]; [done|]. exists c, l. split; [done|].
    cbn [forallb] in Hb. by to_prop.
  - intros t Ht. destruct (scan_no_tail t Ht) as [Hf He]. unfold Itoa.
    destruct (Z.ltb_spec z 0).
    + destruct (scan_number_pos (- z) t [] ltac:(lia) Ht) as (i & -> & Hi).
      unfold scan_number. cbn [app]. change (beq "-" "-") with true. cbv iota.
      rewrite Hi, Hf, He. cbn. by rewrite !app_nil_r.
    + destruct (scan_number_pos z t [] ltac:(lia) Ht) as (i & Ei & Hi).
      pose proof (digits_spec 19 z ltac:(lia) ltac:(lia)) as (_ & Hne & Hall). rewrite Ei in *.
      unfold scan_number. destruct i as [|c i]; [done|]. cbn [app].
      assert (beq c "-" = false) as ->.
      { apply beq_false. intros ->. cbn in Hall. done. }
      change (c :: i ++ t) with ((c :: i) ++ t). rewrite Hi, Hf, He. cbn. by rewrite !app_nil_r.
Qed.

(** *** Structs *)

Lemma store_dump_string (s : str) (cur : str) :
  store_string (JStr (quote_string s)) cur = Some (to_valid s).
Proof. apply unquote_quote_any. Qed.

Lemma canonical_dump_string (s : str) (v : json) :
  dump_string s = Some v -> canonical v /\ json_depth v <= 0.
Proof. intros [= <-]. split; [|done]. constructor. apply scans_quote_string. Qed.

Lemma canonical_dump_int (n : Z) (v : json) :
  in_int64 n -> dump_int n = Some v -> canonical v /\ json_depth v <= 0.
Proof. intros Hn [= <-]. split; [|done]. constructor. by apply number_ok_Itoa. Qed.

Lemma canonical_dump_bool (b : bool) (v : json) :
  dump_bool b = Some v -> canonical v /\ json_depth v <= 0.
Proof. intros [= <-]. split; [|done]. constructor. Qed.

(** A time that can be written reads back, and needs no escape. *)
Lemma zone_minutes `{LocationLaws} (t : Time) : exists m, zone_of t = 60 * m /\ -1440 < m < 1440.
Proof.
  unfold zone_of. destruct (t =? zero_time); [exists 0; split; [done|lia]|apply local_offset_minutes].
Qed.

Lemma parse_marshal_time `{LocationLaws} (t : Time) (s : str) :
  marshal_time t = Some s -> parse_rfc3339 s = Some t.
Proof.
  unfold marshal_time. destruct (zone_minutes t) as (m & -> & Hm).
  destruct ((_ <? 0) || _) eqn:E; [done|]. intros [= <-]. to_prop.
  apply parse_format_rfc3339; lia.
Qed.

Definition time_char (c : ascii) : bool := is_digit c || existsb (beq c) $"-T:.Z+".

Lemma pad_time (w : nat) (n : Z) : forallb time_char (pad w n) = true.
Proof.
  eapply forallb_impl; [|apply (pad_digits w n)]. intros c _ H. unfold time_char. by rewrite H.
Qed.

Lemma fraction_time (n : Z) : forallb time_char (fraction n) = true.
Proof.
  unfold fraction. destruct (n =? 0); [done|]. cbn [forallb].
  change (time_char ".") with true. cbn [andb].
  destruct (TrimRight_split (pad 9 n) "0") as (k & E). pose proof (pad_time 9 n) as H.
  rewrite E, forallb_app in H. by to_prop.
Qed.

Lemma zone_time (off : Z) : forallb time_char (format_zone off) = true.
Proof.
  unfold format_zone. destruct (off =? 0); [done|]. cbn [forallb].
  rewrite forallb_app. cbn [forallb]. rewrite !pad_time. by destruct (_ <? 0).
Qed.

Lemma format_time (t : Time) (off : Z) : forallb time_char (format_rfc3339 t off) = true.
Proof.
  unfold format_rfc3339. destruct (civil _) as [[y m] d].
  repeat (rewrite forallb_app || (cbn [forallb])). by rewrite !pad_time, fraction_time, zone_time.
Qed.

Lemma scans_time (s : str) : forallb time_char s = true -> scans s.
Proof.
  intros H. apply scans_plain_str. eapply forallb_impl; [|exact H].
  intros c _. by apply (byte_impl time_char json_plain).
Qed.

Lemma canonical_dump_time `{Location} (t : Time) (v : json) :
  dump_time t = Some v -> canonical v /\ json_depth v <= 0.
Proof.
  unfold dump_time, marshal_time. destruct (_ || _); [done|]. intros [= <-].
  split; [|done]. constructor. apply scans_time, format_time.
Qed.

Lemma store_dump_time `{LocationLaws} (t : Time) (v : json) (cur : Time) :
  dump_time t = Some v -> store_time v cur = Some t.
Proof.
  unfold dump_time. destruct (marshal_time t) as [s|] eqn:E; [|done]. intros [= <-].
  by apply parse_marshal_time.
Qed.

(** What the fields of a struct must be for its values to print canonically. *)
Definition field_ok {A} (n : Z) (a : A) (f : Field A) : Prop :=
  forallb json_plain (f_name f) = true
  /\ forall v, f_dump f a = Some v -> canonical v /\ json_depth v <= n.

Lemma dump_struct_canonical {A} (fs : list (Field A)) (n : Z) (a : A) (v : json) :
  0 <= n -> Forall (field_ok n a) fs -> dump_struct fs a = Some v -> canonical v /\ json_depth v <= 1 + n.
Proof.
  intros Hn Hfs. unfold dump_struct. destruct (dump_members fs a) as [ms|] eqn:E; [|done].
  intros [= <-].
  assert (Forall (fun kv => scans kv.1 /\ canonical kv.2) ms
          /\ foldr Z.max 0 (map (fun kv => json_depth kv.2) ms) <= n) as [Hc Hd].
  { revert ms E. induction Hfs as [|f fs [Hp Hf] _ IH]; intros ms E; cbn [dump_members] in E.
    - by injection E as <-.
    - destruct (f_dump f a) as [x|] eqn:Ex; [|done]. destruct (dump_members fs a) as [ms'|]; [|done].
      injection E as <-. destruct (Hf x eq_refl) as [Hx Hxd]. destruct (IH ms' eq_refl) as [H1 H2].
      split; [constructor; [|done]; split; [by apply scans_plain_str|done]|]. cbn. lia. }
  split; [by constructor|]. cbn. lia.
Qed.

Lemma field_dump {A X} (name : str) st (dump : X -> option json) (get : A -> X) set (n : Z) (a : A) :
  forallb json_plain name = true ->
  (forall v, dump (get a) = Some v -> canonical v /\ json_depth v <= n) ->
  field_ok n a (field name st dump get set).
Proof. by split. Qed.

Lemma embed_ok {A X} (get : A -> X) (set : X -> A -> A) (fs : list (Field X)) (n : Z) (a : A) :
  Forall (field_ok n (get a)) fs -> Forall (field_ok n a) (map (embed get set) fs).
Proof. induction 1 as [|f fs [Hp Hd] _ IH]; constructor; [split; [exact Hp|exact Hd]|exact IH]. Qed.

Lemma field_ok_mono {A} (n m : Z) (a : A) (fs : list (Field A)) :
  n <= m -> Forall (field_ok n a) fs -> Forall (field_ok m a) fs.
Proof.
  intros Hle. induction 1 as [|f fs [Hp Hd] _ IH]; constructor; [|done]. split; [done|].
  intros v Hv. destruct (Hd v Hv). split; [done|lia].
Qed.

(** Reading one member back. *)
Lemma store_members_cons {A} (fs : list (Field A)) (f : Field A) (k : str) (v : json) ms (a a' : A) :
  find_field fs k = Some f -> forallb json_plain k = true ->
  f_store f v a = Some a' ->
  store_members fs ((k, v) :: ms) a = store_members fs ms a'.
Proof. intros Hf Hp Hs. cbn [store_members]. by rewrite unquote_plain, Hf, Hs. Qed.

Lemma struct_roundtrip {A} (fs : list (Field A)) (zero a a' : A) (n : Z) (s : str) :
  0 <= n < 100 -> Forall (field_ok n a) fs ->
  (forall v, dump_struct fs a = Some v -> store_struct fs v zero = Some a') ->
  struct_Marshal fs a = Ok s -> struct_Unmarshal fs zero s = Ok a'.
Proof.
  intros Hn Hfs Hstore. unfold struct_Marshal.
  destruct (dump_struct fs a) as [v|] eqn:E; [|done]. intros [= <-].
  destruct (dump_struct_canonical fs n a v ltac:(lia) Hfs E) as [Hc Hd].
  unfold struct_Unmarshal. rewrite json_parse_text by (done || unfold maxNestingDepth; lia).
  by rewrite (Hstore v eq_refl).
Qed.

(** The same through a stream: [Decode] of what [Encode] writes. *)
Lemma struct_stream_roundtrip {A} (fs : list (Field A)) (zero a a' : A) (n : Z) (s : str) :
  0 <= n < 100 -> Forall (field_ok n a) fs ->
  (forall v, dump_struct fs a = Some v -> store_struct fs v zero = Some a') ->
  struct_Encode fs a = Ok s -> struct_Decode fs zero s = Ok a'.
Proof.
  intros Hn Hfs Hstore. unfold struct_Encode, struct_Marshal.
  destruct (dump_struct fs a) as [v|] eqn:E; [|done]. intros [= <-].
  destruct (dump_struct_canonical fs n a v ltac:(lia) Hfs E) as [Hc Hd].
  unfold struct_Decode.
  rewrite (parse_text v Hc _ maxNestingDepth [chr 10]).
  - by rewrite (Hstore v eq_refl).
  - done.
  - unfold maxNestingDepth. lia.
  - rewrite length_app. lia.
Qed.

(** What a struct encodes to is JSON, and parses to its tree. *)
Lemma struct_Encode_json {A} (fs : list (Field A)) (n : Z) (a : A) (s : str) :
  0 <= n < 100 -> Forall (field_ok n a) fs -> struct_Encode fs a = Ok s ->
  exists v t, dump_struct fs a = Some v /\ s = t ++ [chr 10] /\ json_parse t = Some v.
Proof.
  intros Hn Hfs. unfold struct_Encode, struct_Marshal.
  destruct (dump_struct fs a) as [v|] eqn:E; [|done]. intros [= <-].
  destruct (dump_struct_canonical fs n a v ltac:(lia) Hfs E) as [Hc Hd].
  exists v, (json_text v). rewrite json_parse_text by (done || unfold maxNestingDepth; lia). done.
Qed.

(** The fields of a record, one after the other. *)
Ltac fields_ok :=
  repeat (apply Forall_cons; split;
          [apply field_dump; [reflexivity|intros ?]|]); try apply Forall_nil; try done.
Ltac store_fields tac :=
  repeat (erewrite store_members_cons; [|reflexivity|reflexivity|cbn; tac; reflexivity]);
  try reflexivity.

(** ** An invariant of what [Unmarshal] builds *)

Lemma store_string_utf8 (v : json) (cur s : str) :
  valid_utf8 cur = true -> store_string v cur = Some s -> valid_utf8 s = true.
Proof. destruct v; cbn; intros Hc H; simplify_eq; [done|]. by eapply unquote_utf8. Qed.

Lemma find_field_elem {A} (fs : list (Field A)) (key : str) (f : Field A) :
  find_field fs key = Some f -> f ∈ fs.
Proof.
  unfold find_field. destruct (List.find _ fs) as [g|] eqn:E.
  - intros [= <-]. by apply find_some in E as [E%list_elem_of_In _].
  - intros [H%list_elem_of_In _]%find_some. done.
Qed.

Lemma store_members_inv {A} (P : A -> Prop) (fs : list (Field A)) ms (a a' : A) :
  Forall (fun f => forall v a a', P a -> f_store f v a = Some a' -> P a') fs ->
  P a -> store_members fs ms a = Some a' -> P a'.
Proof.
  intros Hfs. revert a. induction ms as [|[k v] ms IH]; intros a Ha H; cbn in H; [by simplify_eq|].
  destruct (unquote k) as [key|]; [|done].
  destruct (find_field fs key) as [f|] eqn:Ef; [|by eapply IH].
  destruct (f_store f v a) as [a1|] eqn:Es; [|done].
  eapply IH; [|exact H]. rewrite Forall_forall in Hfs. eapply Hfs; [by eapply find_field_elem|done|done].
Qed.

Lemma struct_Unmarshal_inv {A} (P : A -> Prop) (fs : list (Field A)) (zero a : A) (s : str) :
  Forall (fun f => forall v a a', P a -> f_store f v a = Some a' -> P a') fs ->
  P zero -> struct_Unmarshal fs zero s = Ok a -> P a.
Proof.
  intros Hfs Hz. unfold struct_Unmarshal. destruct (json_parse s) as [v|]; [|done].
  destruct (store_struct fs v zero) as [b|] eqn:E; [|done]. intros [= <-].
  unfold store_struct in E. destruct v; try done; [by simplify_eq|]. by eapply store_members_inv.
Qed.

(** A field's store acts on its part only. *)
Lemma field_store_inv {A X} (P : A -> Prop) (name : str) store dump (get : A -> X) set :
  (forall v a x, P a -> store v (get a) = Some x -> P (set x a)) ->
  forall v a a', P a -> f_store (field name store dump get set) v a = Some a' -> P a'.
Proof.
  intros H v a a' Ha. cbn. destruct (store v (get a)) as [x|] eqn:E; [|done].
  intros [= <-]. by eapply H.
Qed.

(** After a field was stored, the record's strings are still text. *)
Ltac text_fields :=
  to_prop;
  repeat match goal with Hc : valid_utf8 ?c = true, Hx : store_string _ ?c = Some ?x |- _ =>
    pose proof (store_string_utf8 _ _ _ Hc Hx); clear Hx end;
  repeat match goal with H : valid_utf8 ?a = true |- context [valid_utf8 ?a] => rewrite H end; done.
Ltac fields_inv tac :=
  repeat (apply Forall_cons_2; [apply field_store_inv; tac|]); try apply Forall_nil_2.
