(* ===== verification/Config.v ===== *)
(** * Configuration: [pkg/config] and [pkg/openid/config], [pkg/openid/scopes]

    The configuration records, their validation, and the client and provider
    configurations derived from them; the provider's come from its metadata
    document, fetched and decoded.  [Initialize] has the flags and the
    environment. *)

From S2P Require Import Prelude GoStrings GoTime GoUrl GoError GoJsonText GoJson.

(** ** [pkg/config] *)

Record SessionConfig := {
  Inactivity : bool;
  InactivityTimeout : Duration;
  MaxLifetime : Duration;
  Refresh : bool }.

Record LoginstatusConfig := {
  ls_Enabled : bool;
  ls_CookieDomain : str;
  ls_CookieName : str;
  ls_ResourceIndicator : str;
  ls_TokenURL : str }.

Record OpenIDConfig := {
  oc_Provider : str;
  oc_ClientID : str;
  oc_ClientJWK : str;
  oc_PostLogoutRedirectURI : str;
  oc_Scopes : list str;
  oc_WellKnownURL : str;
  oc_ACRValues : str;
  oc_UILocales : str }.

Record RedisConfig := { rd_Address : str; rd_Username : str; rd_Password : str; rd_TLS : bool }.

(** [Redis.Client]: the options of the client. *)
Record RedisOptions := {
  ro_Network : str; ro_Addr : str; ro_Username : str; ro_Password : str; ro_MinIdleConns : Z;
  ro_TLS : bool }.
Definition Redis_Client (r : RedisConfig) : RedisOptions :=
  {| ro_Network := $"tcp"; ro_Addr := rd_Address r; ro_Username := rd_Username r;
     ro_Password := rd_Password r; ro_MinIdleConns := 1; ro_TLS := rd_TLS r |}.

Record Config := {
  cfg_BindAddress : str;
  cfg_LogFormat : str;
  cfg_LogLevel : str;
  cfg_MetricsBindAddress : str;
  cfg_AutoLogin : bool;
  cfg_AutoLoginIgnorePaths : list str;
  cfg_EncryptionKey : str;
  cfg_ErrorPath : str;
  cfg_Ingresses : list str;
  cfg_Session : SessionConfig;
  cfg_UpstreamHost : str;
  cfg_OpenID : OpenIDConfig;
  cfg_Redis : RedisConfig;
  cfg_Loginstatus : LoginstatusConfig }.

Definition ProviderAzure : str := $"azure".
Definition ProviderIDPorten : str := $"idporten".
Definition ProviderOpenID : str := $"openid".

(** [Config.Validate] *)
Definition Validate (c : Config) : result unit :=
  if Inactivity (cfg_Session c) && negb (Refresh (cfg_Session c))
  then Err (New "session.inactivity cannot be enabled without session.refresh")
  else Ok tt.

(** ** [pkg/openid/scopes] *)

Abbreviation Scopes := (list str).
Definition DefaultScopes : Scopes := [$"openid"].
Definition WithAdditional (s : Scopes) (scopes : list str) : Scopes := s ++ scopes.
Definition WithAzureScope (s : Scopes) (clientID : str) : Scopes :=
  s ++ [$"api://" ++ clientID ++ $"/.default"].
Definition WithOfflineAccess (s : Scopes) : Scopes := s ++ [$"offline_access"].
Definition Scopes_String (s : Scopes) : str := Join s $" ".

(** ** [pkg/openid/config]: the client *)

(** The dynamic type of the [Client] interface value. *)
Inductive ClientKind := KindOpenID | KindAzure | KindIDPorten.

Record Client (Key : Type) := {
  cl_kind : ClientKind;
  cl_OpenID : OpenIDConfig;
  cl_jwk : Key }.
Arguments cl_kind {Key}.
Arguments cl_OpenID {Key}.
Arguments cl_jwk {Key}.

Section ClientConfig.
Context {Key : Type} (parseKey : str -> result Key).   (* jwk.ParseKey *)

Definition ACRValues (c : Client Key) : str := oc_ACRValues (cl_OpenID c).
Definition ClientID (c : Client Key) : str := oc_ClientID (cl_OpenID c).
Definition ClientJWK (c : Client Key) : Key := cl_jwk c.
Definition PostLogoutRedirectURI (c : Client Key) : str := oc_PostLogoutRedirectURI (cl_OpenID c).
Definition UILocales (c : Client Key) : str := oc_UILocales (cl_OpenID c).
Definition WellKnownURL (c : Client Key) : str := oc_WellKnownURL (cl_OpenID c).

(** [Scopes()], overridden by the azure client. *)
Definition ClientScopes (c : Client Key) : Scopes :=
  match cl_kind c with
  | KindAzure =>
      WithAdditional
        (WithOfflineAccess (WithAzureScope DefaultScopes (oc_ClientID (cl_OpenID c))))
        (oc_Scopes (cl_OpenID c))
  | _ => WithAdditional DefaultScopes (oc_Scopes (cl_OpenID c))
  end.

Definition NewClientConfig (cfg : Config) : result (Client Key) :=
  let o := cfg_OpenID cfg in
  if is_empty (oc_ClientJWK o) then Err (New "missing required config openid.client-jwk")
  else
    key ← wrap "parsing client JWK" (parseKey (oc_ClientJWK o));
    kind ← (if streq (oc_Provider o) ProviderIDPorten then Ok KindIDPorten
            else if streq (oc_Provider o) ProviderAzure then Ok KindAzure
            else if is_empty (oc_Provider o)
                 then Err (New "missing required config openid.provider")
                 else Ok KindOpenID);
    let c := {| cl_kind := kind; cl_OpenID := o; cl_jwk := key |} in
    if is_empty (ClientID c) then Err (New "missing required config openid.client-id")
    else if is_empty (WellKnownURL c)
         then Err (New "missing required config openid.well-known-url")
         else Ok c.
End ClientConfig.

(** ** [pkg/openid/config]: the provider *)

Abbreviation Supported := (list str).

(** [Supported.Contains] *)
Fixpoint Supported_Contains (allowed : Supported) (value : str) : bool :=
  match allowed with
  | [] => false
  | a :: rest => if streq a value then true else Supported_Contains rest value
  end.

(** The fields of [ProviderMetadata] the program reads. *)
Record ProviderMetadata := {
  pm_Issuer : str;
  pm_AuthorizationEndpoint : str;
  pm_TokenEndpoint : str;
  pm_EndSessionEndpoint : str;
  pm_JwksURI : str;
  pm_UILocalesSupported : Supported;
  pm_ACRValuesSupported : Supported;
  pm_FrontchannelLogoutSupported : bool;
  pm_FrontchannelLogoutSessionSupported : bool;
  pm_CheckSessionIframe : str }.

(** The document's fields; those the program only prints are checked, not kept. *)
Definition ProviderMetadata_fields : list (Field ProviderMetadata) := [
  field $"issuer" store_string dump_string pm_Issuer
    (fun x m => Build_ProviderMetadata x (pm_AuthorizationEndpoint m) (pm_TokenEndpoint m)
       (pm_EndSessionEndpoint m) (pm_JwksURI m) (pm_UILocalesSupported m)
       (pm_ACRValuesSupported m) (pm_FrontchannelLogoutSupported m)
       (pm_FrontchannelLogoutSessionSupported m) (pm_CheckSessionIframe m));
  field $"authorization_endpoint" store_string dump_string pm_AuthorizationEndpoint
    (fun x m => Build_ProviderMetadata (pm_Issuer m) x (pm_TokenEndpoint m)
       (pm_EndSessionEndpoint m) (pm_JwksURI m) (pm_UILocalesSupported m)
       (pm_ACRValuesSupported m) (pm_FrontchannelLogoutSupported m)
       (pm_FrontchannelLogoutSessionSupported m) (pm_CheckSessionIframe m));
  unread $"pushed_authorization_request_endpoint" store_string [];
  field $"token_endpoint" store_string dump_string pm_TokenEndpoint
    (fun x m => Build_ProviderMetadata (pm_Issuer m) (pm_AuthorizationEndpoint m) x
       (pm_EndSessionEndpoint m) (pm_JwksURI m) (pm_UILocalesSupported m)
       (pm_ACRValuesSupported m) (pm_FrontchannelLogoutSupported m)
       (pm_FrontchannelLogoutSessionSupported m) (pm_CheckSessionIframe m));
  field $"end_session_endpoint" store_string dump_string pm_EndSessionEndpoint
    (fun x m => Build_ProviderMetadata (pm_Issuer m) (pm_AuthorizationEndpoint m)
       (pm_TokenEndpoint m) x (pm_JwksURI m) (pm_UILocalesSupported m)
       (pm_ACRValuesSupported m) (pm_FrontchannelLogoutSupported m)
       (pm_FrontchannelLogoutSessionSupported m) (pm_CheckSessionIframe m));
  unread $"revocation_endpoint" store_string [];
  field $"jwks_uri" store_string dump_string pm_JwksURI
    (fun x m => Build_ProviderMetadata (pm_Issuer m) (pm_AuthorizationEndpoint m)
       (pm_TokenEndpoint m) (pm_EndSessionEndpoint m) x (pm_UILocalesSupported m)
       (pm_ACRValuesSupported m) (pm_FrontchannelLogoutSupported m)
       (pm_FrontchannelLogoutSessionSupported m) (pm_CheckSessionIframe m));
  unread $"response_types_supported" store_strings [];
  unread $"response_modes_supported" store_strings [];
  unread $"subject_types_supported" store_strings [];
  unread $"id_token_signing_alg_values_supported" store_strings [];
  unread $"code_challenge_methods_supported" store_strings [];
  unread $"userinfo_endpoint" store_string [];
  unread $"scopes_supported" store_strings [];
  field $"ui_locales_supported" store_strings dump_strings pm_UILocalesSupported
    (fun x m => Build_ProviderMetadata (pm_Issuer m) (pm_AuthorizationEndpoint m)
       (pm_TokenEndpoint m) (pm_EndSessionEndpoint m) (pm_JwksURI m) x
       (pm_ACRValuesSupported m) (pm_FrontchannelLogoutSupported m)
       (pm_FrontchannelLogoutSessionSupported m) (pm_CheckSessionIframe m));
  field $"acr_values_supported" store_strings dump_strings pm_ACRValuesSupported
    (fun x m => Build_ProviderMetadata (pm_Issuer m) (pm_AuthorizationEndpoint m)
       (pm_TokenEndpoint m) (pm_EndSessionEndpoint m) (pm_JwksURI m) (pm_UILocalesSupported
       m) x (pm_FrontchannelLogoutSupported m) (pm_FrontchannelLogoutSessionSupported m)
       (pm_CheckSessionIframe m));
  field $"frontchannel_logout_supported" store_bool dump_bool pm_FrontchannelLogoutSupported
    (fun x m => Build_ProviderMetadata (pm_Issuer m) (pm_AuthorizationEndpoint m)
       (pm_TokenEndpoint m) (pm_EndSessionEndpoint m) (pm_JwksURI m) (pm_UILocalesSupported
       m) (pm_ACRValuesSupported m) x (pm_FrontchannelLogoutSessionSupported m)
       (pm_CheckSessionIframe m));
  field $"frontchannel_logout_session_supported" store_bool dump_bool pm_FrontchannelLogoutSessionSupported
    (fun x m => Build_ProviderMetadata (pm_Issuer m) (pm_AuthorizationEndpoint m)
       (pm_TokenEndpoint m) (pm_EndSessionEndpoint m) (pm_JwksURI m) (pm_UILocalesSupported
       m) (pm_ACRValuesSupported m) (pm_FrontchannelLogoutSupported m) x
       (pm_CheckSessionIframe m));
  unread $"introspection_endpoint" store_string [];
  unread $"token_endpoint_auth_methods_supported" store_strings [];
  unread $"request_parameter_supported" store_bool false;
  unread $"request_uri_parameter_supported" store_bool false;
  unread $"request_object_signing_alg_values_supported" store_strings [];
  field $"check_session_iframe" store_string dump_string pm_CheckSessionIframe
    (fun x m => Build_ProviderMetadata (pm_Issuer m) (pm_AuthorizationEndpoint m)
       (pm_TokenEndpoint m) (pm_EndSessionEndpoint m) (pm_JwksURI m) (pm_UILocalesSupported
       m) (pm_ACRValuesSupported m) (pm_FrontchannelLogoutSupported m)
       (pm_FrontchannelLogoutSessionSupported m) x)].
Definition zero_metadata : ProviderMetadata :=
  Build_ProviderMetadata [] [] [] [] [] [] [] false false [].
#[global] Instance ProviderMetadata_decoder : Decoder ProviderMetadata :=
  struct_Decode ProviderMetadata_fields zero_metadata.

Record Provider := {
  pr_endSessionEndpointURL : URL;
  pr_metadata : ProviderMetadata;
  pr_name : str }.

Definition SessionStateRequired (p : Provider) : bool :=
  negb (is_empty (pm_CheckSessionIframe (pr_metadata p))).
Definition SidClaimRequired (p : Provider) : bool :=
  pm_FrontchannelLogoutSupported (pr_metadata p)
  && pm_FrontchannelLogoutSessionSupported (pr_metadata p).
Definition ACRValuesSupported (p : Provider) : Supported := pm_ACRValuesSupported (pr_metadata p).
Definition UILocalesSupported (p : Provider) : Supported := pm_UILocalesSupported (pr_metadata p).

(** [http.Get(url)] *)
Definition http_Get {E : Env} {S} (url : str) : M S (result HTTPResponse) :=
  http_Do {| rq_method := $"GET"; rq_url := url; rq_header := []; rq_body := [] |}.

(** The configuration from the decoded document. *)
Definition provider_from (cfg : Config) (md : ProviderMetadata) : result Provider :=
  let o := cfg_OpenID cfg in
  if negb (is_empty (oc_ACRValues o))
     && negb (Supported_Contains (pm_ACRValuesSupported md) (oc_ACRValues o))
  then Err (New "identity provider does not support openid.acr-values")
  else if negb (is_empty (oc_UILocales o))
          && negb (Supported_Contains (pm_UILocalesSupported md) (oc_UILocales o))
  then Err (New "identity provider does not support openid.ui-locales")
  else
    u ← wrap "parsing end session endpoint URL"
          (of_option (New "url") (Parse (pm_EndSessionEndpoint md)));
    Ok {| pr_endSessionEndpointURL := u; pr_metadata := md; pr_name := oc_Provider o |}.

(** [NewProviderConfig]; the status of the response is not looked at. *)
Definition NewProviderConfig {E : Env} {S} (cfg : Config) : M S (result Provider) :=
  response ←? wrapM "fetching well known configuration"
                (http_Get (oc_WellKnownURL (cfg_OpenID cfg)));
  md ←? wrapM "decoding well known configuration"
          (pureR (body ← rs_body response; json_Decode body));
  pureR (provider_from cfg md).

(** [openidconfig.Config]: the pair the rest of the program is given. *)
Record OpenidCfg (Key : Type) := { oidc_Client : Client Key; oidc_Provider : Provider }.
Arguments oidc_Client {Key}.
Arguments oidc_Provider {Key}.

Definition NewConfig {E : Env} {S Key} (parseKey : str -> result Key) (cfg : Config)
    : M S (result (OpenidCfg Key)) :=
  c ←? pureR (NewClientConfig parseKey cfg);
  p ←? NewProviderConfig cfg;
  okM {| oidc_Client := c; oidc_Provider := p |}.

(** ** Lemmas *)

Lemma Supported_Contains_spec (s : Supported) (v : str) :
  Supported_Contains s v = true <-> v ∈ s.
Proof.
  induction s as [|a s IH]; cbn; [split; [done|set_solver]|].
  destruct (streq a v) eqn:E.
  - apply streq_true in E as ->. split; [set_solver|done].
  - apply streq_false in E. rewrite IH. set_solver.
Qed.

Lemma wrap_bind_Ok {A B} (msg : string) (r : result A) (f : A -> result B) (b : B) :
  (wrap msg r ≫= f) = Ok b -> exists a, r = Ok a /\ f a = Ok b.
Proof. destruct r; cbn; [|done]. eauto. Qed.

(** What a constructed provider configuration guarantees. *)
Lemma provider_from_inv (cfg : Config) (md : ProviderMetadata) (p : Provider) :
  provider_from cfg md = Ok p ->
  pr_metadata p = md /\ pr_name p = oc_Provider (cfg_OpenID cfg)
  /\ Parse (pm_EndSessionEndpoint md) = Some (pr_endSessionEndpointURL p)
  /\ (oc_ACRValues (cfg_OpenID cfg) <> [] ->
      oc_ACRValues (cfg_OpenID cfg) ∈ ACRValuesSupported p)
  /\ (oc_UILocales (cfg_OpenID cfg) <> [] ->
      oc_UILocales (cfg_OpenID cfg) ∈ UILocalesSupported p).
Proof.
  unfold provider_from. intros H.
  destruct (negb (is_empty (oc_ACRValues _)) && _) eqn:E1; [done|].
  destruct (negb (is_empty (oc_UILocales _)) && _) eqn:E2; [done|].
  apply wrap_bind_Ok in H as (u & Hu & [= <-]). cbn.
  destruct (Parse (pm_EndSessionEndpoint md)) eqn:Ep; [|done]. cbn in Hu. simplify_eq.
  repeat split; [|].
  - intros Hne%is_empty_false. rewrite Hne in E1. cbn in E1. to_prop.
    by apply Supported_Contains_spec.
  - intros Hne%is_empty_false. rewrite Hne in E2. cbn in E2. to_prop.
    by apply Supported_Contains_spec.
Qed.

(** The metadata are those of the document: one request, for the configured URL. *)
Lemma NewProviderConfig_inv {E : Env} {S} (cfg : Config) (w w' : World S) (p : Provider) :
  NewProviderConfig cfg w = (Ok p, w') ->
  let rq := {| rq_method := $"GET"; rq_url := oc_WellKnownURL (cfg_OpenID cfg);
               rq_header := []; rq_body := [] |} in
  w_store w' = w_store w /\ w_trace w' = w_trace w ++ [EvHTTP rq]
  /\ exists resp body, env_http (w_tick w) rq = Ok resp /\ rs_body resp = Ok body
       /\ json_Decode body = Ok (pr_metadata p) /\ provider_from cfg (pr_metadata p) = Ok p.
Proof.
  intros H rq. apply bindE_Ok in H as (resp & w1 & H1%wrapM_Ok & H).
  unfold http_Get in H1. rewrite http_Do_run in H1. injection H1 as Hresp <-.
  apply bindE_Ok in H as (md & w2 & H2%wrapM_Ok & [= Hp <-]). injection H2 as Hmd <-.
  split; [done|]. split; [done|]. destruct (rs_body resp) as [body|] eqn:Eb; [|done].
  exists resp, body. pose proof (provider_from_inv cfg md p Hp) as (-> & _). done.
Qed.

Lemma NewClientConfig_inv {Key} (parseKey : str -> result Key) (cfg : Config) (c : Client Key) :
  NewClientConfig parseKey cfg = Ok c ->
  cl_OpenID c = cfg_OpenID cfg /\ parseKey (oc_ClientJWK (cfg_OpenID cfg)) = Ok (cl_jwk c)
  /\ ClientID c <> [] /\ WellKnownURL c <> []
  /\ oc_ClientJWK (cfg_OpenID cfg) <> [] /\ oc_Provider (cfg_OpenID cfg) <> [].
Proof.
  unfold NewClientConfig. destruct (is_empty (oc_ClientJWK _)) eqn:E1; [done|]. intros H.
  apply wrap_bind_Ok in H as (key & Hkey & H).
  assert (Hp : forall k, oc_Provider (cfg_OpenID cfg) <> [] ->
    (if is_empty (ClientID {| cl_kind := k; cl_OpenID := cfg_OpenID cfg; cl_jwk := key |})
     then Err (New "missing required config openid.client-id")
     else if is_empty (WellKnownURL {| cl_kind := k; cl_OpenID := cfg_OpenID cfg; cl_jwk := key |})
          then Err (New "missing required config openid.well-known-url")
          else Ok {| cl_kind := k; cl_OpenID := cfg_OpenID cfg; cl_jwk := key |}) = Ok c ->
    cl_OpenID c = cfg_OpenID cfg /\ parseKey (oc_ClientJWK (cfg_OpenID cfg)) = Ok (cl_jwk c)
    /\ ClientID c <> [] /\ WellKnownURL c <> []
    /\ oc_ClientJWK (cfg_OpenID cfg) <> [] /\ oc_Provider (cfg_OpenID cfg) <> []).
  { intros k Hpr. destruct (is_empty (ClientID _)) eqn:E2; [done|].
    destruct (is_empty (WellKnownURL _)) eqn:E3; [done|]. intros [= <-].
    apply is_empty_false in E1, E2, E3. done. }
  destruct (streq _ ProviderIDPorten) eqn:E4.
  { apply (Hp KindIDPorten); [|done]. apply streq_true in E4. by rewrite E4. }
  destruct (streq _ ProviderAzure) eqn:E5.
  { apply (Hp KindAzure); [|done]. apply streq_true in E5. by rewrite E5. }
  destruct (is_empty (oc_Provider _)) eqn:E6; [done|].
  apply (Hp KindOpenID); [by apply is_empty_false|done].
Qed.

(** The provider's document is the one thing fetched. *)
Definition well_known_request (url : str) : HTTPRequest :=
  {| rq_method := $"GET"; rq_url := url; rq_header := []; rq_body := [] |}.

Lemma NewConfig_inv {E : Env} {S Key} (parseKey : str -> result Key) (cfg : Config)
    (w w' : World S) (o : OpenidCfg Key) :
  NewConfig parseKey cfg w = (Ok o, w') ->
  let rq := well_known_request (WellKnownURL (oidc_Client o)) in
  w_store w' = w_store w /\ w_trace w' = w_trace w ++ [EvHTTP rq]
  /\ NewClientConfig parseKey cfg = Ok (oidc_Client o)
  /\ exists resp body, env_http (w_tick w) rq = Ok resp /\ rs_body resp = Ok body
       /\ json_Decode body = Ok (pr_metadata (oidc_Provider o))
       /\ provider_from cfg (pr_metadata (oidc_Provider o)) = Ok (oidc_Provider o).
Proof.
  intros H rq. apply bindE_Ok in H as (c & w1 & [= Hc <-] & H).
  apply bindE_Ok in H as (p & w2 & Hp & [= <- <-]).
  apply NewProviderConfig_inv in Hp as (Hs & Ht & Hd).
  apply NewClientConfig_inv in Hc as Hi. destruct Hi as (Ho & _).
  unfold rq, WellKnownURL. cbn [oidc_Client oidc_Provider]. by rewrite Ho.
Qed.

(** ** Properties *)

(** An OpenID configuration is only built from a complete configuration
    (client id, JWK, provider and well-known URL all set) and from the document
    the provider serves there, fetched with the one request that is made; the
    configured ACR value and UI locale, where set, are supported by the provider. *)
Theorem NewConfig_sound {E : Env} {S Key} (parseKey : str -> result Key) (cfg : Config)
    (o : OpenidCfg Key) (w w' : World S)
  (Hrun : NewConfig parseKey cfg w = (Ok o, w')) :
  let rq := well_known_request (WellKnownURL (oidc_Client o)) in
  ClientID (oidc_Client o) <> [] /\ WellKnownURL (oidc_Client o) <> []
  /\ oc_ClientJWK (cfg_OpenID cfg) <> [] /\ oc_Provider (cfg_OpenID cfg) <> []
  /\ pr_name (oidc_Provider o) = oc_Provider (cfg_OpenID cfg)
  /\ w_store w' = w_store w /\ w_trace w' = w_trace w ++ [EvHTTP rq]
  /\ (exists resp body, env_http (w_tick w) rq = Ok resp /\ rs_body resp = Ok body
       /\ json_Decode body = Ok (pr_metadata (oidc_Provider o)))
  /\ (ACRValues (oidc_Client o) <> [] ->
      Supported_Contains (ACRValuesSupported (oidc_Provider o)) (ACRValues (oidc_Client o)) = true)
  /\ (UILocales (oidc_Client o) <> [] ->
      Supported_Contains (UILocalesSupported (oidc_Provider o)) (UILocales (oidc_Client o)) = true).
Proof.
  apply NewConfig_inv in Hrun as (Hs & Ht & Hc & resp & body & Hr & Hb & Hd & Hp).
  apply NewClientConfig_inv in Hc as (Ho & _ & Hid & Hw & ? & ?).
  apply provider_from_inv in Hp as (_ & ? & _ & Ha & Hu).
  unfold ACRValues, UILocales. rewrite Ho, !Supported_Contains_spec.
  repeat (split; [done|]). split; [by exists resp, body|]. by split.
Qed.

Definition example_metadata : ProviderMetadata :=
  {| pm_Issuer := $"https://idp"; pm_AuthorizationEndpoint := $"https://idp/authorize";
     pm_TokenEndpoint := $"https://idp/token"; pm_EndSessionEndpoint := $"https://idp/endsession";
     pm_JwksURI := $"https://idp/jwks"; pm_UILocalesSupported := [$"nb"; $"en"];
     pm_ACRValuesSupported := [$"Level3"; $"Level4"];
     pm_FrontchannelLogoutSupported := true; pm_FrontchannelLogoutSessionSupported := true;
     pm_CheckSessionIframe := [] |}.
Definition example_openid : OpenIDConfig :=
  {| oc_Provider := $"idporten"; oc_ClientID := $"client"; oc_ClientJWK := $"jwk";
     oc_PostLogoutRedirectURI := []; oc_Scopes := [$"profile"];
     oc_WellKnownURL := $"https://idp/.well-known"; oc_ACRValues := $"Level4";
     oc_UILocales := $"nb" |}.
Definition example_config : Config :=
  {| cfg_BindAddress := $"127.0.0.1:3000"; cfg_LogFormat := $"json"; cfg_LogLevel := $"info";
     cfg_MetricsBindAddress := $"127.0.0.1:3001"; cfg_AutoLogin := true; cfg_AutoLoginIgnorePaths := [$"/public/**"; $"/robots.txt"];
     cfg_EncryptionKey := []; cfg_ErrorPath := [];
     cfg_Ingresses := [$"https://nav.no"; $"https://nav.no/dagpenger"];
     cfg_Session := {| Inactivity := true; InactivityTimeout := (30 * Minute)%Z;
                       MaxLifetime := Hour; Refresh := true |};
     cfg_UpstreamHost := $"127.0.0.1:8080"; cfg_OpenID := example_openid;
     cfg_Redis := {| rd_Address := []; rd_Username := []; rd_Password := []; rd_TLS := false |};
     cfg_Loginstatus := {| ls_Enabled := false; ls_CookieDomain := []; ls_CookieName := [];
                           ls_ResourceIndicator := []; ls_TokenURL := [] |} |}.

(** A document, with fields the program does not keep. *)
Definition example_document : str :=
  let q := [chr 34] in
  let str_member k v := q ++ k ++ q ++ $":" ++ q ++ v ++ q ++ $"," in
  $"{" ++ str_member $"issuer" $"https://idp"
  ++ str_member $"authorization_endpoint" $"https://idp/authorize"
  ++ str_member $"token_endpoint" $"https://idp/token"
  ++ str_member $"end_session_endpoint" $"https://idp/endsession"
  ++ str_member $"jwks_uri" $"https://idp/jwks"
  ++ str_member $"introspection_endpoint" $"https://idp/introspect"
  ++ q ++ $"ui_locales_supported" ++ q ++ $":[" ++ q ++ $"nb" ++ q ++ $"," ++ q ++ $"en" ++ q ++ $"],"
  ++ q ++ $"acr_values_supported" ++ q ++ $":[" ++ q ++ $"Level3" ++ q ++ $"," ++ q ++ $"Level4" ++ q
  ++ $"]," ++ q ++ $"frontchannel_logout_supported" ++ q ++ $":true,"
  ++ q ++ $"frontchannel_logout_session_supported" ++ q ++ $":true}".

Example document_decodes : json_Decode example_document = Ok example_metadata.
Proof. vm_compute. reflexivity. Qed.

(** An answer that is not the provider's document is accepted whatever its status,
    if it is a JSON object and nothing is configured that it must support. *)
Example empty_document : json_Decode $"{}" = Ok zero_metadata.
Proof. vm_compute. reflexivity. Qed.

#[local] Instance config_env : Env := {|
  env_now _ := zero_time; env_rand _ n := Ok (replicate n "0"%char);
  env_keygen _ n := Ok (replicate n "k"%char); env_uuid _ := [];
  env_http _ _ := Ok {| rs_status := 200; rs_body := Ok example_document |};
  env_select _ := [] |}.

Lemma NewConfig_sound_witness :
  exists (o : OpenidCfg str) (w' : World unit),
    NewConfig Ok example_config (mkWorld 0 tt []) = (Ok o, w')
    /\ ClientID (oidc_Client o) <> [].
Proof.
  destruct (NewConfig (S := unit) Ok example_config (mkWorld 0 tt [])) as [[o|e] w'] eqn:E.
  - exists o, w'. split; [reflexivity|]. exact (proj1 (NewConfig_sound _ _ _ _ _ E)).
  - exfalso. vm_compute in E. discriminate.
Defined.
