(* ===== verification/Initialize.v ===== *)
(** * Start-up: [Initialize] of [pkg/config], and [pkg/logging]

    Flags, environment variables and a configuration file become a [Config].
    pflag, viper and the [conftools] around them are third-party: [Viper] has
    their operations, on a state of type [V], and [ViperLaws] the precedence of
    their sources that viper documents (explicit [Set], flag, environment,
    configuration file, [SetDefault], the flag's default). *)

From S2P Require Import Prelude GoStrings GoTime GoError Config.

(** ** Flags *)

Definition BindAddress : str := $"bind-address".
Definition LogFormat : str := $"log-format".
Definition LogLevel : str := $"log-level".
Definition MetricsBindAddress : str := $"metrics-bind-address".
Definition AutoLoginFlag : str := $"auto-login".
Definition AutoLoginIgnorePaths : str := $"auto-login-ignore-paths".
Definition EncryptionKey : str := $"encryption-key".
Definition ErrorPath : str := $"error-path".
Definition IngressFlag : str := $"ingress".
Definition UpstreamHost : str := $"upstream-host".
Definition SessionInactivity : str := $"session.inactivity".
Definition SessionInactivityTimeout : str := $"session.inactivity-timeout".
Definition SessionMaxLifetime : str := $"session.max-lifetime".
Definition SessionRefreshFlag : str := $"session.refresh".
Definition LoginstatusEnabled : str := $"loginstatus.enabled".
Definition LoginstatusCookieDomain : str := $"loginstatus.cookie-domain".
Definition LoginstatusCookieName : str := $"loginstatus.cookie-name".
Definition LoginstatusResourceIndicator : str := $"loginstatus.resource-indicator".
Definition LoginstatusTokenURL : str := $"loginstatus.token-url".
Definition OpenIDProvider : str := $"openid.provider".
Definition OpenIDClientID : str := $"openid.client-id".
Definition OpenIDClientJWK : str := $"openid.client-jwk".
Definition OpenIDPostLogoutRedirectURI : str := $"openid.post-logout-redirect-uri".
Definition OpenIDScopes : str := $"openid.scopes".
Definition OpenIDWellKnownURL : str := $"openid.well-known-url".
Definition OpenIDACRValues : str := $"openid.acr-values".
Definition OpenIDUILocales : str := $"openid.ui-locales".
Definition RedisAddress : str := $"redis.address".
Definition RedisPassword : str := $"redis.password".
Definition RedisTLS : str := $"redis.tls".
Definition RedisUsername : str := $"redis.username".

(** A flag with its default; the type is the default's. *)
Inductive FlagValue :=
| FlagString (s : str) | FlagBool (b : bool) | FlagStringSlice (l : list str) | FlagDuration (d : Duration).
Record Flag := mkFlag { fl_name : str; fl_default : FlagValue }.

Definition redisFlags : list Flag := [
  mkFlag RedisAddress (FlagString []); mkFlag RedisPassword (FlagString []);
  mkFlag RedisTLS (FlagBool true); mkFlag RedisUsername (FlagString [])].

Definition openIDFlags : list Flag := [
  mkFlag OpenIDClientID (FlagString []); mkFlag OpenIDClientJWK (FlagString []);
  mkFlag OpenIDPostLogoutRedirectURI (FlagString []); mkFlag OpenIDScopes (FlagStringSlice []);
  mkFlag OpenIDWellKnownURL (FlagString []); mkFlag OpenIDACRValues (FlagString []);
  mkFlag OpenIDUILocales (FlagString [])].

(** The flags [Initialize] declares, in its order. *)
Definition all_flags : list Flag := [
  mkFlag BindAddress (FlagString $"127.0.0.1:3000"); mkFlag LogFormat (FlagString $"json");
  mkFlag LogLevel (FlagString $"info"); mkFlag MetricsBindAddress (FlagString $"127.0.0.1:3001");
  mkFlag AutoLoginFlag (FlagBool false); mkFlag AutoLoginIgnorePaths (FlagStringSlice []);
  mkFlag EncryptionKey (FlagString []); mkFlag ErrorPath (FlagString []);
  mkFlag IngressFlag (FlagStringSlice []); mkFlag UpstreamHost (FlagString $"127.0.0.1:8080");
  mkFlag SessionInactivity (FlagBool false);
  mkFlag SessionInactivityTimeout (FlagDuration (30 * Minute)%Z);
  mkFlag SessionMaxLifetime (FlagDuration Hour); mkFlag SessionRefreshFlag (FlagBool false);
  mkFlag LoginstatusEnabled (FlagBool false); mkFlag LoginstatusCookieDomain (FlagString []);
  mkFlag LoginstatusCookieName (FlagString []); mkFlag LoginstatusResourceIndicator (FlagString []);
  mkFlag LoginstatusTokenURL (FlagString [])]
  ++ redisFlags ++ openIDFlags ++ [mkFlag OpenIDProvider (FlagString ProviderOpenID)].

(** ** The libraries *)

(** The dynamic type of [ReadInConfig]'s error, which [Initialize] asserts. *)
Inductive ReadError := ConfigFileNotFoundError | OtherReadError (e : error).

Class Viper (V : Type) := {
  environ : str -> str;                    (* the process's environment, empty if unset *)
  conftools_Initialize : str -> V;
  flag_Parse : list Flag -> V -> option V; (* None: the process exits *)
  ReadInConfig : V -> option ReadError * V;
  BindPFlags : V -> result V;
  GetString : V -> str -> str;
  viper_Set : str -> str -> V -> V;
  viper_SetDefault : str -> str -> V -> V;
  viper_BindEnv : str -> str -> V -> V;
  conftools_Load : V -> result Config;
  (* for the laws: was the key set by Set, a flag, or the environment? or by those or the file? *)
  set_above_env : V -> str -> bool;
  given : V -> str -> bool }.

(** logrus: levels, and the parsing of their names. *)
Inductive LogrusLevel :=
  PanicLevel | FatalLevel | ErrorLevel | WarnLevel | InfoLevel | DebugLevel | TraceLevel.
Class Logrus := ParseLevel : str -> result LogrusLevel.

(** ** [pkg/logging] *)

Inductive Formatter := JsonFormatter | TextFormatter.

(** [Setup]: the formatter and level the standard logger is left with. *)
Definition Setup `{Logrus} (level format : str) : result (Formatter * LogrusLevel) :=
  formatter ← (if streq format $"json" then Ok JsonFormatter
               else if streq format $"text" then Ok TextFormatter
               else Err (New "log format is not recognized"));
  logLevel ← wrap "while setting log level" (ParseLevel level);
  Ok (formatter, logLevel).

(** ** [Initialize] *)

(** How a function ends that can panic or exit the process. *)
Inductive outcome (A : Type) := Returned (r : result A) | Panics | Exits.
Arguments Returned {A} r.
Arguments Panics {A}.
Arguments Exits {A}.

Section Initialize.
Context {V : Type} `{Viper V} `{Logrus}.

Definition azureFlags (v : V) : V :=
  let v := viper_BindEnv OpenIDClientID $"AZURE_APP_CLIENT_ID" v in
  let v := viper_BindEnv OpenIDClientJWK $"AZURE_APP_JWK" v in
  viper_BindEnv OpenIDWellKnownURL $"AZURE_APP_WELL_KNOWN_URL" v.

Definition idportenFlags (v : V) : V :=
  let v := viper_BindEnv OpenIDClientID $"IDPORTEN_CLIENT_ID" v in
  let v := viper_BindEnv OpenIDClientJWK $"IDPORTEN_CLIENT_JWK" v in
  let v := viper_BindEnv OpenIDWellKnownURL $"IDPORTEN_WELL_KNOWN_URL" v in
  let v := viper_SetDefault OpenIDPostLogoutRedirectURI $"https://www.nav.no/no/utlogget" v in
  let v := viper_SetDefault OpenIDACRValues $"Level4" v in
  viper_SetDefault OpenIDUILocales $"nb" v.

(** The switch on the provider. *)
Definition provider_settings (v : V) : V :=
  let p := GetString v OpenIDProvider in
  if streq p ProviderIDPorten then idportenFlags v
  else if streq p ProviderAzure then azureFlags v
  else viper_Set OpenIDProvider ProviderOpenID v.

(** From the settings to the configuration. *)
Definition load_config (v : V) : result Config :=
  cfg ← conftools_Load v;
  _ ← Setup (cfg_LogLevel cfg) (cfg_LogFormat cfg);
  _ ← wrap "validating config" (Validate cfg);
  Ok cfg.

(** [Initialize]: [err.(viper.ConfigFileNotFoundError)] panics on an error of
    another type; on one of this type the comparison finds the error equal. *)
Definition Initialize : outcome Config :=
  match flag_Parse all_flags (conftools_Initialize $"wonderwall") with
  | None => Exits
  | Some v =>
      match ReadInConfig v with
      | (Some (OtherReadError _), _) => Panics
      | (Some ConfigFileNotFoundError, v1) | (None, v1) =>
          Returned (v2 ← BindPFlags v1; load_config (provider_settings v2))
      end
  end.
End Initialize.

(** ** What viper and conftools document *)

Class ViperLaws (V : Type) `{Viper V} : Prop := {
  Set_wins : forall k x k' v,
    GetString (viper_Set k x v) k' = if streq k k' then x else GetString v k';
  SetDefault_last : forall k x k' v,
    GetString (viper_SetDefault k x v) k'
      = (if streq k k' && negb (given v k') then x else GetString v k')
    /\ given (viper_SetDefault k x v) k' = given v k'
    /\ set_above_env (viper_SetDefault k x v) k' = set_above_env v k';
  BindEnv_value : forall k name v,
    GetString (viper_BindEnv k name v) k
      = if set_above_env v k || is_empty (environ name) then GetString v k else environ name;
  BindEnv_other : forall k name k' v, k <> k' ->
    GetString (viper_BindEnv k name v) k' = GetString v k'
    /\ given (viper_BindEnv k name v) k' = given v k'
    /\ set_above_env (viper_BindEnv k name v) k' = set_above_env v k';
  Load_strings : forall v cfg, conftools_Load v = Ok cfg ->
    let o := cfg_OpenID cfg in
    oc_Provider o = GetString v OpenIDProvider /\ oc_ClientID o = GetString v OpenIDClientID
    /\ oc_ClientJWK o = GetString v OpenIDClientJWK
    /\ oc_WellKnownURL o = GetString v OpenIDWellKnownURL
    /\ oc_PostLogoutRedirectURI o = GetString v OpenIDPostLogoutRedirectURI
    /\ oc_ACRValues o = GetString v OpenIDACRValues
    /\ oc_UILocales o = GetString v OpenIDUILocales }.

(** ** Lemmas *)

(** The provider a setting selects: an unknown one becomes "openid". *)
Definition selected_provider (p : str) : str :=
  if streq p ProviderIDPorten || streq p ProviderAzure then p else ProviderOpenID.

(** A setting with an environment variable, or else a default, of the provider. *)
Definition from_env {V} `{Viper V} (v : V) (k name : str) : str :=
  if set_above_env v k || is_empty (environ name) then GetString v k else environ name.
Definition or_default {V} `{Viper V} (v : V) (k x : str) : str :=
  if given v k then GetString v k else x.

(** What the provider's settings are, in terms of those before. *)
Definition openid_settings {V} `{Viper V} (v : V) (o : OpenIDConfig) : Prop :=
  let p := GetString v OpenIDProvider in
  oc_Provider o = selected_provider p
  /\ (p = ProviderIDPorten ->
        oc_ClientID o = from_env v OpenIDClientID $"IDPORTEN_CLIENT_ID"
        /\ oc_ClientJWK o = from_env v OpenIDClientJWK $"IDPORTEN_CLIENT_JWK"
        /\ oc_WellKnownURL o = from_env v OpenIDWellKnownURL $"IDPORTEN_WELL_KNOWN_URL"
        /\ oc_PostLogoutRedirectURI o
             = or_default v OpenIDPostLogoutRedirectURI $"https://www.nav.no/no/utlogget"
        /\ oc_ACRValues o = or_default v OpenIDACRValues $"Level4"
        /\ oc_UILocales o = or_default v OpenIDUILocales $"nb")
  /\ (p = ProviderAzure ->
        oc_ClientID o = from_env v OpenIDClientID $"AZURE_APP_CLIENT_ID"
        /\ oc_ClientJWK o = from_env v OpenIDClientJWK $"AZURE_APP_JWK"
        /\ oc_WellKnownURL o = from_env v OpenIDWellKnownURL $"AZURE_APP_WELL_KNOWN_URL")
  /\ (p <> ProviderIDPorten ->
        oc_PostLogoutRedirectURI o = GetString v OpenIDPostLogoutRedirectURI
        /\ oc_ACRValues o = GetString v OpenIDACRValues
        /\ oc_UILocales o = GetString v OpenIDUILocales).

Section Facts.
Context {V : Type} `{HV : ViperLaws V} `{Logrus}.

Lemma SetDefault_same (k x : str) (v : V) :
  GetString (viper_SetDefault k x v) k = or_default v k x.
Proof.
  destruct (SetDefault_last k x k v) as [-> _]. rewrite streq_refl. unfold or_default.
  by destruct (given v k).
Qed.
Lemma SetDefault_other (k x k' : str) (v : V) : streq k k' = false ->
  GetString (viper_SetDefault k x v) k' = GetString v k'.
Proof. intros Hk. destruct (SetDefault_last k x k' v) as [-> _]. by rewrite Hk. Qed.
Lemma BindEnv_same (k name : str) (v : V) :
  GetString (viper_BindEnv k name v) k = from_env v k name.
Proof. apply BindEnv_value. Qed.
Lemma BindEnv_get (k name k' : str) (v : V) : streq k k' = false ->
  GetString (viper_BindEnv k name v) k' = GetString v k'.
Proof. intros Hk%streq_false. by apply BindEnv_other. Qed.

Lemma or_default_SetDefault (k x k' x' : str) (v : V) : streq k k' = false ->
  or_default (viper_SetDefault k x v) k' x' = or_default v k' x'.
Proof.
  intros Hk. unfold or_default. destruct (SetDefault_last k x k' v) as (_ & -> & _).
  by rewrite SetDefault_other.
Qed.
Lemma or_default_BindEnv (k name k' x' : str) (v : V) : streq k k' = false ->
  or_default (viper_BindEnv k name v) k' x' = or_default v k' x'.
Proof.
  intros Hk. unfold or_default. rewrite BindEnv_get by done.
  destruct (BindEnv_other k name k' v) as (_ & -> & _); [by apply streq_false|done].
Qed.
Lemma from_env_BindEnv (k name k' name' : str) (v : V) : streq k k' = false ->
  from_env (viper_BindEnv k name v) k' name' = from_env v k' name'.
Proof.
  intros Hk. unfold from_env. rewrite BindEnv_get by done.
  destruct (BindEnv_other k name k' v) as (_ & _ & ->); [by apply streq_false|done].
Qed.

(** Reading a setting back through the calls that made it. *)
Ltac settings :=
  repeat first
    [ rewrite SetDefault_same | rewrite BindEnv_same
    | rewrite SetDefault_other by (vm_compute; reflexivity)
    | rewrite BindEnv_get by (vm_compute; reflexivity)
    | rewrite or_default_SetDefault by (vm_compute; reflexivity)
    | rewrite or_default_BindEnv by (vm_compute; reflexivity)
    | rewrite from_env_BindEnv by (vm_compute; reflexivity) ].

Lemma Load_settings (v : V) (cfg : Config) :
  conftools_Load (provider_settings v) = Ok cfg -> openid_settings v (cfg_OpenID cfg).
Proof.
  intros HL%Load_strings. destruct HL as (Hp & Hi & Hj & Hw & Hl & Ha & Hu).
  unfold openid_settings, selected_provider. cbv zeta.
  rewrite Hp, Hi, Hj, Hw, Hl, Ha, Hu. unfold provider_settings. cbv zeta.
  destruct (streq (GetString v OpenIDProvider) ProviderIDPorten) eqn:E1.
  { apply streq_true in E1. unfold idportenFlags. cbv zeta. settings. rewrite E1.
    split; [done|]. split; [done|]. by split. }
  destruct (streq (GetString v OpenIDProvider) ProviderAzure) eqn:E2.
  { apply streq_true in E2. apply streq_false in E1. unfold azureFlags. cbv zeta. settings.
    rewrite E2. split; [done|]. split; [done|]. by split. }
  apply streq_false in E1, E2. rewrite !Set_wins, streq_refl.
  split; [done|]. split; [done|]. split; [done|]. intros _.
  by repeat (rewrite (_ : streq OpenIDProvider _ = false) by (vm_compute; reflexivity)).
Qed.

Lemma Setup_Ok (level format : str) (x : Formatter * LogrusLevel) :
  Setup level format = Ok x ->
  (format = $"json" /\ x.1 = JsonFormatter \/ format = $"text" /\ x.1 = TextFormatter)
  /\ ParseLevel level = Ok x.2.
Proof.
  unfold Setup. destruct (streq format $"json") eqn:E1.
  { apply streq_true in E1. cbn. destruct (ParseLevel level); [|done]. intros [= <-]. auto. }
  destruct (streq format $"text") eqn:E2; [|done].
  apply streq_true in E2. cbn. destruct (ParseLevel level); [|done]. intros [= <-]. auto.
Qed.

Lemma Validate_Ok (cfg : Config) :
  Validate cfg = Ok tt <-> (Inactivity (cfg_Session cfg) = true -> Refresh (cfg_Session cfg) = true).
Proof.
  unfold Validate. destruct (Inactivity (cfg_Session cfg)), (Refresh (cfg_Session cfg)); cbn;
    split; intros; try done; naive_solver.
Qed.

Lemma load_config_Ok (v : V) (cfg : Config) :
  load_config v = Ok cfg ->
  conftools_Load v = Ok cfg /\ is_ok (Setup (cfg_LogLevel cfg) (cfg_LogFormat cfg)) = true
  /\ (Inactivity (cfg_Session cfg) = true -> Refresh (cfg_Session cfg) = true).
Proof.
  unfold load_config. destruct (conftools_Load v) as [c|] eqn:El; [|done]. cbn.
  destruct (Setup _ _) as [x|] eqn:Es; [|done]. cbn.
  destruct (Validate c) as [[]|] eqn:Ev; [|done]. cbn. intros [= <-].
  split; [done|]. split; [by rewrite Es|]. by apply Validate_Ok.
Qed.
End Facts.

(** A configuration that is returned was loaded from some settings. *)
Lemma Initialize_Ok {V : Type} `{Viper V} `{Logrus} (cfg : Config) :
  Initialize = Returned (Ok cfg) -> exists v : V, load_config (provider_settings v) = Ok cfg.
Proof.
  unfold Initialize. destruct (flag_Parse _ _) as [v|]; [|done].
  destruct (ReadInConfig v) as [[[]|] v1]; try done;
    (destruct (BindPFlags v1) as [v2|]; [|done]; intros [= Hl]; by exists v2).
Qed.

(** ** Properties *)


(** ** A small viper, with the precedence of the laws *)

Module ToyViper.
Record Settings := mkSettings {
  overrides : gmap str str;   (* Set *)
  args : gmap str str;        (* flags on the command line *)
  bound : gmap str str;       (* environment *)
  defaults : gmap str str;    (* SetDefault *)
  flags : gmap str str }.     (* the flags' defaults *)

Definition env_value (name : str) : str :=
  if streq name $"IDPORTEN_CLIENT_ID" then $"env-client"
  else if streq name $"IDPORTEN_CLIENT_JWK" then $"jwk"
  else if streq name $"IDPORTEN_WELL_KNOWN_URL" then $"https://idp/.well-known"
  else [].

Definition first_of (ms : list (gmap str str)) (k : str) : option str :=
  foldr (fun m o => match m !! k with Some x => Some x | None => o end) None ms.
Definition above (v : Settings) (k : str) : option str := first_of [overrides v; args v; bound v] k.
Definition setting (v : Settings) (k : str) : str :=
  match above v k with Some x => x | None => default [] (first_of [defaults v; flags v] k) end.

Definition flag_text (x : FlagValue) : str := match x with FlagString s => s | _ => [] end.

#[export] Instance toy_viper : Viper Settings := {|
  environ := env_value;
  conftools_Initialize _ := mkSettings ∅ ∅ ∅ ∅ ∅;
  flag_Parse fs v :=
    Some (mkSettings (overrides v)
            (<[OpenIDProvider := ProviderIDPorten]> (<[OpenIDUILocales := $"en"]> ∅))
            (bound v) (defaults v)
            (list_to_map (map (fun f => (fl_name f, flag_text (fl_default f))) fs)));
  ReadInConfig v := (Some ConfigFileNotFoundError, v);
  BindPFlags v := Ok v;
  GetString := setting;
  viper_Set k x v := mkSettings (<[k := x]> (overrides v)) (args v) (bound v) (defaults v) (flags v);
  viper_SetDefault k x v :=
    mkSettings (overrides v) (args v) (bound v) (<[k := x]> (defaults v)) (flags v);
  viper_BindEnv k name v :=
    if is_empty (env_value name) || bool_decide (is_Some (bound v !! k)) then v
    else mkSettings (overrides v) (args v) (<[k := env_value name]> (bound v)) (defaults v) (flags v);
  conftools_Load v :=
    Ok {| cfg_BindAddress := setting v BindAddress; cfg_LogFormat := setting v LogFormat;
          cfg_LogLevel := setting v LogLevel; cfg_MetricsBindAddress := setting v MetricsBindAddress;
          cfg_AutoLogin := false; cfg_AutoLoginIgnorePaths := [];
          cfg_EncryptionKey := setting v EncryptionKey; cfg_ErrorPath := setting v ErrorPath;
          cfg_Ingresses := [$"https://app.example.com/app"];
          cfg_Session := cfg_Session example_config; cfg_UpstreamHost := setting v UpstreamHost;
          cfg_OpenID := {| oc_Provider := setting v OpenIDProvider; oc_ClientID := setting v OpenIDClientID;
                           oc_ClientJWK := setting v OpenIDClientJWK;
                           oc_PostLogoutRedirectURI := setting v OpenIDPostLogoutRedirectURI;
                           oc_Scopes := []; oc_WellKnownURL := setting v OpenIDWellKnownURL;
                           oc_ACRValues := setting v OpenIDACRValues;
                           oc_UILocales := setting v OpenIDUILocales |};
          cfg_Redis := cfg_Redis example_config; cfg_Loginstatus := cfg_Loginstatus example_config |};
  set_above_env v k := bool_decide (is_Some (above v k));
  given v k := bool_decide (is_Some (above v k)) |}.

#[export] Instance toy_viper_laws : ViperLaws Settings.
Proof.
  split.
  - intros k x k' v. cbn. unfold setting, above, first_of. cbn. rewrite lookup_insert.
    unfold streq. by case_decide; case_bool_decide.
  - intros k x k' v. split; [|done]. cbn. unfold setting, above, first_of. cbn.
    rewrite lookup_insert. unfold streq.
    destruct (overrides v !! k'), (args v !! k'), (bound v !! k'); cbn; rewrite ?andb_false_r; try done.
    by case_decide; case_bool_decide.
  - intros k name v. cbn. unfold setting, above, first_of. cbn.
    destruct (is_empty (env_value name)); [by rewrite orb_true_r|]. cbn.
    destruct (bound v !! k) eqn:Eb; cbn.
    + rewrite Eb. by destruct (overrides v !! k), (args v !! k).
    + rewrite lookup_insert_eq. by destruct (overrides v !! k), (args v !! k).
  - intros k name k' v Hk. cbn. unfold setting, above, first_of. cbn. destruct (_ || _); [done|]. cbn.
    by rewrite lookup_insert_ne.
  - intros v cfg [= <-]. by repeat split.
Qed.

#[export] Instance toy_logrus : Logrus := fun level =>
  if streq level $"info" then Ok InfoLevel else Err (New "not a valid logrus Level").
End ToyViper.

Import ToyViper.

Definition toy_settings : Settings :=
  default (conftools_Initialize []) (flag_Parse all_flags (conftools_Initialize $"wonderwall")).

Example initialize_runs :
  match Initialize with
  | Returned (Ok cfg) => oc_ClientID (cfg_OpenID cfg) = $"env-client" /\ cfg_LogFormat cfg = $"json"
  | _ => False
  end.
Proof. vm_compute. by split. Qed.

Lemma toy_initialize : exists cfg, Initialize = Returned (Ok cfg).
Proof.
  destruct Initialize as [[cfg|e]| |] eqn:E; [by exists cfg|..];
    (apply (f_equal (fun o => match o with Returned (Ok _) => true | _ => false end)) in E;
     vm_compute in E; discriminate).
Qed.


Example witness_values :
  or_default toy_settings OpenIDACRValues $"Level4" = $"Level4"
  /\ or_default toy_settings OpenIDUILocales $"nb" = $"en".
Proof. vm_compute. by split. Qed.
