(* ===== verification/Http.v ===== *)
(** * Requests, responses and cookies: the part of [net/http] the program uses

    A request carries what the handlers read: method, URL, host, headers,
    cookies, and the values the program puts in its context
    ([pkg/middleware/context.go], [correlationid.go]).  A response writer records the [Set-Cookie]
    and [Location] headers, the status and the body; headers added after the
    status line was written are lost, as on the wire. *)

From S2P Require Import Prelude GoStrings GoTime GoUrl GoError.

Inductive SameSite := SameSiteUnset | SameSiteDefaultMode | SameSiteLaxMode
                    | SameSiteStrictMode | SameSiteNoneMode.
#[global] Instance SameSite_eq_dec : EqDecision SameSite.
Proof. solve_decision. Defined.

(** [http.Cookie]; [ck_Expires] is [zero_time] when unset. *)
Record HttpCookie := mkCookie {
  ck_Name : str;
  ck_Value : str;
  ck_Path : str;
  ck_Domain : str;
  ck_Expires : Time;
  ck_MaxAge : Z;
  ck_HttpOnly : bool;
  ck_Secure : bool;
  ck_SameSite : SameSite }.

(** [ingress.Ingress] embeds a [*url.URL]. *)
Definition Ingress := URL.

Record Request := mkRequest {
  rq_Method : str;
  rq_Proto : str;
  rq_URL : URL;
  rq_Host : str;
  rq_Header : Values;
  rq_Cookies : list (str * str);
  ctx_Path : option str;
  ctx_Ingress : option Ingress;
  ctx_AccessToken : option str;
  ctx_RequestID : option str }.  (* chi's request id *)

Definition MethodGet : str := $"GET".
Definition HTTP11 : str := $"HTTP/1.1".

(** [r.Header.Get(key)] for a canonical key. *)
Definition Header_Get (r : Request) (key : str) : str := Values_Get (rq_Header r) key.

(** [r.Cookie(name)]: the first cookie of that name. *)
Fixpoint lookup_cookie (cs : list (str * str)) (name : str) : option str :=
  match cs with
  | [] => None
  | (n, v) :: cs' => if streq n name then Some v else lookup_cookie cs' name
  end.
Definition Request_Cookie (r : Request) (name : str) : result str :=
  of_option (Sentinel ErrNoCookie) (lookup_cookie (rq_Cookies r) name).

(** ** The context values ([pkg/middleware/context.go]) *)

Definition PathFrom (r : Request) : option str := ctx_Path r.
Definition IngressFrom (r : Request) : option Ingress := ctx_Ingress r.
Definition AccessTokenFrom (r : Request) : option str := ctx_AccessToken r.
Definition WithPath (r : Request) (p : str) : Request :=
  mkRequest (rq_Method r) (rq_Proto r) (rq_URL r) (rq_Host r) (rq_Header r) (rq_Cookies r)
    (Some p) (ctx_Ingress r) (ctx_AccessToken r) (ctx_RequestID r).
Definition WithIngress (r : Request) (i : Ingress) : Request :=
  mkRequest (rq_Method r) (rq_Proto r) (rq_URL r) (rq_Host r) (rq_Header r) (rq_Cookies r)
    (ctx_Path r) (Some i) (ctx_AccessToken r) (ctx_RequestID r).
Definition WithAccessToken (r : Request) (t : str) : Request :=
  mkRequest (rq_Method r) (rq_Proto r) (rq_URL r) (rq_Host r) (rq_Header r) (rq_Cookies r)
    (ctx_Path r) (ctx_Ingress r) (Some t) (ctx_RequestID r).
(** [context.WithValue(ctx, middleware.RequestIDKey, id)] and [middleware.GetReqID] *)
Definition WithRequestID (r : Request) (id : str) : Request :=
  mkRequest (rq_Method r) (rq_Proto r) (rq_URL r) (rq_Host r) (rq_Header r) (rq_Cookies r)
    (ctx_Path r) (ctx_Ingress r) (ctx_AccessToken r) (Some id).
Definition GetReqID (r : Request) : str := default [] (ctx_RequestID r).

(** ** The response writer *)

Record Response := mkResponse {
  rw_Cookies : list HttpCookie;
  rw_Location : option str;
  rw_ContentType : str;
  rw_Status : option Z;       (* None until WriteHeader *)
  rw_Body : str }.

Definition new_response : Response := mkResponse [] None [] None [].

(** The status the client sees: 200 when the handler wrote none. *)
Definition response_status (w : Response) : Z := default 200%Z (rw_Status w).

(** [w.WriteHeader(code)]: only the first call counts. *)
Definition WriteHeader (code : Z) (w : Response) : Response :=
  match rw_Status w with
  | Some _ => w
  | None => mkResponse (rw_Cookies w) (rw_Location w) (rw_ContentType w) (Some code) (rw_Body w)
  end.

(** [w.Write(b)]: writes the header first. *)
Definition Write (b : str) (w : Response) : Response :=
  let w' := WriteHeader 200 w in
  mkResponse (rw_Cookies w') (rw_Location w') (rw_ContentType w') (rw_Status w') (rw_Body w' ++ b).

Definition SetContentType (ct : str) (w : Response) : Response :=
  match rw_Status w with
  | Some _ => w
  | None => mkResponse (rw_Cookies w) (rw_Location w) ct (rw_Status w) (rw_Body w)
  end.

(** A cookie name is an RFC 7230 token; other cookies are dropped. *)
Definition is_token_char (c : ascii) : bool :=
  is_alpha c || is_digit c || Contains $"!#$%&'*+-.^_`|~" c.
Definition valid_cookie_name (name : str) : bool :=
  negb (is_empty name) && forallb is_token_char name.

(** [sanitizeCookieValue]: invalid bytes are dropped; a value with a space or a
    comma is quoted. *)
Definition valid_cookie_byte (c : ascii) : bool :=
  (32 <=? ord c)%Z && (ord c <? 127)%Z && negb (beq c dquote)
  && negb (beq c ";") && negb (beq c (chr 92)).
Definition sanitize_cookie_value (v : str) : str :=
  let v' := List.filter valid_cookie_byte v in
  if Contains v' " " || Contains v' "," then dquote :: v' ++ [dquote] else v'.

Definition wire_cookie (c : HttpCookie) : HttpCookie :=
  mkCookie (ck_Name c) (sanitize_cookie_value (ck_Value c)) (ck_Path c) (ck_Domain c)
    (ck_Expires c) (ck_MaxAge c) (ck_HttpOnly c) (ck_Secure c) (ck_SameSite c).

(** [http.SetCookie(w, cookie)] *)
Definition http_SetCookie (c : HttpCookie) (w : Response) : Response :=
  match rw_Status w with
  | Some _ => w
  | None =>
      if valid_cookie_name (ck_Name c)
      then mkResponse (rw_Cookies w ++ [wire_cookie c]) (rw_Location w) (rw_ContentType w)
             (rw_Status w) (rw_Body w)
      else w
  end.

(** [path.Split(p)]'s directory part: everything up to the last slash. *)
Definition dir_part (p : str) : str :=
  match CutLast p "/" with Some (d, _) => d ++ $"/" | None => [] end.

(** [hexEscapeNonASCII] *)
Definition hex_lower (n : Z) : ascii := nth (Z.to_nat n) $"0123456789abcdef" "0"%char.
Definition hexEscapeNonASCII (s : str) : str :=
  s ≫= fun c => if (ord c <? 128)%Z then [c]
                else ["%"%char; hex_lower (ord c / 16); hex_lower (ord c mod 16)].

(** The target [http.Redirect] sends: a relative one is made absolute against
    the request path and cleaned; one with a scheme or a host is left alone. *)
Definition redirect_reference (r : Request) (url : str) : str :=
  match Parse url with
  | Some u =>
      if is_empty (Scheme u) && is_empty (Host u) then
        let oldpath := if is_empty (Path (rq_URL r)) then $"/" else Path (rq_URL r) in
        let url1 := if HasPrefix url $"/" then url else dir_part oldpath ++ url in
        let '(p, q, found) := Cut url1 "?" in
        let query := if found then "?"%char :: q else [] in
        let p' := Clean p in
        (if HasSuffix p $"/" && negb (HasSuffix p' $"/") then p' ++ $"/" else p') ++ query
      else url
  | None => url
  end.
Definition redirect_target (r : Request) (url : str) : str :=
  hexEscapeNonASCII (redirect_reference r url).

(** [http.Redirect(w, r, url, code)]; the short HTML body is not modelled. *)
Definition http_Redirect (r : Request) (url : str) (code : Z) (w : Response) : Response :=
  let w' := match rw_Status w with
            | Some _ => w
            | None => mkResponse (rw_Cookies w) (Some (redirect_target r url))
                        (rw_ContentType w) (rw_Status w) (rw_Body w)
            end in
  WriteHeader code w'.

(** [http.NotFound(w, r)] *)
Definition http_NotFound (w : Response) : Response :=
  Write $"404 page not found" (WriteHeader 404 w).

Definition StatusOK : Z := 200.
Definition StatusAccepted : Z := 202.
Definition StatusFound : Z := 302.
Definition StatusTemporaryRedirect : Z := 307.
Definition StatusBadRequest : Z := 400.
Definition StatusUnauthorized : Z := 401.
Definition StatusInternalServerError : Z := 500.
Definition StatusBadGateway : Z := 502.

(** ** Lemmas *)

Lemma lookup_cookie_app (cs cs' : list (str * str)) (n : str) :
  lookup_cookie (cs ++ cs') n =
    match lookup_cookie cs n with Some v => Some v | None => lookup_cookie cs' n end.
Proof.
  induction cs as [|[m v] cs IH]; [done|]. cbn. by destruct (streq m n).
Qed.

Lemma sanitize_safe (v : str) :
  forallb (fun c => valid_cookie_byte c && negb (beq c " ") && negb (beq c ",")) v = true ->
  sanitize_cookie_value v = v.
Proof.
  intros H. unfold sanitize_cookie_value.
  assert (List.filter valid_cookie_byte v = v) as ->.
  { induction v as [|c v IH]; [done|]. cbn in *. to_prop. by rewrite H, IH. }
  assert (Contains v " " = false) as ->.
  { apply Contains_false. intros Hin. rewrite forallb_forall in H.
    apply list_elem_of_In, H in Hin. done. }
  assert (Contains v "," = false) as ->; [|done].
  apply Contains_false. intros Hin. rewrite forallb_forall in H.
  apply list_elem_of_In, H in Hin. done.
Qed.

Lemma WriteHeader_status (code : Z) (w : Response) :
  rw_Status w = None -> rw_Status (WriteHeader code w) = Some code.
Proof. unfold WriteHeader. by intros ->. Qed.
