(* ===== verification/Crypter.v ===== *)
(** * Encryption: [pkg/crypto/crypter.go] and [pkg/strings/generator.go]

    AES-GCM itself is an interface ([AEAD]) with the two laws the program
    relies on; key sizes, the construction of the IV, the layout of a
    ciphertext and the error paths are the program's. *)

From S2P Require Import Prelude GoStrings GoTime GoBase64 GoError Config.

(** [cipher.AEAD] over [aes.NewCipher(key)], with no additional data. *)
Class AEAD := {
  gcm_Seal : str -> str -> str -> str;           (* key, nonce, plaintext *)
  gcm_Open : str -> str -> str -> option str;    (* key, nonce, ciphertext *)
}.

(** A sealed text opens to its plaintext, and carries an authentication tag. *)
Class AEADLaws `{AEAD} : Prop := {
  gcm_open_seal : forall k n p, length n = 12 -> gcm_Open k n (gcm_Seal k n p) = Some p;
  gcm_seal_tag : forall k n p, length (gcm_Seal k n p) = length p + 16;
}.

(** [keygen.Keygen(n)] returns [n] bytes. *)
Class KeygenLaw `{E : Env} : Prop :=
  keygen_length : forall i n b, env_keygen i n = Ok b -> length b = n.

(** [aes.NewCipher] accepts 16, 24 and 32 byte keys. *)
Definition valid_aes_key (key : str) : bool :=
  (length key =? 16)%nat || (length key =? 24)%nat || (length key =? 32)%nat.

(** [binary.Write(buf, binary.BigEndian, n)]: the [k] low bytes, high first. *)
Fixpoint be_bytes (k : nat) (n : Z) : str :=
  match k with
  | O => []
  | S k' => chr (n / 256 ^ Z.of_nat k') :: be_bytes k' n
  end.

(** [t.UnixNano()] *)
Definition UnixNano (t : Time) : Z := wrap64 (t - unix_epoch).

(** The layout of a nonce: 8 bytes of clock, 4 random bytes. *)
Definition make_iv (now : Time) (random : str) : str := be_bytes 8 (UnixNano now) ++ random.

Section Crypter.
Context {E : Env} {A : AEAD} {S : Type}.

(** [IV()] *)
Definition IV : M S (result str) :=
  now ← time_Now;
  random ←? Keygen 4;
  okM (make_iv now random).

(** [crypter.Encrypt] *)
Definition Encrypt (key plaintext : str) : M S (result str) :=
  if valid_aes_key key then
    nonce ←? IV;
    okM (nonce ++ gcm_Seal key nonce plaintext)
  else errM (New "crypto/aes: invalid key size").

(** [crypter.Decrypt] *)
Definition Decrypt (key ciphertext : str) : result str :=
  if (length ciphertext <=? 12)%nat then Err (New "string is too short")
  else if valid_aes_key key then
    of_option (New "cipher: message authentication failed")
      (gcm_Open key (take 12 ciphertext) (drop 12 ciphertext))
  else Err (New "crypto/aes: invalid key size").

(** [EncryptionKeyOrGenerate] *)
Definition EncryptionKeyOrGenerate (cfg : Config) : M S (result str) :=
  match DecodeString StdEncoding (cfg_EncryptionKey cfg) with
  | None =>
      if is_empty (cfg_EncryptionKey cfg) then wrapM "generate random encryption key" (Keygen 32)
      else errM (Wrap "decode encryption key" (New "base64"))
  | Some key =>
      if is_empty key then wrapM "generate random encryption key" (Keygen 32)
      else okM key
  end.

(** [strings.Generate] and [strings.GenerateBase64] *)
Definition Generate (n : nat) : M S (result str) := wrapM "reading rand.Reader" (rand_Read n).
Definition GenerateBase64 (n : nat) : M S (result str) :=
  bytes ←? Generate n;
  okM (EncodeToString RawURLEncoding bytes).
End Crypter.

(** ** Lemmas *)

Lemma length_be_bytes (k : nat) (n : Z) : length (be_bytes k n) = k.
Proof. induction k; cbn; congruence. Qed.

Lemma chr_mod_eq (a b : Z) : chr a = chr b -> (a mod 256 = b mod 256)%Z.
Proof.
  intros H. pose proof (Z.mod_pos_bound a 256 eq_refl). pose proof (Z.mod_pos_bound b 256 eq_refl).
  assert (forall z, chr z = chr (z mod 256)) as Hc.
  { intros z. unfold chr. by rewrite Zmod_mod. }
  rewrite (Hc a), (Hc b) in H. apply (f_equal ord) in H.
  by rewrite !ord_chr in H by done.
Qed.

(** The bytes of a number determine it modulo 256^k. *)
Lemma be_bytes_inj (k : nat) (a b : Z) :
  be_bytes k a = be_bytes k b -> (a mod 256 ^ Z.of_nat k = b mod 256 ^ Z.of_nat k)%Z.
Proof.
  induction k as [|k IH]; intros H; [by rewrite !Z.mod_1_r|].
  cbn in H. injection H as Hhd Htl. apply chr_mod_eq in Hhd. apply IH in Htl.
  rewrite Nat2Z.inj_succ, Z.pow_succ_r, Z.mul_comm by lia.
  rewrite !Z.rem_mul_r by lia. congruence.
Qed.

Lemma UnixNano_bytes_inj (a b : Time) :
  be_bytes 8 (UnixNano a) = be_bytes 8 (UnixNano b) -> UnixNano a = UnixNano b.
Proof.
  intros H. apply be_bytes_inj in H. change (256 ^ Z.of_nat 8)%Z with (2 ^ 64)%Z in H.
  pose proof (wrap64_bound (a - unix_epoch)) as Ha. pose proof (wrap64_bound (b - unix_epoch)) as Hb.
  fold (UnixNano a) in Ha. fold (UnixNano b) in Hb.
  unfold in_int64, min_int64, max_int64 in *.
  rewrite !Z.mod_eq in H by lia.
  pose proof (Z.div_mod (UnixNano a) (2 ^ 64)). pose proof (Z.mod_pos_bound (UnixNano a) (2 ^ 64)).
  pose proof (Z.div_mod (UnixNano b) (2 ^ 64)). pose proof (Z.mod_pos_bound (UnixNano b) (2 ^ 64)).
  nia.
Qed.

Section Facts.
Context {E : Env} {A : AEAD} {S : Type}.

Lemma IV_run (w : World S) :
  IV w = match env_keygen (1 + w_tick w) 4 with
         | Ok r => (Ok (make_iv (env_now (w_tick w)) r),
                    mkWorld (2 + w_tick w) (w_store w) (w_trace w))
         | Err e => (Err e, mkWorld (2 + w_tick w) (w_store w) (w_trace w))
         end.
Proof. unfold IV, mbind, M_bind, bindE, time_Now, Keygen, step. cbn. by case_goal. Qed.

Lemma IV_length `{!KeygenLaw} (w w' : World S) iv : IV w = (Ok iv, w') -> length iv = 12.
Proof.
  rewrite IV_run. destruct (env_keygen _ _) eqn:K; intros [= <- <-].
  unfold make_iv. rewrite length_app, length_be_bytes. by rewrite (keygen_length _ _ _ K).
Qed.

Lemma Encrypt_inv (w w' : World S) key p c :
  Encrypt key p w = (Ok c, w') ->
  valid_aes_key key = true
  /\ exists iv, IV w = (Ok iv, w') /\ c = iv ++ gcm_Seal key iv p.
Proof.
  unfold Encrypt. destruct (valid_aes_key key); [|done].
  intros (iv & w1 & H1 & [= <- <-])%bindE_Ok. eauto.
Qed.

(** Encryption touches nothing but the position in the environment. *)
Lemma IV_frame (w : World S) : w_store (IV w).2 = w_store w /\ w_trace (IV w).2 = w_trace w.
Proof. rewrite IV_run. by case_goal. Qed.

Lemma Encrypt_frame (w : World S) key p :
  w_store (Encrypt key p w).2 = w_store w /\ w_trace (Encrypt key p w).2 = w_trace w.
Proof.
  unfold Encrypt. destruct (valid_aes_key key); [|done].
  pose proof (IV_frame w). unfold bindE. by destruct (IV w) as [[] ?].
Qed.

Lemma Decrypt_Encrypt `{!AEADLaws} `{!KeygenLaw} (w w' : World S) key p c :
  Encrypt key p w = (Ok c, w') -> Decrypt key c = Ok p.
Proof.
  intros (Hk & iv & Hiv & ->)%Encrypt_inv. apply IV_length in Hiv as Hl.
  unfold Decrypt. rewrite length_app, gcm_seal_tag.
  destruct (_ <=? _)%nat eqn:L; [apply Nat.leb_le in L; lia|]. rewrite Hk.
  rewrite take_app_length', drop_app_length' by done.
  by rewrite gcm_open_seal.
Qed.
End Facts.

(** ** A concrete AEAD, for the witnesses: the nonce and the plaintext in clear
    followed by a 16 byte tag. *)
Definition toy_tag : str := replicate 16 "t"%char.
#[local] Instance toy_AEAD : AEAD := {|
  gcm_Seal _ _ p := p ++ toy_tag;
  gcm_Open _ _ c := if HasSuffix c toy_tag then Some (TrimSuffix c toy_tag) else None |}.
#[local] Instance toy_AEAD_laws : AEADLaws.
Proof.
  split; cbn -[HasSuffix TrimSuffix toy_tag]; intros k n p.
  - intros _. rewrite TrimSuffix_app.
    assert (HasSuffix (p ++ toy_tag) toy_tag = true) as ->; [|done].
    apply HasSuffix_spec. by exists p.
  - by rewrite length_app.
Qed.

(** An environment for the witnesses: a clock that advances by one second at
    each interaction, and constant random bytes. *)
Definition toy_env (start : Time) : Env := {|
  env_now i := (start + Z.of_nat i * Second)%Z;
  env_rand _ n := Ok (replicate n "r"%char);
  env_keygen _ n := Ok (replicate n "k"%char);
  env_uuid _ := $"uuid";
  env_http _ _ := Err (New "network");
  env_select _ := [TickerFired] |}.
#[local] Instance toy_env_keygen (start : Time) : KeygenLaw (E := toy_env start).
Proof. intros i n b. cbn. intros [= <-]. apply length_replicate. Qed.

Definition toy_key : str := replicate 32 "K"%char.
Definition toy_world : World unit := mkWorld 0 tt [].

(** ** Properties *)

(** Decryption inverts encryption: whatever [Encrypt] returns, [Decrypt]
    under the same key gives the plaintext back, provided the AEAD opens what
    it sealed and the key generator returns the bytes it was asked for. *)
Theorem crypter_roundtrip {E : Env} {A : AEAD} `{!AEADLaws} `{!KeygenLaw} {S : Type}
    (w w' : World S) (key p c : str) :
  Encrypt key p w = (Ok c, w') ->
  Decrypt key c = Ok p /\ length c = length p + 28 /\ w_store w' = w_store w.
Proof.
  intros Henc. split; [by eapply Decrypt_Encrypt|]. split.
  - apply Encrypt_inv in Henc as (_ & iv & Hiv & ->). apply IV_length in Hiv.
    rewrite length_app, gcm_seal_tag. lia.
  - pose proof (Encrypt_frame w key p) as [Hf _]. by rewrite Henc in Hf.
Qed.

Lemma crypter_roundtrip_witness :
  exists c w', Encrypt (E := toy_env unix_epoch) toy_key $"secret" toy_world = (Ok c, w')
               /\ Decrypt toy_key c = Ok $"secret".
Proof.
  eexists. eexists. split; [vm_compute; reflexivity|].
  exact (proj1 (crypter_roundtrip (E := toy_env unix_epoch) toy_world
                  (mkWorld 2 tt []) toy_key $"secret" _ eq_refl)).
Defined.

(** A nonce is 12 bytes long, and two encryptions reuse one only if they
    read the same clock value and drew the same random bytes. *)
Theorem iv_unique {E : Env} `{!KeygenLaw} {S : Type} (w1 w2 w1' w2' : World S) (iv1 iv2 : str) :
  IV w1 = (Ok iv1, w1') -> IV w2 = (Ok iv2, w2') ->
  length iv1 = 12 /\
  (iv1 = iv2 ->
   UnixNano (env_now (w_tick w1)) = UnixNano (env_now (w_tick w2))
   /\ env_keygen (1 + w_tick w1) 4 = env_keygen (1 + w_tick w2) 4).
Proof.
  intros Hr1 Hr2. split; [by eapply IV_length|].
  rewrite !IV_run in Hr1, Hr2.
  destruct (env_keygen (1 + w_tick w1) 4) as [r1|]; [|done].
  destruct (env_keygen (1 + w_tick w2) 4) as [r2|]; [|done].
  injection Hr1 as <- _. injection Hr2 as <- _. unfold make_iv. intros Heq.
  apply app_inj_1 in Heq as [Heq ->]; [|by rewrite !length_be_bytes].
  by apply UnixNano_bytes_inj in Heq.
Qed.

Lemma iv_unique_witness :
  length (be_bytes 8 0 ++ $"kkkk") = 12 /\
  (be_bytes 8 0 ++ $"kkkk" = be_bytes 8 Second ++ $"kkkk" ->
   UnixNano unix_epoch = UnixNano (unix_epoch + Second)%Z
   /\ @Ok str $"kkkk" = Ok $"kkkk").
Proof.
  exact (iv_unique (E := toy_env unix_epoch) toy_world (mkWorld 1 tt [])
           (mkWorld 2 tt []) (mkWorld 3 tt []) _ _ eq_refl eq_refl).
Defined.
