(* ===== verification/Cookie.v ===== *)
(** * Cookies: [pkg/cookie/cookie.go] and [pkg/cookie/options.go] *)

From S2P Require Import Prelude GoStrings GoTime GoBase64 GoUrl GoError Http Crypter.

(** ** [options.go] *)

Record Options := mkOptions {
  opt_ExpiresIn : Duration;
  opt_Domain : str;
  opt_Path : str;
  opt_SameSite : SameSite;
  opt_Secure : bool }.

Definition DefaultOptions : Options := mkOptions 0%Z [] [] SameSiteLaxMode true.
Definition WithDomain (o : Options) (d : str) : Options :=
  mkOptions (opt_ExpiresIn o) d (opt_Path o) (opt_SameSite o) (opt_Secure o).
Definition WithExpiresIn (o : Options) (e : Duration) : Options :=
  mkOptions e (opt_Domain o) (opt_Path o) (opt_SameSite o) (opt_Secure o).
Definition WithCookiePath (o : Options) (p : str) : Options :=
  mkOptions (opt_ExpiresIn o) (opt_Domain o) p (opt_SameSite o) (opt_Secure o).
Definition WithSameSite (o : Options) (m : SameSite) : Options :=
  mkOptions (opt_ExpiresIn o) (opt_Domain o) (opt_Path o) m (opt_Secure o).
Definition WithSecure (o : Options) (s : bool) : Options :=
  mkOptions (opt_ExpiresIn o) (opt_Domain o) (opt_Path o) (opt_SameSite o) s.

(** ** [cookie.go] *)

Definition SessionCookie : str := $"io.nais.wonderwall.session".
Definition LoginCookieName : str := $"io.nais.wonderwall.callback".
Definition LoginLegacyCookieName : str := $"io.nais.wonderwall.callback.legacy".
Definition RetryCookie : str := $"io.nais.wonderwall.retry".

(** The path and domain attributes: "/" and none unless the options say so. *)
Definition cookie_path (o : Options) : str := if is_empty (opt_Path o) then $"/" else opt_Path o.
Definition cookie_domain (o : Options) : str := if is_empty (opt_Domain o) then [] else opt_Domain o.

(** [Clear] *)
Definition Clear (name : str) (o : Options) (w : Response) : Response :=
  http_SetCookie
    (mkCookie name [] (cookie_path o) (cookie_domain o) unix_epoch (-1) true
       (opt_Secure o) (opt_SameSite o)) w.

(** [UnsetExpiry] *)
Definition UnsetExpiry (c : HttpCookie) : HttpCookie :=
  mkCookie (ck_Name c) (ck_Value c) (ck_Path c) (ck_Domain c) zero_time 0
    (ck_HttpOnly c) (ck_Secure c) (ck_SameSite c).

Definition with_value (c : HttpCookie) (v : str) : HttpCookie :=
  mkCookie (ck_Name c) v (ck_Path c) (ck_Domain c) (ck_Expires c) (ck_MaxAge c)
    (ck_HttpOnly c) (ck_Secure c) (ck_SameSite c).

(** [Get]: the value of the request's cookie. *)
Definition Get (r : Request) (key : str) : result str :=
  wrap "no cookie named" (Request_Cookie r key).

Section Cookie.
Context {E : Env} {A : AEAD} {S : Type}.

(** [Make] *)
Definition Make (name value : str) (o : Options) : M S HttpCookie :=
  now ← time_Now;
  mret (mkCookie name value (cookie_path o) (cookie_domain o)
          (Add now (opt_ExpiresIn o)) (float_to_int (Seconds (opt_ExpiresIn o)))
          true (opt_Secure o) (opt_SameSite o)).

(** [Cookie.Encrypt] and [Cookie.Decrypt] *)
Definition Cookie_Encrypt (key : str) (c : HttpCookie) : M S (result HttpCookie) :=
  ct ←? wrapM "unable to encrypt cookie" (Encrypt key (ck_Value c));
  okM (with_value c (EncodeToString StdEncoding ct)).

Definition Cookie_Decrypt (key value : str) : result str :=
  ct ← wrap "value for cookie is not base64 encoded"
         (of_option (New "illegal base64 data") (DecodeString StdEncoding value));
  wrap "unable to decrypt cookie" (Decrypt key ct).

(** [GetDecrypted] *)
Definition GetDecrypted (r : Request) (name key : str) : result str :=
  v ← Get r name;
  Cookie_Decrypt key v.

(** [Set] *)
Definition Set_Cookie (c : HttpCookie) (w : Response) : Response := http_SetCookie c w.

(** [EncryptAndSet] *)
Definition EncryptAndSet (name value : str) (o : Options) (key : str) (w : Response)
    : M S (result unit * Response) :=
  c ← Make name value o;
  r ← Cookie_Encrypt key c;
  match r with
  | Ok c' => mret (Ok tt, Set_Cookie c' w)
  | Err e => mret (Err e, w)
  end.
End Cookie.

(** What a user agent identifies a cookie by (RFC 6265, section 5.3). *)
Definition cookie_identity (c : HttpCookie) : str * str * str :=
  (ck_Name c, ck_Domain c, ck_Path c).

(** The header is not sent yet and the cookie has a valid name. *)
Definition can_set (w : Response) (name : str) : Prop :=
  rw_Status w = None /\ valid_cookie_name name = true.

(** ** Lemmas *)

Lemma cookie_names_valid :
  forallb valid_cookie_name
    [SessionCookie; LoginCookieName; LoginLegacyCookieName; RetryCookie] = true.
Proof. vm_compute. reflexivity. Qed.

(** Base64 text survives the sanitisation of cookie values. *)
Definition cookie_plain (c : ascii) : bool :=
  valid_cookie_byte c && negb (beq c " ") && negb (beq c ",").

Lemma std_encode_plain (s : str) : forallb cookie_plain (EncodeToString StdEncoding s) = true.
Proof. by apply Encode_all; vm_compute. Qed.

Lemma sanitize_std_encode (s : str) :
  sanitize_cookie_value (EncodeToString StdEncoding s) = EncodeToString StdEncoding s.
Proof. apply sanitize_safe, std_encode_plain. Qed.

Lemma http_SetCookie_can_set (c : HttpCookie) (w : Response) :
  can_set w (ck_Name c) ->
  rw_Cookies (http_SetCookie c w) = rw_Cookies w ++ [wire_cookie c]
  /\ rw_Status (http_SetCookie c w) = None
  /\ rw_Location (http_SetCookie c w) = rw_Location w.
Proof. intros [Hs Hn]. unfold http_SetCookie. by rewrite Hs, Hn. Qed.

Lemma Clear_cookies (name : str) (o : Options) (w : Response) :
  can_set w name ->
  rw_Cookies (Clear name o w) = rw_Cookies w ++
    [mkCookie name [] (cookie_path o) (cookie_domain o) unix_epoch (-1) true
       (opt_Secure o) (opt_SameSite o)]
  /\ rw_Status (Clear name o w) = None.
Proof.
  intros H. unfold Clear.
  match goal with |- context [http_SetCookie ?c w] =>
    destruct (http_SetCookie_can_set c w H) as (-> & ? & _) end.
  done.
Qed.

Lemma Clear_status (name : str) (o : Options) (w : Response) :
  rw_Status (Clear name o w) = rw_Status w.
Proof. unfold Clear, http_SetCookie. destruct (rw_Status w) eqn:E; [done|]. by case_goal. Qed.

Lemma http_SetCookie_status (c : HttpCookie) (w : Response) :
  rw_Status (http_SetCookie c w) = rw_Status w.
Proof. unfold http_SetCookie. destruct (rw_Status w) eqn:E; [done|]. by case_goal. Qed.

Section Facts.
Context {E : Env} {A : AEAD} {S : Type}.

Lemma Make_run (w : World S) name value o :
  Make name value o w =
    (mkCookie name value (cookie_path o) (cookie_domain o)
       (Add (env_now (w_tick w)) (opt_ExpiresIn o)) (float_to_int (Seconds (opt_ExpiresIn o)))
       true (opt_Secure o) (opt_SameSite o),
     mkWorld (1 + w_tick w) (w_store w) (w_trace w)).
Proof. done. Qed.

(** The successful runs of [EncryptAndSet]: one cookie, holding the
    ciphertext in base64. *)
Lemma EncryptAndSet_Ok (w w' : World S) (rw rw' : Response) name value o key :
  can_set rw name ->
  EncryptAndSet name value o key rw w = ((Ok tt, rw'), w') ->
  exists ct c w1,
    Encrypt key value w1 = (Ok ct, w')
    /\ rw_Cookies rw' = rw_Cookies rw ++ [c]
    /\ rw_Status rw' = None /\ rw_Location rw' = rw_Location rw
    /\ ck_Value c = EncodeToString StdEncoding ct
    /\ cookie_identity c = (name, cookie_domain o, cookie_path o)
    /\ ck_HttpOnly c = true /\ ck_Secure c = opt_Secure o /\ ck_SameSite c = opt_SameSite o.
Proof.
  intros Hcan. unfold EncryptAndSet. rewrite bind_run, Make_run. cbn [fst snd].
  unfold Cookie_Encrypt, mbind, M_bind, bindE.
  set (w1 := mkWorld _ _ _). set (c0 := mkCookie _ _ _ _ _ _ _ _ _).
  destruct (wrapM _ _ w1) as [[ct|e] w2] eqn:Ew; [|done].
  apply wrapM_Ok in Ew. cbn. intros [= <- <-].
  destruct (http_SetCookie_can_set (with_value c0 (EncodeToString StdEncoding ct)) rw Hcan)
    as (Hc & Hs & Hl).
  exists ct, (wire_cookie (with_value c0 (EncodeToString StdEncoding ct))), w1.
  unfold Set_Cookie. rewrite Hc, Hs, Hl. repeat split; [done|].
  cbn. apply sanitize_std_encode.
Qed.

Lemma EncryptAndSet_frame (w : World S) name value o key rw :
  w_store (EncryptAndSet name value o key rw w).2 = w_store w
  /\ w_trace (EncryptAndSet name value o key rw w).2 = w_trace w
  /\ rw_Status (EncryptAndSet name value o key rw w).1.2 = rw_Status rw.
Proof.
  unfold EncryptAndSet. rewrite bind_run, Make_run. cbn [fst snd].
  unfold Cookie_Encrypt, mbind, M_bind, bindE, wrapM, fmap, M_fmap.
  set (w1 := mkWorld _ _ _).
  match goal with |- context [Encrypt ?k ?v w1] => pose proof (Encrypt_frame w1 k v) as [H1 H2] end.
  destruct (Encrypt _ _ w1) as [[ct|e] w2]; cbn in *; unfold Set_Cookie;
    rewrite ?http_SetCookie_status; done.
Qed.

Lemma Cookie_Decrypt_encoded key ct :
  Cookie_Decrypt key (EncodeToString StdEncoding ct) = wrap "unable to decrypt cookie" (Decrypt key ct).
Proof. unfold Cookie_Decrypt. by rewrite Decode_Encode by apply _. Qed.

(** Every run of [EncryptAndSet]: it fails and sets nothing, or sets one cookie
    that decrypts to the value. *)
Lemma EncryptAndSet_spec {HA : AEADLaws} {HK : KeygenLaw} (w w' : World S) (rw rw' : Response)
    name value o key res :
  can_set rw name ->
  EncryptAndSet name value o key rw w = ((res, rw'), w') ->
  (exists e, res = Err e /\ rw' = rw)
  \/ res = Ok tt /\ rw_Status rw' = None /\ rw_Location rw' = rw_Location rw
     /\ exists c, rw_Cookies rw' = rw_Cookies rw ++ [c]
          /\ Cookie_Decrypt key (ck_Value c) = Ok value
          /\ cookie_identity c = (name, cookie_domain o, cookie_path o)
          /\ ck_HttpOnly c = true /\ ck_Secure c = opt_Secure o /\ ck_SameSite c = opt_SameSite o.
Proof.
  intros Hcan Hrun. destruct res as [[]|e].
  - right. destruct (EncryptAndSet_Ok _ _ _ _ _ _ _ _ Hcan Hrun)
      as (ct & c & w1 & He & Hc & Hs & Hl & Hv & Hrest).
    repeat (split; [done|]). exists c. split; [done|]. split; [|exact Hrest].
    rewrite Hv, Cookie_Decrypt_encoded. by erewrite Decrypt_Encrypt.
  - left. exists e. split; [done|]. revert Hrun. unfold EncryptAndSet. rewrite bind_run, Make_run.
    cbn [fst snd]. rewrite bind_run. by destruct (Cookie_Encrypt _ _ _) as [[] ?]; intros [= <- <- <-].
Qed.

End Facts.

(** ** Properties *)

(** A cookie set with [EncryptAndSet] reads back: a request carrying the
    cookie the response set, under its name, decrypts to the value. *)
Theorem cookie_roundtrip {E : Env} {A : AEAD} `{!AEADLaws} `{!KeygenLaw} {S : Type}
    (w w' : World S) (rw rw' : Response) (name value key : str) (o : Options)
    (r : Request) :
  can_set rw name ->
  EncryptAndSet name value o key rw w = ((Ok tt, rw'), w') ->
  lookup_cookie (rq_Cookies r) name = ck_Value <$> last (rw_Cookies rw') ->
  GetDecrypted r name key = Ok value.
Proof.
  intros Hcan Hset Hreq.
  apply EncryptAndSet_Ok in Hset as (ct & c & w1 & Henc & Hc & _ & _ & Hv & _); [|done].
  rewrite Hc, last_snoc in Hreq. cbn in Hreq. rewrite Hv in Hreq.
  unfold GetDecrypted, Get, Request_Cookie. rewrite Hreq. cbn.
  rewrite Cookie_Decrypt_encoded. by erewrite Decrypt_Encrypt.
Qed.

(** [Clear] addresses the cookie that [Make] created with the same name and
    options: same name, domain and path, expired in both attributes, and still
    HttpOnly. *)
Theorem clear_matches_make {E : Env} {A : AEAD} {S : Type}
    (w w' : World S) (rw : Response) (name value : str) (o o' : Options) (c : HttpCookie) :
  can_set rw name ->
  opt_Path o' = opt_Path o -> opt_Domain o' = opt_Domain o ->
  Make name value o w = (c, w') ->
  exists d, rw_Cookies (Clear name o' rw) = rw_Cookies rw ++ [d]
    /\ cookie_identity d = cookie_identity c
    /\ (ck_MaxAge d < 0)%Z /\ ck_Expires d = unix_epoch /\ ck_Value d = [] /\ ck_HttpOnly d = true.
Proof.
  intros Hcan Hp Hd. rewrite Make_run. intros [= <- _].
  destruct (Clear_cookies name o' rw Hcan) as [-> _]. eexists. split; [done|].
  unfold cookie_identity, cookie_path, cookie_domain. cbn. rewrite Hp, Hd. done.
Qed.

(** Witnesses, in the toy environment of [Crypter]. *)

Definition example_set :=
  EncryptAndSet (E := toy_env unix_epoch) (A := toy_AEAD)
    SessionCookie $"key" DefaultOptions toy_key new_response toy_world.
Definition example_value : str :=
  match last (rw_Cookies example_set.1.2) with Some c => ck_Value c | None => [] end.
Definition example_request : Request :=
  mkRequest MethodGet HTTP11 empty_URL $"nav.no" ∅ [($"a", $"b"); (SessionCookie, example_value)]
    (Some []) None None None.

Lemma cookie_roundtrip_witness :
  GetDecrypted (A := toy_AEAD) example_request SessionCookie toy_key = Ok $"key".
Proof.
  apply (cookie_roundtrip (E := toy_env unix_epoch) (H := toy_AEAD_laws)
           (H0 := toy_env_keygen unix_epoch)
           toy_world example_set.2 new_response example_set.1.2
           SessionCookie $"key" toy_key DefaultOptions example_request);
    [split; reflexivity|vm_compute; reflexivity|vm_compute; reflexivity].
Defined.

Lemma clear_matches_make_witness :
  exists d, rw_Cookies (Clear SessionCookie DefaultOptions new_response) = [d]
            /\ (ck_MaxAge d < 0)%Z.
Proof.
  destruct (clear_matches_make (E := toy_env unix_epoch) (A := toy_AEAD)
              toy_world (mkWorld 1 tt []) new_response SessionCookie $"key"
              DefaultOptions DefaultOptions _ ltac:(split; reflexivity) eq_refl eq_refl eq_refl)
    as (d & Hd & _ & Hm & _).
  exists d. split; [exact Hd|exact Hm].
Defined.
