(* ===== verification/Ingress.v ===== *)
(** * Ingresses: [pkg/ingress/ingress.go] and [pkg/middleware/ingress.go]

    The configured ingresses live in a Go map.  Ranging over a map visits its
    entries in an unspecified order that may change from loop to loop: every
    loop of the source takes the order from [MapOrder]. *)

From S2P Require Import Prelude GoStrings GoUrl GoError Http Config.

(** The order in which the [i]-th [range] loop visits the entries of the map. *)
Class MapOrder := {
  range : nat -> list (str * Ingress) -> list (str * Ingress);
  range_perm : forall i l, range i l ≡ₚ l }.

(** [Ingress.Host], [Ingress.Path], [Ingress.String] *)
Definition ingress_Host (i : Ingress) : str := Host i.
Definition ingress_Path (i : Ingress) : str := Path i.
Definition ingress_String (i : Ingress) : str := URL_String i.

(** The map is kept as its list of entries, with distinct keys. *)
Record Ingresses := {
  ingressMap : list (str * Ingress);
  ing_hosts : list str;
  ing_paths : list str;
  ing_urls : list str }.

Definition XForwardedHost : str := $"X-Forwarded-Host".

(** [mustScheme] *)
Fixpoint scheme_in (valid : list str) (scheme : str) : bool :=
  match valid with
  | [] => false
  | s :: rest => streq scheme s || scheme_in rest scheme
  end.
Definition mustScheme (u : URL) : bool := scheme_in [$"http"; $"https"] (Scheme u).

(** [ParseIngress] *)
Definition ParseIngress (raw : str) : result Ingress :=
  if is_empty raw then Err (New "ingress cannot be empty")
  else match Parse raw with
       | None => Err (New "url.Parse")
       | Some u =>
           if is_empty (Host u) then Err (New "must have non-empty host")
           else if mustScheme u
                then Ok (URL_with_path u (TrimRight (Path u) "/") (RawPath u))
                else Err (New "invalid URL scheme")
       end.

(** The loop of [ParseIngresses]: the first ingress with a given string wins. *)
Fixpoint parse_all (raws : list str) (seen : list (str * Ingress))
    : result (list (str * Ingress)) :=
  match raws with
  | [] => Ok seen
  | raw :: rest =>
      i ← wrap "parsing ingress" (ParseIngress raw);
      if existsb (fun e => streq e.1 (ingress_String i)) seen
      then parse_all rest seen
      else parse_all rest (seen ++ [(ingress_String i, i)])
  end.

(** [mapIngresses]: the distinct values of [fn], in visiting order. *)
Definition add_value (fn : Ingress -> str) (result : list str) (e : str * Ingress) : list str :=
  if existsb (streq (fn e.2)) result then result else result ++ [fn e.2].
Definition mapIngresses (entries : list (str * Ingress)) (fn : Ingress -> str) : list str :=
  fold_left (add_value fn) entries [].

Section Ingress.
Context {O : MapOrder}.

(** [ParseIngresses] *)
Definition ParseIngresses (cfg : Config) : result Ingresses :=
  if is_empty (cfg_Ingresses cfg) then Err (New "must have at least 1 ingress")
  else
    seen ← parse_all (cfg_Ingresses cfg) [];
    Ok {| ingressMap := seen;
          ing_hosts := mapIngresses (range 0 seen) ingress_Host;
          ing_paths := mapIngresses (range 1 seen) ingress_Path;
          ing_urls := mapIngresses (range 2 seen) ingress_String |}.

(** [MatchingPath]: the loop over [Paths()]. *)
Definition path_step (reqPath result p : str) : str :=
  if is_empty p then result
  else if HasPrefix reqPath p && (length result <? length p)%nat then p else result.
Definition MatchingPath (i : Ingresses) (r : Request) : str :=
  fold_left (path_step (Path (rq_URL r))) (ing_paths i) [].

(** The condition of the loop of [MatchingIngress]. *)
Definition ingress_matches (i : Ingresses) (r : Request) (ing : Ingress) : bool :=
  (streq (ingress_Host ing) (rq_Host r)
   || streq (ingress_Host ing) (Header_Get r XForwardedHost))
  && streq (ingress_Path ing) (MatchingPath i r).

(** [MatchingIngress]: the first match in visiting order. *)
Definition MatchingIngress (i : Ingresses) (r : Request) : option Ingress :=
  snd <$> List.find (fun e => ingress_matches i r e.2) (range 3 (ingressMap i)).

(** [IngressMiddleware.Handler]: the request passed on. *)
Definition IngressMiddleware (i : Ingresses) (r : Request) : Request :=
  let r1 := WithPath r (MatchingPath i r) in
  match MatchingIngress i r with
  | Some ing => WithIngress r1 ing
  | None => r1
  end.
End Ingress.

(** The path a request should be matched with: the longest configured path
    that prefixes it, or none. *)
Definition longest_prefix (paths : list str) (reqPath p : str) : Prop :=
  (p = [] \/ (p ∈ paths /\ HasPrefix reqPath p = true))
  /\ forall q, q ∈ paths -> HasPrefix reqPath q = true -> length q <= length p.

(** A well-formed ingress: what [ParseIngress] establishes. *)
Definition ingress_ok (i : Ingress) : Prop :=
  Host i <> [] /\ (Scheme i = $"http" \/ Scheme i = $"https")
  /\ last (Path i) <> Some "/"%char.

(** ** Lemmas *)

Lemma path_step_acc (reqPath acc p : str) :
  HasPrefix reqPath acc = true -> HasPrefix reqPath (path_step reqPath acc p) = true.
Proof.
  intros H. unfold path_step. destruct (is_empty p); [done|].
  destruct (HasPrefix reqPath p) eqn:E; [|done].
  cbn [andb]. by destruct (length acc <? length p)%nat.
Qed.

Lemma path_step_length (reqPath acc p : str) :
  length acc <= length (path_step reqPath acc p)
  /\ (HasPrefix reqPath p = true -> length p <= length (path_step reqPath acc p)).
Proof.
  unfold path_step. destruct (is_empty p) eqn:Ep.
  { apply is_empty_true in Ep as ->. cbn. lia. }
  destruct (HasPrefix reqPath p); cbn [andb]; [|split; [lia|done]].
  destruct (length acc <? length p)%nat eqn:E.
  - apply Nat.ltb_lt in E. lia.
  - apply Nat.ltb_ge in E. lia.
Qed.

(** The loop invariant of [MatchingPath]. *)
Lemma path_fold (reqPath : str) (paths : list str) (acc : str) :
  HasPrefix reqPath acc = true ->
  let p := fold_left (path_step reqPath) paths acc in
  HasPrefix reqPath p = true /\ (p = acc \/ p ∈ paths) /\ length acc <= length p
  /\ forall q, q ∈ paths -> HasPrefix reqPath q = true -> length q <= length p.
Proof.
  revert acc. induction paths as [|x paths IH]; intros acc Hacc; cbn.
  - split; [done|]. split; [by left|]. split; [lia|]. intros q Hq. by apply not_elem_of_nil in Hq.
  - destruct (IH (path_step reqPath acc x) ltac:(by apply path_step_acc)) as (H1 & H2 & H3 & H4).
    pose proof (path_step_length reqPath acc x) as [H5 H6].
    split; [done|]. split; [|split; [lia|]].
    + destruct H2 as [->|H2]; [|right; set_solver].
      unfold path_step. destruct (is_empty x); [by left|].
      destruct (_ && _); [right; set_solver|by left].
    + intros q Hq Hpre. apply elem_of_cons in Hq as [->|Hq]; [|by apply H4].
      specialize (H6 Hpre). lia.
Qed.

Lemma MatchingPath_longest (i : Ingresses) (r : Request) :
  longest_prefix (ing_paths i) (Path (rq_URL r)) (MatchingPath i r).
Proof.
  destruct (path_fold (Path (rq_URL r)) (ing_paths i) []) as (H1 & H2 & _ & H4); [done|].
  fold (MatchingPath i r) in *. split; [|done].
  destruct H2 as [H2|H2]; [by left|right; done].
Qed.

(** There is one longest prefix. *)
Lemma longest_prefix_unique (paths : list str) (reqPath p q : str) :
  longest_prefix paths reqPath p -> longest_prefix paths reqPath q -> p = q.
Proof.
  intros [[->|[Hp1 Hp2]] Hp3] [[->|[Hq1 Hq2]] Hq3]; [done| | |].
  - specialize (Hp3 q Hq1 Hq2). by destruct q; [|cbn in Hp3; lia].
  - specialize (Hq3 p Hp1 Hp2). by destruct p; [|cbn in Hq3; lia].
  - specialize (Hp3 q Hq1 Hq2). specialize (Hq3 p Hp1 Hp2).
    eapply HasPrefix_same_length; [done..|lia].
Qed.

Lemma longest_prefix_perm (l l' : list str) (reqPath p : str) :
  (forall x, x ∈ l <-> x ∈ l') -> longest_prefix l reqPath p -> longest_prefix l' reqPath p.
Proof. intros H [H1 H2]. unfold longest_prefix in *. setoid_rewrite <- H. done. Qed.

Lemma add_value_elem (fn : Ingress -> str) (acc : list str) (e : str * Ingress) (v : str) :
  v ∈ add_value fn acc e <-> v ∈ acc \/ v = fn e.2.
Proof.
  unfold add_value. destruct (existsb _ acc) eqn:E; [|set_solver].
  apply existsb_exists in E as (x & Hx & ->%streq_true). apply list_elem_of_In in Hx. set_solver.
Qed.

Lemma mapIngresses_elem (l : list (str * Ingress)) (fn : Ingress -> str) (v : str) :
  v ∈ mapIngresses l fn <-> exists e, e ∈ l /\ v = fn e.2.
Proof.
  unfold mapIngresses.
  assert (forall acc, v ∈ fold_left (add_value fn) l acc
                      <-> v ∈ acc \/ exists e, e ∈ l /\ v = fn e.2) as H.
  { induction l as [|e l IH]; intros acc; cbn; [set_solver|].
    rewrite IH, add_value_elem. set_solver. }
  rewrite H. set_solver.
Qed.

Lemma add_value_NoDup (fn : Ingress -> str) (acc : list str) (e : str * Ingress) :
  NoDup acc -> NoDup (add_value fn acc e).
Proof.
  intros H. unfold add_value. destruct (existsb _ acc) eqn:E; [done|].
  apply NoDup_app. split; [done|]. split; [|apply NoDup_singleton].
  intros x Hx ->%list_elem_of_singleton.
  assert (existsb (streq (fn e.2)) acc = true) as Ht; [|congruence].
  apply existsb_exists. eexists. split; [by apply list_elem_of_In|apply streq_refl].
Qed.

Lemma mapIngresses_NoDup (l : list (str * Ingress)) (fn : Ingress -> str) :
  NoDup (mapIngresses l fn).
Proof.
  unfold mapIngresses.
  assert (forall acc, NoDup acc -> NoDup (fold_left (add_value fn) l acc)) as H.
  { induction l as [|e l IH]; intros acc Hacc; cbn; [done|]. by apply IH, add_value_NoDup. }
  apply H, NoDup_nil_2.
Qed.

Lemma ParseIngresses_NoDup {MO : MapOrder} (cfg : Config) (i : Ingresses) :
  ParseIngresses cfg = Ok i -> NoDup (ing_paths i).
Proof.
  unfold ParseIngresses. destruct (is_empty _); [done|].
  intros (seen & _ & [= <-])%bind_Ok. apply mapIngresses_NoDup.
Qed.

Lemma scheme_in_spec (valid : list str) (s : str) : scheme_in valid s = true <-> s ∈ valid.
Proof.
  induction valid as [|v valid IH]; cbn; [split; [done|set_solver]|].
  rewrite orb_true_iff, streq_true, IH. set_solver.
Qed.

Lemma ParseIngress_ok (raw : str) (i : Ingress) : ParseIngress raw = Ok i -> ingress_ok i.
Proof.
  unfold ParseIngress. destruct (is_empty raw); [done|]. destruct (Parse raw) as [u|]; [|done].
  destruct (is_empty (Host u)) eqn:Eh; [done|]. destruct (mustScheme u) eqn:Es; [|done].
  intros [= <-]. split; [by apply is_empty_false in Eh|]. split.
  - apply scheme_in_spec in Es. cbn -[String.list_ascii_of_string]. set_solver.
  - apply TrimRight_last.
Qed.

(** The map built by the loop: distinct keys, each the string of its ingress,
    and every ingress well-formed. *)
Definition entries_ok (l : list (str * Ingress)) : Prop :=
  NoDup l.*1 /\ Forall (fun e => e.1 = ingress_String e.2 /\ ingress_ok e.2) l.

Lemma parse_all_ok (raws : list str) (seen l : list (str * Ingress)) :
  entries_ok seen -> parse_all raws seen = Ok l -> entries_ok l.
Proof.
  revert seen. induction raws as [|raw raws IH]; intros seen Hseen; cbn; [by intros [= <-]|].
  destruct (ParseIngress raw) as [i|] eqn:Ei; [|done]. cbn.
  destruct (existsb _ seen) eqn:Ex; [by apply IH|]. apply IH.
  destruct Hseen as [Hnd Hall]. split.
  - rewrite fmap_app. apply NoDup_app. split; [done|]. split; [|apply NoDup_singleton].
    intros x Hx Hi. apply list_elem_of_singleton in Hi. cbn in Hi. subst x.
    apply list_elem_of_fmap in Hx as (e & He1 & He).
    assert (existsb (fun e' => streq e'.1 (ingress_String i)) seen = true) as Ht; [|congruence].
    apply existsb_exists. exists e. split; [by apply list_elem_of_In|]. by rewrite He1, streq_refl.
  - apply Forall_app. split; [done|]. constructor; [|done].
    split; [done|]. by eapply ParseIngress_ok.
Qed.

Section Facts.
Context {O : MapOrder}.

Lemma ParseIngresses_inv (cfg : Config) (i : Ingresses) :
  ParseIngresses cfg = Ok i ->
  entries_ok (ingressMap i) /\ NoDup (ing_paths i) /\
  (forall p, p ∈ ing_paths i <-> exists e, e ∈ ingressMap i /\ p = ingress_Path e.2).
Proof.
  unfold ParseIngresses. destruct (is_empty _); [done|].
  destruct (parse_all _ _) as [seen|] eqn:Es; [|done]. intros [= <-]. cbn. split.
  - eapply parse_all_ok; [|done]. split; [apply NoDup_nil_2|by constructor].
  - split; [apply mapIngresses_NoDup|]. intros p. rewrite mapIngresses_elem.
    by setoid_rewrite range_perm.
Qed.

Lemma MatchingIngress_Some (i : Ingresses) (r : Request) (ing : Ingress) :
  MatchingIngress i r = Some ing ->
  (exists k, (k, ing) ∈ ingressMap i) /\ ingress_matches i r ing = true.
Proof.
  unfold MatchingIngress. destruct (List.find _ _) as [[k i']|] eqn:E; [|done].
  cbn. intros [= <-]. apply List.find_some in E as [Hin Hm]. split; [|done].
  exists k. by rewrite <- list_elem_of_In, range_perm in Hin.
Qed.

(** Every configured ingress is one that was parsed. *)
Lemma parse_all_raw (raws : list str) (seen l : list (str * Ingress)) :
  (forall e, e ∈ seen -> exists raw, ParseIngress raw = Ok e.2) -> parse_all raws seen = Ok l ->
  forall e, e ∈ l -> exists raw, ParseIngress raw = Ok e.2.
Proof.
  revert seen. induction raws as [|raw raws IH]; intros seen Hseen; cbn; [by intros [= <-]|].
  destruct (ParseIngress raw) as [i|] eqn:Ei; [|done]. cbn. destruct (existsb _ seen); apply IH; [done|].
  intros e [He|[= ->]%list_elem_of_singleton]%elem_of_app; [by apply Hseen|by exists raw].
Qed.

Lemma MatchingIngress_raw (cfg : Config) (i : Ingresses) (r : Request) (ing : Ingress) :
  ParseIngresses cfg = Ok i -> MatchingIngress i r = Some ing ->
  exists raw, ParseIngress raw = Ok ing.
Proof.
  intros Hi [[k Hk] _]%MatchingIngress_Some. revert Hi. unfold ParseIngresses.
  destruct (is_empty _); [done|]. destruct (parse_all _ _) as [seen|] eqn:Es; [|done].
  intros [= <-]. cbn in Hk.
  exact (parse_all_raw _ [] _ (fun e He => False_ind _ (not_elem_of_nil e He)) Es (k, ing) Hk).
Qed.

Lemma MatchingIngress_None (i : Ingresses) (r : Request) :
  MatchingIngress i r = None ->
  forall k ing, (k, ing) ∈ ingressMap i -> ingress_matches i r ing = false.
Proof.
  unfold MatchingIngress. destruct (List.find _ _) eqn:E; [done|]. intros _ k ing Hin.
  apply (List.find_none _ _ E (k, ing)). by rewrite <- list_elem_of_In, range_perm.
Qed.
End Facts.

(** ** Properties *)

(** The context path of a request is the longest configured path that
    prefixes the request path ("" if there is none), and it does not depend on
    the order in which Go visits the map of ingresses. *)
Theorem MatchingPath_correct (O1 O2 : MapOrder) (cfg : Config) (i1 i2 : Ingresses) (r : Request) :
  @ParseIngresses O1 cfg = Ok i1 -> @ParseIngresses O2 cfg = Ok i2 ->
  longest_prefix (ing_paths i1) (Path (rq_URL r)) (MatchingPath i1 r)
  /\ MatchingPath i1 r = MatchingPath i2 r.
Proof.
  intros H1 H2. split; [apply MatchingPath_longest|].
  apply longest_prefix_unique with (ing_paths i1) (Path (rq_URL r));
    [apply MatchingPath_longest|].
  apply longest_prefix_perm with (ing_paths i2); [|apply MatchingPath_longest].
  apply ParseIngresses_inv in H1 as Hi1. apply ParseIngresses_inv in H2 as Hi2.
  destruct Hi1 as (_ & _ & Hi1). destruct Hi2 as (_ & _ & Hi2). intros x.
  rewrite Hi1, Hi2. unfold ParseIngresses in H1, H2.
  destruct (is_empty _); [done|]. destruct (parse_all _ _); [|done].
  cbn in H1, H2. by simplify_eq/=.
Qed.

(** [MatchingIngress] is sound and complete: the ingress it returns is
    configured, is well-formed (http or https, non-empty host, no trailing
    slash), has the request's host (directly or as forwarded) and the matching
    path; and when it returns none, no configured ingress qualifies. *)
Theorem MatchingIngress_correct {O : MapOrder} (cfg : Config) (i : Ingresses) (r : Request) :
  ParseIngresses cfg = Ok i ->
  match MatchingIngress i r with
  | Some ing =>
      (exists k, (k, ing) ∈ ingressMap i) /\ ingress_ok ing
      /\ (ingress_Host ing = rq_Host r \/ ingress_Host ing = Header_Get r XForwardedHost)
      /\ ingress_Path ing = MatchingPath i r
  | None =>
      forall k ing, (k, ing) ∈ ingressMap i ->
        ingress_Path ing = MatchingPath i r ->
        ingress_Host ing <> rq_Host r /\ ingress_Host ing <> Header_Get r XForwardedHost
  end.
Proof.
  intros Hi. apply ParseIngresses_inv in Hi as ([_ Hall] & _ & _).
  destruct (MatchingIngress i r) as [ing|] eqn:E.
  - apply MatchingIngress_Some in E as [[k Hk] Hm].
    unfold ingress_matches in Hm. to_prop. rewrite streq_true in H0.
    rewrite orb_true_iff, !streq_true in H.
    rewrite Forall_forall in Hall. destruct (Hall _ Hk) as [_ Hok]. eauto.
  - intros k ing Hin Hp. pose proof (MatchingIngress_None _ _ E k ing Hin) as Hm.
    unfold ingress_matches in Hm. rewrite Hp, streq_refl, andb_true_r in Hm. to_prop.
    by rewrite streq_false in H, H0.
Qed.

(** Witnesses: the configuration of the example, in insertion and in reverse
    order. *)
Definition insertion_order : MapOrder :=
  {| range _ l := l; range_perm _ l := Permutation_refl l |}.
Definition reverse_order : MapOrder :=
  {| range _ l := rev l; range_perm _ l := Permutation_sym (Permutation_rev l) |}.

Definition request_to (host path : str) : Request :=
  mkRequest MethodGet HTTP11 (URL_with_path empty_URL path []) host ∅ [] None None None None.

Lemma MatchingPath_correct_witness :
  exists i1 i2, @ParseIngresses insertion_order example_config = Ok i1
    /\ @ParseIngresses reverse_order example_config = Ok i2
    /\ MatchingPath i1 (request_to $"nav.no" $"/dagpenger/soknad") = $"/dagpenger"
    /\ MatchingPath i1 (request_to $"nav.no" $"/dagpenger/soknad")
       = MatchingPath i2 (request_to $"nav.no" $"/dagpenger/soknad").
Proof.
  eexists. eexists. split; [vm_compute; reflexivity|]. split; [vm_compute; reflexivity|].
  split; [vm_compute; reflexivity|].
  exact (proj2 (MatchingPath_correct insertion_order reverse_order example_config _ _
                  (request_to $"nav.no" $"/dagpenger/soknad") eq_refl eq_refl)).
Defined.

Lemma MatchingIngress_correct_witness :
  exists i ing, @ParseIngresses insertion_order example_config = Ok i
    /\ @MatchingIngress insertion_order i (request_to $"nav.no" $"/dagpenger/x") = Some ing
    /\ ingress_ok ing
    /\ ingress_Path ing = MatchingPath i (request_to $"nav.no" $"/dagpenger/x").
Proof.
  destruct (@ParseIngresses insertion_order example_config) as [i|] eqn:Ei;
    [|exfalso; vm_compute in Ei; discriminate].
  pose proof (@MatchingIngress_correct insertion_order example_config i
                (request_to $"nav.no" $"/dagpenger/x") Ei) as H.
  destruct (@MatchingIngress insertion_order i _) as [ing|] eqn:Em.
  - destruct H as (_ & Hok & _ & Hpath). exists i, ing. auto.
  - exfalso. clear H. vm_compute in Ei. injection Ei as <-. vm_compute in Em. discriminate.
Defined.

Definition shadow_config : Config :=
  {| cfg_BindAddress := $"127.0.0.1:3000"; cfg_LogFormat := $"json"; cfg_LogLevel := $"info";
     cfg_MetricsBindAddress := $"127.0.0.1:3001"; cfg_AutoLogin := false; cfg_AutoLoginIgnorePaths := [];
     cfg_EncryptionKey := []; cfg_ErrorPath := [];
     cfg_Ingresses := [$"https://a.no/app"; $"https://b.no"];
     cfg_Session := cfg_Session example_config; cfg_UpstreamHost := [];
     cfg_OpenID := example_openid; cfg_Redis := cfg_Redis example_config;
     cfg_Loginstatus := cfg_Loginstatus example_config |}.

(** The path of one ingress hides the root of another: with ingresses
    [https://a.no/app] and [https://b.no], a request for [b.no/app] gets no
    ingress although the host [b.no] is configured, because the path is chosen
    without looking at the host. *)
Theorem ingress_path_shadows_host {O : MapOrder} (i : Ingresses) :
  ParseIngresses shadow_config = Ok i ->
  MatchingIngress i (request_to $"b.no" $"/app") = None
  /\ exists k ing, (k, ing) ∈ ingressMap i /\ ingress_Host ing = $"b.no".
Proof.
  intros Hi. pose proof (ParseIngresses_inv _ _ Hi) as (_ & _ & Hpaths).
  assert (exists e1 e2, ingressMap i = [e1; e2] /\ ingress_Host e1.2 = $"a.no"
            /\ ingress_Path e1.2 = $"/app" /\ ingress_Host e2.2 = $"b.no"
            /\ ingress_Path e2.2 = []) as (e1 & e2 & Hmap & H1 & H2 & H3 & H4).
  { unfold ParseIngresses in Hi. destruct (parse_all _ _) as [l|] eqn:El; [|done].
    vm_compute in El. injection El as <-. cbn in Hi. injection Hi as <-.
    do 2 eexists. split; [reflexivity|]. by vm_compute. }
  split; [|exists e2.1, e2.2; rewrite Hmap; split; [destruct e2; set_solver|done]].
  destruct (MatchingIngress i _) as [ing|] eqn:E; [|done]. exfalso.
  apply MatchingIngress_Some in E as [[k Hk] Hm].
  unfold ingress_matches in Hm. to_prop. rewrite streq_true in H0.
  rewrite orb_true_iff, !streq_true in H.
  destruct (MatchingPath_longest i (request_to $"b.no" $"/app")) as [_ Hlong].
  specialize (Hlong $"/app"). rewrite Hmap in Hk.
  apply elem_of_cons in Hk as [Hk|[Hk|[]%not_elem_of_nil]%elem_of_cons].
  - rewrite <- Hk in H1. cbn in H1. rewrite H1 in H. by destruct H.
  - rewrite <- Hk in H4. cbn in H4. rewrite <- H0, H4 in Hlong.
    enough (4 <= 0) by lia. apply Hlong; [|done]. apply Hpaths. exists e1.
    rewrite Hmap. split; [set_solver|done].
Qed.

Lemma ingress_path_shadows_host_witness :
  exists i, @ParseIngresses insertion_order shadow_config = Ok i
    /\ @MatchingIngress insertion_order i (request_to $"b.no" $"/app") = None.
Proof.
  eexists. split; [vm_compute; reflexivity|].
  exact (proj1 (@ingress_path_shadows_host insertion_order _ eq_refl)).
Defined.
