(* ===== verification/RedirectUrl.v ===== *)
(** * Redirect and callback URLs: [pkg/handler/url/url.go], [pkg/router/paths] *)

From S2P Require Import Prelude GoStrings GoBase64 GoUrl GoUrlFacts GoError Config Http Ingress.

(** ** [pkg/router/paths/paths.go] *)

Definition OAuth2 : str := $"/oauth2".
Definition PathLogin : str := $"/login".
Definition PathLoginCallback : str := $"/callback".
Definition PathLogout : str := $"/logout".
Definition PathLogoutCallback : str := $"/logout/callback".
Definition PathLogoutFrontChannel : str := $"/logout/frontchannel".
Definition PathLogoutLocal : str := $"/logout/local".
Definition PathSession : str := $"/session".
Definition PathSessionRefresh : str := $"/session/refresh".

(** ** [url.go] *)

Definition RedirectURLParameter : str := $"redirect".
Definition RedirectURLEncodedParameter : str := $"redirect-encoded".

(** [RedirectEncoded] *)
Definition RedirectEncoded (s : str) : str := EncodeToString RawURLEncoding s.

(** [RedirectDecoded] *)
Definition RedirectDecoded (r : Request) : str :=
  let paramValue := Values_Get (URL_Query (rq_URL r)) RedirectURLEncodedParameter in
  if is_empty paramValue then []
  else default [] (DecodeString RawURLEncoding paramValue).

(** The context path, or "/" when there is none. *)
Definition redirect_base (r : Request) : str :=
  match PathFrom r with
  | Some p => if is_empty p then $"/" else p
  | None => $"/"
  end.

(** The redirect before it is decoded: the default, overridden by the
    [redirect] parameter, overridden by the [redirect-encoded] parameter. *)
Definition redirect_choice (r : Request) : str :=
  let redirectParam := Values_Get (URL_Query (rq_URL r)) RedirectURLParameter in
  let redirect := if is_empty redirectParam then redirect_base r else redirectParam in
  let redirectEncoded := RedirectDecoded r in
  if is_empty redirectEncoded then redirect else redirectEncoded.

(** [CanonicalRedirect] *)
Definition CanonicalRedirect (r : Request) : str :=
  let ingressPath := redirect_base r in
  match QueryUnescape (redirect_choice r) with
  | None => ingressPath
  | Some redirect =>
      match Parse redirect with
      | None => ingressPath
      | Some parsed =>
          let redirect1 := URL_String (URL_strip_origin parsed) in
          let redirect2 := if is_empty (Path parsed) then $"/" else redirect1 in
          if is_empty redirect2 then ingressPath else redirect2
      end
  end.

(** [LoginURL] *)
Definition LoginURL (prefix redirectTarget : str) : str :=
  let u := URL_with_path empty_URL (PathJoin [prefix; OAuth2; PathLogin]) [] in
  let v := Values_Set ∅ RedirectURLEncodedParameter (RedirectEncoded redirectTarget) in
  URL_String (URL_with_query u (Values_Encode v)).

(** [makeCallbackURL], [LoginCallbackURL], [LogoutCallbackURL] *)
Definition makeCallbackURL (r : Request) (callbackPath : str) : result str :=
  match IngressFrom r with
  | None => Err (New "request host does not match any configured ingresses")
  | Some m =>
      let targetPath := PathJoin [ingress_Path m; OAuth2; callbackPath] in
      Ok (URL_String (mkURL (Scheme m) [] None (ingress_Host m) targetPath [] false false [] [] []))
  end.
Definition LoginCallbackURL (r : Request) : result str := makeCallbackURL r PathLoginCallback.
Definition LogoutCallbackURL (r : Request) : result str := makeCallbackURL r PathLogoutCallback.

(** A redirect target made of bytes that neither decoding nor printing
    changes: a rooted path (not "//...") and an optional query, without percent
    signs, plus signs, fragments or control bytes. *)
Definition plain_byte (c : ascii) : bool :=
  negb (is_ctl c) && negb (Contains $"%+#?" c).
Definition plain_target (t : str) : Prop :=
  exists (p : str) (oq : option str),
    t = "/"%char :: p ++ match oq with Some q => "?"%char :: q | None => [] end
    /\ HasPrefix p $"/" = false
    /\ forallb (fun c => plain_byte c && negb (shouldEscape c encodePath)) p = true
    /\ match oq with Some q => q <> [] /\ forallb plain_byte q = true | None => True end.

(** ** Lemmas *)

Lemma setPath_local (u v : URL) (p : str) :
  setPath u p = Some v ->
  Scheme v = Scheme u /\ Opaque v = Opaque u /\ User v = User u /\ Host v = Host u.
Proof. unfold setPath. destruct (unescape p encodePath); [|done]. by intros [= <-]. Qed.

Lemma setFragment_path (u v : URL) (f : str) :
  setFragment u f = Some v ->
  Path v = Path u /\ Opaque v = Opaque u /\ User v = User u /\ Host v = Host u.
Proof. unfold setFragment. destruct (unescape f encodeFragment); [|done]. by intros [= <-]. Qed.

(** A parsed URL has an opaque part only if it has no path. *)
Lemma parse_opaque (s : str) (u : URL) : parse s = Some u -> Opaque u <> [] -> Path u = [].
Proof.
  unfold parse. destruct (existsb _ _); [done|].
  destruct (streq s _); [by intros [= <-]|].
  destruct (getScheme s) as [[scheme rest0]|]; [|done]. cbn [mbind option_bind].
  destruct (split_query rest0) as [[rest q] force].
  destruct (negb (HasPrefix rest _) && negb (is_empty _)); [by intros [= <-]|].
  destruct (_ && Contains _ _); [done|]. destruct (_ && HasPrefix rest $"//").
  - destruct (split_authority rest) as [a rest']. destruct (parseAuthority a) as [[us h]|]; [|done].
    cbn. intros (_ & Ho & _)%setPath_local. by rewrite Ho.
  - destruct (_ && _); intros (_ & Ho & _)%setPath_local; by rewrite Ho.
Qed.

Lemma Parse_opaque (s : str) (u : URL) : Parse s = Some u -> Path u <> [] -> Opaque u = [].
Proof.
  intros H Hp. destruct (Opaque u) eqn:E; [done|]. exfalso. apply Hp. revert H.
  unfold Parse. destruct (Cut s "#") as [[p f] b]. destruct (parse p) as [v|] eqn:Ev; [|done].
  cbn. destruct (is_empty f).
  - intros [= ->]. apply (parse_opaque _ _ Ev). by rewrite E.
  - intros (-> & Ho & _)%setFragment_path. apply (parse_opaque _ _ Ev). by rewrite <- Ho, E.
Qed.

Lemma encode_pair_safe (k v : str) :
  forallb (fun c => query_safe c || beq c "=") (encode_pair k v) = true.
Proof.
  unfold encode_pair. rewrite forallb_app. apply andb_true_iff. split.
  - eapply forallb_impl; [|apply QueryEscape_safe]. by intros ? _ ->.
  - cbn [forallb]. rewrite beq_refl, orb_true_r.
    eapply forallb_impl; [|apply QueryEscape_safe]. by intros ? _ ->.
Qed.

Lemma LoginURL_form (prefix t : str) :
  exists p, PathJoin [prefix; OAuth2; PathLogin] = p /\
    (HasPrefix p $"/" = true -> LoginURL prefix t =
       escape p encodePath ++ "?"%char :: encode_pair RedirectURLEncodedParameter (RedirectEncoded t)).
Proof.
  eexists. split; [done|]. set (p := PathJoin _). intros Hp. unfold LoginURL. fold p.
  unfold Values_Set. rewrite Values_Encode_single.
  set (u := URL_with_query _ _).
  destruct p as [|c p'] eqn:Ep; [done|].
  change $"/" with ["/"%char] in Hp. rewrite HasPrefix_one, beq_true in Hp. subst c.
  rewrite URL_String_local by done.
  rewrite (EscapedPath_rooted u p') by done. cbn [Path u URL_with_query URL_with_path].
  rewrite escape_cons.
  change (escape_byte "/" encodePath) with ["/"%char].
  cbn [app Cut]. rewrite beq_refl. cbn [fst Contains existsb app].
  f_equal. f_equal. unfold url_suffix. subst u. cbn. by rewrite app_nil_r.
Qed.

(** The login URL of any rooted prefix parses back: its path is the joined
    path, its query holds exactly the encoded target. *)
Lemma LoginURL_Parse (prefix t : str) :
  prefix = [] \/ HasPrefix prefix $"/" = true ->
  exists u, Parse (LoginURL prefix t) = Some u
    /\ Path u = PathJoin [prefix; OAuth2; PathLogin]
    /\ Scheme u = [] /\ Host u = []
    /\ URL_Query u = <[RedirectURLEncodedParameter := [RedirectEncoded t]]> ∅.
Proof.
  intros Hpre. destruct (LoginURL_form prefix t) as (p & Hp & Hform).
  destruct (PathJoin_rooted prefix $"oauth2" [PathLogin] Hpre) as (s & Hs & Hnos).
  change ("/"%char :: $"oauth2") with OAuth2 in Hs. rewrite Hs in Hp. subst p.
  rewrite Hform by done. rewrite Hs. clear Hform Hs.
  pose proof (escape_path_safe s) as Hsafe.
  set (q := encode_pair _ _). pose proof (encode_pair_safe _ _ : forallb _ q = true) as Hq.
  rewrite escape_cons. change (escape_byte "/" encodePath) with ["/"%char]. cbn [app].
  assert (Hne : q <> []) by (unfold q, encode_pair; by destruct (QueryEscape _)).
  rewrite Parse_rooted_query; [| | | |done|].
  - change ("/"%char :: escape s encodePath) with (escape ("/"%char :: s) encodePath).
    rewrite setPath_escape. eexists. split; [done|]. cbn. repeat split.
    unfold URL_Query. cbn. apply ParseQuery_single.
  - split.
    + apply existsb_ctl_forallb. cbn [forallb]. rewrite forallb_app. cbn [forallb].
      apply andb_true_iff. split; [done|]. apply andb_true_iff. split.
      * eapply forallb_impl; [|exact Hsafe]. intros x _ Hx. by apply andb_true_iff in Hx as [Hx _].
      * apply andb_true_iff. split; [done|]. eapply forallb_impl; [|exact Hq].
        intros x _. revert x. apply byte_impl. vm_compute. reflexivity.
    + rewrite elem_of_cons, elem_of_app, elem_of_cons. intros [H|[H|[H|H]]]; [done| |done|].
      * revert H. eapply forallb_not_in; [exact Hsafe|done].
      * revert H. eapply forallb_not_in; [exact Hq|done].
  - eapply forallb_not_in; [exact Hsafe|done].
  - eapply forallb_not_in; [exact Hq|done].
  - destruct (escape s encodePath) as [|x e] eqn:E; [done|].
    change $"/" with ["/"%char]. rewrite HasPrefix_one. apply beq_false. intros ->.
    apply escape_path_slash in E as (s' & -> & _). by cbn in Hnos.
Qed.

(** The path of a URL with a host is empty or rooted. *)
Lemma parse_host_path (s : str) (u : URL) :
  parse s = Some u -> Host u <> [] -> Path u = [] \/ HasPrefix (Path u) $"/" = true.
Proof.
  unfold parse. destruct (existsb _ _); [done|].
  destruct (streq s _); [by intros [= <-]|].
  destruct (getScheme s) as [[scheme rest0]|]; [|done]. cbn [mbind option_bind].
  destruct (split_query rest0) as [[rest q] force].
  destruct (negb (HasPrefix rest _) && negb (is_empty _)); [by intros [= <-]|].
  destruct (_ && Contains _ _); [done|]. destruct (_ && HasPrefix rest $"//").
  - destruct (split_authority rest) as [a rest'] eqn:Ea.
    destruct (parseAuthority a) as [[us h]|]; [|done]. cbn [mbind option_bind].
    intros Hset _. unfold split_authority in Ea. destruct (Cut (drop 2 rest) "/") as [[b c] [|]].
    + injection Ea as <- <-. unfold setPath in Hset.
      destruct (unescape _ _) as [p|] eqn:Ep; [|done]. cbn in Hset. injection Hset as <-.
      apply unescape_slash in Ep as (p' & -> & _). right. by cbn.
    + injection Ea as <- <-. cbn in Hset. injection Hset as <-. by left.
  - destruct (_ && _); intros (_ & _ & _ & Hh)%setPath_local; by rewrite Hh.
Qed.

Lemma Parse_host_path (s : str) (u : URL) :
  Parse s = Some u -> Host u <> [] -> Path u = [] \/ HasPrefix (Path u) $"/" = true.
Proof.
  unfold Parse. destruct (Cut s "#") as [[p f] b]. destruct (parse p) as [v|] eqn:Ev; [|done].
  cbn. destruct (is_empty f).
  - intros [= ->]. by apply (parse_host_path _ _ Ev).
  - intros (-> & _ & _ & Hh)%setFragment_path. rewrite Hh. by apply (parse_host_path _ _ Ev).
Qed.

Lemma TrimRight_rooted (p : str) :
  p = [] \/ HasPrefix p $"/" = true ->
  TrimRight p "/" = [] \/ HasPrefix (TrimRight p "/") $"/" = true.
Proof.
  intros [-> | Hp]; [by left|]. destruct (TrimRight_split p "/") as [n Hu].
  destruct (TrimRight p "/") as [|c t]; [by left|]. right. rewrite Hu in Hp. exact Hp.
Qed.

Lemma ParseIngress_shape (raw : str) (m : Ingress) :
  ParseIngress raw = Ok m ->
  (Scheme m = $"http" \/ Scheme m = $"https") /\ ingress_Host m <> [] /\
  (ingress_Path m = [] \/ HasPrefix (ingress_Path m) $"/" = true).
Proof.
  unfold ParseIngress. destruct (is_empty raw); [done|].
  destruct (Parse raw) as [u|] eqn:Eu; [|done].
  destruct (is_empty (Host u)) eqn:Eh; [done|]. apply is_empty_false in Eh.
  destruct (mustScheme u) eqn:Es; [|done]. intros [= <-]. cbn. split; [|split; [done|]].
  - unfold mustScheme in Es. cbn [scheme_in] in Es.
    destruct (streq (Scheme u) $"http") eqn:E1; [left; by apply streq_true|].
    destruct (streq (Scheme u) $"https") eqn:E2; [right; by apply streq_true|done].
  - by apply TrimRight_rooted, (Parse_host_path raw).
Qed.

Lemma callback_String (scheme host t : str) :
  scheme <> [] ->
  URL_String (mkURL scheme [] None host ("/"%char :: t) [] false false [] [] [])
  = scheme ++ $"://" ++ escape host encodeHost ++ "/"%char :: escape t encodePath.
Proof.
  intros Hs. unfold URL_String. cbn [Opaque is_empty].
  rewrite (EscapedPath_rooted _ t) by done. cbn [Path]. rewrite escape_cons.
  change (escape_byte "/" encodePath) with ["/"%char]. cbn [app].
  unfold url_prefix, url_suffix. cbn [Scheme Host User OmitHost Path ForceQuery RawQuery Fragment].
  destruct scheme as [|c scheme]; [done|]. cbn [is_empty negb orb andb app].
  rewrite ?andb_false_r, ?orb_true_r. cbn -[escape].
  rewrite beq_refl. cbn -[escape]. rewrite app_nil_r. f_equal. by rewrite <- !app_assoc.
Qed.

(** A request for the URL [u], routed under the ingress path [base]. *)
Definition request_at (u : URL) (base : option str) : Request :=
  mkRequest MethodGet HTTP11 u [] ∅ [] base None None None.

Lemma RedirectDecoded_query (r : Request) (t : str) :
  URL_Query (rq_URL r) = <[RedirectURLEncodedParameter := [RedirectEncoded t]]> ∅ ->
  RedirectDecoded r = t.
Proof.
  intros Hq. unfold RedirectDecoded. rewrite Hq, Values_Get_insert.
  unfold RedirectEncoded. destruct t as [|c t]; [done|].
  destruct (is_empty _) eqn:E.
  - apply is_empty_true in E. by apply Encode_nonempty in E.
  - by rewrite Decode_Encode.
Qed.

(** A plain target is not changed by decoding, parsing, stripping, printing. *)
Lemma plain_target_roundtrip (t : str) :
  plain_target t ->
  exists u, QueryUnescape t = Some t /\ Parse t = Some u
    /\ URL_String (URL_strip_origin u) = t /\ Path u <> [].
Proof.
  intros (p & oq & -> & Hp & Hpath & Hq).
  assert (Hpp : forallb plain_byte p = true).
  { eapply forallb_impl; [|exact Hpath]. by intros x _ [Hx _]%andb_true_iff. }
  assert (Hesc : escape ("/"%char :: p) encodePath = "/"%char :: p).
  { apply escape_id. cbn. apply andb_true_iff. split; [done|].
    eapply forallb_impl; [|exact Hpath]. by intros x _ [_ Hx]%andb_true_iff. }
  set (suf := match oq with Some q => _ | None => [] end).
  assert (Hsuf : forallb (fun c => plain_byte c || beq c "?") suf = true).
  { destruct oq as [q|]; [|done]. cbn. eapply forallb_impl; [|apply Hq]. by intros ? _ ->. }
  assert (Hall : forallb (fun c => plain_byte c || beq c "?") ("/"%char :: p ++ suf) = true).
  { cbn. rewrite forallb_app. apply andb_true_iff. split; [done|]. apply andb_true_iff.
    split; [|done]. eapply forallb_impl; [|exact Hpp]. by intros ? _ ->. }
  assert (Hctl : no_ctl_hash ("/"%char :: p ++ suf)).
  { split.
    - apply existsb_ctl_forallb. eapply forallb_impl; [|exact Hall].
      intros x _. revert x. apply byte_impl. vm_compute. reflexivity.
    - eapply forallb_not_in; [exact Hall|done]. }
  assert (Hunp : unescape ("/"%char :: p) encodePath = Some ("/"%char :: p)).
  { rewrite <- Hesc at 1. by apply unescape_escape. }
  exists (URL_with_path (local_base (default [] oq) false) ("/"%char :: p) []).
  split; [|split; [|split; [|done]]].
  - apply unescape_id; [done|]. eapply forallb_impl; [|exact Hall].
    intros x _. revert x. apply byte_impl. vm_compute. reflexivity.
  - assert (Hset : forall b, setPath b ("/"%char :: p) = Some (URL_with_path b ("/"%char :: p) [])).
    { intros b. unfold setPath. rewrite Hunp. cbn [mbind option_bind].
      by rewrite Hesc, streq_refl. }
    destruct oq as [q|]; subst suf.
    + destruct Hq as [Hne Hq]. rewrite Parse_rooted_query; [apply Hset|done| | |done..].
      * eapply forallb_not_in; [exact Hpp|done].
      * eapply forallb_not_in; [exact Hq|done].
    + rewrite app_nil_r in *. rewrite Parse_rooted_path; [apply Hset|done| |done].
      eapply forallb_not_in; [exact Hpp|done].
  - rewrite URL_String_local by done.
    rewrite (EscapedPath_rooted _ p) by done. cbn [Path URL_with_path URL_strip_origin local_base].
    rewrite Hesc. cbn [Cut]. rewrite beq_refl. cbn [fst Contains existsb app].
    f_equal. f_equal. unfold url_suffix. cbn. subst suf.
    destruct oq as [q|]; [|done]. destruct Hq as [Hne _].
    cbn [default]. by destruct q; [|cbn; rewrite app_nil_r].
Qed.

(** ** Properties *)

(** The login URL carries its redirect target losslessly: whatever the
    bytes of the target and for every rooted or empty path prefix, the URL built by
    [LoginURL] parses, and [RedirectDecoded] of a request for it is the target. *)
Theorem LoginURL_roundtrip (prefix target : str) (base : option str)
  (Hprefix : prefix = [] \/ HasPrefix prefix $"/" = true) :
  exists u, Parse (LoginURL prefix target) = Some u
    /\ Scheme u = [] /\ Host u = []
    /\ Path u = PathJoin [prefix; OAuth2; PathLogin]
    /\ RedirectDecoded (request_at u base) = target.
Proof.
  destruct (LoginURL_Parse prefix target Hprefix) as (u & Hu & Hp & Hs & Hh & Hq).
  exists u. repeat split; try done. by apply RedirectDecoded_query.
Qed.

Lemma LoginURL_roundtrip_witness :
  exists u, Parse (LoginURL $"/app" $"/some/path?a=b&c=%20") = Some u
    /\ Scheme u = [] /\ Host u = []
    /\ Path u = PathJoin [$"/app"; OAuth2; PathLogin]
    /\ RedirectDecoded (request_at u None) = $"/some/path?a=b&c=%20".
Proof. apply LoginURL_roundtrip. by right. Defined.

(** End to end, a plain redirect target survives the detour through the
    login endpoint: the canonical redirect of a request for the login URL of
    [target] is [target]. *)
Theorem CanonicalRedirect_LoginURL (prefix target : str) (base : option str)
  (Hprefix : prefix = [] \/ HasPrefix prefix $"/" = true)
  (Hplain : plain_target target) :
  exists u, Parse (LoginURL prefix target) = Some u
    /\ CanonicalRedirect (request_at u base) = target.
Proof.
  destruct (LoginURL_Parse prefix target Hprefix) as (u & Hu & _ & _ & _ & Hq).
  exists u. split; [done|].
  destruct (plain_target_roundtrip target Hplain) as (v & Hun & Hpv & Hstr & Hne).
  assert (Ht : is_empty target = false) by (destruct Hplain as (p & oq & -> & _); done).
  assert (redirect_choice (request_at u base) = target) as Hc.
  { unfold redirect_choice. by rewrite (RedirectDecoded_query (request_at u base) target Hq), Ht. }
  unfold CanonicalRedirect. rewrite Hc, Hun, Hpv, Hstr.
  destruct (Path v); [done|]. cbn [is_empty]. by rewrite Ht.
Qed.

Lemma CanonicalRedirect_LoginURL_witness :
  exists u, Parse (LoginURL $"/app" $"/some/path?a=b&c=d") = Some u
    /\ CanonicalRedirect (request_at u (Some $"/app")) = $"/some/path?a=b&c=d".
Proof.
  apply CanonicalRedirect_LoginURL; [by right|].
  exists $"some/path", (Some $"a=b&c=d"). by repeat split.
Defined.

(** C16: When the requested redirect names no user and its path does not start
    with two slashes, the canonical redirect is a local reference: it has no
    scheme and no authority, so it leads back to the host that served it.  The
    requests outside the condition are [CanonicalRedirect_open_redirect]'s. *)
Theorem CanonicalRedirect_local (r : Request)
  (Hbase : local_reference (redirect_base r))
  (Hchoice : forall s u, QueryUnescape (redirect_choice r) = Some s -> Parse s = Some u ->
     User u = None /\ HasPrefix (Path u) $"//" = false) :
  local_reference (CanonicalRedirect r).
Proof.
  unfold CanonicalRedirect. destruct (QueryUnescape _) as [s|] eqn:Hs; [|done].
  destruct (Parse s) as [u|] eqn:Hu; [|done].
  destruct (Hchoice s u eq_refl Hu) as [Huser Hpath].
  destruct (is_empty (Path u)) eqn:E; [by cbn|]. apply is_empty_false in E.
  destruct (is_empty (URL_String _)); [done|].
  apply URL_String_local_reference; try done. cbn. eapply Parse_opaque; eauto.
Qed.

Definition example_redirect (redirect : string) : Request :=
  request_at (URL_with_query (URL_with_path empty_URL $"/oauth2/login" [])
    (Values_Encode (<[RedirectURLParameter := [String.list_ascii_of_string redirect]]> ∅)))
    (Some $"/app").

Lemma CanonicalRedirect_local_witness :
  local_reference (CanonicalRedirect (example_redirect "https://evil.com/path?x=y")).
Proof.
  apply CanonicalRedirect_local; [by split|].
  assert (QueryUnescape (redirect_choice (example_redirect "https://evil.com/path?x=y"))
          = Some $"https://evil.com/path?x=y") as -> by (vm_compute; reflexivity).
  intros s u [= <-] Hu. revert Hu. vm_compute. by intros [= <-].
Defined.


(** The target of the login URL is unescaped once more after it was
    decoded: an escaped plus sign of the target's query reaches the application
    as a bare one, that is as a space. *)
Theorem CanonicalRedirect_double_decode :
  exists u, Parse (LoginURL [] $"/search?q=c%2B%2B") = Some u
    /\ CanonicalRedirect (request_at u None) = $"/search?q=c++"
    /\ Values_Get (ParseQuery $"q=c%2B%2B") $"q" = $"c++"
    /\ Values_Get (ParseQuery $"q=c++") $"q" = $"c  ".
Proof.
  eexists. split; [vm_compute; reflexivity|].
  split; [|split]; vm_compute; reflexivity.
Qed.

(** Callback URLs: without a matched ingress there is none; with one, the
    URL is absolute, on the ingress' scheme and host, under the OAuth2 prefix of
    the ingress path. *)
Theorem makeCallbackURL_spec (r : Request) (callbackPath : str)
  (Hctx : forall m, IngressFrom r = Some m -> exists raw, ParseIngress raw = Ok m) :
  match IngressFrom r with
  | None => is_ok (makeCallbackURL r callbackPath) = false
  | Some m =>
      (Scheme m = $"http" \/ Scheme m = $"https") /\ ingress_Host m <> [] /\
      exists t, PathJoin [ingress_Path m; OAuth2; callbackPath] = "/"%char :: t /\
      makeCallbackURL r callbackPath =
        Ok (Scheme m ++ $"://" ++ escape (ingress_Host m) encodeHost
              ++ "/"%char :: escape t encodePath)
  end.
Proof.
  unfold makeCallbackURL. destruct (IngressFrom r) as [m|]; [|done].
  destruct (Hctx m eq_refl) as [raw Hraw].
  destruct (ParseIngress_shape raw m Hraw) as (Hs & Hh & Hp).
  split; [done|]. split; [done|].
  destruct (PathJoin_rooted (ingress_Path m) $"oauth2" [callbackPath] Hp) as (t & Ht & _).
  change ("/"%char :: $"oauth2") with OAuth2 in Ht. exists t. split; [done|]. rewrite Ht.
  by rewrite callback_String by (destruct Hs as [-> | ->]; done).
Qed.

Definition example_ingress : Ingress :=
  URL_with_path (mkURL $"https" [] None $"app.example.com" [] [] false false [] [] []) $"/app" [].

Lemma makeCallbackURL_spec_witness :
  match IngressFrom (WithIngress (example_redirect "/") example_ingress) with
  | None => is_ok (makeCallbackURL (WithIngress (example_redirect "/") example_ingress) PathLoginCallback) = false
  | Some m =>
      (Scheme m = $"http" \/ Scheme m = $"https") /\ ingress_Host m <> [] /\
      exists t, PathJoin [ingress_Path m; OAuth2; PathLoginCallback] = "/"%char :: t /\
      makeCallbackURL (WithIngress (example_redirect "/") example_ingress) PathLoginCallback =
        Ok (Scheme m ++ $"://" ++ escape (ingress_Host m) encodeHost
              ++ "/"%char :: escape t encodePath)
  end.
Proof.
  apply makeCallbackURL_spec. intros m [= <-]. exists $"https://app.example.com/app/".
  vm_compute. reflexivity.
Defined.
