(* ===== verification/Openid.v ===== *)
(** * Tokens and the login cookie: [pkg/jwt], [pkg/openid]

    Signature verification and claim validation are the jwx library's, behind
    the [JwtLib] interface; which options the program passes, and what it does
    with the outcome, is modelled here.  [JwtLibLaws] states what a successful
    validation with each option means. *)

From S2P Require Import Prelude GoStrings GoTime GoBase64 GoUrl GoUtf8 GoError GoJsonText GoJsonFacts GoJson Config Http Crypter Cookie.

(** ** The jwx library *)

(** The dynamic type of a claim: only strings are looked into. *)
Inductive Claim := ClaimString (s : str) | ClaimOther.

(** [jwt.ValidateOption] *)
Inductive ValidateOption :=
| WithAudience (aud : str)
| WithClaimValue (name value : str)
| WithIssuer (iss : str)
| WithSubject (sub : str)
| WithAcceptableSkew (d : Duration)
| WithRequiredClaim (name : str).

Class JwtLib := {
  JwkSet : Type;
  JwtToken : Type;
  token_Get : JwtToken -> str -> option Claim;
  token_Expiration : JwtToken -> Time;
  token_HasAudience : JwtToken -> str -> bool;
  (* jwt.ParseString(raw, WithKeySet(jwks, infer algorithm), WithAcceptableSkew(skew)) at a time *)
  jwt_ParseString : JwkSet -> Duration -> Time -> str -> result JwtToken;
  jwt_Validate : list ValidateOption -> Time -> JwtToken -> result unit;
  jwt_Verified : JwkSet -> str -> JwtToken -> Prop;   (* signed by a key of the set *)
}.

(** What the options ask of a token. *)
Definition option_holds `{JwtLib} (t : JwtToken) (o : ValidateOption) : Prop :=
  match o with
  | WithAudience a => token_HasAudience t a = true
  | WithClaimValue k v => token_Get t k = Some (ClaimString v)
  | WithIssuer i => token_Get t $"iss" = Some (ClaimString i)
  | WithSubject i => token_Get t $"sub" = Some (ClaimString i)
  | WithAcceptableSkew _ => True
  | WithRequiredClaim k => is_Some (token_Get t k)
  end.

Class JwtLibLaws `{JwtLib} : Prop := {
  jwt_Validate_sound : forall opts now t o,
    jwt_Validate opts now t = Ok tt -> o ∈ opts -> option_holds t o;
  jwt_ParseString_sound : forall jwks skew now raw t,
    jwt_ParseString jwks skew now raw = Ok t -> jwt_Verified jwks raw t;
}.

(** ** [pkg/jwt/jwt.go] *)

Definition AcceptableClockSkew : Duration := (5 * Second)%Z.
Definition JtiClaim : str := $"jti".
Definition SidClaim : str := $"sid".
Definition UtiClaim : str := $"uti".

Section Jwt.
Context {L : JwtLib}.

Record Token := NewToken { serialized : str; token : option JwtToken }.

(** [GetStringClaim] *)
Definition GetStringClaim (t : Token) (claim : str) : result str :=
  match token t with
  | None => Err (New "token is nil")
  | Some tok =>
      match token_Get tok claim with
      | None => Err (New "missing required claim in id_token")
      | Some (ClaimString s) => Ok s
      | Some ClaimOther => Err (New "claim is not a string")
      end
  end.

(** [GetStringClaimOrEmpty] *)
Definition GetStringClaimOrEmpty (t : Token) (claim : str) : str :=
  match GetStringClaim t claim with Ok s => s | Err _ => [] end.

(** [GetJwtID] *)
Definition GetJwtID (t : Token) : str :=
  let jti := GetStringClaimOrEmpty t JtiClaim in
  let uti := GetStringClaimOrEmpty t UtiClaim in
  if negb (is_empty jti) then jti else uti.

Definition GetSerialized (t : Token) : str := serialized t.
Definition GetToken (t : Token) : option JwtToken := token t.

(** [Parse]: the library checks the time claims against the clock. *)
Definition jwt_Parse {E : Env} {S} (raw : str) (jwks : JwkSet) : M S (result JwtToken) :=
  now ← time_Now;
  pureR (wrap "parsing jwt" (jwt_ParseString jwks AcceptableClockSkew now raw)).
End Jwt.

(** ** [pkg/openid/params.go], [params_values.go] *)

Definition P_ACRValues : str := $"acr_values".
Definition P_ClientAssertion : str := $"client_assertion".
Definition P_ClientAssertionType : str := $"client_assertion_type".
Definition P_ClientID : str := $"client_id".
Definition P_CodeChallenge : str := $"code_challenge".
Definition P_CodeChallengeMethod : str := $"code_challenge_method".
Definition P_Code : str := $"code".
Definition P_CodeVerifier : str := $"code_verifier".
Definition P_Error : str := $"error".
Definition P_ErrorDescription : str := $"error_description".
Definition P_GrantType : str := $"grant_type".
Definition P_IDTokenHint : str := $"id_token_hint".
Definition P_Nonce : str := $"nonce".
Definition P_PostLogoutRedirectURI : str := $"post_logout_redirect_uri".
Definition P_SessionState : str := $"session_state".
Definition P_Sid : str := $"sid".
Definition P_State : str := $"state".
Definition P_RedirectURI : str := $"redirect_uri".
Definition P_RefreshToken : str := $"refresh_token".
Definition P_Resource : str := $"resource".
Definition P_ResponseMode : str := $"response_mode".
Definition P_UILocales : str := $"ui_locales".
Definition ClientAssertionTypeJwtBearer : str :=
  $"urn:ietf:params:oauth:client-assertion-type:jwt-bearer".
Definition RefreshTokenValue : str := $"refresh_token".

(** ** [pkg/openid/response.go] *)

Record TokenResponse := {
  tr_AccessToken : str;
  tr_ExpiresIn : Z;
  tr_RefreshToken : str;
  tr_TokenType : str }.
Record TokenErrorResponse := { te_Error : str; te_ErrorDescription : str }.

Definition TokenResponse_fields : list (Field TokenResponse) := [
  field $"access_token" store_string dump_string tr_AccessToken
    (fun x t => Build_TokenResponse x (tr_ExpiresIn t) (tr_RefreshToken t) (tr_TokenType t));
  field $"expires_in" store_int dump_int tr_ExpiresIn
    (fun x t => Build_TokenResponse (tr_AccessToken t) x (tr_RefreshToken t) (tr_TokenType t));
  field $"refresh_token" store_string dump_string tr_RefreshToken
    (fun x t => Build_TokenResponse (tr_AccessToken t) (tr_ExpiresIn t) x (tr_TokenType t));
  field $"token_type" store_string dump_string tr_TokenType
    (fun x t => Build_TokenResponse (tr_AccessToken t) (tr_ExpiresIn t) (tr_RefreshToken t) x)].
#[global] Instance TokenResponse_decoder : Decoder TokenResponse :=
  struct_Unmarshal TokenResponse_fields (Build_TokenResponse [] 0 [] []).

Definition token_response_text (t : TokenResponse) : bool :=
  forallb valid_utf8 [tr_AccessToken t; tr_RefreshToken t; tr_TokenType t].

Definition TokenErrorResponse_fields : list (Field TokenErrorResponse) := [
  field $"error" store_string dump_string te_Error
    (fun x t => Build_TokenErrorResponse x (te_ErrorDescription t));
  field $"error_description" store_string dump_string te_ErrorDescription
    (fun x t => Build_TokenErrorResponse (te_Error t) x)].
#[global] Instance TokenErrorResponse_decoder : Decoder TokenErrorResponse :=
  struct_Unmarshal TokenErrorResponse_fields (Build_TokenErrorResponse [] []).

(** ** [pkg/openid/tokens.go] *)

(** [oauth2.Token], with the [id_token] of its extra fields when it is a string. *)
Record OAuth2Token := {
  o2_AccessToken : str;
  o2_TokenType : str;
  o2_RefreshToken : str;
  o2_Expiry : Time;
  o2_IDToken : option str }.

Section Tokens.
Context {L : JwtLib}.

Record Tokens := {
  tk_AccessToken : str;
  tk_Expiry : Time;
  tk_IDToken : Token;
  tk_RefreshToken : str;
  tk_TokenType : str }.

(** [GetSidClaim] *)
Definition GetSidClaim (t : Token) : result str := GetStringClaim t SidClaim.

(** The options of [IDToken.Validate]. *)
Definition validate_options {Key} (cfg : OpenidCfg Key) (nonce : str) : list ValidateOption :=
  [WithAudience (ClientID (oidc_Client cfg));
   WithClaimValue $"nonce" nonce;
   WithIssuer (pm_Issuer (pr_metadata (oidc_Provider cfg)));
   WithAcceptableSkew AcceptableClockSkew]
  ++ (if SidClaimRequired (oidc_Provider cfg) then [WithRequiredClaim $"sid"] else [])
  ++ (if negb (is_empty (ACRValues (oidc_Client cfg))) then [WithRequiredClaim $"acr"] else []).

(** [IDToken.Validate]; [ParseIDToken] never leaves the token nil. *)
Definition IDToken_Validate {E : Env} {S Key} (t : Token) (cfg : OpenidCfg Key) (nonce : str)
    : M S (result unit) :=
  now ← time_Now;
  match GetToken t with
  | Some tok => pureR (jwt_Validate (validate_options cfg nonce) now tok)
  | None => errM (New "nil token")
  end.

(** [NewIDToken], [ParseIDToken], [ParseIDTokenFrom] *)
Definition NewIDToken (raw : str) (tok : JwtToken) : Token := NewToken raw (Some tok).
Definition ParseIDToken {E : Env} {S} (raw : str) (jwks : JwkSet) : M S (result Token) :=
  idToken ←? jwt_Parse raw jwks;
  okM (NewIDToken raw idToken).
Definition ParseIDTokenFrom {E : Env} {S} (src : OAuth2Token) (jwks : JwkSet) : M S (result Token) :=
  match o2_IDToken src with
  | None => errM (New "missing id_token in token response")
  | Some raw => ParseIDToken raw jwks
  end.

(** [NewTokens] *)
Definition NewTokens {E : Env} {S} (src : OAuth2Token) (jwks : JwkSet) : M S (result Tokens) :=
  idToken ←? wrapM "parsing id_token" (ParseIDTokenFrom src jwks);
  okM {| tk_AccessToken := o2_AccessToken src; tk_Expiry := o2_Expiry src;
         tk_IDToken := idToken; tk_RefreshToken := o2_RefreshToken src;
         tk_TokenType := o2_TokenType src |}.
End Tokens.

(** ** [pkg/openid/cookies.go] *)

Record LoginCookie := mkLoginCookie {
  lc_State : str;
  lc_Nonce : str;
  lc_CodeVerifier : str;
  lc_Referer : str;
  lc_RedirectURI : str }.

#[global] Instance LoginCookie_eq_dec : EqDecision LoginCookie.
Proof. solve_decision. Defined.

Definition LoginCookie_fields : list (Field LoginCookie) := [
  field $"state" store_string dump_string lc_State
    (fun x c => mkLoginCookie x (lc_Nonce c) (lc_CodeVerifier c) (lc_Referer c) (lc_RedirectURI c));
  field $"nonce" store_string dump_string lc_Nonce
    (fun x c => mkLoginCookie (lc_State c) x (lc_CodeVerifier c) (lc_Referer c) (lc_RedirectURI c));
  field $"code_verifier" store_string dump_string lc_CodeVerifier
    (fun x c => mkLoginCookie (lc_State c) (lc_Nonce c) x (lc_Referer c) (lc_RedirectURI c));
  field $"referer" store_string dump_string lc_Referer
    (fun x c => mkLoginCookie (lc_State c) (lc_Nonce c) (lc_CodeVerifier c) x (lc_RedirectURI c));
  field $"redirect_uri" store_string dump_string lc_RedirectURI
    (fun x c => mkLoginCookie (lc_State c) (lc_Nonce c) (lc_CodeVerifier c) (lc_Referer c) x)].
#[global] Instance LoginCookie_codec : Codec LoginCookie := {|
  json_Marshal := struct_Marshal LoginCookie_fields;
  json_Unmarshal := struct_Unmarshal LoginCookie_fields (mkLoginCookie [] [] [] [] []) |}.

(** The login cookie as it comes back: its strings made valid UTF-8. *)
Definition valid_cookie (c : LoginCookie) : LoginCookie :=
  mkLoginCookie (to_valid (lc_State c)) (to_valid (lc_Nonce c)) (to_valid (lc_CodeVerifier c))
    (to_valid (lc_Referer c)) (to_valid (lc_RedirectURI c)).

#[global] Instance LoginCookie_codec_laws : CodecLaws LoginCookie valid_cookie.
Proof.
  intros [st no cv rf ru] s. apply (struct_roundtrip _ _ _ _ 0); [lia| |].
  - unfold LoginCookie_fields. fields_ok; by eapply canonical_dump_string.
  - intros v [= <-]. cbn [store_struct LoginCookie_fields].
    store_fields ltac:(rewrite unquote_quote_any).
Qed.

(** [GetLoginCookie]: the login cookie, else its legacy twin. *)
Definition GetLoginCookie {A : AEAD} (r : Request) (key : str)
    : result LoginCookie :=
  json ← (match GetDecrypted r LoginCookieName key with
          | Ok j => Ok j
          | Err _ => GetDecrypted r LoginLegacyCookieName key
          end);
  wrap "unmarshalling" (json_Unmarshal json).

(** ** Lemmas *)

(** What was decoded is text. *)
Lemma TokenResponse_text (s : str) (t : TokenResponse) :
  json_Decode s = Ok t -> token_response_text t = true.
Proof.
  unfold json_Decode, TokenResponse_decoder.
  apply (struct_Unmarshal_inv (fun t => token_response_text t = true)); [|by vm_compute].
  unfold TokenResponse_fields.
  fields_inv ltac:(unfold token_response_text; intros v [a e r y] x H Hx; cbn -[valid_utf8] in *; text_fields).
Qed.

Section Facts.
Context {L : JwtLib} {E : Env} {S Key : Type}.

Lemma NewTokens_Ok (w w' : World S) (src : OAuth2Token) (jwks : JwkSet) (t : Tokens) :
  NewTokens src jwks w = (Ok t, w') ->
  exists raw tok, o2_IDToken src = Some raw
    /\ jwt_ParseString jwks AcceptableClockSkew (env_now (w_tick w)) raw = Ok tok
    /\ tk_IDToken t = NewIDToken raw tok
    /\ tk_AccessToken t = o2_AccessToken src /\ tk_RefreshToken t = o2_RefreshToken src
    /\ tk_Expiry t = o2_Expiry src.
Proof.
  unfold NewTokens. intros (id & w1 & Hid%wrapM_Ok & [= <- <-])%bindE_Ok. cbn.
  unfold ParseIDTokenFrom in Hid. destruct (o2_IDToken src) as [raw|]; [|done].
  apply bindE_Ok in Hid as (tok & w2 & Hp & [= <- <-]).
  unfold jwt_Parse in Hp. rewrite bind_run in Hp. cbn in Hp. injection Hp as Hp _.
  apply wrap_Ok in Hp. exists raw, tok. done.
Qed.

Lemma Validate_inv (w w' : World S) (t : Token) (cfg : OpenidCfg Key) (nonce : str) :
  IDToken_Validate t cfg nonce w = (Ok tt, w') ->
  exists tok, token t = Some tok
    /\ jwt_Validate (validate_options cfg nonce) (env_now (w_tick w)) tok = Ok tt.
Proof.
  unfold IDToken_Validate. rewrite bind_run. cbn.
  unfold GetToken. destruct (token t) as [tok|]; [|done]. cbn. intros [= H _]. eauto.
Qed.
End Facts.

Lemma GetJwtID_spec {L : JwtLib} (t : Token) :
  match GetStringClaim t JtiClaim with
  | Ok (c :: s) => GetJwtID t = c :: s
  | _ => GetJwtID t = GetStringClaimOrEmpty t UtiClaim
  end.
Proof.
  unfold GetJwtID, GetStringClaimOrEmpty.
  destruct (GetStringClaim t JtiClaim) as [[|c s]|]; done.
Qed.

(** ** A concrete library, for the witnesses: a token is its list of claims. *)

Definition toy_claims := list (str * Claim).
Definition toy_get (t : toy_claims) (k : str) : option Claim :=
  snd <$> List.find (fun e => streq e.1 k) t.
Definition toy_check (t : toy_claims) (o : ValidateOption) : bool :=
  let is_claim k v := match toy_get t k with Some (ClaimString s) => streq s v | _ => false end in
  match o with
  | WithAudience a => is_claim $"aud" a
  | WithClaimValue k v => is_claim k v
  | WithIssuer i => is_claim $"iss" i
  | WithSubject i => is_claim $"sub" i
  | WithAcceptableSkew _ => true
  | WithRequiredClaim k => bool_decide (is_Some (toy_get t k))
  end.
Definition toy_token : toy_claims :=
  [($"iss", ClaimString $"https://idp"); ($"aud", ClaimString $"client");
   ($"nonce", ClaimString $"n-0S6"); ($"sid", ClaimString $"sid-1");
   ($"acr", ClaimString $"Level4"); ($"jti", ClaimString $"id-1")].

#[local] Instance toy_jwt : JwtLib := {|
  JwkSet := unit;
  JwtToken := toy_claims;
  token_Get := toy_get;
  token_Expiration _ := unix_epoch;
  token_HasAudience t a := toy_check t (WithAudience a);
  jwt_ParseString _ _ _ raw := if streq raw $"jwt" then Ok toy_token else Err (New "jws");
  jwt_Validate opts _ t := if forallb (toy_check t) opts then Ok tt else Err (New "claim");
  jwt_Verified _ raw t := raw = $"jwt" /\ t = toy_token |}.

#[local] Instance toy_jwt_laws : JwtLibLaws.
Proof.
  assert (Hc : forall (t : toy_claims) k v,
    match toy_get t k with Some (ClaimString s) => streq s v | _ => false end = true ->
    toy_get t k = Some (ClaimString v)).
  { intros t k v. destruct (toy_get t k) as [[]|]; [|done..]. by intros ->%streq_true. }
  split.
  - intros opts now t o. cbn [jwt_Validate toy_jwt].
    destruct (forallb (toy_check t) opts) eqn:Hall; [|done]. intros _ Ho.
    rewrite forallb_forall in Hall. apply list_elem_of_In, Hall in Ho.
    destruct o; cbn in Ho |- *; auto. by apply bool_decide_eq_true in Ho.
  - intros jwks skew now raw t. cbn. destruct (streq raw _) eqn:E; [|done].
    intros [= <-]. by apply streq_true in E.
Qed.

(** ** Properties *)

(** An id_token that passes [Validate] is addressed to this client, issued
    by the configured provider and bound to the login attempt by its nonce; it
    names a session when the provider requires front-channel logout sessions,
    and an authentication level when one is configured. *)
Theorem Validate_sound {L : JwtLib} {E : Env} `{!JwtLibLaws} {S Key : Type}
    (w w' : World S) (t : Token) (cfg : OpenidCfg Key) (nonce : str)
    (Hok : IDToken_Validate t cfg nonce w = (Ok tt, w')) :
  exists tok, token t = Some tok
    /\ token_HasAudience tok (ClientID (oidc_Client cfg)) = true
    /\ token_Get tok $"iss" = Some (ClaimString (pm_Issuer (pr_metadata (oidc_Provider cfg))))
    /\ token_Get tok $"nonce" = Some (ClaimString nonce)
    /\ (SidClaimRequired (oidc_Provider cfg) = true -> is_Some (token_Get tok SidClaim))
    /\ (ACRValues (oidc_Client cfg) <> [] -> is_Some (token_Get tok $"acr")).
Proof.
  apply Validate_inv in Hok as (tok & Ht & Hv). exists tok. split; [done|].
  assert (Ho : forall o, o ∈ validate_options cfg nonce -> option_holds tok o)
    by (intros o; by eapply jwt_Validate_sound).
  unfold validate_options in Ho.
  split; [apply (Ho (WithAudience _)); set_solver|].
  split; [apply (Ho (WithIssuer _)); set_solver|].
  split; [apply (Ho (WithClaimValue _ _)); set_solver|]. split.
  - intros Hs. rewrite Hs in Ho. apply (Ho (WithRequiredClaim _)). set_solver.
  - intros Ha%is_empty_false. rewrite Ha in Ho. apply (Ho (WithRequiredClaim _)). set_solver.
Qed.

Definition example_cfg : OpenidCfg str :=
  {| oidc_Client := {| cl_kind := KindIDPorten; cl_OpenID := example_openid; cl_jwk := $"jwk" |};
     oidc_Provider := {| pr_endSessionEndpointURL := empty_URL; pr_metadata := example_metadata;
                         pr_name := $"idporten" |} |}.

Lemma Validate_sound_witness :
  exists tok : toy_claims, Some toy_token = Some tok
    /\ toy_get tok $"nonce" = Some (ClaimString $"n-0S6").
Proof.
  destruct (Validate_sound (L := toy_jwt) (E := toy_env unix_epoch) (H := toy_jwt_laws) toy_world
              (mkWorld 1 tt []) (NewIDToken (L := toy_jwt) $"jwt" toy_token) example_cfg $"n-0S6"
              ltac:(vm_compute; reflexivity)) as (tok & Ht & _ & _ & Hn & _).
  exists tok. split; [exact Ht|exact Hn].
Defined.
