(* ===== verification/SessionData.v ===== *)
(** * Session data and metadata: [pkg/session/data.go]

    The methods that ask for the time read the clock at each call, in the order
    of the source; the methods that assign to the receiver return the new value.
    The JSON forms of the records follow them. *)

From S2P Require Import Prelude GoStrings GoTime GoBase64 GoUtf8 GoError GoJsonText GoJsonFacts GoRfc3339 GoJson Crypter Cookie Openid.
#[local] Open Scope Z_scope.

Definition RefreshMinInterval : Duration := 1 * Minute.
Definition RefreshLeeway : Duration := 5 * Minute.

(** ** Data *)

Record EncryptedData := mkEncryptedData { ed_Data : str }.
#[global] Instance EncryptedData_eq_dec : EqDecision EncryptedData.
Proof. solve_decision. Defined.

Record MetadataSession := mkMetadataSession { CreatedAt : Time; EndsAt : Time; TimeoutAt : Time }.
Record MetadataTokens := mkMetadataTokens { ExpireAt : Time; RefreshedAt : Time }.
Record Metadata := mkMetadata { md_Session : MetadataSession; md_Tokens : MetadataTokens }.
Definition zero_Metadata : Metadata := mkMetadata (mkMetadataSession 0 0 0) (mkMetadataTokens 0 0).

Record Data := mkData {
  ExternalSessionID : str;
  AccessToken : str;
  IDToken : str;
  RefreshToken : str;
  IDTokenJwtID : str;
  d_Metadata : Metadata }.

#[global] Instance MetadataSession_eq_dec : EqDecision MetadataSession.
Proof. unfold EqDecision, Decision, Time in *. decide equality; apply Z.eq_dec. Defined.
#[global] Instance MetadataTokens_eq_dec : EqDecision MetadataTokens.
Proof. unfold EqDecision, Decision. decide equality; apply Z.eq_dec. Defined.
#[global] Instance Metadata_eq_dec : EqDecision Metadata.
Proof. solve_decision. Defined.
#[global] Instance Data_eq_dec : EqDecision Data.
Proof. solve_decision. Defined.

Definition Data_with_metadata (d : Data) (m : Metadata) : Data :=
  mkData (ExternalSessionID d) (AccessToken d) (IDToken d) (RefreshToken d) (IDTokenJwtID d) m.
(** [data.AccessToken = a; data.RefreshToken = r] *)
Definition Data_with_tokens (d : Data) (a r : str) : Data :=
  mkData (ExternalSessionID d) a (IDToken d) r (IDTokenJwtID d) (d_Metadata d).

(** [NewData] *)
Definition NewData {L : JwtLib} (externalSessionID : str) (tokens : Tokens)
    (metadata : option Metadata) : Data :=
  mkData externalSessionID (tk_AccessToken tokens) (GetSerialized (tk_IDToken tokens))
    (tk_RefreshToken tokens) (GetJwtID (tk_IDToken tokens)) (default zero_Metadata metadata).

Definition HasAccessToken (d : Data) : bool := negb (is_empty (AccessToken d)).
Definition HasRefreshToken (d : Data) : bool := negb (is_empty (RefreshToken d)).

(** [toSeconds] *)
Definition toSeconds (d : Duration) : Z :=
  let i := float_to_int (Seconds d) in
  if i <=? 0 then 0 else i.

(** ** Metadata without the clock *)

(** [TokenLifetime] *)
Definition TokenLifetime (m : Metadata) : Duration :=
  Sub (ExpireAt (md_Tokens m)) (RefreshedAt (md_Tokens m)).

(** [RefreshCooldown] *)
Definition RefreshCooldown (m : Metadata) : Time :=
  let refreshed := RefreshedAt (md_Tokens m) in
  let tokenLifetime := TokenLifetime m in
  if tokenLifetime <=? RefreshMinInterval * 2
  then Add refreshed (half tokenLifetime)
  else Add refreshed RefreshMinInterval.

Definition with_timeout_at (m : Metadata) (t : Time) : Metadata :=
  mkMetadata (mkMetadataSession (CreatedAt (md_Session m)) (EndsAt (md_Session m)) t) (md_Tokens m).

(** ** Records of the session endpoints *)

Record MetadataSessionVerbose := {
  vs_Session : MetadataSession;
  EndsInSeconds : Z;
  Active : bool;
  TimeoutInSeconds : Z }.
Record MetadataTokensVerbose := { vt_Tokens : MetadataTokens; ExpireInSeconds : Z }.
Record MetadataVerbose := { mv_Session : MetadataSessionVerbose; mv_Tokens : MetadataTokensVerbose }.
Record MetadataTokensVerboseWithRefresh := {
  vr_Tokens : MetadataTokensVerbose;
  NextAutoRefreshInSeconds : Z;
  vr_RefreshCooldown : bool;
  RefreshCooldownSeconds : Z }.
Record MetadataVerboseWithRefresh := {
  mvr_Session : MetadataSessionVerbose;
  mvr_Tokens : MetadataTokensVerboseWithRefresh }.

(** ** JSON forms

    Times are written in the local zone; an embedded struct's fields are
    promoted, in place. *)

Section Json.
Context {LC : Location}.

Definition time_field {A} (name : str) (get : A -> Time) (set : Time -> A -> A) : Field A :=
  field name store_time dump_time get set.
Definition int_field {A} (name : str) (get : A -> Z) (set : Z -> A -> A) : Field A :=
  field name store_int dump_int get set.
Definition bool_field {A} (name : str) (get : A -> bool) (set : bool -> A -> A) : Field A :=
  field name store_bool dump_bool get set.
Definition string_field {A} (name : str) (get : A -> str) (set : str -> A -> A) : Field A :=
  field name store_string dump_string get set.
Definition struct_field {A X} (name : str) (fs : list (Field X)) (get : A -> X) (set : X -> A -> A)
    : Field A := field name (store_struct fs) (dump_struct fs) get set.

Definition MetadataSession_fields : list (Field MetadataSession) := [
  time_field $"created_at" CreatedAt (fun t m => mkMetadataSession t (EndsAt m) (TimeoutAt m));
  time_field $"ends_at" EndsAt (fun t m => mkMetadataSession (CreatedAt m) t (TimeoutAt m));
  time_field $"timeout_at" TimeoutAt (fun t m => mkMetadataSession (CreatedAt m) (EndsAt m) t)].
Definition MetadataTokens_fields : list (Field MetadataTokens) := [
  time_field $"expire_at" ExpireAt (fun t m => mkMetadataTokens t (RefreshedAt m));
  time_field $"refreshed_at" RefreshedAt (fun t m => mkMetadataTokens (ExpireAt m) t)].
Definition Metadata_fields : list (Field Metadata) := [
  struct_field $"session" MetadataSession_fields md_Session (fun s m => mkMetadata s (md_Tokens m));
  struct_field $"tokens" MetadataTokens_fields md_Tokens (fun t m => mkMetadata (md_Session m) t)].

Definition Data_fields : list (Field Data) := [
  string_field $"external_session_id" ExternalSessionID
    (fun x d => mkData x (AccessToken d) (IDToken d) (RefreshToken d) (IDTokenJwtID d) (d_Metadata d));
  string_field $"access_token" AccessToken
    (fun x d => mkData (ExternalSessionID d) x (IDToken d) (RefreshToken d) (IDTokenJwtID d) (d_Metadata d));
  string_field $"id_token" IDToken
    (fun x d => mkData (ExternalSessionID d) (AccessToken d) x (RefreshToken d) (IDTokenJwtID d) (d_Metadata d));
  string_field $"refresh_token" RefreshToken
    (fun x d => mkData (ExternalSessionID d) (AccessToken d) (IDToken d) x (IDTokenJwtID d) (d_Metadata d));
  string_field $"id_token_jwt_id" IDTokenJwtID
    (fun x d => mkData (ExternalSessionID d) (AccessToken d) (IDToken d) (RefreshToken d) x (d_Metadata d));
  struct_field $"metadata" Metadata_fields d_Metadata (fun m d => Data_with_metadata d m)].
#[global] Instance Data_codec : Codec Data := {|
  json_Marshal := struct_Marshal Data_fields;
  json_Unmarshal := struct_Unmarshal Data_fields (mkData [] [] [] [] [] zero_Metadata) |}.

Definition MetadataSessionVerbose_fields : list (Field MetadataSessionVerbose) :=
  map (embed vs_Session
        (fun s v => Build_MetadataSessionVerbose s (EndsInSeconds v) (Active v) (TimeoutInSeconds v)))
    MetadataSession_fields ++ [
  int_field $"ends_in_seconds" EndsInSeconds
    (fun x v => Build_MetadataSessionVerbose (vs_Session v) x (Active v) (TimeoutInSeconds v));
  bool_field $"active" Active
    (fun x v => Build_MetadataSessionVerbose (vs_Session v) (EndsInSeconds v) x (TimeoutInSeconds v));
  int_field $"timeout_in_seconds" TimeoutInSeconds
    (fun x v => Build_MetadataSessionVerbose (vs_Session v) (EndsInSeconds v) (Active v) x)].
Definition MetadataTokensVerbose_fields : list (Field MetadataTokensVerbose) :=
  map (embed vt_Tokens (fun t v => Build_MetadataTokensVerbose t (ExpireInSeconds v)))
    MetadataTokens_fields ++ [
  int_field $"expire_in_seconds" ExpireInSeconds
    (fun x v => Build_MetadataTokensVerbose (vt_Tokens v) x)].
Definition MetadataTokensVerboseWithRefresh_fields : list (Field MetadataTokensVerboseWithRefresh) :=
  map (embed vr_Tokens
        (fun t v => Build_MetadataTokensVerboseWithRefresh t (NextAutoRefreshInSeconds v)
                      (vr_RefreshCooldown v) (RefreshCooldownSeconds v)))
    MetadataTokensVerbose_fields ++ [
  int_field $"next_auto_refresh_in_seconds" NextAutoRefreshInSeconds
    (fun x v => Build_MetadataTokensVerboseWithRefresh (vr_Tokens v) x (vr_RefreshCooldown v)
                  (RefreshCooldownSeconds v));
  bool_field $"refresh_cooldown" vr_RefreshCooldown
    (fun x v => Build_MetadataTokensVerboseWithRefresh (vr_Tokens v) (NextAutoRefreshInSeconds v) x
                  (RefreshCooldownSeconds v));
  int_field $"refresh_cooldown_seconds" RefreshCooldownSeconds
    (fun x v => Build_MetadataTokensVerboseWithRefresh (vr_Tokens v) (NextAutoRefreshInSeconds v)
                  (vr_RefreshCooldown v) x)].
Definition MetadataVerbose_fields : list (Field MetadataVerbose) := [
  struct_field $"session" MetadataSessionVerbose_fields mv_Session
    (fun s v => Build_MetadataVerbose s (mv_Tokens v));
  struct_field $"tokens" MetadataTokensVerbose_fields mv_Tokens
    (fun t v => Build_MetadataVerbose (mv_Session v) t)].
Definition MetadataVerboseWithRefresh_fields : list (Field MetadataVerboseWithRefresh) := [
  struct_field $"session" MetadataSessionVerbose_fields mvr_Session
    (fun s v => Build_MetadataVerboseWithRefresh s (mvr_Tokens v));
  struct_field $"tokens" MetadataTokensVerboseWithRefresh_fields mvr_Tokens
    (fun t v => Build_MetadataVerboseWithRefresh (mvr_Session v) t)].
#[global] Instance MetadataVerbose_encoder : Encoder MetadataVerbose :=
  struct_Encode MetadataVerbose_fields.
#[global] Instance MetadataVerboseWithRefresh_encoder : Encoder MetadataVerboseWithRefresh :=
  struct_Encode MetadataVerboseWithRefresh_fields.
End Json.

Definition EncryptedData_fields : list (Field EncryptedData) :=
  [string_field $"data" ed_Data (fun x _ => mkEncryptedData x)].
#[global] Instance EncryptedData_codec : Codec EncryptedData := {|
  json_Marshal := struct_Marshal EncryptedData_fields;
  json_Unmarshal := struct_Unmarshal EncryptedData_fields (mkEncryptedData []) |}.

(** The records JSON keeps as they are: their strings are valid UTF-8. *)
Definition data_text (d : Data) : bool :=
  forallb valid_utf8
    [ExternalSessionID d; AccessToken d; IDToken d; RefreshToken d; IDTokenJwtID d].
Definition encrypted_text (e : EncryptedData) : bool := valid_utf8 (ed_Data e).

(** Session data as it comes back from JSON: its strings made valid UTF-8. *)
Definition valid_data (d : Data) : Data :=
  mkData (to_valid (ExternalSessionID d)) (to_valid (AccessToken d)) (to_valid (IDToken d))
    (to_valid (RefreshToken d)) (to_valid (IDTokenJwtID d)) (d_Metadata d).

Section Metadata.
Context {E : Env} {S : Type}.

(** [NewMetadata] *)
Definition NewMetadata (expiresIn endsIn : Duration) : M S Metadata :=
  now ← time_Now;
  mret (mkMetadata (mkMetadataSession now (Add now endsIn) zero_time)
          (mkMetadataTokens (Add now expiresIn) now)).

(** [IsExpired] *)
Definition IsExpired (m : Metadata) : M S bool :=
  now ← time_Now; mret (After now (ExpireAt (md_Tokens m))).

(** [IsRefreshOnCooldown] *)
Definition IsRefreshOnCooldown (m : Metadata) : M S bool :=
  now ← time_Now; mret (Before now (RefreshCooldown m)).

(** [NextRefresh] *)
Definition NextRefresh (m : Metadata) : M S Time :=
  let next := Add (ExpireAt (md_Tokens m)) (- RefreshLeeway) in
  now ← time_Now;
  mret (if Before next now then RefreshCooldown m else next).

(** [Metadata.Refresh] *)
Definition Metadata_Refresh (m : Metadata) (nextExpirySeconds : Z) : M S Metadata :=
  now ← time_Now;
  mret (mkMetadata (md_Session m) (mkMetadataTokens (Add now (seconds nextExpirySeconds)) now)).

(** [ShouldRefresh]: the receiver's clock is read before [NextRefresh]'s. *)
Definition ShouldRefresh (m : Metadata) : M S bool :=
  cooldown ← IsRefreshOnCooldown m;
  if (cooldown : bool) then mret false
  else
    now ← time_Now;
    next ← NextRefresh m;
    mret (After now next).

(** [ExtendTimeout] and [WithTimeout] *)
Definition ExtendTimeout (m : Metadata) (duration : Duration) : M S Metadata :=
  now ← time_Now; mret (with_timeout_at m (Add now duration)).
Definition WithTimeout (m : Metadata) (timeoutIn : Duration) : M S Metadata :=
  now ← time_Now; mret (with_timeout_at m (Add now timeoutIn)).

(** [IsTimedOut] *)
Definition IsTimedOut (m : Metadata) : M S bool :=
  if IsZero (TimeoutAt (md_Session m)) then mret false
  else now ← time_Now; mret (After now (TimeoutAt (md_Session m))).

(** [Verbose] *)
Definition Verbose (m : Metadata) : M S MetadataVerbose :=
  now ← time_Now;
  let expireTime := ExpireAt (md_Tokens m) in
  let endTime := EndsAt (md_Session m) in
  let timeoutTime := TimeoutAt (md_Session m) in
  timedOut ← IsTimedOut m;
  mret {| mv_Session :=
            {| vs_Session := md_Session m;
               EndsInSeconds := toSeconds (Sub endTime now);
               Active := negb timedOut;
               TimeoutInSeconds := if IsZero timeoutTime then -1
                                   else toSeconds (Sub timeoutTime now) |};
          mv_Tokens := {| vt_Tokens := md_Tokens m;
                          ExpireInSeconds := toSeconds (Sub expireTime now) |} |}.

(** [VerboseWithRefresh] *)
Definition VerboseWithRefresh (m : Metadata) : M S MetadataVerboseWithRefresh :=
  now ← time_Now;
  verbose ← Verbose m;
  nextRefreshTime ← NextRefresh m;
  cooldown ← IsRefreshOnCooldown m;
  mret {| mvr_Session := mv_Session verbose;
          mvr_Tokens :=
            {| vr_Tokens := mv_Tokens verbose;
               NextAutoRefreshInSeconds := toSeconds (Sub nextRefreshTime now);
               vr_RefreshCooldown := cooldown;
               RefreshCooldownSeconds := toSeconds (Sub (RefreshCooldown m) now) |} |}.
End Metadata.

(** [MarshalBinary] and [UnmarshalBinary] *)
Definition MarshalBinary (e : EncryptedData) : result str := json_Marshal e.
Definition UnmarshalBinary (s : str) : result EncryptedData := json_Unmarshal s.

(** ** Encryption of session data *)

Section Encryption.
Context {E : Env} {A : AEAD} {S : Type} {LC : Location}.

(** [Data.Encrypt] *)
Definition Data_Encrypt (key : str) (d : Data) : M S (result EncryptedData) :=
  bytes ←? pureR (json_Marshal d);
  ciphertext ←? Encrypt key bytes;
  okM (mkEncryptedData (EncodeToString StdEncoding ciphertext)).

(** [EncryptedData.Decrypt] *)
Definition EncryptedData_Decrypt (key : str) (e : EncryptedData) : result Data :=
  ciphertext ← of_option (New "base64") (DecodeString StdEncoding (ed_Data e));
  rawData ← Decrypt key ciphertext;
  json_Unmarshal rawData.
End Encryption.

(** ** Lemmas *)

Lemma toSeconds_nonneg (d : Duration) : 0 <= toSeconds d.
Proof. unfold toSeconds. destruct (_ <=? 0) eqn:E; to_prop; lia. Qed.

Lemma toSeconds_bounds (d : Duration) :
  in_int64 d -> Z.max 0 (d / Second) <= toSeconds d <= Z.max 0 (d / Second) + 1.
Proof.
  unfold in_int64. intros Hd. unfold toSeconds.
  destruct (Z_lt_le_dec d 0) as [Hn|Hp].
  - pose proof (Seconds_trunc_neg d ltac:(lia)).
    assert (d / Second < 0) by (apply Z.div_lt_upper_bound; unfold Second; lia).
    destruct (_ <=? 0) eqn:E; to_prop; lia.
  - pose proof (Seconds_trunc_bounds d ltac:(lia)).
    assert (0 <= d / Second) by (apply Z.div_pos; unfold Second; lia).
    destruct (_ <=? 0) eqn:E; to_prop; lia.
Qed.

Lemma toSeconds_exact (d : Duration) :
  min_int64 <= d < 2 ^ 23 * Second -> toSeconds d = Z.max 0 (d / Second).
Proof.
  intros Hd. unfold toSeconds. destruct (Z_lt_le_dec d 0) as [Hn|Hp].
  - pose proof (Seconds_trunc_neg d ltac:(lia)).
    assert (d / Second < 0) by (apply Z.div_lt_upper_bound; unfold Second; lia).
    destruct (_ <=? 0) eqn:E; to_prop; lia.
  - rewrite Seconds_trunc_exact by lia.
    assert (0 <= d / Second) by (apply Z.div_pos; unfold Second; lia).
    destruct (_ <=? 0) eqn:E; to_prop; lia.
Qed.

Lemma toSeconds_Sub_int64 (t u : Time) : in_int64 (toSeconds (Sub t u)).
Proof.
  assert (Hs : in_int64 (Sub t u)).
  { unfold Sub, in_int64, min_int64, max_int64. repeat case_match; to_prop; lia. }
  pose proof (toSeconds_bounds _ Hs) as Hb. unfold in_int64, min_int64, max_int64 in *.
  assert (Sub t u / Second <= 2 ^ 63 / Second) by (apply Z.div_le_mono; unfold Second; lia).
  change (2 ^ 63 / Second) with 9223372036 in *. lia.
Qed.

(** The cooldown lasts a minute, or half the lifetime of the tokens when that
    is shorter. *)
Lemma RefreshCooldown_min (m : Metadata) :
  RefreshCooldown m = RefreshedAt (md_Tokens m) + Z.min (half (TokenLifetime m)) Minute.
Proof.
  unfold RefreshCooldown, Add, RefreshMinInterval, half, Minute, Second.
  destruct (TokenLifetime m <=? _) eqn:E; to_prop.
  - rewrite Z.min_l; [done|]. pose proof (Z.quot_le_mono (TokenLifetime m) 120000000000 2 ltac:(lia) ltac:(lia)) as Hq.
    change (Z.quot 120000000000 2) with 60000000000 in Hq. lia.
  - rewrite Z.min_r; [done|]. pose proof (Z.quot_le_mono 120000000000 (TokenLifetime m) 2 ltac:(lia) ltac:(lia)) as Hq.
    change (Z.quot 120000000000 2) with 60000000000 in Hq. lia.
Qed.

(** Tokens that expire after they were obtained, by a representable duration. *)
Definition tokens_wf (t : MetadataTokens) : Prop :=
  0 <= ExpireAt t - RefreshedAt t <= max_int64.

Lemma TokenLifetime_wf (m : Metadata) :
  tokens_wf (md_Tokens m) -> TokenLifetime m = ExpireAt (md_Tokens m) - RefreshedAt (md_Tokens m).
Proof. intros H. apply Sub_exact. unfold tokens_wf, in_int64, min_int64, max_int64 in *. lia. Qed.

(** ** What the metadata methods compute, given the clock readings *)

Section Runs.
Context {E : Env} {S : Type}.
Implicit Types (w : World S) (m : Metadata).

(** The world after [n] interactions that touch nothing else. *)
Definition ticked (n : nat) w : World S := mkWorld (n + w_tick w) (w_store w) (w_trace w).

Lemma ticked_store n w : w_store (ticked n w) = w_store w.
Proof. done. Qed.
Lemma ticked_trace n w : w_trace (ticked n w) = w_trace w.
Proof. done. Qed.

Lemma IsExpired_run m w :
  IsExpired m w = (After (env_now (w_tick w)) (ExpireAt (md_Tokens m)), ticked 1 w).
Proof. done. Qed.

Lemma IsRefreshOnCooldown_run m w :
  IsRefreshOnCooldown m w = (Before (env_now (w_tick w)) (RefreshCooldown m), ticked 1 w).
Proof. done. Qed.

Lemma IsTimedOut_run m w :
  exists n, IsTimedOut m w =
    (negb (IsZero (TimeoutAt (md_Session m)))
       && After (env_now (w_tick w)) (TimeoutAt (md_Session m)), ticked n w).
Proof.
  unfold IsTimedOut. destruct (IsZero _); [exists O; by destruct w|by exists 1%nat].
Qed.

Lemma ShouldRefresh_run m w :
  exists n, ShouldRefresh m w =
    (negb (Before (env_now (w_tick w)) (RefreshCooldown m))
       && After (env_now (1 + w_tick w))
            (if Before (Add (ExpireAt (md_Tokens m)) (- RefreshLeeway)) (env_now (2 + w_tick w))
             then RefreshCooldown m else Add (ExpireAt (md_Tokens m)) (- RefreshLeeway)),
     ticked n w).
Proof.
  unfold ShouldRefresh. rewrite bind_run, IsRefreshOnCooldown_run. cbn [fst snd].
  destruct (Before (env_now (w_tick w)) _); [by exists 1%nat|by exists 3%nat].
Qed.

Lemma Verbose_run m w :
  exists n, Verbose m w =
    ({| mv_Session :=
          {| vs_Session := md_Session m;
             EndsInSeconds := toSeconds (Sub (EndsAt (md_Session m)) (env_now (w_tick w)));
             Active := negb (negb (IsZero (TimeoutAt (md_Session m)))
                 && After (env_now (1 + w_tick w)) (TimeoutAt (md_Session m)));
             TimeoutInSeconds :=
               if IsZero (TimeoutAt (md_Session m)) then -1
               else toSeconds (Sub (TimeoutAt (md_Session m)) (env_now (w_tick w))) |};
        mv_Tokens :=
          {| vt_Tokens := md_Tokens m;
             ExpireInSeconds := toSeconds (Sub (ExpireAt (md_Tokens m)) (env_now (w_tick w))) |} |},
     ticked n w).
Proof.
  unfold Verbose. rewrite bind_run. cbn [fst snd time_Now step]. rewrite bind_run.
  match goal with |- context [IsTimedOut m ?w1] => destruct (IsTimedOut_run m w1) as [k ->] end.
  exists (k + 1)%nat. unfold mret, M_ret, ticked. cbn [fst snd w_tick w_store w_trace].
  f_equal. f_equal. lia.
Qed.

Lemma Metadata_Refresh_run m n w :
  Metadata_Refresh m n w =
    (mkMetadata (md_Session m)
       (mkMetadataTokens (env_now (w_tick w) + seconds n) (env_now (w_tick w))), ticked 1 w).
Proof. done. Qed.

Lemma ExtendTimeout_run m d w :
  ExtendTimeout m d w = (with_timeout_at m (env_now (w_tick w) + d), ticked 1 w).
Proof. done. Qed.
End Runs.

(** *** JSON *)

Section JsonFacts.
Context {LC : Location}.

Lemma dump_time_ok (t : Time) (v : json) : dump_time t = Some v -> canonical v /\ json_depth v <= 0.
Proof. apply canonical_dump_time. Qed.

Lemma MetadataSession_fields_ok (m : MetadataSession) : Forall (field_ok 0 m) MetadataSession_fields.
Proof. unfold MetadataSession_fields. fields_ok; apply dump_time_ok. Qed.
Lemma MetadataTokens_fields_ok (m : MetadataTokens) : Forall (field_ok 0 m) MetadataTokens_fields.
Proof. unfold MetadataTokens_fields. fields_ok; apply dump_time_ok. Qed.

Lemma struct_field_ok {A X} (name : str) (fs : list (Field X)) (get : A -> X) set (n : Z) (a : A) :
  forallb json_plain name = true -> 0 <= n -> Forall (field_ok n (get a)) fs ->
  field_ok (1 + n) a (struct_field name fs get set).
Proof.
  intros Hp Hn Hfs. apply field_dump; [done|]. intros v. by apply dump_struct_canonical.
Qed.

Lemma Metadata_fields_ok (m : Metadata) : Forall (field_ok 1 m) Metadata_fields.
Proof.
  apply Forall_cons. split.
  - apply (struct_field_ok _ _ _ _ 0); [done..|apply MetadataSession_fields_ok].
  - apply Forall_singleton, (struct_field_ok _ _ _ _ 0); [done..|apply MetadataTokens_fields_ok].
Qed.

Lemma Data_fields_ok (d : Data) : Forall (field_ok 2 d) Data_fields.
Proof.
  assert (H : forall s v, dump_string s = Some v -> canonical v /\ json_depth v <= 2).
  { intros s v Hv. apply canonical_dump_string in Hv as [? ?]. split; [done|lia]. }
  unfold Data_fields.
  do 5 (apply Forall_cons; split; [apply field_dump; [reflexivity|apply H]|]).
  apply Forall_cons. split; [|by apply Forall_nil].
  apply (struct_field_ok _ _ _ _ 1); [done|lia|apply Metadata_fields_ok].
Qed.

(** The records of the session endpoints encode when their numbers are 64-bit. *)
Definition session_verbose_ints (v : MetadataSessionVerbose) : Prop :=
  in_int64 (EndsInSeconds v) /\ in_int64 (TimeoutInSeconds v).
Definition tokens_verbose_ints (v : MetadataTokensVerbose) : Prop := in_int64 (ExpireInSeconds v).
Definition tokens_refresh_ints (v : MetadataTokensVerboseWithRefresh) : Prop :=
  tokens_verbose_ints (vr_Tokens v) /\ in_int64 (NextAutoRefreshInSeconds v)
  /\ in_int64 (RefreshCooldownSeconds v).

Lemma MetadataSessionVerbose_fields_ok (v : MetadataSessionVerbose) :
  session_verbose_ints v -> Forall (field_ok 0 v) MetadataSessionVerbose_fields.
Proof.
  intros [? ?]. apply Forall_app. split; [apply embed_ok, MetadataSession_fields_ok|].
  fields_ok; eauto using canonical_dump_int, canonical_dump_bool.
Qed.
Lemma MetadataTokensVerbose_fields_ok (v : MetadataTokensVerbose) :
  tokens_verbose_ints v -> Forall (field_ok 0 v) MetadataTokensVerbose_fields.
Proof.
  intros ?. apply Forall_app. split; [apply embed_ok, MetadataTokens_fields_ok|].
  fields_ok; eauto using canonical_dump_int.
Qed.
Lemma MetadataTokensVerboseWithRefresh_fields_ok (v : MetadataTokensVerboseWithRefresh) :
  tokens_refresh_ints v -> Forall (field_ok 0 v) MetadataTokensVerboseWithRefresh_fields.
Proof.
  intros (? & ? & ?). apply Forall_app. split; [by apply embed_ok, MetadataTokensVerbose_fields_ok|].
  fields_ok; eauto using canonical_dump_int, canonical_dump_bool.
Qed.

(** Their encoding is a line of JSON that parses to their tree. *)
Lemma MetadataVerbose_json (v : MetadataVerbose) (s : str) :
  session_verbose_ints (mv_Session v) -> tokens_verbose_ints (mv_Tokens v) ->
  json_Encode v = Ok s ->
  exists tree t, dump_struct MetadataVerbose_fields v = Some tree /\ s = t ++ [chr 10]
    /\ json_parse t = Some tree.
Proof.
  intros Hs Ht. apply (struct_Encode_json _ 1); [lia|].
  apply Forall_cons. split; [|apply Forall_singleton];
    apply (struct_field_ok _ _ _ _ 0); try done;
    [by apply MetadataSessionVerbose_fields_ok|by apply MetadataTokensVerbose_fields_ok].
Qed.
Lemma MetadataVerboseWithRefresh_json (v : MetadataVerboseWithRefresh) (s : str) :
  session_verbose_ints (mvr_Session v) -> tokens_refresh_ints (mvr_Tokens v) ->
  json_Encode v = Ok s ->
  exists tree t, dump_struct MetadataVerboseWithRefresh_fields v = Some tree /\ s = t ++ [chr 10]
    /\ json_parse t = Some tree.
Proof.
  intros Hs Ht. apply (struct_Encode_json _ 1); [lia|].
  apply Forall_cons. split; [|apply Forall_singleton];
    apply (struct_field_ok _ _ _ _ 0); try done;
    [by apply MetadataSessionVerbose_fields_ok|by apply MetadataTokensVerboseWithRefresh_fields_ok].
Qed.

Context `{!LocationLaws}.

(** One time of a record, encoded. *)
Lemma dump_time_cases (t : Time) :
  dump_time t = None
  \/ exists v, dump_time t = Some v /\ forall cur, store_time v cur = Some t.
Proof.
  destruct (dump_time t) as [v|] eqn:E; [right|by left].
  exists v. split; [done|]. intros cur. by apply store_dump_time.
Qed.

Lemma store_dump_session (m cur : MetadataSession) (v : json) :
  dump_struct MetadataSession_fields m = Some v -> store_struct MetadataSession_fields v cur = Some m.
Proof.
  destruct m as [c e t]. unfold dump_struct. cbn [MetadataSession_fields dump_members time_field field f_dump].
  cbn [CreatedAt EndsAt TimeoutAt].
  destruct (dump_time_cases c) as [->|(vc & -> & Hc)]; [done|].
  destruct (dump_time_cases e) as [->|(ve & -> & He)]; [done|].
  destruct (dump_time_cases t) as [->|(vt & -> & Ht)]; [done|].
  intros [= <-]. cbn [store_struct f_name].
  store_fields ltac:(rewrite ?Hc, ?He, ?Ht).
Qed.

Lemma store_dump_tokens (m cur : MetadataTokens) (v : json) :
  dump_struct MetadataTokens_fields m = Some v -> store_struct MetadataTokens_fields v cur = Some m.
Proof.
  destruct m as [e r]. unfold dump_struct. cbn [MetadataTokens_fields dump_members time_field field f_dump].
  cbn [ExpireAt RefreshedAt].
  destruct (dump_time_cases e) as [->|(ve & -> & He)]; [done|].
  destruct (dump_time_cases r) as [->|(vr & -> & Hr)]; [done|].
  intros [= <-]. cbn [store_struct f_name].
  store_fields ltac:(rewrite ?He, ?Hr).
Qed.

Lemma store_dump_metadata (m cur : Metadata) (v : json) :
  dump_struct Metadata_fields m = Some v -> store_struct Metadata_fields v cur = Some m.
Proof.
  destruct m as [s t]. unfold dump_struct at 1. cbn [Metadata_fields dump_members struct_field field f_dump].
  cbn [md_Session md_Tokens].
  destruct (dump_struct MetadataSession_fields s) as [vs|] eqn:Es; [|done].
  destruct (dump_struct MetadataTokens_fields t) as [vt|] eqn:Et; [|done].
  intros [= <-]. cbn [store_struct f_name].
  store_fields ltac:(rewrite ?(store_dump_session _ _ _ Es), ?(store_dump_tokens _ _ _ Et)).
Qed.

#[global] Instance Data_codec_laws : CodecLaws Data valid_data.
Proof.
  intros [sid at_ idt rt jti m] s. apply (struct_roundtrip _ _ _ _ 2); [lia|apply Data_fields_ok|].
  intros v. unfold dump_struct at 1.
  cbn [Data_fields dump_members string_field struct_field field f_dump]. cbn [d_Metadata].
  destruct (dump_struct Metadata_fields m) as [vm|] eqn:Em; [|done].
  intros [= <-]. cbn [store_struct f_name].
  store_fields ltac:(rewrite ?unquote_quote_any; rewrite ?(store_dump_metadata _ _ _ Em)).
Qed.

(** What was decoded is text. *)
Lemma Data_Unmarshal_text (s : str) (d : Data) : json_Unmarshal s = Ok d -> data_text d = true.
Proof.
  unfold json_Unmarshal, Data_codec.
  apply (struct_Unmarshal_inv (fun d => data_text d = true)); [|by vm_compute].
  unfold Data_fields.
  fields_inv ltac:(unfold data_text; intros v [a e r y z m] x Ha Hx; cbn -[valid_utf8] in *; text_fields).
Qed.
End JsonFacts.

#[global] Instance EncryptedData_codec_laws :
  CodecLaws EncryptedData (fun e => mkEncryptedData (to_valid (ed_Data e))).
Proof.
  intros [x] s. apply (struct_roundtrip _ _ _ _ 0); [lia| |].
  - unfold EncryptedData_fields. fields_ok. by eapply canonical_dump_string.
  - intros v [= <-]. cbn [store_struct f_name].
    store_fields ltac:(rewrite unquote_quote_any).
Qed.

Lemma encrypted_roundtrip (e : EncryptedData) (s : str) :
  encrypted_text e = true -> MarshalBinary e = Ok s -> UnmarshalBinary s = Ok e.
Proof.
  intros He Hs%json_roundtrip. unfold UnmarshalBinary. rewrite Hs, to_valid_id by done. by destruct e.
Qed.

(** [MarshalBinary] never fails. *)
Lemma MarshalBinary_Ok (e : EncryptedData) : exists s, MarshalBinary e = Ok s.
Proof. by eexists. Qed.

(** Decoding errors are the package's own. *)
Lemma UnmarshalBinary_error (s : str) (e : error) (t : sentinel) :
  UnmarshalBinary s = Err e -> errors_Is e t = false.
Proof.
  unfold UnmarshalBinary, json_Unmarshal, EncryptedData_codec, struct_Unmarshal.
  destruct (json_parse s) as [v|]; [|by intros [= <-]].
  destruct (store_struct _ _ _); [done|by intros [= <-]].
Qed.

(** What [Encrypt] makes is text: base64. *)
Lemma std_encode_text (s : str) : valid_utf8 (EncodeToString StdEncoding s) = true.
Proof. apply valid_utf8_ascii. by apply Encode_all; vm_compute. Qed.

Section EncryptionFacts.
Context {E : Env} {A : AEAD} {S : Type} {LC : Location}.

Lemma Data_Encrypt_inv (w w' : World S) key d e :
  Data_Encrypt key d w = (Ok e, w') ->
  exists s c, json_Marshal d = Ok s /\ Encrypt key s w = (Ok c, w')
    /\ e = mkEncryptedData (EncodeToString StdEncoding c).
Proof.
  unfold Data_Encrypt. intros (s & w1 & [= Hs ->] & H)%bindE_Ok.
  apply bindE_Ok in H as (c & w2 & Hc & [= <- <-]). eauto.
Qed.

Lemma Data_Encrypt_text (w w' : World S) key d e :
  Data_Encrypt key d w = (Ok e, w') -> encrypted_text e = true.
Proof. intros (s & c & _ & _ & ->)%Data_Encrypt_inv. apply std_encode_text. Qed.

Lemma Data_Encrypt_frame (w : World S) key d :
  w_store (Data_Encrypt key d w).2 = w_store w /\ w_trace (Data_Encrypt key d w).2 = w_trace w.
Proof.
  unfold Data_Encrypt, bindE, pureR, mret, M_ret. destruct (json_Marshal d) as [s|]; [|done].
  pose proof (Encrypt_frame w key s). by destruct (Encrypt key s w) as [[] ?].
Qed.

Lemma Decrypt_Data_Encrypt `{!AEADLaws} `{!KeygenLaw} `{!LocationLaws}
    (w w' : World S) key d e :
  Data_Encrypt key d w = (Ok e, w') -> EncryptedData_Decrypt key e = Ok (valid_data d).
Proof.
  intros (s & c & Hs & Hc & ->)%Data_Encrypt_inv. unfold EncryptedData_Decrypt. cbn [ed_Data].
  rewrite Decode_Encode by apply _. cbn. erewrite Decrypt_Encrypt by done. cbn.
  by apply json_roundtrip.
Qed.

Lemma Decrypt_text (key : str) (e : EncryptedData) (d : Data) :
  EncryptedData_Decrypt key e = Ok d -> data_text d = true.
Proof.
  unfold EncryptedData_Decrypt. destruct (DecodeString _ _) as [c|]; [|done]. cbn.
  destruct (Decrypt key c) as [raw|]; [|done]. cbn. apply Data_Unmarshal_text.
Qed.
End EncryptionFacts.

(** Data that is text already is not altered. *)
Lemma valid_data_id (d : Data) : data_text d = true -> valid_data d = d.
Proof.
  destruct d as [sid at_ idt rt jti m]. unfold data_text, valid_data. cbn -[valid_utf8 to_valid].
  intros H. to_prop. by rewrite !to_valid_id.
Qed.

Lemma data_text_valid (d : Data) : data_text (valid_data d) = true.
Proof. unfold data_text, valid_data. cbn -[valid_utf8 to_valid]. by rewrite !to_valid_utf8. Qed.

(** ** Properties *)

(** Automatic refreshes start in the last five minutes of the tokens' life
    and never during the cooldown: when the clock does not run backwards, a
    positive answer implies both, and both (at the first reading) imply a
    positive answer. *)
Theorem ShouldRefresh_spec {E : Env} {S : Type} (w : World S) (m : Metadata)
  (Hclock : env_now (w_tick w) <= env_now (1 + w_tick w) <= env_now (2 + w_tick w)) :
  let t0 := env_now (w_tick w) in
  let t2 := env_now (2 + w_tick w) in
  let due t := ExpireAt (md_Tokens m) - 5 * Minute < t in
  ((ShouldRefresh m w).1 = true -> RefreshCooldown m <= t0 /\ due t2)
  /\ (RefreshCooldown m < t0 -> due t0 -> (ShouldRefresh m w).1 = true).
Proof.
  intros t0 t2 due. destruct (ShouldRefresh_run m w) as [n ->]. cbn [fst].
  unfold Before, After, Add, RefreshLeeway, due, t0, t2.
  destruct (ExpireAt (md_Tokens m) + - (5 * Minute) <? env_now (2 + w_tick w)) eqn:E2; to_prop.
  - split; [intros H; to_prop; lia|]. intros Hc _. apply andb_true_iff. split.
    + apply negb_true_iff, Z.ltb_ge. lia.
    + apply Z.ltb_lt. lia.
  - split; [intros H; to_prop; lia|]. lia.
Qed.

Definition example_metadata_at (t lifetime : Z) : Metadata :=
  mkMetadata (mkMetadataSession t (t + Hour) 0) (mkMetadataTokens (t + lifetime) t).

Lemma ShouldRefresh_spec_witness :
  (ShouldRefresh (E := toy_env (unix_epoch + 3400 * Second))
     (example_metadata_at unix_epoch Hour) toy_world).1 = true.
Proof.
  refine (proj2 (ShouldRefresh_spec (E := toy_env (unix_epoch + 3400 * Second)) toy_world
                   (example_metadata_at unix_epoch Hour) _) _ _).
  - vm_compute. split; discriminate.
  - vm_compute. reflexivity.
  - vm_compute. reflexivity.
Defined.

(** The cooldown of tokens that outlive their acquisition ends between the
    refresh and the expiry, at most a minute after the refresh; with tokens that
    live longer than two minutes it is exactly a minute. *)
Theorem RefreshCooldown_bounds (m : Metadata) (Hwf : tokens_wf (md_Tokens m)) :
  RefreshedAt (md_Tokens m) <= RefreshCooldown m <= ExpireAt (md_Tokens m)
  /\ RefreshCooldown m <= RefreshedAt (md_Tokens m) + Minute
  /\ (2 * Minute < TokenLifetime m -> RefreshCooldown m = RefreshedAt (md_Tokens m) + Minute).
Proof.
  rewrite RefreshCooldown_min. pose proof (TokenLifetime_wf m Hwf) as Hl.
  unfold tokens_wf in Hwf. pose proof (half_nonneg (TokenLifetime m) ltac:(lia)) as Hh.
  split; [unfold Minute, Second; lia|]. split; [lia|]. intros Hlong.
  rewrite Z.min_r; [done|]. unfold half, Minute, Second in *.
  rewrite Z.quot_div_nonneg by lia. apply Z.div_le_lower_bound; lia.
Qed.

Lemma RefreshCooldown_bounds_witness :
  RefreshCooldown (example_metadata_at unix_epoch Hour) = unix_epoch + Minute.
Proof.
  exact (proj2 (proj2 (RefreshCooldown_bounds (example_metadata_at unix_epoch Hour)
    ltac:(vm_compute; split; discriminate))) eq_refl).
Defined.

(** A refresh keeps the session's own timestamps, dates the tokens from the
    clock, and leaves them alive for exactly the announced seconds and on
    cooldown, provided the announcement fits: 292 years at most. *)
Theorem Metadata_Refresh_spec {E : Env} {S : Type} (w : World S) (m : Metadata) (n : Z)
  (Hn : 0 <= n <= 9223372036) :
  let m' := (Metadata_Refresh m n w).1 in
  md_Session m' = md_Session m
  /\ RefreshedAt (md_Tokens m') = env_now (w_tick w)
  /\ ExpireAt (md_Tokens m') = env_now (w_tick w) + n * Second
  /\ tokens_wf (md_Tokens m') /\ TokenLifetime m' = n * Second
  /\ (forall w' : World S, env_now (w_tick w') < env_now (w_tick w) + Z.min (n * (Second / 2)) Minute ->
        (IsRefreshOnCooldown m' w').1 = true).
Proof.
  rewrite Metadata_Refresh_run, seconds_exact by lia. intros m'. assert (Hwf : tokens_wf (md_Tokens m')).
  { unfold tokens_wf, max_int64. cbn. unfold Second. lia. }
  assert (Hl : TokenLifetime m' = n * Second).
  { rewrite TokenLifetime_wf by done. cbn. lia. }
  split; [done|]. split; [done|]. split; [done|]. split; [done|]. split; [done|].
  { intros w' Hw'. rewrite IsRefreshOnCooldown_run. cbn [fst]. apply Z.ltb_lt.
    rewrite RefreshCooldown_min, Hl. unfold half. change (RefreshedAt (md_Tokens m')) with (env_now (w_tick w)).
    unfold Second in *. rewrite Z.quot_div_nonneg by lia.
    replace (n * 1000000000) with (n * 500000000 * 2) by lia. rewrite Z.div_mul by lia.
    change (1000000000 / 2) with 500000000 in Hw'. lia. }
Qed.

Lemma Metadata_Refresh_spec_witness :
  TokenLifetime (Metadata_Refresh (E := toy_env unix_epoch) zero_Metadata 3600 toy_world).1 = Hour.
Proof.
  destruct (Metadata_Refresh_spec (E := toy_env unix_epoch) toy_world zero_Metadata 3600
              ltac:(lia)) as (_ & _ & _ & _ & H & _).
  exact H.
Defined.

(** Beyond that bound the conversion to a Duration wraps around: tokens
    announced to live 292 years and a bit are already expired when they arrive. *)
Theorem Metadata_Refresh_overflow {E : Env} {S : Type} (w : World S) (m : Metadata) :
  let m' := (Metadata_Refresh m 9223372037 w).1 in
  ExpireAt (md_Tokens m') < RefreshedAt (md_Tokens m')
  /\ forall w' : World S, env_now (w_tick w) <= env_now (w_tick w') -> (IsExpired m' w').1 = true.
Proof.
  rewrite Metadata_Refresh_run. intros m'.
  assert (Hs : seconds 9223372037 = -9223372036709551616) by (vm_compute; reflexivity).
  split; [cbn; rewrite Hs; lia|]. intros w' Hw'. rewrite IsExpired_run. apply Z.ltb_lt. cbn. rewrite Hs. lia.
Qed.

(** The inactivity timeout: extended by [d] at an instant, the session is
    timed out at exactly the later instants more than [d] away; a session that
    never had a timeout is never timed out. *)
Theorem timeout_spec {E : Env} {S : Type} (w w' : World S) (m : Metadata) (d : Duration)
  (Hpos : 0 < env_now (w_tick w) + d) :
  let m' := (ExtendTimeout m d w).1 in
  ((IsTimedOut m' w').1 = true <-> d < env_now (w_tick w') - env_now (w_tick w))
  /\ md_Tokens m' = md_Tokens m /\ EndsAt (md_Session m') = EndsAt (md_Session m)
  /\ (TimeoutAt (md_Session m) = zero_time -> (IsTimedOut m w').1 = false).
Proof.
  rewrite ExtendTimeout_run. intros m'. split; [|split; [done|split; [done|]]].
  - destruct (IsTimedOut_run m' w') as [k ->]. subst m'. cbn [fst with_timeout_at md_Session TimeoutAt].
    unfold IsZero, After. destruct (_ =? 0) eqn:E0; to_prop; [lia|]. cbn.
    rewrite Z.ltb_lt. lia.
  - intros Hz. destruct (IsTimedOut_run m w') as [k ->]. by rewrite Hz.
Qed.

Lemma timeout_spec_witness :
  let m' := (ExtendTimeout (E := toy_env unix_epoch) zero_Metadata (2 * Second) toy_world).1 in
  (IsTimedOut (E := toy_env unix_epoch) m' (ticked 3 toy_world)).1 = true.
Proof.
  apply (timeout_spec (E := toy_env unix_epoch) toy_world (ticked 3 toy_world) zero_Metadata
           (2 * Second)); vm_compute; reflexivity.
Defined.

(** The seconds the session endpoints report are never negative except for
    the timeout's "none", which is reported exactly for a zero timeout; they are
    the whole seconds left, or one more for durations the float conversion cannot
    tell apart, and exact for durations below 97 days. *)
Theorem Verbose_spec {E : Env} {S : Type} (w : World S) (m : Metadata) :
  let v := (Verbose m w).1 in
  let left t := Z.max 0 (Sub t (env_now (w_tick w)) / Second) in
  let near x n := n <= x <= n + 1 in
  let exact t x := Sub t (env_now (w_tick w)) < 2 ^ 23 * Second -> x = left t in
  vs_Session (mv_Session v) = md_Session m /\ vt_Tokens (mv_Tokens v) = md_Tokens m
  /\ near (EndsInSeconds (mv_Session v)) (left (EndsAt (md_Session m)))
  /\ exact (EndsAt (md_Session m)) (EndsInSeconds (mv_Session v))
  /\ near (ExpireInSeconds (mv_Tokens v)) (left (ExpireAt (md_Tokens m)))
  /\ exact (ExpireAt (md_Tokens m)) (ExpireInSeconds (mv_Tokens v))
  /\ (TimeoutAt (md_Session m) = zero_time ->
        TimeoutInSeconds (mv_Session v) = -1 /\ Active (mv_Session v) = true)
  /\ (TimeoutAt (md_Session m) <> zero_time ->
        near (TimeoutInSeconds (mv_Session v)) (left (TimeoutAt (md_Session m)))).
Proof.
  intros v left near exact. destruct (Verbose_run m w) as [k Hk].
  assert (Hn : forall t, near (toSeconds (Sub t (env_now (w_tick w)))) (left t))
    by (intros t; apply toSeconds_bounds, Sub_bound).
  assert (He : forall t, exact t (toSeconds (Sub t (env_now (w_tick w))))).
  { intros t Ht. apply toSeconds_exact. pose proof (Sub_bound t (env_now (w_tick w))) as Hb.
    unfold in_int64 in Hb. lia. }
  subst v. rewrite Hk. cbn [fst mv_Session mv_Tokens vs_Session vt_Tokens EndsInSeconds
                ExpireInSeconds TimeoutInSeconds Active].
  repeat split; try apply Hn; try apply He; rewrite ?H; try done.
  - unfold IsZero. destruct (_ =? 0) eqn:E0; to_prop; [done|]. apply Hn.
  - unfold IsZero. destruct (_ =? 0) eqn:E0; to_prop; [done|]. apply Hn.
Qed.


(** UTC, and a zone with daylight saving time (in force from April to October). *)
Definition utc : Location := fun _ => 0.
Definition oslo : Location := fun t =>
  let '(_, m, _) := civil (t / day_ns) in if (4 <=? m) && (m <=? 10) then 7200 else 3600.
Lemma utc_laws : LocationLaws (H := utc).
Proof. intros t. by exists 0. Qed.
Lemma oslo_laws : LocationLaws (H := oslo).
Proof.
  intros t. unfold local_offset, oslo. destruct (civil _) as [[y m] d].
  destruct (_ && _); [exists 120|exists 60]; lia.
Qed.

Definition example_data : Data :=
  mkData $"sid-1" $"at" $"jwt" $"rt" $"id-1" (example_metadata_at unix_epoch Hour).

