(* ===== verification/Store.v ===== *)
(** * Session stores and locks: [pkg/session/store*.go], [pkg/session/lock.go]

    [Store] is the interface of the source; [StoreLaws] is what the session
    handler relies on, stated through a view of the state as a finite map.  A
    store may lose entries at any operation (Redis expires them) but never
    invents one.  The in-memory store and the Redis store implement it, the
    latter over a Redis client whose documented behaviour is [RedisLaws].  The
    latency metrics around the Redis calls are not modelled. *)

From S2P Require Import Prelude GoStrings GoTime GoBase64 GoError GoJsonText GoJson Config Crypter SessionData.

(** ** The interface *)

Class Store (S : Type) := {
  Lock : Type;
  store_Write : str -> EncryptedData -> Duration -> M S (result unit);
  store_Read : str -> M S (result EncryptedData);
  store_Delete : list str -> M S (result unit);
  store_Update : str -> EncryptedData -> M S (result unit);
  MakeLock : str -> Lock;
  Lock_Acquire : Lock -> Duration -> M S (result unit * Lock);
  Lock_Release : Lock -> M S (result unit);
}.

(** [lockKey] *)
Definition lockKey (key : str) : str := key ++ $".lock".

(** Nothing but the store, and the position in the environment, changes. *)
Definition store_step {S} (w w' : World S) : Prop :=
  w_trace w' = w_trace w /\ (w_tick w <= w_tick w')%nat.

(** The view after an operation that may or may not have set [k] to [v]. *)
Definition maybe_set (m m' : gmap str EncryptedData) (k : str) (v : EncryptedData) : Prop :=
  m' ⊆ m \/ m' ⊆ <[k := v]> m.

(** The locks made for a key, after any number of attempts to acquire them. *)
Inductive lock_for {S : Type} `{!Store S} (key : str) : Lock -> Prop :=
| lock_made : lock_for key (MakeLock key)
| lock_tried l d w : lock_for key l -> lock_for key (Lock_Acquire l d w).1.2.

Class StoreLaws (S : Type) `{!Store S} (view : S -> gmap str EncryptedData) : Prop := {
  store_steps : forall w,
    (forall k v d, store_step w (store_Write k v d w).2)
    /\ (forall k, store_step w (store_Read k w).2)
    /\ (forall ks, store_step w (store_Delete ks w).2)
    /\ (forall k v, store_step w (store_Update k v w).2)
    /\ (forall l d, store_step w (Lock_Acquire l d w).2)
    /\ (forall l, store_step w (Lock_Release l w).2);
  read_Ok : forall w w' k v,
    store_Read k w = (Ok v, w') -> view (w_store w) !! k = Some v;
  read_missing : forall w w' k e,
    store_Read k w = (Err e, w') -> errors_Is e ErrKeyNotFound = true ->
    view (w_store w') !! k = None;
  read_view : forall w k, view (w_store (store_Read k w).2) ⊆ view (w_store w);
  write_view : forall w w' r k v d,
    encrypted_text v = true -> store_Write k v d w = (r, w') ->
    maybe_set (view (w_store w)) (view (w_store w')) k v
    /\ (r = Ok tt -> view (w_store w') ⊆ <[k := v]> (view (w_store w)));
  update_view : forall w w' r k v,
    encrypted_text v = true -> store_Update k v w = (r, w') ->
    maybe_set (view (w_store w)) (view (w_store w')) k v
    /\ (r = Ok tt -> is_Some (view (w_store w) !! k)
                     /\ view (w_store w') ⊆ <[k := v]> (view (w_store w)));
  delete_view : forall w w' r ks,
    store_Delete ks w = (r, w') ->
    view (w_store w') ⊆ view (w_store w)
    /\ (r = Ok tt -> forall k, k ∈ ks -> view (w_store w') !! k = None);
  lock_view : forall w key l d k v,
    lock_for key l -> k <> lockKey key ->
    (view (w_store (Lock_Acquire l d w).2) !! k = Some v -> view (w_store w) !! k = Some v)
    /\ (view (w_store (Lock_Release l w).2) !! k = Some v -> view (w_store w) !! k = Some v);
}.

(** ** [store_memory.go] *)

Module Memory.
(** [memorySessionStore.sessions] *)
Abbreviation memorySessionStore := (gmap str EncryptedData).
Definition NewMemory : memorySessionStore := ∅.

Definition Read (key : str) (s : memorySessionStore) : result EncryptedData :=
  match s !! key with
  | Some data => Ok data
  | None => Err (Wrap "no such session" (Sentinel ErrKeyNotFound))
  end.
(** The assignment to [sessions[key]], under the lock. *)
Definition put (key : str) (value : EncryptedData) (s : memorySessionStore) : memorySessionStore :=
  <[key := value]> s.
(** The loop of [Delete] over its keys. *)
Fixpoint delete_all (keys : list str) (s : memorySessionStore) : memorySessionStore :=
  match keys with
  | [] => s
  | key :: rest => delete_all rest (delete key s)
  end.

Definition memory_Write (key : str) (value : EncryptedData) (_ : Duration)
    : M memorySessionStore (result unit) :=
  on_store (fun s => (Ok tt, put key value s)).
Definition memory_Read (key : str) : M memorySessionStore (result EncryptedData) :=
  on_store (fun s => (Read key s, s)).
Definition memory_Delete (keys : list str) : M memorySessionStore (result unit) :=
  on_store (fun s => (Ok tt, delete_all keys s)).
(** [Update] reads under the lock, releases it, and assigns under it again. *)
Definition memory_Update (key : str) (value : EncryptedData) : M memorySessionStore (result unit) :=
  _ ←? memory_Read key;
  on_store (fun s => (Ok tt, put key value s)).

(** [NoOpLock] *)
Inductive NoOpLock := NewNoOpLock.
Definition NoOp_Acquire (l : NoOpLock) (_ : Duration) : M memorySessionStore (result unit * NoOpLock) :=
  mret (Ok tt, l).
Definition NoOp_Release (l : NoOpLock) : M memorySessionStore (result unit) := okM tt.

#[export] Instance memory_store : Store memorySessionStore := {|
  Lock := NoOpLock;
  store_Write := memory_Write;
  store_Read := memory_Read;
  store_Delete := memory_Delete;
  store_Update := memory_Update;
  MakeLock _ := NewNoOpLock;
  Lock_Acquire := NoOp_Acquire;
  Lock_Release := NoOp_Release |}.

Lemma delete_all_lookup (keys : list str) (s : memorySessionStore) (k : str) :
  delete_all keys s !! k = if decide (k ∈ keys) then None else s !! k.
Proof.
  revert s. induction keys as [|k' keys IH]; intros s; cbn [delete_all].
  - by rewrite decide_False by set_solver.
  - rewrite IH. destruct (decide (k ∈ keys)) as [Hi|Hi].
    + by rewrite decide_True by set_solver.
    + destruct (decide (k = k')) as [->|Hne].
      * by rewrite decide_True, lookup_delete_eq by set_solver.
      * by rewrite decide_False, lookup_delete_ne by set_solver.
Qed.

Lemma delete_all_subseteq (keys : list str) (s : memorySessionStore) : delete_all keys s ⊆ s.
Proof.
  apply map_subseteq_spec. intros k v. rewrite delete_all_lookup. by case_decide.
Qed.

#[export] Instance memory_laws : StoreLaws memorySessionStore (fun s => s).
Proof.
  split.
  - intros w. unfold store_step. repeat split; cbn; try lia; intros.
    + unfold memory_Update, bindE, memory_Read, on_store.
      destruct (Read _ _); done.
    + unfold memory_Update, bindE, memory_Read, on_store. destruct (Read _ _); cbn; lia.
  - intros w w' k v. cbn. unfold memory_Read, on_store, Read.
    destruct (w_store w !! k); intros [= <- <-]. done.
  - intros w w' k e. cbn. unfold memory_Read, on_store, Read.
    destruct (w_store w !! k) eqn:Ek; intros [= <- <-]. done.
  - intros w k. done.
  - intros w w' r k v d _ [= <- <-]. split; [by right|done].
  - intros w w' r k v _. cbn. unfold memory_Update, bindE, memory_Read, on_store, Read.
    destruct (w_store w !! k) eqn:Ek; intros [= <- <-]; cbn.
    + split; [by right|]. intros _. by split; [eexists|].
    + split; [by left|done].
  - intros w w' r ks [= <- <-]. cbn. split; [apply delete_all_subseteq|].
    intros _ k Hk. by rewrite delete_all_lookup, decide_True.
  - intros w key l d k v _ _. done.
Qed.
End Memory.

(** ** The Redis client: go-redis' commands and bsm/redislock

    [KeepTTL] is go-redis' marker for SET ... KEEPTTL. *)

Definition KeepTTL : Duration := (-1)%Z.

Class RedisClient (S : Type) := {
  LockToken : Type;
  redis_Get : str -> M S (result str);
  redis_Set : str -> str -> Duration -> M S (result unit);
  redis_Del : list str -> M S (result unit);
  redislock_Obtain : str -> Duration -> M S (result LockToken);
  redislock_Release : LockToken -> M S (result unit);
}.

(** A key of the server holds a value and possibly an expiry. *)
Abbreviation RedisState := (gmap str (str * option Time)).

(** The expiry a SET leaves behind, from the entry it replaces (none when that
    one expired). *)
Definition set_expiry (d : Duration) (old : option (str * option Time)) (new : option Time) : Prop :=
  if (d =? KeepTTL)%Z then new = (o ← old; snd o)
  else if (0 <? d)%Z then is_Some new
  else new = None.

Class RedisLaws (S : Type) `{!RedisClient S} (rview : S -> RedisState)
    (token_key : LockToken -> str) : Prop := {
  redis_steps : forall w,
    (forall k, store_step w (redis_Get k w).2)
    /\ (forall k v d, store_step w (redis_Set k v d w).2)
    /\ (forall ks, store_step w (redis_Del ks w).2)
    /\ (forall k d, store_step w (redislock_Obtain k d w).2)
    /\ (forall t, store_step w (redislock_Release t w).2);
  redis_Get_spec : forall w w' k r,
    redis_Get k w = (r, w') ->
    rview (w_store w') ⊆ rview (w_store w)
    /\ match r with
       | Ok v => exists x, rview (w_store w) !! k = Some (v, x)
       | Err e => errors_Is e RedisNil = true -> rview (w_store w') !! k = None
       end;
  redis_Set_spec : forall w w' k v d r,
    redis_Set k v d w = (r, w') ->
    exists m x, m ⊆ rview (w_store w) /\ set_expiry d (m !! k) x
    /\ (rview (w_store w') ⊆ <[k := (v, x)]> (rview (w_store w))
        \/ (is_ok r = false /\ rview (w_store w') ⊆ rview (w_store w)));
  redis_Del_spec : forall w w' ks r,
    redis_Del ks w = (r, w') ->
    rview (w_store w') ⊆ rview (w_store w)
    /\ (r = Ok tt -> forall k, k ∈ ks -> rview (w_store w') !! k = None);
  redislock_spec : forall w w' k d r,
    redislock_Obtain k d w = (r, w') ->
    delete k (rview (w_store w')) ⊆ rview (w_store w)
    /\ (forall t, r = Ok t -> token_key t = k);
  redislock_release_spec : forall w t,
    rview (w_store (redislock_Release t w).2) ⊆ rview (w_store w);
}.

(** ** [store_redis.go] and [RedisLock] *)

Module Redis.
Section RedisStore.
Context {S : Type} `{!RedisClient S}.

Definition lift_err {A} (r : result A) : result A :=
  match r with
  | Ok a => Ok a
  | Err e =>
      if errors_Is e RedisNil then Err (WrapDetail (Sentinel ErrKeyNotFound) e)
      else Err (WrapDetail (Sentinel ErrUnexpected) e)
  end.
Definition unexpected {A} (r : result A) : result A :=
  match r with Ok a => Ok a | Err e => Err (WrapDetail (Sentinel ErrUnexpected) e) end.

(** [client.Get(ctx, key).Scan(encryptedData)] *)
Definition redis_Scan (key : str) : M S (result EncryptedData) :=
  v ←? redis_Get key; pureR (UnmarshalBinary v).
(** [client.Set(ctx, key, value, expiration)]: the value is marshalled by
    the client. *)
Definition redis_SetBinary (key : str) (value : EncryptedData) (d : Duration)
    : M S (result unit) :=
  b ←? pureR (MarshalBinary value); redis_Set key b d.

Definition redis_Read (key : str) : M S (result EncryptedData) := lift_err <$> redis_Scan key.
Definition redis_Write (key : str) (value : EncryptedData) (expiration : Duration)
    : M S (result unit) :=
  unexpected <$> redis_SetBinary key value expiration.
Definition redis_Delete (keys : list str) : M S (result unit) := lift_err <$> redis_Del keys.
Definition redis_Update (key : str) (value : EncryptedData) : M S (result unit) :=
  _ ←? redis_Read key;
  unexpected <$> redis_SetBinary key value KeepTTL.

(** [RedisLock] *)
Record RedisLock := { rl_key : str; rl_lock : option LockToken }.
Definition NewRedisLock (key : str) : RedisLock := {| rl_key := key; rl_lock := None |}.

Definition Acquire (l : RedisLock) (duration : Duration) : M S (result unit * RedisLock) :=
  r ← redislock_Obtain (lockKey (rl_key l)) duration;
  match r with
  | Ok t => mret (Ok tt, {| rl_key := rl_key l; rl_lock := Some t |})
  | Err e =>
      if errors_Is e ErrNotObtained then mret (Err (Sentinel ErrAcquireLock), l)
      else mret (Err e, l)
  end.
(** A nil lock is [redislock.ErrLockNotHeld]. *)
Definition Release (l : RedisLock) : M S (result unit) :=
  match rl_lock l with
  | Some t => redislock_Release t
  | None => errM (New "redislock: lock not held")
  end.

Definition redis_store : Store S := {|
  Lock := RedisLock;
  store_Write := redis_Write;
  store_Read := redis_Read;
  store_Delete := redis_Delete;
  store_Update := redis_Update;
  MakeLock := NewRedisLock;
  Lock_Acquire := Acquire;
  Lock_Release := Release |}.
End RedisStore.

(** The sessions a Redis keyspace holds: the values that decode. *)
Definition session_view (m : RedisState) : gmap str EncryptedData :=
  omap (fun e => match UnmarshalBinary e.1 with Ok d => Some d | Err _ => None end) m.

Section RedisFacts.
Context {S : Type} `{!RedisClient S}.
Context (rview : S -> RedisState) (token_key : LockToken -> str).
Context `{!RedisLaws S rview token_key}.

Lemma session_view_mono (m m' : RedisState) : m ⊆ m' -> session_view m ⊆ session_view m'.
Proof. apply map_omap_mono. Qed.

Lemma session_view_insert (m : RedisState) k v b x :
  encrypted_text v = true -> MarshalBinary v = Ok b -> session_view (<[k := (b, x)]> m) = <[k := v]> (session_view m).
Proof.
  intros Hv Hb. apply map_eq. intros i. unfold session_view. rewrite lookup_omap.
  destruct (decide (i = k)) as [->|Hne].
  - rewrite !lookup_insert_eq. cbn. by rewrite (encrypted_roundtrip v b Hv Hb).
  - by rewrite !lookup_insert_ne, lookup_omap by done.
Qed.

Lemma session_view_lookup (m : RedisState) k b x :
  m !! k = Some (b, x) ->
  session_view m !! k = match UnmarshalBinary b with Ok d => Some d | Err _ => None end.
Proof. intros Hk. unfold session_view. by rewrite lookup_omap, Hk. Qed.

Lemma redis_Scan_spec (w w' : World S) k r :
  redis_Scan k w = (r, w') ->
  store_step w w' /\ rview (w_store w') ⊆ rview (w_store w)
  /\ match r with
     | Ok v => session_view (rview (w_store w)) !! k = Some v
     | Err e => errors_Is e RedisNil = true -> rview (w_store w') !! k = None
     end.
Proof.
  unfold redis_Scan, bindE. pose proof (proj1 (redis_steps w) k) as Hs.
  destruct (redis_Get k w) as [[b|e] w1] eqn:Eg;
    pose proof (redis_Get_spec w w1 k _ Eg) as [Hv Hr].
  - destruct Hr as [x Hx]. intros [= <- <-]. split; [done|]. split; [done|].
    pose proof (session_view_lookup _ _ _ _ Hx) as Hl. cbn in *.
    destruct (UnmarshalBinary b) eqn:Eu; [done|].
    intros Hn. by rewrite (UnmarshalBinary_error _ _ _ Eu) in Hn.
  - intros [= <- <-]. done.
Qed.

Lemma redis_SetBinary_spec (w w' : World S) k v d r :
  encrypted_text v = true -> redis_SetBinary k v d w = (r, w') ->
  store_step w w'
  /\ maybe_set (session_view (rview (w_store w))) (session_view (rview (w_store w'))) k v
  /\ (r = Ok tt -> session_view (rview (w_store w')) ⊆ <[k := v]> (session_view (rview (w_store w))))
  /\ (is_ok r = true -> exists b x, MarshalBinary v = Ok b
        /\ (exists m, m ⊆ rview (w_store w) /\ set_expiry d (m !! k) x)
        /\ rview (w_store w') ⊆ <[k := (b, x)]> (rview (w_store w))).
Proof.
  intros Htext. unfold redis_SetBinary, bindE, pureR, mret, M_ret.
  destruct (MarshalBinary v) as [b|e] eqn:Eb.
  - intros Hr. destruct (redis_Set_spec _ _ _ _ _ _ Hr) as (m & x & Hm & Hx & Hv).
    split; [by rewrite <- (f_equal snd Hr : _ = w'); apply redis_steps|].
    destruct Hv as [Hv|[Hf Hv]].
    + apply session_view_mono in Hv as Hv'. rewrite (session_view_insert _ k v b x Htext Eb) in Hv'.
      split; [by right|]. split; [done|]. intros _. exists b, x. eauto.
    + split; [left; by apply session_view_mono|]. by split; [intros ->|rewrite Hf].
  - intros [= <- <-]. split; [by split|]. split; [by left|done].
Qed.

Lemma fmap_run {X Y} (f : X -> Y) (m : M S X) (w : World S) : (f <$> m) w = (f (m w).1, (m w).2).
Proof. unfold fmap, M_fmap. by destruct (m w). Qed.

Lemma redis_Read_spec (w w' : World S) k r :
  redis_Read k w = (r, w') ->
  store_step w w' /\ rview (w_store w') ⊆ rview (w_store w)
  /\ match r with
     | Ok v => session_view (rview (w_store w)) !! k = Some v
     | Err e => errors_Is e ErrKeyNotFound = true -> rview (w_store w') !! k = None
     end.
Proof.
  unfold redis_Read. rewrite fmap_run. intros [= <- <-].
  destruct (redis_Scan k w) as [r w'] eqn:Er.
  destruct (redis_Scan_spec _ _ _ _ Er) as (Hs & Hv & Hr). cbn [fst snd].
  split; [done|]. split; [done|]. destruct r as [v|e]; [done|]. cbn [lift_err].
  destruct (errors_Is e RedisNil) eqn:En; [by auto|done].
Qed.

Lemma Acquire_key (l : RedisLock) d (w : World S) : rl_key (Acquire l d w).1.2 = rl_key l.
Proof.
  unfold Acquire. rewrite bind_run. destruct (redislock_Obtain _ d w) as [[t|e] w1]; [done|].
  cbn [fst snd]. by destruct (errors_Is _ _).
Qed.

Lemma Acquire_view (l : RedisLock) d (w : World S) :
  store_step w (Acquire l d w).2
  /\ delete (lockKey (rl_key l)) (rview (w_store (Acquire l d w).2)) ⊆ rview (w_store w).
Proof.
  unfold Acquire. rewrite bind_run.
  destruct (redis_steps w) as (_ & _ & _ & Ho & _). specialize (Ho (lockKey (rl_key l)) d).
  destruct (redislock_Obtain (lockKey (rl_key l)) d w) as [r w1] eqn:Eo.
  destruct (redislock_spec _ _ _ _ _ Eo) as [Hv _].
  destruct r as [t|e]; cbn [fst snd]; [done|]. by destruct (errors_Is _ _).
Qed.

Lemma Release_view (l : RedisLock) (w : World S) :
  store_step w (Release l w).2 /\ rview (w_store (Release l w).2) ⊆ rview (w_store w).
Proof.
  unfold Release. destruct (rl_lock l) as [t|]; [|by split].
  split; [apply redis_steps|apply redislock_release_spec].
Qed.

Lemma store_step_trans (w1 w2 w3 : World S) : store_step w1 w2 -> store_step w2 w3 -> store_step w1 w3.
Proof. unfold store_step. intros [? ?] [? ?]. split; [congruence|lia]. Qed.

(** Steps do not depend on what is written. *)
Lemma redis_SetBinary_step k v d (w : World S) : store_step w (redis_SetBinary k v d w).2.
Proof.
  unfold redis_SetBinary, bindE, pureR, mret, M_ret.
  destruct (MarshalBinary v); [apply redis_steps|by split].
Qed.

Lemma redis_Update_step k v (w : World S) : store_step w (redis_Update k v w).2.
Proof.
  unfold redis_Update, bindE. destruct (redis_Read k w) as [[v0|e] w1] eqn:Er;
    destruct (redis_Read_spec _ _ _ _ Er) as (Hs & _); [|done].
  rewrite fmap_run. eapply store_step_trans; [exact Hs|apply redis_SetBinary_step].
Qed.

Lemma redis_Update_spec (w w' : World S) k v r :
  encrypted_text v = true -> redis_Update k v w = (r, w') ->
  store_step w w'
  /\ maybe_set (session_view (rview (w_store w))) (session_view (rview (w_store w'))) k v
  /\ (r = Ok tt ->
       is_Some (session_view (rview (w_store w)) !! k)
       /\ session_view (rview (w_store w')) ⊆ <[k := v]> (session_view (rview (w_store w)))
       /\ exists b x, MarshalBinary v = Ok b
          /\ (forall e, rview (w_store w') !! k = Some e -> e = (b, x))
          /\ exists m, m ⊆ rview (w_store w) /\ x = (o ← m !! k; snd o)).
Proof.
  intros Htext. unfold redis_Update, bindE. destruct (redis_Read k w) as [[v0|e] w1] eqn:Er;
    destruct (redis_Read_spec _ _ _ _ Er) as (Hs & Hv & Hr);
    pose proof (session_view_mono _ _ Hv) as Hv'.
  - rewrite fmap_run. destruct (redis_SetBinary k v KeepTTL w1) as [rs w2] eqn:Es.
    destruct (redis_SetBinary_spec _ _ _ _ _ _ Htext Es) as (Hs2 & Hm & Hok & Hx).
    cbn [fst snd]. intros [= <- <-]. split; [by eapply store_step_trans|]. split.
    + destruct Hm as [Hm|Hm]; [left|right].
      * by transitivity (session_view (rview (w_store w1))).
      * etransitivity; [exact Hm|]. by apply insert_mono.
    + intros Hu. destruct rs as [[]|]; [|done]. split; [by eexists|]. split.
      { etransitivity; [by apply Hok|]. by apply insert_mono. }
      destruct (Hx eq_refl) as (b & x & Hb & (m & Hm' & Hexp) & Hsub). exists b, x. split; [done|]. split.
      * intros e He. apply (lookup_weaken _ _ _ _ He) in Hsub.
        rewrite lookup_insert_eq in Hsub. by injection Hsub.
      * exists m. split; [by transitivity (rview (w_store w1))|]. exact Hexp.
  - intros [= <- <-]. split; [done|]. split; [by left|done].
Qed.

Lemma redis_laws : StoreLaws S (Store0 := redis_store) (fun s => session_view (rview s)).
Proof.
  split.
  - intros w. repeat split; cbn [store_Write store_Read store_Delete store_Update Lock_Acquire
        Lock_Release redis_store]; intros.
    all: try apply Release_view; try apply Acquire_view.
    all: try (unfold redis_Write, redis_Delete; rewrite fmap_run; cbn [snd]).
    all: try apply redis_SetBinary_step; try apply redis_Update_step.
    all: try (destruct (redis_Read k w) eqn:Es; by apply redis_Read_spec in Es as [[? ?] _]).
    all: apply redis_steps.
  - intros w w' k v Hr. cbn in Hr. by apply redis_Read_spec in Hr as (_ & _ & Hr).
  - intros w w' k e Hr He. cbn in Hr. apply redis_Read_spec in Hr as (_ & _ & Hr).
    unfold session_view. by rewrite lookup_omap, Hr.
  - intros w k. cbn. destruct (redis_Read k w) as [r w'] eqn:Er.
    apply redis_Read_spec in Er as (_ & Hv & _). by apply session_view_mono.
  - intros w w' r k v d Hv Hr. cbn in Hr. unfold redis_Write in Hr. rewrite fmap_run in Hr.
    destruct (redis_SetBinary k v d w) as [rs w1] eqn:Es. injection Hr as <- <-.
    apply redis_SetBinary_spec in Es as (_ & Hm & Hok & _); [|done]. split; [done|].
    destruct rs as [[]|]; [auto|done].
  - intros w w' r k v Hv Hr. cbn in Hr. apply redis_Update_spec in Hr as (_ & Hm & Hok); [|done].
    split; [done|]. intros H. by destruct (Hok H) as (? & ? & _).
  - intros w w' r ks Hr. cbn in Hr. unfold redis_Delete in Hr. rewrite fmap_run in Hr.
    destruct (redis_Del ks w) as [rd w1] eqn:Ed. injection Hr as <- <-.
    destruct (redis_Del_spec _ _ _ _ Ed) as [Hv Hok].
    split; [by apply session_view_mono|]. intros H k Hk.
    destruct rd as [[]|e]; [|by cbn [lift_err fst] in H; destruct (errors_Is _ _)].
    unfold session_view. by rewrite lookup_omap, (Hok eq_refl k Hk).
  - intros w key l d k v Hl Hne. cbn [Lock_Acquire Lock_Release redis_store].
    assert (Hkey : rl_key l = key).
    { induction Hl as [|l d' w' _ IH]; [done|]. rewrite <- IH. apply Acquire_key. }
    split; intros Hk.
    + destruct (Acquire_view l d w) as [_ Hv]. rewrite Hkey in Hv.
      apply session_view_mono in Hv. eapply lookup_weaken; [|exact Hv].
      unfold session_view in *. rewrite lookup_omap in *. by rewrite lookup_delete_ne.
    + destruct (Release_view l w) as [_ Hv]. apply session_view_mono in Hv.
      by eapply lookup_weaken.
Qed.
End RedisFacts.
End Redis.

(** ** [store.go]: the choice of the store *)

Inductive StoreChoice := UseMemory | UseRedis (client : RedisOptions).

(** [NewStore]: in-memory unless an address is configured; a Redis that cannot
    be reached is an error ([ping] is the outcome of the PING). *)
Definition NewStore (cfg : Config) (ping : RedisOptions -> result unit) : result StoreChoice :=
  if is_empty (rd_Address (cfg_Redis cfg)) then Ok UseMemory
  else
    let redisClient := Redis_Client (cfg_Redis cfg) in
    _ ← wrap "failed to connect to configured Redis" (ping redisClient);
    Ok (UseRedis redisClient).

(** ** The non-atomic update

    The critical sections of [memorySessionStore.Update] as steps on the
    sessions and the outcome of its read, for interleaving with a deletion. *)

Inductive Shuffle {A} : list A -> list A -> list A -> Prop :=
| shuffle_nil : Shuffle [] [] []
| shuffle_l a l1 l2 l : Shuffle l1 l2 l -> Shuffle (a :: l1) l2 (a :: l)
| shuffle_r a l1 l2 l : Shuffle l1 l2 l -> Shuffle l1 (a :: l2) (a :: l).

Inductive Section_ := UpdateRead (key : str) | UpdatePut (key : str) (v : EncryptedData)
                    | DeleteAll (keys : list str).

(** One critical section; the boolean is [err == nil] after the read. *)
Definition section_step (st : gmap str EncryptedData * bool) (c : Section_)
    : gmap str EncryptedData * bool :=
  let '(s, found) := st in
  match c with
  | UpdateRead key => (s, is_ok (Memory.Read key s))
  | UpdatePut key v => (if found then Memory.put key v s else s, found)
  | DeleteAll keys => (Memory.delete_all keys s, found)
  end.
Definition run_sections (s : gmap str EncryptedData) (l : list Section_) : gmap str EncryptedData :=
  (fold_left section_step l (s, false)).1.

(** Run alone, the two sections are [Update]. *)
Lemma run_sections_Update (w : World (gmap str EncryptedData)) (key : str) (v : EncryptedData) :
  run_sections (w_store w) [UpdateRead key; UpdatePut key v]
  = w_store (Memory.memory_Update key v w).2.
Proof.
  unfold run_sections, Memory.memory_Update, bindE, Memory.memory_Read, on_store, Memory.Read.
  cbn. unfold Memory.Read. by destruct (w_store w !! key).
Qed.

(** ** A concrete Redis, for the witnesses *)

Definition live (now : Time) (e : str * option Time) : bool :=
  match e.2 with Some x => (now <? x)%Z | None => true end.
Definition purge (now : Time) (m : RedisState) : RedisState :=
  filter (fun e => live now e.2 = true) m.

Section ToyRedis.
Context {E : Env}.

Definition at_now {A} (f : nat -> Time -> RedisState -> A * RedisState) : M RedisState A :=
  fun w => let '(a, s) := f (w_tick w) (env_now (w_tick w)) (purge (env_now (w_tick w)) (w_store w)) in
           (a, mkWorld (1 + w_tick w) s (w_trace w)).

Definition toy_ttl (now : Time) (d : Duration) (old : option (str * option Time)) : option Time :=
  if (d =? KeepTTL)%Z then o ← old; snd o
  else if (0 <? d)%Z then Some (now + d)%Z else None.

Definition toy_redis : RedisClient RedisState := {|
  LockToken := str * str;
  redis_Get k := at_now (fun _ _ m =>
    (match m !! k with Some e => Ok e.1 | None => Err (Sentinel RedisNil) end, m));
  redis_Set k v d := at_now (fun _ now m => (Ok tt, <[k := (v, toy_ttl now d (m !! k))]> m));
  redis_Del ks := at_now (fun _ _ m => (Ok tt, foldr (fun k m => delete k m) m ks));
  redislock_Obtain k d := at_now (fun i now m =>
    match m !! k with
    | Some _ => (Err (Sentinel ErrNotObtained), m)
    | None => (Ok (k, replicate i "t"%char),
               <[k := (replicate i "t"%char, Some (now + d)%Z)]> m)
    end);
  redislock_Release t := at_now (fun _ _ m =>
    if bool_decide (fst <$> m !! t.1 = Some t.2) then (Ok tt, delete t.1 m)
    else (Err (New "redislock: lock not held"), m)) |}.

Lemma purge_subseteq (now : Time) (m : RedisState) : purge now m ⊆ m.
Proof. apply map_filter_subseteq. Qed.

Lemma foldr_delete (ks : list str) (m : RedisState) :
  foldr (fun k m => delete k m) m ks ⊆ m
  /\ forall k, k ∈ ks -> foldr (fun k m => delete k m) m ks !! k = None.
Proof.
  induction ks as [|k0 ks [IH1 IH2]]; cbn; [split; [done|set_solver]|]. split.
  - etransitivity; [apply delete_subseteq|done].
  - intros k Hk. destruct (decide (k = k0)) as [->|Hne]; [by rewrite lookup_delete_eq|].
    rewrite lookup_delete_ne by done. apply IH2. set_solver.
Qed.
#[local] Instance toy_redis_client : RedisClient RedisState := toy_redis.

Lemma at_now_step {A} (f : nat -> Time -> RedisState -> A * RedisState) (w : World RedisState) :
  store_step w (at_now f w).2.
Proof.
  unfold at_now, store_step.
  destruct (f (w_tick w) (env_now (w_tick w)) (purge (env_now (w_tick w)) (w_store w))) as [a s]. cbn. split; [done|lia].
Qed.

#[local] Instance toy_redis_laws : RedisLaws RedisState (fun m => m) (fun t => t.1).
Proof.
  split.
  - intros w. repeat split; intros; apply at_now_step.
  - intros w w' k r [= <- <-]. cbn [w_store].
    pose proof (purge_subseteq (env_now (w_tick w)) (w_store w)) as Hp. split; [done|].
    destruct (purge _ _ !! k) as [[v x]|] eqn:Ek; [|done].
    exists x. by eapply lookup_weaken.
  - intros w w' k v d r [= <- <-]. cbn [w_store]. eexists (purge _ _), _.
    split; [apply purge_subseteq|]. split; [|left; apply insert_mono, purge_subseteq].
    unfold set_expiry, toy_ttl. destruct (d =? KeepTTL)%Z; [done|]. by destruct (0 <? d)%Z.
  - intros w w' ks r [= <- <-]. cbn [w_store].
    destruct (foldr_delete ks (purge (env_now (w_tick w)) (w_store w))) as [H1 H2].
    split; [|done]. etransitivity; [exact H1|apply purge_subseteq].
  - intros w w' k d r. cbn. unfold at_now.
    destruct (purge _ _ !! k) eqn:Ek; intros [= <- <-]; cbn [w_store].
    + split; [|done]. etransitivity; [apply delete_subseteq|apply purge_subseteq].
    + split; [|by intros t [= <-]]. rewrite delete_insert_eq.
      etransitivity; [apply delete_subseteq|apply purge_subseteq].
  - intros w t. cbn. unfold at_now. case_bool_decide; cbn [snd w_store].
    + etransitivity; [apply delete_subseteq|apply purge_subseteq].
    + apply purge_subseteq.
Qed.
End ToyRedis.

(** ** Properties *)

(** What a client may rely on, whatever the store: after a successful
    deletion a read of the key fails, until something writes the key again; after a
    successful write or update of a text value (as encryption makes them) a read
    returns the written value or fails. *)
Theorem store_contract {S} `{!Store S} {view} (L : StoreLaws S view)
    (w w1 w2 : World S) (k : str) (r : result EncryptedData)
  (Hread : store_Read k w1 = (r, w2)) :
  (forall ks, k ∈ ks -> store_Delete ks w = (Ok tt, w1) -> is_ok r = false)
  /\ (forall v d, encrypted_text v = true -> store_Write k v d w = (Ok tt, w1) ->
        r = Ok v \/ is_ok r = false)
  /\ (forall v, encrypted_text v = true -> store_Update k v w = (Ok tt, w1) ->
        r = Ok v \/ is_ok r = false).
Proof.
  destruct r as [u|e]; [|split; [done|split; intros; by right]].
  apply read_Ok in Hread as Hv. split; [|split].
  - intros ks Hk Hd. apply delete_view in Hd as [_ Hd]. by rewrite (Hd eq_refl k Hk) in Hv.
  - intros v d Ht Hw. apply write_view in Hw as [_ Hw]; [|done]. specialize (Hw eq_refl). left.
    apply (lookup_weaken _ _ _ _ Hv) in Hw. rewrite lookup_insert_eq in Hw. congruence.
  - intros v Ht Hu. apply update_view in Hu as [_ Hu]; [|done]. destruct (Hu eq_refl) as [_ Hw]. left.
    apply (lookup_weaken _ _ _ _ Hv) in Hw. rewrite lookup_insert_eq in Hw. congruence.
Qed.

Lemma store_contract_witness :
  is_ok (Memory.memory_Read $"k" (mkWorld 0 ∅ [])).1 = false.
Proof.
  refine (proj1 (store_contract Memory.memory_laws
            (mkWorld 0 (<[$"k" := mkEncryptedData $"d"]> ∅) []) (mkWorld 0 ∅ []) (mkWorld 0 ∅ [])
            $"k" _ eq_refl) [$"k"] _ _); [set_solver|].
  vm_compute. reflexivity.
Defined.

(** Updating a session in Redis keeps its lifetime: the entry an update
    leaves holds the new value with the expiry the session had, unless the entry
    expired or was deleted between the read and the write, in which case it comes
    back with no expiry at all. *)
Theorem redis_Update_keeps_ttl {S} `{!RedisClient S} {rview token_key}
    (Hredis : RedisLaws S rview token_key)
    (w w' : World S) (k : str) (v : EncryptedData) (Htext : encrypted_text v = true) :
  Redis.redis_Update k v w = (Ok tt, w') ->
  exists b0 x0 b, rview (w_store w) !! k = Some (b0, x0) /\ MarshalBinary v = Ok b
    /\ (rview (w_store w') !! k = Some (b, x0)
        \/ rview (w_store w') !! k = Some (b, None)
        \/ rview (w_store w') !! k = None).
Proof.
  intros Hu. apply (Redis.redis_Update_spec rview token_key) in Hu as (_ & _ & Hu); [|done].
  destruct (Hu eq_refl) as ([v0 Hv0] & _ & b & x & Hb & He & m & Hm & Hx).
  unfold Redis.session_view in Hv0. rewrite lookup_omap in Hv0.
  destruct (rview (w_store w) !! k) as [[b0 x0]|] eqn:Ek; [|done].
  exists b0, x0, b. split; [done|]. split; [done|].
  destruct (rview (w_store w') !! k) as [e|] eqn:Ee; [|by auto]. rewrite (He e eq_refl). subst x.
  destruct (m !! k) as [e'|] eqn:Em; [|by auto].
  apply (lookup_weaken _ _ _ _ Em) in Hm. rewrite Ek in Hm. injection Hm as <-. by auto.
Qed.

Definition example_redis : World RedisState :=
  mkWorld 0 (<[$"k" := (json_text (JObj [($"data", JStr $"a")]), Some (unix_epoch + Hour)%Z)]> ∅) [].
Definition example_redis_update : result unit * World RedisState :=
  Redis.redis_Update (RedisClient0 := toy_redis (E := toy_env unix_epoch))
    $"k" (mkEncryptedData $"b") example_redis.


Lemma redis_Update_keeps_ttl_witness :
  exists b0 x0 b, w_store example_redis !! $"k" = Some (b0, x0)
    /\ MarshalBinary (mkEncryptedData $"b") = Ok b.
Proof.
  destruct (redis_Update_keeps_ttl
              (toy_redis_laws (E := toy_env unix_epoch))
              example_redis example_redis_update.2 $"k" (mkEncryptedData $"b") eq_refl
              ltac:(vm_compute; reflexivity)) as (b0 & x0 & b & H1 & H2 & _).
  exists b0, x0, b. split; [exact H1|exact H2].
Defined.

(** [Update] of the in-memory store is not atomic: of the three ways its
    critical sections interleave with a deletion of the key, the deletion in
    between, and it alone besides the deletion that came first, leaves a session
    behind: a logout that ran to its end is undone by a concurrent refresh. *)
Theorem memory_update_race (s : gmap str EncryptedData) (k : str) (v v0 : EncryptedData)
    (l : list Section_)
  (Hpresent : s !! k = Some v0)
  (Hl : Shuffle [UpdateRead k; UpdatePut k v] [DeleteAll [k]] l) :
  (l = [UpdateRead k; DeleteAll [k]; UpdatePut k v] /\ run_sections s l !! k = Some v)
  \/ ((l = [DeleteAll [k]; UpdateRead k; UpdatePut k v]
       \/ l = [UpdateRead k; UpdatePut k v; DeleteAll [k]])
      /\ run_sections s l !! k = None).
Proof.
  assert (Hr : is_ok (Memory.Read k s) = true) by (unfold Memory.Read; by rewrite Hpresent).
  assert (Hn : forall l2 l3 : list Section_, Shuffle [] l2 l3 -> l3 = l2).
  { intros l2 l3 H. remember [] as l1 eqn:E1. revert E1.
    induction H; intros; simplify_eq; [done|]. f_equal. auto. }
  assert (Hn' : forall l1 l3 : list Section_, Shuffle l1 [] l3 -> l3 = l1).
  { intros l1 l3 H. remember [] as l2 eqn:E1. revert E1.
    induction H; intros; simplify_eq; [done|]. f_equal. auto. }
  inversion Hl as [|a l1 l2 l' Hl'|a l1 l2 l' Hl']; subst.
  - inversion Hl' as [|a l1 l2 l'' Hl''|a l1 l2 l'' Hl'']; subst.
    + apply Hn in Hl'' as ->. right. split; [by right|].
      unfold run_sections. cbn. rewrite Hr. apply lookup_delete_eq.
    + apply Hn' in Hl'' as ->. left. split; [done|].
      unfold run_sections. cbn. rewrite Hr. apply lookup_insert_eq.
  - apply Hn' in Hl' as ->. right. split; [by left|].
    unfold run_sections. cbn [fold_left section_step fst Memory.delete_all]. unfold Memory.Read.
    rewrite lookup_delete_eq. apply lookup_delete_eq.
Qed.

Lemma memory_update_race_witness :
  run_sections (<[$"k" := mkEncryptedData $"a"]> ∅)
    [UpdateRead $"k"; DeleteAll [$"k"]; UpdatePut $"k" (mkEncryptedData $"b")] !! $"k"
  = Some (mkEncryptedData $"b").
Proof.
  destruct (memory_update_race (<[$"k" := mkEncryptedData $"a"]> ∅) $"k" (mkEncryptedData $"b")
              (mkEncryptedData $"a")
              [UpdateRead $"k"; DeleteAll [$"k"]; UpdatePut $"k" (mkEncryptedData $"b")])
    as [[_ H]|[[H|H] _]]; [apply lookup_insert_eq| |exact H|discriminate H|discriminate H].
  apply shuffle_l, shuffle_r, shuffle_l, shuffle_nil.
Defined.
