(* ===== verification/Retry.v ===== *)
(** * Retries: [pkg/retry/retry.go] and the use of [sethvargo/go-retry]

    [retry.Do] is the library's; [RetryLaws] states its documented behaviour: it
    runs the function until it succeeds, fails with an error not marked
    retryable, the backoff ends, or the context is done.  The program's part is
    which errors each function marks as retryable, and the default backoff. *)

From S2P Require Import Prelude GoTime GoError.

(** ** [pkg/retry/retry.go] *)

Definition DefaultBaseDuration : Duration := (50 * Millisecond)%Z.
Definition DefaultMaxDuration : Duration := (1 * Second)%Z.

Section Backoff.
Context {B : Type} (NewFibonacci : Duration -> B) (WithMaxDuration : Duration -> B -> B).

Record FibonacciBackoff := { fb_base : Duration; fb_max : Duration; fb_backoff : B }.

(** [fibonacci] *)
Definition fibonacci (base max : Duration) : B := WithMaxDuration max (NewFibonacci base).
Definition Fibonacci : FibonacciBackoff :=
  {| fb_base := DefaultBaseDuration; fb_max := DefaultMaxDuration;
     fb_backoff := fibonacci DefaultBaseDuration DefaultMaxDuration |}.
(** [BaseDuration] and [MaxDuration] *)
Definition BaseDuration (base : Duration) (b : FibonacciBackoff) : FibonacciBackoff :=
  {| fb_base := base; fb_max := fb_max b; fb_backoff := fibonacci base (fb_max b) |}.
Definition MaxDuration (max : Duration) (b : FibonacciBackoff) : FibonacciBackoff :=
  {| fb_base := fb_base b; fb_max := max; fb_backoff := fibonacci (fb_base b) max |}.
Definition Backoff (b : FibonacciBackoff) : B := fb_backoff b.
(** [DefaultBackoff] *)
Definition DefaultBackoff : B := Backoff Fibonacci.
End Backoff.

(** ** [retry.Do] *)

(** The outcome of one attempt: [retry.RetryableError] marks an error. *)
Inductive attempt (A : Type) := Success (a : A) | Fatal (e : error) | Retryable (e : error).
Arguments Success {A}.
Arguments Fatal {A}.
Arguments Retryable {A}.

(** [return retry.RetryableError(err)]: nil stays nil. *)
Definition RetryableError {A} (r : result A) : attempt A :=
  match r with Ok a => Success a | Err e => Retryable e end.

(** [if errors.Is(err, target) { return err }; return retry.RetryableError(err)] *)
Definition retry_unless (target : sentinel) {A} (r : result A) : attempt A :=
  match r with
  | Ok a => Success a
  | Err e => if errors_Is e target then Fatal e else Retryable e
  end.

(** [if errors.Is(err, target) { return retry.RetryableError(err) }; return err] *)
Definition retry_when (target : sentinel) {A} (r : result A) : attempt A :=
  match r with
  | Ok a => Success a
  | Err e => if errors_Is e target then Retryable e else Fatal e
  end.

Class Retry (S : Type) := retry_Do : forall A, M S (attempt A) -> M S (result A).
Arguments retry_Do {S _} {A}.

(** Time passes, nothing else happens. *)
Definition later {S} (w w' : World S) : Prop :=
  w_store w' = w_store w /\ w_trace w' = w_trace w /\ (w_tick w <= w_tick w')%nat.

(** [ctx.Err()] *)
Definition ctx_error (e : error) : Prop :=
  e = Sentinel ContextCanceled \/ e = Sentinel ContextDeadlineExceeded.

Inductive retry_run {S A} (f : M S (attempt A)) : World S -> result A -> World S -> Prop :=
| run_success w a w' : f w = (Success a, w') -> retry_run f w (Ok a) w'
| run_fatal w e w' : f w = (Fatal e, w') -> retry_run f w (Err e) w'
| run_stop w e w' : f w = (Retryable e, w') -> retry_run f w (Err e) w'
| run_again w e w1 w2 r w' :
    f w = (Retryable e, w1) -> later w1 w2 -> retry_run f w2 r w' -> retry_run f w r w'
| run_done w e : ctx_error e -> retry_run f w (Err e) w
| run_done_waiting w e0 e w' : f w = (Retryable e0, w') -> ctx_error e -> retry_run f w (Err e) w'.

Class RetryLaws (S : Type) `{!Retry S} : Prop :=
  retry_Do_run : forall A (f : M S (attempt A)) w r w',
    retry_Do f w = (r, w') -> retry_run f w r w'.

(** ** Lemmas *)

Lemma later_refl {S} (w : World S) : later w w.
Proof. done. Qed.

Lemma later_trans {S} (w1 w2 w3 : World S) : later w1 w2 -> later w2 w3 -> later w1 w3.
Proof. unfold later. intros (? & ? & ?) (? & ? & ?). repeat split; [congruence..|lia]. Qed.

(** What holds before, and is kept by every attempt and by waiting, holds at
    the attempt that decided the result. *)
Lemma retry_run_inv {S A} (f : M S (attempt A)) (P : World S -> Prop) :
  (forall w, P w -> P (f w).2) ->
  (forall w w', P w -> later w w' -> P w') ->
  forall w r w', retry_run f w r w' -> P w ->
  P w' /\ match r with
          | Ok a => exists w1, P w1 /\ f w1 = (Success a, w')
          | Err e => ctx_error e \/
                     exists w1, P w1 /\ (f w1 = (Fatal e, w') \/ f w1 = (Retryable e, w'))
          end.
Proof.
  intros Hstep Hlater w r w' H.
  induction H as [w a w' Hf|w e w' Hf|w e w' Hf|w e w1 w2 r w' Hf Hl _ IH|w e Hc|w e0 e w' Hf Hc];
    intros Hw; pose proof (Hstep w Hw) as Hs; rewrite ?Hf in Hs; cbn in Hs.
  - split; [done|]. by exists w.
  - split; [done|]. right. exists w. by auto.
  - split; [done|]. right. exists w. by auto.
  - apply IH. by eapply Hlater.
  - split; [done|]. by left.
  - split; [done|]. by left.
Qed.

Lemma retry_Do_inv {S A} `{!Retry S} `{!RetryLaws S} (f : M S (attempt A)) (P : World S -> Prop) w r w' :
  (forall w, P w -> P (f w).2) ->
  (forall w w', P w -> later w w' -> P w') ->
  P w -> retry_Do f w = (r, w') ->
  P w' /\ match r with
          | Ok a => exists w1, P w1 /\ f w1 = (Success a, w')
          | Err e => ctx_error e \/
                     exists w1, P w1 /\ (f w1 = (Fatal e, w') \/ f w1 = (Retryable e, w'))
          end.
Proof. intros H1 H2 H3 H4%retry_Do_run. by eapply retry_run_inv. Qed.

(** A context error is none of the program's own. *)
Lemma ctx_error_Is (e : error) (s : sentinel) :
  ctx_error e -> errors_Is e s = true -> s = ContextCanceled \/ s = ContextDeadlineExceeded.
Proof. intros [-> | ->] H; cbn in H; apply bool_decide_eq_true in H; auto. Qed.

Lemma retry_unless_Success (t : sentinel) {A} (r : result A) a :
  retry_unless t r = Success a <-> r = Ok a.
Proof. destruct r; cbn; [by split; intros [= ->]|]. destruct (errors_Is e t); split; done. Qed.

Lemma retry_when_Success (t : sentinel) {A} (r : result A) a :
  retry_when t r = Success a <-> r = Ok a.
Proof. destruct r; cbn; [by split; intros [= ->]|]. destruct (errors_Is e t); split; done. Qed.

Lemma retry_unless_Err (t : sentinel) {A} (r : result A) e :
  retry_unless t r = Fatal e \/ retry_unless t r = Retryable e -> r = Err e.
Proof.
  destruct r; cbn; [by intros []|]. destruct (errors_Is e0 t); intros []; congruence.
Qed.

Lemma retry_when_Err (t : sentinel) {A} (r : result A) e :
  retry_when t r = Fatal e \/ retry_when t r = Retryable e -> r = Err e.
Proof.
  destruct r; cbn; [by intros []|]. destruct (errors_Is e0 t); intros []; congruence.
Qed.

Lemma RetryableError_Success {A} (r : result A) a : RetryableError r = Success a <-> r = Ok a.
Proof. destruct r; cbn; split; congruence. Qed.

(** ** A concrete [retry.Do], for the witnesses: at most [n + 1] attempts, an
    instant apart. *)

Fixpoint retry_n {S A} (n : nat) (f : M S (attempt A)) : M S (result A) := fun w =>
  match f w with
  | (Success a, w') => (Ok a, w')
  | (Fatal e, w') => (Err e, w')
  | (Retryable e, w') =>
      match n with
      | O => (Err e, w')
      | Datatypes.S n' => retry_n n' f (mkWorld (1 + w_tick w') (w_store w') (w_trace w'))
      end
  end.

Definition toy_retry (n : nat) (S : Type) : Retry S := fun A f => retry_n n f.

Lemma toy_retry_laws (n : nat) (S : Type) : RetryLaws S (Retry0 := toy_retry n S).
Proof.
  intros A f w r w'. unfold retry_Do, toy_retry. revert w.
  induction n as [|n IH]; intros w; cbn [retry_n];
    destruct (f w) as [[a|e|e] w1] eqn:Hf.
  - intros [= <- <-]. by apply run_success.
  - intros [= <- <-]. by apply run_fatal.
  - intros [= <- <-]. by apply run_stop.
  - intros [= <- <-]. by apply run_success.
  - intros [= <- <-]. by apply run_fatal.
  - intros H%IH. eapply run_again; [done| |done]. unfold later. cbn. auto.
Qed.
