(* ===== verification/Keeps.v ===== *)
(** * Relations kept by effectful code

    [keeps R m]: whatever the state, running [m] leads to a state related to it
    by [R].  For a preorder that time passing does not disturb, the property
    follows the structure of the code, so it is proved for a handler by walking
    through it: [walk], with the facts about the operations in the database
    [keeps]. *)

From S2P Require Import Prelude GoStrings GoTime GoError GoRfc3339 Config Crypter Cookie Openid SessionData Retry.

Section Keeps.
Context {S : Type}.

Definition keeps (R : World S -> World S -> Prop) {X} (m : M S X) : Prop := forall w, R w (m w).2.

(** The relations of this development: preorders that contain the passing of time. *)
Class Patient (R : World S -> World S -> Prop) : Prop := {
  patient_preorder :: PreOrder R;
  patient_later : forall w w', later w w' -> R w w' }.

Context (R : World S -> World S -> Prop) `{HP : !Patient R}.

Lemma keeps_ret {X} (x : X) : keeps R (mret x).
Proof. intros w. reflexivity. Qed.

Lemma keeps_okM {X} (x : X) : keeps R (okM x).
Proof. apply keeps_ret. Qed.
Lemma keeps_errM {X} (e : error) : keeps R (errM (A := X) e).
Proof. apply keeps_ret. Qed.
Lemma keeps_pureR {X} (r : result X) : keeps R (pureR r).
Proof. apply keeps_ret. Qed.

(** The continuation, for the values the first part can return. *)
Definition returns {X} (m : M S X) (x : X) : Prop := exists w, (m w).1 = x.

Lemma keeps_bind_val {X Y} (m : M S X) (f : X -> M S Y) :
  keeps R m -> (forall x, returns m x -> keeps R (f x)) -> keeps R (m ≫= f).
Proof.
  intros Hm Hf w. rewrite bind_run. etransitivity; [apply Hm|]. apply Hf. by exists w.
Qed.
Lemma keeps_bind {X Y} (m : M S X) (f : X -> M S Y) :
  keeps R m -> (forall x, keeps R (f x)) -> keeps R (m ≫= f).
Proof. intros Hm Hf. apply keeps_bind_val; auto. Qed.

Lemma keeps_bindE {X Y} (m : M S (result X)) (f : X -> M S (result Y)) :
  keeps R m -> (forall x, keeps R (f x)) -> keeps R (bindE m f).
Proof.
  intros Hm Hf w. unfold bindE. pose proof (Hm w) as Hw.
  destruct (m w) as [[x|e] w1]; [|exact Hw]. etransitivity; [exact Hw|apply Hf].
Qed.

Lemma keeps_fmap {X Y} (f : X -> Y) (m : M S X) : keeps R m -> keeps R (f <$> m).
Proof. intros Hm w. unfold fmap, M_fmap. pose proof (Hm w). by destruct (m w). Qed.

Lemma keeps_wrapM {X} (msg : string) (m : M S (result X)) : keeps R m -> keeps R (wrapM msg m).
Proof. apply keeps_fmap. Qed.

(** Reading the state. *)
Lemma keeps_get {X} (f : World S -> X) : keeps R (fun w => (f w, w)).
Proof. intros w. reflexivity. Qed.

(** Interactions that only take time. *)
Lemma keeps_step {E : Env} {X} (f : nat -> X) : keeps R (step f).
Proof. intros w. apply patient_later. repeat split. cbn. lia. Qed.
Lemma keeps_now {E : Env} : keeps R time_Now.
Proof. apply keeps_step. Qed.
Lemma keeps_uuid {E : Env} : keeps R uuid_New.
Proof. apply keeps_step. Qed.
Lemma keeps_rand {E : Env} (n : nat) : keeps R (rand_Read n).
Proof. apply keeps_step. Qed.
Lemma keeps_keygen {E : Env} (n : nat) : keeps R (Keygen n).
Proof. apply keeps_step. Qed.

Lemma keeps_retry `{HR : RetryLaws S} {X} (m : M S (attempt X)) : keeps R m -> keeps R (retry_Do m).
Proof.
  intros Hm w. destruct (retry_Do m w) as [r w'] eqn:Er. cbn [snd].
  eapply (retry_Do_inv m (R w)) in Er as [H _]; [exact H| | |reflexivity].
  - intros w1 H1. etransitivity; [exact H1|apply Hm].
  - intros w1 w2 H1 H2. etransitivity; [exact H1|by apply patient_later].
Qed.
End Keeps.

#[global] Hint Mode Patient - - : typeclass_instances.

(** The least of them: only time passes. *)
#[export] Instance later_patient {S : Type} : Patient (@later S).
Proof. split; [split|done]; [exact later_refl|exact later_trans]. Qed.

Create HintDb keeps.
#[export] Hint Resolve keeps_ret keeps_okM keeps_errM keeps_pureR keeps_get keeps_step keeps_now keeps_uuid
  keeps_rand keeps_keygen : keeps.

(** Through the code, one construct at a time. *)
Ltac walk_step :=
  match goal with
  | |- keeps _ (bindE _ _) => apply keeps_bindE; [apply _| |intros ?]
  | |- keeps _ (wrapM _ _) => apply keeps_wrapM
  | |- keeps _ (retry_Do _) => apply keeps_retry; [apply _..|]
  | |- keeps _ (_ <$> _) => apply keeps_fmap
  | |- keeps _ (_ ≫= _) => apply keeps_bind; [apply _| |intros ?]
  | |- keeps _ (if ?b then _ else _) => destruct b
  | |- keeps _ (match ?x with _ => _ end) => destruct x
  | |- keeps _ (let '_ := ?x in _) => destruct x
  end.
Ltac walk := repeat first [solve [eauto 3 with keeps typeclass_instances] | walk_step].

(** ** Operations that only draw random bytes and read the clock *)

Section Drawing.
Context {E : Env} {A : AEAD} {S : Type} (R : World S -> World S -> Prop) {HP : Patient R}.
#[local] Abbreviation quiet := (keeps R).

Lemma time_Until_quiet (t : Time) : quiet (time_Until t).
Proof. unfold time_Until. walk. Qed.
Lemma Generate_quiet (n : nat) : quiet (Generate n).
Proof. unfold Generate. walk. Qed.
Hint Resolve Generate_quiet : keeps.
Lemma GenerateBase64_quiet (n : nat) : quiet (GenerateBase64 n).
Proof. unfold GenerateBase64. walk. Qed.
Lemma Encrypt_quiet (key s : str) : quiet (Encrypt key s).
Proof. unfold Encrypt, IV. walk. Qed.
Hint Resolve Encrypt_quiet : keeps.
Lemma EncryptAndSet_quiet (name value : str) o key w : quiet (EncryptAndSet name value o key w).
Proof. unfold EncryptAndSet, Make, Cookie_Encrypt. walk. Qed.
Lemma Data_Encrypt_quiet {LC : Location} key d : quiet (Data_Encrypt key d).
Proof. unfold Data_Encrypt. walk. Qed.
End Drawing.
#[export] Hint Resolve time_Until_quiet GenerateBase64_quiet Encrypt_quiet EncryptAndSet_quiet
  Data_Encrypt_quiet : keeps.
