(* ===== verification/Jwks.v ===== *)
(** * The JWKS provider: [pkg/openid/provider/provider.go]

    The key set cache is the jwx library's ([JwkCache]); the program limits how
    often it is refreshed.  The time of the last refresh is part of the state. *)

From S2P Require Import Prelude GoStrings GoTime GoError GoUrl Config Http Crypter Openid.
#[local] Open Scope Z_scope.

(** [jwk.Cache]: what [Get] and [Refresh] return at each interaction. *)
Class JwkCache {L : JwtLib} := {
  jwk_cache_Register : str -> result unit;
  jwk_cache_Get : nat -> str -> result JwkSet;
  jwk_cache_Refresh : nat -> str -> result JwkSet;
}.

(** The part of the state that is [jwksLock.lastRefresh]. *)
Class JwksState (S : Type) := {
  lastRefresh : S -> Time;
  set_lastRefresh : Time -> S -> S;
}.
Class JwksStateLaws (S : Type) `{!JwksState S} : Prop :=
  lastRefresh_set : forall t s, lastRefresh (set_lastRefresh t s) = t.

Definition JwkMinimumRefreshInterval : Duration := 5 * Second.

Section Provider.
Context {L : JwtLib} {C : JwkCache} {E : Env} {S : Type} `{!JwksState S}.

(** [GetPublicJwkSet] *)
Definition GetPublicJwkSet (p : Provider) : M S (result JwkSet) :=
  wrapM "provider: fetching jwks" (step (fun i => jwk_cache_Get i (pm_JwksURI (pr_metadata p)))).

Definition cache_Refresh (uri : str) : M S (result JwkSet) :=
  log_event EvJwksRefresh ≫= fun _ => step (fun i => jwk_cache_Refresh i uri).

(** [RefreshPublicJwkSet]; the mutex is held throughout. *)
Definition RefreshPublicJwkSet (p : Provider) : M S (result JwkSet) :=
  now ← time_Now;
  last ← (fun w => (lastRefresh (w_store w), w));
  if Sub now last <? JwkMinimumRefreshInterval then GetPublicJwkSet p
  else
    now' ← time_Now;
    _ ← on_store (fun s => (tt, set_lastRefresh now' s));
    wrapM "provider: refreshing jwks" (cache_Refresh (pm_JwksURI (pr_metadata p))).

(** [NewJwksProvider]: registers the URI and fetches the keys once; the
    provider starts with a zero [lastRefresh]. *)
Definition NewJwksProvider (p : Provider) : M S (result unit) :=
  _ ←? wrapM "registering jwks provider uri to cache"
         (pureR (jwk_cache_Register (pm_JwksURI (pr_metadata p))));
  _ ←? wrapM "initial fetch of jwks from provider" (cache_Refresh (pm_JwksURI (pr_metadata p)));
  _ ← on_store (fun s => (tt, set_lastRefresh zero_time s));
  okM tt.
End Provider.

(** ** Lemmas *)

Section Facts.
Context {L : JwtLib} {C : JwkCache} {E : Env} {S : Type} `{!JwksState S}.

Lemma GetPublicJwkSet_run (p : Provider) (w : World S) :
  GetPublicJwkSet p w =
    (wrap "provider: fetching jwks" (jwk_cache_Get (w_tick w) (pm_JwksURI (pr_metadata p))),
     mkWorld (1 + w_tick w) (w_store w) (w_trace w)).
Proof. done. Qed.

(** The two outcomes of a refresh request. *)
Lemma RefreshPublicJwkSet_run (p : Provider) (w : World S) :
  let now := env_now (w_tick w) in
  let uri := pm_JwksURI (pr_metadata p) in
  RefreshPublicJwkSet p w =
    if Sub now (lastRefresh (w_store w)) <? JwkMinimumRefreshInterval
    then (wrap "provider: fetching jwks" (jwk_cache_Get (1 + w_tick w) uri),
          mkWorld (2 + w_tick w) (w_store w) (w_trace w))
    else (wrap "provider: refreshing jwks" (jwk_cache_Refresh (2 + w_tick w) uri),
          mkWorld (3 + w_tick w) (set_lastRefresh (env_now (1 + w_tick w)) (w_store w))
            (w_trace w ++ [EvJwksRefresh])).
Proof.
  cbn zeta. unfold RefreshPublicJwkSet. rewrite bind_run. cbn [fst snd time_Now step].
  rewrite bind_run. cbn [fst snd w_store].
  destruct (Sub _ _ <? _); [done|]. unfold mbind, M_bind, on_store. cbn. done.
Qed.
End Facts.

(** How many refreshes of the cache a trace records. *)
Definition refreshes (tr : list Event) : nat :=
  length (List.filter (fun e => match e with EvJwksRefresh => true | _ => false end) tr).

Lemma refreshes_app (t1 t2 : list Event) : refreshes (t1 ++ t2) = (refreshes t1 + refreshes t2)%nat.
Proof. unfold refreshes. by rewrite List.filter_app, length_app. Qed.

(** ** A run of refresh requests *)

Section Runs.
Context {L : JwtLib} {C : JwkCache} {E : Env} {S : Type} `{!JwksState S} `{!JwksStateLaws S}.

(** [n] callers one after the other: the mutex orders them. *)
Fixpoint refresh_many (n : nat) (p : Provider) : M S unit :=
  match n with
  | O => mret tt
  | Datatypes.S n' => RefreshPublicJwkSet p ≫= fun _ => refresh_many n' p
  end.

Hypothesis clock_mono : forall i j, (i <= j)%nat -> env_now i <= env_now j.

Lemma refresh_many_rate (n : nat) (p : Provider) (w : World S) :
  exists k : nat,
    refreshes (w_trace (refresh_many n p w).2) = (refreshes (w_trace w) + k)%nat
    /\ (w_tick w <= w_tick (refresh_many n p w).2)%nat
    /\ ((0 < k)%nat -> lastRefresh (w_store w) + Z.of_nat k * JwkMinimumRefreshInterval
           <= env_now (w_tick (refresh_many n p w).2))
    /\ (k = O -> lastRefresh (w_store (refresh_many n p w).2) = lastRefresh (w_store w)).
Proof.
  revert w. induction n as [|n IH]; intros w; cbn [refresh_many].
  - exists O. cbn. split; [lia|]. split; [lia|]. split; [lia|done].
  - rewrite bind_run. pose proof (RefreshPublicJwkSet_run p w) as Hr. cbn zeta in Hr.
    destruct (Sub _ _ <? _) eqn:Ed; rewrite Hr; cbn [fst snd]; to_prop.
    + match goal with |- context [refresh_many n p ?w1] => destruct (IH w1) as (k & H1 & H2 & H3 & H4) end.
      exists k. cbn [w_trace w_store w_tick] in *. split; [done|]. split; [lia|]. by split.
    + match goal with |- context [refresh_many n p ?w1] => destruct (IH w1) as (k & H1 & H2 & H3 & H4) end.
      exists (Datatypes.S k). cbn [w_trace w_store w_tick] in *. rewrite refreshes_app in H1.
      split; [rewrite H1; cbn; lia|]. split; [lia|]. split; [|done]. intros _.
      rewrite lastRefresh_set in H3.
      assert (lastRefresh (w_store w) + JwkMinimumRefreshInterval <= env_now (w_tick w)) as Hd.
      { unfold Sub, JwkMinimumRefreshInterval, min_int64, max_int64, Second in *.
        destruct (_ <? _) eqn:E1; to_prop; [lia|]. destruct (_ <? _) eqn:E2; to_prop; lia. }
      pose proof (clock_mono (w_tick w) (1 + w_tick w) ltac:(lia)) as Hc1.
      destruct k as [|k].
      * match goal with |- _ <= env_now ?j => pose proof (clock_mono (1 + w_tick w) j ltac:(lia)) end.
        lia.
      * specialize (H3 ltac:(lia)). lia.
Qed.
End Runs.

(** ** Properties *)

(** C39: However many callers ask for fresh keys, the provider is asked for them
    at most once per five seconds: [k] refreshes take the clock at least
    [k] intervals past the last one before them. *)
Theorem jwks_refresh_rate {L : JwtLib} {C : JwkCache} {E : Env} {S : Type} {J : JwksState S}
    (HJ : JwksStateLaws S) (n : nat) (p : Provider) (w : World S)
  (Hclock : forall i j, (i <= j)%nat -> env_now i <= env_now j) :
  let w' := (refresh_many n p w).2 in
  let k := (refreshes (w_trace w') - refreshes (w_trace w))%nat in
  (0 < k)%nat ->
  lastRefresh (w_store w) + Z.of_nat k * JwkMinimumRefreshInterval <= env_now (w_tick w').
Proof.
  intros w' k Hk. destruct (refresh_many_rate Hclock n p w) as (m & H1 & _ & H3 & _).
  fold w' in H1, H3. assert (k = m) as -> by (unfold k; lia). by apply H3.
Qed.

#[local] Instance toy_cache : JwkCache (L := toy_jwt) := {|
  jwk_cache_Register _ := Ok tt;
  jwk_cache_Get _ _ := Ok (tt : JwkSet (JwtLib := toy_jwt));
  jwk_cache_Refresh _ _ := Ok (tt : JwkSet (JwtLib := toy_jwt)) |}.
#[local] Instance toy_jwks_state : JwksState Time := {| lastRefresh s := s; set_lastRefresh t _ := t |}.
#[local] Instance toy_jwks_state_laws : JwksStateLaws Time.
Proof. done. Qed.

Definition example_refreshes : World Time :=
  (refresh_many (L := toy_jwt) (E := toy_env unix_epoch) (C := toy_cache) 4
     (oidc_Provider example_cfg) (mkWorld 0 zero_time [])).2.

Lemma jwks_refresh_rate_witness :
  0 + 2 * JwkMinimumRefreshInterval
    <= env_now (Env := toy_env unix_epoch) (w_tick example_refreshes).
Proof.
  pose proof (jwks_refresh_rate (L := toy_jwt) (E := toy_env unix_epoch) (C := toy_cache)
           toy_jwks_state_laws 4 (oidc_Provider example_cfg) (mkWorld 0 zero_time [])
           ltac:(intros i j Hij; cbn; unfold Second; lia)) as H.
  cbn zeta in H. fold example_refreshes in H.
  assert (Hk : refreshes (w_trace example_refreshes) = 2%nat) by (vm_compute; reflexivity).
  rewrite Hk in H. exact (H ltac:(cbn; lia)).
Defined.
