(* ===== verification/Loginstatus.v ===== *)
(** * The login status client: [pkg/loginstatus/loginstatus.go]

    An access token is exchanged for a token that is set, in clear, in a cookie
    on the parent domain; the cookie's absence forces a new login. *)

From S2P Require Import Prelude GoStrings GoTime GoUrl GoError GoJsonText GoJsonFacts GoJson Config Http Crypter Cookie.
#[local] Open Scope Z_scope.

Definition LoginserviceCookieName : str := $"selvbetjening-idtoken".
Definition LoginstatusSameSite : SameSite := SameSiteDefaultMode.

Record LoginstatusTokenResponse := { lt_AccessToken : str; lt_ExpiresIn : Z }.
Record LoginstatusErrorResponse := { le_Error : str; le_ErrorDescription : str }.

Definition LoginstatusTokenResponse_fields : list (Field LoginstatusTokenResponse) := [
  field $"access_token" store_string dump_string lt_AccessToken
    (fun x t => Build_LoginstatusTokenResponse x (lt_ExpiresIn t));
  field $"expires_in" store_int dump_int lt_ExpiresIn
    (fun x t => Build_LoginstatusTokenResponse (lt_AccessToken t) x)].
#[global] Instance LoginstatusTokenResponse_decoder : Decoder LoginstatusTokenResponse :=
  struct_Unmarshal LoginstatusTokenResponse_fields (Build_LoginstatusTokenResponse [] 0).
Definition LoginstatusErrorResponse_fields : list (Field LoginstatusErrorResponse) := [
  field $"error" store_string dump_string le_Error
    (fun x t => Build_LoginstatusErrorResponse x (le_ErrorDescription t));
  field $"error_description" store_string dump_string le_ErrorDescription
    (fun x t => Build_LoginstatusErrorResponse (le_Error t) x)].
#[global] Instance LoginstatusErrorResponse_decoder : Decoder LoginstatusErrorResponse :=
  struct_Unmarshal LoginstatusErrorResponse_fields (Build_LoginstatusErrorResponse [] []).

Definition StatusClientError (status : Z) : bool := (400 <=? status) && (status <? 500).

Section Loginstatus.
Context (c : LoginstatusConfig).

Definition Enabled : bool := ls_Enabled c.
Definition ResourceIndicator : str := ls_ResourceIndicator c.
Definition NeedsResourceIndicator : bool := Enabled && negb (is_empty ResourceIndicator).

Definition HasCookie (r : Request) : bool :=
  match Request_Cookie r (ls_CookieName c) with
  | Ok _ => true
  | Err e => negb (errors_Is e ErrNoCookie)
  end.
Definition LoginstatusNeedsLogin (r : Request) : bool := ls_Enabled c && negb (HasCookie r).

Definition CookieOptions (o : Options) : Options :=
  WithCookiePath (WithSameSite (WithDomain o (ls_CookieDomain c)) LoginstatusSameSite) $"/".

(** [ClearCookie]: its own cookie, and that of the service it replaces. *)
Definition ClearCookie (o : Options) (w : Response) : Response :=
  Clear LoginserviceCookieName (WithSameSite (CookieOptions o) SameSiteNoneMode)
    (Clear (ls_CookieName c) (CookieOptions o) w).

Section Effects.
Context {E : Env} {S : Type}.

(** [request]: a GET with the token as bearer; a URL that does not parse is
    an error. *)
Definition request (url token : str) : result HTTPRequest :=
  match Parse url with
  | None => Err (New "net/url: parse")
  | Some _ =>
      Ok {| rq_method := MethodGet; rq_url := url;
            rq_header := [($"Authorization", $"Bearer " ++ token);
                          ($"Accept", $"application/json")];
            rq_body := [] |}
  end.

(** [handleResponse] *)
Definition handleResponse (resp : HTTPResponse) : result LoginstatusTokenResponse :=
  body ← wrap "reading server response" (rs_body resp);
  if StatusClientError (rs_status resp) then
    match (json_Decode body : result LoginstatusErrorResponse) with
    | Err e => Err (Wrap "client error: unmarshalling error response" e)
    | Ok _ => Err (New "client error")
    end
  else if 500 <=? rs_status resp then Err (New "server error")
  else wrap "unmarshalling token response" (json_Decode body).

(** [ExchangeToken] *)
Definition ExchangeToken (accessToken : str) : M S (result LoginstatusTokenResponse) :=
  req ←? wrapM "creating request" (pureR (request (ls_TokenURL c) accessToken));
  resp ←? wrapM "performing request" (http_Do req);
  pureR (handleResponse resp).

(** [SetCookie] *)
Definition SetCookie (t : LoginstatusTokenResponse) (o : Options) (w : Response) : M S Response :=
  let o' := WithExpiresIn (CookieOptions o) (seconds (lt_ExpiresIn t)) in
  newCookie ← Make (ls_CookieName c) (lt_AccessToken t) o';
  mret (Set_Cookie newCookie w).
End Effects.
End Loginstatus.

(** ** Lemmas *)

Lemma HasCookie_spec (c : LoginstatusConfig) (r : Request) :
  HasCookie c r = bool_decide (is_Some (lookup_cookie (rq_Cookies r) (ls_CookieName c))).
Proof.
  unfold HasCookie, Request_Cookie. by destruct (lookup_cookie _ _).
Qed.

Lemma ExchangeToken_frame {E : Env} {S} (c : LoginstatusConfig) (w : World S) (t : str) :
  w_store (ExchangeToken c t w).2 = w_store w.
Proof.
  unfold ExchangeToken, bindE, wrapM, fmap, M_fmap, pureR, mret, M_ret.
  destruct (request _ _) as [rq|]; [|done]. cbn [wrap].
  rewrite http_Do_run. by destruct (env_http (w_tick w) rq).
Qed.

(** ** Properties *)

(** A token exchange sends one GET to the configured URL with the access
    token as bearer, and succeeds only on an answer below 400 whose body decodes:
    every client or server error of the endpoint is an error. *)
Theorem ExchangeToken_spec {E : Env} {S} (c : LoginstatusConfig) (w : World S)
    (accessToken : str) (t : LoginstatusTokenResponse) (w' : World S)
  (Hok : ExchangeToken c accessToken w = (Ok t, w')) :
  exists resp body rq,
    w_trace w' = w_trace w ++ [EvHTTP rq]
    /\ rq_method rq = $"GET" /\ rq_url rq = ls_TokenURL c
    /\ ($"Authorization", $"Bearer " ++ accessToken) ∈ rq_header rq
    /\ env_http (w_tick w) rq = Ok resp /\ rs_status resp < 400
    /\ rs_body resp = Ok body /\ json_Decode body = Ok t.
Proof.
  unfold ExchangeToken in Hok. apply bindE_Ok in Hok as (rq & w1 & Hrq & Hok).
  apply wrapM_Ok in Hrq. unfold pureR, mret, M_ret in Hrq. injection Hrq as Hrq <-.
  apply bindE_Ok in Hok as (resp & w2 & Hdo%wrapM_Ok & Hh). injection Hh as Hh <-.
  rewrite http_Do_run in Hdo. injection Hdo as Hdo <-.
  unfold handleResponse in Hh. apply wrap_bind_Ok in Hh as (body & Hb & Hh).
  destruct (StatusClientError _) eqn:Ec; [by destruct (json_Decode body)|].
  destruct (500 <=? _) eqn:E5; [done|]. apply wrap_Ok in Hh.
  unfold request in Hrq. destruct (Parse _); [|done]. injection Hrq as <-.
  eexists resp, body, _. split; [done|]. split; [done|]. split; [done|]. split; [by left|].
  split; [exact Hdo|]. split; [|done]. unfold StatusClientError in Ec.
  apply andb_false_iff in Ec. destruct Ec; to_prop; lia.
Qed.

(** A body of the endpoint: a token that lives for a minute. *)
Definition token_body : str :=
  json_text (JObj [($"access_token", JStr $"token"); ($"expires_in", JNum $"60")]).
Definition answering (status : Z) (body : str) : Env := {|
  env_now i := unix_epoch + Z.of_nat i * Second;
  env_rand _ n := Ok (replicate n "r"%char);
  env_keygen _ n := Ok (replicate n "k"%char);
  env_uuid _ := $"uuid";
  env_http _ _ := Ok {| rs_status := status; rs_body := Ok body |};
  env_select _ := [TickerFired] |}.
Definition example_loginstatus : LoginstatusConfig :=
  {| ls_Enabled := true; ls_CookieDomain := $"nav.no"; ls_CookieName := $"status";
     ls_ResourceIndicator := $"https://status"; ls_TokenURL := $"https://status/token" |}.

Definition example_exchange : result LoginstatusTokenResponse * World unit :=
  ExchangeToken (E := answering 200 token_body) example_loginstatus $"at" toy_world.

Lemma ExchangeToken_spec_witness :
  exists rq, w_trace example_exchange.2 = [EvHTTP rq]
    /\ ($"Authorization", $"Bearer at") ∈ rq_header rq.
Proof.
  destruct (ExchangeToken_spec (E := answering 200 token_body)
              example_loginstatus toy_world $"at"
              {| lt_AccessToken := $"token"; lt_ExpiresIn := 60 |} example_exchange.2
              ltac:(vm_compute; reflexivity)) as (resp & body & rq & Htr & _ & _ & H & _).
  exists rq. split; [exact Htr|exact H].
Defined.

(** The login status cookie that [SetCookie] sets is the one
    [LoginstatusNeedsLogin] looks for and [ClearCookie] clears: same name, domain and path. *)
Theorem loginstatus_cookie {E : Env} {S} (c : LoginstatusConfig) (w : World S)
    (t : LoginstatusTokenResponse) (o o' : Options) (rw rw' : Response) (r : Request)
  (Hcan : can_set rw (ls_CookieName c)) (Hcan' : can_set rw' (ls_CookieName c))
  (Hsent : exists v, (ls_CookieName c, v) ∈ rq_Cookies r) :
  LoginstatusNeedsLogin c r = false
  /\ exists set clear rest,
       rw_Cookies (SetCookie c t o rw w).1 = rw_Cookies rw ++ [set]
       /\ rw_Cookies (ClearCookie c o' rw') = rw_Cookies rw' ++ clear :: rest
       /\ cookie_identity set = cookie_identity clear
       /\ cookie_identity set = (ls_CookieName c, ls_CookieDomain c, $"/")
       /\ ck_MaxAge clear < 0.
Proof.
  split.
  { unfold LoginstatusNeedsLogin. rewrite HasCookie_spec. destruct Hsent as [v Hv].
    assert (is_Some (lookup_cookie (rq_Cookies r) (ls_CookieName c))) as Hs.
    { induction (rq_Cookies r) as [|[n u] cs IH]; [set_solver|]. cbn.
      destruct (streq n (ls_CookieName c)) eqn:En; [by eexists|]. apply IH.
      apply elem_of_cons in Hv as [[= Hn _]|Hv]; [|done].
      apply streq_false in En. by rewrite Hn in En. }
    rewrite bool_decide_true by done. by rewrite andb_false_r. }
  unfold SetCookie. rewrite bind_run, Make_run. cbn [fst snd mret M_ret].
  unfold Set_Cookie. match goal with |- context [http_SetCookie ?k rw] =>
    destruct (http_SetCookie_can_set k rw Hcan) as (Hset & _) end.
  destruct (Clear_cookies (ls_CookieName c) (CookieOptions c o') rw' Hcan') as [Hcl Hst].
  assert (Hcan2 : can_set (Clear (ls_CookieName c) (CookieOptions c o') rw') LoginserviceCookieName)
    by (split; [done|vm_compute; reflexivity]).
  unfold ClearCookie.
  destruct (Clear_cookies LoginserviceCookieName
              (WithSameSite (CookieOptions c o') SameSiteNoneMode) _ Hcan2) as [Hcl2 _].
  rewrite Hset, Hcl2, Hcl, <- app_assoc. cbn [app].
  eexists _, _, _. split; [done|]. split; [done|].
  unfold cookie_identity, cookie_path, cookie_domain, wire_cookie. cbn.
  by destruct (ls_CookieDomain c).
Qed.

Definition request_with_cookie (name value : str) : Request :=
  mkRequest MethodGet HTTP11 empty_URL $"nav.no" ∅ [(name, value)] None None None None.

Lemma loginstatus_cookie_witness :
  LoginstatusNeedsLogin example_loginstatus (request_with_cookie $"status" $"t") = false.
Proof.
  refine (proj1 (loginstatus_cookie (E := answering 200 []) example_loginstatus toy_world
    {| lt_AccessToken := $"t"; lt_ExpiresIn := 60 |} DefaultOptions DefaultOptions
    new_response new_response _ _ _ _)).
  - split; vm_compute; reflexivity.
  - split; vm_compute; reflexivity.
  - exists $"t". by left.
Defined.
