(* ===== verification/GoSha256.v ===== *)
(** * [crypto/sha256], for the PKCE challenge

    The hash is executable, so that challenges can be computed and compared
    with the published vectors. *)

From S2P Require Import Prelude GoStrings.
#[local] Open Scope Z_scope.

(** ** 32-bit words *)

Definition w32 (z : Z) : Z := z mod 2 ^ 32.
Definition add32 (a b : Z) : Z := w32 (a + b).
Definition rotr (x : Z) (n : Z) : Z :=
  Z.lor (Z.shiftr x n) (w32 (Z.shiftl x (32 - n))).
Definition not32 (x : Z) : Z := Z.lxor x (2 ^ 32 - 1).

Definition Ch (x y z : Z) : Z := Z.lxor (Z.land x y) (Z.land (not32 x) z).
Definition Maj (x y z : Z) : Z := Z.lxor (Z.lxor (Z.land x y) (Z.land x z)) (Z.land y z).
Definition Sigma0 (x : Z) : Z := Z.lxor (Z.lxor (rotr x 2) (rotr x 13)) (rotr x 22).
Definition Sigma1 (x : Z) : Z := Z.lxor (Z.lxor (rotr x 6) (rotr x 11)) (rotr x 25).
Definition sigma0 (x : Z) : Z := Z.lxor (Z.lxor (rotr x 7) (rotr x 18)) (Z.shiftr x 3).
Definition sigma1 (x : Z) : Z := Z.lxor (Z.lxor (rotr x 17) (rotr x 19)) (Z.shiftr x 10).

(** The constants are defined as the standard derives them: the first 32
    fractional bits of the cube roots of the first sixty-four primes, and of
    the square roots of the first eight. *)
Definition is_prime (n : nat) : bool :=
  (1 <? n)%nat && forallb (fun d => negb (n mod d =? 0)%nat) (seq 2 (n - 2)).

Definition primes : list Z := Eval vm_compute in map Z.of_nat (List.filter is_prime (seq 0 312)).

(** The integer cube root of [n], one bit at a time from bit [k - 1] down. *)
Fixpoint cbrt (k : nat) (n root : Z) : Z :=
  match k with
  | O => root
  | S k' =>
      let next := root + 2 ^ Z.of_nat k' in
      cbrt k' n (if next ^ 3 <=? n then next else root)
  end.

Definition round_constants : list Z :=
  Eval vm_compute in map (fun p => w32 (cbrt 40 (p * 2 ^ 96) 0)) primes.

Definition initial_hash : list Z :=
  Eval vm_compute in map (fun p => w32 (Z.sqrt (p * 2 ^ 64))) (take 8 primes).

(** ** Padding and the message schedule *)

(** The [k] low bytes of [n], high first. *)
Fixpoint bytes_be (k : nat) (n : Z) : list Z :=
  match k with O => [] | S k' => (n / 256 ^ Z.of_nat k') mod 256 :: bytes_be k' n end.

Definition pad (msg : str) : list Z :=
  let l := zlen msg in
  map ord msg ++ [128] ++ replicate (Z.to_nat ((55 - l) mod 64)) 0 ++ bytes_be 8 (l * 8).

Fixpoint words (bytes : list Z) : list Z :=
  match bytes with
  | a :: b :: c :: d :: rest => (a * 2 ^ 24 + b * 2 ^ 16 + c * 2 ^ 8 + d) :: words rest
  | _ => []
  end.

(** The schedule, newest word first, extended [n] times. *)
Fixpoint extend (n : nat) (w : list Z) : list Z :=
  match n with
  | O => w
  | S n' =>
      let at_ i := nth i w 0 in
      extend n' (add32 (add32 (sigma1 (at_ 1%nat)) (at_ 6%nat))
                       (add32 (sigma0 (at_ 14%nat)) (at_ 15%nat)) :: w)
  end.

Definition round (st : list Z) (kw : Z * Z) : list Z :=
  match st with
  | [a; b; c; d; e; f; g; h] =>
      let t1 := add32 (add32 h (Sigma1 e)) (add32 (Ch e f g) (add32 (fst kw) (snd kw))) in
      let t2 := add32 (Sigma0 a) (Maj a b c) in
      [add32 t1 t2; a; b; c; add32 d t1; e; f; g]
  | _ => st
  end.

Definition compress (hash block : list Z) : list Z :=
  let w := rev (extend 48 (rev block)) in
  let st := fold_left round (combine round_constants w) hash in
  map (fun '(a, b) => add32 a b) (combine hash st).

Fixpoint blocks (fuel : nat) (ws : list Z) (hash : list Z) : list Z :=
  match fuel, ws with
  | S fuel', _ :: _ => blocks fuel' (drop 16 ws) (compress hash (take 16 ws))
  | _, _ => hash
  end.

(** [sha256.Sum256]: one block consumes sixteen words, so the number of words
    is enough fuel. *)
Definition sha256 (msg : str) : str :=
  let ws := words (pad msg) in
  map chr (blocks (length ws) ws initial_hash ≫= bytes_be 4).

(** ** Checks *)

Definition hex_digit (n : Z) : ascii := nth (Z.to_nat n) $"0123456789abcdef" "0"%char.
Definition hex (s : str) : str := s ≫= fun c => [hex_digit (ord c / 16); hex_digit (ord c mod 16)].

Example sha256_empty :
  hex (sha256 []) = $"e3b0c44298fc1c149afbf4c8996fb92427ae41e4649b934ca495991b7852b855".
Proof. vm_compute. reflexivity. Qed.

Example sha256_abc :
  hex (sha256 $"abc") = $"ba7816bf8f01cfea414140de5dae2223b00361a396177a9cb410ff61f20015ad".
Proof. vm_compute. reflexivity. Qed.

Example sha256_two_blocks :
  hex (sha256 $"abcdbcdecdefdefgefghfghighijhijkijkljklmklmnlmnomnopnopq")
  = $"248d6a61d20638b8e5c026930c3e6039a33ce45964ff2167f6ecedd419db06c1".
Proof. vm_compute. reflexivity. Qed.

(** ** The length of a digest *)

Lemma length_round st kw : length st = 8%nat -> length (round st kw) = 8%nat.
Proof. do 9 (destruct st as [|? st]; [done|]). done. Qed.

Lemma length_rounds l st : length st = 8%nat -> length (fold_left round l st) = 8%nat.
Proof.
  revert st. induction l as [|kw l IH]; intros st H; cbn; [done|]. by apply IH, length_round.
Qed.

Lemma length_compress hash block : length hash = 8%nat -> length (compress hash block) = 8%nat.
Proof.
  intros H. unfold compress. rewrite length_map, length_combine, length_rounds by done. by rewrite H.
Qed.

Lemma length_blocks fuel ws hash : length hash = 8%nat -> length (blocks fuel ws hash) = 8%nat.
Proof.
  revert ws hash. induction fuel as [|fuel IH]; intros ws hash H; cbn; [done|].
  destruct ws; [done|]. by apply IH, length_compress.
Qed.

Lemma length_sha256 msg : length (sha256 msg) = 32%nat.
Proof.
  unfold sha256. rewrite length_map.
  assert (H : forall l, length (l ≫= bytes_be 4) = (4 * length l)%nat).
  { induction l as [|x l IH]; [done|]. cbn [mbind list_bind]. rewrite length_app, IH. cbn. lia. }
  by rewrite H, length_blocks.
Qed.
