(* ===== verification/OpenidClient.v ===== *)
(** * The OpenID Connect client: [pkg/openid/client]

    The authorization request, the callback, the token and refresh grants, and
    the logout requests.  The oauth2 library builds the authorization URL and
    exchanges the code, the jwx library signs the client assertion: the [OAuth2]
    interface.  What the program hands them, and how it treats their answers, is
    modelled in full. *)

From S2P Require Import Prelude GoStrings GoTime GoBase64 GoUrl GoUrlFacts GoUtf8 GoError GoJson GoSha256 Config Http Crypter Cookie Ingress RedirectUrl Openid Jwks Loginstatus.

(** ** The libraries *)

Inductive AssertionClaim := ACString (s : str) | ACTime (t : Time).

Class OAuth2 (Key : Type) := {
  (* oauth2.Config{Endpoint.AuthURL, ClientID, Scopes}.AuthCodeURL(state, opts...) *)
  oauth2_AuthCodeURL : str -> str -> Scopes -> str -> list (str * str) -> str;
  (* oauth2.Config{Endpoint.TokenURL, ClientID}.Exchange(ctx, code, opts...) *)
  oauth2_Exchange : nat -> str -> str -> str -> list (str * str) -> result OAuth2Token;
  (* jwt.Token.Set and jwt.Sign *)
  token_Set : str -> AssertionClaim -> result unit;
  jwt_Sign : Key -> list (str * AssertionClaim) -> result str;
}.

Definition LocaleURLParameter : str := $"locale".
Definition SecurityLevelURLParameter : str := $"level".
Definition ResponseModeQuery : str := $"query".
Definition CodeChallengeMethodS256 : str := $"S256".
Definition DefaultClientAssertionLifetime : Duration := (30 * Second)%Z.

(** [LoginParameterMapping] *)
Definition LoginParameterMapping (param : str) : str :=
  if streq param LocaleURLParameter then P_UILocales
  else if streq param SecurityLevelURLParameter then P_ACRValues
  else [].

(** [CodeChallenge] *)
Definition CodeChallenge (codeVerifier : str) : str :=
  EncodeToString RawURLEncoding (sha256 codeVerifier).

(** [LoginURLParameter] *)
Definition LoginURLParameter (r : Request) (parameter fallback : str) (supported : Supported)
    : result str :=
  let v := Values_Get (URL_Query (rq_URL r)) parameter in
  let value := if is_empty v then fallback else v in
  if Supported_Contains supported value then Ok value
  else Err (Wrap "invalid value for" (Sentinel ErrInvalidLoginParameter)).

(** [withParamMapping] *)
Definition withParamMapping (r : Request) (opts : list (str * str)) (param fallback : str)
    (supported : Supported) : result (list (str * str)) :=
  if is_empty fallback then Ok opts
  else value ← LoginURLParameter r param fallback supported;
       Ok (opts ++ [(LoginParameterMapping param, value)]).

(** [fmt.Errorf("%w: %+v", target, err)] *)
Definition relabel {A} (target : sentinel) (r : result A) : result A :=
  match r with Ok a => Ok a | Err e => Err (WrapDetail (Sentinel target) e) end.

Record OClient (Key : Type) := { oc_cfg : OpenidCfg Key; oc_loginstatus : LoginstatusConfig }.
Arguments oc_cfg {Key}.
Arguments oc_loginstatus {Key}.

Record loginParameters := {
  lp_CodeVerifier : str; lp_CodeChallenge : str; lp_Nonce : str; lp_State : str }.

Record Login := {
  lg_authCodeURL : str;
  lg_canonicalRedirect : str;
  lg_cookie : LoginCookie;
  lg_params : loginParameters }.

Section Client.
Context {L : JwtLib} {C : JwkCache} {Key : Type} {O : OAuth2 Key} {E : Env} {S : Type}.
Context (c : OClient Key).

Definition client : Client Key := oidc_Client (oc_cfg c).
Definition provider : Provider := oidc_Provider (oc_cfg c).

(** ** [login.go] *)

(** [newLoginParameters] *)
Definition newLoginParameters : M S (result loginParameters) :=
  codeVerifier ←? wrapM "creating code verifier" (GenerateBase64 64);
  nonce ←? wrapM "creating nonce" (GenerateBase64 32);
  state ←? wrapM "creating state" (GenerateBase64 32);
  okM {| lp_CodeVerifier := codeVerifier; lp_CodeChallenge := CodeChallenge codeVerifier;
         lp_Nonce := nonce; lp_State := state |}.

Definition withLocale (r : Request) (opts : list (str * str)) : result (list (str * str)) :=
  withParamMapping r opts LocaleURLParameter (UILocales client) (UILocalesSupported provider).
Definition withSecurityLevel (r : Request) (opts : list (str * str)) : result (list (str * str)) :=
  withParamMapping r opts SecurityLevelURLParameter (ACRValues client) (ACRValuesSupported provider).

(** The options of [authCodeURL] before the level and the locale. *)
Definition base_options (in_ : loginParameters) (callbackURL : str) : list (str * str) :=
  [(P_Nonce, lp_Nonce in_); (P_ResponseMode, ResponseModeQuery);
   (P_CodeChallenge, lp_CodeChallenge in_); (P_CodeChallengeMethod, CodeChallengeMethodS256);
   (P_RedirectURI, callbackURL)]
  ++ (if NeedsResourceIndicator (oc_loginstatus c)
      then [(P_Resource, ResourceIndicator (oc_loginstatus c))] else []).

(** [authCodeURL] *)
Definition authCodeURL (in_ : loginParameters) (r : Request) (callbackURL : str) : result str :=
  opts ← relabel ErrInvalidSecurityLevel (withSecurityLevel r (base_options in_ callbackURL));
  opts' ← relabel ErrInvalidLocale (withLocale r opts);
  Ok (oauth2_AuthCodeURL (pm_AuthorizationEndpoint (pr_metadata provider)) (ClientID client)
        (ClientScopes client) (lp_State in_) opts').

(** [loginParameters.cookie] *)
Definition login_cookie (in_ : loginParameters) (referer redirectURI : str) : LoginCookie :=
  mkLoginCookie (lp_State in_) (lp_Nonce in_) (lp_CodeVerifier in_) referer redirectURI.

(** [NewLogin] and [Client.Login] *)
Definition NewLogin (r : Request) : M S (result Login) :=
  params ←? wrapM "generating parameters" newLoginParameters;
  callbackURL ←? wrapM "generating callback url" (pureR (LoginCallbackURL r));
  url ←? wrapM "generating auth code url" (pureR (authCodeURL params r callbackURL));
  let referer := CanonicalRedirect r in
  okM {| lg_authCodeURL := url; lg_canonicalRedirect := referer;
         lg_cookie := login_cookie params referer callbackURL; lg_params := params |}.
Definition Client_Login (r : Request) : M S (result Login) := wrapM "login" (NewLogin r).

(** ** [client.go] *)

(** [MakeAssertion]: the errors of all the claims are collected, the first one
    is returned. *)
Definition assertion_claims (iat exp : Time) (jti : str) : list (str * AssertionClaim) :=
  [($"iss", ACString (ClientID client)); ($"sub", ACString (ClientID client));
   ($"aud", ACString (pm_Issuer (pr_metadata provider)));
   ($"iat", ACTime iat); ($"exp", ACTime exp); ($"jti", ACString jti)].
Fixpoint first_error (errs : list (result unit)) : result unit :=
  match errs with
  | [] => Ok tt
  | Ok _ :: rest => first_error rest
  | Err e :: _ => Err e
  end.
Definition MakeAssertion (expiration : Duration) : M S (result str) :=
  now ← time_Now;
  let iat := Truncate (Add now (-5 * Second)%Z) Second in
  let exp := Add iat expiration in
  jti ← uuid_New;
  let claims := assertion_claims iat exp jti in
  _ ←? wrapM "setting claim for client assertion"
         (pureR (first_error (map (fun '(k, v) => token_Set k v) claims)));
  wrapM "signing client assertion" (pureR (jwt_Sign (ClientJWK client) claims)).

(** [AuthCodeGrant] *)
Definition AuthCodeGrant (code : str) (opts : list (str * str)) : M S (result OAuth2Token) :=
  _ ← log_event (EvExchange code opts);
  step (fun i => oauth2_Exchange i (pm_TokenEndpoint (pr_metadata provider)) (ClientID client) code opts).

(** The form of the refresh grant. *)
Definition refresh_form (refreshToken assertion : str) : Values :=
  Values_Set (Values_Set (Values_Set (Values_Set (Values_Set ∅
    P_GrantType RefreshTokenValue) P_RefreshToken refreshToken) P_ClientID (ClientID client))
    P_ClientAssertion assertion) P_ClientAssertionType ClientAssertionTypeJwtBearer.

(** The answer of the token endpoint. *)
Definition refresh_response
    (resp : HTTPResponse) : result TokenResponse :=
  body ← wrap "reading server response" (rs_body resp);
  if StatusClientError (rs_status resp) then
    match (json_Decode body : result TokenErrorResponse) with
    | Err e => Err (WrapDetail (Sentinel ErrOpenIDClient) e)
    | Ok _ => Err (Sentinel ErrOpenIDClient)
    end
  else if (500 <=? rs_status resp)%Z then Err (Sentinel ErrOpenIDServer)
  else wrap "unmarshalling token response" (json_Decode body).

(** [RefreshGrant] *)
Definition RefreshGrant
    (refreshToken : str) : M S (result TokenResponse) :=
  assertion ←? wrapM "creating client assertion" (MakeAssertion DefaultClientAssertionLifetime);
  let url := pm_TokenEndpoint (pr_metadata provider) in
  _ ←? wrapM "creating request" (pureR (of_option (New "net/url: parse") (Parse url)));
  resp ←? wrapM "performing request"
    (http_Do {| rq_method := $"POST"; rq_url := url;
                rq_header := [($"Content-Type", $"application/x-www-form-urlencoded")];
                rq_body := Values_Encode (refresh_form refreshToken assertion) |});
  pureR (refresh_response resp).

(** ** [login_callback.go] *)

Record LoginCallback := { cb_cookie : LoginCookie; cb_params : Values }.

(** [NewLoginCallback] and [Client.LoginCallback] *)
Definition NewLoginCallback (r : Request) (cookie : option LoginCookie) : result LoginCallback :=
  match cookie with
  | None => Err (New "cookie is nil")
  | Some k =>
      redirectURI ← (if is_empty (lc_RedirectURI k)
                     then wrap "generating callback url" (LoginCallbackURL r)
                     else Ok (lc_RedirectURI k));
      Ok {| cb_cookie := mkLoginCookie (lc_State k) (lc_Nonce k) (lc_CodeVerifier k)
                           (lc_Referer k) redirectURI;
            cb_params := URL_Query (rq_URL r) |}
  end.
Definition Client_LoginCallback (r : Request) (cookie : option LoginCookie) : result LoginCallback :=
  wrap "callback" (NewLoginCallback r cookie).

(** [IdentityProviderError] and [StateMismatchError]: [None] is nil. *)
Definition IdentityProviderError (cb : LoginCallback) : option error :=
  if is_empty (Values_Get (cb_params cb) P_Error) then None
  else Some (New "error from identity provider").
Definition StateMismatchError (cb : LoginCallback) : option error :=
  let expectedState := lc_State (cb_cookie cb) in
  let actualState := Values_Get (cb_params cb) P_State in
  if is_empty actualState then Some (New "missing state parameter in request (possible csrf)")
  else if negb (streq expectedState actualState)
       then Some (New "state parameter mismatch (possible csrf)")
       else None.

Definition exchange_options (cb : LoginCallback) (assertion : str) : list (str * str) :=
  [(P_CodeVerifier, lc_CodeVerifier (cb_cookie cb)); (P_ClientAssertion, assertion);
   (P_ClientAssertionType, ClientAssertionTypeJwtBearer);
   (P_RedirectURI, lc_RedirectURI (cb_cookie cb))].

(** [NewTokens], with the forced refresh of the keys when it fails. *)
Definition parse_tokens `{!JwksState S} (raw : OAuth2Token) (jwks : JwkSet) : M S (result Tokens) :=
  r ← NewTokens raw jwks;
  match r with
  | Ok t => okM t
  | Err e => _ ← RefreshPublicJwkSet provider; errM (Wrap "parsing tokens" e)
  end.

(** [RedeemTokens] *)
Definition RedeemTokens `{!JwksState S} (cb : LoginCallback) : M S (result Tokens) :=
  clientAssertion ←? wrapM "creating client assertion" (MakeAssertion DefaultClientAssertionLifetime);
  rawTokens ←? wrapM "exchanging authorization code for token"
    (AuthCodeGrant (Values_Get (cb_params cb) P_Code) (exchange_options cb clientAssertion));
  jwkSet ←? wrapM "getting jwks" (GetPublicJwkSet provider);
  tokens ←? parse_tokens rawTokens jwkSet;
  _ ←? wrapM "validating id_token"
         (IDToken_Validate (tk_IDToken tokens) (oc_cfg c) (lc_Nonce (cb_cookie cb)));
  okM tokens.

(** ** [logout.go], [logout_callback.go], [logout_frontchannel.go] *)

Record Logout := { lo_logoutCallbackURL : str }.
Definition NewLogout (r : Request) : result Logout :=
  u ← wrap "generating logout callback url" (LogoutCallbackURL r);
  Ok {| lo_logoutCallbackURL := u |}.
Definition Client_Logout (r : Request) : result Logout := wrap "logout" (NewLogout r).

(** The query of [SingleLogoutURL]. *)
Definition logout_query (lo : Logout) (idToken : str) : Values :=
  let v := Values_Add (URL_Query (pr_endSessionEndpointURL provider)) P_PostLogoutRedirectURI
             (lo_logoutCallbackURL lo) in
  if is_empty idToken then v else Values_Add v P_IDTokenHint idToken.
Definition SingleLogoutURL (lo : Logout) (idToken : str) : str :=
  URL_String (URL_with_query (pr_endSessionEndpointURL provider)
                (Values_Encode (logout_query lo idToken))).

(** [LogoutCallback.PostLogoutRedirectURI] *)
Definition LogoutCallback_PostLogoutRedirectURI (r : Request) : str :=
  let redirect := PostLogoutRedirectURI client in
  if negb (is_empty redirect) then redirect
  else match IngressFrom r with
       | None => $"/"
       | Some ingress => ingress_String ingress
       end.

(** [NewLogoutFrontchannel]'s [Sid] and [MissingSidParameter] *)
Definition LogoutFrontchannel_Sid (r : Request) : str := Values_Get (URL_Query (rq_URL r)) P_Sid.
Definition MissingSidParameter (r : Request) : bool := is_empty (LogoutFrontchannel_Sid r).
End Client.

(** ** Lemmas *)

Section Facts.
Context {L : JwtLib} {C : JwkCache} {Key : Type} {O : OAuth2 Key} {E : Env} {S : Type}.
Context (c : OClient Key).
Implicit Types (w : World S).

Lemma GenerateBase64_run (n : nat) w :
  GenerateBase64 n w =
    (match env_rand (w_tick w) n with
     | Ok b => Ok (EncodeToString RawURLEncoding b)
     | Err e => Err (Wrap "reading rand.Reader" e)
     end, mkWorld (1 + w_tick w) (w_store w) (w_trace w)).
Proof.
  unfold GenerateBase64, bindE, Generate, wrapM, fmap, M_fmap, rand_Read, step.
  by destruct (env_rand (w_tick w) n).
Qed.

Lemma newLoginParameters_Ok w w' p :
  newLoginParameters w = (Ok p, w') ->
  exists v n s,
    env_rand (w_tick w) 64 = Ok v /\ env_rand (1 + w_tick w) 32 = Ok n
    /\ env_rand (2 + w_tick w) 32 = Ok s
    /\ lp_CodeVerifier p = EncodeToString RawURLEncoding v
    /\ lp_Nonce p = EncodeToString RawURLEncoding n /\ lp_State p = EncodeToString RawURLEncoding s
    /\ lp_CodeChallenge p = CodeChallenge (lp_CodeVerifier p)
    /\ w' = mkWorld (3 + w_tick w) (w_store w) (w_trace w).
Proof.
  unfold newLoginParameters. intros (v & w1 & Hv%wrapM_Ok & H)%bindE_Ok.
  apply bindE_Ok in H as (n & w2 & Hn%wrapM_Ok & H).
  apply bindE_Ok in H as (s & w3 & Hs%wrapM_Ok & [= <- <-]).
  rewrite GenerateBase64_run in Hv, Hn, Hs.
  destruct (env_rand (w_tick w) 64) as [b1|] eqn:E1; [|done]. injection Hv as <- <-.
  cbn [w_tick w_store w_trace] in Hn, Hs. fold (1 + w_tick w) in Hn.
  case_hyp Hn; [|done]. injection Hn as <- <-.
  cbn [w_tick w_store w_trace] in Hs. case_hyp Hs; [|done]. injection Hs as <- <-.
  eexists _, _, _. done.
Qed.

(** The random strings of a login are text. *)
Lemma raw_encode_text (s : str) : valid_utf8 (EncodeToString RawURLEncoding s) = true.
Proof. apply valid_utf8_ascii. by apply Encode_all; vm_compute. Qed.


Lemma relabel_Ok {A} t (r : result A) a : relabel t r = Ok a <-> r = Ok a.
Proof. destruct r; cbn; split; congruence. Qed.

Lemma Client_Login_random r w w' l :
  Client_Login c r w = (Ok l, w') ->
  Forall (fun x => valid_utf8 x = true)
    [lc_State (lg_cookie l); lc_Nonce (lg_cookie l); lc_CodeVerifier (lg_cookie l)].
Proof.
  intros H%wrapM_Ok. unfold NewLogin in H. apply bindE_Ok in H as (p & w1 & Hp%wrapM_Ok & H).
  apply bindE_Ok in H as (cb & w2 & _ & H). apply bindE_Ok in H as (u & w3 & _ & [= <- _]).
  apply newLoginParameters_Ok in Hp as (v & n & s & _ & _ & _ & Ev & En & Es & _).
  cbn [lg_cookie login_cookie lc_State lc_Nonce lc_CodeVerifier]. rewrite Ev, En, Es.
  repeat constructor; apply raw_encode_text.
Qed.

(** The level or locale that was added, if one is configured. *)
Lemma withParamMapping_Ok r opts param fallback supported opts' :
  withParamMapping r opts param fallback supported = Ok opts' ->
  (fallback = [] /\ opts' = opts)
  \/ (fallback <> [] /\ exists v, v ∈ supported
        /\ (v = Values_Get (URL_Query (rq_URL r)) param
            \/ (Values_Get (URL_Query (rq_URL r)) param = [] /\ v = fallback))
        /\ opts' = opts ++ [(LoginParameterMapping param, v)]).
Proof.
  unfold withParamMapping. destruct (is_empty fallback) eqn:Ef.
  - apply is_empty_true in Ef. intros [= <-]. by left.
  - apply is_empty_false in Ef. intros (v & Hv & [= <-])%bind_Ok. right. split; [done|].
    exists v. unfold LoginURLParameter in Hv.
    destruct (Supported_Contains _ _) eqn:Es; [|done]. injection Hv as <-.
    apply Supported_Contains_spec in Es. split; [done|]. split; [|done].
    destruct (is_empty (Values_Get _ _)) eqn:Ee; [|by left].
    apply is_empty_true in Ee. by right.
Qed.

(** The option for the level or the locale. *)
Definition chosen (opts : list (str * str)) (k fallback : str) (supported : Supported) : Prop :=
  (fallback = [] /\ opts = [])
  \/ (fallback <> [] /\ exists v, v ∈ supported /\ opts = [(k, v)]).

Lemma withParamMapping_chosen r opts param fallback supported opts' :
  withParamMapping r opts param fallback supported = Ok opts' ->
  exists more, opts' = opts ++ more /\ chosen more (LoginParameterMapping param) fallback supported.
Proof.
  intros [[-> ->]|(Hf & v & Hv & _ & ->)]%withParamMapping_Ok.
  - exists []. rewrite app_nil_r. split; [done|]. by left.
  - eexists. split; [done|]. right. eauto.
Qed.

Lemma NewLogin_inv r w w' l :
  NewLogin c r w = (Ok l, w') ->
  exists p level locale,
    newLoginParameters w = (Ok p, w')
    /\ LoginCallbackURL r = Ok (lc_RedirectURI (lg_cookie l))
    /\ lg_cookie l = login_cookie p (CanonicalRedirect r) (lc_RedirectURI (lg_cookie l))
    /\ lg_authCodeURL l = oauth2_AuthCodeURL (pm_AuthorizationEndpoint (pr_metadata (provider c)))
         (ClientID (client c)) (ClientScopes (client c)) (lp_State p)
         (base_options c p (lc_RedirectURI (lg_cookie l)) ++ level ++ locale)
    /\ chosen level P_ACRValues (ACRValues (client c)) (ACRValuesSupported (provider c))
    /\ chosen locale P_UILocales (UILocales (client c)) (UILocalesSupported (provider c)).
Proof.
  unfold NewLogin. intros (p & w1 & Hp%wrapM_Ok & H)%bindE_Ok.
  apply bindE_Ok in H as (cb & w2 & Hcb%wrapM_Ok & H). injection Hcb as Hcb <-.
  apply bindE_Ok in H as (u & w3 & Hu%wrapM_Ok & [= <- <-]). injection Hu as Hu <-.
  unfold authCodeURL in Hu. apply bind_Ok in Hu as (o1 & Ho1 & Hu).
  apply bind_Ok in Hu as (o2 & Ho2 & [= <-]). apply relabel_Ok in Ho1, Ho2.
  apply withParamMapping_chosen in Ho1 as (level & -> & Hlev), Ho2 as (locale & -> & Hloc).
  exists p, level, locale. cbn. rewrite <- app_assoc. done.
Qed.

Lemma MakeAssertion_Ok d w w' a :
  MakeAssertion c d w = (Ok a, w') ->
  let iat := Truncate (env_now (w_tick w) - 5 * Second)%Z Second in
  jwt_Sign (ClientJWK (client c))
    (assertion_claims c iat (iat + d)%Z (env_uuid (1 + w_tick w))) = Ok a
  /\ w' = mkWorld (2 + w_tick w) (w_store w) (w_trace w).
Proof.
  unfold MakeAssertion. rewrite bind_run. cbn [fst snd time_Now step]. rewrite bind_run.
  cbn [fst snd uuid_New step w_tick w_store w_trace].
  intros (u & w1 & Hs%wrapM_Ok & H)%bindE_Ok. injection Hs as Hs <-.
  apply wrapM_Ok in H. injection H as H <-. cbn zeta. split; [|done]. exact H.
Qed.

Lemma MakeAssertion_frame d w :
  w_store (MakeAssertion c d w).2 = w_store w /\ w_trace (MakeAssertion c d w).2 = w_trace w.
Proof.
  unfold MakeAssertion. rewrite bind_run. cbn [fst snd time_Now step]. rewrite bind_run.
  cbn [fst snd uuid_New step w_tick w_store w_trace].
  unfold bindE, wrapM, fmap, M_fmap, pureR, mret, M_ret.
  by destruct (first_error _).
Qed.

Lemma AuthCodeGrant_run code opts w :
  AuthCodeGrant c code opts w =
    (oauth2_Exchange (w_tick w) (pm_TokenEndpoint (pr_metadata (provider c)))
       (ClientID (client c)) code opts,
     mkWorld (1 + w_tick w) (w_store w) (w_trace w ++ [EvExchange code opts])).
Proof. done. Qed.


Lemma RefreshGrant_frame t w : w_store (RefreshGrant c t w).2 = w_store w.
Proof.
  unfold RefreshGrant, bindE, wrapM, fmap, M_fmap, pureR, mret, M_ret.
  pose proof (MakeAssertion_frame DefaultClientAssertionLifetime w) as [Hs _].
  destruct (MakeAssertion c _ w) as [[a|e] w1]; cbn [wrap fst snd] in *; [|done].
  destruct (of_option _ _) as [u|]; cbn [wrap]; [|done]. rewrite http_Do_run.
  by destruct (env_http _ _).
Qed.

(** A grant answered by the token endpoint: one request, classified by its
    status. *)
Lemma RefreshGrant_inv t w r w' :
  RefreshGrant c t w = (r, w') ->
  (is_ok r = false /\ w_trace w' = w_trace w
     /\ forall e, r = Err e -> errors_Is e ErrOpenIDClient = true \/ errors_Is e ErrOpenIDServer = true ->
          exists e0, (MakeAssertion c DefaultClientAssertionLifetime w).1 = Err e0)
  \/ exists a rq i,
       rq_method rq = $"POST" /\ rq_url rq = pm_TokenEndpoint (pr_metadata (provider c))
       /\ rq_body rq = Values_Encode (refresh_form c t a)
       /\ w_trace w' = w_trace w ++ [EvHTTP rq]
       /\ r = match env_http i rq with
              | Ok resp => refresh_response resp
              | Err e => Err (Wrap "performing request" e)
              end.
Proof.
  unfold RefreshGrant, bindE, wrapM, fmap, M_fmap, pureR, mret, M_ret.
  pose proof (MakeAssertion_frame DefaultClientAssertionLifetime w) as [_ Ht].
  destruct (MakeAssertion c _ w) as [[a|e] w1]; cbn [wrap fst snd] in *.
  - destruct (of_option _ _) as [u|e] eqn:Eu; cbn [wrap].
    + rewrite http_Do_run. intros H. right.
      match type of H with context [env_http ?i ?rq] => exists a, rq, i end.
      destruct (env_http _ _) as [resp|e]; cbn in H; injection H as <- <-; cbn [w_trace];
        by rewrite Ht.
    + intros [= <- <-]. left. split; [done|]. split; [done|].
      intros e1 [= <-]. destruct (Parse _); [done|]. injection Eu as <-. cbn. by intros [|].
  - intros [= <- <-]. left. split; [done|]. split; [done|]. intros _ _ _. by exists e.
Qed.

(** The tokens of an answer are text. *)
Lemma RefreshGrant_text t w resp w' :
  RefreshGrant c t w = (Ok resp, w') -> token_response_text resp = true.
Proof.
  intros [(H & _)|(a & rq & i & _ & _ & _ & _ & H)]%RefreshGrant_inv; [discriminate H|].
  destruct (env_http i rq) as [rs|e]; [|discriminate H]. unfold refresh_response in H.
  destruct (rs_body rs) as [body|e]; cbn in H; [|discriminate H].
  destruct (StatusClientError _); [destruct (json_Decode body); discriminate H|].
  destruct (500 <=? _)%Z; [discriminate H|]. symmetry in H. apply wrap_Ok in H.
  by eapply TokenResponse_text.
Qed.
End Facts.

(** Successful runs of [RedeemTokens]. *)
Lemma RedeemTokens_inv {L : JwtLib} {C : JwkCache} {Key : Type} {O : OAuth2 Key} {E : Env}
    {S : Type} {J : JwksState S} (HL : JwtLibLaws) (c : OClient Key) (cb : LoginCallback)
    (w w' : World S) (t : Tokens)
  (Hok : RedeemTokens c cb w = (Ok t, w')) :
  exists a raw tok jwks,
    w_trace w' = w_trace w ++
      [EvExchange (Values_Get (cb_params cb) P_Code) (exchange_options cb a)]
    /\ serialized (tk_IDToken t) = raw /\ token (tk_IDToken t) = Some tok
    /\ jwt_Verified jwks raw tok
    /\ token_HasAudience tok (ClientID (client c)) = true
    /\ token_Get tok $"iss" = Some (ClaimString (pm_Issuer (pr_metadata (provider c))))
    /\ token_Get tok $"nonce" = Some (ClaimString (lc_Nonce (cb_cookie cb)))
    /\ w_store w' = w_store w.
Proof.
  unfold RedeemTokens in Hok. apply bindE_Ok in Hok as (a & w1 & Ha%wrapM_Ok & Hok).
  apply MakeAssertion_Ok in Ha as [_ ->].
  apply bindE_Ok in Hok as (raw & w2 & Hx%wrapM_Ok & Hok).
  rewrite AuthCodeGrant_run in Hx. injection Hx as _ <-.
  apply bindE_Ok in Hok as (jwks & w3 & Hj%wrapM_Ok & Hok).
  rewrite GetPublicJwkSet_run in Hj. injection Hj as _ <-.
  apply bindE_Ok in Hok as (t' & w4 & Ht & Hok).
  apply bindE_Ok in Hok as ([] & w5 & Hv%wrapM_Ok & [= <- <-]).
  unfold parse_tokens in Ht. rewrite bind_run in Ht.
  destruct (NewTokens raw jwks _) as [[t1|e] w6] eqn:En; cbn [fst snd] in Ht.
  2:{ rewrite bind_run in Ht. done. }
  injection Ht as -> <-.
  assert (Hw6 : w_trace w6 = w_trace w ++
      [EvExchange (Values_Get (cb_params cb) P_Code) (exchange_options cb a)] /\ w_store w6 = w_store w).
  { unfold NewTokens in En. apply bindE_Ok in En as (id & w7 & Hid%wrapM_Ok & [= _ <-]).
    unfold ParseIDTokenFrom in Hid. destruct (o2_IDToken raw); [|done].
    apply bindE_Ok in Hid as (tok & w8 & Hp & [= _ <-]). unfold jwt_Parse in Hp.
    rewrite bind_run in Hp. cbn in Hp. by injection Hp as _ <-. }
  apply NewTokens_Ok in En as (rawid & tok & _ & Hp & Hid & _).
  assert (Hw5 : w_trace w5 = w_trace w6 /\ w_store w5 = w_store w6).
  { unfold IDToken_Validate in Hv. rewrite bind_run in Hv. cbn in Hv.
    destruct (GetToken _); [|done]. by injection Hv as _ <-. }
  apply Validate_inv in Hv as (tok' & Htok & Hval). rewrite Hid in *. cbn in Htok. injection Htok as <-.
  exists a, rawid, tok, jwks. destruct Hw5 as [-> ->], Hw6 as [-> ->].
  split; [done|]. split; [done|]. split; [done|].
  split; [by eapply jwt_ParseString_sound|].
  assert (Ho : forall o, o ∈ validate_options (oc_cfg c) (lc_Nonce (cb_cookie cb)) -> option_holds tok o)
    by (intros o; by eapply jwt_Validate_sound).
  unfold validate_options in Ho.
  split; [apply (Ho (WithAudience _)); set_solver|].
  split; [apply (Ho (WithIssuer _)); set_solver|].
  split; [apply (Ho (WithClaimValue _ _)); set_solver|done].
Qed.

(** ** Properties *)

(** C19: A login request and its cookie belong together: the state of the
    authorization URL is the cookie's, the nonce, the redirect URI and the S256
    challenge of the cookie's verifier are among its parameters; verifier, nonce
    and state are three separate draws of 64, 32 and 32 random bytes; the level
    and the locale it asks for, if configured, are supported ones. *)
Theorem NewLogin_sound {L : JwtLib} {Key : Type} {O : OAuth2 Key} {E : Env} {S : Type}
    (c : OClient Key) (r : Request) (w w' : World S) (l : Login)
  (Hok : NewLogin c r w = (Ok l, w')) :
  exists v n s opts extra,
    env_rand (w_tick w) 64 = Ok v /\ env_rand (1 + w_tick w) 32 = Ok n
    /\ env_rand (2 + w_tick w) 32 = Ok s
    /\ lg_cookie l = mkLoginCookie (EncodeToString RawURLEncoding s)
         (EncodeToString RawURLEncoding n) (EncodeToString RawURLEncoding v)
         (CanonicalRedirect r) (lc_RedirectURI (lg_cookie l))
    /\ LoginCallbackURL r = Ok (lc_RedirectURI (lg_cookie l))
    /\ lg_authCodeURL l = oauth2_AuthCodeURL (pm_AuthorizationEndpoint (pr_metadata (provider c)))
         (ClientID (client c)) (ClientScopes (client c)) (lc_State (lg_cookie l)) opts
    /\ opts = [(P_Nonce, lc_Nonce (lg_cookie l)); (P_ResponseMode, $"query");
               (P_CodeChallenge, CodeChallenge (lc_CodeVerifier (lg_cookie l)));
               (P_CodeChallengeMethod, $"S256");
               (P_RedirectURI, lc_RedirectURI (lg_cookie l))] ++ extra
    /\ (ACRValues (client c) <> [] ->
          exists acr, acr ∈ ACRValuesSupported (provider c) /\ (P_ACRValues, acr) ∈ extra)
    /\ (UILocales (client c) <> [] ->
          exists loc, loc ∈ UILocalesSupported (provider c) /\ (P_UILocales, loc) ∈ extra).
Proof.
  apply NewLogin_inv in Hok as (p & level & locale & Hp & Hcb & Hc & Hu & Hlev & Hloc).
  apply newLoginParameters_Ok in Hp as (v & n & s & Hv & Hn & Hs & Ev & En & Es & Ech & _).
  rewrite Hu. set (cb := lc_RedirectURI (lg_cookie l)) in *. rewrite Hc.
  cbn [login_cookie lc_State lc_Nonce lc_CodeVerifier lc_RedirectURI].
  eexists v, n, s, _, (_ ++ level ++ locale). split; [done|]. split; [done|]. split; [done|].
  split; [by unfold login_cookie; rewrite Ev, En, Es|]. split; [exact Hcb|]. split; [done|]. split.
  - unfold base_options. rewrite <- app_assoc, Ech. done.
  - destruct Hlev as [[H1 ->]|(H1 & a & Ha & ->)], Hloc as [[H2 ->]|(H2 & b & Hb & ->)].
    all: split; intros H; try done; eexists; (split; [eassumption|]); set_solver.
Qed.

#[local] Instance toy_oauth2 : OAuth2 str := {|
  oauth2_AuthCodeURL url cid scopes state opts :=
    url ++ $"?" ++ Values_Encode (list_to_map (map (fun '(k, v) => (k, [v]))
      ([($"client_id", cid); ($"scope", Scopes_String scopes); (P_State, state)] ++ opts)));
  oauth2_Exchange _ _ _ code opts :=
    if streq code $"code" then
      Ok {| o2_AccessToken := $"at"; o2_TokenType := $"Bearer"; o2_RefreshToken := $"rt";
            o2_Expiry := (unix_epoch + Hour)%Z; o2_IDToken := Some $"jwt" |}
    else Err (New "invalid_grant");
  token_Set _ _ := Ok tt;
  jwt_Sign key _ := Ok (key ++ $".signed") |}.

Definition example_client : OClient str :=
  {| oc_cfg := example_cfg; oc_loginstatus := example_loginstatus |}.
Definition example_login_request (url : string) : Request :=
  WithIngress (example_redirect url) example_ingress.
Definition example_login : result Login * World unit :=
  NewLogin (E := toy_env unix_epoch) example_client (example_login_request "/path") toy_world.

Lemma NewLogin_sound_witness :
  exists l opts, example_login.1 = Ok l
    /\ lg_authCodeURL l = oauth2_AuthCodeURL $"https://idp/authorize" $"client"
         (ClientScopes (client example_client)) (lc_State (lg_cookie l)) opts
    /\ exists acr, acr ∈ [$"Level3"; $"Level4"].
Proof.
  destruct example_login as [[l|e] w'] eqn:Hl.
  - destruct (NewLogin_sound (L := toy_jwt) (E := toy_env unix_epoch) example_client
                (example_login_request "/path") toy_world w' l Hl)
      as (v & n & s & opts & extra & _ & _ & _ & _ & _ & H & _ & Ha & _).
    exists l, opts. split; [reflexivity|]. split; [exact H|].
    destruct (Ha ltac:(discriminate)) as (acr & Hacr & _). exists acr. exact Hacr.
  - exfalso. vm_compute in Hl. discriminate.
Defined.

(** Bad login parameters are told apart from internal failures: when the
    random source and the ingress lookup succeed, the login fails exactly if a
    configured level or locale is overridden by an unsupported one, and the error
    is [ErrInvalidSecurityLevel], respectively [ErrInvalidLocale], never
    [ErrInvalidLoginParameter] itself. *)
Theorem authCodeURL_errors {Key : Type} {O : OAuth2 Key} (c : OClient Key)
    (p : loginParameters) (r : Request) (cb : str) :
  let asked param fallback :=
    let v := Values_Get (URL_Query (rq_URL r)) param in if is_empty v then fallback else v in
  let bad param fallback supported := fallback <> [] /\ asked param fallback ∉ supported in
  let bad_level := bad SecurityLevelURLParameter (ACRValues (client c)) (ACRValuesSupported (provider c)) in
  let bad_locale := bad LocaleURLParameter (UILocales (client c)) (UILocalesSupported (provider c)) in
  match authCodeURL c p r cb with
  | Ok _ => ~ bad_level /\ ~ bad_locale
  | Err e =>
      (bad_level /\ errors_Is e ErrInvalidSecurityLevel = true
       \/ bad_locale /\ errors_Is e ErrInvalidLocale = true)
      /\ errors_Is e ErrInvalidLoginParameter = false
  end.
Proof.
  assert (Hw : forall opts param fallback supported,
    let v := Values_Get (URL_Query (rq_URL r)) param in
    let a := if is_empty v then fallback else v in
    (is_ok (withParamMapping r opts param fallback supported) = true
       /\ ~ (fallback <> [] /\ a ∉ supported))
    \/ (is_ok (withParamMapping r opts param fallback supported) = false
        /\ (fallback <> [] /\ a ∉ supported))).
  { intros opts param fallback supported. cbn zeta. unfold withParamMapping, LoginURLParameter.
    destruct (is_empty fallback) eqn:Ef.
    - left. apply is_empty_true in Ef as ->. split; [done|]. by intros [].
    - apply is_empty_false in Ef. set (a := if is_empty _ then _ else _).
      destruct (Supported_Contains supported a) eqn:Es; cbn.
      + left. apply Supported_Contains_spec in Es. split; [done|]. by intros [].
      + right. split; [done|]. split; [done|]. rewrite <- Supported_Contains_spec.
        by destruct (Supported_Contains supported a). }
  intros asked bad bad_level bad_locale. unfold authCodeURL.
  destruct (Hw (base_options c p cb) SecurityLevelURLParameter (ACRValues (client c))
              (ACRValuesSupported (provider c))) as [[H1 H1']|[H1 H1']];
    fold (withSecurityLevel c r (base_options c p cb)) in H1;
    destruct (withSecurityLevel c r (base_options c p cb)) as [o1|e1]; try done; cbn [relabel mbind result_bind].
  - destruct (Hw o1 LocaleURLParameter (UILocales (client c)) (UILocalesSupported (provider c)))
      as [[H2 H2']|[H2 H2']];
      fold (withLocale c r o1) in H2; destruct (withLocale c r o1) as [o2|e2]; try done;
      cbn [relabel mbind result_bind].
    split; [by right|done].
  - split; [by left|done].
Qed.

(** Callback requests without the state of the login are refused: the check
    passes only if the request's state parameter is present and equal to the
    cookie's. *)
Theorem StateMismatchError_spec (r : Request) (k : LoginCookie) (cb : LoginCallback)
  (Hcb : Client_LoginCallback r (Some k) = Ok cb) :
  StateMismatchError cb = None <->
  Values_Get (URL_Query (rq_URL r)) P_State = lc_State k /\ lc_State k <> [].
Proof.
  unfold Client_LoginCallback, NewLoginCallback in Hcb. apply wrap_Ok in Hcb.
  apply bind_Ok in Hcb as (u & _ & [= <-]). unfold StateMismatchError.
  cbn [cb_params cb_cookie lc_State].
  destruct (is_empty (Values_Get _ _)) eqn:E1.
  - apply is_empty_true in E1. rewrite E1. split; [done|]. intros [H1 H2]. by rewrite <- H1 in H2.
  - apply is_empty_false in E1. destruct (streq (lc_State k) _) eqn:E2; cbn [negb].
    + apply streq_true in E2. rewrite <- E2 in E1 |- *. done.
    + apply streq_false in E2. split; [done|]. intros [H1 _]. by rewrite H1 in E2.
Qed.

Definition example_cookie : LoginCookie :=
  mkLoginCookie $"st" $"n-0S6" $"verifier" $"/path" $"https://app.example.com/app/oauth2/callback".
Definition callback_request (query : string) : Request :=
  WithIngress (request_at (URL_with_query (URL_with_path empty_URL $"/app/oauth2/callback" [])
    (String.list_ascii_of_string query)) (Some $"/app")) example_ingress.
Definition example_callback : LoginCallback :=
  {| cb_cookie := example_cookie; cb_params := ParseQuery $"code=code&state=st" |}.

Lemma StateMismatchError_spec_witness : StateMismatchError example_callback = None.
Proof.
  apply (StateMismatchError_spec (callback_request "code=code&state=st") example_cookie);
    [reflexivity|]. split; [vm_compute; reflexivity|discriminate].
Defined.


Definition example_redeem : result (Tokens (L := toy_jwt)) * World Time :=
  RedeemTokens (C := toy_cache) (E := toy_env unix_epoch) (JwksState0 := toy_jwks_state) example_client example_callback
    (mkWorld 0 zero_time []).


(** A client assertion is dated in whole seconds, five to six seconds in the
    past, lives exactly as long as asked, is issued by and about the client for
    the provider, and a 30 second assertion is still valid 24 seconds later. *)
Theorem MakeAssertion_spec {Key : Type} {O : OAuth2 Key} {E : Env} {S : Type}
    (c : OClient Key) (d : Duration) (w w' : World S) (a : str)
  (Hok : MakeAssertion c d w = (Ok a, w')) :
  exists iat,
    jwt_Sign (ClientJWK (client c))
      [($"iss", ACString (ClientID (client c))); ($"sub", ACString (ClientID (client c)));
       ($"aud", ACString (pm_Issuer (pr_metadata (provider c))));
       ($"iat", ACTime iat); ($"exp", ACTime (iat + d)%Z);
       ($"jti", ACString (env_uuid (1 + w_tick w)))] = Ok a
    /\ (iat mod Second = 0
        /\ env_now (w_tick w) - 6 * Second < iat <= env_now (w_tick w) - 5 * Second
        /\ (d = DefaultClientAssertionLifetime -> env_now (w_tick w) + 24 * Second < iat + d))%Z
    /\ w_store w' = w_store w.
Proof.
  apply MakeAssertion_Ok in Hok as [Hs ->].
  set (now := env_now (w_tick w)) in *. set (iat := Truncate _ _) in Hs. exists iat.
  split; [exact Hs|]. split; [|done].
  pose proof (Truncate_bounds (now - 5 * Second)%Z Second ltac:(done)) as Hb. fold iat in Hb.
  split; [|split].
  - unfold iat, Truncate. destruct (Second <=? 0)%Z eqn:Es; [done|].
    by rewrite Zminus_mod_idemp_r, Z.sub_diag.
  - lia.
  - intros ->. unfold DefaultClientAssertionLifetime. lia.
Qed.

Definition example_assertion : result str * World unit :=
  MakeAssertion (E := toy_env unix_epoch) example_client DefaultClientAssertionLifetime toy_world.

Lemma MakeAssertion_spec_witness :
  exists iat, (unix_epoch - 6 * Second < iat <= unix_epoch - 5 * Second)%Z.
Proof.
  destruct (MakeAssertion_spec (O := toy_oauth2) (E := toy_env unix_epoch) example_client
              DefaultClientAssertionLifetime toy_world example_assertion.2 $"jwk.signed"
              ltac:(vm_compute; reflexivity)) as (iat & _ & (_ & H & _) & _).
  exists iat. exact H.
Defined.

(** The refresh grant sends at most one request, a POST of the refresh token
    to the token endpoint, and classifies the answer: [ErrOpenIDClient] exactly for
    4xx, [ErrOpenIDServer] exactly for 5xx and above, neither for a network
    failure; success only below 400. *)
Theorem RefreshGrant_spec {Key : Type} {O : OAuth2 Key} {E : Env} {S : Type}
    (c : OClient Key) (t : str) (w w' : World S) (r : result TokenResponse)
  (Hrun : RefreshGrant c t w = (r, w')) :
  (w_trace w' = w_trace w /\ is_ok r = false)
  \/ exists rq i a,
       w_trace w' = w_trace w ++ [EvHTTP rq] /\ rq_method rq = $"POST"
       /\ rq_url rq = pm_TokenEndpoint (pr_metadata (provider c))
       /\ rq_body rq = Values_Encode (refresh_form c t a)
       /\ match env_http i rq with
          | Err e => r = Err (Wrap "performing request" e)
          | Ok (Build_HTTPResponse status (Err e)) => r = Err (Wrap "reading server response" e)
          | Ok (Build_HTTPResponse status (Ok body)) =>
              (400 <= status < 500 -> exists e, r = Err e /\ errors_Is e ErrOpenIDClient = true)%Z
              /\ (500 <= status -> r = Err (Sentinel ErrOpenIDServer))%Z
              /\ (status < 400 -> r = wrap "unmarshalling token response" (json_Decode body))%Z
          end.
Proof.
  apply RefreshGrant_inv in Hrun as [(Hr & Ht & _)|(a & rq & i & Hm & Hu & Hb & Ht & Hr)].
  { by left. }
  right. exists rq, i, a. repeat (split; [done|]).
  destruct (env_http i rq) as [[status [body|e]]|e]; [|done..]. subst r.
  unfold refresh_response, StatusClientError. cbn [rs_body rs_status wrap mbind result_bind].
  split; [|split]; intros Hst.
  - rewrite (proj2 (Z.leb_le 400 status)), (proj2 (Z.ltb_lt status 500)) by lia. cbn [andb].
    destruct (json_Decode body) as [x|e]; eexists; (split; [done|]); cbn;
      by apply bool_decide_eq_true.
  - rewrite (proj2 (Z.ltb_ge status 500)), andb_false_r by lia.
    by rewrite (proj2 (Z.leb_le 500 status)).
  - rewrite (proj2 (Z.leb_gt 400 status)) by lia. cbn [andb].
    by rewrite (proj2 (Z.leb_gt 500 status)) by lia.
Qed.

Definition example_grant : result TokenResponse * World unit :=
  RefreshGrant (E := answering 400 $"{}") example_client $"rt" toy_world.

Lemma RefreshGrant_spec_witness :
  example_grant.1 = Err (Sentinel ErrOpenIDClient)
  /\ exists rq, w_trace example_grant.2 = [EvHTTP rq].
Proof.
  split; [vm_compute; reflexivity|].
  destruct (RefreshGrant_spec (O := toy_oauth2) (E := answering 400 $"{}") example_client $"rt" toy_world example_grant.2
              example_grant.1 ltac:(vm_compute; reflexivity))
    as [[H _]|(rq & i & a & H & _)].
  - exfalso. vm_compute in H. discriminate.
  - exists rq. exact H.
Defined.

(** The single logout URL is the provider's end session endpoint with the
    logout callback, and the id_token hint when there is one, added to its query:
    the query parses back to exactly that. *)
Theorem SingleLogoutURL_query {Key : Type} (c : OClient Key) (lo : Logout) (idToken : str) :
  let u := pr_endSessionEndpointURL (provider c) in
  exists q, SingleLogoutURL c lo idToken = URL_String (URL_with_query u q)
    /\ let v := ParseQuery q in
       let old k := default [] (URL_Query u !! k) in
       v !! P_PostLogoutRedirectURI
         = Some (old P_PostLogoutRedirectURI ++ [lo_logoutCallbackURL lo])
       /\ (idToken <> [] -> v !! P_IDTokenHint = Some (old P_IDTokenHint ++ [idToken]))
       /\ (idToken = [] -> v !! P_IDTokenHint = URL_Query u !! P_IDTokenHint)
       /\ (forall k, k <> P_PostLogoutRedirectURI -> k <> P_IDTokenHint -> v !! k = URL_Query u !! k).
Proof.
  intros u. exists (Values_Encode (logout_query c lo idToken)). split; [done|].
  assert (Hne : P_IDTokenHint <> P_PostLogoutRedirectURI) by discriminate.
  rewrite ParseQuery_Encode.
  2:{ unfold logout_query. pose proof (ParseQuery_nonempty (RawQuery u)) as H.
      destruct (is_empty idToken); repeat apply Values_Add_nonempty; exact H. }
  intros v old. subst v. unfold logout_query. fold u.
  destruct (is_empty idToken) eqn:Ei.
  - apply is_empty_true in Ei as ->. unfold Values_Add. rewrite lookup_insert_eq.
    rewrite lookup_insert_ne by done. split; [done|]. split; [done|]. split; [done|].
    intros k Hk _. by rewrite lookup_insert_ne.
  - apply is_empty_false in Ei. unfold Values_Add.
    rewrite (lookup_insert_ne _ P_IDTokenHint P_PostLogoutRedirectURI), !lookup_insert_eq by done.
    rewrite lookup_insert_ne by done. split; [done|]. split; [done|]. split; [done|].
    intros k Hk Hk'. by rewrite !lookup_insert_ne.
Qed.
