(* ===== verification/SessionHandler.v ===== *)
(** * The session handler: [pkg/session/handler.go]

    The handler is verified against the interfaces: any store satisfying
    [StoreLaws], any [retry.Do] satisfying [RetryLaws], any AEAD with a round
    trip, any local time zone.  The context's cancellation appears as an outcome of the select
    loop and of the retries. *)

From S2P Require Import Prelude GoStrings GoTime GoBase64 GoUrl GoUtf8 GoError GoJsonText GoRfc3339 GoJson Config Http Crypter Cookie Ingress RedirectUrl Openid Jwks Loginstatus OpenidClient SessionData Store Retry Keeps.

Definition refreshAcquireLockRetryInterval : Duration := (10 * Millisecond)%Z.
Definition refreshAcquireLockTimeout : Duration := (15 * Second)%Z.
Definition refreshLockDuration : Duration := (10 * Second)%Z.

(** [getSessionStateFrom] *)
Definition getSessionStateFrom (params : Values) : result str :=
  let sessionState := Values_Get params P_SessionState in
  if is_empty sessionState then Err (New "missing required 'session_state' in params")
  else Ok sessionState.

(** [NewSessionID] *)
Definition NewSessionID {L : JwtLib} {E : Env} {S : Type} (p : Provider) (idToken : Token) (params : Values)
    : M S (result str) :=
  match GetSidClaim idToken with
  | Ok sid => okM sid
  | Err e =>
      if SidClaimRequired p then errM e
      else match getSessionStateFrom params with
           | Ok st => okM st
           | Err e' =>
               if SessionStateRequired p then errM e'
               else wrapM "generating session ID" (GenerateBase64 64)
           end
  end.

Record Handler (Key : Type) := {
  h_cfg : SessionConfig;
  h_client : OClient Key;
  h_crypter : str }.   (* the crypter's key *)
Arguments h_cfg {Key}.
Arguments h_client {Key}.
Arguments h_crypter {Key}.

Section Handler.
Context {L : JwtLib} {C : JwkCache} {Key : Type} {O : OAuth2 Key} {E : Env} {A : AEAD} {S : Type}.
Context {St : Store S} {R : Retry S} {LC : Location}.
Context (h : Handler Key).

Definition h_openid : OpenidCfg Key := oc_cfg (h_client h).

(** [IDOrGenerate] *)
Definition IDOrGenerate (r : Request) (tokens : Tokens) : M S (result str) :=
  NewSessionID (oidc_Provider h_openid) (tk_IDToken tokens) (URL_Query (rq_URL r)).

(** [Key]: "provider:client:session". *)
Definition session_key (sessionID : str) : str :=
  pr_name (oidc_Provider h_openid) ++ $":" ++ ClientID (oidc_Client h_openid) ++ $":" ++ sessionID.

(** The metadata of a new session. *)
Definition initial_metadata (tokens : Tokens) (sessionLifetime : Duration) : M S Metadata :=
  tokenExpiresIn ← time_Until (tk_Expiry tokens);
  metadata ← NewMetadata tokenExpiresIn sessionLifetime;
  if Inactivity (h_cfg h) then WithTimeout metadata (InactivityTimeout (h_cfg h)) else mret metadata.

(** [Create] *)
Definition Create (r : Request) (tokens : Tokens) (sessionLifetime : Duration)
    : M S (result str) :=
  externalSessionID ←? wrapM "generating session ID" (IDOrGenerate r tokens);
  let key := session_key externalSessionID in
  metadata ← initial_metadata tokens sessionLifetime;
  encrypted ←? wrapM "encrypting session data"
                 (Data_Encrypt (h_crypter h) (NewData externalSessionID tokens (Some metadata)));
  _ ←? wrapM "writing to store"
         (retry_Do (RetryableError <$> store_Write key encrypted sessionLifetime));
  okM key.

(** [destroyForKey] and [DestroyForID] *)
Definition destroyForKey (key : str) : M S (result unit) :=
  wrapM "deleting from store" (retry_Do (retry_unless ErrKeyNotFound <$> store_Delete [key])).
Definition DestroyForID (id : str) : M S (result unit) := destroyForKey (session_key id).

(** [GetKey] *)
Definition GetKey (r : Request) : result str :=
  relabel ErrCookieNotFound (GetDecrypted r SessionCookie (h_crypter h)).

(** [GetForKey], [GetForID], [Get] *)
Definition GetForKey (key : str) : M S (result Data) :=
  encrypted ←? wrapM "reading from store"
                 (retry_Do (retry_unless ErrKeyNotFound <$> store_Read key));
  wrapM "decrypting session data" (pureR (EncryptedData_Decrypt (h_crypter h) encrypted)).
Definition GetForID (id : str) : M S (result Data) := GetForKey (session_key id).
Definition Get (r : Request) : M S (result Data) :=
  key ←? wrapM "no session cookie" (pureR (GetKey r));
  GetForKey key.

(** [canRefresh], [shouldRefresh], [isTimedOut]: the clock is only read when
    the earlier conditions hold. *)
Definition canRefresh (d : Data) : M S bool :=
  if Refresh (h_cfg h) && HasRefreshToken d
  then negb <$> IsRefreshOnCooldown (d_Metadata d) else mret false.
Definition shouldRefresh (d : Data) : M S bool :=
  if Refresh (h_cfg h) && HasRefreshToken d then ShouldRefresh (d_Metadata d) else mret false.
Definition isTimedOut (d : Data) : M S bool :=
  if Inactivity (h_cfg h) then IsTimedOut (d_Metadata d) else mret false.

(** [Update] *)
Definition Update (key : str) (d : Data) : M S (result unit) :=
  encrypted ←? wrapM "encrypting session data" (Data_Encrypt (h_crypter h) d);
  wrapM "updating in store" (retry_Do (retry_unless ErrKeyNotFound <$> store_Update key encrypted)).

(** The loop that acquires the lock, over the channels that become ready;
    when nothing else does, the timeout fires. *)
Fixpoint acquire_loop (events : list wakeup) (l : Lock) : M S (result unit * Lock) :=
  match events with
  | [] => mret (Err (New "timed out"), l)
  | CtxDone :: _ => mret (Err (Wrap "context done" (Sentinel ContextCanceled)), l)
  | TimeoutFired :: _ => mret (Err (New "timed out"), l)
  | TickerFired :: rest =>
      '(r, l') ← Lock_Acquire l refreshLockDuration;
      match r with
      | Ok _ => mret (Ok tt, l')
      | Err e =>
          if errors_Is e ErrAcquireLock then acquire_loop rest l'
          else mret (Err (New "unexpected error"), l')
      end
  end.
Definition acquire (l : Lock) : M S (result unit * Lock) :=
  events ← step env_select;
  acquire_loop events l.

(** The refresh grant, with its retries and the error it is reported as. *)
Definition refresh_grant (refreshToken : str) : M S (result TokenResponse) :=
  resp ← retry_Do (retry_when ErrOpenIDServer <$> RefreshGrant (h_client h) refreshToken);
  match resp with
  | Ok t => okM t
  | Err e =>
      if errors_Is e ErrOpenIDClient then errM (WrapDetail (Sentinel ErrInvalidState) e)
      else errM (Wrap "performing refresh" e)
  end.

(** The new metadata of refreshed tokens. *)
Definition refreshed_metadata (m : Metadata) (expiresIn : Z) : M S Metadata :=
  m' ← Metadata_Refresh m expiresIn;
  if Inactivity (h_cfg h) then ExtendTimeout m' (InactivityTimeout (h_cfg h)) else mret m'.

(** [Refresh] between acquiring and releasing the lock. *)
Definition refresh_locked (key : str) : M S (result Data) :=
  data ←? GetForKey key;
  can ← canRefresh data;
  if negb can then okM data
  else
    timedOut ← isTimedOut data;
    if (timedOut : bool) then errM (Sentinel ErrSessionInactive)
    else
      resp ←? refresh_grant (RefreshToken data);
      metadata ← refreshed_metadata (d_Metadata data) (tr_ExpiresIn resp);
      let data' := Data_with_metadata
                     (Data_with_tokens data (tr_AccessToken resp) (tr_RefreshToken resp)) metadata in
      _ ←? Update key data';
      okM data'.

(** [Refresh]; the deferred release runs on every path, its error is only
    logged. *)
Definition Handler_Refresh (key : str) (data : Data) : M S (result Data) :=
  can ← canRefresh data;
  if negb can then okM data
  else
    '(r, l) ← acquire (MakeLock key);
    match r with
    | Err e => errM (Wrap "while acquiring lock" e)
    | Ok _ =>
        res ← refresh_locked key;
        _ ← Lock_Release l;
        mret res
    end.

(** [GetOrRefresh] *)
Definition GetOrRefresh (r : Request) : M S (result Data) :=
  key ←? pureR (GetKey r);
  sessionData ←? GetForKey key;
  timedOut ← isTimedOut sessionData;
  if (timedOut : bool) then errM (Sentinel ErrSessionInactive)
  else
    should ← shouldRefresh sessionData;
    if negb should then okM sessionData
    else
      refreshed ← Handler_Refresh key sessionData;
      match refreshed with
      | Ok d => okM d
      | Err e =>
          if errors_Is e ErrInvalidState || errors_Is e ErrSessionInactive then errM e
          else okM sessionData
      end.

(** [GetAccessToken]; [GetOrRefresh] never returns a nil session without an
    error, so [ErrNoSessionData] is never returned. *)
Definition GetAccessToken (r : Request) : M S (result str) :=
  sessionData ←? GetOrRefresh r;
  if negb (HasAccessToken sessionData) then errM (Sentinel ErrNoAccessToken)
  else
    expired ← IsExpired (d_Metadata sessionData);
    if (expired : bool) then errM (Sentinel ErrExpiredAccessToken)
    else okM (AccessToken sessionData).
End Handler.

(** ** Lemmas *)

Lemma maybe_set_refl (m : gmap str EncryptedData) k v : maybe_set m m k v.
Proof. by left. Qed.

Lemma maybe_set_insert (m m' : gmap str EncryptedData) k v :
  maybe_set m m' k v -> <[k := v]> m' ⊆ <[k := v]> m.
Proof.
  intros [H|H]; [by apply insert_mono|]. etransitivity; [by apply insert_mono|].
  by rewrite insert_insert_eq.
Qed.

Lemma maybe_set_trans (m1 m2 m3 : gmap str EncryptedData) k v :
  maybe_set m1 m2 k v -> maybe_set m2 m3 k v -> maybe_set m1 m3 k v.
Proof.
  intros H12 [H23|H23].
  - destruct H12; [left|right]; by etransitivity.
  - right. etransitivity; [exact H23|by apply maybe_set_insert].
Qed.

Lemma fmap_M_run {S X Y} (f : X -> Y) (m : M S X) (w : World S) : (f <$> m) w = (f (m w).1, (m w).2).
Proof. unfold fmap, M_fmap. by destruct (m w). Qed.

Section StoreFacts.
Context {S : Type} {St : Store S} {R : Retry S} {view : S -> gmap str EncryptedData}.
Context (HS : StoreLaws S view) (HR : RetryLaws S).
Implicit Types (w : World S).

(** The trace is kept and the sessions only shrink. *)
Definition reads w w' : Prop :=
  w_trace w' = w_trace w /\ view (w_store w') ⊆ view (w_store w).
(** The trace is kept and the sessions shrink or take [v] at [k]. *)
Definition writes k v w w' : Prop :=
  w_trace w' = w_trace w /\ maybe_set (view (w_store w)) (view (w_store w')) k v.

Lemma reads_refl w : reads w w.
Proof. by split. Qed.
Lemma reads_trans w1 w2 w3 : reads w1 w2 -> reads w2 w3 -> reads w1 w3.
Proof. intros [? ?] [? ?]. split; [congruence|by etransitivity]. Qed.
Lemma writes_trans k v w1 w2 w3 : writes k v w1 w2 -> writes k v w2 w3 -> writes k v w1 w3.
Proof. intros [? ?] [? ?]. split; [congruence|by eapply maybe_set_trans]. Qed.
Lemma reads_later w1 w2 w3 : reads w1 w2 -> later w2 w3 -> reads w1 w3.
Proof. intros [? ?] (Hs & ? & ?). split; [congruence|by rewrite Hs]. Qed.
Lemma writes_later k v w1 w2 w3 : writes k v w1 w2 -> later w2 w3 -> writes k v w1 w3.
Proof. intros [? ?] (Hs & ? & ?). split; [congruence|by rewrite Hs]. Qed.
Lemma same_reads w w' : w_store w' = w_store w -> w_trace w' = w_trace w -> reads w w'.
Proof. intros Hs Ht. split; [done|by rewrite Hs]. Qed.

Lemma retry_Read w r w' k :
  retry_Do (retry_unless ErrKeyNotFound <$> store_Read k) w = (r, w') ->
  reads w w'
  /\ match r with
     | Ok v => view (w_store w) !! k = Some v
     | Err e => ctx_error e \/
                exists w1, reads w w1 /\ store_Read k w1 = (Err e, w')
     end.
Proof.
  intros H. eapply (retry_Do_inv _ (reads w)) in H as [Hw Hr]; [..|apply reads_refl].
  - split; [done|]. destruct r as [v|e].
    + destruct Hr as (w1 & H1 & Hf). rewrite fmap_M_run in Hf.
      destruct (store_Read k w1) as [r1 w2] eqn:Er. injection Hf as Hf <-.
      apply retry_unless_Success in Hf. cbn in Hf. subst r1. apply read_Ok in Er.
      by eapply lookup_weaken, H1.
    + destruct Hr as [Hr|(w1 & H1 & Hf)]; [by left|right]. exists w1. split; [done|].
      rewrite fmap_M_run in Hf. destruct (store_Read k w1) as [r1 w2] eqn:Er. cbn in Hf.
      assert (r1 = Err e /\ w2 = w') as [-> ->]; [|done].
      split; [|destruct Hf; congruence]. apply (retry_unless_Err ErrKeyNotFound).
      destruct Hf as [Hf|Hf]; [left|right]; congruence.
  - intros w1 H1. rewrite fmap_M_run. eapply reads_trans; [done|]. cbn [snd]. split.
    + by destruct (store_steps w1) as (_ & Hr & _); apply Hr.
    + apply read_view.
  - intros w1 w2. apply reads_later.
Qed.

Lemma retry_Write w r w' k v d :
  encrypted_text v = true -> retry_Do (RetryableError <$> store_Write k v d) w = (r, w') ->
  writes k v w w' /\ (r = Ok tt -> view (w_store w') ⊆ <[k := v]> (view (w_store w))).
Proof.
  intros Ht H. eapply (retry_Do_inv _ (writes k v w)) in H as [Hw Hr];
    [..|split; [done|apply maybe_set_refl]].
  - split; [done|]. intros ->. destruct Hr as (w1 & [_ H1] & Hf). rewrite fmap_M_run in Hf.
    destruct (store_Write k v d w1) as [r1 w2] eqn:Er. injection Hf as Hf <-.
    apply RetryableError_Success in Hf. cbn in Hf. subst r1.
    apply write_view in Er as [_ Er]; [|done]. etransitivity; [by apply Er|by apply maybe_set_insert].
  - intros w1 H1. rewrite fmap_M_run. eapply writes_trans; [done|]. cbn [snd].
    destruct (store_Write k v d w1) as [r1 w2] eqn:Er. split.
    + replace w2 with (store_Write k v d w1).2 by (by rewrite Er).
      by destruct (store_steps w1) as (Hr & _); apply Hr.
    + by apply write_view in Er as [Er _].
  - intros w1 w2. apply writes_later.
Qed.

Lemma retry_Update w r w' k v :
  encrypted_text v = true -> retry_Do (retry_unless ErrKeyNotFound <$> store_Update k v) w = (r, w') ->
  writes k v w w' /\ (r = Ok tt -> view (w_store w') ⊆ <[k := v]> (view (w_store w))).
Proof.
  intros Ht H. eapply (retry_Do_inv _ (writes k v w)) in H as [Hw Hr];
    [..|split; [done|apply maybe_set_refl]].
  - split; [done|]. intros ->. destruct Hr as (w1 & [_ H1] & Hf). rewrite fmap_M_run in Hf.
    destruct (store_Update k v w1) as [r1 w2] eqn:Er. injection Hf as Hf <-.
    apply retry_unless_Success in Hf. cbn in Hf. subst r1.
    apply update_view in Er as [_ Er]; [|done].
    etransitivity; [by apply Er|by apply maybe_set_insert].
  - intros w1 H1. rewrite fmap_M_run. eapply writes_trans; [done|]. cbn [snd].
    destruct (store_Update k v w1) as [r1 w2] eqn:Er. split.
    + replace w2 with (store_Update k v w1).2 by (by rewrite Er).
      by destruct (store_steps w1) as (_ & _ & _ & Hr & _); apply Hr.
    + by apply update_view in Er as [Er _].
  - intros w1 w2. apply writes_later.
Qed.

Lemma retry_Delete w r w' k :
  retry_Do (retry_unless ErrKeyNotFound <$> store_Delete [k]) w = (r, w') ->
  reads w w' /\ (r = Ok tt -> view (w_store w') !! k = None).
Proof.
  intros H. eapply (retry_Do_inv _ (reads w)) in H as [Hw Hr]; [..|apply reads_refl].
  - split; [done|]. intros ->. destruct Hr as (w1 & _ & Hf). rewrite fmap_M_run in Hf.
    destruct (store_Delete [k] w1) as [r1 w2] eqn:Er. injection Hf as Hf <-.
    apply retry_unless_Success in Hf. cbn in Hf. subst r1.
    apply delete_view in Er as [_ Er]. apply Er; [done|]. by left.
  - intros w1 H1. rewrite fmap_M_run. eapply reads_trans; [done|]. cbn [snd].
    destruct (store_Delete [k] w1) as [r1 w2] eqn:Er. split.
    + replace w2 with (store_Delete [k] w1).2 by (by rewrite Er).
      by destruct (store_steps w1) as (_ & _ & Hr & _); apply Hr.
    + by apply delete_view in Er as [Er _].
  - intros w1 w2. apply reads_later.
Qed.
End StoreFacts.
#[global] Arguments reads {S} view w w'.
#[global] Arguments writes {S} view k v w w'.

Section HandlerFacts.
Context {L : JwtLib} {C : JwkCache} {Key : Type} {O : OAuth2 Key} {E : Env} {A : AEAD} {S : Type}.
Context {St : Store S} {R : Retry S} {LC : Location}.
Context {view : S -> gmap str EncryptedData} (HS : StoreLaws S view) (HR : RetryLaws S).
Context (h : Handler Key).
Implicit Types (w : World S) (d : Data).

(** [k] holds a session that decrypts to [d]. *)
Definition stored w (k : str) d : Prop :=
  exists e, view (w_store w) !! k = Some e /\ EncryptedData_Decrypt (h_crypter h) e = Ok d.

Lemma stored_reads w w' k d : reads view w w' -> stored w' k d -> stored w k d.
Proof.
  intros [_ Hv] (e & He & Hd). exists e. split; [|done]. by eapply lookup_weaken.
Qed.

Lemma GetForKey_spec w r w' k :
  GetForKey h k w = (r, w') ->
  reads view w w' /\ (forall d, r = Ok d -> stored w k d).
Proof.
  unfold GetForKey, bindE, wrapM. rewrite fmap_M_run.
  destruct (retry_Do (retry_unless ErrKeyNotFound <$> store_Read k) w) as [r1 w1] eqn:Er.
  apply (retry_Read HS HR) in Er as [Hw Hr]. cbn [fst snd].
  destruct r1 as [e|e]; cbn [wrap]; intros [= <- <-]; (split; [done|]); intros d Hd; [|done].
  apply wrap_Ok in Hd. by exists e.
Qed.

Lemma ticked_reads n w : reads view w (ticked n w).
Proof. by apply same_reads. Qed.

Definition can_refresh d (t : Time) : bool :=
  Refresh (h_cfg h) && HasRefreshToken d && negb (Before t (RefreshCooldown (d_Metadata d))).
Definition timed_out d (t : Time) : bool :=
  Inactivity (h_cfg h) && (negb (IsZero (TimeoutAt (md_Session (d_Metadata d))))
                           && After t (TimeoutAt (md_Session (d_Metadata d)))).

Lemma canRefresh_run d w :
  exists n, canRefresh h d w = (can_refresh d (env_now (w_tick w)), ticked n w).
Proof.
  unfold canRefresh, can_refresh. destruct (_ && HasRefreshToken d); [by exists 1|].
  exists 0. by destruct w.
Qed.

Lemma isTimedOut_run d w :
  exists n, isTimedOut h d w = (timed_out d (env_now (w_tick w)), ticked n w).
Proof.
  unfold isTimedOut, timed_out. destruct (Inactivity _); [apply IsTimedOut_run|].
  exists 0. by destruct w.
Qed.

Lemma shouldRefresh_run d w : exists b n, shouldRefresh h d w = (b, ticked n w).
Proof.
  unfold shouldRefresh. destruct (_ && _).
  - destruct (ShouldRefresh_run (d_Metadata d) w) as [n ->]. eauto.
  - exists false, 0. by destruct w.
Qed.

(** Nothing but the lock's own key changes while it is acquired or released. *)
Definition locks (k : str) w w' : Prop :=
  w_trace w' = w_trace w
  /\ forall k' v, k' <> lockKey k -> view (w_store w') !! k' = Some v -> view (w_store w) !! k' = Some v.

Lemma locks_refl k w : locks k w w.
Proof. by split. Qed.
Lemma locks_trans k w1 w2 w3 : locks k w1 w2 -> locks k w2 w3 -> locks k w1 w3.
Proof. intros [? H1] [? H2]. split; [congruence|eauto]. Qed.
Lemma reads_locks k w w' : reads view w w' -> locks k w w'.
Proof. intros [Ht Hv]. split; [done|]. intros k' v _ H. by eapply lookup_weaken. Qed.

Lemma lockKey_ne k : k <> lockKey k.
Proof. intros H. apply (f_equal length) in H. unfold lockKey in H. rewrite length_app in H. cbn in H. lia. Qed.

Lemma locks_stored w w' k d : locks k w w' -> stored w' k d -> stored w k d.
Proof.
  intros [_ Hv] (e & He & Hd). exists e. split; [|done]. apply Hv; [apply lockKey_ne|done].
Qed.

Lemma Acquire_locks l dur w k : lock_for k l -> locks k w (Lock_Acquire l dur w).2.
Proof.
  intros Hl. split.
  - destruct (store_steps w) as (_ & _ & _ & _ & Hst & _). apply Hst.
  - intros k' v Hne. by apply (lock_view w k l dur k' v).
Qed.
Lemma Release_locks l w k : lock_for k l -> locks k w (Lock_Release l w).2.
Proof.
  intros Hl. split.
  - destruct (store_steps w) as (_ & _ & _ & _ & _ & H). apply H.
  - intros k' v Hne. by apply (lock_view w k l 0%Z k' v).
Qed.

Lemma acquire_loop_spec k events l w :
  lock_for k l ->
  locks k w (acquire_loop events l w).2
  /\ lock_for k (acquire_loop events l w).1.2
  /\ ((acquire_loop events l w).1.1 = Ok tt ->
      exists l0 w0, locks k w w0 /\ lock_for k l0
        /\ (Lock_Acquire l0 refreshLockDuration w0) =
           (Ok tt, (acquire_loop events l w).1.2, (acquire_loop events l w).2)).
Proof.
  revert l w. induction events as [|[] events IH]; intros l w Hl; cbn [acquire_loop];
    try (split; [apply locks_refl|]; split; [exact Hl|]; intros Hf; discriminate Hf).
  rewrite bind_run. pose proof (Acquire_locks l refreshLockDuration w k Hl) as Ha.
  pose proof (lock_tried k l refreshLockDuration w Hl) as Hl'.
  destruct (Lock_Acquire l refreshLockDuration w) as [[r l'] w1] eqn:Er. cbn [fst snd] in *.
  destruct r as [[]|e].
  - split; [done|]. split; [done|]. intros _. exists l, w. split; [apply locks_refl|].
    split; [done|]. exact Er.
  - destruct (errors_Is e ErrAcquireLock).
    + destruct (IH l' w1 Hl') as (H1 & H2 & H3). split; [by eapply locks_trans|].
      split; [done|]. intros Hok. destruct (H3 Hok) as (l0 & w0 & H4 & H5 & H6).
      exists l0, w0. split; [by eapply locks_trans|done].
    + split; [done|]. by split.
Qed.

Lemma acquire_spec k w :
  locks k w (acquire (MakeLock k) w).2
  /\ lock_for k (acquire (MakeLock k) w).1.2
  /\ ((acquire (MakeLock k) w).1.1 = Ok tt ->
      exists l0 w0, locks k w w0 /\ lock_for k l0
        /\ (Lock_Acquire l0 refreshLockDuration w0) =
           (Ok tt, (acquire (MakeLock k) w).1.2, (acquire (MakeLock k) w).2)).
Proof.
  unfold acquire. rewrite bind_run. cbn [fst snd step].
  match goal with |- context [acquire_loop ?ev ?l ?w1] =>
    destruct (acquire_loop_spec k ev l w1 (lock_made k)) as (H1 & H2 & H3) end.
  split; [done|]. split; [done|exact H3].
Qed.

(** The events of a refresh with the token [t]. *)
Definition is_refresh_of (t : str) (ev : Event) : Prop :=
  exists rq a, ev = EvHTTP rq /\ rq_method rq = $"POST"
    /\ rq_url rq = pm_TokenEndpoint (pr_metadata (provider (h_client h)))
    /\ rq_body rq = Values_Encode (refresh_form (h_client h) t a).

Lemma RefreshGrant_events t w :
  exists evs, w_trace (RefreshGrant (h_client h) t w).2 = w_trace w ++ evs
    /\ Forall (is_refresh_of t) evs.
Proof.
  destruct (RefreshGrant (h_client h) t w) as [r w'] eqn:Er.
  apply RefreshGrant_inv in Er as [(_ & Ht & _)|(a & rq & i & Hm & Hu & Hb & Ht & _)].
  - exists []. cbn. by rewrite app_nil_r.
  - exists [EvHTTP rq]. split; [done|]. constructor; [|constructor]. exists rq, a. auto.
Qed.

Lemma refresh_grant_spec t w r w' :
  refresh_grant h t w = (r, w') ->
  w_store w' = w_store w
  /\ (exists evs, w_trace w' = w_trace w ++ evs /\ Forall (is_refresh_of t) evs)
  /\ match r with
     | Ok resp => exists w1, RefreshGrant (h_client h) t w1 = (Ok resp, w')
     | Err e => errors_Is e ErrInvalidState = true ->
                (exists w1 e', RefreshGrant (h_client h) t w1 = (Err e', w')
                   /\ errors_Is e' ErrOpenIDClient = true)
                \/ exists w1 e', RefreshGrant (h_client h) t w1 = (Err e', w')
                   /\ errors_Is e' ErrInvalidState = true
     end.
Proof.
  unfold refresh_grant. rewrite bind_run.
  destruct (retry_Do _ w) as [r1 w1] eqn:Er. cbn [fst snd].
  set (P := fun w1 : World S => w_store w1 = w_store w
    /\ exists evs, w_trace w1 = w_trace w ++ evs /\ Forall (is_refresh_of t) evs).
  eapply (retry_Do_inv _ P) in Er as [Hw Hr].
  - intros H. assert (w' = w1) as ->.
    { destruct r1; [by injection H|]. destruct (errors_Is _ _); by injection H. }
    destruct Hw as [Hs He]. split; [done|]. split; [done|].
    destruct r1 as [resp|e1].
    + injection H as <-. destruct Hr as (w2 & _ & Hf). rewrite fmap_M_run in Hf.
      destruct (RefreshGrant (h_client h) t w2) as [r2 w3] eqn:Eg. injection Hf as Hf <-.
      apply retry_when_Success in Hf. cbn in Hf. subst r2. by exists w2.
    + assert (Hr' : ctx_error e1 \/ exists w2, RefreshGrant (h_client h) t w2 = (Err e1, w1)).
      { destruct Hr as [Hr|(w2 & _ & Hf)]; [by left|right]. exists w2.
        rewrite fmap_M_run in Hf. destruct (RefreshGrant (h_client h) t w2) as [r2 w3]. cbn in Hf.
        assert (r2 = Err e1) as ->.
        { apply (retry_when_Err ErrOpenIDServer). destruct Hf; [left|right]; congruence. }
        f_equal. destruct Hf; congruence. }
      destruct (errors_Is e1 ErrOpenIDClient) eqn:Ec; injection H as <-; intros Hi.
      * left. destruct Hr' as [Hc|[w2 Hg]]; [by apply (ctx_error_Is _ _ Hc) in Ec as [|]|eauto].
      * right. cbn in Hi. destruct Hr' as [Hc|[w2 Hg]]; [by apply (ctx_error_Is _ _ Hc) in Hi as [|]|eauto].
  - intros w2 [Hs (evs & He & Hf)]. rewrite fmap_M_run. cbn [snd]. unfold P.
    rewrite RefreshGrant_frame. split; [done|].
    destruct (RefreshGrant_events t w2) as (evs' & He' & Hf'). exists (evs ++ evs').
    rewrite He', He, app_assoc. split; [done|]. by apply Forall_app.
  - intros w2 w3 [Hs (evs & He & Hf)] (Hs' & Ht' & _). split; [congruence|].
    exists evs. by rewrite Ht'.
  - split; [done|]. exists []. by rewrite app_nil_r.
Qed.

Lemma refreshed_metadata_run m x w :
  exists n m', refreshed_metadata h m x w = (m', ticked n w)
    /\ md_Tokens m' = mkMetadataTokens (env_now (w_tick w) + seconds x)%Z (env_now (w_tick w))
    /\ CreatedAt (md_Session m') = CreatedAt (md_Session m)
    /\ EndsAt (md_Session m') = EndsAt (md_Session m)
    /\ TimeoutAt (md_Session m') =
         if Inactivity (h_cfg h) then (env_now (1 + w_tick w) + InactivityTimeout (h_cfg h))%Z
         else TimeoutAt (md_Session m).
Proof.
  unfold refreshed_metadata. rewrite bind_run, Metadata_Refresh_run. cbn [fst snd].
  destruct (Inactivity _).
  - exists 2. eexists. rewrite ExtendTimeout_run. done.
  - exists 1. eexists. done.
Qed.

(** An update is the write of the encrypted data, unless encryption fails. *)
Lemma Update_run {HA : AEADLaws} {HK : KeygenLaw} {HZ : LocationLaws} w r w' k d :
  Update h k d w = (r, w') ->
  (later w w' /\ exists e, r = Err e)
  \/ exists e w1 r1,
       EncryptedData_Decrypt (h_crypter h) e = Ok (valid_data d) /\ encrypted_text e = true
       /\ later w w1
       /\ retry_Do (retry_unless ErrKeyNotFound <$> store_Update k e) w1 = (r1, w')
       /\ (r = Ok tt -> r1 = Ok tt).
Proof.
  unfold Update, bindE, wrapM. rewrite !fmap_M_run.
  assert (Hl : keeps (@later S) (Data_Encrypt (h_crypter h) d)) by walk. specialize (Hl w).
  destruct (Data_Encrypt (h_crypter h) d w) as [[e|e] w1] eqn:Ee; cbn [fst snd wrap] in *.
  - rewrite fmap_M_run. destruct (retry_Do _ w1) as [r1 w2] eqn:Er.
    intros [= <- <-]. right. exists e, w1, r1. split; [by eapply Decrypt_Data_Encrypt|].
    split; [by eapply Data_Encrypt_text|]. split; [done|]. split; [exact Er|]. apply wrap_Ok.
  - intros [= <- <-]. left. split; [done|by eexists].
Qed.

(** An update writes the data, or nothing. *)
Lemma Update_spec {HA : AEADLaws} {HK : KeygenLaw} {HZ : LocationLaws}
    w r w' k d :
  Update h k d w = (r, w') ->
  (exists e, EncryptedData_Decrypt (h_crypter h) e = Ok (valid_data d)
     /\ writes view k e w w' /\ (r = Ok tt -> view (w_store w') ⊆ <[k := e]> (view (w_store w))))
  \/ (reads view w w' /\ exists e, r = Err e).
Proof.
  intros [[(Hs & Ht & _) He]|(e & w1 & r1 & Hd & Htext & (Hs & Ht & _) & Hw & Hr)]%Update_run.
  - right. split; [by apply same_reads|done].
  - left. exists e. split; [done|]. apply (retry_Update HS HR) in Hw as [[Ht2 Hm] Hok]; [|done].
    rewrite Hs in *. split; [split; [congruence|done]|]. auto.
Qed.

(** [d'] is [d] with the tokens of [resp], dated from a clock reading. *)
Definition refreshed_from d (resp : TokenResponse) d' : Prop :=
  AccessToken d' = tr_AccessToken resp /\ RefreshToken d' = tr_RefreshToken resp
  /\ ExternalSessionID d' = ExternalSessionID d /\ IDToken d' = IDToken d
  /\ IDTokenJwtID d' = IDTokenJwtID d
  /\ CreatedAt (md_Session (d_Metadata d')) = CreatedAt (md_Session (d_Metadata d))
  /\ EndsAt (md_Session (d_Metadata d')) = EndsAt (md_Session (d_Metadata d))
  /\ exists i,
       md_Tokens (d_Metadata d')
         = mkMetadataTokens (env_now i + seconds (tr_ExpiresIn resp))%Z (env_now i)
       /\ TimeoutAt (md_Session (d_Metadata d')) =
            if Inactivity (h_cfg h) then (env_now (1 + i) + InactivityTimeout (h_cfg h))%Z
            else TimeoutAt (md_Session (d_Metadata d)).

(** What a refresh does once it decided to ask the provider. *)
Definition granted (k : str) d w (r : result Data) w' : Prop :=
  (exists i, can_refresh d (env_now i) = true)
  /\ (exists i, timed_out d (env_now i) = false)
  /\ (exists evs, w_trace w' = w_trace w ++ evs /\ Forall (is_refresh_of (RefreshToken d)) evs)
  /\ match r with
     | Ok d' => exists resp w1 w2 e,
         RefreshGrant (h_client h) (RefreshToken d) w1 = (Ok resp, w2)
         /\ refreshed_from d resp d'
         /\ (forall k' v, k' <> lockKey k -> view (w_store w') !! k' = Some v ->
              if decide (k' = k) then v = e else view (w_store w) !! k' = Some v)
         /\ EncryptedData_Decrypt (h_crypter h) e = Ok d'
     | Err _ => forall k' v, k' <> lockKey k -> view (w_store w') !! k' = Some v ->
              view (w_store w) !! k' = Some v
              \/ k' = k /\ exists resp d', refreshed_from d resp d'
                   /\ EncryptedData_Decrypt (h_crypter h) v = Ok d'
     end.

(** Refreshed data is text as the stored data and the answer are. *)
Lemma refreshed_text d t w w' resp m :
  data_text d = true -> RefreshGrant (h_client h) t w = (Ok resp, w') ->
  let d' := Data_with_metadata (Data_with_tokens d (tr_AccessToken resp) (tr_RefreshToken resp)) m in
  valid_data d' = d'.
Proof.
  intros Hd Hg%RefreshGrant_text. cbv zeta. apply valid_data_id.
  unfold data_text, token_response_text in *. cbn -[valid_utf8] in *. to_prop.
  repeat match goal with H : valid_utf8 ?a = true |- _ => rewrite H; clear H end. done.
Qed.

Lemma refresh_locked_spec {HA : AEADLaws} {HK : KeygenLaw} {HZ : LocationLaws} w r w' k :
  refresh_locked h k w = (r, w') ->
  (reads view w w'
   /\ match r with
      | Ok d => stored w k d
      | Err e => (exists d i, stored w k d /\ timed_out d (env_now i) = true
                  /\ e = Sentinel ErrSessionInactive)
                 \/ GetForKey h k w = (Err e, w')
      end)
  \/ exists d, stored w k d /\ granted k d w r w'.
Proof.
  unfold refresh_locked, bindE.
  destruct (GetForKey h k w) as [[d|e] w1] eqn:Eg; apply GetForKey_spec in Eg as Hg;
    destruct Hg as [Hrd Hst]; [|intros [= <- <-]; left; split; [done|by right]].
  specialize (Hst d eq_refl). rewrite bind_run.
  destruct (canRefresh_run d w1) as [n1 ->]. cbn [fst snd].
  destruct (can_refresh d (env_now (w_tick w1))) eqn:Ecan; cbn [negb].
  2:{ intros [= <- <-]. left. split; [|done]. eapply reads_trans; [done|apply ticked_reads]. }
  rewrite bind_run. destruct (isTimedOut_run d (ticked n1 w1)) as [n2 ->]. cbn [fst snd].
  destruct (timed_out d _) eqn:Eto.
  { intros [= <- <-]. left. split.
    - do 2 (eapply reads_trans; [|apply ticked_reads]). done.
    - left. by exists d, (w_tick (ticked n1 w1)). }
  set (w2 := ticked n2 (ticked n1 w1)). assert (Hw2 : reads view w w2).
  { do 2 (eapply reads_trans; [|apply ticked_reads]). done. }
  intros H. right. exists d. split; [done|]. split; [eauto|]. split; [eauto|].
  destruct (refresh_grant h (RefreshToken d) w2) as [[resp|e] w3] eqn:Er;
    apply refresh_grant_spec in Er as (Hs3 & (evs & Ht3 & Hf3) & Hr3).
  - destruct Hr3 as (w0 & Hg0). rewrite bind_run in H.
    destruct (refreshed_metadata_run (d_Metadata d) (tr_ExpiresIn resp) w3)
      as (n3 & m' & Hm & Hmt & Hmc & Hme & Hmo).
    rewrite Hm in H. cbn [fst snd] in H.
    set (d' := Data_with_metadata _ m') in H.
    assert (Hv' : valid_data d' = d').
    { destruct Hst as (e0 & _ & Hd0%Decrypt_text). by eapply refreshed_text. }
    assert (Hfrom : refreshed_from d resp d').
    { unfold refreshed_from, d'. cbn. repeat (split; [done|]). exists (w_tick w3). by split. }
    assert (Hback : forall k' v, view (w_store w3) !! k' = Some v -> view (w_store w) !! k' = Some v).
    { intros k' v. rewrite Hs3. intros Hv. eapply lookup_weaken; [exact Hv|apply Hw2]. }
    destruct (Update h k d' (ticked n3 w3)) as [r4 w4] eqn:Eu.
    apply Update_spec in Eu. rewrite Hv' in Eu.
    assert (Ht4 : w_trace w4 = w_trace w3) by (by destruct Eu as [(e & _ & [Ht4 _] & _)|[[Ht4 _] _]]).
    assert (Hev : exists evs, w_trace w4 = w_trace w ++ evs
                  /\ Forall (is_refresh_of (RefreshToken d)) evs).
    { exists evs. split; [|done]. rewrite Ht4, Ht3. by rewrite (proj1 Hw2). }
    destruct r4 as [[]|e4]; injection H as <- <-; (split; [exact Hev|]).
    + destruct Eu as [(e & Hd4 & _ & Hv4)|[_ [e He]]]; [|discriminate He].
      exists resp, w0, w3, e. split; [done|]. split; [done|]. split; [|done].
      intros k' v _ Hv. specialize (Hv4 eq_refl). apply (lookup_weaken _ _ _ _ Hv) in Hv4.
      rewrite ticked_store in Hv4. case_decide as Hk.
      * subst k'. rewrite lookup_insert_eq in Hv4. congruence.
      * rewrite lookup_insert_ne in Hv4 by done. by apply Hback.
    + intros k' v _ Hv. destruct Eu as [(e & Hd4 & [_ Hm4] & _)|[[_ Hm4] _]].
      * rewrite ticked_store in Hm4.
        destruct Hm4 as [Hm4|Hm4]; apply (lookup_weaken _ _ _ _ Hv) in Hm4; [left; by apply Hback|].
        destruct (decide (k' = k)) as [->|Hk]; [right|left].
        -- rewrite lookup_insert_eq in Hm4. injection Hm4 as <-. split; [done|]. by exists resp, d'.
        -- rewrite lookup_insert_ne in Hm4 by done. by apply Hback.
      * left. apply Hback. by eapply lookup_weaken.
  - injection H as <- <-. split.
    + exists evs. split; [|done]. rewrite Ht3. by rewrite (proj1 Hw2).
    + intros k' v _ Hv. left. rewrite Hs3 in Hv. eapply lookup_weaken; [exact Hv|apply Hw2].
Qed.

(** The lock on [k] was taken, with [d] stored under [k] afterwards. *)
Definition acquired (k : str) d w : Prop :=
  exists l0 w0 l1 w1, lock_for k l0
    /\ Lock_Acquire l0 refreshLockDuration w0 = (Ok tt, l1, w1) /\ locks k w w1 /\ stored w1 k d.

Lemma granted_locks k d w w1 r w2 w3 :
  locks k w w1 -> granted k d w1 r w2 -> locks k w2 w3 -> granted k d w r w3.
Proof.
  intros [Ht1 Hv1] (Hc & Hto & (evs & Ht & Hf) & Hr) [Ht3 Hv3].
  split; [done|]. split; [done|]. split; [exists evs; split; [congruence|done]|].
  destruct r as [d'|e].
  - destruct Hr as (resp & w4 & w5 & e & Hg & Hfrom & Hv & Hd).
    exists resp, w4, w5, e. split; [done|]. split; [done|]. split; [|done].
    intros k' v Hne H3. apply (Hv3 k' v Hne), (Hv k' v Hne) in H3.
    case_decide; [done|by apply Hv1].
  - intros k' v Hne H3. apply (Hv3 k' v Hne), (Hr k' v Hne) in H3 as [H3|H3]; [|by right].
    left. by apply Hv1.
Qed.

Lemma Handler_Refresh_inv {HA : AEADLaws} {HK : KeygenLaw} {HZ : LocationLaws} w r w' k d :
  Handler_Refresh h k d w = (r, w') ->
  (locks k w w' /\ forall d', r = Ok d' -> d' = d \/ stored w k d')
  \/ can_refresh d (env_now (w_tick w)) = true
     /\ exists d0, acquired k d0 w /\ granted k d0 w r w'.
Proof.
  unfold Handler_Refresh. rewrite bind_run. destruct (canRefresh_run d w) as [n ->]. cbn [fst snd].
  destruct (can_refresh d (env_now (w_tick w))) eqn:Ec; cbn [negb].
  2:{ intros [= <- <-]. left. split; [apply reads_locks, ticked_reads|]. intros d' [= <-]. by left. }
  rewrite bind_run.
  destruct (acquire_spec k (ticked n w)) as (Hl & Hlf & Hok).
  destruct (acquire (MakeLock k) (ticked n w)) as [[ra l] w1] eqn:Ea. cbn [fst snd] in *.
  assert (Hl' : locks k w w1).
  { eapply locks_trans; [apply reads_locks, (ticked_reads n)|exact Hl]. }
  destruct ra as [[]|e]; [|intros [= <- <-]; left; split; [done|]; intros d' Hd; discriminate Hd].
  rewrite bind_run.
  destruct (refresh_locked h k w1) as [res w2] eqn:Er. cbn [fst snd]. rewrite bind_run.
  pose proof (Release_locks l w2 k Hlf) as Hrel.
  destruct (Lock_Release l w2) as [rr w3] eqn:Errel. cbn [fst snd] in *. intros [= <- <-].
  apply refresh_locked_spec in Er as [[Hrd Hres]|(d0 & Hst & Hg)].
  - left. split.
    + eapply locks_trans; [exact Hl'|]. eapply locks_trans; [apply reads_locks, Hrd|exact Hrel].
    + intros d' ->. right. by eapply locks_stored.
  - right. split; [done|]. exists d0. split.
    + destruct (Hok eq_refl) as (l0 & w0 & _ & Hl0 & Ha). by exists l0, w0, l, w1.
    + by eapply granted_locks.
Qed.

(** ** Creation *)

Lemma NewSessionID_frame (p : Provider) (t : Token) (params : Values) w :
  w_store (NewSessionID p t params w).2 = w_store w
  /\ w_trace (NewSessionID p t params w).2 = w_trace w.
Proof.
  unfold NewSessionID. destruct (GetSidClaim t); [done|]. destruct (SidClaimRequired p); [done|].
  destruct (getSessionStateFrom params); [done|]. destruct (SessionStateRequired p); [done|].
  unfold wrapM. rewrite fmap_M_run, GenerateBase64_run. by destruct (env_rand _ _).
Qed.

Lemma initial_metadata_run (tokens : Tokens) (lifetime : Duration) w :
  exists n md, initial_metadata h tokens lifetime w = (md, ticked n w)
    /\ md_Tokens md = mkMetadataTokens
          (env_now (1 + w_tick w) + Sub (tk_Expiry tokens) (env_now (w_tick w)))%Z
          (env_now (1 + w_tick w))
    /\ CreatedAt (md_Session md) = env_now (1 + w_tick w)
    /\ EndsAt (md_Session md) = (env_now (1 + w_tick w) + lifetime)%Z
    /\ TimeoutAt (md_Session md) =
         if Inactivity (h_cfg h) then (env_now (2 + w_tick w) + InactivityTimeout (h_cfg h))%Z
         else zero_time.
Proof.
  unfold initial_metadata. rewrite bind_run. unfold time_Until. rewrite bind_run.
  cbn [fst snd time_Now step mret M_ret]. rewrite bind_run. unfold NewMetadata. rewrite bind_run.
  cbn [fst snd time_Now step mret M_ret w_tick w_store w_trace].
  destruct (Inactivity _); [exists 3|exists 2]; eexists; done.
Qed.

Lemma NewSessionID_later (p : Provider) (t : Token) (params : Values) w :
  later w (NewSessionID p t params w).2.
Proof. assert (Hk : keeps (@later S) (NewSessionID (S := S) p t params)); [|apply Hk]. unfold NewSessionID. walk. Qed.

(** [Create] is the write of the login's session under its key, unless there is
    no session ID or encryption fails. *)
Lemma Create_run {HA : AEADLaws} {HK : KeygenLaw} {HZ : LocationLaws} rq tokens lifetime w r w' :
  Create h rq tokens lifetime w = (r, w') ->
  (later w w' /\ exists e, r = Err e)
  \/ exists sid w1 md n e w2 r2,
       NewSessionID (oidc_Provider (h_openid h)) (tk_IDToken tokens) (URL_Query (rq_URL rq)) w
         = (Ok sid, w1)
       /\ initial_metadata h tokens lifetime w1 = (md, ticked n w1)
       /\ EncryptedData_Decrypt (h_crypter h) e = Ok (valid_data (NewData sid tokens (Some md)))
       /\ encrypted_text e = true /\ later w w2
       /\ retry_Do (RetryableError <$> store_Write (session_key h sid) e lifetime) w2 = (r2, w')
       /\ (forall k, r = Ok k -> r2 = Ok tt /\ k = session_key h sid).
Proof.
  unfold Create, bindE at 1, wrapM at 1. rewrite fmap_M_run. unfold IDOrGenerate.
  pose proof (NewSessionID_later (oidc_Provider (h_openid h)) (tk_IDToken tokens)
                (URL_Query (rq_URL rq)) w) as Hl1.
  destruct (NewSessionID _ _ _ w) as [[sid|e] w1] eqn:Esid; cbn [fst snd wrap] in *;
    [|intros [= <- <-]; left; by eauto].
  rewrite bind_run. destruct (initial_metadata_run tokens lifetime w1) as (n & md & Hmd & _).
  rewrite Hmd. cbn [fst snd]. unfold bindE at 1, wrapM at 1. rewrite fmap_M_run.
  assert (Hk : keeps (@later S) (Data_Encrypt (h_crypter h) (NewData sid tokens (Some md)))) by walk.
  specialize (Hk (ticked n w1)). assert (Hl2 : later w (ticked n w1)).
  { etransitivity; [exact Hl1|]. repeat split. cbn. lia. }
  destruct (Data_Encrypt _ _ (ticked n w1)) as [[e|e] w2] eqn:Ee; cbn [fst snd wrap] in *;
    (assert (Hl3 : later w w2) by (etransitivity; eassumption));
    [|intros [= <- <-]; left; by eauto].
  unfold bindE, wrapM. rewrite fmap_M_run. destruct (retry_Do _ w2) as [r3 w3] eqn:Er. intros H.
  assert (w' = w3) as -> by (destruct r3; by injection H).
  right. exists sid, w1, md, n, e, w2, r3. split; [done|]. split; [exact Hmd|].
  split; [by eapply Decrypt_Data_Encrypt|]. split; [by eapply Data_Encrypt_text|].
  split; [done|]. split; [done|]. intros k ->. destruct r3 as [[]|]; [|discriminate]. by injection H.
Qed.

Lemma Create_inv {HA : AEADLaws} {HK : KeygenLaw} {HZ : LocationLaws}
    rq tokens lifetime w k w' :
  Create h rq tokens lifetime w = (Ok k, w') ->
  exists sid w1 md e,
    NewSessionID (oidc_Provider (h_openid h)) (tk_IDToken tokens) (URL_Query (rq_URL rq)) w
      = (Ok sid, w1)
    /\ k = session_key h sid
    /\ (exists n, initial_metadata h tokens lifetime w1 = (md, ticked n w1))
    /\ EncryptedData_Decrypt (h_crypter h) e = Ok (valid_data (NewData sid tokens (Some md)))
    /\ w_trace w' = w_trace w
    /\ view (w_store w') ⊆ <[k := e]> (view (w_store w)).
Proof.
  intros [[_ [e He]]|(sid & w1 & md & n & e & w2 & r2 & Hsid & Hmd & Hd & Htext & (Hs & Ht & _) & Hw & Hr)]%Create_run;
    [discriminate|].
  destruct (Hr k eq_refl) as [-> ->]. apply (retry_Write HS HR) in Hw as [[Ht2 _] Hv]; [|done].
  exists sid, w1, md, e. do 2 (split; [done|]). split; [by exists n|]. split; [done|].
  split; [congruence|]. rewrite <- Hs. by apply Hv.
Qed.

(** Whatever [Create] returns, it wrote the login's session, or nothing. *)
Lemma Create_writes {HA : AEADLaws} {HK : KeygenLaw} {HZ : LocationLaws}
    rq tokens lifetime w r w' :
  Create h rq tokens lifetime w = (r, w') ->
  reads view w w'
  \/ exists sid w1 md n e,
       NewSessionID (oidc_Provider (h_openid h)) (tk_IDToken tokens) (URL_Query (rq_URL rq)) w
         = (Ok sid, w1)
       /\ initial_metadata h tokens lifetime w1 = (md, ticked n w1)
       /\ EncryptedData_Decrypt (h_crypter h) e = Ok (valid_data (NewData sid tokens (Some md)))
       /\ writes view (session_key h sid) e w w'.
Proof.
  intros [[(Hs & Ht & _) _]|(sid & w1 & md & n & e & w2 & r2 & Hsid & Hmd & Hd & Htext & (Hs & Ht & _) & Hw & _)]%Create_run;
    [left; by apply same_reads|right].
  apply (retry_Write HS HR) in Hw as [[Ht2 Hm] _]; [|done].
  exists sid, w1, md, n, e. do 3 (split; [done|]). split; [congruence|]. by rewrite <- Hs.
Qed.

Lemma destroyForKey_spec k w r w' :
  destroyForKey k w = (r, w') ->
  reads view w w' /\ (r = Ok tt -> view (w_store w') !! k = None).
Proof.
  unfold destroyForKey, wrapM. rewrite fmap_M_run.
  destruct (retry_Do _ w) as [r1 w1] eqn:Er. apply (retry_Delete HS HR) in Er as [Hw Hr].
  intros [= <- <-]. split; [done|]. cbn. intros Hok%wrap_Ok. auto.
Qed.

(** ** Lookup with automatic refresh *)

Lemma GetOrRefresh_inv {HA : AEADLaws} {HK : KeygenLaw} {HZ : LocationLaws} rq w r w' :
  GetOrRefresh h rq w = (r, w') ->
  (exists e, r = Err e /\ w_trace w' = w_trace w /\ GetKey h rq = Err e)
  \/ exists k, GetKey h rq = Ok k /\
    ((exists e, r = Err e /\ GetForKey h k w = (Err e, w'))
     \/ exists d i, stored w k d /\
       ((timed_out d (env_now i) = true /\ r = Err (Sentinel ErrSessionInactive)
           /\ w_trace w' = w_trace w)
        \/ timed_out d (env_now i) = false
           /\ ((r = Ok d /\ (w_trace w' = w_trace w
                             \/ exists d0 w0 e w1, acquired k d0 w0 /\ granted k d0 w0 (Err e) w1))
               \/ (exists d', r = Ok d' /\ stored w k d' /\ w_trace w' = w_trace w)
               \/ (exists d0 d' w0, r = Ok d' /\ reads view w w0 /\ acquired k d0 w0
                     /\ granted k d0 w0 (Ok d') w')
               \/ (exists e, r = Err e
                    /\ (errors_Is e ErrInvalidState = true \/ errors_Is e ErrSessionInactive = true))))).
Proof.
  unfold GetOrRefresh, bindE, pureR, mret, M_ret.
  destruct (GetKey h rq) as [k|e] eqn:Ek; [|intros [= <- <-]; left; by exists e].
  intros H. right. exists k. split; [done|].
  destruct (GetForKey h k w) as [[d|e] w1] eqn:Eg; [|injection H as <- <-; left; by exists e].
  apply GetForKey_spec in Eg as [Hrd Hst]. specialize (Hst d eq_refl). right.
  rewrite bind_run in H. destruct (isTimedOut_run d w1) as [n1 Hto]. rewrite Hto in H.
  cbn [fst snd] in H. exists d, (w_tick w1). split; [done|].
  destruct (timed_out d (env_now (w_tick w1))) eqn:Eto.
  { injection H as <- <-. left. split; [done|]. split; [done|]. apply Hrd. }
  right. split; [done|]. rewrite bind_run in H.
  destruct (shouldRefresh_run d (ticked n1 w1)) as (b & n2 & Hsh). rewrite Hsh in H.
  cbn [fst snd] in H. destruct b; cbn [negb] in H.
  2:{ injection H as <- <-. left. split; [done|]. left. apply Hrd. }
  set (w2 := ticked n2 (ticked n1 w1)) in H.
  assert (Hrd2 : reads view w w2) by (do 2 (eapply reads_trans; [|apply ticked_reads]); done).
  rewrite bind_run in H. destruct (Handler_Refresh h k d w2) as [r3 w3] eqn:Er. cbn [fst snd] in H.
  apply Handler_Refresh_inv in Er as [[[Ht3 _] Hd3]|(_ & d0 & Ha & Hg)].
  - destruct r3 as [d'|e].
    + injection H as <- <-. destruct (Hd3 d' eq_refl) as [->|Hd'].
      * left. split; [done|]. left. rewrite Ht3. apply Hrd2.
      * right; left. exists d'. split; [done|]. split; [by eapply stored_reads|].
        rewrite Ht3. apply Hrd2.
    + destruct (errors_Is e ErrInvalidState || errors_Is e ErrSessionInactive) eqn:Ee;
        injection H as <- <-.
      * do 3 right. exists e. split; [done|]. by apply orb_true_iff in Ee.
      * left. split; [done|]. left. rewrite Ht3. apply Hrd2.
  - destruct r3 as [d'|e].
    + injection H as <- <-. do 2 right. left. by exists d0, d', w2.
    + destruct (errors_Is e ErrInvalidState || errors_Is e ErrSessionInactive) eqn:Ee;
        injection H as <- <-.
      * do 3 right. exists e. split; [done|]. by apply orb_true_iff in Ee.
      * left. split; [done|]. right. by exists d0, w2, e, w3.
Qed.
End HandlerFacts.

(** ** A concrete setting, for the witnesses: the in-memory store *)

#[local] Existing Instance toy_AEAD.
#[local] Existing Instance toy_jwt.
#[local] Existing Instance toy_oauth2.
#[local] Existing Instance Memory.memory_store.
#[local] Existing Instance utc.
#[local] Instance toy_memory_retry : Retry (gmap str EncryptedData) := toy_retry 2 _.

(** An answer of the token endpoint, with the members [ms] besides the access
    token. *)
Definition token_answer (ms : list (str * json)) : str :=
  json_text (JObj (($"access_token", JStr $"at2") :: ($"expires_in", JNum $"3600")
                   :: ($"token_type", JStr $"Bearer") :: ms)).
Definition refreshed_body : str := token_answer [($"refresh_token", JStr $"rt2")].

Definition session_config : SessionConfig :=
  {| Inactivity := true; InactivityTimeout := (30 * Minute)%Z; MaxLifetime := Hour; Refresh := true |}.
Definition example_handler : Handler str :=
  {| h_cfg := session_config; h_client := example_client; h_crypter := toy_key |}.
Definition example_tokens : Tokens (L := toy_jwt) :=
  {| tk_AccessToken := $"at"; tk_Expiry := (unix_epoch + Hour)%Z;
     tk_IDToken := NewIDToken (L := toy_jwt) $"jwt" toy_token; tk_RefreshToken := $"rt";
     tk_TokenType := $"Bearer" |}.
Definition example_create : result str * World (gmap str EncryptedData) :=
  Create (E := answering 200 []) example_handler (callback_request "code=code&state=st")
    example_tokens Hour (mkWorld 0 ∅ []).

(** ** Properties *)

(** The session ID is the id_token's [sid], else the callback's
    [session_state], else 64 random bytes; it is an error when the provider
    requires a source that is missing. *)
Theorem NewSessionID_spec {L : JwtLib} {E : Env} {S : Type} (p : Provider) (t : Token)
    (params : Values) (w : World S) :
  let r := (NewSessionID p t params w).1 in
  match GetSidClaim t with
  | Ok sid => r = Ok sid
  | Err _ =>
      let st := Values_Get params P_SessionState in
      (SidClaimRequired p = true -> is_ok r = false)
      /\ (SidClaimRequired p = false ->
          (st <> [] -> r = Ok st)
          /\ (st = [] -> if SessionStateRequired p then is_ok r = false
                         else forall b, env_rand (w_tick w) 64 = Ok b ->
                              r = Ok (EncodeToString RawURLEncoding b)))
  end.
Proof.
  intros r. subst r. unfold NewSessionID. destruct (GetSidClaim t) as [sid|e]; [done|].
  destruct (SidClaimRequired p); [by split|]. split; [done|]. intros _.
  unfold getSessionStateFrom. destruct (Values_Get params P_SessionState) as [|x st] eqn:Est; cbn [is_empty].
  - split; [done|]. intros _. destruct (SessionStateRequired p); [done|].
    intros b Hb. unfold wrapM. by rewrite fmap_M_run, GenerateBase64_run, Hb.
  - by split.
Qed.

Section Statements.
Context {L : JwtLib} {C : JwkCache} {Key : Type} {O : OAuth2 Key} {E : Env} {A : AEAD} {S : Type}.
Context {St : Store S} {R : Retry S} {LC : Location}.
Context {view : S -> gmap str EncryptedData} (HS : StoreLaws S view) (HR : RetryLaws S).
Context (HA : AEADLaws) (HK : KeygenLaw) (HZ : LocationLaws).
Context (h : Handler Key).

(** C29: A created session can be read back, from any store: under the returned
    key, that of the session's ID, there is the session's data or nothing; its
    tokens are the login's, up to bytes that are not UTF-8, it ends after the
    configured lifetime, its tokens expire with the access token, and it times
    out only if inactivity is configured. *)
Theorem Create_then_Get (rq : Request) (tokens : Tokens) (lifetime : Duration)
    (w w1 w2 w3 : World S) (k : str) (d : Data)
  (Hcreate : Create h rq tokens lifetime w = (Ok k, w1))
  (Hlater : reads view w1 w2)
  (Hget : GetForKey h k w2 = (Ok d, w3)) :
  exists sid, (IDOrGenerate h rq tokens w).1 = Ok sid /\ k = session_key h sid
  /\ ExternalSessionID d = to_valid sid
  /\ AccessToken d = to_valid (tk_AccessToken tokens)
  /\ RefreshToken d = to_valid (tk_RefreshToken tokens)
  /\ IDToken d = to_valid (serialized (tk_IDToken tokens))
  /\ let m := d_Metadata d in
     EndsAt (md_Session m) = (CreatedAt (md_Session m) + lifetime)%Z
     /\ RefreshedAt (md_Tokens m) = CreatedAt (md_Session m)
     /\ (exists i, ExpireAt (md_Tokens m) - CreatedAt (md_Session m)
                   = Sub (tk_Expiry tokens) (env_now i))%Z
     /\ (Inactivity (h_cfg h) = false -> TimeoutAt (md_Session m) = zero_time).
Proof.
  apply (Create_inv HS HR h) in Hcreate as (sid & w0 & md & e & Hsid & -> & (n & Hmd) & Hdec & _ & Hv).
  exists sid. unfold IDOrGenerate. rewrite Hsid. split; [done|]. split; [done|].
  apply (GetForKey_spec HS HR) in Hget as [_ Hst]. specialize (Hst d eq_refl).
  apply (stored_reads h w1 w2 _ _ Hlater) in Hst as (e' & He' & Hd').
  apply (lookup_weaken _ _ _ _ He') in Hv. rewrite lookup_insert_eq in Hv. injection Hv as <-.
  rewrite Hdec in Hd'. injection Hd' as <-.
  destruct (initial_metadata_run h tokens lifetime w0) as (n' & md' & Hmd' & Htk & Hc & He & Hto).
  rewrite Hmd' in Hmd. injection Hmd as -> _.
  repeat (split; [done|]). cbn zeta.
  change (d_Metadata (valid_data (NewData sid tokens (Some md)))) with md.
  rewrite He, Hc, Htk. split; [done|]. split; [done|]. split.
  - exists (w_tick w0). cbn. lia.
  - intros Hi. by rewrite Hto, Hi.
Qed.

(** A destroyed session is gone: after [DestroyForID] succeeded no lookup of
    the ID returns data, until a session is written under it again. *)
Theorem Destroy_then_Get (id : str) (w w1 w2 : World S)
  (Hdestroy : DestroyForID h id w = (Ok tt, w1)) (Hlater : reads view w1 w2) :
  is_ok (GetForID h id w2).1 = false.
Proof.
  apply (destroyForKey_spec HS HR) in Hdestroy as [_ Hn].
  destruct (GetForID h id w2) as [[d|e] w3] eqn:Eg; [|done].
  apply (GetForKey_spec HS HR) in Eg as [_ Hst]. destruct (Hst d eq_refl) as (e & He & _).
  destruct Hlater as [_ Hv]. apply (lookup_weaken _ _ _ _ He) in Hv. by rewrite Hn in Hv.
Qed.

(** Successful runs of [GetAccessToken]. *)
Lemma GetAccessToken_inv (rq : Request) (w w' : World S) (tok : str)
  (Hget : GetAccessToken h rq w = (Ok tok, w')) :
  exists k d i,
    GetDecrypted rq SessionCookie (h_crypter h) = Ok k
    /\ stored (view := view) h w k d /\ timed_out h d (env_now i) = false
    /\ tok <> []
    /\ exists d' j, AccessToken d' = tok /\ (env_now j <= ExpireAt (md_Tokens (d_Metadata d')))%Z
       /\ (d' = d \/ stored (view := view) h w k d'
           \/ exists d0 resp, stored (view := view) h w k d0 /\ refreshed_from h d0 resp d').
Proof.
  unfold GetAccessToken in Hget. apply bindE_Ok in Hget as (d' & w1 & Hg & Hget).
  destruct (HasAccessToken d') eqn:Ea; cbn [negb] in Hget; [|discriminate Hget].
  rewrite bind_run, IsExpired_run in Hget. cbn [fst snd] in Hget.
  destruct (After _ _) eqn:Eexp; [discriminate Hget|]. injection Hget as <- _.
  apply (GetOrRefresh_inv HS HR h) in Hg as [(e & He & _)|(k & Hk & Hg)]; [done|].
  destruct Hg as [(e & He & _)|(d & i & Hst & [(_ & He & _)|(Hto & Hg)])]; [done..|].
  exists k, d, i. split; [by apply relabel_Ok in Hk|]. split; [done|]. split; [done|].
  split; [by unfold HasAccessToken in Ea; apply negb_true_iff, is_empty_false in Ea|].
  exists d', (w_tick w1). split; [done|]. split; [by unfold After in Eexp; to_prop|].
  destruct Hg as [[Hr _]|[(d2 & Hr & Hst2 & _)|[(d0 & d2 & w0 & Hr & Hrd & Ha & Hg)|(e & Hr & _)]]];
    [| | |done].
  - injection Hr as ->. by left.
  - injection Hr as ->. by right; left.
  - injection Hr as ->. right; right.
    destruct Ha as (l0 & wa & l1 & wb & _ & _ & Hl & Hst0).
    destruct Hg as (_ & _ & _ & resp & _ & _ & _ & _ & Hfrom & _).
    exists d0, resp. split; [|done]. eapply stored_reads; [done|]. by eapply locks_stored.
Qed.




(** A failed refresh does not take the session away: once the session was
    read and found not timed out, the lookup succeeds unless the provider
    rejected the session ([ErrInvalidState]) or the session timed out while it
    waited for the lock; a timed out session is never returned. *)
Theorem GetOrRefresh_errors (rq : Request) (w w' : World S) (r : result Data)
  (Hrun : GetOrRefresh h rq w = (r, w')) :
  (forall e, r = Err e ->
     GetKey h rq = Err e
     \/ (exists k, GetKey h rq = Ok k /\ GetForKey h k w = (Err e, w'))
     \/ errors_Is e ErrSessionInactive = true \/ errors_Is e ErrInvalidState = true)
  /\ (forall d', r = Ok d' -> exists k d i, GetKey h rq = Ok k
        /\ stored (view := view) h w k d /\ timed_out h d (env_now i) = false).
Proof.
  apply (GetOrRefresh_inv HS HR h) in Hrun as [(e & -> & _ & Hk)|(k & Hk & Hrun)].
  { split; [|done]. intros e' [= <-]. by left. }
  destruct Hrun as [(e & -> & Hg)|(d & i & Hst & [(Hto & -> & _)|(Hto & Hrun)])].
  - split; [|done]. intros e' [= <-]. right; left. by exists k.
  - split; [|done]. intros e' [= <-]. by right; right; left.
  - split; [|intros d' _; by exists k, d, i]. intros e' He.
    destruct Hrun as [[Hr _]|[(d2 & Hr & _)|[(d0 & d2 & w0 & Hr & _)|(e & Hr & Hi)]]];
      [congruence..|]. rewrite Hr in He. injection He as <-. destruct Hi; auto.
Qed.
End Statements.

(** ** Witnesses *)

Definition example_env : Env := answering 200 refreshed_body.
#[local] Existing Instance example_env.

Lemma example_retry_laws : RetryLaws (gmap str EncryptedData).
Proof. apply toy_retry_laws. Qed.
Lemma example_keygen : KeygenLaw.
Proof. intros i n b. cbn. intros [= <-]. apply length_replicate. Qed.

Definition example_key : str := session_key example_handler $"sid-1".
Definition example_get : result Data * World (gmap str EncryptedData) :=
  GetForKey example_handler example_key example_create.2.

Lemma example_create_run :
  Create example_handler (callback_request "code=code&state=st") example_tokens Hour (mkWorld 0 ∅ [])
  = (Ok example_key, example_create.2).
Proof. apply run_eq. vm_compute. reflexivity. Qed.
Lemma example_get_run : exists d w, example_get = (Ok d, w).
Proof. apply is_ok_run. vm_compute. reflexivity. Qed.

Lemma Create_then_Get_witness :
  exists d w3, example_get = (Ok d, w3) /\ AccessToken d = $"at".
Proof.
  destruct example_get_run as (d & w3 & Hg). exists d, w3. split; [exact Hg|].
  destruct (Create_then_Get Memory.memory_laws example_retry_laws
      toy_AEAD_laws example_keygen utc_laws example_handler
      (callback_request "code=code&state=st") example_tokens Hour (mkWorld 0 ∅ [])
      example_create.2 example_create.2 w3 example_key d
      example_create_run (reads_refl _) Hg) as (sid & _ & _ & _ & H & _).
  rewrite H. vm_compute. reflexivity.
Defined.

Definition example_destroy : result unit * World (gmap str EncryptedData) :=
  DestroyForID example_handler $"sid-1" example_create.2.
Lemma example_destroy_run :
  DestroyForID example_handler $"sid-1" example_create.2 = (Ok tt, example_destroy.2).
Proof. apply run_eq. vm_compute. reflexivity. Qed.

Lemma Destroy_then_Get_witness :
  is_ok (GetForID example_handler $"sid-1" example_destroy.2).1 = false.
Proof.
  exact (Destroy_then_Get Memory.memory_laws example_retry_laws example_handler $"sid-1"
           example_create.2 example_destroy.2 example_destroy.2 example_destroy_run (reads_refl _)).
Defined.

(** A session named by a [session_state] that is not UTF-8, with a provider that
    requires neither [sid] nor [session_state]. *)
Definition lenient_handler : Handler str :=
  {| h_cfg := session_config;
     h_client := {| oc_cfg := {| oidc_Client := oidc_Client example_cfg;
                                 oidc_Provider := {| pr_endSessionEndpointURL := empty_URL;
                                                     pr_metadata := zero_metadata;
                                                     pr_name := $"openid" |} |};
                    oc_loginstatus := example_loginstatus |};
     h_crypter := toy_key |}.
Definition tokens_without_sid : Tokens (L := toy_jwt) :=
  {| tk_AccessToken := $"at"; tk_Expiry := (unix_epoch + Hour)%Z;
     tk_IDToken := NewIDToken (L := toy_jwt) $"jwt" []; tk_RefreshToken := $"rt";
     tk_TokenType := $"Bearer" |}.
Definition odd_key : str := session_key lenient_handler [chr 255].
Definition odd_create : result str * World (gmap str EncryptedData) :=
  Create lenient_handler (callback_request "code=code&state=st&session_state=%FF")
    tokens_without_sid Hour (mkWorld 0 ∅ []).
Definition odd_session : result Data * World (gmap str EncryptedData) :=
  GetForKey lenient_handler odd_key odd_create.2.
Definition odd_logout : result unit * World (gmap str EncryptedData) :=
  match odd_session with
  | (Ok d, w) => DestroyForID lenient_handler (ExternalSessionID d) w
  | (Err e, w) => (Err e, w)
  end.

(** JSON alters the ID that is stored, so destroying the session by it, as logout
    does, reports success and leaves the session in the store. *)
Lemma odd_session_survives_logout :
  odd_create.1 = Ok odd_key /\ is_ok odd_session.1 = true /\ odd_logout.1 = Ok tt
  /\ is_ok (GetForKey lenient_handler odd_key odd_logout.2).1 = true.
Proof. vm_compute. repeat split. Qed.

(** The cookie of the created session, and a request that carries it. *)
Definition example_session_cookie : str :=
  match last (rw_Cookies (EncryptAndSet SessionCookie example_key DefaultOptions toy_key
                            new_response toy_world).1.2) with
  | Some c => ck_Value c | None => [] end.
Definition session_request : Request :=
  mkRequest MethodGet HTTP11 empty_URL $"app.example.com" ∅ [(SessionCookie, example_session_cookie)]
    (Some $"/app") (Some example_ingress) None None.

(** A clock that starts [t] seconds into the session. *)
Definition example_world (t : nat) : World (gmap str EncryptedData) :=
  mkWorld t (w_store example_create.2) [].

Lemma example_token_run :
  GetAccessToken example_handler session_request (example_world 100)
  = (Ok $"at", (GetAccessToken example_handler session_request (example_world 100)).2).
Proof. apply run_eq. vm_compute. reflexivity. Qed.


Definition example_session : Data := match example_get.1 with Ok d => d | Err _ => example_data end.
Definition example_refresh (t : nat) : result Data * World (gmap str EncryptedData) :=
  Handler_Refresh example_handler example_key example_session (example_world t).
Lemma example_refresh_run : exists d w,
  Handler_Refresh example_handler example_key example_session (example_world 100) = (Ok d, w)
  /\ w_trace w <> [].
Proof.
  destruct (is_ok_run (example_refresh 100)) as (d & w & Hr); [vm_compute; reflexivity|].
  exists d, w. split; [exact Hr|]. replace w with (example_refresh 100).2 by (by rewrite Hr).
  vm_compute. discriminate.
Qed.



Lemma example_lookup_run : exists d w,
  GetOrRefresh example_handler session_request (example_world 200) = (Ok d, w).
Proof. apply is_ok_run. vm_compute. reflexivity. Qed.

Lemma GetOrRefresh_errors_witness :
  exists k, GetKey example_handler session_request = Ok k.
Proof.
  destruct example_lookup_run as (d' & w' & Hr).
  destruct (GetOrRefresh_errors Memory.memory_laws example_retry_laws toy_AEAD_laws
              example_keygen utc_laws example_handler session_request (example_world 200) w'
              (Ok d') Hr) as [_ H].
  destruct (H d' eq_refl) as (k & _ & _ & Hk & _). exists k. exact Hk.
Defined.

Definition silent_refresh : result Data * World (gmap str EncryptedData) :=
  Handler_Refresh (E := answering 200 (token_answer [])) example_handler example_key example_session
    (example_world 100).

Lemma silent_refresh_checks :
  match silent_refresh.1 with
  | Ok d => streq (AccessToken d) $"at2" && negb (HasRefreshToken d)
            && bool_decide ((GetForKey example_handler example_key silent_refresh.2).1 = Ok d)
  | Err _ => false
  end = true.
Proof. vm_compute. reflexivity. Qed.

(** A provider that leaves the refresh token out of its answer, because it
    stays the same, ends the refreshing of the session: the empty token replaces
    the stored one, and the session is never refreshed again. *)
Theorem refresh_drops_token :
  HasRefreshToken example_session = true
  /\ exists d', silent_refresh.1 = Ok d' /\ AccessToken d' = $"at2" /\ HasRefreshToken d' = false
     /\ (GetForKey example_handler example_key silent_refresh.2).1 = Ok d'
     /\ forall w : World (gmap str EncryptedData), (canRefresh example_handler d' w).1 = false.
Proof.
  split; [vm_compute; reflexivity|]. pose proof silent_refresh_checks as Hc.
  destruct silent_refresh.1 as [d'|e]; [|discriminate Hc]. to_prop. exists d'.
  split; [done|]. split; [by apply streq_true|]. split; [done|]. split; [done|].
  intros w. destruct (canRefresh_run example_handler d' w) as [n ->].
  unfold can_refresh. match goal with H : HasRefreshToken d' = false |- _ => rewrite H end.
  by rewrite andb_false_r.
Qed.
