(* ===== verification/Frames.v ===== *)
(** * What the code outside the store keeps

    Most of the program does not touch the store of sessions: it draws random
    bytes, reads clocks, asks the provider, logs.  A relation on states that does
    not see this, [Framed], is kept by all of it; by the operations on sessions,
    it is kept as soon as the operations on the store keep it. *)

From S2P Require Import Prelude GoStrings GoTime GoUrl GoError GoRfc3339 GoJson Config Http Crypter Cookie Openid Jwks Loginstatus OpenidClient SessionData Store Retry Keeps SessionHandler.

(** A relation that does not see time pass or events happen. *)
Class Framed {S : Type} (R : World S -> World S -> Prop) : Prop := {
  framed_preorder :: PreOrder R;
  framed_outside : forall w w',
    w_store w' = w_store w -> w_trace w `prefix_of` w_trace w' -> (w_tick w <= w_tick w')%nat -> R w w' }.

(** Nor when the keys of the provider were refreshed. *)
Class KeysFramed {S : Type} `{!JwksState S} (R : World S -> World S -> Prop) : Prop :=
  framed_keys : forall t w,
    R w (mkWorld (w_tick w) (set_lastRefresh t (w_store w)) (w_trace w)).

#[export] Instance framed_patient {S : Type} (R : World S -> World S -> Prop) `{HF : !Framed R} : Patient R.
Proof.
  split; [apply HF|]. intros w w' (Hs & Ht & Hn). apply framed_outside; [done| |done].
  by rewrite Ht.
Qed.
#[global] Hint Mode Framed - + : typeclass_instances.
#[export] Hint Resolve framed_patient : keeps.

(** ** The operations outside the store *)

Section Outside.
Context {L : JwtLib} {C : JwkCache} {Key : Type} {O : OAuth2 Key} {E : Env} {A : AEAD} {S : Type}.
Context {Rt : Retry S} {LC : Location} {HR : RetryLaws S}.
Context (R : World S -> World S -> Prop) {HF : Framed R}.
#[local] Abbreviation quiet := (keeps R).

Lemma log_event_quiet (ev : Event) : quiet (log_event ev).
Proof. intros w. apply framed_outside; [done| |done]. by exists [ev]. Qed.
Lemma http_Do_quiet (rq : HTTPRequest) : quiet (http_Do rq).
Proof. intros w. rewrite http_Do_run. apply framed_outside; [done|by eexists|cbn; lia]. Qed.
Hint Resolve log_event_quiet http_Do_quiet : keeps.

Lemma NewTokens_quiet (raw : OAuth2Token) jwks : quiet (NewTokens raw jwks).
Proof. unfold NewTokens, ParseIDTokenFrom, ParseIDToken, jwt_Parse. walk. Qed.
Hint Resolve NewTokens_quiet : keeps.

Section Client.
Context (c : OClient Key) (lsc : LoginstatusConfig).

Lemma MakeAssertion_quiet d : quiet (MakeAssertion c d).
Proof. unfold MakeAssertion. walk. Qed.
Hint Resolve MakeAssertion_quiet : keeps.
Lemma RefreshGrant_quiet t : quiet (RefreshGrant c t).
Proof. unfold RefreshGrant. walk. Qed.
Lemma Client_Login_quiet r : quiet (Client_Login c r).
Proof. unfold Client_Login, NewLogin, newLoginParameters. walk. Qed.
Lemma ExchangeToken_quiet t : quiet (ExchangeToken lsc t).
Proof. unfold ExchangeToken. walk. Qed.
Lemma SetCookie_quiet t o w : quiet (SetCookie lsc t o w).
Proof. unfold SetCookie, Make. walk. Qed.
Hint Resolve RefreshGrant_quiet : keeps.

Context {J : JwksState S} {HJ : KeysFramed R}.
Lemma set_lastRefresh_quiet (t : Time) : quiet (on_store (fun s => (tt, set_lastRefresh t s))).
Proof. intros w. apply framed_keys. Qed.
Hint Resolve set_lastRefresh_quiet : keeps.
Lemma RefreshPublicJwkSet_quiet (p : Provider) : quiet (RefreshPublicJwkSet p).
Proof. unfold RefreshPublicJwkSet, GetPublicJwkSet, cache_Refresh. walk. Qed.
Hint Resolve RefreshPublicJwkSet_quiet : keeps.
Lemma RedeemTokens_quiet cb : quiet (RedeemTokens c cb).
Proof.
  unfold RedeemTokens, AuthCodeGrant, GetPublicJwkSet, parse_tokens, IDToken_Validate. walk.
Qed.
End Client.
End Outside.
#[export] Hint Resolve log_event_quiet http_Do_quiet RedeemTokens_quiet RefreshGrant_quiet
  Client_Login_quiet ExchangeToken_quiet SetCookie_quiet : keeps.

(** ** The operations on sessions, from those on the store *)

Section Sessions.
Context {L : JwtLib} {C : JwkCache} {Key : Type} {O : OAuth2 Key} {E : Env} {A : AEAD} {S : Type}.
Context {St : Store S} {Rt : Retry S} {LC : Location} {HR : RetryLaws S}.
Context (R : World S -> World S -> Prop) {HF : Framed R}.
Context (h : Handler Key) (k : str).
#[local] Abbreviation quiet := (keeps R).

Lemma GetForKey_quiet : quiet (store_Read k) -> quiet (GetForKey h k).
Proof. intros Hr. unfold GetForKey. walk. Qed.
Lemma destroyForKey_quiet : quiet (store_Delete [k]) -> quiet (destroyForKey k).
Proof. intros Hr. unfold destroyForKey. walk. Qed.
Lemma session_Update_quiet d : (forall v, quiet (store_Update k v)) -> quiet (Update h k d).
Proof. intros Hu. unfold Update. walk. Qed.

Lemma canRefresh_quiet d : quiet (canRefresh h d).
Proof. unfold canRefresh, IsRefreshOnCooldown. walk. Qed.
Lemma isTimedOut_quiet d : quiet (isTimedOut h d).
Proof. unfold isTimedOut, IsTimedOut. walk. Qed.
Lemma shouldRefresh_quiet d : quiet (shouldRefresh h d).
Proof. unfold shouldRefresh, ShouldRefresh, IsRefreshOnCooldown, NextRefresh. walk. Qed.
Lemma refreshed_metadata_quiet m x : quiet (refreshed_metadata h m x).
Proof. unfold refreshed_metadata, Metadata_Refresh, ExtendTimeout. walk. Qed.
Lemma refresh_grant_quiet t : quiet (refresh_grant h t).
Proof. unfold refresh_grant. walk. Qed.

(** The locks made for the key keep the relation through the loop. *)
Lemma acquire_quiet :
  (forall l d, lock_for k l -> quiet (Lock_Acquire l d)) -> quiet (acquire (MakeLock k)).
Proof.
  intros Ha. unfold acquire. apply keeps_bind; [apply _|walk|]. intros events.
  assert (Hl : lock_for k (MakeLock k)) by apply lock_made. revert Hl. generalize (MakeLock k) as l.
  induction events as [|ev events IH]; intros l Hl; cbn [acquire_loop]; [walk|].
  destruct ev; [walk|walk|]. apply keeps_bind_val; [apply _|by apply Ha|].
  intros [r l'] [w Hw]. assert (Hl' : lock_for k l').
  { pose proof (lock_tried k l refreshLockDuration w Hl) as Ht. by rewrite Hw in Ht. }
  destruct r; [walk|]. destruct (errors_Is _ _); [by apply IH|walk].
Qed.
End Sessions.
#[export] Hint Resolve canRefresh_quiet isTimedOut_quiet shouldRefresh_quiet refreshed_metadata_quiet
  refresh_grant_quiet : keeps.
