(* ===== verification/RefreshProtocol.v ===== *)
(** * Concurrent refreshes: the lock of [Handler.Refresh] under interleaving

    [Handler.Refresh] of [pkg/session/handler.go], as run by any number of
    requests (and instances of the program) on one session at once: a program
    counter each, the shared session, the lock of [pkg/session/lock.go] and the
    clock.  A step is one operation on the shared state or one call to the
    provider; time passes between them.  The decisions are those of
    [SessionHandler]: [can_refresh], [timed_out], and the refreshed data. *)

From S2P Require Import Prelude GoStrings GoTime GoError Config Crypter Openid OpenidClient SessionData Store SessionHandler.
#[local] Open Scope Z_scope.

(** Where a request is in [Refresh]. *)
Inductive PC :=
| Idle                  (* before, or after the deferred release *)
| Acquiring             (* in the loop that acquires the lock *)
| Holding               (* acquired; about to read the session again *)
| Reread (d : Data)     (* read; about to decide *)
| Eligible (d : Data)   (* canRefresh held; about to check the timeout *)
| Cleared (d : Data)    (* not timed out; about to ask the provider *)
| Sent (d : Data)       (* the refresh token of d was sent *)
| Received (d' : Data)  (* the refreshed data; about to update the store *)
| Finishing.            (* returning; about to release the lock *)

Definition critical (pc : PC) : bool :=
  match pc with Idle | Acquiring => false | _ => true end.

(** [NoOpLock], or [RedisLock] with the holder and the end of its lease. *)
Inductive LockMode := NoOpMode | RedisMode.
#[global] Instance LockMode_eq_dec : EqDecision LockMode.
Proof. solve_decision. Defined.

(** The calls to the provider and the updates of the store, oldest first. *)
Inductive Call := Grant (i : nat) (d : Data) (t : Time) | Updated (d : Data) (t : Time).

Record Sys := mkSys {
  sys_now : Time;
  sys_session : option Data;
  sys_lock : option (nat * Time);
  sys_pc : nat -> PC;
  sys_calls : list Call }.

Definition set_pc (i : nat) (pc : PC) (f : nat -> PC) : nat -> PC :=
  fun j => if decide (j = i) then pc else f j.

Section Protocol.
Context {Key : Type} (h : Handler Key) (mode : LockMode).

(** The data after a grant whose answer is read at [t], the timeout extended
    from [t']. *)
Definition refreshed_at (d : Data) (resp : TokenResponse) (t t' : Time) : Data :=
  let m := d_Metadata d in
  let timeout := if Inactivity (h_cfg h) then t' + InactivityTimeout (h_cfg h)
                 else TimeoutAt (md_Session m) in
  Data_with_metadata (Data_with_tokens d (tr_AccessToken resp) (tr_RefreshToken resp))
    (mkMetadata (mkMetadataSession (CreatedAt (md_Session m)) (EndsAt (md_Session m)) timeout)
       (mkMetadataTokens (t + seconds (tr_ExpiresIn resp)) t)).

(** Whether the lock can be obtained: a lease that ended is gone. *)
Definition lock_free (s : Sys) : Prop :=
  match mode with
  | NoOpMode => True
  | RedisMode => match sys_lock s with None => True | Some (_, e) => e <= sys_now s end
  end.
Definition locked_by (i : nat) (s : Sys) : option (nat * Time) :=
  match mode with
  | NoOpMode => sys_lock s
  | RedisMode => Some (i, sys_now s + refreshLockDuration)
  end.
(** Releasing deletes the lock only if it is still one's own. *)
Definition released (i : nat) (s : Sys) : option (nat * Time) :=
  match sys_lock s with
  | Some (j, e) => if decide (j = i) then None else Some (j, e)
  | None => None
  end.

(** Request [i] moves on to [pc]. *)
Definition moved (i : nat) (pc : PC) (s : Sys) : Sys :=
  mkSys (sys_now s) (sys_session s) (sys_lock s) (set_pc i pc (sys_pc s)) (sys_calls s).
Definition called (c : Call) (s : Sys) : Sys :=
  mkSys (sys_now s) (sys_session s) (sys_lock s) (sys_pc s) (sys_calls s ++ [c]).
Definition with_lock (l : option (nat * Time)) (s : Sys) : Sys :=
  mkSys (sys_now s) (sys_session s) l (sys_pc s) (sys_calls s).
Definition with_session (d : option Data) (s : Sys) : Sys :=
  mkSys (sys_now s) d (sys_lock s) (sys_pc s) (sys_calls s).

Inductive sys_step : Sys -> Sys -> Prop :=
| step_tick s t :                            (* time passes *)
    sys_now s <= t ->
    sys_step s (mkSys t (sys_session s) (sys_lock s) (sys_pc s) (sys_calls s))
| step_start s i d :                         (* canRefresh of the caller's data *)
    sys_pc s i = Idle -> can_refresh h d (sys_now s) = true ->
    sys_step s (moved i Acquiring s)
| step_give_up s i :                         (* timeout, context done, or an error *)
    sys_pc s i = Acquiring -> sys_step s (moved i Idle s)
| step_acquire s i :
    sys_pc s i = Acquiring -> lock_free s ->
    sys_step s (moved i Holding (with_lock (locked_by i s) s))
| step_reread s i d :
    sys_pc s i = Holding -> sys_session s = Some d -> sys_step s (moved i (Reread d) s)
| step_reread_fails s i :
    sys_pc s i = Holding -> sys_step s (moved i Finishing s)
| step_eligible s i d :
    sys_pc s i = Reread d ->
    sys_step s (moved i (if can_refresh h d (sys_now s) then Eligible d else Finishing) s)
| step_inactive s i d :
    sys_pc s i = Eligible d -> timed_out h d (sys_now s) = true ->
    sys_step s (moved i Finishing s)
| step_active s i d :
    sys_pc s i = Eligible d -> timed_out h d (sys_now s) = false ->
    sys_step s (moved i (Cleared d) s)
| step_not_sent s i d :                      (* no request could be made, or the context is done *)
    sys_pc s i = Cleared d -> sys_step s (moved i Finishing s)
| step_send s i d :
    sys_pc s i = Cleared d ->
    sys_step s (moved i (Sent d) (called (Grant i d (sys_now s)) s))
| step_resend s i d :                        (* retried after a server error *)
    sys_pc s i = Sent d ->
    sys_step s (called (Grant i d (sys_now s)) s)
| step_receive s i d resp t' :               (* the clock is read twice *)
    sys_pc s i = Sent d -> sys_now s <= t' ->
    sys_step s (moved i (Received (refreshed_at d resp (sys_now s) t')) s)
| step_grant_fails s i d :
    sys_pc s i = Sent d -> sys_step s (moved i Finishing s)
| step_update s i d' :                       (* also where it was deleted meanwhile *)
    sys_pc s i = Received d' ->
    sys_step s (moved i Finishing (called (Updated d' (sys_now s)) (with_session (Some d') s)))
| step_update_fails s i d' :
    sys_pc s i = Received d' -> sys_step s (moved i Finishing s)
| step_release s i :
    sys_pc s i = Finishing -> sys_step s (moved i Idle (with_lock (released i s) s))
| step_delete s :                            (* logout, or the session expires *)
    sys_step s (with_session None s).

(** A holder whose lease is in the lock has not outlived it. *)
Definition timely (s : Sys) : Prop :=
  forall i e, critical (sys_pc s i) = true -> sys_lock s = Some (i, e) -> sys_now s < e.

Inductive reachable (s0 : Sys) : Sys -> Prop :=
| reach_init : reachable s0 s0
| reach_step s s' : reachable s0 s -> sys_step s s' -> reachable s0 s'.

(** Runs in which no holder outlives its lease. *)
Inductive timely_reachable (s0 : Sys) : Sys -> Prop :=
| treach_init : timely_reachable s0 s0
| treach_step s s' :
    timely_reachable s0 s -> sys_step s s' -> timely s' -> timely_reachable s0 s'.
End Protocol.

Definition initial_sys (t : Time) (d : option Data) : Sys := mkSys t d None (fun _ => Idle) [].

(** The last data an update stored. *)
Fixpoint last_update (cs : list Call) : option Data :=
  match cs with
  | [] => None
  | c :: cs' =>
      match last_update cs', c with
      | Some d, _ => Some d
      | None, Updated d _ => Some d
      | None, Grant _ _ _ => None
      end
  end.

(** Every grant sends the refresh token of the data stored last, which was off
    cooldown. *)
Definition paced (cs : list Call) : Prop :=
  forall before i d t after, cs = before ++ Grant i d t :: after ->
    RefreshCooldown (d_Metadata d) <= t
    /\ forall d', last_update before = Some d' -> d = d'.

(** ** Lemmas *)

Lemma set_pc_same (i : nat) (pc : PC) (f : nat -> PC) : set_pc i pc f i = pc.
Proof. unfold set_pc. by rewrite decide_True. Qed.
Lemma set_pc_other (i j : nat) (pc : PC) (f : nat -> PC) : j <> i -> set_pc i pc f j = f j.
Proof. intros H. unfold set_pc. by rewrite decide_False. Qed.

Lemma last_update_app (cs : list Call) (c : Call) :
  last_update (cs ++ [c]) = match c with Updated d _ => Some d | Grant _ _ _ => last_update cs end.
Proof.
  induction cs as [|a cs IH]; cbn; [by destruct c|]. rewrite IH. destruct c; [|done].
  by destruct (last_update cs).
Qed.

Lemma paced_app_grant (cs : list Call) (i : nat) (d : Data) (t : Time) :
  paced cs -> RefreshCooldown (d_Metadata d) <= t ->
  (forall d', last_update cs = Some d' -> d = d') -> paced (cs ++ [Grant i d t]).
Proof.
  intros Hp Hc Hl before i' d' t' after Heq.
  destruct after as [|c after _] using rev_ind.
  - apply app_inj_tail in Heq as [-> [= <- <- <-]]. by split.
  - rewrite app_comm_cons, app_assoc in Heq. apply app_inj_tail in Heq as [-> _].
    by eapply Hp.
Qed.

Lemma paced_app_update (cs : list Call) (d : Data) (t : Time) :
  paced cs -> paced (cs ++ [Updated d t]).
Proof.
  intros Hp before i' d' t' after Heq.
  destruct after as [|c after _] using rev_ind.
  - by apply app_inj_tail in Heq as [_ [=]].
  - rewrite app_comm_cons, app_assoc in Heq. apply app_inj_tail in Heq as [-> _].
    by eapply Hp.
Qed.

Section Facts.
Context {Key : Type} (h : Handler Key).
Implicit Types (s : Sys) (pc : PC).

(** The step's data is what the code computes, from two readings of the clock. *)
Lemma refreshed_at_run {E : Env} {S} (d : Data) (resp : TokenResponse) (w : World S) :
  exists n, refreshed_metadata h (d_Metadata d) (tr_ExpiresIn resp) w
    = (d_Metadata (refreshed_at h d resp (env_now (w_tick w)) (env_now (1 + w_tick w))), ticked n w).
Proof.
  destruct (refreshed_metadata_run h (d_Metadata d) (tr_ExpiresIn resp) w)
    as (n & m' & Hm & Htok & Hcr & Hen & Hto).
  exists n. rewrite Hm. unfold refreshed_at. cbv zeta. cbn [d_Metadata Data_with_metadata].
  destruct m' as [[cr en to] tok]. cbn [md_Tokens md_Session CreatedAt EndsAt TimeoutAt] in *.
  by rewrite Htok, Hcr, Hen, Hto.
Qed.

(** The data a request holds under the lock, and the data it found off
    cooldown. *)
Definition holds pc : option Data :=
  match pc with Reread d | Eligible d | Cleared d | Sent d => Some d | _ => None end.
Definition cooled pc : option Data :=
  match pc with Eligible d | Cleared d | Sent d => Some d | _ => None end.

Record sys_inv s : Prop := {
  inv_lock : forall i, critical (sys_pc s i) = true -> exists e, sys_lock s = Some (i, e);
  inv_data : forall i d d', holds (sys_pc s i) = Some d -> last_update (sys_calls s) = Some d' -> d = d';
  inv_cool : forall i d, cooled (sys_pc s i) = Some d -> RefreshCooldown (d_Metadata d) <= sys_now s;
  inv_last : forall d, last_update (sys_calls s) = Some d ->
               sys_session s = Some d \/ sys_session s = None;
  inv_paced : paced (sys_calls s) }.

Lemma inv_exclusive s i j :
  sys_inv s -> critical (sys_pc s i) = true -> critical (sys_pc s j) = true -> i = j.
Proof.
  intros Hi H1 H2. destruct (inv_lock s Hi i H1) as [e1 E1].
  destruct (inv_lock s Hi j H2) as [e2 E2]. congruence.
Qed.

Lemma holds_critical pc d : holds pc = Some d -> critical pc = true.
Proof. by destruct pc. Qed.

Lemma sys_inv_moved s i pc :
  sys_inv s ->
  (critical pc = true -> exists e, sys_lock s = Some (i, e)) ->
  (forall d d', holds pc = Some d -> last_update (sys_calls s) = Some d' -> d = d') ->
  (forall d, cooled pc = Some d -> RefreshCooldown (d_Metadata d) <= sys_now s) ->
  sys_inv (moved i pc s).
Proof.
  intros Hi Hc Hh Ho. split; cbn; [| | |apply (inv_last s Hi)|apply (inv_paced s Hi)]; intros j;
    (destruct (decide (j = i)) as [->|Hne];
     [rewrite set_pc_same|rewrite set_pc_other by done]).
  - exact Hc.
  - apply (inv_lock s Hi).
  - apply Hh.
  - apply (inv_data s Hi).
  - apply Ho.
  - apply (inv_cool s Hi).
Qed.

Lemma sys_inv_called_grant s i d :
  sys_inv s -> cooled (sys_pc s i) = Some d ->
  sys_inv (called (Grant i d (sys_now s)) s).
Proof.
  intros Hi Hc.
  assert (Hh : holds (sys_pc s i) = Some d) by (by destruct (sys_pc s i)).
  split; cbn; rewrite ?last_update_app; [apply (inv_lock s Hi)|apply (inv_data s Hi)|
    apply (inv_cool s Hi)|apply (inv_last s Hi)|].
  apply paced_app_grant; [apply (inv_paced s Hi)|by apply (inv_cool s Hi i)|].
  intros d'. by apply (inv_data s Hi i).
Qed.

(** Acquiring: whoever is inside holds an unexpired lease, so nobody is. *)
Lemma sys_inv_acquire s i :
  sys_inv s -> timely s -> lock_free RedisMode s -> critical (sys_pc s i) = false ->
  sys_inv (with_lock (locked_by RedisMode i s) s) /\ (forall j, critical (sys_pc s j) = false).
Proof.
  intros Hi Ht Hf Hc.
  assert (Hnone : forall j, critical (sys_pc s j) = false).
  { intros j. destruct (critical (sys_pc s j)) eqn:E; [|done]. exfalso.
    destruct (inv_lock s Hi j E) as [e He]. specialize (Ht j e E He).
    unfold lock_free in Hf. rewrite He in Hf. lia. }
  split; [|done]. destruct Hi as [_ H2 H3 H4 H5]. split; cbn; [|exact H2|exact H3|exact H4|exact H5].
  intros j Hj. by rewrite Hnone in Hj.
Qed.

Lemma sys_inv_update s i d' :
  sys_inv s -> sys_pc s i = Received d' ->
  sys_inv (called (Updated d' (sys_now s)) (with_session (Some d') s)).
Proof.
  intros Hi Hpc. assert (Hc : critical (sys_pc s i) = true) by (by rewrite Hpc).
  split; cbn; rewrite ?last_update_app; [apply (inv_lock s Hi)| |apply (inv_cool s Hi)| |].
  - intros j d d2 Hj _. pose proof (holds_critical _ _ Hj) as Hcj.
    rewrite (inv_exclusive s j i Hi Hcj Hc), Hpc in Hj. done.
  - intros d [= ->]. by left.
  - apply paced_app_update, (inv_paced s Hi).
Qed.

Lemma sys_inv_release s i :
  sys_inv s -> sys_inv (moved i Idle (with_lock (released i s) s)).
Proof.
  intros Hi. split; cbn; [| | |apply (inv_last s Hi)|apply (inv_paced s Hi)]; intros j;
    (destruct (decide (j = i)) as [->|Hne]; [by rewrite set_pc_same|rewrite set_pc_other by done]).
  - intros Hj. destruct (inv_lock s Hi j Hj) as [e He]. exists e. unfold released. rewrite He.
    by rewrite decide_False.
  - apply (inv_data s Hi).
  - apply (inv_cool s Hi).
Qed.

Lemma sys_step_inv s s' : sys_inv s -> timely s -> sys_step h RedisMode s s' -> sys_inv s'.
Proof.
  intros Hi Ht Hs.
  assert (Hkeep : forall i pc, critical (sys_pc s i) = true -> holds pc = None ->
            sys_inv (moved i pc s)).
  { intros i pc Hc Hh. apply sys_inv_moved; [done|intros _; by apply (inv_lock s Hi)| |].
    - intros d d'. by rewrite Hh.
    - intros d Hd. by destruct pc. }
  inversion Hs as [? t Hle|? i d Hp Hc|? i Hp|? i Hp Hf|? i d Hp Hse|? i Hp|? i d Hp|? i d Hp Hto
                  |? i d Hp Hto|? i d Hp|? i d Hp|? i d Hp|? i d resp t2 Hp Hle|? i d Hp|? i d1 Hp
                  |? i d1 Hp|? i Hp|?]; subst.
  - destruct Hi as [H1 H2 H3 H4 H5]. split; cbn; try assumption.
    intros i d Hd. specialize (H3 i d Hd). lia.
  - by apply sys_inv_moved.
  - by apply sys_inv_moved.
  - destruct (sys_inv_acquire s i Hi Ht Hf) as [Ha _]; [by rewrite Hp|].
    apply sys_inv_moved; [done| |done..]. intros _. by eexists.
  - apply sys_inv_moved; [done|intros _; apply (inv_lock s Hi); by rewrite Hp| |done].
    intros x d' [= <-] Hl. destruct (inv_last s Hi d' Hl); congruence.
  - apply Hkeep; [by rewrite Hp|done].
  - destruct (can_refresh h d (sys_now s)) eqn:Ec; [|apply Hkeep; [by rewrite Hp|done]].
    apply sys_inv_moved; [done|intros _; apply (inv_lock s Hi); by rewrite Hp| |].
    + intros x d' [= <-]. apply (inv_data s Hi i). by rewrite Hp.
    + intros x [= <-]. unfold can_refresh, Before in Ec. to_prop. lia.
  - apply Hkeep; [by rewrite Hp|done].
  - apply sys_inv_moved; [done|intros _; apply (inv_lock s Hi); by rewrite Hp| |].
    + intros x d' [= <-]. apply (inv_data s Hi i). by rewrite Hp.
    + intros x [= <-]. apply (inv_cool s Hi i). by rewrite Hp.
  - apply Hkeep; [by rewrite Hp|done].
  - apply sys_inv_moved.
    + apply sys_inv_called_grant; [done|by rewrite Hp].
    + intros _. apply (inv_lock s Hi). by rewrite Hp.
    + intros x d' [= <-]. cbn. rewrite last_update_app. apply (inv_data s Hi i). by rewrite Hp.
    + intros x [= <-]. apply (inv_cool s Hi i). by rewrite Hp.
  - apply sys_inv_called_grant; [done|by rewrite Hp].
  - apply Hkeep; [by rewrite Hp|done].
  - apply Hkeep; [by rewrite Hp|done].
  - apply sys_inv_moved; [by apply (sys_inv_update s i)| |done..].
    intros _. apply (inv_lock s Hi). by rewrite Hp.
  - apply Hkeep; [by rewrite Hp|done].
  - by apply sys_inv_release.
  - destruct Hi as [H1 H2 H3 H4 H5]. split; cbn; try assumption. intros d _. by right.
Qed.

Lemma timely_reachable_inv t d s :
  timely_reachable h RedisMode (initial_sys t d) s -> sys_inv s /\ timely s.
Proof.
  induction 1 as [|s s' _ [IH Ht] Hs Ht'].
  - split; [|by intros i e]. split; cbn; try done. intros before i x t' after Heq.
    by destruct before.
  - split; [|done]. by eapply sys_step_inv.
Qed.
End Facts.

(** ** Concrete runs *)

Lemma moved_pc (i : nat) (pc : PC) (s : Sys) : sys_pc (moved i pc s) i = pc.
Proof. apply set_pc_same. Qed.

Section Runs.
Context {Key : Type} (h : Handler Key).

(** Request [i] runs from its start to its grant, when it can get the lock. *)
Lemma run_to_grant mode s0 s i d :
  reachable h mode s0 s ->
  sys_pc s i = Idle -> lock_free mode s -> sys_session s = Some d ->
  can_refresh h d (sys_now s) = true -> timed_out h d (sys_now s) = false ->
  exists s', reachable h mode s0 s' /\ sys_calls s' = sys_calls s ++ [Grant i d (sys_now s)]
    /\ sys_now s' = sys_now s /\ sys_session s' = Some d /\ sys_lock s' = locked_by mode i s
    /\ forall j, j <> i -> sys_pc s' j = sys_pc s j.
Proof.
  intros H0 Hpc Hf Hs Hc Ht.
  assert (H1 : reachable h mode s0 (moved i Acquiring s)) by (eapply reach_step; [exact H0|by eapply step_start]).
  unshelve epose proof (reach_step h mode s0 _ _ H1 (step_acquire h mode _ i _ _)) as H2;
    [apply moved_pc|exact Hf|].
  unshelve epose proof (reach_step h mode s0 _ _ H2 (step_reread h mode _ i d _ _)) as H3;
    [apply moved_pc|exact Hs|].
  unshelve epose proof (reach_step h mode s0 _ _ H3 (step_eligible h mode _ i d _)) as H4;
    [apply moved_pc|].
  cbn [moved with_lock sys_now] in H4. rewrite Hc in H4.
  unshelve epose proof (reach_step h mode s0 _ _ H4 (step_active h mode _ i d _ _)) as H5;
    [apply moved_pc|exact Ht|].
  unshelve epose proof (reach_step h mode s0 _ _ H5 (step_send h mode _ i d _)) as H6;
    [apply moved_pc|].
  eexists. split; [exact H6|]. cbn. split; [done|]. split; [done|]. split; [done|]. split.
  - by destruct mode.
  - intros j Hj. by rewrite !set_pc_other by done.
Qed.
End Runs.

(** ** Progress *)

(** How far a request is from the end of [Refresh]. *)
Definition rank (pc : PC) : nat :=
  match pc with
  | Idle => 0 | Finishing => 1 | Received _ => 2 | Sent _ => 3 | Cleared _ => 4
  | Eligible _ => 5 | Reread _ => 6 | Holding => 7 | Acquiring => 8
  end.

Section Progress.
Context {Key : Type} (h : Handler Key) (mode : LockMode).
Implicit Types (s : Sys).

Lemma moved_rank s i j pc :
  (rank pc < rank (sys_pc s i))%nat ->
  set_pc i pc (sys_pc s) j = sys_pc s j
  \/ (rank (set_pc i pc (sys_pc s) j) < rank (sys_pc s j))%nat.
Proof.
  intros H. destruct (decide (j = i)) as [->|Hne]; [|left; by apply set_pc_other].
  right. by rewrite set_pc_same.
Qed.

(** A step leaves a request where it is, starts it, or brings it nearer to the end. *)
Lemma step_rank s s' j :
  sys_step h mode s s' ->
  sys_pc s' j = sys_pc s j \/ sys_pc s j = Idle \/ (rank (sys_pc s' j) < rank (sys_pc s j))%nat.
Proof.
  assert (Hm : forall i pc, (rank pc < rank (sys_pc s i))%nat ->
            set_pc i pc (sys_pc s) j = sys_pc s j
            \/ sys_pc s j = Idle \/ (rank (set_pc i pc (sys_pc s) j) < rank (sys_pc s j))%nat).
  { intros i pc Hr. destruct (moved_rank s i j pc Hr); auto. }
  inversion 1 as [? t Hle|? i d Hp Hc|? i Hp|? i Hp Hf|? i d Hp Hse|? i Hp|? i d Hp|? i d Hp Hto
                 |? i d Hp Hto|? i d Hp|? i d Hp|? i d Hp|? i d resp t2 Hp Hle|? i d Hp|? i d1 Hp
                 |? i d1 Hp|? i Hp|?]; subst; cbn [sys_pc moved called with_lock with_session];
    try (by left); try (apply Hm; rewrite Hp; cbn; lia).
  - destruct (decide (j = i)) as [->|Hne]; [by right; left|left; by apply set_pc_other].
  - apply Hm. rewrite Hp. destruct (can_refresh _ _ _); cbn; lia.
Qed.

(** A request that started has a step of its own, whatever the others do. *)
Lemma own_step s i :
  sys_pc s i <> Idle ->
  exists s', sys_step h mode s s' /\ sys_now s' = sys_now s
    /\ (forall j, j <> i -> sys_pc s' j = sys_pc s j)
    /\ (rank (sys_pc s' i) < rank (sys_pc s i))%nat.
Proof.
  intros Hne.
  assert (Hm : forall s1 pc, sys_step h mode s (moved i pc s1) -> sys_now s1 = sys_now s ->
            sys_pc s1 = sys_pc s -> (rank pc < rank (sys_pc s i))%nat ->
            exists s', sys_step h mode s s' /\ sys_now s' = sys_now s
              /\ (forall j, j <> i -> sys_pc s' j = sys_pc s j)
              /\ (rank (sys_pc s' i) < rank (sys_pc s i))%nat).
  { intros s1 pc Hs Hn Hp Hr. exists (moved i pc s1). split; [done|]. split; [done|]. split.
    - intros j Hj. cbn. rewrite Hp. by apply set_pc_other.
    - by rewrite moved_pc. }
  destruct (sys_pc s i) as [| | |d|d|d|d|d|] eqn:Hp; [done|..].
  - by eapply Hm; [apply step_give_up| | |cbn; lia].
  - by eapply Hm; [apply step_reread_fails| | |cbn; lia].
  - eapply Hm; [by apply step_eligible|done..|]. destruct (can_refresh _ _ _); cbn; lia.
  - destruct (timed_out h d (sys_now s)) eqn:Ht.
    + by eapply Hm; [eapply step_inactive| | |cbn; lia].
    + by eapply Hm; [apply step_active| | |cbn; lia].
  - by eapply Hm; [eapply step_not_sent| | |cbn; lia].
  - by eapply Hm; [eapply step_grant_fails| | |cbn; lia].
  - by eapply Hm; [eapply step_update_fails| | |cbn; lia].
  - by eapply (Hm (with_lock (released i s) s)); [apply step_release| | |cbn; lia].
Qed.

Lemma can_finish s i :
  exists s', rtc (sys_step h mode) s s' /\ sys_pc s' i = Idle /\ sys_now s' = sys_now s
    /\ forall j, j <> i -> sys_pc s' j = sys_pc s j.
Proof.
  remember (rank (sys_pc s i)) as n eqn:Hn. revert s Hn.
  induction n as [n IH] using lt_wf_ind. intros s Hn.
  destruct (decide (rank (sys_pc s i) = 0%nat)) as [H0|H0].
  { exists s. split; [done|]. split; [by destruct (sys_pc s i)|done]. }
  destruct (own_step s i) as (s1 & H1 & Hn1 & Hp1 & Hr1); [by intros Hi; rewrite Hi in H0|].
  destruct (IH (rank (sys_pc s1 i)) ltac:(lia) s1 eq_refl) as (s2 & H2 & Hi & Hn2 & Hp2).
  exists s2. split; [by eapply rtc_l|]. split; [done|]. split; [congruence|].
  intros j Hj. by rewrite Hp2, Hp1.
Qed.

(** The lease of a lock ends within its duration. *)
Definition leased s : Prop :=
  forall i e, sys_lock s = Some (i, e) -> e <= sys_now s + refreshLockDuration.

Lemma step_leased s s' : leased s -> sys_step h RedisMode s s' -> leased s'.
Proof.
  unfold leased. intros Hl Hs.
  inversion Hs as [? t Hle|? i d Hp Hc|? i Hp|? i Hp Hf|? i d Hp Hse|? i Hp|? i d Hp|? i d Hp Hto
                 |? i d Hp Hto|? i d Hp|? i d Hp|? i d Hp|? i d resp t2 Hp Hle|? i d Hp|? i d1 Hp
                 |? i d1 Hp|? i Hp|?]; subst; cbn; try exact Hl.
  - intros j e He. specialize (Hl j e He). lia.
  - intros j e [= <- <-]. lia.
  - intros j e. unfold released. destruct (sys_lock s) as [[j' e']|] eqn:El; [|done].
    destruct (decide _); [done|]. intros [= <- <-]. by apply (Hl j').
Qed.

Lemma reachable_leased t d s : reachable h RedisMode (initial_sys t d) s -> leased s.
Proof.
  induction 1 as [|s s' _ IH Hs]; [by intros i e|by eapply step_leased].
Qed.

(** So a waiting request can acquire it then. *)
Lemma can_acquire s i :
  leased s -> sys_pc s i = Acquiring ->
  exists s', rtc (sys_step h RedisMode) s s' /\ sys_pc s' i = Holding
    /\ sys_now s' <= sys_now s + refreshLockDuration
    /\ forall j, j <> i -> sys_pc s' j = sys_pc s j.
Proof.
  intros Hl Hp. set (t := sys_now s + refreshLockDuration).
  set (s1 := mkSys t (sys_session s) (sys_lock s) (sys_pc s) (sys_calls s)).
  assert (H1 : sys_step h RedisMode s s1).
  { apply step_tick. unfold t, refreshLockDuration, Second. lia. }
  assert (Hf : lock_free RedisMode s1).
  { unfold lock_free. cbn. destruct (sys_lock s) as [[j e]|] eqn:El; [|done]. by apply (Hl j). }
  exists (moved i Holding (with_lock (locked_by RedisMode i s1) s1)).
  split; [eapply rtc_l; [exact H1|by apply rtc_once, step_acquire]|].
  split; [apply moved_pc|]. split; [cbn; lia|]. intros j Hj. cbn. by apply set_pc_other.
Qed.
End Progress.

(** ** Properties *)



(** C31: Without that, a refresh token can be sent twice: with the in-memory
    store's lock by any two concurrent requests, and with the Redis lock when the
    first request is still waiting for the provider when its lease of ten seconds
    ends, which a client timeout of ten seconds and retries allow. *)
Theorem double_grant {Key : Type} (h : Handler Key) (t : Time) (d : Data)
  (Hcan : can_refresh h d t = true) (Hactive : timed_out h d t = false)
  (Hcan' : can_refresh h d (t + refreshLockDuration) = true)
  (Hactive' : timed_out h d (t + refreshLockDuration) = false) :
  (exists s, reachable h NoOpMode (initial_sys t (Some d)) s
     /\ sys_calls s = [Grant 0 d t; Grant 1 d t])
  /\ exists s, reachable h RedisMode (initial_sys t (Some d)) s
       /\ sys_calls s = [Grant 0 d t; Grant 1 d (t + refreshLockDuration)].
Proof.
  split.
  - destruct (run_to_grant h NoOpMode _ _ 0%nat d (reach_init h NoOpMode (initial_sys t (Some d)))
                eq_refl I eq_refl Hcan Hactive) as (s1 & H1 & Hc1 & Hn1 & Hs1 & _ & Hp1).
    cbn in Hn1. rewrite <- Hn1 in Hcan, Hactive.
    destruct (run_to_grant h NoOpMode _ s1 1%nat d H1 (Hp1 1%nat ltac:(done)) I Hs1 Hcan Hactive)
      as (s2 & H2 & Hc2 & _).
    exists s2. split; [exact H2|]. by rewrite Hc2, Hc1, Hn1.
  - destruct (run_to_grant h RedisMode _ _ 0%nat d (reach_init h RedisMode (initial_sys t (Some d)))
                eq_refl I eq_refl Hcan Hactive) as (s1 & H1 & Hc1 & Hn1 & Hs1 & Hl1 & Hp1).
    cbn in Hn1, Hl1. pose (t' := t + refreshLockDuration).
    assert (Ht : sys_now s1 <= t') by (rewrite Hn1; unfold t', refreshLockDuration, Second; lia).
    assert (H1' := reach_step h RedisMode _ _ _ H1 (step_tick h RedisMode s1 t' Ht)).
    destruct (run_to_grant h RedisMode _ _ 1%nat d H1' (Hp1 1%nat ltac:(done))) as (s2 & H2 & Hc2 & _);
      [cbn; rewrite Hl1; unfold t'; lia|exact Hs1|exact Hcan'|exact Hactive'|].
    exists s2. split; [exact H2|]. cbn in Hc2. by rewrite Hc2, Hc1.
Qed.

(** ** Witnesses *)

(** The session of [SessionHandler]'s example, refreshed at [t]. *)
Definition protocol_time : Time := unix_epoch + 200 * Second.
Definition protocol_data : Data := mkData $"sid-1" $"at" $"jwt" $"rt" $"id-1" (example_metadata_at unix_epoch Hour).

Lemma protocol_can : can_refresh example_handler protocol_data protocol_time = true
  /\ timed_out example_handler protocol_data protocol_time = false
  /\ can_refresh example_handler protocol_data (protocol_time + refreshLockDuration) = true
  /\ timed_out example_handler protocol_data (protocol_time + refreshLockDuration) = false.
Proof. vm_compute. done. Qed.

Lemma double_grant_witness :
  exists s, reachable example_handler NoOpMode (initial_sys protocol_time (Some protocol_data)) s
    /\ sys_calls s = [Grant 0 protocol_data protocol_time; Grant 1 protocol_data protocol_time].
Proof.
  destruct protocol_can as (H1 & H2 & H3 & H4).
  destruct (double_grant example_handler protocol_time protocol_data H1 H2 H3 H4) as [H _].
  exact H.
Defined.

(** A timely run in which one request refreshes and another waits. *)
Lemma timely_run : exists s,
  timely_reachable example_handler RedisMode (initial_sys protocol_time (Some protocol_data)) s
  /\ sys_calls s = [Grant 0 protocol_data protocol_time] /\ critical (sys_pc s 0) = true.
Proof.
  destruct protocol_can as (Hc & Ht & _).
  unshelve epose proof (treach_step example_handler RedisMode _ _ _
     (treach_init _ _ (initial_sys protocol_time (Some protocol_data)))
     (step_start _ RedisMode _ 0%nat protocol_data _ _) _) as H1;
    [reflexivity|exact Hc|by intros j e _|].
  unshelve epose proof (treach_step _ _ _ _ _ H1 (step_acquire _ RedisMode _ 0%nat _ _) _) as H2;
    [apply moved_pc|exact I|intros j e _; cbn; intros [= <- <-]; vm_compute; done|].
  unshelve epose proof (treach_step _ _ _ _ _ H2 (step_reread _ RedisMode _ 0%nat protocol_data _ _) _)
    as H3; [apply moved_pc|reflexivity|intros j e _; cbn; intros [= <- <-]; vm_compute; done|].
  unshelve epose proof (treach_step _ _ _ _ _ H3 (step_eligible _ RedisMode _ 0%nat protocol_data _) _)
    as H4; [apply moved_pc|intros j e _; cbn; intros [= <- <-]; vm_compute; done|].
  cbn [moved with_lock sys_now initial_sys] in H4. rewrite Hc in H4.
  unshelve epose proof (treach_step _ _ _ _ _ H4 (step_active _ RedisMode _ 0%nat protocol_data _ _) _)
    as H5; [apply moved_pc|exact Ht|intros j e _; cbn; intros [= <- <-]; vm_compute; done|].
  unshelve epose proof (treach_step _ _ _ _ _ H5 (step_send _ RedisMode _ 0%nat protocol_data _) _)
    as H6; [apply moved_pc|intros j e _; cbn; intros [= <- <-]; vm_compute; done|].
  eexists. split; [exact H6|]. split; [done|]. cbn. by rewrite set_pc_same.
Qed.


(** The second request of that run waits for the lock. *)
Lemma waiting_run : exists s,
  reachable example_handler RedisMode (initial_sys protocol_time (Some protocol_data)) s
  /\ sys_pc s 1 = Acquiring.
Proof.
  destruct protocol_can as (Hc & _).
  eexists. split.
  - eapply reach_step; [apply reach_init|].
    apply (step_start _ RedisMode _ 1%nat protocol_data); [reflexivity|exact Hc].
  - apply moved_pc.
Qed.

