(* ===== verification/RefreshRefines.v ===== *)
(** * The code of [Handler.Refresh] follows the protocol

    [RefreshProtocol] describes a refresh as steps that interleave with those of
    other requests.  Here a run of the code is shown to be such a sequence of
    steps: its requests to the provider are the protocol's grants, what it stores
    is what the protocol's update stores.  The lock comes through an interface,
    [LockModel]: which mode of the protocol a store's locks follow, and how the
    protocol's lock stands for the real one.  Any store follows [NoOpMode], which
    promises nothing; [RedisLocks] shows that the Redis store follows
    [RedisMode]. *)

From S2P Require Import Prelude GoStrings GoTime GoUtf8 GoUrl GoError GoRfc3339 GoJson Config Crypter Cookie Openid Jwks OpenidClient SessionData Store Retry Keeps SessionHandler Frames RefreshProtocol.
#[local] Open Scope Z_scope.

(** The clock does not run backwards. *)
Class MonotoneClock {E : Env} : Prop :=
  clock_mono : forall a b, (a <= b)%nat -> env_now a <= env_now b.

(** ** The interface of the locks *)

(** [lock_rel k w x]: the protocol's lock [x] stands for the lock of the key [k]. *)
Class LockModel (S : Type) {St : Store S} := {
  lock_mode : LockMode;
  lock_rel : str -> World S -> option (nat * Time) -> Prop }.

(** Whatever stood for the lock still does. *)
Definition lock_kept {S : Type} {St : Store S} {LM : LockModel S} (k : str) (w w' : World S) : Prop :=
  forall x, lock_rel k w x -> lock_rel k w' x.

(** The lock was free when it was obtained, for a lease from then on. *)
Definition lock_obtained {S : Type} {St : Store S} {LM : LockModel S} {E : Env} (k : str) (d : Duration) (w w' : World S) : Prop :=
  exists j, (w_tick w <= j <= w_tick w')%nat
    /\ (forall i e, lock_rel k w (Some (i, e)) -> e <= env_now j)
    /\ forall i, lock_rel k w' (Some (i, env_now j + d)).

Class LockModelLaws (S : Type) {St : Store S} {LM : LockModel S} {E : Env} : Prop := {
  lock_rel_none : forall k w, lock_rel k w None;
  lock_frame : forall k w w',
    w_store w' = w_store w -> (w_tick w <= w_tick w')%nat -> lock_kept k w w';
  lock_read : forall k w, lock_kept k w (store_Read k w).2;
  lock_update : forall k v w, lock_kept k w (store_Update k v w).2;
  lock_acquire : forall k l d w, lock_for k l ->
    let '((r, _), w') := Lock_Acquire l d w in
    if is_ok r && bool_decide (lock_mode = RedisMode) then lock_obtained k d w w'
    else lock_kept k w w';
  lock_release : forall k l w, lock_mode = NoOpMode -> lock_for k l ->
    lock_kept k w (Lock_Release l w).2 }.

(** The position in the environment only advances, and the lock is left alone. *)
Section Calm.
Context {L : JwtLib} {Key : Type} {O : OAuth2 Key} {E : Env} {A : AEAD} {S : Type}.
Context {St : Store S} {R : Retry S} {LC : Location}.
Context {view : S -> gmap str EncryptedData} {HS : StoreLaws S view} {HR : RetryLaws S}.
Context {LM : LockModel S} {HL : LockModelLaws S}.
Context (h : Handler Key) (k : str).

Definition calm (w w' : World S) : Prop := (w_tick w <= w_tick w')%nat /\ lock_kept k w w'.
#[global] Instance calm_framed : Framed calm.
Proof.
  split; [split|].
  - intros w. split; [done|by intros x].
  - intros w1 w2 w3 [? H1] [? H2]. split; [lia|]. unfold lock_kept in *. auto.
  - intros w w' Hs _ Ht. split; [done|]. by apply lock_frame.
Qed.

Lemma calm_frame w w' : w_store w' = w_store w -> (w_tick w <= w_tick w')%nat -> calm w w'.
Proof. split; [done|by apply lock_frame]. Qed.

Lemma GetForKey_calm : keeps calm (GetForKey h k).
Proof.
  apply GetForKey_quiet; [apply _..|]. intros w.
  split; [apply (proj1 (proj2 (store_steps w)))|apply lock_read].
Qed.
Lemma session_Update_calm d : keeps calm (Update h k d).
Proof.
  apply session_Update_quiet; [apply _..|]. intros v w. split; [apply (store_steps w)|apply lock_update].
Qed.
Lemma RefreshGrant_calm t : keeps calm (RefreshGrant (h_client h) t).
Proof. by apply RefreshGrant_quiet; apply _. Qed.

(** What acquiring the lock did to it. *)
Definition lock_taken (w w' : World S) (ok : bool) : Prop :=
  (w_tick w <= w_tick w')%nat
  /\ if ok && bool_decide (lock_mode = RedisMode) then lock_obtained k refreshLockDuration w w'
     else lock_kept k w w'.

Lemma lock_taken_after w w1 w' ok : calm w w1 -> lock_taken w1 w' ok -> lock_taken w w' ok.
Proof.
  intros [Ht Hk] [Ht' H]. split; [lia|]. destruct (ok && _).
  - destruct H as (j & Hj & Hf & Hn). exists j. split; [lia|]. split; [|done]. eauto.
  - intros x Hx. by apply H, Hk.
Qed.

Lemma acquire_loop_taken events l w : lock_for k l ->
  lock_taken w (acquire_loop events l w).2 (is_ok (acquire_loop events l w).1.1).
Proof.
  revert l w. induction events as [|[] events IH]; intros l w Hl; cbn [acquire_loop];
    try (split; [done|by intros x]).
  rewrite bind_run. pose proof (lock_acquire k l refreshLockDuration w Hl) as Ha.
  pose proof (lock_tried k l refreshLockDuration w Hl) as Hl'.
  assert (Ht : (w_tick w <= w_tick (Lock_Acquire l refreshLockDuration w).2)%nat)
    by apply (store_steps w).
  destruct (Lock_Acquire l refreshLockDuration w) as [[[[]|e] l'] w1]; cbn [fst snd] in *; [by split|].
  destruct (errors_Is e ErrAcquireLock); [|by split].
  eapply lock_taken_after; [split; [exact Ht|exact Ha]|]. by apply IH.
Qed.

Lemma acquire_taken w :
  lock_taken w (acquire (MakeLock k) w).2 (is_ok (acquire (MakeLock k) w).1.1).
Proof.
  unfold acquire. rewrite bind_run. cbn [fst snd step].
  eapply lock_taken_after; [|apply acquire_loop_taken, lock_made].
  apply calm_frame; [done|cbn; lia].
Qed.
End Calm.

(** ** The simulation *)

(** The grants among calls, with who made them. *)
Definition grants (cs : list Call) : list (nat * Data) :=
  omap (fun c => match c with Grant j d _ => Some (j, d) | Updated _ _ => None end) cs.

Lemma grants_app (cs cs' : list Call) : grants (cs ++ cs') = grants cs ++ grants cs'.
Proof. apply omap_app. Qed.

Section Simulation.
Context {L : JwtLib} {Key : Type} {O : OAuth2 Key} {E : Env} {A : AEAD} {S : Type}.
Context {St : Store S} {R : Retry S} {LC : Location}.
Context {view : S -> gmap str EncryptedData} {HS : StoreLaws S view} {HR : RetryLaws S}.
Context {LM : LockModel S} {HL : LockModelLaws S}.
Context {HA : AEADLaws} {HK : KeygenLaw} {HZ : LocationLaws} {HC : MonotoneClock}.
Context (h : Handler Key) (k : str) (i : nat).
Implicit Types (w : World S) (s : Sys) (d : Data).

(** The session a refresh would read. *)
Definition session_at w : option Data :=
  e ← view (w_store w) !! k;
  match EncryptedData_Decrypt (h_crypter h) e with Ok d => Some d | Err _ => None end.

(** Request [i] has the protocol's lock, in the mode where there is one. *)
Definition owner s : Prop := lock_mode = RedisMode -> exists e, sys_lock s = Some (i, e).

(** The protocol's state stands for the world, with request [i] at [pc]. *)
Definition abs w s (pc : PC) : Prop :=
  sys_now s = env_now (w_tick w) /\ sys_session s = session_at w /\ sys_pc s i = pc
  /\ lock_rel k w (sys_lock s) /\ (critical pc = true -> owner s).

(** The protocol does what the code did: the same requests to the provider, by
    request [i] alone. *)
Definition sim w s w' s' : Prop :=
  rtc (sys_step h lock_mode) s s'
  /\ (forall j, j <> i -> sys_pc s' j = sys_pc s j)
  /\ exists cs evs, sys_calls s' = sys_calls s ++ cs /\ w_trace w' = w_trace w ++ evs
       /\ Forall2 (fun g ev => g.1 = i /\ is_refresh_of h (RefreshToken g.2) ev) (grants cs) evs.

Lemma sim_refl w s w' : w_trace w' = w_trace w -> sim w s w' s.
Proof.
  intros Ht. split; [done|]. split; [done|]. exists [], []. rewrite !app_nil_r. by repeat split.
Qed.

Lemma sim_trans w1 s1 w2 s2 w3 s3 : sim w1 s1 w2 s2 -> sim w2 s2 w3 s3 -> sim w1 s1 w3 s3.
Proof.
  intros (H1 & Hp1 & cs1 & evs1 & Hc1 & Ht1 & Hf1) (H2 & Hp2 & cs2 & evs2 & Hc2 & Ht2 & Hf2).
  split; [by etrans|]. split; [intros j Hj; by rewrite Hp2, Hp1|].
  exists (cs1 ++ cs2), (evs1 ++ evs2). rewrite Hc2, Hc1, Ht2, Ht1, !app_assoc, grants_app.
  split; [done|]. split; [done|]. by apply Forall2_app.
Qed.

(** A step of the protocol without a call. *)
Lemma sim_moved w s w' pc :
  w_trace w' = w_trace w -> sys_step h lock_mode s (moved i pc s) -> sim w s w' (moved i pc s).
Proof.
  intros Ht Hs. split; [by apply rtc_once|]. split.
  - intros j Hj. cbn. by apply set_pc_other.
  - exists [], []. cbn. rewrite !app_nil_r. by repeat split.
Qed.

Lemma abs_moved w s pc pc' :
  (critical pc' = true -> critical pc = true) -> abs w s pc -> abs w (moved i pc' s) pc'.
Proof.
  intros Hcr (Hn & Hs & _ & Hl & Ho). split; [done|]. split; [done|]. split; [apply moved_pc|].
  split; [exact Hl|]. intros Hc. by apply Ho, Hcr.
Qed.

Lemma step_abs w s pc pc' :
  (critical pc' = true -> critical pc = true) ->
  abs w s pc -> sys_step h lock_mode s (moved i pc' s) -> exists s', sim w s w s' /\ abs w s' pc'.
Proof.
  intros Hcr Ha Hs. exists (moved i pc' s). split; [by apply sim_moved|by eapply abs_moved].
Qed.

(** Time passes in the protocol, and the session may disappear. *)
Lemma settle w w' s :
  sys_session s = session_at w -> sys_now s <= env_now (w_tick w') ->
  (forall v, view (w_store w') !! k = Some v -> view (w_store w) !! k = Some v) ->
  exists s', rtc (sys_step h lock_mode) s s' /\ sys_pc s' = sys_pc s /\ sys_calls s' = sys_calls s
    /\ sys_lock s' = sys_lock s /\ sys_now s' = env_now (w_tick w') /\ sys_session s' = session_at w'.
Proof.
  intros Hs Hn Hv.
  set (s1 := mkSys (env_now (w_tick w')) (sys_session s) (sys_lock s) (sys_pc s) (sys_calls s)).
  assert (H1 : sys_step h lock_mode s s1) by by apply step_tick.
  assert (Hc : session_at w' = sys_session s \/ session_at w' = None).
  { unfold session_at. destruct (view (w_store w') !! k) as [v|] eqn:Ev; [|by right].
    left. rewrite Hs. unfold session_at. by rewrite (Hv v eq_refl). }
  destruct Hc as [Hc|Hc].
  - exists s1. split; [by apply rtc_once|]. by repeat split.
  - exists (with_session None s1). split; [eapply rtc_l; [exact H1|apply rtc_once, step_delete]|].
    by repeat split.
Qed.

Lemma sim_quiet w s w' s' :
  w_trace w' = w_trace w -> rtc (sys_step h lock_mode) s s' ->
  (forall j, j <> i -> sys_pc s' j = sys_pc s j) -> sys_calls s' = sys_calls s -> sim w s w' s'.
Proof.
  intros Ht Hr Hp Hc. split; [done|]. split; [done|]. exists [], []. rewrite !app_nil_r. by repeat split.
Qed.

(** Time passes, and the session may disappear. *)
Lemma pass w w' s pc :
  abs w s pc -> calm k w w' -> w_trace w' = w_trace w ->
  (forall v, view (w_store w') !! k = Some v -> view (w_store w) !! k = Some v) ->
  exists s', sim w s w' s' /\ abs w' s' pc.
Proof.
  intros (Hn & Hs & Hp & Hl & Ho) [Ht Hk] Htr Hv.
  destruct (settle w w' s Hs) as (s' & Hr & Hp' & Hc' & Hl' & Hn' & Hs'); [|done|].
  { rewrite Hn. by apply clock_mono. }
  exists s'. split; [apply sim_quiet; try done; by rewrite Hp'|].
  split; [done|]. split; [done|]. split; [by rewrite Hp'|]. split; [rewrite Hl'; by apply Hk|].
  unfold owner. by rewrite Hl'.
Qed.

Lemma pass_then w w' s pc pc' :
  (critical pc' = true -> critical pc = true) -> abs w s pc -> calm k w w' -> w_trace w' = w_trace w ->
  (forall v, view (w_store w') !! k = Some v -> view (w_store w) !! k = Some v) ->
  (forall s', abs w' s' pc -> sys_step h lock_mode s' (moved i pc' s')) ->
  exists s', sim w s w' s' /\ abs w' s' pc'.
Proof.
  intros Hcr Ha Ht Htr Hv Hstep. destruct (pass w w' s pc Ha Ht Htr Hv) as (s1 & H1 & Ha1).
  destruct (step_abs w' s1 pc pc' Hcr Ha1 (Hstep s1 Ha1)) as (s2 & H2 & Ha2).
  exists s2. split; [by eapply sim_trans|done].
Qed.

Lemma pass_ticked n w s pc : abs w s pc -> exists s', sim w s (ticked n w) s' /\ abs (ticked n w) s' pc.
Proof. intros Ha. apply (pass w _ s pc Ha); [apply calm_frame; [done|cbn; lia]|done|done]. Qed.

Lemma stored_session w d : stored (view := view) h w k d -> session_at w = Some d.
Proof. intros (e & He & Hd). unfold session_at. rewrite He. cbn. by rewrite Hd. Qed.

(** ** The phases of [Refresh] *)

(** The lock is obtained at some moment of the run, and not before it was free. *)
Lemma acquire_obtained w s w' :
  lock_mode = RedisMode -> abs w s Acquiring -> (w_tick w <= w_tick w')%nat ->
  w_trace w' = w_trace w -> lock_obtained k refreshLockDuration w w' ->
  (forall v, view (w_store w') !! k = Some v -> view (w_store w) !! k = Some v) ->
  exists s', sim w s w' s' /\ abs w' s' Holding.
Proof.
  intros Hm (Hn & Hs & Hp & Hl & _) Ht Htr (j & Hj & Hfree & Hgot) Hv.
  set (s1 := mkSys (env_now j) (sys_session s) (sys_lock s) (sys_pc s) (sys_calls s)).
  set (s2 := moved i Holding (with_lock (locked_by lock_mode i s1) s1)).
  assert (H1 : sys_step h lock_mode s s1) by (apply step_tick; rewrite Hn; apply clock_mono; lia).
  assert (H2 : sys_step h lock_mode s1 s2).
  { apply step_acquire; [done|]. unfold lock_free. rewrite Hm. cbn.
    destruct (sys_lock s) as [[o e]|] eqn:El; [|done]. by eapply Hfree. }
  destruct (settle w w' s2 Hs) as (s3 & H3 & Hp3 & Hc3 & Hl3 & Hn3 & Hs3); [|done|].
  { cbn. apply clock_mono. lia. }
  assert (Hlk : sys_lock s3 = Some (i, env_now j + refreshLockDuration)).
  { rewrite Hl3. cbn. unfold locked_by. by rewrite Hm. }
  exists s3. split.
  - apply sim_quiet; [done| | |by rewrite Hc3].
    + eapply rtc_l; [exact H1|]. eapply rtc_l; [exact H2|exact H3].
    + intros o Ho. rewrite Hp3. cbn. by apply set_pc_other.
  - split; [done|]. split; [done|]. split; [rewrite Hp3; apply moved_pc|].
    rewrite Hlk. split; [apply Hgot|]. intros _ _. rewrite Hlk. by eexists.
Qed.

Lemma acquire_sim w s r l w' :
  abs w s Acquiring -> acquire (MakeLock k) w = ((r, l), w') ->
  exists s', sim w s w' s' /\ abs w' s' (if is_ok r then Holding else Idle).
Proof.
  intros Ha He. destruct (acquire_spec HS k w) as ([Ht Hv] & _).
  destruct (acquire_taken k w) as [Htk Hlk]. rewrite He in *. cbn [fst snd] in *.
  assert (Hv' : forall v, view (w_store w') !! k = Some v -> view (w_store w) !! k = Some v)
    by (intros v; apply Hv, lockKey_ne).
  destruct r as [[]|e]; cbn [is_ok andb] in *.
  2:{ apply (pass_then w w' s Acquiring); try done. intros s1 (_ & _ & Hp & _). by apply step_give_up. }
  destruct (bool_decide (lock_mode = RedisMode)) eqn:Em.
  { apply bool_decide_eq_true in Em. by apply acquire_obtained. }
  apply bool_decide_eq_false in Em. assert (Hm : lock_mode = NoOpMode) by (by destruct lock_mode).
  destruct (pass w w' s Acquiring Ha (conj Htk Hlk) Ht Hv') as (s1 & H1 & (Hn & Hs & Hp & Hl & _)).
  exists (moved i Holding (with_lock (locked_by lock_mode i s1) s1)). split.
  - eapply sim_trans; [exact H1|]. apply sim_quiet; [done| | |done].
    + apply rtc_once, step_acquire; [done|]. by rewrite Hm.
    + intros o Ho. cbn. by apply set_pc_other.
  - split; [done|]. split; [done|]. split; [apply moved_pc|]. split.
    + cbn. unfold locked_by. by rewrite Hm.
    + intros _ Hr. congruence.
Qed.

Lemma release_sim w s l :
  lock_for k l -> abs w s Finishing ->
  exists s', sim w s (Lock_Release l w).2 s' /\ abs (Lock_Release l w).2 s' Idle.
Proof.
  intros Hlf (Hn & Hs & Hp & Hl & Ho). destruct (Release_locks HS l w k Hlf) as [Ht Hv].
  assert (Htk : (w_tick w <= w_tick (Lock_Release l w).2)%nat) by apply (store_steps w).
  set (s1 := moved i Idle (with_lock (released i s) s)).
  assert (H1 : sys_step h lock_mode s s1) by by apply step_release.
  destruct (settle w (Lock_Release l w).2 s1 Hs) as (s2 & H2 & Hp2 & Hc2 & Hl2 & Hn2 & Hs2).
  { cbn. rewrite Hn. by apply clock_mono. }
  { intros v. apply Hv, lockKey_ne. }
  exists s2. split.
  - apply sim_quiet; [done|by eapply rtc_l| |by rewrite Hc2].
    intros o Hoi. rewrite Hp2. cbn. by apply set_pc_other.
  - split; [done|]. split; [done|]. split; [rewrite Hp2; apply moved_pc|]. split; [|done].
    rewrite Hl2. cbn. destruct lock_mode eqn:Em.
    + apply (lock_release k l w Em Hlf). unfold released.
      destruct (sys_lock s) as [[o e]|]; [|exact Hl]. destruct (decide (o = i)); [|exact Hl].
      apply lock_rel_none.
    + destruct (Ho eq_refl Em) as [e He]. unfold released. rewrite He, decide_True by done.
      apply lock_rel_none.
Qed.

(** One attempt at the grant: a request that was sent is a grant of the
    protocol; an attempt that succeeds sent one. *)
Lemma attempt_sim d w s pc r w' :
  pc = Cleared d \/ pc = Sent d ->
  abs w s pc -> RefreshGrant (h_client h) (RefreshToken d) w = (r, w') ->
  exists s', sim w s w' s' /\ (abs w' s' (Sent d) \/ is_ok r = false /\ abs w' s' pc).
Proof.
  intros Hpc Ha Hg. pose proof (RefreshGrant_calm h k (RefreshToken d) w) as Htk.
  pose proof (RefreshGrant_frame (h_client h) (RefreshToken d) w) as Hst. rewrite Hg in Htk, Hst.
  cbn [snd] in Htk, Hst.
  apply RefreshGrant_inv in Hg as [(Hr & Ht & _)|(a & rq & j & Hm & Hu & Hb & Ht & _)].
  - destruct (pass w w' s pc Ha Htk Ht) as (s' & Hs' & Ha'); [by rewrite Hst|].
    exists s'. split; [done|]. by right.
  - set (g := Grant i d (sys_now s)).
    assert (H1 : sys_step h lock_mode s (moved i (Sent d) (called g s))
                 \/ sys_step h lock_mode s (called g s) /\ sys_pc s i = Sent d).
    { destruct Ha as (_ & _ & Hp & _). destruct Hpc as [-> | ->];
        [left; by apply step_send|right; split; [by apply step_resend|done]]. }
    assert (H2 : exists s1, sys_step h lock_mode s s1 /\ sys_calls s1 = sys_calls s ++ [g]
              /\ (forall j, j <> i -> sys_pc s1 j = sys_pc s j) /\ abs w s1 (Sent d)).
    { destruct Ha as (Hn & Hs & Hp & Hl & Ho).
      assert (Hc : critical pc = true) by (by destruct Hpc as [-> | ->]).
      destruct H1 as [H1|[H1 Hp1]]; eexists; (split; [exact H1|]).
      - split; [done|]. split; [intros j' Hj; cbn; by apply set_pc_other|].
        split; [done|]. split; [done|]. split; [apply moved_pc|]. split; [exact Hl|]. intros _. by apply Ho.
      - split; [done|]. split; [done|]. split; [done|]. split; [done|]. split; [done|].
        split; [exact Hl|]. intros _. by apply Ho. }
    destruct H2 as (s1 & Hstep & Hcalls & Hpcs & Ha1).
    set (w1 := mkWorld (w_tick w) (w_store w) (w_trace w')).
    assert (Hw : calm k w1 w') by (by apply calm_frame; [|exact (proj1 Htk)]).
    assert (Ha1' : abs w1 s1 (Sent d)).
    { destruct Ha1 as (Hn & Hs & Hp & Hl & Ho). split; [done|]. split; [done|]. split; [done|].
      split; [|done]. by apply (lock_frame k w w1). }
    destruct (pass w1 w' s1 (Sent d) Ha1' Hw) as (s' & Hs' & Ha'); [done|by rewrite Hst|].
    exists s'. split; [|by left]. eapply sim_trans; [|exact Hs'].
    split; [by apply rtc_once|]. split; [done|]. exists [g], [EvHTTP rq].
    split; [exact Hcalls|]. split; [exact Ht|]. constructor; [|constructor].
    split; [reflexivity|]. exists rq, a. split; [reflexivity|]. split; [exact Hm|]. split; [exact Hu|exact Hb].
Qed.

(** The grant with its retries. *)
Lemma grant_sim d w s r w' :
  abs w s (Cleared d) -> refresh_grant h (RefreshToken d) w = (r, w') ->
  exists s', sim w s w' s' /\ (abs w' s' (Sent d) \/ is_ok r = false /\ abs w' s' (Cleared d)).
Proof.
  intros Ha. unfold refresh_grant. rewrite bind_run.
  destruct (retry_Do _ w) as [r1 w1] eqn:Er. cbn [fst snd]. intros H.
  assert (w' = w1 /\ (is_ok r = true -> is_ok r1 = true)) as [-> Hok].
  { destruct r1; [by injection H as <- <-|].
    destruct (errors_Is _ _); injection H as <- <-; (split; [done|intros H1; discriminate H1]). }
  clear H.
  set (P := fun w1 => exists s1, sim w s w1 s1 /\ (abs w1 s1 (Cleared d) \/ abs w1 s1 (Sent d))).
  assert (Hatt : forall w2 r2 w3, P w2 -> RefreshGrant (h_client h) (RefreshToken d) w2 = (r2, w3) ->
            exists s3, sim w s w3 s3 /\ (abs w3 s3 (Sent d) \/ is_ok r2 = false /\ abs w3 s3 (Cleared d))).
  { intros w2 r2 w3 (s2 & H2 & [Ha2|Ha2]) Hg.
    - destruct (attempt_sim d w2 s2 _ r2 w3 (or_introl eq_refl) Ha2 Hg) as (s3 & H3 & Ha3).
      exists s3. split; [by eapply sim_trans|done].
    - destruct (attempt_sim d w2 s2 _ r2 w3 (or_intror eq_refl) Ha2 Hg) as (s3 & H3 & Ha3).
      exists s3. split; [by eapply sim_trans|]. left. by destruct Ha3 as [|[_ ?]]. }
  eapply (retry_Do_inv _ P) in Er as [HP Hr].
  - destruct r1 as [t|e].
    + destruct Hr as (w2 & HP2 & Hf). rewrite fmap_M_run in Hf.
      destruct (RefreshGrant (h_client h) (RefreshToken d) w2) as [r2 w3] eqn:Eg. injection Hf as Hf <-.
      apply retry_when_Success in Hf. cbn in Hf. subst r2.
      destruct (Hatt w2 (Ok t) w3 HP2 Eg) as (s3 & H3 & [Ha3|[Hno _]]); [|discriminate Hno].
      exists s3. split; [done|]. by left.
    + destruct HP as (s1 & H1 & Hcs). exists s1. split; [done|]. destruct Hcs as [Hcs|Hcs]; [right|by left].
      split; [|done]. destruct r; [by discriminate (Hok eq_refl)|done].
  - intros w2 HP2. rewrite fmap_M_run. cbn [snd].
    destruct (RefreshGrant (h_client h) (RefreshToken d) w2) as [r2 w3] eqn:Eg.
    destruct (Hatt w2 r2 w3 HP2 Eg) as (s3 & H3 & Hcs). exists s3. split; [done|].
    destruct Hcs as [|[_ ?]]; auto.
  - intros w2 w3 (s2 & H2 & Hcs) (Hst & Ht & Htk).
    pose proof (calm_frame k w2 w3 Hst Htk) as Hcalm.
    assert (Hp : forall pc, abs w2 s2 pc -> exists s3, sim w2 s2 w3 s3 /\ abs w3 s3 pc).
    { intros pc Ha2. apply (pass w2 w3 s2 pc Ha2 Hcalm Ht). by rewrite Hst. }
    destruct Hcs as [Ha2|Ha2]; destruct (Hp _ Ha2) as (s3 & H3 & Ha3); exists s3;
      (split; [by eapply sim_trans|auto]).
  - exists s. split; [by apply sim_refl|]. by left.
Qed.

(** The update of the store. *)
Lemma update_sim d' w s r w' :
  valid_data d' = d' -> abs w s (Received d') -> Update h k d' w = (r, w') ->
  exists s', sim w s w' s' /\ abs w' s' Finishing.
Proof.
  intros Hv Ha Hu. pose proof (session_Update_calm h k d' w) as Htk. rewrite Hu in Htk. cbn [snd] in Htk.
  apply (Update_spec HS HR h w r w' k d') in Hu. rewrite Hv in Hu.
  assert (Hcases : w_trace w' = w_trace w
    /\ ((forall v, view (w_store w') !! k = Some v -> view (w_store w) !! k = Some v)
        \/ forall v, view (w_store w') !! k = Some v -> EncryptedData_Decrypt (h_crypter h) v = Ok d')).
  { destruct Hu as [(e & Hd & [Ht Hm] & _)|[[Ht Hm] _]]; (split; [exact Ht|]).
    - destruct Hm as [Hm|Hm]; [left|right]; intros v Hl; apply (lookup_weaken _ _ _ _ Hl) in Hm; [done|].
      rewrite lookup_insert_eq in Hm. by injection Hm as <-.
    - left. intros v Hl. by eapply lookup_weaken. }
  destruct Hcases as [Ht [Hs|Hs]].
  - apply (pass_then w w' s (Received d')); try done. intros s1 (_ & _ & Hp & _). by eapply step_update_fails.
  - (* the protocol's update, then time passes and the session may be gone *)
    destruct Ha as (Hn & _ & Hp & Hl & Ho). destruct Htk as [Htk Hk].
    set (s1 := moved i Finishing (called (Updated d' (sys_now s)) (with_session (Some d') s))).
    set (s2 := mkSys (env_now (w_tick w')) (sys_session s1) (sys_lock s1) (sys_pc s1) (sys_calls s1)).
    assert (H1 : sys_step h lock_mode s s1) by by apply step_update.
    assert (H2 : sys_step h lock_mode s1 s2).
    { apply step_tick. cbn. rewrite Hn. by apply clock_mono. }
    assert (Hsim : forall s3, rtc (sys_step h lock_mode) s2 s3 -> sys_pc s3 = sys_pc s2 ->
              sys_calls s3 = sys_calls s2 -> sim w s w' s3).
    { intros s3 H3 Hp3 Hc3. split; [eapply rtc_l; [exact H1|by eapply rtc_l]|]. split.
      - intros j Hj. rewrite Hp3. cbn. by apply set_pc_other.
      - exists [Updated d' (sys_now s)], []. rewrite Hc3, app_nil_r. by repeat split. }
    assert (Hl' : lock_rel k w' (sys_lock s)) by by apply Hk.
    assert (Habs : forall s3, sys_now s3 = sys_now s2 -> sys_pc s3 = sys_pc s2 ->
              sys_lock s3 = sys_lock s -> sys_session s3 = session_at w' -> abs w' s3 Finishing).
    { intros s3 Hn3 Hp3 Hl3 Hs3. split; [by rewrite Hn3|]. split; [done|].
      split; [rewrite Hp3; apply moved_pc|]. unfold owner. rewrite Hl3. split; [done|].
      intros _. by apply Ho. }
    destruct (view (w_store w') !! k) as [v|] eqn:Ev.
    + exists s2. split; [by apply Hsim|]. apply Habs; try done.
      cbn. unfold session_at. rewrite Ev. cbn. by rewrite (Hs v eq_refl).
    + exists (with_session None s2). split; [apply Hsim; [apply rtc_once, step_delete|done..]|].
      apply Habs; try done. cbn. unfold session_at. by rewrite Ev.
Qed.

Lemma refresh_locked_sim w s r w' :
  abs w s Holding -> refresh_locked h k w = (r, w') ->
  exists s', sim w s w' s' /\ abs w' s' Finishing.
Proof.
  intros Ha. unfold refresh_locked, bindE. pose proof (GetForKey_calm h k w) as Htk1.
  destruct (GetForKey h k w) as [[d|e] w1] eqn:Eg; cbn [snd] in Htk1;
    apply (GetForKey_spec HS HR h) in Eg as [[Ht1 Hv1] Hst];
    assert (Hv1' : forall v, view (w_store w1) !! k = Some v -> view (w_store w) !! k = Some v)
      by (intros v Hv; by eapply lookup_weaken).
  2:{ intros [= <- <-]. apply (pass_then w w1 s Holding); try done. intros s1 (_ & _ & Hp & _).
      by apply step_reread_fails. }
  specialize (Hst d eq_refl).
  destruct (step_abs w s Holding (Reread d) (fun _ => eq_refl) Ha) as (s1 & H1 & Ha1).
  { destruct Ha as (_ & Hs & Hp & _). apply step_reread; [done|].
    rewrite Hs. by apply stored_session. }
  destruct (pass w w1 s1 _ Ha1 Htk1 Ht1 Hv1') as (s2 & H2 & Ha2).
  assert (H02 : sim w s w1 s2) by (by eapply sim_trans). clear s1 H1 Ha1 H2.
  rewrite bind_run. destruct (canRefresh_run h d w1) as [n1 ->]. cbn [fst snd].
  pose proof (step_eligible h lock_mode s2 i d (proj1 (proj2 (proj2 Ha2)))) as Hel.
  rewrite (proj1 Ha2) in Hel.
  destruct (step_abs w1 s2 (Reread d) _ (fun _ => eq_refl) Ha2 Hel) as (s3 & H3 & Ha3). clear Hel.
  destruct (can_refresh h d (env_now (w_tick w1))); cbn [negb];
    destruct (pass_ticked n1 w1 s3 _ Ha3) as (s4 & H4 & Ha4);
    (assert (H04 : sim w s (ticked n1 w1) s4) by (do 2 (eapply sim_trans; [eassumption|]); done)).
  2:{ intros [= <- <-]. exists s4. by split. }
  clear s2 H02 Ha2 s3 H3 Ha3 H4. set (w2 := ticked n1 w1) in *.
  rewrite bind_run. destruct (isTimedOut_run h d w2) as [n2 ->]. cbn [fst snd].
  destruct (timed_out h d (env_now (w_tick w2))) eqn:Eto.
  { destruct (step_abs w2 s4 (Eligible d) Finishing (fun _ => eq_refl) Ha4) as (s5 & H5 & Ha5).
    { destruct Ha4 as (Hn & _ & Hp & _). eapply step_inactive; [exact Hp|by rewrite Hn]. }
    destruct (pass_ticked n2 w2 s5 _ Ha5) as (s6 & H6 & Ha6). intros [= <- <-].
    exists s6. split; [|done]. do 2 (eapply sim_trans; [eassumption|]). done. }
  destruct (step_abs w2 s4 (Eligible d) (Cleared d) (fun _ => eq_refl) Ha4) as (s5 & H5 & Ha5).
  { destruct Ha4 as (Hn & _ & Hp & _). apply step_active; [exact Hp|by rewrite Hn]. }
  destruct (pass_ticked n2 w2 s5 _ Ha5) as (s6 & H6 & Ha6).
  assert (H06 : sim w s (ticked n2 w2) s6) by (do 2 (eapply sim_trans; [eassumption|]); done).
  clear s4 H04 Ha4 s5 H5 Ha5 H6. set (w3 := ticked n2 w2) in *.
  destruct (refresh_grant h (RefreshToken d) w3) as [[resp|e] w4] eqn:Er.
  2:{ intros [= <- <-]. destruct (grant_sim d w3 s6 _ _ Ha6 Er) as (s7 & H7 & [Ha7|[_ Ha7]]);
        (edestruct (step_abs w4 s7) with (pc' := Finishing) as (s8 & H8 & Ha8);
         [|exact Ha7|destruct Ha7 as (_ & _ & Hp & _)|]); try done.
      - by eapply step_grant_fails.
      - exists s8. split; [|done]. do 2 (eapply sim_trans; [eassumption|]). done.
      - by eapply step_not_sent.
      - exists s8. split; [|done]. do 2 (eapply sim_trans; [eassumption|]). done. }
  destruct (grant_sim d w3 s6 _ _ Ha6 Er) as (s7 & H7 & [Ha7|[Hno _]]); [|discriminate Hno].
  apply (refresh_grant_spec HR h) in Er as (_ & _ & wg & Hg).
  rewrite bind_run. destruct (refreshed_at_run h d resp w4) as [n4 Hm]. rewrite Hm. cbn [fst snd].
  set (t := env_now (w_tick w4)) in *. set (t' := env_now (1 + w_tick w4)) in *.
  set (d' := Data_with_metadata _ _).
  assert (Hd' : d' = refreshed_at h d resp t t') by done.
  assert (Hval : valid_data d' = d').
  { destruct Hst as (e0 & _ & Hd0%Decrypt_text). by eapply (refreshed_text h d). }
  destruct (step_abs w4 s7 (Sent d) (Received d') (fun _ => eq_refl) Ha7) as (s8 & H8 & Ha8).
  { destruct Ha7 as (Hn & _ & Hp & _). rewrite Hd'. unfold t. rewrite <- Hn.
    apply step_receive; [exact Hp|]. rewrite Hn. apply clock_mono. lia. }
  destruct (pass_ticked n4 w4 s8 _ Ha8) as (s9 & H9 & Ha9).
  assert (H09 : sim w s (ticked n4 w4) s9) by (do 3 (eapply sim_trans; [eassumption|]); done).
  destruct (Update h k d' (ticked n4 w4)) as [ru w5] eqn:Eu.
  destruct (update_sim d' _ s9 ru w5 Hval Ha9 Eu) as (s10 & H10 & Ha10).
  intros H. assert (w' = w5) as -> by (destruct ru as [[]|]; by injection H).
  exists s10. split; [by eapply sim_trans|done].
Qed.

Lemma Handler_Refresh_sim d w s r w' :
  abs w s Idle -> Handler_Refresh h k d w = (r, w') ->
  exists s', sim w s w' s' /\ abs w' s' Idle.
Proof.
  intros Ha. unfold Handler_Refresh. rewrite bind_run.
  destruct (canRefresh_run h d w) as [n ->]. cbn [fst snd].
  destruct (can_refresh h d (env_now (w_tick w))) eqn:Ec; cbn [negb].
  2:{ intros [= <- <-]. by apply pass_ticked. }
  destruct (step_abs w s Idle Acquiring (fun H => H) Ha) as (s1 & H1 & Ha1).
  { destruct Ha as (Hn & _ & Hp & _). eapply step_start; [exact Hp|]. rewrite Hn. exact Ec. }
  destruct (pass_ticked n w s1 _ Ha1) as (s2 & H2 & Ha2). rewrite bind_run.
  destruct (acquire_spec HS k (ticked n w)) as (_ & Hlf & _).
  destruct (acquire (MakeLock k) (ticked n w)) as [[ra l] w1] eqn:Ea. cbn [fst snd] in *.
  destruct (acquire_sim _ s2 ra l w1 Ha2 Ea) as (s3 & H3 & Ha3).
  assert (H03 : sim w s w1 s3) by (do 2 (eapply sim_trans; [eassumption|]); done).
  destruct ra as [[]|e]; cbn [is_ok] in Ha3; [|intros [= <- <-]; by exists s3].
  rewrite bind_run. destruct (refresh_locked h k w1) as [res w2] eqn:Er. cbn [fst snd].
  destruct (refresh_locked_sim w1 s3 res w2 Ha3 Er) as (s4 & H4 & Ha4). rewrite bind_run.
  destruct (release_sim w2 s4 l Hlf Ha4) as (s5 & H5 & Ha5). intros [= <- <-].
  exists s5. split; [|exact Ha5]. do 2 (eapply sim_trans; [eassumption|]). done.
Qed.
End Simulation.

(** ** Stores whose locks promise nothing *)

(** [NoOpLock], and any lock that is not relied upon. *)
Section NoLock.
Context {S : Type} {St : Store S}.

Definition no_lock_model : LockModel S :=
  {| lock_mode := NoOpMode; lock_rel := fun _ _ _ => True |}.

Lemma no_lock_laws {E : Env} : LockModelLaws S (LM := no_lock_model).
Proof.
  constructor; try done. intros k l d w _. destruct (Lock_Acquire l d w) as [[r l'] w'].
  rewrite bool_decide_eq_false_2 by done. by rewrite andb_false_r.
Qed.
End NoLock.

(** ** Properties *)

(** C14: A run of [Refresh] is a run of one request of the protocol, in the mode of
    the store's locks: from any state of the protocol that stands for the world
    and in which request [i] is idle, the protocol's steps lead to one that
    stands for the world after the run; only request [i] moves, and its grants
    are, one for one, the requests the run sent to the provider, each with the
    refresh token of the session it read. *)
Theorem Refresh_refines_protocol {L : JwtLib} {Key : Type} {O : OAuth2 Key} {E : Env} {A : AEAD}
    {S : Type} {St : Store S} {R : Retry S} {LC : Location} {LM : LockModel S}
    {view : S -> gmap str EncryptedData}
    (HS : StoreLaws S view) (HR : RetryLaws S) (HL : LockModelLaws S) (HA : AEADLaws)
    (HK : KeygenLaw) (HZ : LocationLaws) (HC : MonotoneClock) (h : Handler Key) (k : str)
    (i : nat) (d : Data) (w w' : World S) (s : Sys) (r : result Data)
  (Habs : abs (view := view) h k i w s Idle)
  (Hrun : Handler_Refresh h k d w = (r, w')) :
  exists s', rtc (sys_step h lock_mode) s s' /\ abs (view := view) h k i w' s' Idle
    /\ (forall j, j <> i -> sys_pc s' j = sys_pc s j)
    /\ exists cs evs, sys_calls s' = sys_calls s ++ cs /\ w_trace w' = w_trace w ++ evs
         /\ Forall2 (fun g ev => g.1 = i /\ is_refresh_of h (RefreshToken g.2) ev) (grants cs) evs.
Proof.
  destruct (Handler_Refresh_sim h k i d w s r w' Habs Hrun) as (s' & (Hr & Hp & Hc) & Ha).
  exists s'. split; [exact Hr|]. split; [exact Ha|]. split; [exact Hp|exact Hc].
Qed.

(** ** A concrete run *)

#[local] Existing Instance toy_AEAD.
#[local] Existing Instance toy_jwt.
#[local] Existing Instance toy_oauth2.
#[local] Existing Instance Memory.memory_store.
#[local] Existing Instance utc.
#[local] Existing Instance toy_memory_retry.
#[local] Existing Instance example_env.

Lemma example_clock : MonotoneClock.
Proof. intros a b Hab. cbn. unfold Second. lia. Qed.

Definition protocol_start : Sys :=
  initial_sys (env_now 100) (session_at (view := fun s => s) example_handler example_key (example_world 100)).

Lemma protocol_start_abs :
  abs (LM := no_lock_model) (view := fun s => s) example_handler example_key 0
    (example_world 100) protocol_start Idle.
Proof. by repeat split. Qed.

Lemma Refresh_refines_protocol_witness :
  exists s', rtc (sys_step example_handler NoOpMode) protocol_start s' /\ grants (sys_calls s') <> [].
Proof.
  destruct example_refresh_run as (d & w & Hr & Hne).
  destruct (Refresh_refines_protocol Memory.memory_laws example_retry_laws no_lock_laws
              toy_AEAD_laws example_keygen utc_laws example_clock example_handler example_key 0
              example_session (example_world 100) w protocol_start (Ok d)
              protocol_start_abs Hr)
    as (s' & Hs & _ & _ & cs & evs & Hc & Ht & Hf).
  exists s'. split; [exact Hs|]. intros Hg. change (sys_calls s' = cs) in Hc. rewrite Hc in Hg.
  rewrite Hg in Hf. apply Forall2_nil_inv_l in Hf. subst evs. exact (Hne Ht).
Defined.
