(* ===== verification/RedisLocks.v ===== *)
(** * The Redis lock follows the protocol's

    [RedisLock] of [pkg/session/lock.go], over the documented behaviour of bsm/redislock's
    SET NX PX, implements the interface [LockModel] of [RefreshRefines] in
    [RedisMode]: it is obtained when it was free, for a lease from then on, and an
    entry that stands for a lease stays until the lease ends.  With it, a run of
    [Handler.Refresh] on Redis is a run of the protocol whose lock excludes. *)

From S2P Require Import Prelude GoStrings GoTime GoUtf8 GoUrl GoError GoRfc3339 GoJson Config Crypter Cookie Openid Jwks OpenidClient SessionData Store Retry Keeps SessionHandler RefreshProtocol RefreshRefines.
#[local] Open Scope Z_scope.

(** An entry with an expiry stays as it is until it expires. *)
Definition leased {E : Env} (t : nat) (m m' : RedisState) (k : str) : Prop :=
  forall v e, m !! k = Some (v, Some e) -> m' !! k = Some (v, Some e) \/ e <= env_now t.

(** What the lock relies on: commands leave the entries of other keys to expire;
    SET NX PX succeeds only where there is no live entry, and leaves one that
    lives as long as asked, by the clock the leases are measured with. *)
Class RedisLeaseLaws (S : Type) {C : RedisClient S} {E : Env} (rview : S -> RedisState) : Prop := {
  redis_Get_leased : forall w k k',
    leased (w_tick (redis_Get k w).2) (rview (w_store w)) (rview (w_store (redis_Get k w).2)) k';
  redis_Set_leased : forall w k v d k', k' <> k ->
    leased (w_tick (redis_Set k v d w).2) (rview (w_store w)) (rview (w_store (redis_Set k v d w).2)) k';
  redislock_obtained : forall w w' k d t,
    redislock_Obtain k d w = (Ok t, w') ->
    exists j, (w_tick w <= j <= w_tick w')%nat
    /\ (forall v e, rview (w_store w) !! k = Some (v, Some e) -> e <= env_now j)
    /\ ((exists v, rview (w_store w') !! k = Some (v, Some (env_now j + d)))
        \/ env_now j + d <= env_now (w_tick w'));
  redislock_not_obtained : forall w w' k d e,
    redislock_Obtain k d w = (Err e, w') ->
    leased (w_tick w') (rview (w_store w)) (rview (w_store w')) k }.

Section RedisLocks.
Context {S : Type} {C : RedisClient S} {E : Env} {rview : S -> RedisState}.
Context {token_key : LockToken -> str} {HR : RedisLaws S rview token_key}.
Context {HL : RedisLeaseLaws S rview} {HC : MonotoneClock}.
#[local] Existing Instance Redis.redis_store.

(** The protocol's lease has ended, or the lock's key lives as long. *)
Definition lease_held (k : str) (w : World S) (x : option (nat * Time)) : Prop :=
  forall i e, x = Some (i, e) ->
    e <= env_now (w_tick w) \/ exists v, rview (w_store w) !! lockKey k = Some (v, Some e).

#[local] Instance redis_lock_model : LockModel S := {| lock_mode := RedisMode; lock_rel := lease_held |}.

Lemma leased_kept k (w w' : World S) :
  (w_tick w <= w_tick w')%nat ->
  leased (w_tick w') (rview (w_store w)) (rview (w_store w')) (lockKey k) -> lock_kept k w w'.
Proof.
  intros Ht Hl x Hx i e He. pose proof (clock_mono _ _ Ht).
  destruct (Hx i e He) as [Hx'|[v Hv]]; [left; lia|].
  destruct (Hl v e Hv) as [Hl'|Hl']; [right; by exists v|by left].
Qed.

Lemma lock_kept_trans k (w1 w2 w3 : World S) :
  lock_kept k w1 w2 -> lock_kept k w2 w3 -> lock_kept k w1 w3.
Proof. intros H1 H2 x Hx. by apply H2, H1. Qed.

Lemma redis_Read_kept k (w : World S) : lock_kept k w (Redis.redis_Read k w).2.
Proof.
  unfold Redis.redis_Read, Redis.redis_Scan, bindE. rewrite Redis.fmap_run. cbn [snd].
  pose proof (proj1 (redis_steps w) k) as [_ Ht].
  pose proof (redis_Get_leased w k (lockKey k)) as Hl.
  destruct (redis_Get k w) as [[b|e] w1]; cbn in *; by apply leased_kept.
Qed.

Lemma redis_SetBinary_kept k v d (w : World S) : lock_kept k w (Redis.redis_SetBinary k v d w).2.
Proof.
  unfold Redis.redis_SetBinary, bindE, pureR, mret, M_ret.
  destruct (MarshalBinary v) as [b|e]; [|by intros x].
  apply leased_kept; [apply (redis_steps w)|]. apply redis_Set_leased.
  intros H. by apply (lockKey_ne k).
Qed.

Lemma redis_Update_kept k v (w : World S) : lock_kept k w (Redis.redis_Update k v w).2.
Proof.
  unfold Redis.redis_Update, bindE. pose proof (redis_Read_kept k w) as Hr.
  destruct (Redis.redis_Read k w) as [[v0|e] w1]; [|done]. rewrite Redis.fmap_run.
  eapply lock_kept_trans; [exact Hr|apply redis_SetBinary_kept].
Qed.

Lemma redis_lock_key k l : lock_for k l -> Redis.rl_key l = k.
Proof. induction 1 as [|l d w _ IH]; [done|]. rewrite <- IH. apply Redis.Acquire_key. Qed.

Lemma Acquire_taken k l d (w : World S) : lock_for k l ->
  let '((r, _), w') := Redis.Acquire l d w in
  if is_ok r then lock_obtained k d w w' else lock_kept k w w'.
Proof.
  intros Hk%redis_lock_key. unfold Redis.Acquire. rewrite bind_run, Hk.
  destruct (redis_steps w) as (_ & _ & _ & Hs & _). destruct (Hs (lockKey k) d) as [_ Ht].
  destruct (redislock_Obtain (lockKey k) d w) as [[t|e] w1] eqn:Eo; cbn [fst snd] in *.
  - destruct (redislock_obtained _ _ _ _ _ Eo) as (j & Hj & Hfree & Hgot). cbn.
    exists j. split; [exact Hj|]. split.
    + intros i e Hx. pose proof (clock_mono (w_tick w) j ltac:(lia)).
      destruct (Hx i e eq_refl) as [|[v Hv]]; [lia|by eapply Hfree].
    + intros i i' e [= <- <-]. destruct Hgot as [[v Hv]|Hgot]; [right; by exists v|by left].
  - apply redislock_not_obtained in Eo.
    destruct (errors_Is e ErrNotObtained); cbn; by apply leased_kept.
Qed.

Lemma redis_lock_laws : LockModelLaws S.
Proof.
  constructor.
  - by intros k w i e.
  - intros k w w' Hs Ht. apply leased_kept; [done|]. rewrite Hs. intros v e Hv. by left.
  - apply redis_Read_kept.
  - apply redis_Update_kept.
  - intros k l d w Hk. pose proof (Acquire_taken k l d w Hk) as Ha. cbn in *.
    destruct (Redis.Acquire l d w) as [[r l'] w']. by destruct (is_ok r).
  - done.
Qed.
End RedisLocks.

(** ** The concrete Redis *)

Section ToyRedis.
Context {E : Env} {HC : MonotoneClock}.
#[local] Instance toy_client : RedisClient RedisState := toy_redis.

Lemma purge_leased t t' m k : (t <= t')%nat -> leased t' m (purge (env_now t) m) k.
Proof.
  intros Ht v e Hv. pose proof (clock_mono _ _ Ht).
  destruct (decide (e <= env_now t)); [right; lia|left].
  unfold purge. apply map_lookup_filter_Some. split; [done|]. unfold live. cbn.
  apply Z.ltb_lt. lia.
Qed.

Lemma toy_lease_laws : RedisLeaseLaws RedisState (fun m => m).
Proof.
  constructor.
  - intros w k k'. cbn. apply purge_leased. lia.
  - intros w k v d k' Hne v' e Hv. cbn. rewrite lookup_insert_ne by done.
    by apply (purge_leased (w_tick w) (1 + w_tick w) _ k' ltac:(lia)).
  - intros w w' k d t. cbn. unfold at_now.
    destruct (purge _ _ !! k) eqn:Ek; intros [= <- <-]. exists (w_tick w). cbn. split; [lia|]. split.
    + intros v e Hv. destruct (purge_leased (w_tick w) (w_tick w) _ k ltac:(lia) v e Hv) as [Hp|Hp]; [|done].
      pose proof (eq_trans (eq_sym Ek) Hp). discriminate.
    + left. eexists. by rewrite lookup_insert_eq.
  - intros w w' k d e. cbn. unfold at_now.
    destruct (purge _ _ !! k) eqn:Ek; intros [= <- <-]. cbn. apply purge_leased. lia.
Qed.
End ToyRedis.

(** ** Properties *)

(** C30: The Redis store keeps both contracts the session handler is verified
    against: with a Redis that behaves as documented, and with the JSON the
    sessions are stored as, it satisfies the laws of the store; and its lock is
    the exclusive, leased lock of the refresh protocol. *)
Theorem redis_store_refines {S : Type} {C : RedisClient S} {E : Env} {rview : S -> RedisState}
    {token_key : LockToken -> str} (Hredis : RedisLaws S rview token_key)
    (Hlease : RedisLeaseLaws S rview) (HC : MonotoneClock) :
  StoreLaws S (Store0 := Redis.redis_store) (fun s => Redis.session_view (rview s))
  /\ lock_mode (LockModel := redis_lock_model (rview := rview)) = RedisMode
  /\ LockModelLaws S (LM := redis_lock_model (rview := rview)).
Proof.
  split; [by apply (Redis.redis_laws _ token_key)|].
  split; [done|]. by apply (redis_lock_laws (token_key := token_key)).
Qed.

Lemma redis_store_refines_witness :
  StoreLaws RedisState
    (Store0 := Redis.redis_store (RedisClient0 := toy_redis (E := toy_env unix_epoch)))
    (fun s => Redis.session_view s).
Proof.
  assert (HC : MonotoneClock (E := toy_env unix_epoch)) by (intros a b Hab; cbn; unfold Second; lia).
  exact (proj1 (redis_store_refines (toy_redis_laws (E := toy_env unix_epoch))
                  (toy_lease_laws (E := toy_env unix_epoch)) HC)).
Defined.
