(* ===== verification/ErrorHandler.v ===== *)
(** * The error handler: [pkg/handler/error/error.go]

    A failing route is retried automatically, at most three times in a row: the
    number of attempts is kept in a cookie.  After that the user gets the
    configured error page, or the built-in one. *)

From S2P Require Import Prelude GoStrings GoTime GoStrconv GoUrl GoUrlFacts GoError GoJson Http Crypter Cookie RedirectUrl Openid.

Definition MaxAutoRetryAttempts : Z := 3.

Record Page := { CorrelationID : str; RetryURI : str }.

(** The interface [Source]: what the handler needs from the application. *)
Class ErrorSource := {
  GetCookieOptsPathAware : Request -> Options;
  GetCrypter : str;
  GetErrorPath : str;
  GetPath : Request -> str }.

(** The bytes that executing [templates.ErrorTemplate] writes. *)
Class ErrorTemplate := template_Execute : Page -> str.

(** [getRetryAttempts] *)
Definition getRetryAttempts (r : Request) : option Z :=
  match Get r RetryCookie with
  | Ok v => Atoi v
  | Err _ => None
  end.

Section Handler.
Context {A : AEAD} {Src : ErrorSource} {T : ErrorTemplate}.

(** [incrementRetryAttempt] *)
Definition incrementRetryAttempt {E : Env} {S} (r : Request) (o : Options) (w : Response)
    : M S Response :=
  let val := match getRetryAttempts r with Some prev => wrap64 (prev + 1) | None => 1%Z end in
  c ← Make RetryCookie (Itoa val) o;
  mret (Set_Cookie (UnsetExpiry c) w).

(** [Handler.Retry] *)
Definition Handler_Retry (r : Request) (loginCookie : option LoginCookie) : str :=
  let requestPath := Path (rq_URL r) in
  if HasSuffix requestPath (OAuth2 ++ PathLogout)
     || HasSuffix requestPath (OAuth2 ++ PathLogoutFrontChannel)
  then requestPath
  else
    let redirect :=
      match loginCookie with
      | Some lc => if is_empty (lc_Referer lc) then CanonicalRedirect r else lc_Referer lc
      | None => CanonicalRedirect r
      end in
    LoginURL (GetPath r) redirect.

(** The login cookie, or nil when it is missing or does not decrypt. *)
Definition login_cookie_or_nil (r : Request) : option LoginCookie :=
  match GetLoginCookie r GetCrypter with Ok lc => Some lc | Err _ => None end.

(** The error page's address: the override without scheme and host, with the
    correlation id and the status added to its query. *)
Definition error_redirect (r : Request) (statusCode : Z) (override : URL) : str :=
  let query := Values_Add (Values_Add (URL_Query override) $"correlation_id" (GetReqID r))
                 $"status_code" (Itoa statusCode) in
  URL_String (URL_with_query (URL_strip_origin override) (Values_Encode query)).

(** [customErrorRedirect] *)
Definition customErrorRedirect (r : Request) (statusCode : Z) (w : Response) : result Response :=
  match Parse GetErrorPath with
  | None => Err (New "parse")
  | Some override => Ok (http_Redirect r (error_redirect r statusCode override) StatusFound w)
  end.

(** [defaultErrorResponse] *)
Definition defaultErrorResponse (r : Request) (statusCode : Z) (w : Response) : Response :=
  Write (template_Execute {| CorrelationID := GetReqID r;
                             RetryURI := Handler_Retry r (login_cookie_or_nil r) |})
        (WriteHeader statusCode w).

(** The part of [respondError] after the attempts are used up. *)
Definition final_response (r : Request) (statusCode : Z) (w : Response) : Response :=
  if negb (is_empty GetErrorPath) then
    match customErrorRedirect r statusCode w with
    | Ok w' => w'
    | Err _ => defaultErrorResponse r statusCode w
    end
  else defaultErrorResponse r statusCode w.

(** Whether [respondError] retries the request. *)
Definition auto_retries (r : Request) : bool :=
  match getRetryAttempts r with
  | None => true
  | Some attempts => (attempts <? MaxAutoRetryAttempts)%Z
  end.

(** [respondError]; the log level and the cause only reach the log. *)
Definition respondError {E : Env} {S} (r : Request) (statusCode : Z) (w : Response)
    : M S Response :=
  w' ← incrementRetryAttempt r (GetCookieOptsPathAware r) w;
  if auto_retries r
  then mret (http_Redirect r (Handler_Retry r (login_cookie_or_nil r)) StatusTemporaryRedirect w')
  else mret (final_response r statusCode w').

(** [InternalError], [BadRequest], [Unauthorized] *)
Definition InternalError {E : Env} {S} (r : Request) (w : Response) : M S Response :=
  respondError r StatusInternalServerError w.
Definition BadRequest {E : Env} {S} (r : Request) (w : Response) : M S Response :=
  respondError r StatusBadRequest w.
Definition Unauthorized {E : Env} {S} (r : Request) (w : Response) : M S Response :=
  respondError r StatusUnauthorized w.

(** ** A user agent that keeps failing *)

(** The retry cookie a response sets. *)
Definition set_retry_cookie (w : Response) : option str :=
  ck_Value <$> last (List.filter (fun c => streq (ck_Name c) RetryCookie) (rw_Cookies w)).

(** A request as sent by a user agent whose retry cookie is [jar]. *)
Definition with_retry_cookie (jar : option str) (r : Request) : Request :=
  let others := List.filter (fun c => negb (streq c.1 RetryCookie)) (rq_Cookies r) in
  mkRequest (rq_Method r) (rq_Proto r) (rq_URL r) (rq_Host r) (rq_Header r)
    (match jar with Some v => (RetryCookie, v) :: others | None => others end)
    (ctx_Path r) (ctx_Ingress r) (ctx_AccessToken r) (ctx_RequestID r).

(** The responses to requests that all fail, each with its status, when the
    user agent keeps the retry cookie between them. *)
Fixpoint failures {E : Env} {S} (rqs : list (Request * Z)) (jar : option str) : M S (list Response) :=
  match rqs with
  | [] => mret []
  | (r, statusCode) :: rest =>
      w ← respondError (with_retry_cookie jar r) statusCode new_response;
      ws ← failures rest (set_retry_cookie w);
      mret (w :: ws)
  end.
End Handler.

(** ** Lemmas *)

Lemma WriteHeader_cookies (code : Z) (w : Response) : rw_Cookies (WriteHeader code w) = rw_Cookies w.
Proof. unfold WriteHeader. by destruct (rw_Status w). Qed.

Lemma http_Redirect_fresh (r : Request) (url : str) (code : Z) (w : Response) :
  rw_Status w = None ->
  let w' := http_Redirect r url code w in
  rw_Status w' = Some code /\ rw_Location w' = Some (redirect_target r url)
  /\ rw_Cookies w' = rw_Cookies w.
Proof. unfold http_Redirect. intros ->. done. Qed.

Lemma lookup_cookie_filter (name : str) (cs : list (str * str)) :
  lookup_cookie (List.filter (fun c => negb (streq c.1 name)) cs) name = None.
Proof.
  induction cs as [|[n v] cs IH]; [done|]. cbn. destruct (streq n name) eqn:E; [done|].
  cbn. by rewrite E.
Qed.

Section Facts.
Context {A : AEAD} {Src : ErrorSource} {T : ErrorTemplate}.
Context {E : Env} {S : Type}.
Implicit Types (w : World S) (r : Request).

(** The number of attempts a jar stands for: none when it does not parse. *)
Definition attempts_of (jar : option str) : Z := default 0%Z (jar ≫= Atoi).

Lemma getRetryAttempts_jar (jar : option str) r :
  getRetryAttempts (with_retry_cookie jar r) = (jar ≫= Atoi).
Proof.
  unfold getRetryAttempts, Get, Request_Cookie, with_retry_cookie. cbn [rq_Cookies].
  destruct jar as [v|].
  - cbn [lookup_cookie]. by rewrite streq_refl.
  - by rewrite lookup_cookie_filter.
Qed.

Lemma auto_retries_jar (jar : option str) r :
  auto_retries (with_retry_cookie jar r) = (attempts_of jar <? MaxAutoRetryAttempts)%Z.
Proof.
  unfold auto_retries, attempts_of. rewrite getRetryAttempts_jar. by destruct (jar ≫= Atoi).
Qed.

Lemma sanitize_Itoa (n : Z) : in_int64 n -> sanitize_cookie_value (Itoa n) = Itoa n.
Proof.
  intros Hn. apply sanitize_safe. eapply forallb_impl; [|by apply Itoa_bytes].
  intros x _. revert x. apply byte_impl. vm_compute. reflexivity.
Qed.

(** What is left of the response when the retry cookie was set. *)
Lemma increment_spec r (o : Options) (rw : Response) w :
  rw_Status rw = None ->
  let rw' := (incrementRetryAttempt r o rw w).1 in
  rw_Status rw' = None /\ rw_Location rw' = rw_Location rw /\ rw_Body rw' = rw_Body rw
  /\ exists c, rw_Cookies rw' = rw_Cookies rw ++ [c] /\ ck_Name c = RetryCookie
       /\ ck_Value c = Itoa (wrap64 (default 0%Z (getRetryAttempts r) + 1))
       /\ ck_Path c = cookie_path o /\ ck_MaxAge c = 0%Z /\ ck_Expires c = zero_time.
Proof.
  intros Hs. unfold incrementRetryAttempt. rewrite bind_run. cbn [fst snd].
  assert (Hn : (match getRetryAttempts r with Some prev => wrap64 (prev + 1) | None => 1%Z end)
               = wrap64 (default 0%Z (getRetryAttempts r) + 1)).
  { by destruct (getRetryAttempts r). }
  rewrite Hn. clear Hn. set (n := wrap64 _).
  assert (Hi : in_int64 n) by apply wrap64_bound. unfold Set_Cookie.
  match goal with |- context [http_SetCookie ?c rw] => set (k := c) end.
  assert (Hk : ck_Name k = RetryCookie /\ ck_Value k = Itoa n /\ ck_Path k = cookie_path o
               /\ ck_MaxAge k = 0%Z /\ ck_Expires k = zero_time) by done.
  clearbody k. destruct Hk as (Hkn & Hkv & Hkp & Hkm & Hke).
  unfold mret, M_ret. cbn [fst]. unfold http_SetCookie. rewrite Hs, Hkn.
  assert (valid_cookie_name RetryCookie = true) as -> by (vm_compute; reflexivity).
  cbn [rw_Status rw_Location rw_Body rw_Cookies]. repeat (split; [done|]).
  exists (wire_cookie k). split; [done|]. unfold wire_cookie. cbn.
  rewrite Hkv, sanitize_Itoa by done. done.
Qed.

Lemma final_response_spec r (code : Z) (rw : Response) :
  rw_Status rw = None ->
  let rw' := final_response r code rw in
  rw_Cookies rw' = rw_Cookies rw
  /\ match (if is_empty GetErrorPath then None else Parse GetErrorPath) with
     | Some override =>
         rw_Status rw' = Some StatusFound
         /\ rw_Location rw' = Some (redirect_target r (error_redirect r code override))
     | None =>
         rw_Status rw' = Some code /\ rw_Location rw' = rw_Location rw
         /\ rw_Body rw' = rw_Body rw ++
              template_Execute {| CorrelationID := GetReqID r;
                                  RetryURI := Handler_Retry r (login_cookie_or_nil r) |}
     end.
Proof.
  intros Hs. unfold final_response, customErrorRedirect.
  assert (Hd : let d := defaultErrorResponse r code rw in
     rw_Cookies d = rw_Cookies rw /\ rw_Status d = Some code /\ rw_Location d = rw_Location rw
     /\ rw_Body d = rw_Body rw ++ template_Execute {| CorrelationID := GetReqID r;
                                  RetryURI := Handler_Retry r (login_cookie_or_nil r) |}).
  { unfold defaultErrorResponse, Write, WriteHeader. rewrite Hs. done. }
  destruct (is_empty GetErrorPath); cbn [negb]; [done|].
  destruct (Parse GetErrorPath) as [u|]; [|done].
  destruct (http_Redirect_fresh r (error_redirect r code u) StatusFound rw Hs) as (? & ? & ?).
  done.
Qed.

Lemma respondError_run r (code : Z) (rw : Response) w :
  rw_Status rw = None ->
  exists rw1, (incrementRetryAttempt r (GetCookieOptsPathAware r) rw w).1 = rw1 /\
  (respondError r code rw w).1 =
    if auto_retries r
    then http_Redirect r (Handler_Retry r (login_cookie_or_nil r)) StatusTemporaryRedirect rw1
    else final_response r code rw1.
Proof.
  intros Hs. eexists. split; [done|]. unfold respondError. rewrite bind_run.
  by destruct (auto_retries r).
Qed.

(** Only the retry cookie is added to those set before the error. *)
Lemma respondError_cookies r (code : Z) (rw : Response) w :
  rw_Status rw = None ->
  exists c, rw_Cookies (respondError r code rw w).1 = rw_Cookies rw ++ [c]
    /\ ck_Name c = RetryCookie.
Proof.
  intros Hs. destruct (respondError_run r code rw w Hs) as (rw1 & H1 & ->).
  destruct (increment_spec r (GetCookieOptsPathAware r) rw w Hs) as (Hs1 & _ & _ & c & Hc & Hn & _).
  rewrite H1 in *. exists c. split; [|exact Hn]. rewrite <- Hc. destruct (auto_retries r).
  - by destruct (http_Redirect_fresh r (Handler_Retry r (login_cookie_or_nil r))
                   StatusTemporaryRedirect rw1 Hs1) as (_ & _ & ?).
  - by destruct (final_response_spec r code rw1 Hs1) as [? _].
Qed.

(** Every response sets the next number of attempts. *)
Lemma respondError_cookie r (code : Z) w :
  let rw := (respondError r code new_response w).1 in
  set_retry_cookie rw = Some (Itoa (wrap64 (default 0%Z (getRetryAttempts r) + 1)))
  /\ (auto_retries r = true -> rw_Status rw = Some StatusTemporaryRedirect)
  /\ (auto_retries r = false -> rw_Status rw = Some StatusFound \/ rw_Status rw = Some code).
Proof.
  intros rw. destruct (respondError_run r code new_response w eq_refl) as (rw1 & H1 & Hrw).
  fold rw in Hrw.
  destruct (increment_spec r (GetCookieOptsPathAware r) new_response w eq_refl)
    as (Hs & _ & _ & c & Hc & Hn & Hv & _). rewrite H1 in *. cbn [rw_Cookies new_response app] in Hc.
  assert (Hjar : rw_Cookies rw = [c] -> set_retry_cookie rw = Some (ck_Value c)).
  { intros Hcs. unfold set_retry_cookie. rewrite Hcs. cbn. by rewrite Hn, streq_refl. }
  rewrite <- Hv. clear Hv. destruct (auto_retries r).
  - destruct (http_Redirect_fresh r (Handler_Retry r (login_cookie_or_nil r))
                StatusTemporaryRedirect rw1 Hs) as (Hst & _ & Hck). rewrite <- Hrw in *.
    split; [apply Hjar; congruence|done].
  - destruct (final_response_spec r code rw1 Hs) as [Hck Hf]. rewrite <- Hrw in *.
    split; [apply Hjar; congruence|]. split; [done|]. intros _.
    destruct (if is_empty _ then _ else _); [left|right]; apply Hf.
Qed.
End Facts.

(** A retry of anything but a logout goes to the login endpoint, which will
    redirect to the target. *)
Lemma Handler_Retry_login {Src : ErrorSource} (r : Request) (lc : option LoginCookie) :
  GetPath r = [] \/ HasPrefix (GetPath r) $"/" = true ->
  HasSuffix (Path (rq_URL r)) (OAuth2 ++ PathLogout) = false ->
  HasSuffix (Path (rq_URL r)) (OAuth2 ++ PathLogoutFrontChannel) = false ->
  exists u, Parse (Handler_Retry r lc) = Some u /\ Scheme u = [] /\ Host u = []
    /\ Path u = PathJoin [GetPath r; OAuth2; PathLogin]
    /\ forall base, RedirectDecoded (request_at u base) =
         match lc with
         | Some c => if is_empty (lc_Referer c) then CanonicalRedirect r else lc_Referer c
         | None => CanonicalRedirect r
         end.
Proof.
  intros Hp H1 H2. unfold Handler_Retry. rewrite H1, H2. cbn [orb]. cbv zeta.
  match goal with |- context [LoginURL _ ?t] => set (target := t) end.
  destruct (LoginURL_Parse (GetPath r) target Hp) as (u & Hu & Hpa & Hs & Hh & Hq).
  exists u. repeat (split; [done|]). intros base. by apply RedirectDecoded_query.
Qed.

(** The error page's address carries the override's query, the correlation id
    and the status. *)
Lemma error_redirect_query (r : Request) (code : Z) (u : URL) :
  exists q, error_redirect r code u = URL_String (URL_with_query (URL_strip_origin u) q)
    /\ ParseQuery q = Values_Add (Values_Add (URL_Query u) $"correlation_id" (GetReqID r))
                        $"status_code" (Itoa code).
Proof.
  eexists. split; [done|]. apply ParseQuery_Encode.
  repeat apply Values_Add_nonempty. apply ParseQuery_nonempty.
Qed.

(** ** Properties *)

(** C34: Automatic retries end: when a user agent keeps the retry cookie, the
    [i]-th of a row of failing requests is redirected to a retry exactly if the
    attempts counted before it, the cookie's and [i], are fewer than three; every
    later one gets the error page, or its own status. *)
Theorem auto_retry_bounded {A : AEAD} {Src : ErrorSource}
    {T : ErrorTemplate} {E : Env} {S : Type}
    (rqs : list (Request * Z)) (jar : option str) (w : World S) (i : nat) (r : Request) (code : Z)
  (Hi : rqs !! i = Some (r, code))
  (Hmax : (attempts_of jar + Z.of_nat (length rqs) <= max_int64)%Z) :
  exists rw, (failures rqs jar w).1 !! i = Some rw
    /\ ((attempts_of jar + Z.of_nat i < MaxAutoRetryAttempts)%Z ->
          rw_Status rw = Some StatusTemporaryRedirect)
    /\ ((MaxAutoRetryAttempts <= attempts_of jar + Z.of_nat i)%Z ->
          rw_Status rw = Some StatusFound \/ rw_Status rw = Some code).
Proof.
  revert jar w i Hi Hmax. induction rqs as [|[r0 c0] rqs IH]; intros jar w i Hi Hmax; [done|].
  cbn [failures]. rewrite bind_run.
  destruct (respondError_cookie (with_retry_cookie jar r0) c0 w) as (Hc & Hyes & Hno).
  rewrite auto_retries_jar in Hyes, Hno. rewrite getRetryAttempts_jar in Hc.
  destruct (respondError _ _ _ _) as [rw w1]. cbn [fst snd] in *. rewrite bind_run.
  destruct i as [|i].
  - exists rw. cbn. split; [done|]. injection Hi as -> ->. rewrite Z.add_0_r. split; intros H.
    + apply Hyes. by apply Z.ltb_lt.
    + apply Hno. by apply Z.ltb_ge.
  - cbn [lookup list_lookup length] in Hi, Hmax.
    assert (Hlen : (i < length rqs)%nat) by (by apply lookup_lt_Some in Hi).
    assert (Hlow : (min_int64 <= attempts_of jar)%Z).
    { unfold attempts_of. destruct (jar ≫= Atoi) as [n|] eqn:En; [|done].
      apply bind_Some in En as (v & _ & [Hn _]%Atoi_range). done. }
    assert (Hnext : attempts_of (set_retry_cookie rw) = (attempts_of jar + 1)%Z).
    { rewrite Hc. unfold attempts_of at 1. cbn [mbind option_bind]. fold (attempts_of jar).
      rewrite wrap64_id by (unfold in_int64; lia).
      by rewrite Atoi_Itoa by (unfold in_int64; lia). }
    destruct (IH (set_retry_cookie rw) w1 i Hi) as (rw' & Hrw' & Hyes' & Hno'); [lia|].
    exists rw'. cbn [fst]. split; [exact Hrw'|]. split; intros H; [apply Hyes'|apply Hno']; lia.
Qed.

(** C33: The answer to a failing request, branch by branch: a retry keeps the
    page the user came for, the login cookie's or the request's redirect target,
    except that logouts are retried in place; after the last retry the user is
    sent to the configured error page with the correlation id and the status in
    its query, or gets the status and the built-in page when there is none or it
    does not parse. *)
Theorem respondError_spec {A : AEAD} {Src : ErrorSource}
    {T : ErrorTemplate} {E : Env} {S : Type} (r : Request) (code : Z) (w : World S)
  (Hpath : GetPath r = [] \/ HasPrefix (GetPath r) $"/" = true) :
  let rw := (respondError r code new_response w).1 in
  let lc := login_cookie_or_nil r in
  let is_logout := HasSuffix (Path (rq_URL r)) (OAuth2 ++ PathLogout)
                   || HasSuffix (Path (rq_URL r)) (OAuth2 ++ PathLogoutFrontChannel) in
  if auto_retries r then
    rw_Status rw = Some StatusTemporaryRedirect /\
    exists t, rw_Location rw = Some (redirect_target r t) /\
      if is_logout then t = Path (rq_URL r)
      else exists u, Parse t = Some u /\ Scheme u = [] /\ Host u = []
             /\ Path u = PathJoin [GetPath r; OAuth2; PathLogin]
             /\ RedirectDecoded (request_at u None) =
                  match lc with
                  | Some c => if is_empty (lc_Referer c) then CanonicalRedirect r else lc_Referer c
                  | None => CanonicalRedirect r
                  end
  else
    match (if is_empty GetErrorPath then None else Parse GetErrorPath) with
    | Some override =>
        rw_Status rw = Some StatusFound /\ exists q,
        rw_Location rw = Some (redirect_target r (URL_String (URL_with_query (URL_strip_origin override) q)))
        /\ ParseQuery q = Values_Add (Values_Add (URL_Query override) $"correlation_id" (GetReqID r))
                            $"status_code" (Itoa code)
    | None =>
        rw_Status rw = Some code /\ rw_Location rw = None
        /\ rw_Body rw = template_Execute {| CorrelationID := GetReqID r; RetryURI := Handler_Retry r lc |}
    end.
Proof.
  intros rw lc is_logout. destruct (respondError_run r code new_response w eq_refl) as (rw1 & H1 & Hrw).
  fold rw in Hrw.
  destruct (increment_spec r (GetCookieOptsPathAware r) new_response w eq_refl)
    as (Hs & Hl & Hb & _). rewrite H1 in *. clearbody rw. subst rw. destruct (auto_retries r).
  - destruct (http_Redirect_fresh r (Handler_Retry r lc) StatusTemporaryRedirect rw1 Hs)
      as (Hst & Hloc & _).
    split; [exact Hst|]. exists (Handler_Retry r lc). split; [exact Hloc|].
    destruct is_logout eqn:El; subst is_logout.
    + unfold Handler_Retry. by rewrite El.
    + apply orb_false_iff in El as [E1 E2].
      destruct (Handler_Retry_login r lc Hpath E1 E2) as (u & ? & ? & ? & ? & Hd).
      exists u. repeat (split; [done|]). apply Hd.
  - destruct (final_response_spec r code rw1 Hs) as [_ Hf].
    destruct (if is_empty _ then _ else _) as [u|].
    + destruct Hf as [Hst Hloc]. split; [exact Hst|].
      destruct (error_redirect_query r code u) as (q & Hq & Hp). exists q. by rewrite <- Hq.
    + destruct Hf as (Hst & Hloc & Hbody). rewrite Hl in Hloc. rewrite Hb in Hbody. done.
Qed.

(** ** Concrete runs *)

#[local] Instance toy_template : ErrorTemplate := fun p => CorrelationID p ++ $" " ++ RetryURI p.

(** An application under [/app] with the given error path. *)
Definition example_source (errorPath : str) : ErrorSource := {|
  GetCookieOptsPathAware _ := WithCookiePath DefaultOptions $"/app";
  GetCrypter := toy_key;
  GetErrorPath := errorPath;
  GetPath _ := $"/app" |}.

Definition example_failing : Request :=
  mkRequest MethodGet HTTP11 (URL_with_path empty_URL $"/app/oauth2/callback" []) $"app.example.com" ∅ []
    (Some $"/app") None None (Some $"corr-1").

Definition example_failures : list Response :=
  (failures (A := toy_AEAD) (T := toy_template) (Src := example_source $"/error") (E := toy_env unix_epoch)
     (replicate 5 (example_failing, 500%Z)) None toy_world).1.

Example example_failures_answers :
  map (fun rw => (rw_Status rw, rw_Location rw)) example_failures
  = replicate 3 (Some 307%Z, Some $"/app/oauth2/login?redirect-encoded=L2FwcA")
    ++ replicate 2 (Some 302%Z, Some $"/error?correlation_id=corr-1&status_code=500").
Proof. vm_compute. reflexivity. Qed.

Lemma auto_retry_bounded_witness :
  exists rw, (failures (A := toy_AEAD) (T := toy_template) (Src := example_source []) (E := toy_env unix_epoch)
                (replicate 4 (example_failing, 500%Z)) None toy_world).1 !! 3 = Some rw
    /\ (rw_Status rw = Some 302%Z \/ rw_Status rw = Some 500%Z).
Proof.
  destruct (auto_retry_bounded (A := toy_AEAD) (Src := example_source [])
              (T := toy_template) (E := toy_env unix_epoch) (replicate 4 (example_failing, 500%Z))
              None toy_world 3 example_failing 500%Z eq_refl
              ltac:(vm_compute; discriminate)) as (rw & Hrw & _ & H).
  exists rw. split; [exact Hrw|]. apply H. vm_compute. discriminate.
Defined.

Lemma respondError_spec_witness :
  let rw := (respondError (A := toy_AEAD) (T := toy_template) (Src := example_source []) (E := toy_env unix_epoch)
     (with_retry_cookie (Some $"3") example_failing) 401%Z new_response toy_world).1 in
  rw_Status rw = Some 401%Z
  /\ rw_Body rw = $"corr-1 /app/oauth2/login?redirect-encoded=L2FwcA".
Proof.
  destruct (respondError_spec (A := toy_AEAD) (Src := example_source [])
    (T := toy_template) (E := toy_env unix_epoch) (with_retry_cookie (Some $"3") example_failing)
    401%Z toy_world ltac:(right; vm_compute; reflexivity)) as (H & _ & Hb).
  split; [exact H|]. exact Hb.
Defined.
