(* ===== verification/GoHtmlTemplate.v ===== *)
(** * The part of Go's [html/template] the error page uses

    A template is text with actions [{{.Field}}].  The package follows the HTML
    of the text to find where each action stands and pipes its value through the
    escapers of that context.  Two contexts are modelled, those the page has:
    text, and the start of a double-quoted [href]; a template with an action
    elsewhere has no model here ([escapeTree] is [None]).  The second half is
    the reader's side, a user agent that scans the page and decodes character
    references, and what it sees of a value. *)

From S2P Require Import Prelude GoStrings GoUrl GoUrlFacts GoJsonText.

(** ** Escapers *)

(** [htmlReplacementTable] *)
Definition htmlReplacement (c : ascii) : option str :=
  if beq c (chr 0) then Some [chr 239; chr 191; chr 189]
  else if beq c dquote then Some $"&#34;"
  else if beq c "&" then Some $"&amp;"
  else if beq c "'" then Some $"&#39;"
  else if beq c "+" then Some $"&#43;"
  else if beq c "<" then Some $"&lt;"
  else if beq c ">" then Some $"&gt;"
  else None.

Definition html_byte (c : ascii) : str :=
  match htmlReplacement c with Some repl => repl | None => [c] end.

(** [htmlReplacer(s, htmlReplacementTable, true)], which is [htmlEscaper] and
    [attrEscaper] on a plain string.  The table has ASCII runes only, which are
    the bytes below 128: other runes, valid or not, are copied. *)
Fixpoint htmlEscaper (s : str) : str :=
  match s with [] => [] | c :: s' => html_byte c ++ htmlEscaper s' end.
Definition attrEscaper (s : str) : str := htmlEscaper s.

(** The one ASCII letter a Unicode simple folding of the first rune of [s] gives:
    U+017F folds to 's', U+212A to 'k'.  [strings.EqualFold(s, t)] for an ASCII
    [t] compares these. *)
Fixpoint fold_ascii (s : str) : str :=
  match s with
  | [] => []
  | a :: s1 =>
      match s1 with
      | b :: s2 =>
          if beq a (chr 197) && beq b (chr 191) then "s"%char :: fold_ascii s2
          else
            match s2 with
            | c :: s3 =>
                if beq a (chr 226) && beq b (chr 132) && beq c (chr 170)
                then "k"%char :: fold_ascii s3
                else lower a :: fold_ascii s1
            | [] => lower a :: fold_ascii s1
            end
      | [] => lower a :: fold_ascii s1
      end
  end.
Definition EqualFold (s t : str) : bool := streq (fold_ascii s) (ToLower t).

(** [isSafeURL(s)] *)
Definition isSafeURL (s : str) : bool :=
  let '(protocol, _, ok) := Cut s ":" in
  if ok && negb (Contains protocol "/")
  then EqualFold protocol $"http" || EqualFold protocol $"https" || EqualFold protocol $"mailto"
  else true.

Definition filterFailsafe : str := $"ZgotmplZ".

(** [urlFilter] *)
Definition urlFilter (s : str) : str := if isSafeURL s then s else $"#" ++ filterFailsafe.

(** The bytes [processURLOnto(s, true, b)] copies: reserved and unreserved ones,
    and a percent sign that starts an escape. *)
Definition url_kept (c : ascii) (rest : str) : bool :=
  if beq c "%" then
    match rest with h1 :: h2 :: _ => is_hex h1 && is_hex h2 | _ => false end
  else Contains $"!#$&*+,/:;=?@[]-._~" c || is_alpha c || is_digit c.

(** [%02x] of a byte, after a percent sign *)
Definition pct_byte (c : ascii) : str :=
  ["%"%char; hex_digit (ord c / 16); hex_digit (ord c mod 16)].

(** [urlNormalizer] *)
Fixpoint urlNormalizer (s : str) : str :=
  match s with
  | [] => []
  | c :: s' => (if url_kept c s' then [c] else pct_byte c) ++ urlNormalizer s'
  end.

(** ** Scanning HTML

    The states of a scan: in text, with the tag before it and the text so far; in
    a tag, with what was read of it; in a quoted attribute value.  The last bytes
    come first.  Comments and character data with '<' are not needed. *)
Inductive HtmlState :=
| InText (tag acc : str)
| InTag (acc : str)
| InValue (q : ascii) (tag acc : str).

(** What a scan finds: pieces of text, tags, and attribute values with the part
    of the tag before them (without the values before). *)
Inductive Event :=
| EText (tag text : str)
| ETag (tag : str)
| EValue (tag value : str).

Definition html_step (st : HtmlState) (c : ascii) : HtmlState * list Event :=
  match st with
  | InText tag acc =>
      if beq c "<" then (InTag [], [EText tag (reverse acc)]) else (InText tag (c :: acc), [])
  | InTag acc =>
      if beq c ">" then (InText (reverse acc) [], [ETag (reverse acc)])
      else if beq c dquote || beq c "'" then (InValue c acc [], [])
      else (InTag (c :: acc), [])
  | InValue q tag acc =>
      if beq c q then (InTag tag, [EValue (reverse tag) (reverse acc)])
      else (InValue q tag (c :: acc), [])
  end.

Fixpoint html_scan (st : HtmlState) (s : str) : HtmlState * list Event :=
  match s with
  | [] => (st, [])
  | c :: s' =>
      let '(st1, evs1) := html_step st c in
      let '(st2, evs2) := html_scan st1 s' in
      (st2, evs1 ++ evs2)
  end.

Definition html_start : HtmlState := InText [] [].

(** Whether the text after a tag is not ordinary text: it belongs to a script, a
    style sheet or a title. *)
Definition special_tag (tag : str) : bool :=
  existsb (fun t => HasPrefix (ToLower tag) t)
    [$"script"; $"style"; $"title"; $"textarea"].

(** ** Templates *)

Inductive Node := TextNode (text : str) | ActionNode (pipe : str).

(** Add a byte to the first node. *)
Definition node_push (c : ascii) (nodes : list Node) : list Node :=
  match nodes with
  | TextNode t :: ns => TextNode (c :: t) :: ns
  | ActionNode p :: ns => ActionNode (c :: p) :: ns
  | [] => []
  end.

(** [template.Parse] of a text whose actions are [{{...}}]: the text and the
    actions in turn, [None] for an action that is not closed. *)
Fixpoint template_lex (inside : bool) (s : str) : option (list Node) :=
  match s with
  | [] => if inside then None else Some [TextNode []]
  | c :: s1 =>
      let delim := (if inside then "}" else "{")%char in
      let push := node_push c <$> template_lex inside s1 in
      if beq c delim then
        match s1 with
        | d :: s2 =>
            if beq d delim then
              cons (if inside then ActionNode [] else TextNode []) <$> template_lex (negb inside) s2
            else push
        | [] => push
        end
      else push
  end.

(** A compiled template over a type of data: literal text, and values with the
    escapers of their context. *)
Inductive Piece (D : Type) :=
| Lit (text : str)
| HtmlText (field : D -> str)
| HrefUrl (field : D -> str).
#[global] Arguments Lit {D}.
#[global] Arguments HtmlText {D}.
#[global] Arguments HrefUrl {D}.

(** The escaper for a value at a state of the scan. *)
Definition escaper_at {D} (st : HtmlState) (f : D -> str) : option (Piece D) :=
  match st with
  | InText tag _ => if special_tag tag then None else Some (HtmlText f)
  | InValue q tag [] =>
      if beq q dquote && HasPrefix tag (rev $" href=") then Some (HrefUrl f) else None
  | _ => None
  end.

(** The state after an action: its value does not leave the context, but a second
    action in the same attribute value is not at its start. *)
Definition after_action (st : HtmlState) : HtmlState :=
  match st with InValue q tag acc => InValue q tag (chr 0 :: acc) | _ => st end.

(** [escapeTree]: follow the text, choose the escapers; [fields] gives the
    fields of the data by the actions that name them. *)
Fixpoint escapeTree {D} (fields : str -> option (D -> str)) (st : HtmlState) (nodes : list Node)
    : option (list (Piece D)) :=
  match nodes with
  | [] => Some []
  | TextNode t :: ns => cons (Lit t) <$> escapeTree fields (html_scan st t).1 ns
  | ActionNode p :: ns =>
      f ← fields p;
      piece ← escaper_at st f;
      cons piece <$> escapeTree fields (after_action st) ns
  end.

Definition compile {D} (fields : str -> option (D -> str)) (text : str) : option (list (Piece D)) :=
  nodes ← template_lex false text; escapeTree fields html_start nodes.

(** [Template.Execute], the bytes it writes *)
Definition piece_output {D} (p : Piece D) (d : D) : str :=
  match p with
  | Lit t => t
  | HtmlText f => htmlEscaper (f d)
  | HrefUrl f => attrEscaper (urlNormalizer (urlFilter (f d)))
  end.
Definition Execute {D} (t : list (Piece D)) (d : D) : str :=
  concat (map (fun p => piece_output p d) t).

(** ** What a user agent reads

    Character references by their names (between '&' and ';'); the numeric ones
    of ASCII, the named ones of the markup. *)
Definition reference (name : str) : option str :=
  if streq name $"amp" then Some $"&"
  else if streq name $"lt" then Some $"<"
  else if streq name $"gt" then Some $">"
  else if streq name $"quot" then Some [dquote]
  else match name with
       | "#"%char :: [d1; d2] =>
           if is_digit d1 && is_digit d2
           then Some [chr (10 * (ord d1 - 48) + (ord d2 - 48))] else None
       | _ => None
       end.

(** Decode the references of a text; [pend] is what follows an open '&'. *)
Fixpoint html_decode (pend : option str) (s : str) : str :=
  match s, pend with
  | [], None => []
  | [], Some n => "&"%char :: n
  | c :: s', None =>
      if beq c "&" then html_decode (Some []) s' else c :: html_decode None s'
  | c :: s', Some n =>
      if beq c ";" then
        match reference n with
        | Some v => v ++ html_decode None s'
        | None => "&"%char :: n ++ ";"%char :: html_decode None s'
        end
      else if beq c "&" then "&"%char :: n ++ html_decode (Some []) s'
      else html_decode (Some (n ++ [c])) s'
  end.

Definition event_decode (e : Event) : Event :=
  match e with
  | EText tag t => EText tag (html_decode None t)
  | ETag tag => ETag tag
  | EValue tag v => EValue tag (html_decode None v)
  end.

(** A page as a user agent reads it: its events, decoded. *)
Definition page_events (html : str) : list Event := map event_decode (html_scan html_start html).2.

(** The structure of a page: its events without texts and values. *)
Definition event_shape (e : Event) : Event :=
  match e with
  | EText tag _ => EText tag []
  | ETag tag => ETag tag
  | EValue tag _ => EValue tag []
  end.
Definition page_shape (html : str) : list Event := map event_shape (page_events html).

(** The links of a page. *)
Definition event_link (e : Event) : option str :=
  match e with EValue tag v => if HasSuffix tag $" href=" then Some v else None | _ => None end.
Definition page_links (html : str) : list str := omap event_link (page_events html).

(** The texts of a page. *)
Definition event_text (e : Event) : option str :=
  match e with EText _ t => Some t | _ => None end.
Definition page_texts (html : str) : list str := omap event_text (page_events html).

(** A value as it is shown: NUL is replaced by U+FFFD. *)
Definition shown_byte (c : ascii) : str :=
  if beq c (chr 0) then [chr 239; chr 191; chr 189] else [c].
Definition shown (s : str) : str := concat (map shown_byte s).

(** The percent-decoding a server does, without its errors. *)
Fixpoint pct_decode (s : str) : str :=
  match s with
  | [] => []
  | c :: s1 =>
      if beq c "%" then
        match s1 with
        | h1 :: h2 :: s3 =>
            match unhex h1, unhex h2 with
            | Some a, Some b => chr (a * 16 + b) :: pct_decode s3
            | _, _ => c :: pct_decode s1
            end
        | _ => c :: pct_decode s1
        end
      else c :: pct_decode s1
  end.

(** ** Lemmas: scanning *)

Lemma html_scan_app (st : HtmlState) (s t : str) :
  html_scan st (s ++ t) =
    ((html_scan (html_scan st s).1 t).1, (html_scan st s).2 ++ (html_scan (html_scan st s).1 t).2).
Proof.
  revert st. induction s as [|c s IH]; intros st; cbn [app html_scan fst snd].
  - by destruct (html_scan st t).
  - destruct (html_step st c) as [st1 e1]. rewrite IH.
    destruct (html_scan st1 s) as [st2 e2]. cbn. by rewrite app_assoc.
Qed.

Lemma html_scan_text (tag acc v : str) :
  Contains v "<" = false -> html_scan (InText tag acc) v = (InText tag (reverse v ++ acc), []).
Proof.
  revert acc. induction v as [|c v IH]; intros acc H; [done|].
  cbn in H. to_prop. cbn [html_scan html_step].
  assert (beq c "<" = false) as -> by (by apply beq_false; apply beq_false in H).
  rewrite IH by done. by rewrite reverse_cons, <- app_assoc.
Qed.

Lemma html_scan_value (q : ascii) (tag acc v : str) :
  Contains v q = false -> html_scan (InValue q tag acc) v = (InValue q tag (reverse v ++ acc), []).
Proof.
  revert acc. induction v as [|c v IH]; intros acc H; [done|].
  cbn in H. to_prop. cbn [html_scan html_step].
  assert (beq c q = false) as -> by (apply beq_false; apply beq_false in H; congruence).
  rewrite IH by done. by rewrite reverse_cons, <- app_assoc.
Qed.

(** Two states that differ in the text or value read so far. *)
Definition similar (a b : HtmlState) : Prop :=
  match a, b with
  | InText t _, InText t' _ => t = t'
  | InTag x, InTag y => x = y
  | InValue q t _, InValue q' t' _ => q = q' /\ t = t'
  | _, _ => False
  end.

Lemma similar_refl (a : HtmlState) : similar a a.
Proof. by destruct a. Qed.

Lemma html_step_similar (a b : HtmlState) (c : ascii) :
  similar a b ->
  similar (html_step a c).1 (html_step b c).1
  /\ map event_shape (html_step a c).2 = map event_shape (html_step b c).2.
Proof.
  destruct a, b; cbn; try done; intros H; [subst|subst|destruct H as [-> ->]];
    repeat case_goal; done.
Qed.

Lemma html_scan_similar (s : str) (a b : HtmlState) :
  similar a b ->
  similar (html_scan a s).1 (html_scan b s).1
  /\ map event_shape (html_scan a s).2 = map event_shape (html_scan b s).2.
Proof.
  revert a b. induction s as [|c s IH]; intros a b H; [done|]. cbn [html_scan].
  destruct (html_step_similar a b c H) as [H1 He].
  destruct (html_step a c) as [a1 e1], (html_step b c) as [b1 e2]. cbn in *.
  destruct (IH a1 b1 H1) as [H2 Hs].
  destruct (html_scan a1 s) as [a2 f1], (html_scan b1 s) as [b2 f2]. cbn in *.
  split; [done|]. by rewrite !map_app, He, Hs.
Qed.

Lemma event_shape_decode (es : list Event) : map event_shape (map event_decode es) = map event_shape es.
Proof. rewrite map_map. apply map_ext. by intros []. Qed.

(** ** Lemmas: escaping *)

Lemma html_byte_safe (c : ascii) :
  negb (Contains (html_byte c) "<") && negb (Contains (html_byte c) dquote)
  && negb (Contains (html_byte c) ">") && negb (Contains (html_byte c) "'") = true.
Proof. revert c. apply byte_cases. vm_compute. reflexivity. Qed.

Lemma Contains_app (s t : str) (c : ascii) : Contains (s ++ t) c = Contains s c || Contains t c.
Proof. apply existsb_app. Qed.

(** No escaped value leaves its place: it has none of the bytes that end a text
    or a quoted value. *)
Lemma htmlEscaper_safe (s : str) :
  Contains (htmlEscaper s) "<" = false /\ Contains (htmlEscaper s) dquote = false
  /\ Contains (htmlEscaper s) ">" = false /\ Contains (htmlEscaper s) "'" = false.
Proof.
  induction s as [|c s (H1 & H2 & H3 & H4)]; [done|]. cbn [htmlEscaper].
  pose proof (html_byte_safe c) as H. to_prop.
  rewrite !Contains_app, H1, H2, H3, H4, !orb_false_r. done.
Qed.

Lemma htmlEscaper_app (s t : str) : htmlEscaper (s ++ t) = htmlEscaper s ++ htmlEscaper t.
Proof. induction s as [|c s IH]; [done|]. cbn. by rewrite IH, app_assoc. Qed.

(** The user agent decodes an escaped byte to that byte. *)
Lemma html_decode_byte (c : ascii) (t : str) :
  html_decode None (html_byte c ++ t) = shown_byte c ++ html_decode None t.
Proof.
  unfold html_byte, htmlReplacement, shown_byte.
  destruct (beq c (chr 0)) eqn:E0; [done|].
  destruct (beq c dquote) eqn:E1; [by apply beq_true in E1 as ->|].
  destruct (beq c "&") eqn:E2; [by apply beq_true in E2 as ->|].
  destruct (beq c "'") eqn:E3; [by apply beq_true in E3 as ->|].
  destruct (beq c "+") eqn:E4; [by apply beq_true in E4 as ->|].
  destruct (beq c "<") eqn:E5; [by apply beq_true in E5 as ->|].
  destruct (beq c ">") eqn:E6; [by apply beq_true in E6 as ->|].
  cbn [app html_decode]. by rewrite E2.
Qed.

Lemma html_decode_escaped (s t : str) :
  html_decode None (htmlEscaper s ++ t) = shown s ++ html_decode None t.
Proof.
  unfold shown. induction s as [|c s IH]; [done|]. cbn [htmlEscaper map concat].
  by rewrite <- !app_assoc, html_decode_byte, IH.
Qed.

Lemma html_decode_literal (s t : str) :
  Contains s "&" = false -> html_decode None (s ++ t) = s ++ html_decode None t.
Proof.
  induction s as [|c s IH]; [done|]. cbn [Contains existsb]. intros H. to_prop.
  cbn [app html_decode].
  assert (beq c "&" = false) as -> by (apply beq_false; apply beq_false in H; congruence).
  by rewrite IH.
Qed.

(** A value without NUL is shown as it is. *)
Lemma shown_id (s : str) : Contains s (chr 0) = false -> shown s = s.
Proof.
  unfold shown. induction s as [|c s IH]; [done|]. cbn [Contains existsb]. intros H. to_prop.
  cbn [map concat]. unfold shown_byte at 1.
  assert (beq c (chr 0) = false) as -> by (apply beq_false; apply beq_false in H; congruence).
  cbn. by rewrite IH.
Qed.

(** ** The structure of a page does not depend on its data *)

Definition safe_piece_at {D} (st : HtmlState) (p : Piece D) : Prop :=
  match p, st with
  | HtmlText _, InText _ _ => True
  | HrefUrl _, InValue q _ _ => q = dquote
  | _, _ => False
  end.

Lemma escaper_at_safe {D} (st : HtmlState) (f : D -> str) (p : Piece D) :
  escaper_at st f = Some p -> safe_piece_at st p.
Proof.
  destruct st as [tag acc|acc|q tag acc]; cbn [escaper_at]; [|done|].
  - destruct (special_tag tag); [done|]. by intros [= <-].
  - destruct acc; [|done]. destruct (beq q dquote) eqn:E; [|done].
    destruct (HasPrefix _ _); [|done]. intros [= <-]. by apply beq_true in E.
Qed.

Lemma piece_output_similar {D} (st : HtmlState) (p : Piece D) (d : D) :
  safe_piece_at st p ->
  similar st (html_scan st (piece_output p d)).1 /\ (html_scan st (piece_output p d)).2 = [].
Proof.
  destruct p as [|f|f], st as [tag acc|acc|q tag acc]; try done; cbn [piece_output safe_piece_at].
  - intros _. by rewrite html_scan_text by apply htmlEscaper_safe.
  - intros ->. by rewrite html_scan_value by apply htmlEscaper_safe.
Qed.

Lemma after_action_similar (st : HtmlState) : similar (after_action st) st.
Proof. by destruct st. Qed.

Lemma similar_sym (a b : HtmlState) : similar a b -> similar b a.
Proof. destruct a, b; cbn; naive_solver. Qed.

Lemma similar_trans (a b c : HtmlState) : similar a b -> similar b c -> similar a c.
Proof. destruct a, b, c; cbn; naive_solver. Qed.

Lemma safe_piece_similar {D} (a b : HtmlState) (p : Piece D) :
  similar a b -> safe_piece_at a p -> safe_piece_at b p.
Proof. destruct p, a, b; cbn; naive_solver. Qed.

(** The events of an executed template, without texts and values, are those of
    any other execution: by following the template as [escapeTree] did. *)
Lemma Execute_shape {D} (fields : str -> option (D -> str)) (nodes : list Node)
    (st : HtmlState) (t : list (Piece D)) :
  escapeTree fields st nodes = Some t ->
  forall a b d d', similar a st -> similar b st ->
  map event_shape (html_scan a (Execute t d)).2 = map event_shape (html_scan b (Execute t d')).2.
Proof.
  revert st t. induction nodes as [|[text|pipe] nodes IH]; intros st t; cbn [escapeTree].
  - by intros [= <-].
  - destruct (escapeTree _ _ nodes) as [t'|] eqn:Et; [|done]. intros [= <-] a b d d' Ha Hb.
    change (Execute (Lit text :: t') ?x) with (text ++ Execute t' x). rewrite !html_scan_app.
    destruct (html_scan_similar text a st Ha) as [Ha1 Ha2].
    destruct (html_scan_similar text b st Hb) as [Hb1 Hb2].
    cbn [snd]. rewrite !map_app, Ha2, Hb2. f_equal. eapply IH; eauto.
  - destruct (fields pipe) as [f|]; [|done]. cbn [mbind option_bind].
    destruct (escaper_at st f) as [p|] eqn:Ep; [|done]. cbn [mbind option_bind].
    destruct (escapeTree _ _ nodes) as [t'|] eqn:Et; [|done]. intros [= <-] a b d d' Ha Hb.
    apply escaper_at_safe in Ep.
    change (Execute (p :: t') ?x) with (piece_output p x ++ Execute t' x). rewrite !html_scan_app.
    destruct (piece_output_similar a p d (safe_piece_similar _ _ _ (similar_sym _ _ Ha) Ep)) as [Ha1 Ha2].
    destruct (piece_output_similar b p d' (safe_piece_similar _ _ _ (similar_sym _ _ Hb) Ep)) as [Hb1 Hb2].
    cbn [snd]. rewrite !map_app, Ha2, Hb2. cbn [map app]. eapply (IH _ _ Et).
    + eauto using similar_trans, similar_sym, after_action_similar.
    + eauto using similar_trans, similar_sym, after_action_similar.
Qed.

Lemma page_shape_independent {D} (fields : str -> option (D -> str)) (text : str)
    (t : list (Piece D)) (d d' : D) :
  compile fields text = Some t -> page_shape (Execute t d) = page_shape (Execute t d').
Proof.
  unfold compile. destruct (template_lex false text) as [nodes|]; [|done]. intros Ht.
  unfold page_shape, page_events. rewrite !event_shape_decode.
  eapply (Execute_shape _ _ _ _ Ht); apply similar_refl.
Qed.

(** ** URLs *)

Lemma unhex_is_hex (c : ascii) : is_hex c = bool_decide (is_Some (unhex c)).
Proof.
  apply (bool_decide_eq_true (is_hex c = bool_decide (is_Some (unhex c)))). revert c.
  apply byte_cases. vm_compute. reflexivity.
Qed.

Lemma pct_byte_hex (c : ascii) :
  match unhex (hex_digit (ord c / 16)), unhex (hex_digit (ord c mod 16)) with
  | Some a, Some b => (a * 16 + b =? ord c)%Z
  | _, _ => false
  end = true.
Proof. revert c. apply byte_cases. vm_compute. reflexivity. Qed.

Lemma pct_decode_pct (c : ascii) (t : str) : pct_decode (pct_byte c ++ t) = c :: pct_decode t.
Proof.
  pose proof (pct_byte_hex c) as H. unfold pct_byte. cbn [app pct_decode]. rewrite beq_refl.
  destruct (unhex (hex_digit (ord c / 16))) as [a|]; [|done].
  destruct (unhex (hex_digit (ord c mod 16))) as [b|]; [|done].
  to_prop. by rewrite H, chr_ord.
Qed.

Lemma url_kept_hex (c : ascii) (rest : str) : is_hex c = true -> url_kept c rest = true.
Proof.
  intros H. assert (Hc : beq c "%" || negb (is_hex c) = false).
  { rewrite H, orb_false_r. apply beq_false. by intros ->. }
  revert H. unfold url_kept. to_prop. rewrite H. intros Hx.
  assert (is_alpha c || is_digit c = true) as Hd.
  { revert Hx. apply (byte_impl is_hex (fun c => is_alpha c || is_digit c)). vm_compute. reflexivity. }
  destruct (Contains _ c); [done|]. exact Hd.
Qed.

(** Normalizing a URL does not change what it decodes to. *)
Lemma pct_decode_normalized (s : str) : pct_decode (urlNormalizer s) = pct_decode s.
Proof.
  induction s as [s IH] using (induction_ltof1 _ (@length ascii)). unfold ltof in IH.
  destruct s as [|c s1]; [done|]. cbn [urlNormalizer].
  assert (IH1 : pct_decode (urlNormalizer s1) = pct_decode s1) by (apply IH; cbn; lia).
  destruct (beq c "%") eqn:Ec.
  - cbn [url_kept pct_decode]. unfold url_kept. rewrite Ec.
    destruct s1 as [|h1 [|h2 s3]].
    + rewrite pct_decode_pct. done.
    + rewrite pct_decode_pct. by rewrite IH1.
    + destruct (is_hex h1) eqn:E1, (is_hex h2) eqn:E2; cbn [andb];
        rewrite unhex_is_hex in E1, E2.
      2-4: rewrite pct_decode_pct, IH1; to_prop;
        destruct (unhex h1), (unhex h2); try done;
        exfalso; match goal with H : ~ is_Some _ |- _ => apply H; eauto end.
      cbn [app urlNormalizer]. rewrite !url_kept_hex by (rewrite unhex_is_hex; done).
      cbn [app pct_decode]. rewrite Ec. to_prop. destruct E1 as [a Ha], E2 as [b Hb].
      rewrite Ha, Hb. f_equal. apply IH. cbn. lia.
  - destruct (url_kept c s1).
    + cbn [app pct_decode]. by rewrite Ec, IH1.
    + rewrite pct_decode_pct. cbn [pct_decode]. by rewrite Ec, IH1.
Qed.

Lemma normalized_pct_safe (c : ascii) :
  negb (Contains (pct_byte c) (chr 0)) = true.
Proof. revert c. apply byte_cases. vm_compute. reflexivity. Qed.

(** A normalized URL has no NUL, and is shown as it is. *)
Lemma shown_normalized (s : str) : shown (urlNormalizer s) = urlNormalizer s.
Proof.
  apply shown_id. induction s as [|c s IH]; [done|]. cbn [urlNormalizer].
  rewrite Contains_app, IH, orb_false_r. destruct (url_kept c s) eqn:E.
  - cbn. rewrite orb_false_r. apply beq_false. by intros <-.
  - pose proof (normalized_pct_safe c). by to_prop.
Qed.

(** An escape of [net/url] survives normalizing. *)
Lemma normalized_escape_byte (mode : encoding) (c : ascii) :
  mode = encodePath \/ mode = encodeQueryComponent ->
  forall t, urlNormalizer (escape_byte c mode ++ t) = escape_byte c mode ++ urlNormalizer t.
Proof.
  intros Hm t.
  assert (H : match escape_byte c mode with
    | [x] => negb (beq x "%") && url_kept x []
    | [p; h1; h2] => beq p "%" && is_hex h1 && is_hex h2
    | _ => false
    end = true).
  { destruct Hm as [-> | ->]; revert c; apply byte_cases; vm_compute; reflexivity. }
  destruct (escape_byte c mode) as [|x [|h1 [|h2 [|]]]]; try done; to_prop; cbn [app urlNormalizer].
  - assert (url_kept x t = true) as -> by (by revert H0; unfold url_kept; rewrite H). done.
  - apply beq_true in H as ->.
    assert (url_kept "%" (h1 :: h2 :: t) = true) as ->
      by (unfold url_kept; by rewrite beq_refl, H1, H0).
    by rewrite !url_kept_hex.
Qed.

Lemma normalized_escape (mode : encoding) (s t : str) :
  mode = encodePath \/ mode = encodeQueryComponent ->
  urlNormalizer (escape s mode ++ t) = escape s mode ++ urlNormalizer t.
Proof.
  intros Hm. induction s as [|c s IH]; [done|].
  by rewrite escape_cons, <- !app_assoc, normalized_escape_byte, IH.
Qed.

(** ** Schemes *)

(** The scheme a user agent finds in a link, in lower case. *)
Definition scheme_byte (c : ascii) : bool := is_alpha c || is_digit c || Contains $"+-." c.
Definition link_scheme (s : str) : option str :=
  let '(p, _, ok) := Cut s ":" in
  match p with
  | c :: _ => if ok && is_alpha c && forallb scheme_byte p then Some (ToLower p) else None
  | [] => None
  end.

Lemma fold_ascii_scheme (p : str) : forallb scheme_byte p = true -> fold_ascii p = ToLower p.
Proof.
  induction p as [|a p IH]; [done|]. cbn [forallb]. intros H. to_prop.
  specialize (IH H0). cbn [fold_ascii].
  assert (beq a (chr 197) = false /\ beq a (chr 226) = false) as [-> ->].
  { split; apply beq_false; intros ->; done. }
  cbn [andb]. destruct p as [|b [|c p]]; cbn [ToLower map]; f_equal; exact IH.
Qed.

Lemma normalized_prefix (p r s : str) :
  urlNormalizer s = p ++ r -> Contains p "%" = false ->
  exists r', s = p ++ r' /\ urlNormalizer r' = r.
Proof.
  revert s. induction p as [|a p IH]; intros s Hs Hp; [by exists s|].
  cbn in Hp. to_prop. destruct s as [|c s]; [done|]. cbn [urlNormalizer] in Hs.
  destruct (url_kept c s); cbn [app pct_byte] in Hs; injection Hs as <- Hs.
  - destruct (IH s Hs H0) as (r' & -> & Hr). by exists r'.
  - done.
Qed.

(** The only schemes of a link that was filtered and normalized. *)
Lemma filtered_link_scheme (s : str) :
  link_scheme (urlNormalizer (urlFilter s)) ∈ [None; Some $"http"; Some $"https"; Some $"mailto"].
Proof.
  assert (Hsafe : isSafeURL (urlFilter s) = true).
  { unfold urlFilter. by destruct (isSafeURL s) eqn:E. }
  revert Hsafe. generalize (urlFilter s). clear s. intros s Hsafe. unfold link_scheme.
  pose proof (Cut_spec (urlNormalizer s) ":") as Hc.
  destruct (Cut (urlNormalizer s) ":") as [[p r] ok]. destruct p as [|c p]; [set_solver|].
  destruct ok; [|set_solver]. cbn [andb].
  destruct (is_alpha c && forallb scheme_byte (c :: p)) eqn:E; [|set_solver].
  destruct Hc as [Hs Hcolon]. to_prop. set (q := c :: p) in *.
  assert (Hq : forall x, scheme_byte x = false -> x ∉ q) by (intros x; by apply forallb_not_in).
  destruct (normalized_prefix q (":"%char :: r) s Hs) as (r' & -> & Hr).
  { by apply Contains_false, Hq. }
  assert (exists r2, r' = ":"%char :: r2) as (r2 & ->).
  { destruct r' as [|x r']; [done|]. cbn [urlNormalizer] in Hr.
    destruct (url_kept x r'); cbn [app pct_byte] in Hr; [|discriminate Hr].
    injection Hr as -> _. by eexists. }
  unfold isSafeURL in Hsafe. rewrite Cut_app in Hsafe by done.
  assert (Contains q "/" = false) as Hslash by (by apply Contains_false, Hq).
  rewrite Hslash in Hsafe. cbn [andb negb] in Hsafe. unfold EqualFold in Hsafe.
  rewrite fold_ascii_scheme in Hsafe by done.
  rewrite !orb_true_iff, !streq_true in Hsafe.
  destruct Hsafe as [[-> | ->] | ->]; set_solver.
Qed.

(** A rooted reference has no scheme to filter. *)
Lemma urlFilter_rooted (s : str) : HasPrefix s $"/" = true -> urlFilter s = s.
Proof.
  intros [t ->]%HasPrefix_spec. unfold urlFilter, isSafeURL.
  change $"/" with ["/"%char]. cbn [app Cut]. change (beq "/" ":") with false. destruct (Cut _ ":") as [[b a] []]; done.
Qed.
