(* ===== verification/ErrorGoHtml.v ===== *)
(** * The error page's template: [pkg/handler/templates/error.gohtml]

    The text of the file, byte for byte.  It is data: the style sheet holds three
    embedded fonts, which make most of it. *)

From S2P Require Import Prelude.

(** A line of the file, in pieces; a backquote, which the file does not hold,
    stands for a double quote. *)
Definition html (piece : String.string) : str :=
  map (fun c => if beq c "`" then chr 34 else c) $piece.
Definition html_line (pieces : list String.string) : str :=
  concat (map html pieces) ++ [chr 10].

#[local] Open Scope string_scope.

(** [errorGoHtml], the embedded file *)
Definition errorGoHtml : str := concat (map html_line [
  ["<!DOCTYPE html>"];
  ["<html lang=`no`>"];
  ["<head>"];
  ["    <meta http-equiv=`Content-Type` content=`text/html; charset=UTF-8`>"];
  ["    <style>"];
  ["        * {"];
  ["            -webkit-box-sizing: border-box;"];
  ["            -moz-box-sizing: border-box;"];
  ["            box-sizing: border-box;"];
  ["        }"];
  [];
  ["        html, body {"];
  ["            height: 100%;"];
  ["        }"];
  [];
  ["        body {"];
  ["            font-family: Arial, Helvetica, sans-serif;"];
  ["            font-weight: 500;"];
  ["            margin: 0;"];
  ["        }"];
  [];
  ["        .navLink {"];
  ["            color: #0067c5 !important;"];
  ["            border: 0;"];
  ["            padding: 0;"];
  ["            background: none;"];
  ["            text-decoration: none !important;"];
  ["            border-bottom: solid 1px #b7b1a9;"];
  ["            cursor: pointer;"];
  ["            font-weight: normal !important;"];
  ["        }"];
  [];
  ["        .navLink:hover {"];
  ["            border-bottom-color: #0067c5;"];
  ["        }"];
  [];
  ["        .navLink:focus {"];
  ["            outline: none;"];
  ["            background-color: #ffbd66;"];
  ["        }"];
  [];
  ["        .navLink:active {"];
  ["            color: #005b82;"];
  ["            border-bottom-color: #005b82;"];
  ["        }"];
  [];
  ["        .header {"];
  ["            margin-right: auto;"];
  ["            margin-left: auto;"];
  ["            text-align: center;"];
  ["            padding: 15px 0 18px;"];
  ["            border-bottom: 1px solid #d1d1d1;"];
  ["        }"];
  [];
  ["        .header--link {"];
  ["            display: inline-block;"];
  ["            text-decoration: none;"];
  ["        }"];
  [];
  ["        .content {"];
  ["            padding-top: 60px;"];
  ["            padding-bottom: 60px;"];
  ["            margin-left: auto;"];
  ["            margin-right: auto;"];
  ["            max-width: 63rem;"];
  ["        }"];
  [];
  ["        .footer {"];
  ["            background: #333;"];
  ["            color: #b7b1a9;"];
  ["            position: relative;"];
  ["            padding: 30px;"];
  ["            font-size: 1em;"];
  ["            text-align: center;"];
  ["        }"];
  [];
  ["        .copyright {"];
  ["            font-size: 0.7em;"];
  ["            margin-top: 0.7em;"];
  ["        }"];
  [];
  ["        .pagewrapper {"];
  ["            min-height: 100%;"];
  ["            height: auto;"];
  ["            margin-bottom: -100px;"];
  ["            padding-bottom: 100px;"];
  ["        }"];
  [];
  ["        @font-face {"];
  ["            font-family: 'Source Sans Pro';"];
  ["            font-weight: 400;"];
  ["            font-style: normal;"];
  ["            src: url(data:application/font-woff;base64,d09GRgABAAAAADaMAA4AAAAAY0AAAQABAAAAAAAAAAAAA";
   "AAAAAAAAAAAAABHREVGAAABRAAAADYAAABAA0QDckdQT1MAAAF8AAAHPAAAGXDUveN5R1NVQgAACLgAAACJAAAA4PFn1ldPUy8yA";
   "AAJRAAAAFcAAABgWrSUW2NtYXAAAAmcAAABRQAAAebzMPm1Z2FzcAAACuQAAAAIAAAACP//AANnbHlmAAAK7AAAJIsAADpM3ysda";
   "WhlYWQAAC94AAAANgAAADb+FLPiaGhlYQAAL7AAAAAfAAAAJAejA6FobXR4AAAv0AAAAeUAAAPEpqgmOmxvY2EAADG4AAAB1AAAA";
   "eQlOzSobWF4cAAAM4wAAAAgAAAAIAMLAkBuYW1lAAAzrAAAANcAAAHGIro8MHBvc3QAADSEAAACBQAAAzlsUEhveAENwbEBQDAQA";
   "MADgH10RmAMHSUyaqbJ36mwAmqj1qayx8rhVLli5faofLHyS2o5VgWBWga3AAB4AdxWVXDkRhB9ZqjyYZiZmfknzJzvMDMz/YThJ";
   "8x4zMzMzGz2eu8sr9ebs867UeqlqzM1JU2dDOHkaaHV06Se7mkhD0A5TsAFyL/goituQI/7b3n8QeyFQghIXbe0XPn33fHog+jx2";
   "y+g63kikQ/ItzzvErk7TDV64CLcj1fxPSZiMWqRzsvPK83rk3dA3lF5p4hUD5ShL/bE3jgZp+ImPIy38A6+RD8MwExZ21Os7M0kT";
   "qaHU5nAHeiDO3EIvmQG/TgJw7ALilTiVGaE2y7cMcLdD6Wis0O4rbgN5aJ3hOidLBJtIrFCJE4VvZOZFglfuOsxiL5wS8XfngxEx";
   "hNOu3COFbk9mRUfIqfcVuEehgKRmYsBqjlTtNQWioWTwDBuQZ5oVSNffueK7lqR35MJoRLi0RP+nShBGnuqxCKcrLyXmMMr8s3f5";
   "W2xiF0qdzsGZ+I4gI0cxDr5HYcDcalIVOAvhMT9p4JprgIk8j8ZnK6/cyO8pFwb/wTbsrNy9QNwtuXN5BaAq7lFqKY/wYePPS29H";
   "iZ+gDUcLitl9NBtcD1bAWaUDpjhAsNvp68eFcLP8VuRTYonheoUMsHFnKvaDmxsgbHtM2NtBVYiDfXBWiAcPXMMrLSPnYApih1m6";
   "UVsJ4Wus9my2lyMHlYzoLUNMCG/DtRm4PD03gXr9a80lJPOa1tioj630B5TMPFzm65nAWhUGsVKWHA7wCxFQ75p1tJ3PfJ11nE+R";
   "zMAWMnNHAmggGKXCc3FdpXy6PNuDuf3/N5qjgZYzX4cyc0AF7JypznJRSuMvvKdijS6xXZPfLYALpiN2nZ3mj71nvplCgrD0b10d";
   "YTeyFpDZRzbWUSg6w6tO9GOQnQTzHCc5rsK4Idczw1cyCTHMcWpfFUrdaU5fXZhv2hcAKtEfjhXcCXncIzm0MJ5vjRT9GFrkSsc2";
   "RqbOd/Jclz1/mSpSoA5vdJ6Pw1hHM66neoH6kkr2Y2Ys7UbMyjjD8JLa0VPAbiOn6tUJaD1faBwo1Whq5zKBVwv0iu4io2hqshRd";
   "5dpE2mOtfS1Izw2sUq1t5oIdrF6uciJU8nKmLMqGZKLARe6Ha29GQtbg0nNTLFcbg81ObW5i1ubqlcaf74zAXRWuVyGboIf0mOln";
   "hJ7cZvQHzvr7TBnIJ90Vsbr79cczC0dzAafCc1JEYroh08CQyvFSnoMnHxrnYhW1mYz/PTH6fc42z0HcWl4LwwXbAVwnnAuZ8acK";
   "afhQOyFI3AQKuzkMv840WYayjlUJ4lbCZlIT7WjB06ABTdHu9HK9wDsBGijT9/46hGpkxRUw3RAInKq2RpkwNUmyiytBJMmwk7h9";
   "oZ6znaoMc/0spmuuqsxE5GJsDU2M6DErbO8BcW2W12UscrqDLHvKGuYsfwIuIjPWT+dgr6+IfdllvPYbJ64UfnqSVHBNM5zc4OD0";
   "Fc721NpP1rfkenY1tW+pB+RLgdc2Lq0/kJ1kgrVd87EcBB6RHbAUkxFLdgOrEWnYNKNqmsabAtFuI5B6KkD1oZPFhym/7YHXbAFc";
   "Od8yPaW6PucM1uPZcbaDjp+OiaMnOYzKs2tIY++iX1PuFAtpvH3o1CfxcxLjucmejoxK7XrnrTTu0PQ06sW/x/E1/GGP2aJPmst5";
   "30upc+RANfoOfEgugA2mvPEw98CW7lNAHdwB8Bp+s7WTJ/bALZyHH/p/FQQ+SZ63M5GNlueF3lDT+uZXKDzq4U+5Z4/a3X6MTYD1";
   "QAbmDE29N7BNXF1i98JNqrvqd23yAQT7qkVD83JfPekiJ3VyucULkcMuF4zuwrdhGplO35KrnRmooK1dorEVgibmInrtzgN/IXgO";
   "1zQRcmgaxXAKks9z7mGqmRa+TFgNu5dIH6m6fQMYmZaJ36YdONla3R2q2WffmS2dla/yUhe8lHxa1vzrLaJAQBh9Py2jc/WGnHap";
   "Ilt21a5jG3bubVcQqaLds7z1mNUGVUNBe2o6LpD1b2ecaPnvOBBJ7zjEe/73Eu+iuO+iRO+i5N+iFN+itOGjPrWuAmTZjW1TGnr6";
   "Jo2ox2zemnOvAWLBpbssWzFqoI1bNqybRfsYDcKUVVSVlF1VM1Z6hrG/6ZpMkV0IuTtb5oWIyyb1bf6N5vWUgRAVZ7/ZtN+1Qj1o";
   "GBLxZm3EesxZNghow5H0REJHHBQsi/CCNj7d8YMu8hozBqPBdOxYC5WLMeC1ViwHnM2YthmjNiKku0YtRNluzGmEPOKsaisalktl";
   "tRjXDNWtWJCV09bP5YNom1PLNsbbfuiY3+sORDrDkbdoZh0OBqOxJSj0XWW8826MBZc7FILLnOlEVfFmKtjyLVutugWd1h2p3usu";
   "td92u73qGWPe8q6pz1jyvNesOSEk2acclrfy7HrlSh4NSpei6LXvaHqzah5K6a9HTXvxLT3o+WD6PkwWj6Kno99punz2PJ1DHwbA";
   "9/HwA+x46fY9Ets+CO2/RmrfwE9c0UteAFjYGRgYOBiSGCYx8Dk4uYTwsCXk1iSxyDFwMIABP//g+XFGJgdo1wVGOScg0IUGDRCg";
   "rwVGIygsoxgmgkIWaEsZgY2KIuFgZ2BIyczPZHBCCeZn5zDYIFMMjBATAVjJqBZUlAeBxCzMZwCy6oxsMDFpEA0WCUPQyWQVmaoA";
   "pKGYHXKAFZmI2wAAAB4AS2HNwGDYBSEv3svPVMc/BpiIH2KgUwRxEL1hAVGFOCADtcPV6mELVhkP+C7tP5cFcDOW/eNm23GswfEi";
   "sf7+eEOXW9NvwOvdAkoB1BtBRDwATBlDPMAeAFdywOMHQsAAMB5iD9qY3Oxatu2bdu2bdt2G9W2fd7YdeNe7YkxiCKGbGIiyCYee";
   "YgKAnH58K/CyqqinS7GmeSce9K99DFSNNI8ejWaFE0JsgV5ggJBQlAuqBGMCA4kZEnI/vEj+FegiHKqaq+r8bY4777Qq8+72fedN";
   "cgV5Pu8y/6xIx/fowEfL/HxDHwcw8fRfCxFRraM+IeP4VwIJ4Ydw2lh1TBX2qm0YyKgDFqgE3oZgD24jBBAkjR/i5lnsaMuuG68R";
   "bbaZr/bZltnlt3mmOuB+x5a4Ijt9trhsS2e22mPXZ54ab4rLjrvkn0OSHHIKWs8td5hqc555LgTEj1z0CbpjjltrRtuumWhluqoq";
   "576GmjorkaaaKqZ5lpoZYjR+uirn/4GGOieQYYaZrgRRhpjlMYGW2KpFZZZbuUn89p7YwAAAAAAAAH//wACeAGluwd8G8exOHx7A";
   "AlWgKiHdoc7HIBDb4dCECBAECRBir2TKpQs0ZFkyb29uMjJs9xSHLn7xYlcv/eUzyXV7aW695KeuL3ERe5+idMTC/zP7QEgqUj/q";
   "p/u9jC3O7NTdnZm9kg0EIsEQSbJawkF0Ug0ExrCSBB6TsvpBS2nVekjiNcgfQHxDrSIXqm4fnQRWtg3NZRQpjbsj/W+3xsnrz2yF";
   "828U4mj59+pHN6/c+d+NLR07rlLBKAlFHCjyQOAV0sQSAgjgVcjDaJ4Fa8X9Tw63aFjO5QaVud46b8Ls68tvbaIWpfTJ2cyJ6eXS";
   "0+SB46cBmgAy0bA4wI8esJOuGF+YpwhjYZGlZFBRoOaDCB9PJVMeALIWH/Y+Eh8Ost1dg1OuHo3p3/8ndmh0dETz5hd2jx/BnlA5";
   "+kOxMY1ytaxvuhg1Iz+pSudivyi8nSh1J35K4GIxMofSRv5FYIDWok8KcZNlCqMeKcaqDLwM5Wm1PAzTCaCY3sKuY10xFrwR0ZSD";
   "J0YjkTLbETYXsjvHg2gwfF9C5EYm7Rz7v7t3fkdAx4PL4bi4fmLsHwkvhLAVwuhx1yZZG7SVSa0G++48aB37IwNhw6eCf+GyQOHv";
   "jp2/myo73MXXrj/yF8l2SAJB3oNcLRKejNyRtHIG6HdiM6r/Ppvf0OxygXkgYHnyx+Vq31/hvVR76vlcc+//30aur02UHmJqPLvA";
   "f7dx+U/ySdFbVUGoclTevs20RFLMR6f6HTQ6ckkXzB8/pfs7t7i3rGgLASRSVr5mhCMujv7Kx9wAZBDjQcyXuVBBLsTtTzc+Y3TK";
   "DYzU3kBplb5EOmPnIaSlWeq/Ym7ob8C94d+0zVbQYRj5Y/oCnjXQRBpBsFck4AOxMo7hU2mTj6ZmDEG+qPnd10m8MVh9EQl5h/uZ";
   "HcT9XkUYGwbxisiUaXnFSojEFAg7dJzH2559HRpLvejob9XTkKzl7xYlemzMKYBj5EkP40clSthQveXazgvhPcW6b2eEtN6ibtEK";
   "s2rFLxC4MGEgYPtF0WV4X3bx1VKZXJf5KKEUtE0CpRuufRStA343h08KXh15Wto/mp4qNxQwxvCa0LGG0YSo6sY5z4sKxWq8bmPy";
   "kqlahxwLV8e35NA04Dtq5fFdyYqX5N4JrGuTwRd6wmBIBpAn0mscYaUbFGI5+F3mKypHo3kd27w+TbszOd3Dvt8wzvzwbJot4vlY";
   "LVtiy5eND5+4Xw4Mn/h2PhFi9EhT3lHvnt7n9vdJ+m+7KnZvRHmriao2mrGhq/l9XXTfyq1scDzPYupc6Z/ODc9M7uXPGAIbUglR";
   "uKWyidosDhQTlf+gee/mTwTzz8BuLB5rs4ZSSbqEcKKtUypsFmkP1ebdq1F72ri9Kbz6NRCwVljkeueS1AzKROnRsOFEwc9nsETC";
   "1VujrzR0DLfp0otnDtYY7h89ny6OehvVFZ5ZIHHJsKMeZT5QgoetF/zX/q7Txmdmho9BRkPnjv9XHy22zlR+ne0WOgpJo58Gxkr7";
   "5MH9MEBcXSztvK6pHM/2PZ/A69i3baBzwgC9tau0kZJUw7EKCRmJfY381vF4qCW9lJLVNRjdqSHQ9llPsQMhdMlPesxbLHHXUZH1";
   "1Si/5zAl9yhbNTCWwytvha7N+1y90SsIVeK5sSQmbPom7xtDl/aJfSJdCKE14wdbp8Anyrgkk9ykkd5/XH0m8dnyA0DA0fuw33mw";
   "cbCtTWgremoti7B5Oanzb5Oluv0mydchbl4fL7gAou9MDsRNRqjE1l0ceWi8b0lmi7tHQd82HAVgK+dILSinkGUmEewrhT84m6dT";
   "a/U2bW7Z188ATAczC53dS1n0XbJOyDJ2si/wzjJr6+OW4dBIW9SsDapuf5mQ7Oy1dy6aWRTm7lN2axr6Z+4fHlHs6ZJ2aRtOmEHE";
   "LgptSuV2p1EJ1ZuSpwkP8EC+7xnyAP/K2cDTQ0Q/rjKu0KkZFIFJCr0fH1D5J//1ubFdkqjVBvb5he+/cPN29ptHUq1tW3rAppG3";
   "YeoAE0HqEOVH1a++U2zyDCi+ZuSXFdW4PYq4AYa6XW4jfyjjy3OdjBapdapmZl/bKaCrn7QNeB2D7gerJxSkWQRgtvv5b0gjThQH";
   "ALfFUKLlcfRbZV/R1squThpHogdeacs+4kusL370ceEjRBgBPgvvMQaVUIeSRuXlhd4vNjSBhPeINSKri99pZnyMIEhmnNuzy5O9";
   "KlIfjKUn5yMufgC3z0jmvZNzGqpoNPIGjIm38mbKr/oon2Dg34Xx17WZGIETHcK6P6DfJIwER5Ja0aVRI8ha7YNoQReCrU1r5qaI";
   "rkxX2QwZnF2jfidQ6xC1TvFFsyM6DaqHTFntkw++fACDd5/U2d+ex/voKN77ZQtNhjy9kasvdhew0DzG8ArB5z+T/f/sKdnNhLtt";
   "/hMEZrr9FImoZPjMyY3NxmMznTzH3dv7XXyVFJvtsX7/f6+mI02pGins7hVlmkE6PwaeDMQ/ColISn+kzBl4hEeOPLnWeV0n0pBD";
   "wc2nzw70OPMMY4MQ4se08fZrb0uxjr93SOdGbtv//kL2zlnRWKtD2hhnp7G+nNVaWEpqjgGrWHInfBIlFRhd/eYPzwUsyoqDzTMD";
   "/BZG82OxWOzBReaKWSsEY9F+XFuay/P5mYSNt34ZqM2ZWD44tIJw+NGIeMGGTIgyAL5M8IILeCkEQ42tHwynUykJD5RyGbv27lzq";
   "re3f4jyaclL2pZGS5Ut6PZ8w+jwx/v2LMKdvfQCos+gDlriSEpTqUkaeRJ7EhB9bBKE1g2yVojCxAIMahmH2p4MmWRHFpJHOplDF";
   "U3efZwL5/xmuLRGTXXYTUPejidxak3C3S85Dbw6q8tayl7tOjWebTtOld8aXbW2bMpE9qQpJ8yuumOXCCQ66DdU0JYa3PpnVZFg9";
   "7POjopZatAO8LtSkMp6O0JmVUNBW3CIRQC5uamVpuBYtLdzu6wTeuMorEOJmBLZbMpW4DpwLY3BbdfYpuoWTteXVo8ZZWWn5pS8C";
   "PiaHkqGPV0uafAmJe5yLalyrPI19/tcVduAV2XANO95HcgntIAFqdHlri044BpXWDmODNcvbBSNjCUmabNFLNcsRLkyq9WBDxOQ9";
   "hkT90oibC61azFMz2VG6Jc7dpmc7vL7JcQUhyHDh95Y8NCU0Ne0RAPkZ+toa7ydBh4qsZVeimuEiCumppUvLDp9gc3Xrlpknyywi";
   "Dikcqr7530GSwHWPfEr2CMBo8BzXch2Ug9yakpdbNSpWptMmkjXvLJI9caOsi8UtmZqsqP/D1euzCOErH8qHVSVK22U7CQ2OFgZ0";
   "HjGQ0ND00FYUecCkbghg4P8JFY0C/WRDtcuaXaEKt6AjqGGp31esKo+dFVRWGE6/WE1+TvAAeOvWprsmao6aNimbA7PxkKTebdtX";
   "bW4E44HAm3odZid+Ps3dqd21qUnExO8jiw/P3+/rgNPFDVn4roH0DTJNGkYE3C5Ne71LX+FFi5Q+KEGw9EBqOySy05SS5f96eOgs";
   "t3B/ntTrsXPGomf0Ifz1h7Vh2qk8V+TkS/Bprr/JyYFiVvcFw/18ORTb3TSnrYfyw/R9PhI6N3z9mE9X5O1ssS9hl1vWDnXVeKpe";
   "ynqY42g8ZRsoBWFsKplkGlMp6vPCnHM6CTi2F8bG2MJRwrxKJWI6x+thSMRg0Or8Ga8FmpQF4Ij9oFS4oNB3SMYLQm/TYqVAoklv";
   "hTrGyQ1duNHU3NFBd00CBFlkrozX671qLXNLWYuKiTSXgpDw1zMcNc+slTcOzAJwtIxBmbwbTGYSe3DY609F98MedvZ9o6DBHYPj";
   "i15EMvv7xU+TgUg+WoajX7cy6Jt2HA9zw6LNtsFY92dbdJDk8HwFaxlJzD4lgZHa78sr9bCEBUYB3xRrctEUhaw+gJwAGx1/rIqW";
   "12cyvVqmw1tW6evGsbDP3ANcjzgy5kqFglXsD47oNx/1uxl3lmsEmtUjZ1NA9PjDRrId5SN5XH/nV5oFnTDNCWPgn/2zxYe8mJLP";
   "JTLw9PVtTAQ3Tez1c+AZpqmOs3gCbILy2siY9U1JrY6+5rFout5nZp4tm5aw4ultutamW7ua13rvLOHoPPAP/3/P5Pp5uCRmOAOh";
   "3bSNtKBMuAhhWEbaSAFGs5USvwOoo1GZr9SU3rI7M7Wi0gGUPL/MT97Wyw0621t3VcSjZkQy70duUPbNnJDbKo/cjHrnzI2tBQxH";
   "ks3L4ENHB8xlfjMwci3kQjKwRqqhwIonNLwcoVpZUVuc6iiJMeQgnzUxG/ReA1jwF/4zjwt9bBxTr87XXwUB3+3jr4njr8A4ADCH";
   "IeQtGAc2Jp99fyjRrUYOSSEKuhWokCXaVMprpJtvKF53csoAV0U+W9d95BkGDu2XPOd8s//KFctAAaiZWAVIsBGo2YxkdoHtPGdQ";
   "/MQ1OVZ/sx4W8cB/7WOnioDn+vCpf+3Yf7t8n4iYsxfAL6N66BvyHDV/4B8NY18Leq8E8A3gL4a/D3ZLicv2NZa6uyHsBwnI9jPL";
   "oqXyPHhL9xHPhb6+BiHf72OnioDn9PgoMm4yuvk3vIe4hW0FkU+75qrBVBHjnypdBqWKUS0rWAi0pTL1p6PFIGre1wiiPBQdHuRP";
   "/icEJ5oDuxyBfCA6z0nN9VLoTPstJSQSA6wcZTUkVgWx/6XODMQalSwLHTrk3Bc3AyXZjkcW0CJsaAHelwPALBx5oCF94hIbLTgj";
   "dOHPo3dDM2ILYyPXz2VGDuvHOj0XPPQ8NfPYRrX6HZ88f2XUE27SewDHA+imVmrsq495jwN44Df2sdPFSHvyfD5bwM97dXbeQjvC";
   "44uG3A9SXgx10tCWCG9LXan7QlapEa1/uuu26yWv8bH8c1v1ciR8gRuQaIigElYtfUUjrk7Nq4Wk0x8quFxOlz/rmccoohPJRKjM";
   "bN17/UUy6nKp9gnnCeRz4Nc2fw3H+D2o8Jf/048DfXwe+uww+vg99Th7+7Dv7LOvx9CU4oJDj5PuzHaqKHgFS0GimA94YMU1GL7u";
   "q5jKK+NXoEfE+uZqoNcmj2+ZjLOcE1taCuSZHKObelUgMaejIe6o+YFZXHkMWbcvCdNoYdiXdP2eMnRvKTV97YBHmsd5AmxWynOK";
   "Ta73cJLn3SbpGSVGQ2+dLRaJrNzSbsOk8+aKa0GQOTdoXCg731/HZ5eGJ6EPMZXglIuSXwyWI+P0QdGI7zMyxHZ1XuzceEv34c+J";
   "vr4PfU4e/KcOx9vof774SnRuI35xOy3KF5bw38dRm+8ndoPlkDf7MK/yPYNgn4a/B3z6/Hw8Qd6HCtJjs1BbFVxYrHyLEytoVA1R";
   "Zc9bn+DtMIVnnWHBP++nHgb66D312HH14Hv6cOf1eCEwqAvwtx9xHYW/VEGGyqmlYew9OtdXQm8HTfElKOpGA029ydjqTHRCGXhZ";
   "bi8fFczJ2SHz2DdNy1RYBw1FeKCF5brN9XCiMrO5+SwvJYji6ysykpUrdYummiOp8/KjicB+Sk3O3oyF+FyR/XzhvriXuj6l8Nrj";
   "jDxF2GWjvjyk0EO5es9sVUaCBqUVQeQhZf2sF3gYWPxTNL9sx5wfEcT96Z7xQ3qD4+KmPwS/PM5zLFo6y7J/NpyC+2yUaNczWSJ3";
   "9CpGUvjSeJayXKtTkFDqWVyUQ9/wYr+dSS0O032nk7HRSDtMmfdfv7HJxVpP1+DLFxdp8/lZ0iFUunU94k40kGfVYza7G6Ul425a";
   "WsVJfJGGVpj93ChnhnNBhmPbHRsUob1j+Od7G9xKv21XFM+OvHgb+5Dn5PHf5uFY7jQNw/JeMhPl4Dv6cOf1eCEySRBDxvkS9B/N";
   "0p+X8sCGG1sKSvWV2YrFlcGEkWiOUH1oc0zrhTixDX6+QSLr1JiO/JjTgy4zH/WM7FpoeDngGrOu35ovmiRM7jGmCvNHfSiaGg2t";
   "4eZMzBrBOOvcyku/vQubkdZYHtnk+J01mWdeY3e4Z8RS+bMARtQ75ajkg+Wc0Ree0/Vd2o5NE54hRiIUMYiuMUke/l0PoU8TnFdQ";
   "9PW921FNFunb5uXY6I60XkJqgXedfXi9bXjFSS3cCr6k9yA23thxLS01BEGh4xR3Rahnd5nz6qniTXlHpGFlqa8u1iNC9XlwiJJt";
   "htP9AMgDaq6dQxCAK99NrMi+yvpln31GpXOqhkfaulb/9+p5SFNcoJF2pfU8wqwGTqGRle8yzQnoJafjvEAkO1NY83NjXSG2CxK+";
   "RVgjCkZhOrzqh6kgFOIS2qkfR0moGP2Jx5OrrI85FRrdrkc+hozh1EF/EjXs+WrtBQkja6IhYDZfJ2Orv7rP6kjZ2PMBHNqKFTcO";
   "ZtX7eFWK3d4l9O2rtRyNbFaByc20QHUkeeanHbnT5btOTlUmFB6xt1SbX6wS42FfEZxCXBty1TPCdBsU1yXTMIdv4Y+TmiFWdIa+";
   "pG68+TTH87Ye/eE7bt3bvNHuJ0Oi5kt4c5XX/bXbfeeujQrbfe1esonjgwsFxgmMLywBcukveZcbjdT+6T9jNcQJD4BwPlxq8+K1";
   "i0FvZXbuxDv0g2UR1HHsf1ABfcHoW50NAfy3S1aI1FmEdZZOS8g6eNeHPd3j57xLuxsPgpoX9rxtppebCyHBs8a8e0kB4IsZFgcu";
   "dsaNMJu7OksoznYgU+fwC4153H8Elgci2d2lm1ora4hT56NNO1wRgdy4j9AV1W9JbooHsx4x8Q7T0JOu4xcpmRoKeQ8HXsZ8KFlD";
   "3i1BV0bNASSbnoBB8y+XJC1waDUmXzpTh/X8SisbA6kDs+Zf85yKZZyvDdUuiDU9wG3ggJZBKBnFBUQSrbrOrr0MnzY5XfIu3m+Y";
   "8ftJatVJB6qfcb30ihGytnyXK2AG8PAS5PlbdVnvSckV/nD4Cjon20U6rNbMhzETpoRIW/aKkwFPNTDldu1O8piL6OzwLck+J6Nx";
   "j0diSWv9+mNseGE4mJNK0xO7TYbqJA8ymQZ7u0K7tXSTJIL3tJuRx6tJNEbWYvo+3KMWW2qfwjQ5rhcmE7YiaE6R1Mok+ITGSd3r";
   "75aGLYljS4RbYwKISWTkCvUTZ7z84Rd2D7jvBwivGMnjm67bJZQaBl/oNSnQP4h4hBzCvS0gmJWqHiv6k0B0qRysPopkzZr1fObr";
   "z+sn29ZXFw/xX/tgWvax/w8CTwoAGL66+va1xEUqN0HtVrz3hbr9Wta8JcayZnGt1xurPfHi04PeJ3WL4rGeoy+5K/NXIBik/Zo7";
   "2Cvzdi0VocGqPXoWdSI+HQaJq90xbkdPm4I8jZ1Nb+S+gePlrsjNA+1vKoIxng2pSWsujOBcyWUMFtCXvZVmWbQ4izrnzYao30yO";
   "vXCzz8qKYHPfZK1RWrkk1BrtrVJl7bFd53gAIGuykfKGMM1OCU1eCd3s6I/Z7IZJaT1CCOWlFKCC9tk8qWhcFnKLu9uGvUE1yvBl";
   "z/KkK0+QBxBtEKcqy5ECBU5C1mnjdb+DjN87SN5yV9RVbmiMehL1gSBVKGfmvK3hF/VKEy8y4L6x7oPk+f9yHabnMkQsVtVtivZT";
   "roZVIgLgVUu4lGaAEu41wHvwzLZxb6P0seJBpwlVEQoWKlWjO/3eQ02Zpx1GZJ9iwtVS69tjZXPH6QeBZ9LI93IB5qRmnD6owfqI";
   "6HsRKOjUtL6LzacEzfA/r5NPn/V8/iPHnl0W5NSa2dzy2NWkZwUrEol6Ui7FRqbIuZFzidcovTIlGwOB8XCslwKGzzZhy2gCsyO8";
   "ylopF4hl875+hKDtdFMU1kUiuNq3VIbApKYS0PqLmhQyIajXFdVLRGlNUpl2psIRZTjVi9nYwtwEePQVXS6wT6OnGI/BbRgCWtQf";
   "y0YkHRESfnNm/+D0lH8B4twHsPcaUUa8H9G3hcBt1FfJd8AGtIjYx1aeCM8Lsej6LRwDEUw6US5FWWzgCyWqx0OJhbYGBsAWg+RH";
   "4Xj/0nWyp43IoGI8tQtDOdQD+3dAaR1WxlIsHcPAPzAbpoD9D1EAfwfA5I8wE44ESnA04PcRWGX1WDr5xGPERcQEoQ4shDNRg6nb";
   "iAEKow3Bta+dy2l/g1uk+qhqWTaUpFqUKXu845x/Vq/ibmKwftuE8K+rxe7SOkKaNKuOsc/oor+E++wtyUv8mOaQAedC708RDXS/";
   "OB+0EMTwH8Mxh+gwSH+0GM00e8jDTIKud3Rt53+DCyFqB/FU42El+u9vsvdD8y435QpvGhKytnIHOm9o78y5p35PNH4tI7vAaRAt";
   "bgZ0kVXmsa3N9LfAk1oc8QeuDjqC9TbqS8Dp3O4aVMPqn1fUnLBm22kPQcstmCrFau0/4remflQYmeVH9E71Rc5XS6mq+uTKBm8h";
   "WpRkzJR4gUPiukVL/IDwzkxa5Mpkv8xvJr+/e/eqJ528tnnvnyNrM0zrMyQbxaHSd5cxybS3YhePAQPPjG6oATX92//7VlPG5pZR";
   "fSko8SKll+WriWvn322d8mH4WiTqT27dIu4sdyHwpCGxGua8761rd2k5XIJ3dU+zireGIST1UnvDbsAE4goMFbjKn+jZz0Q0TaUL";
   "ZLoVA06Z2w5vVNzV3ZkM1na7SzrL3R5tsd6Ry1xcJhi8ZmUifURrtaXEiPdkb8sfCMGBOblc2JqDgTjvnrc0XtMA8R5orLTPVTWL";
   "nmlMSawpQpI948anWpZMZna7CxLNx81iATpNXNrriFMzTB3NQ0AHZjktEEkBRjmGSknRGF9IJIR1BCbbJpLOFwzCaITHsEz6VlZR";
   "uaJB+X9IxExCNjrvKnHPn4J1+Gd5tXGonryY9qdYnNXV3kR5+YZR7UMG5GHqeHceosas3iYQS5ZpxKHgka0cJoaXwlOVqJohcxji";
   "50B9oFuZIaekmLLS1SeFUKqu2ZEzSfao4179Sc0CmUy+ihJW/YsnePOexdoufmJBqhlR9BbHoXoZEqW+48qkYJOBesHTMpJSUy6F";
   "iJdGpNaQL10A5vruygWW93ecQMcaHbly/nfRGPusMcyPKpBUfc0uX1hnzdg92+qEej1Qudnugo/ZDawzmDnF3X4XVwAZZGewxWt9";
   "XmYphAdziaNWkFK9QRjB4uZLZ7abuHof3d4WCPscML8YLL6KSAD9/KN9CL+Hu8DkkDWl5RXa1ZpEUXzMzMp7aUPK7iQiIIn8WxKG";
   "5JTmWyk6KpMiXXP2IrfyLvJ7+Iz0H7QY7/i5NQav1R3LrzsFhi4Zxi8ezFRGLx7GLxnIVEJDi8nMksDwdr7accYsnlz5p5g8+aLh";
   "VTbNTE2PMhT2/cjkoj582Fw3PnjYyePx+JzJ8/2rtn1O8f3dNb3DPi843sKQYG4lbOLBiMw9neUYveb+Zs4hDwoCQoVEAHyKcwD0";
   "miG7j4X3xLp6juJxQv8FKpVi4G/1Tokz7w6ROEfqntFxxpL0V50w42JVCUkPKOsGGDNhzmfb5SQEfZUYFODAaDgwm61ropf9bFZw";
   "NmSe2urJ9CTbRL52icHhj4lFOjK4G+xJUTFXbyUpD1zNHnzp7aWeDqKa2qUTxq6ljectkJC7+A5ABRLJ15w8zIp2fD7q6y05dpIC";
   "09nNhvi5eDVq+abE0LzIw5Ipj5gV19pX3bs6GJk3vCU07T7O4Nn9maRk1exhiy0mrGwEQ47TPLd5xViM6ft6F3R8np8dDCYL93uu";
   "SnLN4nz7YnR2O5nRv86eUrF4bOGPNZDDExvOnS+ajf7riZ0rPxnBzHSoHhTyGOtREO4BMcKr5EFb6MPL74NFx6uJ05Ma+b3UwlqU";
   "vMSfOk9GxJmvdbUi/p9uuezVzbdT/867o28+yzz6KGa6+V6//oAeIDRR72rPuB0gMY5kUPoB7FBoA9UIfxEBMUMOzBOswP/Sbw2P";
   "/EMDxfiOtG0dUQ71JH582pWt5geqBvcrKvNDVV8kSjHiEabdu7vGPPnh3Le8XxsbHR0bGxcfmbO7h/gC6VTrX01SyZv2uWCxoSPS";
   "jhb9RrKudV91gC9QBN63HyY0itE6GBsNnLW/xaD1XyZssmIen4/yp/dPuKqYjJE+TMvNPfk7cnkp1sGuOU+CgATv9qXuzhk9Csz4";
   "rXObYxXdzBhnsyYlpgTV7wOt0+S8hp8DCcaPKI9ugG6gSbw+V08j4vY3faDE6aV9sECx9RN8UEW8DREeCwDIEmmgC+G4gOHCHxGk";
   "RJ+S+flIo4ryiV8e43urq+dcdg1/UDJ09uD+/axR35HejDjUjkJ2cgjvk+1g8Dv8fw7x9gvNX3hIVw1r6pAfe7Kiwa4WN0IZ5O4j";
   "ji8lBq6y5k5a1pA2XpF3LpuEppiLcLgdFuQJ0IJNMtrN/Y7u+wDfQ86tbZ4t7ZZo/dagZaNdrgSxzH8iOrtnCfI+03m/1pR631h8";
   "N+fySCSCpQ8HoLAarWisVkqqcnlSxK+H3obsSTd/+v8f+7JcQbDHzIUms5v5+DC92tgzyfgbqEzhlh6AinA4/kDofdfFjCbyV2Qr";
   "0/RHDgCYkCksMr2BtTchFdJQdMlAoXtgTV0f7d2qPV67U9wb5oge6i+oJFrcGgLQb7qC66J9KX07NB8G2sXs+Cjwuy+muLVBfPZ6";
   "ne0IBbrxsI9VJZnu+iiqF+vd7T/zoTc+n1rhhTbeXv269G95If4G8g1+2zYCdhdNQemxSNDKLQBfakL5zy5YfyvunBXHQj62FHw5";
   "1pDBjvzUVLNrLNxiSCrjDPRfpTg5tbTtzREKAzdqEz4k0KzmAhVlpsXd7R4KfxGgHJ4BpZEHZ+iE3lUFIyUpDW0ftb7ZM2mCB6rH";
   "K6mFYqlku6Fq1UqU8NW6P6qDOV0TTffDWpYJlyOW7fmlHb1Akl2836+6LWABuhmGKCzbKdapsmOeBQyt/CopegvgGz0a/5chQoGe";
   "HCC0aULsXJYxq6Q6mlNWMzd1x5++23T912221fvJ3cdydX4vkSd2flR5Fi9ODBaDGCeiS8sPbfB76S9ZqqxJUnkcyhNDzkFaucSb";
   "6l0WC0I5k/aVdB73Mz6dBoztfck0Uo29PsL0zHQmPWmDHO9k62VSoVhF76efto3p22TgZjXM+mbAA+zG1u6mgKNmS3FJ0hLmLlts";
   "/HVOqmFn1zdHabi5f3gu6V/0KPQ4zRSLiBc7xEHdBgleOPe6qKhqkJWnCXqDHdk8/8iB4UEtL3fo7UBn8i2EN5DSErFMrRq+0Lva";
   "WF9marU7FzV4M7N5NMTOXcjSftJJ2mhM5EVg6RNh0QWlmEWsE/yK9IMaYKieg/0EmdlevbyENHFvDZWO09+JnHpd+S71SYoL9A3A";
   "fDW6B9HJ2OM7H70FPQSn16oHb8Ie5z/8q71T6bcJ//RF9d0+dvR/UZwH0eQLAL1WiRn+A+AKn2+UwVz11ENd8gdqEXyCD+2wzJJE";
   "TZPH51331F+I8C+UceyT8i9UMB9ALaXcvtnOjuyjTancc44sQ+9EPSKOEowPKqBcjxm24K3vTlINy/fNOdNx8M3Xxz6ODNoVtuwT";
   "Ghk9gGdEW8F9rWf8WoWFPbEIDW3yiWpSiHYwzfKYq9BRN/kjFTDEOZmcrzcsu8n8d8A+6HYK4/Iz3Ec8QeohHu11d5vRhoGvHfx7";
   "iNGmR0IKMbOPnppZf+FBCefKg8FlfGx8qH1vdFDckCSkZQsgG9UJmWOoN/DdQ7Y/uD/kRVjpr1klQBB1Vp3ofnHc3/4Af5bxbzsv";
   "xzyA6+6iCek6jn8R9k8T8bunGwGFPGi4Pkwcq+b1xyiVzzcCGEnkPXEBT0lffYNZGxtOBctl6Wifg8RpNHG17zjDJRv5W10qwz6s";
   "PtGt2j3bj2wkEyKmm1t3Id2l1ZeUTOoTvRz9Bhgjr292QCZeSnpM8fM9InZSTd76fD2oapdV+VCSGtdeNVoJNbyG40QT5dOwXGen";
   "oeYPsw7PU67EqAHcCwN+uw/WQJfZm8G2CH67DLyRF0PXkPwN6tw64lF9HnyKsB9k4d9i2SQXvJXwLs/TrsRyswOUKBT+eN8jpYuY";
   "rsJopAF+xbIVL8qXMbC+TTX5TfXUg+TIiKeO3dxUsL/Yr4afK7H8K4U6vj+LRIFjbOkd3Vcc/BuIvlcXp4p+tfWCIfro67CMZ9Fv";
   "OJcUofujv7tuZKylIO6G7aJPX5Fxh/uSKO+6TlTpdvm9hWgk6A57S+PuhzNlkiPg+yMUGfmk2kxZpJqPjPK71uPWszt9mbw9Kjw2";
   "Zuh0eyFOru0HeI8h3wnEo+QVylELGuq9bEr9oYIMwZWJtVrTYpww1B15pn8okOQwfkit3Q2CzhPOC6hFwkzgc9YHkZ+fP//Gfy6g";
   "xBrnyaHCEuA53h+FexZsWLa57nTDabyWi33wCXEZ7JEbsRHtdcBIFxPUNcpgj9H+J6BjcAqrUY1+0kQ2wBG8G4tMeJy32JhE+6DH";
   "a7AS6SEf3+eNzvF92M1cIwFitTxfVdYotiz/8alzeZ9Ortdr2E67sRnzca9foiLpsF6uWUxYZt5M6VANFHKKQ6pSBWY2mVIIcS+i";
   "TUWM3epL3JG+MYRbKJdZhYU7vC10AZDMam//fxKyu178zJRumU6H8AQpqiWwAAAQAAAAEMzHcMmNxfDzz1AAkD6AAAAADNl4ClAA";
   "AAAM2X4xb/QP69BIgDuAAAAAkAAgAAAAAAAHgBY2BkYGC+8e89AwPLqv8O/8VYOoAiqOAjAKVyB0oAeAFt0wOMX0EYBPD59mzbtm";
   "3btRHUCGrbdljbjVGEte0GRVCbr5PN+S7JL/M97s4fajX6AwAuEalAmKhaDFA5SFUjmQ4YIO+Yo3m8irMFvUCAKmG+4vn7tJS28X";
   "phc5Yx3RGtPOGrFqOvMgFMnOGhBA7yxDCUD+IUkK1i0EMuIJ6ZIB8QL6Hwlx+8Foge+IYSfDceyHvOBnqY5KGHCiF/8H5mOJ8ZyO";
   "d3w1d6wJPP1Mht2Kpr8JQzsBfOchABuk83TNJhqTuyX3vsB2oUC+M3/Wnt1lWySQOT/drT/eYgSFXwOXbsjokTsoW92bkDdralbH";
   "wzftEXzq2du2NSwSzkdXZvT3cnFYQ0/Vnlw1/1oOEIlI+IpQYKJW9yIi9KbL4WRZH4iSJKIJ0ShN7aQYRTIs81MhuZWVTAOYsKoG";
   "dyQByly1HmUWYGorQXiDIJRBT4XklEpHyBrSSgB4XTEAqgYJ1DYI2PGMS017kL2fIRcSoRUeoNkmQ/PPgdpPBciExEX4qkEIqmru";
   "f6I0zGw781a3RXb0qlNPJoloc+Rn+QSSZCTOxQaBJJvgjhteBmyTq7yqVQClbh+rvbQddoDS2iZbSJTtE5wFhPs+ksXaW5NI0m00";
   "RaTNOb7W52WLsEgP+T/yccxOwAAAB4AS3BAwCmOgAA4PpRDWlbXO+dbdu2bdu2bdu2bdu2bdt33ycIQvJ/SwuDhe3CTeG9CMXcYm";
   "WxodhfnCmuFK+GhFDmUM3Q0tD5cMxw6nDlcPvwyvD18NcIi5SMDI5sj7yNJo0Wjx6MPpYkKbVUVGooTZW2Sx/l1HJDeaB8XH6vuE";
   "papbkyWTmq3FaeK5+BBAj4HyQGJUFV0BC0BT3BUDARzAUrwVZwEJwFN8FT8BFGYHHYGfaHo+F0uBiuhzeRghiKiZKijCgvKok2or";
   "3oJLqKHqK3WMAYuzguTo2z48K4PK6Nm+POeLcaW22udlb7q6PV6epidb0Gtbxad22rnlivqLfUp+v3DWzkN4YaC01oFjfrmr3N4e";
   "Zkc7N5mTBSktQkTclgspCsJTvJYXKRPCZfqUIZjUkT0vQ0Ly1Om9OudCJdS/fTiyxgtVlL1p0NZTPZdiu2lduaa322m9vT7YX2an";
   "urvd9+6ghOYqeh09cZ6ox1Djuf3cRuZ3er+9VL6LX1Vno7vYPeZe+p9903/Lh+ar+o39nv70/11/on/ftc4//zvLw4r8hr86a8Pe";
   "/JB/OxfDZfybfzo/w6fxmwIHOQP2gajA42BteD7//9/2v8n7zphb8AAQAAAPEAWgAHAHEABQABAAAAAAAKAAACAAFzAAMAAXgBjY";
   "6DTsZhGMV/2d1Bbsj2kG3X9NnGH/O67KbOnmXv1XmO9gJN3FNHTX0LNXTDM66lU5Nh3YeMPuP6d54GHvCecSPDPD7jTnZrBrkgT5";
   "USYaL0agqSoyx0SknKudi49Iz4ElOMM8mczgprbLLOltD7huf8c3rsY/45dWK5ayklOZPy5ej90H2qnt4fHFpyJMRVCJvi8KzpLJ";
   "iaJUiaqHlijJNRR4hpoTk7S9by/38nqGgVWGZCy7U1LiUib4iocFgoK62CL19UKGMNQb3jls+SeQLtXUIIAHgBbMFFAcIAAADA21";
   "YFd4bbD3d3YhKMBFCAOyHwfYv98yEIg0gkISklLSMrJ6+gqKSsoipWU9fQ1NLW0dXTNzA0MjYxNTO3sLSytrG1s3dwdHJ2cXVz9/";
   "D0+hEED91CKGAAAOd779q2b/2MvMxaZtv2yXarbNu2eTLX2bVuxj633LBfT70s09sdfdx02wN33XNfX4899MgB/Sx30DNPPNXfJx";
   "98MdAAgwwx2FAbDTPCcCONMsZoY43z3HgTTTDJFJNtcsh800w13QyfnfbR10iIRKnyFShUpFiJUmXKVciVrVKVBFvU2SxNouNOOO";
   "qYq64574JddsuJJIcdccVczaXL0FhTXXWXp5sm3ss0xzwLLVAvKZIjJVIjLdIjIzIjK7Ktsz5yItdM5ySbbU3kmeVs5Evxx29/Zf";
   "nmu5NqVKu1UjM9bI0CLSz2wktLvPLWuyiMoiiOkiiNsiiPiqiMqqiOmqiNuqiPBtEwoU3nVq3+a9Hh/77d/jU1FkYMwzAALJNmCe";
   "NxcY8yt2FcPmCZEtv/J7x3N51n/5eub/aL4H9TkyxMFmkREFmlz/iGseU9yGK0+hYH6vUf/PoGlL6hF2wgig29zU6kb4YzJ4csDv";
   "qVpmk4uHqLtHQdKNXLKaQxAyilmAmUUswCSilmU/pAKeU2QClipgeUPKZv9OlLTeNPC2i/vdIAAAA=) format(`woff`);"];
  ["        }"];
  [];
  ["        @font-face {"];
  ["            font-family: 'Source Sans Pro';"];
  ["            font-weight: 400;"];
  ["            font-style: italic;"];
  ["            src: url(data:application/font-woff;base64,d09GRgABAAAAADZ8AA4AAAAAYOwAAQABAAAAAAAAAAAAA";
   "AAAAAAAAAAAAABHREVGAAABRAAAADYAAABAA0QDckdQT1MAAAF8AAAF7gAAFhyz7r2nR1NVQgAAB2wAAABTAAAAcI29jc5PUy8yA";
   "AAHwAAAAFkAAABgWrWUOmNtYXAAAAgcAAABRQAAAebzMPm1Z2FzcAAACWQAAAAIAAAACP//AANnbHlmAAAJbAAAJdAAADu0t+EXr";
   "WhlYWQAAC88AAAANgAAADb9zLPqaGhlYQAAL3QAAAAiAAAAJAgbBvRobXR4AAAvmAAAAgwAAAPAlfkiL2xvY2EAADGkAAAB1AAAA";
   "eJSt0RwbWF4cAAAM3gAAAAgAAAAIAMKAlpuYW1lAAAzmAAAAN0AAAHcJDg+sXBvc3QAADR4AAACAgAAAzHU9ZXzeAENwbEBQDAQA";
   "MADgH10RmAMHSUyaqbJ36mwAmqj1qayx8rhVLli5faofLHyS2o5VgWBWga3AAB4AbRWBZBbNxB9B2FmZmYoMzMzMzPjYJmZ2zBzy";
   "hzyhJnzCyHPuD1Q5nK/jWeCrzvbb51tncbBt+P9K/3dtb4WJOQBqIn+OB35p595/uWoe/8tjz+IliiEgNT3VhbKv++ORx9E3f85g";
   "Dz9FSIfkF/NvMYy6qoWdXEmbsajeBHvYxi+xkysxZ+IowihGOXJ+xpohBZohcNwBK7Ew3gZr+ENvIUhGI+qaMHtOIxJHEGDIfIcy";
   "y8xFb1QiFYswhE6M0Jm2qNQRgnRMTIzW3UKZBTDRO6W0REokHkjo78wVdfWQmyH6EwAmdH3izCegcxMRBUcRvGP+niTpTJrMJVrk";
   "YduKFDeTngLJpAvfAVaiVQgklFJ1qrzs3EYRWrwKQqBho0b3YrD0BtgnIMYCH2J25lEYxwicD0OIhhyHQbioILTlC+x4wQNAxxkM";
   "ImDBI7nfG7gNJwJhYzW66rLhA7Guo+HIuWLhgbgl2hMg/0AJ8pqy7iCSaGQ4wCVSiFgGeQno1cZMMFlHG+tlqEqx/MnhvCAgfKE+";
   "lOtNF39D4AjABpPJnkiQpPyQ9nRaCbJZdZvZMmxABo51mLBZSyFA8aRE1wEKKrsfd6wjLIi4cl0GybsqIjlNAAXZOcj10Ty7yI5k";
   "Jis4wpOBBiT5+co0L1exTD6yhImeQ0H8S15+5a1GgnwUX7OsQC/ZAAH3KC8qPLqoFH+A6AooLHzOcA/rV5apGwmmIwMaZGeJ1YKW";
   "JSSfXFz3iZTOirV2Z++wICB1snXXETDL4U28nmRBkHA2QB6cWTWDgVCgziTH4n2bA4SmpaZ384XKvi9W0Wu1l7mndpwOw2qchDS0";
   "Y2Bx2Y+bN07sS9iEcC5TIoknZ5BVMHxaKV10ItfwiKykV7I7zlenjHOFLvl6V/O0Po1jMvY8G+WAyKHXG/3t1n2d6tFjEu8+SvcD";
   "w7ai/7vr4uqQhYsdyODRk6cxYZllfffyHvNqF+60Hpzodpe8CNOZJyT0I5baPiys4NxgHcgC6IPvszPuR4ecJlGLgEwFNoE0EBkQ";
   "ONmNHe+iTT+yd4HfdZhEVwM1J9wRYe0LDGwwMXisy3OoxGuVugu1MHWaow7kMIRUS5H1ZB537EzSaHZUd0WwEUB1zPhdg4W2ayIs";
   "tQFv9yPPJupPKaVu43T0jMtqy+4qwnEogyNbd8LlW+HC/CnlCffrYSz+bgzNwUecIfWRR2Vje5rcSq7BY2VH5v1Xx3EAjRCSyAem";
   "Kz8HOIuYO/qwubZLk80vScVt9Gkx0hHfdAYDpigsfnQODMiNLa+tqdWwqTtkcoFh6W0PFkVuveobAvxa5w+d5j369ZXfm66lahxU";
   "9BYm67+s9WFrm27PdkDbqWhyNpxHpdnOXKAhtNo9F60l/DlcO7oM551HseY5CCARtf7NHJCv+1l692zP1wW3dQTnB/1WQMPrMUS/";
   "kSxUoslNsMzUdXqb3U1PH4D/xmCc3DwYbvNXt8Wi2w1liEH+K9of+TMboEHnMoF8ILDAIaZGtyOHOD6SMffq0aq32npmUcDK3usV";
   "lgpxF6B07Af4Oe5osJvbGT+xF6DD9ja9PXJ0N/P/OB6p0/G3H5mz/m9AksZZsU8H41RiGoAaqCmSHVQD1XREO1l3BFd0FxvH63RE";
   "yegDU4SGoBzcCEG4mJcgaNxFW7FibgLT+JcPI1ncS1exge4AR9jCO7DcKHHMVLoCYwWehJjhZ7CeKGnkYdCjEI1VEcN1AHQ5b8+6";
   "OJKkhiKomB0MTMz47DdY2T/RTG9OHebKUkBbBSVQNk2qqiqqdtp2GtqaRvroG+gbQSGGIVxaJuamWv7a+GfpZXsDfKeV75B/aSpj";
   "PaNvo7+CUD79OcTfT+0T5aBsYG51+uFbviSkJL2O0z8EYGffokcT5LgcFNGvKb/CigDyqAOoHyqKCFpLGUiraRCFNQiyIBNqJzaa";
   "miay1rI2SncoPz5NUPyJO0LlRvV6ARu/nyL5kkuQC283jrsw8BQ18g0zORFYOUgsjzpAI5O6aONFqD3DdJ2GCMAAHgBY2BkYGDgY";
   "jBgcGFgcnHzCWHgy0ksyWOQYmBhAIL//0HyCDYQMuVkpicy8EFIoDAjGLMAIYjmAGIpMM3EwMbAw1AJpJUZqoCkIVi3MgBazwydA";
   "HgBY2BmXMk4gYGVgYGpiyni/0cGbxDN4MIYx2DEqAAU5WZlZmZh5mRiAXLYGRgYGBmgwNHFyRXE+/ef6d1/NgYG5huMggoMjJNBc";
   "owPmKYAKQUGZgDQQg7RAAAAeAFdywOMHQsAAMB5iD9qY3Oxatu2bdu2bdt2G9W2fd7YdeNe7YkxiCKGbGIiyCYeeYgKAnH58K/Cy";
   "qqinS7GmeSce9K99DFSNNI8ejWaFE0JsgV5ggJBQlAuqBGMCA4kZEnI/vEj+FegiHKqaq+r8bY4777Qq8+72fedNcgV5Pu8y/6xI";
   "x/fowEfL/HxDHwcw8fRfCxFRraM+IeP4VwIJ4Ydw2lh1TBX2qm0YyKgDFqgE3oZgD24jBBAkjR/i5lnsaMuuG68RbbaZr/bZltnl";
   "t3mmOuB+x5a4Ijt9trhsS2e22mPXZ54ab4rLjrvkn0OSHHIKWs8td5hqc555LgTEj1z0CbpjjltrRtuumWhluqoq576Gmjorkaaa";
   "KqZ5lpoZYjR+uirn/4GGOieQYYaZrgRRhpjlMYGW2KpFZZZbuUn89p7YwAAAAAAAAH//wACeAGlegWY21a2sK7kGQ+abZlkki2ZZ";
   "JKZhj08mclMsGFomjRt022bt1tmTjflhZSXN6+bMvxdyvZtU4bXLlNx23SZoeP5z5Vsjyeb7PshX3ylObr30D33kES0EF6CIE8nb";
   "yEoopVoJ9SEkSD0bsqtpzK0XkmJUcQq9RnWicQvoCOXVrMPbvjyPZu++ubfw07F8N1r3/XbFeQt87vJnmrwww/R9z6svnP19u2Iu";
   "eii9YB24XmCQG+Q+wGvFu74COJZFVIjmlWySNSzaHdHS7tCYRXt+Wff37kSbVs7MYPa9yR35nI70nuKL5L75/cQBHDGAjIX4NETd";
   "sIH/IkJk9GgItXIgfA1hPSJdCrJhZCyfkN94Wsbd1uCSRsSK4GxbfnX/rJh7eD4SWFxw+mTo2cnyf2jI+5M0N6q6OrLZpaJFrS3k";
   "hUSP60+MziZKC0As0Ru4U+kQB4g3ASRSZZJIEkrI4j1qEijwQF/pjO0Cv6MkLn4mgsmctPmtCHFFTb0e/X+3rB/wMV61xWzqwrO+";
   "clbzxnJBAMuvrzlE0VhPO102RKuMF/ZTMA/UpItDbJ1EMZFyUIokyiTNUnOvWZf/KTLZw8d6j15hDt5W3oXuf+qT6y5ZWe+N77q3";
   "NENp8z/FviV8GgATyfeP6VbKSpZGN1fQLu6q28Hf6/6rYg4VfUGcn/fG/1/6SeI5jXti2soVl4h/L77d8UpmP1Of/X7dX0UQB++E";
   "+mjB7EZkarrZO0lM4UZS0af8Ze3DHn1wf6oN2vwXd39Us67Plc4qeycn7r1nOGGXsLjWSetfaS3+o7Dxw1tqfG2syaPSLnhx+rdw";
   "N1UFvmzk5dN9VR/UAb+qh8i4/welK0ekdcQf4I1lLQG5l42VbMhtFBd+BM6As90BOFTUayH4zMOhLcRZqJdbZ7EYKgwYxRV2WCi3";
   "L1uasPjwZEUk4mEvIGxfvRi1V/X1yrA0SXhF5Go1LOUGgGhPgqNrv7LrTMXXiNgpp5Cgx9Vd6MtV/6krmd0E6xrkdbhXZnaiwzd1";
   "TuBuweb9uIpmGPBc/S0mJEkLqMMq6RYCh8cuH5hfc6kqHxn/WXjE+3WLsWyb4dLJkWrqm1sFIjeefXVaAvo4mPCztBN1c+hdTcJO";
   "4TqDTXcJ0vnR8ZdRoC9CevUbUFFa3fn0Phlk7eEFK3qjso44Ft3Tfw0Ea0DjPftE3clqndJ9loEO9gAdqDHltACe52SrMFBYrvVN";
   "8xBsl7kzKzIOaJzsNHSda8utars0fnyPL6OdfEjJ5fHbzyrwo9sL4/fdFaF3F7ctDcfW5Z1ljbtzW0+p34+BOBdRdDAfZ0QnAt28";
   "aw/EZlIO0ITO3t2Jqd+c/LOiZHtKXK/ji+Giqtzturf0PD0spxY/XON/w0S/1oiCvgWecWWjFqxXURQs0hK2Uqua3A9hUd0ids19";
   "3HL3Mq6cKGp0/q1cym1VYW6FwUAcaqezvEZ/Q2763KO7Nsz1hoOKqiabDzI1kZYwQQaPqxOGYyLBTGRecO28ZFNic9HxtMOJlkJn";
   "jW7+2OZqcvQiuWVdHQeFbS+fEAYy3jbqm8jU/UoIIQ97wJ7r4KcIKVk6JKQUQTCHXt6Tc6aH8XCDzErMo6kzyT4JoIFZ3o8XNjkF";
   "K1DEXvYqYl7J2KipziXGDzDf3M4rnNF7N44HbGOZH39CSbpjzgCOgdn4KImwT6cCY+lHLmCZNs4GKSALSX8wWbc2Msg2ze60fPd3";
   "zxnipwcGJh/SJq3DGwL26lVOietwBrmG9uqdGJTyXTmvqnx9t4huxh2d85MLFdFeyfD205taQFzvUbwDE+YYuNpdFP11OFtPcwpO";
   "4xRi4R3OdDvA7zdkv07UO0EIHb5MltLG6WwpKyPzFW/vB6w3JLenU6dnkK7JbcBazdCAArDWrfEE5wXea3eZDDWsVDAl3ySTpnuo";
   "CiFgo6ZPjfcjhSGkOGGyeoftioRqVC5tQ9tBgK3p3al07tSaGf19uSp8h2csBu9y3h+gq+eIfkq8Bqkp+YLKJGWGe5BIqVnG0GU/";
   "cHuuayyq43SetQfX/7rc+aKbeo2yuDVXjyL5lDxfjpkNcfor1a/UX3wcYtotWYsD0vyzAJuB+BWH4MbUew3Tp0W2tXtCjpkPn+2+";
   "pvkJCLQ/q97BzlfxftUdc+CxBuMJCPHjAxyw2Yi8Gft6MvV11Xomo7qWjSurq6Mkq6+yPwv+sHGebDDv6E/EAaCXYwcIkQKFusMd";
   "pXGoaNhi3x4bIPIl7QKfXlzT5uCXR3pnfgSt8wbNibs3sGkM/a5yrlrk353qWod4SJrrULsh5wnNLI+0VOS46kT6P2OPEIYcWYj6";
   "kU1AvmAZt3AIZ3xtKpR40g4b5jkTaR3TuidCI9uTABpynDUM8NGDAnGOyg6o+SRb2xiQmtX1uiiB4O+X0okxXIJ9OkDeg+CfMxx4";
   "qKpkSZwPmF8SypcNAl6DtCmnLm8K0V7rBPp6a2PDZ41F/NYYrTRP7A20V+xahMG33ZC1h3J12VBTTpL1fVILVEeepib3F/XmqTIv";
   "I56g5vyNbRHdnxjPguKk8XhXdVrliqQlOT5JshjJ4IgUcMRtirdrQ6ySZ4yOJIIiQkrfZHR9bFAzqvpaqk+rdT40i4mRzuY6diqU";
   "9AcSXWYvFabGGbbvzl05kzYFu3zMUlVdCBssGhFo3Pnk11mlZF36EzBvBf0GQJJ95GvS96+B5VRQ6GwaVJ+omcn+jTqybI1qLN1W";
   "rXuQJt2S9fWFRMretCbLTNjs92dGWVHIjRbrq5GX5JsAmK/C/0BZHJhb4jgEC+G/x50jEYzx6j0Dycbzl4XX8l67YOBnjGNmfIuj";
   "5aXgcLiXFlL6d9jp9kQHbOz/QlHBL1XpTafwjEps2dZ/zY2tHLFwDmrRGysG0PBVzhPYGhNrJiX/YoThh/A3toIotlIW5VS1JcCE";
   "r7/z8mYRhGcFsopqqU8UVQoPBwzHBmaII98WGKjvTmtw1B9DoUN5m4fF4xUvySfARj/ST5IUNIpFwGj5DxlAhdPbpm418CwNPyAY";
   "Ss5TpssbrPJ4pJ0dfkCL61VY87wXjdnSnwTno2qgR6a1Vo6DBq7u+OMyW494zHrGbZUWdnRnmtVxsKkd3sDdUPmX4PMtfxJj/MnX";
   "o1AyE3k31cfPmdq/R4rSFZlEHq++u6vP3YerAkv/In4B6zRyzHBYDQ0jBB4yfzn5AWklmpVog6TxuVuJY/M39jWRukQWVAo3A6Nt";
   "U6XPAr7H8Y4lJKqHSR9rMZZzzG3F/UoFdwcx/itKiq6iiulFYryZEmhGDaOhIfwXlRMI6GhCfTeqDeutrAGIdG8H+N4OxbvGnsOf";
   "FglPk605ZhscHnk2B2XyBxvw2Uf+2PAq8YU6IYxL2Zkppqze33ZBnALiWUbhdGNTndvwpESPT0wdp1y0tDZs1F5RN/kB9aK/RW+H";
   "8ZhbBN/WRDR7wC/5IdoJdtgvuFUl/rUzc6Ja3taKd+KiOxUuaKefKPZp0buIh/qdQonrZC8kBN9PMi9z7lknyrJI6K/1en5Gge0K";
   "XTwSw/pJtK7BtNqxI5rJ91neZYv+r1RX6zhwecn79rS7PXkfTkf6GkW94VWNnajU8FMChajTWP1TjhLsA/rhWL7YFu5WH0R4uFHo";
   "PsLYa3YlGdFSP6YPKsVZ8W0g5IVBs/DdC9n9DGadgNryaVtQskjDNvChpibT6nMTq07ZOu0xQd4c1zwde118d0mRtttMppUzmLQl";
   "eaMXiZksAtOtdmga9e53R6DJ8sbVRaPXrL3IvC0mtxNOEAetocUpcKutTkeRUicTF023Dnh7bOd13VBjrKxKmunVhthXGF7F0WiL";
   "+VarryyXD2q0zkcHS2ZNpWW4Wm1RYXxZwH/b9F72I7diyFJKqVUSCYD9+gGCEX+Wdl1TZYkQ64IQxNjrNiXBTNG6errNTNGqyW+C";
   "zC8CXj/JU8rTHgVrQqF1qv/5GR1fh24rV+y46x31IssVavsWypgqM/AWnfz2uY7iqUiqFbxVCY0CCGF2qa5eFxL4uzMqrlo5KcbV";
   "RKUUe/FJN5iBzyeARY5mu6sqIMd8XpH2OpfYO9fB8KvAU2cp/FNuZSSbsrT7j9pKtjW3aZQu9QrZo9sXRZu03YoNB79hjlEvrPbx";
   "BsNAePuP//+YyaBpkP0WQTgPbwQRW8DXjtBKE1SkKKa1VErX306na/Popud4HAOq/Xprp+ovqUPxvNsp1Nluba9KLLol9XfuidZ0";
   "BXSzv/eWxKsrW05SV8Lf4HhfqABeRwvJeXAtptEAz/tRqW26terXdV7wuj8slC9okwQCwtyL4eKkRyhgPVK4k3ipw34+03wt5vgP";
   "2iCv9sE/0sT/JdN8LepYAN+FMMbdE9twH+F4eCTfk4QVBHy0FbCBDMkVYv6etcjgztMINKrFDfKzX1pf/Dd7ndEZO2ufpr/7mVr0";
   "PPoJhW5Irsrcz5ahrshhw9DowMy29xCCPd8gFarROs3yIJ5kPskEs9tNdnfPy787RPA310CDzbgRxfhxLw0HyIj0H5zlqjD0YYm+";
   "NtN8Kkm+LtN8DVUsAE/uggnT5bma2WdI60El2p5Ca6T5ULm48LfPgH83RPAf7kEHmzAj2I4QS3ML7xF3kN+Tep5Nden0YZLp1Ejt";
   "ij5TMP5Z+j79bkALsA7jfpCEN90oS/jzkIlPcvM+Te6cD2enWPWeM9h3LgGT4aTLg/uKuRC6Ly+NbjL4GPXstv7T5IKct9GFvcEg";
   "KlRqTfEwEnGtJo6aB4OyVGmgPTF2LrLZ9FXVNW/hn6u+qmIDKrq5dfsQ1vlzhy/CxFrb96ZlzpsV6Hn4qvOG92wg5R0Lde2ko7MN";
   "V2rjgt/+wTwd5fAgw34URku13XSfHvNFh+XcsEoDCNS/wRka3QVpYigrzcbIUgg/bu19qJwW8etyftqPce+4fZKvc/4Zrj6ETktt";
   "x7RYIBCrnp/hob+sUbuXCkXOzRKNtPo0EzRZwmjSQb3aHY5Jr+/Y+fY8M4kectZOr4UhCaN/VPfn5mSWjSSLFLNSB4BWRySLL8g3";
   "jgu/K0TwN9ZAv9KA/7eEvjBBvyDJfDXG/APAY4IinCBznHeliGGiBm5Kso0EjZerlFgPG6hxMvhtqleUqNGkOTS2GArFMkLriHWy";
   "K0VEn1tnlURKKa03S3VV1u7XHG5mJqKpma1sa1pq+AxkGfKRRUdDbjbx087P+xxTgcVaFdyJEKTKn2nEDEbskYmGhMStWrL3x+xS";
   "tVWJiCIakf4OZWpUXMxVG+J5YJhlyjpwLcQwvUs6MAl6eDXxEsSXKoLJR17anvy3ePC3zoB/J0m+NPkwQb8Axku1Sx/kObvkHzXL";
   "ypEHY4KTfC3muDxJvg7TfBBwF+Hf1Bp1B7Ei+i9em8YV0G4+mms+bNkJ6GanbzbsIcfSzTCNZl/cFz4WyeAv9MEf1/CH67hb55/s";
   "AH/AMMxhwsfkEr0EcRmPeYoY6q7R+4Y79jkHME3XmNL+wZEplVnz/gGEowSTdICZN+T0QLTa8F5/3S05FjNBYfWRF3mQDA4tDbqN";
   "SNbpDx09lwkUbL3R/tw/p/qsRMU5o3qBJsPEnliuLmqoMvUCS19abXRkm60CF6ZXBeGkrk0rtIEYwlLIO/VgH2/3qp2R+1g3ww0C";
   "/LTKs8u2tUTh6LEXYYRndGKrdwc9TvbawVKX8kRdWmPbSEM9PdUlhYtB8zWunlLew96/jv0FHpg7+vcqxSQkiskNTYqXGBXAVLCj";
   "5O4ptir272pStCR5KFa9jAGk4t3mSxC0esbcbK06OQzJg/nMUElzRg8vDXkMStPniC7AyNpl8adcDujnNPhMhgcdoYVnO5c0GKxQ";
   "Ocwzpm9DruLs1oDHhfrt3nClmDWVW2RbELKrSUbStRs7tXjwt86AfydJfCDDfgHMlzOLaX56Rqee5vgBxvwDzCcIIkQ+D4d+SNCS";
   "6Tk+JFZfOujd6B6QVM3jgiSbBIrFCzyTW8xbKMMGZ4vh8xqe/AZ0FbfhqKvJ2p1FVekvT0mhcN2s+YqX97Llqw3apKByvqUI+rNj";
   "/HWCGsgnYlzJ4Yv3Vqwxwf8ya2TUc5d3MCXAtmgD5eSxUC9NoX+gInwSVbKs2rELm37LS1Oj3IFA6lzTjzW3PcLN1enXbzzlLuoW";
   "3HbT65Q0TeCvg8a9anUo4Is8XV8PX6HCv96yGMeoa+qp0rWgMHeAV2rYJt2a/eWFZMrvr0SOledfSrNTA8TNti67AY20qY+TGagk";
   "9WRXexk4V+uZbgBHSWQtDdDwAfssO845d0J+MhI9SC6TC75NBq55COp3H0SK3JzLaCvN9e+KFeINx1bCCKdzNLMIqNQMEr+Sw18D";
   "cK7h06oEAfAamTOIgh7CAP4j9r5aoFaDPji+EaB38j0am9eaCh4TspF2CEX309He6/ttIscDWfbZ9Ogjc6JWCbqKpWDm9Lja+2Ro";
   "ktnj5bZdNqV7PcYe7lAyXp7JGu3hHZkXSPIzIW1Hi5so90Gb/yO/vOSYW3ZkPLwsxV/XzpkyGeCFZEpRbhySjCmtvhD2/Jg+0E4Q";
   "y+R18rvuuh//67rCFfwG0Mjm1K+Am8MjmyM8YMi02ny0Pga7nLnl0XX3HvuiCc/E1l797nD5OrKGdcOuLMBeuiMawYHVkkxygrDx";
   "eSFoDciI+rZTBp6HVCV8ddtOrNjRaZw9qVd1S/0op8lujzzh3trNdzTwJ+dIPgy1ZyPyCzi9JXcdMOGqJhy9Xn48KpYoCdsCi6/Y";
   "DkydFXPicycu21VNFx0O2NcgA7mPan1W84Y6Zfrw7+C7M8C7siSvgaLPUCdUK0RqDQuvj4K0qMJTy5AG8IVsaswHTcmRGaA4WfXz";
   "6wcG08V2PLKRP82x7WepIGNMZaQS5s3c1E6mLbTYs90f2mdUaEdSURGk/Y+gSBxlYS+CfroIAwEIWbcGYT1wYKDAbuQSr4/eau/a";
   "0cr56bnumdZs69V26Yw8LoHDiXRZ6p7yod+83Wmz21P0a9LMkm9mu8DPg7LRIlNoujdgLahOEmUSKfVE7Y7c2FrT9IZdrmnUaj7g";
   "6Q2aIEy2uLvXxXtX89co3WYVWahzJeLGq0VCf1PtXUZgz3B3LpetkeQ/KeIYz/oUYc7RAhHlVbDYoisOVOJtOlYX4paupxeXo/yo";
   "i3mNYjna0NObjAX6HAvdw/PObPj4UBfxCJMn9abHDCg0Tad09xJdw2tsAt5R6bvGbuDH97ew3lXT0Xnen2u3HR08+f+oz/uAjs7F";
   "RijQA9q0GqZyuC3OCpKyX7cmBxaW6q+pELXdoxtHwprp9d+9vqLiv2JyvX7P7Ucf4eB9QeyaAk3zgn0KrR4ACJkpnGwQT4lPs2p5";
   "lep2E4a/a+fiL16d9hijfM07U8WdaxNkwmY/E5d/ieWQJqxM47kAOcA3Q+mVU6Lhs1PhtiBpBv12sey9pBDo3VGHfYg6/B3OXwhS";
   "yypZoLWRPEH3mLU262wF/hAr2DW+bK+3pUORYfdK1hCQzGrIdAjvyPSgRzP1PdEj2NaOtnEumzumYZXaraKPy9uCWsQL9CGXL7BL";
   "GzJjGtE3pL+iLm+JaklW5LtlbZkW9nHLm7JlvukLYE9oaHPfTWxG599uqnLXjFZOMZk9nXZTdYwY7KGsB2/ubCO2A9zNRCo8Ulom";
   "q90RrNtJM2wjNW+dmyvruCz0Bbe6xg7wyjlxxKdI+inJE9cSfSiM4lWuAJcwrkUflU9/qMW8i6iBfcO9BA7KFbZRO/L6kn9ynSny";
   "coxNO0lB9atq17yyiKvJGFcGIY+yh9gvV7qHUMDK1M3dYzmzBoCS4fOrDbR3vXr1qGLAEO3xdBVx7EBeLiX/Arohl+qHb7c0uz1M";
   "FqFcl9NZRbSFU4E7RE/kzYFmBmhspwJJyNuqqHKN4J9KUGIO4OCnY44+NG+QDkZTRQ4LDf4ihLqRX+UaSKJmswwrWpZ8mYPJ4wZp";
   "KlpwEo5MVHBz2RMfmYaEw0BUQX6ox0SR5lqb0qIxJ2BiN0ccfKj/X6gKuY5sIGL0VeI30u6xppWI/Z29bg+mMRa/TTeO3iObofnH";
   "HEDztFg/IIUN06Hio0kH8JdFgQxVdZNPaQiUoijFqPdYaYdBm/MTu6j+xnaSHu8Lk8h5u2C9Weg/4UU5FN4vX6pPYFrOiMCy012h";
   "wUvj9vRL+gBO23Cy9k8LAe+JPpfAvocsV/iaz/wBXAJ71cAL0fciOEwSvCFvy2cRuwjTicBsnDN/IN1GEoQpxO8DJNmR+CK5fNDF";
   "vEhegh35XpIWkkr/Z0H7DesYN8s38IcuMckzaFhzo/kOXo14jN85kcwad8KLzLKs4AfwIOuRZjP2zA/MN4lnwmAf0KC347hMAJc+";
   "m7mZ6gDWeSaUclGf9z9I2QpyOfIC886kYVsJT6D5Llvoq8iWpoLYTeCLuiqXo7odO0Z+bOmZ+ShzvlpeCb1c1AX8S10OamEc5dFZ";
   "olugLgRkegi7J8zS97mXBfKaJ1hexCPN+aj5pjPXIhYYj6akL8bWLgcHVp4FNNpgSYoOtRRTXeOJRIYZ9/CNFpF/hjvMS275QzdK";
   "iUwtPJcs9tZXJkVdu1u6dR0Jg713ju76sBN11UsV1V/cSc7Plax6yX8ry9ME0cBB/YEcsxX8jotft2ReQCjWJUR3mjpAAzkj3vvX";
   "b4ao7CibjCoibFBRi/X4W0Lp6D15NOEsv4miaWe6vzywS8rz/z0qQK1TvioKsvyMszjavP0rPTSZ+Sze9q+evCrHadSpPDR5wQZn";
   "wvmbYJ5KZiXbEpScIpQpgpIib2DCsH/ep4Cp1cCc1GtUduqths7LSzdRbV3dipNzrAj0mH1ezrauts7eNZs0Bg0tMvcEY4GRuxjk";
   "4OmDqO6I6Gi7arYOpFPOruFSCx0UiSeble0OU3W0cmK2WIWOOD/BeCrS+ZLb6hlikoIMBIvVAhlwINIPKJ6mARPJoFN8xJfNlOnl";
   "aU7MV9twBcTabf62fY2VVsnx1r0wJfJZekIxwLk2fbxiYqpQ19nbH2SFx3dQjgeWhtN1BmbqJitZoGXdfv4wibwp9/FdoJExKJd2";
   "epkhvzuR5/B37sstBI3k7+RbV7Lbkwmyd98ZJZ1vRrWIXmdHvLT1clz0tIqgiCb1inllbSW1cJqvL4qTlTj6GUJxwXoC+gO8llCB";
   "bPgkEKRqMzgI80r9w+t1m21hNt2KHdw/uQ0enl13O/epThVFXJupldPAA31wtPoMHkQzsUQQdQ6arychOjrb9kUOAiajlfXpxf7y";
   "CjI+thkweIOelOlK4xZlzPmiufirmyi2xwueIVVbMA66OVECViMaWh/xi1MMk92h/xMyOsxqGKcA2p3tMPsASPxut2BtC/fT1sZV";
   "8ZP+9mE3RdmrZzLwSd96XGDzelO+YwBl6Sn0YVDZKf0jaIGa59iqVrGV0AU+sbkzRNKYbrIRia2pmLwqeG8C4l0uD/Uu6nsrM4Ss";
   "Mq78GfyVnIfwRBxrAX9v/nm5N9XLBHyYa445mUjWp/KSZsTQWtKsAsWi7PH3zezN795iEtuvHIGrnxy05WaCrSIHLnZZOUcuOZnk";
   "SGzquR2GD1anTXaxwNFDU/bJ98IjJ5cGrtud39gdHtp7Prd/eSewubzelKre731K0EoiFE0gB4CO+omjODrCvXvXlvxezO21jYOI";
   "eWx/FNLK67X+hmPlbb7TR41N0Nb3ZZupbsQtjpSoyG42hzp0XZPPmTWumMOdyFkGSJPddhpT9uySmWbSeeoHLaEy1xwquSzCGVfc";
   "FnJizYx8T6vI8EZmXi/tzgl54rCwnaqnbycqBBzYHP1MqjBCThRtonNxgtxFVoE07jkbjXxeG/qb63JIbPotzLlDb2DV+zsCwytT";
   "40X6em5vj3LY6OfuGNu+PQJP1uAX0xJ0QU3HXTqnanhQNRKdouJTvpXPCMIXpVd64h7DducpTW59IZBvvfMT68Z2DHs9UVCoZm9E";
   "zsOXTIaXnZa7+ieST7AMpzOI7rCKwcCYuiH0dwWIVy6x6r3JHtARjje6EPIh224E5oBZyv9RGWtVSD9WOmdGgw7lnUvj0yr5gpi/";
   "gL4LVMtj8yoVvQm+y7sTSJF5KLIi5nbMk/AP7i8+OKLSHHbbTjOPYgeR6uoMsS5x4iV6HECw1YB7FJqDGCP12FwPYgulmBPNGAbY";
   "d6V0tonZZjkC/6EetHNhJ5gT1CbN4qsa5mIU2uGdqF8Hey0hx0al08au+hAxh3ZMBHF1+iG8Sg6jSuNeSNFrghjSfZ762BA6Epcj";
   "0IoKktfYj26to2PmqOTRZTlW7Wa6rkwD8G8MLoJ1/GZ5nq8nkpBLd9WWp21ulzGgJ61F7h02RIfjd3XUV3gQkP5lI1x2wxemzcbd";
   "+bzPV6RwBhBziDgDBBE3Zlxi1V4A3urcrEID6hCbjaRyLV7IvYuFxMI2piCO16Khj0emkva44PazVaPj2WCAZXJrrI43AGjPiH48";
   "qquhJURXJqYC/TbDsRjIHML9lM9JKtGtGQE+PW2eFhtVQys/GHWmDYeUn6vL5a7dWL33LbQrl3uf/4ev/dDJNpLzkFu9HVp/wrw9";
   "zbp72/gvas/l78J1P+P3wQWHfEeD+3vVKgivdFWBZ13hMQz6TRt7XZq6ZDb6ESfiEwXPLSZr34jZnWUutzMFVaDTSi6/D5Mr05f/";
   "j5G/2++j3kg3etM9LrTfc5EH20OuvQeFw2jG5GD5ehk2jFYisGIWEs45wqELaG8yy8A/u3oEFpO/ufx8PNL8L8SLRrZmC0CY1Spc";
   "xg73Q4dY+xyo0OlBCPytDy+prWxOsavwWMA899JnAm9XB9U3XH89TqSG/84a0jjECqZAA6ksg9VUktoohlrydXrHWGHlW0uezQcs";
   "+adzoR+lB3VOK2p0B5rwm8WgtL4iMHE9wTLGh8tTDtKvh6dwaDtCfZ4ghD7Br1osyVc9IgZS6jIihlsm9qFm9Ar5G8xV6gp/uJXX";
   "Cywt7SrTmLLcSAa3WnIs7GyKwrNO2t8KGjIGoQxa5yuCJmKK5oFYLSXh/dXbMlEtjP+nOAUeD7WE+KhNUttObk94Yw5Yr1JbyrEC";
   "1nOV47YyS072sMM8KOQ/Ng+3N/R/+sHOGBiSqlphD8QKKMS8PhpUoG/cRYHjUmt4MiMKsjPdl2PggJCVFf10vaRkU2daKU5ahBnc";
   "s64J2DzrJwwhOjC0PaQoj/CnjvSlpb8gx02SU1eKL09bvpat+E66y6VejSgVLdRdMC0e/IHV3d8tvtAxwHXhPtA+4Guz7ZffRJ54";
   "SH3gNc34DpU/XpoKHjPPcGhEBoA/Abop7aBXNGaniVXAqLgcUkpCqcTvBMeKSnNeUkdZJ25GN/9j/aPFArytY7nBgpswcL55hKrt";
   "5c70qRCIbantNnhWSEzYCTbnLxdrATDWlYnnLTZbY6y/CXn+RV6VuunchsGfFm/HBOnFv6AfkbeCf7QhytOCusWFM5TZYQ5kXe/e";
   "csTjkzQEgge1rLmIVeatrkqEWPCODgVHFoZNsQNvpQB/bXFk6oEcmOdKGgwK6r3kWZt0uCidu7q2LaivH0kqDh5RwtXq3ME8IlD5";
   "N04D1UiEf03eidZhQ72wfk5qTarPydba+8WS6C/35H3EDzxKBFBKrh+F62RKr1H0SG44jn/AXMeB5w8xCdbbc6ENOdJdHVtzlaY8";
   "3JtDl2bk5bmPI7uq82JwJznpDlPNGidXsMDmbJkLzFiB3qODBKdOJ6kxJRoFI2skf3Z/V8rfu1QEUVy3/lO7hk8D3b7ObRDyrdTb";
   "mMMfQae5WQcfcRV6ElSJfWKeewF5Cx6p/+WW+B/4NZbA7dcFfjsZ/3S/8ABqS8fIzYD3QSsoaXvTps6KVTTPQ+05k0MY2r6vQ20X";
   "3CYjAxjNDmqtzLyHfNiLgcyx4ingc9XSY54kdhFtMJ4m8RjBHh8DnhsB1o+oxqBpzb6IujA8xdc8Hx1G9rxxb7pmCK+rP8LWFaY+";
   "4I8t4dMRVGqxdgSe+H8819AB6rbnl0WV8Sm+76Yx/0OEuYSNf2pl2pQCZzXtHg/MFzIP/JI/olL83nAP4ts6BGw2Xa5doki/J7o3";
   "fJNvX0CFe3tJ++sXvDgFVfI/QYBKdB3IObSMFduCje9WcExXbD0OG1CwGcwsdpQ0z3KRYM2l41x2WvXpv1GO6S+jlvLptywk8Xqv";
   "WjHAvGM9C3WQh/6tfw9XabpA7pGOOSlV1r76l/QjW/C33iPcIzQ2c1MXDX5ZOMruqp1jI2ZmNnbyM9jW6ySBegsHKm/uSYAhpQAe";
   "1GCvVWHES8B7DsS7J0G7L/IfvzOGmDvNWBvkJPoe+RBgH3QgP2QXAP4Pgmw9xuwf5A29DXyvwH2YQO2eSFE/FOqDn8NMFkvHFkgD";
   "gJdqZ6kWW68kCWP7JOfGcjDxFeoWP2ZYflgiYqdLj+Lwro/19cp2fuWX11urBslD6PO+jol+/Cqi/uldZKeYd2HkpwYp1Rr7Mn1p";
   "6KK2TysX7cOz/kH0P0nrG+as3tkuCBSUxhPpYLn/Bp0owHdgH1Qi/YhLtqHvjvuMtpNRk23qSMM9yabyaTpMnWQg0JOq9fa6doFc";
   "P2e/C9kAXoWjIs6Di51i8Hq0OqttEmtMbeHO9MevdUk3ZPPmDhGA80Cu0Uoao06xgLyI3IN6OaTdfk7j7Z/SH4yLX8HP09Ogk0cx";
   "Od/6ekXm+59Wtph1NHOG6WryUFOGvW0y2SgHfWrdAZbyedRKxX897giGAf8JFxaE0M+b9Sb3EaD0V2/Srg8pI34PtiLmrD9a/6EI";
   "7ec9u71xtQ2r8EbVVu9bUanyQA/0hb0G312jTze4rOabJzVaJPjVIR8gniXOvV/wnspG9cAXmlUmly0AX7kE1zA6LWp5fEGj8Vo9";
   "ViNFtmOrgFbZgkK98F4UVnvhElfBPHmJKezWYJpRuFPmxkqq7TRZq9FTbFKu0Wra/v/X/+/Aese+NsAAQAAAAEMzCf7hAhfDzz1A";
   "AkD6AAAAADNl4CXAAAAAM2X4wj/Lf7lBFEDtAACAAkAAgAAAAAAAHgBY2BkYGC+8e89AwNLxX/df1tZAplfMBxiQAYfAMKlCRcAA";
   "HgBbdEDjF1RGATg+f917TUfa9u2bdu2HdeKjdphbdu27bvvdNb7kOTLHCdzr06BHQBwmEg85pw2h02dqKkdYJNfdIfzNpyPgw0W5";
   "6eNR8szL3L9CI2mmaijzswszb2/yCce9NURaC+f0Um/o798NPflAjorjNFouDQKibIHDo2ES57AITEorUX5dhgS8YE+miVyn/kbZ";
   "YISkaj5KYj3Is3PtPvSjfdXG0uaoo4WQg05jNp6DM1km7kuh81R2Wx+CvsEEmQzj9I6CvvlBiu3XN38mNSgCkz2yy293yCU10qwp";
   "XcM5A+ShL3liTews7dcnf0hqAyzNPfZPbf07qT5UDr9W7mZFakZCspjlKIYeWx+0i+Ow5kWszKNJhsVwVdE4qt5kpXCf0PFZRP6y";
   "SZjcX2BbMQC5jgaz/E4Gs+zvyXJ/IYFN0XKFrgpUkrDRna5BFuQwMY77cWFkvLM3BcbGoqD/8yOcOYlSUES87x0MQfxCv2lC3qk5";
   "xrMlQcoqJFoqZtgl/VoGVQOZeURomQIdstAdJf+6CaDeHYoCnKtD9eEa+BaBNWRPqidnTUxlF3zUmEKpjgqRu3QxZQFBUWirr7H9";
   "KBgDFYL5bhXIVPDzKRc64/QmVmWKmgBfvsQeDREwpgX6QTdoDv0lwYCcFIxKk8tAfOT/tIH+gJAmKnMUEqhcoBZme4w8B9qxvLve";
   "AEtwQOU5EAUAMA46c7PzMSZTuf8cLZt27a93n0827Zt27Zt2za3imGYHKnrMMOZ3cx95idrsdXYDmwcO5Fdy+5n33IeV4tL4nZyz";
   "/k8fAU+hh/NH+U/C56QS+gkzBZOiopYSYwRt4tPJUUqINWSYqSN0l3ZkKvIfeXZ8lOFKBWUdspM5ajyHVkoHcqGCqFyqBZqhgais";
   "WgmWoo2or3oJLqKHqK36CfG2MEZcA5cBPfF6/FufBxfxvfxazWdWkVtoLZRe6gp6kB1LChgQTrIBoWgHNSCZtAJ4qAvjISpsBDWw";
   "k44qoEWox3Wzmu3tefa55AQioRahaaGboazhEeGD4ZvRiBSI5IQWR35qjt6ir5fv6p/NgQjYuQy6hjDjYPGReOuyZkZzBxmEbOcW";
   "cdsZyaYfc2R5nRzvrnW3G0eNR+a7y3HKmRVs1pZy62vtmI7dia7kN3A3mxfdoo4o13OzeeWcCu5ddxm7lh3oXvaAy+Ll8cr4sV4c";
   "72z0TTRDtG50bOEkCakC4kh/clEsphsJSfJdfLRz+Dn8Mv5Tfw4f6i/1t/rv/Q/U44CdWg6moXmoyVoNdqEdqIJdDCdSnfTx/RjQ";
   "IMyQY9garA1uBpc/Q0yoYFFAAEAAADwAHAABwB1AAUAAQAAAAAACgAAAgABcwADAAF4AYWPtVKDURhED+70+G1x9waXBvcK17in5";
   "Sl4XM4MrplrJ9/uZucHajihgrLKOsrohFcup5HOF/ZeoOeVK+kj8spVPPL0ytWEstZXbmatbIZd4mRJccEVwV9nxEhLW6RU1sk4i";
   "XCnPswAQ4x7ZplnybZl6XP+Nf2a7cf0q3cT3SW6wpe2A66cpuW4rvClfcts+MPh0nHrLMMFKuR41TyTqBK15cG0Hq6d2sg5I9I4H";
   "qbxX0p+2S0ZV4IZBl15XAzou9RxzpVsv12Duor6rqSI942eiKp51cgzKz5FCAAAAHgBbMMDrBAKFIDh71zbtp59n23btm172W7Kt";
   "m2by5y37JrDrH5I4NzpC0/V7GIcIxIiUaIml7jUZS53hStd5WrXuNZ1rneDZje6yc1ucavb3O4Od7rL3R7ysEc86jGPe8KTnvK0Z";
   "zzrOc97wYte8rJXvOo1r3vDm97ytrFWWm6cD3yoq4+s9rEVVllvjbXW+cQmG2w03qe6mWCrzbb4zEH7HfaFz33pa1/5xgDf+t53f";
   "vCjn/3kF7/a5jd/+N2f/vaXgSZq51//+M//DpnlgCORFMnSFSpSrESpMuUqVKqSL1e1GkkGazBIhmTTTDfFVEssNc98I42SFykmm";
   "WyxNh6QKcs97vOO9xR41732ydZaWx201yglUiMt0iMjMiMrsiMncvXVL/IiXwtzpWqldxRoaU4USnPaKWfkOOqYGerUqtfD/d43J";
   "Io8qJPtduhspz32RnGURGmURXlURGVURXXURG3URX00RGM0JT3z8lNPnW9qLIwQCGIoimsvO6sD42gDFIC7nWv1kE1OVvL/vFhru";
   "Wlfd9f/D/vR98H5fDVwvhcWRG4wCBPHmlF49y/Ihlcn8tHlF99h56/zgQY00ADGNiDDBnC9g+3r4czOOvIdWCmlMLh6gao4H5Oy0";
   "8ElJoiJGpPEZI0pYqrGNOl0TFrLzYGBVkxOgIGWjM/5D0DQvbIAAA==) format(`woff`);"];
  ["        }"];
  [];
  ["        @font-face {"];
  ["            font-family: 'Source Sans Pro';"];
  ["            font-weight: 600;"];
  ["            font-style: normal;"];
  ["            src: url(data:application/font-woff;base64,d09GRgABAAAAADYQAA4AAAAAYmgAAQABAAAAAAAAAAAAA";
   "AAAAAAAAAAAAABHREVGAAABRAAAADYAAABAA0QDckdQT1MAAAF8AAAHKwAAGWjKVuYJR1NVQgAACKgAAACJAAAA4PFn1ldPUy8yA";
   "AAJNAAAAFMAAABgW3yVKGNtYXAAAAmIAAABRQAAAebzMPm1Z2FzcAAACtAAAAAIAAAACP//AANnbHlmAAAK2AAAJB4AADlo5gorU";
   "WhlYWQAAC74AAAANgAAADb+ILPTaGhlYQAALzAAAAAfAAAAJAevA55obXR4AAAvUAAAAeMAAAPEs84iD2xvY2EAADE0AAAB0gAAA";
   "eQDxxLqbWF4cAAAMwgAAAAgAAAAIAMLAjNuYW1lAAAzKAAAAOAAAAHcJDk/RHBvc3QAADQIAAACBQAAAzlsUEhveAENwbEBQDAQA";
   "MADgH10RmAMHSUyaqbJ36mwAmqj1qayx8rhVLli5faofLHyS2o5VgWBWga3AAB4AbSOM8BXcRiFn3s//G1jybZbclNbmLNda1rD1";
   "pptt2S3ZNu23dvJNYbv5/ec5z334gB+GtIRt2PnLt0ID+01djh5SgHM5PPzrekO6Td6OOGvJ0jRFuGCtt9pq6q6auR2ZiDjmc1ad";
   "nOW27xVgN/JOpWdujjyfSTIUaAJzejBSKYwjZksYgk78VKwmzSxGzSzK/QjQn8qM9Mes8j2sooQZYiQ+1jqO6k7pWbwqueV1Ef0I";
   "Uw/atKf1iLeiDgnoimlIu6JeCn1NMt0l5Kzt/Lvq3onpiplUp4rX4xUMVKzlIg5zpIvXQe/51Aq5Qqr5DjqOomrc6N694vPySloN";
   "1OKS3+CPCb6hTisbmlMsPdM0naTUymF5MV0XVpRH+yxrbe7OjdTpKMILxU47OR/zrtne4Ei/3nYVtC58TftpuaF/5A9345oTgea/";
   "tDW22Gd2+y4Xtf/wzdeEv3xPv39/7Vv22qidv+vMk/bs0/cmDWYKzcQx8PMzMxUp0pfpi9Spg1U6cLMTbgJMzMz02Omtc+89ls7+";
   "8nJPn/fL7uTsU5aK2e/C2dM0mo085f0nxndFXyRdiaMEWEbRjyKMOJJ1lDnaTsvIeIT3iEhCVtWbJnaNiR2ZmY1evJdyT8WvXrVO";
   "WSYoO2+jKXEnu06hs3atvjz6N7TzsssCsFBNImfeF7Pn+cLjVI/mYnbCYaOoO5QY5O0emNrpL99U8u/v2fgrDcttIlkpMNqTNknN";
   "7GZL3hR1rWB5TwyRkkkK/5Jd/UiXuIBHrDzXmEVt/MITZZL/0eqwT0Z+RzDuOfG0uJbZ+7C0OpYoe20U9+24HN1DQOxLx/6zonuG";
   "dpv4cpGKmopKdlOAyfltekXnJ/h/H6ZeCIxQ7WIcO5mDVv4kTrv0edtrsufrdDccwivTHB4jpgtvMR3rOBz3mHNhG3jMKePmeci3";
   "3mazcB+G1Kfvb7ws21tKE5XXsI4vnLUTpAoDYjGpjC5jJjPJBqT/PsBEno0SXgr7y3hIfGXC9/vcAxfeozQs2MDb/MRa1jCd3xBx";
   "VnRiKTQZKBIR1QwxAyI2Spn0FP/h9hZI4tN5lClGs5V1G2/E14zP07Ec3sqZ+JxbpL70C4TMdT02LhvgKUyh9rveohEZwFh3SJqw";
   "9002SB54niqxFzrDdt44eLS8xfyz13cS4MlC9YGQ4TN9W60MrLtKjUyh6kdlCfKmV1kzJdz5HMOqVo/1mGZ1Avr8by8fwFDzSnn7";
   "3BEfuc7Nm/tkTMzw1ZFGT1LepH1fhaZH1f0dETzINtyu6fZ0dWhWFR98a9RMcBg1NeeHk9ayuJhMUZazqwW74eKMsXqUFdWTxGND";
   "D+HTBG+0GgW72T2VPUsfZ46mLoFboY6q60sH4UqPnO2dZ+9o6wjCd2rWMJVXn/KCjByQ96HlDfp6l7X5PlHqrIHg5wr3t4IT/bRy";
   "BZWYXx+e9WxN1tcYkqae/nj3jlbfw5P+pbfI0VwrDMa+VmDvmfBIqYy9cy7i7j71G2UKHI+IXP4nVFx8soRNr9kvh+f9X6dd2wv8";
   "e9zXm09hWHAduZj9WsrGSNfy18NRrEfEKqUGn1/v2hVo1N45wXW0aSCkYqfcEWYmeW7BDExTclg/zuhXuqvXbSlrkZwyz65gR8ki";
   "0ic0+bSmewkmk/iv20PzJifDCUfv0PCgC5G6thW3pstJ9Ahpk/L2YHYYVHiVm/amKKvt/owc1M62t5CojZC2fzCMKLF7yCJ+H97e";
   "y0SOegjkul+6PDWZK4IS6HLZ/QW0FgjO/vFrOsM/20WXiXfezVRhQr9+XYYtbfe+kx45v5Svl/HR9ubRQMMCOLlct7R1gYGs6yDN";
   "PSftHBNk17m17RZ7VMv46XpV1Wy8T3m18LrWU8OKACj+Bnbtj2zRpw2aWLbtlWuJrZt59XyCPnKeO//d9rL6k7/q/npPX++FyMez";
   "OSBIhUy1KVAk20U2c0p1nOGc+xnglsc4i5PucALGeeVTPBGJnknU3yQLgbMvMaKDTtuqtRwUKdBEycu6uKmpTx48eGnQ4AegoQIk";
   "yECxEmQJA1ACkhLRorkyFOgyCglZlCmgvUnVexKpCGCVvtJFb8IQdy0Cf8kTkSJAAAU0co/idNPEZGyQIYEBf4+YhIVA0aGMDMsW";
   "UZQAAwwiKIPERMAvT9lwcgCzOLGKj6c4sMjIYLiIyw+ouIhJkbiYiIhWZJiJiVl0mIhI16y4idPkSAlCVAW3aGEqYmNJi3qtCVIR";
   "+r0SJBeqdMnDfqlyIBEGJQSQ2JnWCqMiINRaTKDubiZLz4WshgfS1iOiRViYaUYWM1G/GxiG0G2s4swu9lDnb0cJshRThDhJKdwc";
   "JZzBJhgEhdTdGlzUVJckjSXJccVyXCVa+S5LgVuiJObUuCWOLkrNe5Ji/tS44G0eMgTqjyVOC+lw2vp8FY6vJMkHyTGJ4nyTRJ8l";
   "/APlZVMdQB4AWNgZGBg4GJIYJjHwOTi5hPCwJeTWJLHIMXAwgAE//+D5cUYmB2jXBUY5JyDQhQYNEKCvBUYjKCyjGCaCQhZoSxmB";
   "jYoi4WBnYEjJzM9kcEIJ5mfnMNggUwyMEBMBWMmoFlSUB4HELMxnALLqjGwwMWkQDRYJQ9DJZBWZqgCkoZgdcoAVmYjbAAAAHgBJ";
   "cWxYQFQEADQd3dJApUN/gwmACoLqAykZTOgNIENAF7zVOxz6Zdcv2bxPVaG0cj+X9VPZf40/hEA49lkDvdHXh9/1DkGTWwgLrlFU";
   "08ZkAyKAHgBXcsDjB0LAADAeYg/amNzsWrbtm3btm3bdhvVtn3e2HXjXu2JMYgihmxiIsgmHnmICgJx+fCvwsqqop0uxpnknHvSv";
   "fQxUjTSPHo1mhRNCbIFeYICQUJQLqgRjAgOJGRJyP7xI/hXoIhyqmqvq/G2OO++0KvPu9n3nTXIFeT7vMv+sSMf36MBHy/x8Qx8H";
   "MPH0XwsRUa2jPiHj+FcCCeGHcNpYdUwV9qptGMioAxaoBN6GYA9uIwQQJI0f4uZZ7GjLrhuvEW22ma/22ZbZ5bd5pjrgfseWuCI7";
   "fba4bEtnttpj12eeGm+Ky4675J9DkhxyClrPLXeYanOeeS4ExI9c9Am6Y45ba0bbrploZbqqKue+hpo6K5GmmiqmeZaaGWI0froq";
   "5/+BhjonkGGGma4EUYaY5TGBltiqRWWWW7lJ/Pae2MAAAAAAAAB//8AAngBpbsHfNtWkjCOB1KiZEmkKBawgQQJEmBvYBHFqk5Rx";
   "ZLVLHfLduz02FLiFNvp/eL0OOtL8s9t7y13Kf5v9kvb3vvutyl36bG39xKT3+CBoKmUr/onAMRg3rQ3bzAzDyZaiDmCICfIewgF0";
   "Uq0ExrCQBA6p9ap47VOrUoXQawG6YqIdaA59Ldq29MXotkLQr1hZSRzXjj6dCxM3nP6PDT3g+oO9PAPqn/dt3v3PjSybWlpGwFka";
   "1U4RcmjQFdLEIgPI55VIw2iWBWrE3QsOpvqptVKta2bevp54ZKf3PSTy1HndOKCVPr8xPTmL5BHTx8AMiDZbJ2OjrARHpBPiNtJg";
   "75VZbAjg15NBpAunkomuAAyNH7M/kCYL7LpzOg4N7gl9fLXhvOl0vxyeWqiskwe1XoKoci0Rtk5ORArRyl0ZTwc8v5H9ZepXiH2Q";
   "wIRsdqfSI48TjiAV6JACnEjpQoj1qUGrkYhnkpTargLk7HIhguKue2OfnOG8w3GrDtng/22fu9ZheJ502E0PH3lxnDcWTbTzvzG9";
   "EVXuhyj4Vhw4YioE4l1KoFO6wgd1sgoaZKuK6Cd/dx9Hw/MrIz9x8d2n3veLoE8+sEPzhya9W9buezSC6phkQYSaaA3gEaHOGcGp";
   "0EwsAa4zqJbqidPnUJM9Tzy6PLHlp9eruO+iOeigatlZ9Gt1bd+85tVQHtiufpboq57CnT3yLrbyXcon2STgrZugOjcgQFXX9SrK";
   "Zmz4eCoYNuzyxbvPvSq64Kh/os21G2gpuzdZZNdsoJGfdv26n86Q2AIWQdyqK6DAD4naFk4s7OrqH11tfpXEK36d6Q6fQC5qi/W8";
   "YmvAb4C4wPequwniDDV/oQegmfgbWk7AlmTQA7Myro4fp8+YQ+HV43RijC83fGQ29k7gh6rFkPrs67edF2OBRjbiekKOkGlYxUqA";
   "zBQvHX1N05d9YVtoig/Q75adT9KXPzfZPv/DMa04DGi5VdRd/UQCPTjZVm3++A5LT7XUUJaJ2oHVk2zKgWr4Fm7wgAqXHVJQOlfv";
   "ep8hbKVVCb3p/YnlGRLi+Jc4PflQ4fQACgfoMDu1L0i/3upZDpFVX9Sp5/H60KiH0aiwpgwEgkf/PagUtlxYf0C5O64Vbg4jwx/v";
   "2A8KJbEwfS1ZexL+I5P0AeBzosQbTAvCbrMy/6JB8vwD3HuloNejuJZkrnTPj9E+eUSudM+v2T55T4QtC0eWpqsylY6IwsHZlef3";
   "ghHF44vH76yFJkj6u4lL7g8OEL0ktF1xm/94LMasIor2Ts+AZWF68v3edTmwc4bnBzct/qj+4ol7eTR/XRyUxqOmn+HZo8WIi8Ks";
   "k8T94CMmuIKNAByYSGnEiNxBkPK5rVUGGHSH8cxORlkdHL2pRr+TomuVBwyio5+mbi1EzUCJGqktlScrlKWzKgwenPta3bUm5PL6";
   "yOygoO7V/o7eBdrS0NvfpArzbChPWSlrFOwcKMy/FK97Wtg6Ojg1t/f9vu1ReEjSXPaPYBtKW3NxM8/T1E1AhQNFRJj2/Ri0sR5p";
   "cDfz4NOgoNf06EyQgCxZqjEp4XBwJfqrv6OeymUG+fxuoxbjJFOMrZNxPNnMNlmSF/pFdLc/olOsrqmfxieuCKyIecvjCntxl62v";
   "l1dn+vmx+M20JcxWL3uXVWg7bN08n4027vSNIRD2OZLKBnG+ipAi3ZpFOMIj97Ev3myVUyuLx8+scYZxr8qQg4Zrwu5LmR1yK41/";
   "Sqjo3a7XG3/kJX/+ZMZnM/C955U3IsqNMFx5Lo0uqdM/vLTmd5/wzQq70NPG1Ar4sgFILOjiihgGAtKVjlFVu6zVql1qzZfPBbNw";
   "OJx3p3ZzK7e9EYhARE9AB+F4xzghxN45opKKSXEizHnoOZtu42ZYehY3rPdIexQ9mmactcePiOmTZNq1KlaVt/G9B/NLkvkTg7gS";
   "rVR4Wzk3CDKrCYNnLjHPxVP04gUUayu667QqAkVkUkKHRs4wXIfu2zV5c7KXgBGTqGr/jsiaunu8waZRfVOXUFmkH5O6koTUepO6";
   "tfrv77cYtgtwuW40TdDujvQFsD/rCGtoF96rlDo/AiVXbb1aOXfWX1j+hfP+YZ5rhhz8eqe/4ozokXTn+R4n8aOWHiEMQrL8pV/w";
   "t9rvosKlbjI+j15ZGqZVlapwnwva+jvxJWgocRiVQaXA98TcUXkPiy0rI8i5dZuv5SUCsStxxbZ3CaPcOM37cnu3XTtnaFczzYP3";
   "MR77DHrfEhX8916xe0OtaqseknLdz5e6svpGzc+orTbrNc0Ko3M5jvGPhOO/kMRAeXOGsGlcjPTsq+DamDvBRgqavGVhSOMS5cjl";
   "vYvgmfa9ihWLd5xSIYYwPx3kQv+cyjG6wutn9LprhryM3Y44eonvm5ygYx3vtAv8dAPxq0W7ua1rzifd6hpVh01JzWe6lcZazPLu";
   "ij7Jw/vlhy/zm/Y4B1msa0uqXxypJZO+ZgXAM7RB0CQPsU6KAnmDPU+aSw1mjpJOYXYPvGvf4+WrmyvU1pLXu3nn8wk0pHLTFzdO";
   "DPuR0Dbtq8/ounC0krd+MV07Pp16geMWXD8v8Uz4+rzgNbSeW0oybxPTggqnxccUMgPiFYWqpfb5vMMWkrzy5EhI0DHjQWE4IDbZ";
   "iRq7AguPSDZZ22TNnZge1nZweKBdF3rHDaRH6XoOAK9GiEkwctm0zLgQgNWa2FHTtWBgZ6vPmgJaIl93bOJjdXL0J3LLQIXH/Esk";
   "4l5XLeGo/+AXJ3EcMELG5Kb5RjpYtvVSVSolWS0kUmDtzsSHYANfwyZpGUL4kqSimfNHE3DWZzYyH/oNfK7XC7dGanwcwzyRFe79";
   "F8flNnNx0f4rtd2o4uNrS4tNkztDMXHE85fsjGY253PF52eiIMrVfRSUfSoOz02umIRqkbDPoHQpSqZV4dsPgKfmOrap1eazBlSu";
   "5S2NrNRNFWIRoW4pGoIOUgY3D6FZ572XvxatFKE6Flx1aUjnFhfXnF7WNijhVw0e10aM+26reRJx932KufgLnNAaVvks9BTqQBKi";
   "4O7AFUxDcIuNC1Dq/XAcfSygrZ76Zpj4em3QtVA+TbP6zFiW/DOC3OOBqpT33BNBOqrHZ7cgErrzauM3Q4qT67z2d3+Hzo1Om3+Y";
   "GYta1lQdESCpBbZPoN3UgSdKvnSGkxR+IhRxrbr3j0yMefOHxkcj/5THX05a9XX/jJxsPSGFjPxF9gjBqPgdnuQ2mqlQVZxla625";
   "UqlYbiCnHymdOPGrTkwrpKSeKjaEN/leI2JWAbUmssqTpzHYNl4xgLp/q17ERkqrLq4cKZFQ8PJ3Rq0BkO+7m4bN589RP1S9NcAR";
   "+9zGftXGHSzsnGZAHBASa8dq7wOnwbaOgIR/M6lHwTr/O6e/q4/rlweL7E86X5cHiun7skn0oVCqlUHgcSdmBHHq4uF1wrS0uV8a";
   "WlejwskO1AH8dDCtYdCLo2JDbHwy+tiNaY8IVHpYjIlOwKa7weDr3Hyc8kLBw7IMbDQbfNskEOhzhmFdAp4LMmZsEUi6v8fWJWEU";
   "dbpXWEe3fMskdOz/7bjMXViFmyvQ8CD+0Ze+Og2zC2pcKzBn2XsZsuUWDtxaiwbrdSGeqt/riR398J4yPN+RDO81JrsyHqTDI05e";
   "znvFyPndOZ4rx5x6ywwZ60JGkPq7V59Oa4z2yOlsPCLvc1Ftpp0VA9mrZ2kyvk6N/gpkZ0lIPSGLrVqnbKFXMxaZ+Jp0U59CDHJn";
   "I/zvTYZBEJuPLSN8Xd5KaRCfWOw4eHu6wder1AB7IerRgKb7hh88mF1pZ5VYcl0u8VaQ0BrVfQKUIvrw8goj3zpkgOrbi9TMy2Am";
   "9TRowb6FT1l/k440bTVUOZA28kkLgeMY0uoNGcFrCdF0+tM6xTdug7pi782PXoVM1d4biKu1Y1SPaEif8xjHOuGddMoSlnMa1m2z";
   "pUkAm1l87ub4dMSdWpyp53+OZMmxp+q9t6rwP67IjbPcLW5GvV8Bo7zPMj7KuYnxpOP0KncG7EN7FRUU18PnnXoXQH1aFs17dHDt";
   "75wKFcp7lLzMoSlyLi1FZ9QA9/W//2x53GoMEQoHYSov61FNYfJofCflFEa9IjtQKvk6JK185HOtufvnge6Cnbde2VC7+ocUfyXr";
   "1dbTiLbIl4HOi13zOjrGvU+fvTNf9AxNzSskmKFS44fRCdwvkTTnwVgsHpevO7aNsbv61eVUAbNuern90CqLWa1PdQJEiOUAJARf";
   "wXMrwn/JX3gb+2Bp5vwN9YA8824CfXwFcb8F8BHEC10xBPNZD7tYo1F9JiO7cYnElIppDcN0C3KE1hSiDN1Suemr0cjaKnq39/4Q";
   "XUgqLC7ujZH1r+5CelXgLwgdqLF/sjwKcV8/kN2iTyl/oRWI+2ut6O94S/8j7w19bAsw34SQle+wfcfRvjd0r0idsw/hTgM03wVy";
   "R47c8A9zTBX1sDzzbgJyW4VE9je2vr9q5gOK6PMZ2eul4z7wl/5X3gr62B5xvwN9bAsw34SYCLuVKo9jx5FflFoh3gQfA7o1TjRl";
   "A93aGQnBfxKj4tJ0xUmvq1Ly/WuLpAoDS1uaMDXUrbxfp2V7mQH3Y4xap9b7lUuMYnludDiXLg8AXcgBVt918wJFbt6fXRjcEVXO";
   "f2bYiKtTYII9bsepxXiEyauk3Say6LtCBTLLJwWQV9pPqP55+HRsh4+eBc5OCBs9zuPSuoMnPZjA83o/yzh2YuP4B+eD7WHdeK2F";
   "amum1H3xP+yvvAX1sDzzbgJyW4VDNhfFvdN0QvIgk7nDbifg9kt556Cop10sm9OPHVp0U9u847f1m4+ea+Y9CPWx3798lJ3IP7cv";
   "YXZFTqyaF0WolsTb2NbqkHYGjubqTl7sbqvne1N/YZIpOZ9HTCfNNrB/PRV7E+uP4ivwdy27Hc/4l07wl/+X3gr66Bn2jAX38f+F";
   "tr4K824KdEOKEQ4aSYK3VCdjpIEPWyL4wiSI0UjQzt3TUIx+OzmNKHFeKbvkXKrj7MO+iStU2FyG1TW3zLKWFYZx+PRkaj5pbqj1";
   "vHU0zC6mPnI31ztLA92j9z872oXe80s8MMSUWj/rzqNqfdYdUGjVRXHCktXMTvj7CFRahfSiMG7SRlj7FB7/r+9YvdUsE5nhscyI";
   "v6+Wq8WPeBfgzW79fIiPXG9RS2n6tu7473hL/8PvBX18BPNOBv1eEI7r6D8fdK9IlrMTwD/tnSBH8Z4HKM0jbBX63DTwHcCvRl+F";
   "sAr+dWxJfQKbkvOrYC+RN+zQMPnOfiMYG6DwQbsr6NeQTrOve8J/zl94G/ugZ+ogF//X3gb4lwQgHwNwGuBIiG8EtxLXUmrJ2Jat";
   "w7wtrX7KHUkNrpCKYG1chuocVM2jNCh8NxCy1m15PZSPg8+1I5ySfpTeUEj0hmMSUm1UZjrzvPLIi/2WDGLcnwJ4UF/LmDSBBZgm";
   "jO1FXAr9mfW9/p0M2l9UO5uJDLCfHcxZ7ChnBq0UovxCJjMbOCrP6gdSLFJMGNF6LCRto+nwlvyLvJ22LRQF7153qOPy6KlIrH0q";
   "Lzam3tde9Nx4QkVAJ7sdfKdRTZT36b6MURWK4y4LArZWPV7RhWJhONli14gi01kwoNRygLY7H5Yj4bFez3+UdcfiHudNt8UZ/NTJ";
   "s97njyAPpzdH3GYQn0OjyCjzPqbSazJ8U7M36T2bie5ywmxmJyhlyOkC9gdwXLw1VbrSblr9gn4nUfogjiPeAvvw/81TXwEw34W3";
   "U4zu0wfqq+PmpN8BMN+FsinCCJKND5A/kSxOCkHNf5Rl2gkz0rTMrNhTCSnEwso8DFUE86h5A1Y0+XdM7g/uwEk51LhKYLsF9Qgd";
   "clpY66jjoup+I2wT3C3O7YsHm2y9zpMlX6nUmPnmzPfXQlt2fMK251JOayDjMtTDnLyYLWrhnVBSxjKaJR0zV6XBSrfVeXi0quqe";
   "lWSHqYi1QEq1jSsXmabJR0zyiue3TSxMglncU09eFGTYf7NuQN0LcJre3brOndyGUTPJQB5EVWSxGaOU9AO0fvK4Vs8R6j2qZ3uJ";
   "8QmzvWcFNzR2rwBLhS2LKubUHV6vMHGt0e4A8+uwL8gzAT0qLJo3cyl+RKN5VQ5IpesPuhYPrQmXaSEdpLn1BvP3JkBAqqVql6Or";
   "mmu7QAItWrKxxjbMD7AvI4rG+KGG56X8Hq1enFtV3fK8AQ2SEawcZY3zIAvLSgRuKvW0oxa9IcXM/Y2GF1p6/XRDt4dA037eOXc7";
   "HJFK1nQ2YgHMxxg5Mmr2C1T/qtfvU5Pb0ck7M8Eu419HhmQ1QM8VTEYklxFnf49E/bWQvD0bFB3pUKebRc2eXKBi0TRSYV8up8k4";
   "x7USgcEPTWFvAZL/j1z8mbQB/IhVuaWjl4fwY3Z3E0IBGxe3V1t3hQvK2728ZT9Wvnpz74wY989N8++KlN5r4tQ4Obeymqd/Pg0J";
   "Y+szhXFTh9gzwkZsS46BcVB8d0Vo5eHB22LxyuXr0NfbDcbu45/fI2Ed8Jpx+DPA7ALyjqgZM/48bg0VlkcHID5457U4InbykFtw";
   "6EKwnaU5yLmPuoB6obBkvnbZl2C1k/XYoINqEc9C8ubYuTLctyrf89oL+m1meTWNm1vPA+sLxy1tOVaKK/J1BORYq8Nh7k8nTWtz";
   "UTnkjZs4nMOJufCU/tc91P+4SQ2WvTzGmsnNEbclpH3UFjoOhNlfVKzXQxOBQxJzi8VnvEWgTs0i5W6B4xjZHKJ9YARWBSbIOhgI";
   "JUdlrUq2jX9HnVN96+efr0HbYJmzlq+cLShz88BZuxV9f1+QHQccn6yGronAb2Hct/ki5HU8OlpMNPp3Vo7nddet7sG0sxnsJMcP";
   "Js9j6rr9SXKUArHfXtPL6uwxQbFxIbeukkC/IGgc8vsZ+EQd4GGzvSSZu4DVZrwyDSetOJqDVnbS9+Xpum7UmvmbSNs77hmJVJjf";
   "kic0WPf3hTrG+WnihkM71O7/wE+qzBakpvGmC9plglHp1M2T0Tl0xvvW7O67dL76wg3h89JHYxhYIiLe46qBUq9uNKo68Urv4Ifa";
   "p32KtVXjx/21WXlXaODB++9p6t9fxA8vUuwirnmvVejxql5ZUr+rr4pm50imXHM9gVsnZHh2LhrMnXy9j5By3WWMgT17PhN3SMj/";
   "IItDDqCwzHLBqTQ2P02nscvdPRyPqM83PRTDxk8dCmLmPubkvK7k+H/Ca3lfquPeZlOpWWsiCWVuZQkTcFPI4OZafDG2c8RVjU4R";
   "LY3wOy/0i2vw6HHKlYwxuQIO6ZaNM85X+y5i3t/WG+N7nYI5t/gvUNSeYPg/l9w5tjmTkajbi8cxOFvkzmubr5+br5ac/ExWD+ed";
   "H8iChC3/XHxB0gB5GWQwUwKgYYxu9nmMCAKxh0wSHOU6RWIV4F3G6CEAMj29xxjkST7XQoxPhCM+MHdSXO42L4Qm/lPEutJvFAr5";
   "M8cQOQWSBaxSvAMb018BulPVLAf5N8iGjBHUBeUClYVZNsexWryu5JtywhGTxwoPqpe2U58fhJ4k30V2m8A7FpnZCGkbK4P1auKm";
   "C8OFak0X/gAJq/jw0GWac4vB5D7yA/SdCED6zCFZTvCltKqlmgB1s0tMdpDHCOuLHEbEx7h+JWysU7dMpDMpOfuXPxgM9LuYM2U5";
   "aLGfwFHyOE/eEE0xCchDq+H90LcmO+yKhWrt1jAl9Q8s2KIKalGzPm7XFjv3NjyjcoMuYcPQqRsV88kN6TBc4+IxuiqbWcm3RGxB";
   "S6iXiO/DzRgi2uQewG5SUKaoAs7t//mDhX8BzdDc854qiYR8H5e3hcLzpCfJ/8gugTOjUyNIwCIqa/7/cpWq28h+a8h8gjpkwIOW";
   "nG05e8tl9a94PoRuJ58gQeC/7U2uRQqkFxrIV305zvMDqxdizII/JF/x/w5cAfQR44fw/DgSb6FNDkiDsx/E4ZXttNPE8cI0UIcf";
   "oFGYY+RRwj+DoMY8MV+zqRB9/8/8XOVTqZplSUKnJjeGUl/MO5ez3H/9WNcVKAc6qOw6cpg4r/+IHQTTeF3j7uuXfuXjfmAXTQXY";
   "DDEfeJ8sD5sxieAvgHMPwYhh8T4UDTT/wQmRAn1WcG1v+b3yBuDvDrcLKVOF7H+yl6FLkwHnRX/OhfqqvINSE/I//S9Iz89ukEfi";
   "auReKPsBZvJ1Ww5gCA8b3E9YhGNxM60OMdMeeD5pBTp3OGzOaQS6dzha7XsRHaFnXp9a6ojY6wOqmvegV6s/aUyE9sF6I3q+7S8L";
   "A0x5O1KWQmXxR7upS0Y0fhrTlK9YPi8HCxnEkmM+Uv7n3++uuf38vs/PmFF/58JyOOC9SmiL/Wx+FQLibeYqDhA3gIHnxXfYA0HI";
   "/bVNuH7LC3pZLsp4Vj03Pnn/8c+VzxtKtI1L+X2EeclHAoSGEEOO4+/7nnlsgXi29/uI7D1OmkRZ3kSNyUW0gASF2kqN1IL8QbAd";
   "lTTNiuUSgUbdCMMDv1bfBTYw8zKcptbmFYlmkxu5eKXUzSaw35Aya11aAeURssanPAH7J6k0xXkQ0FZqKpeLuyXUhGZwIhVpIbuS";
   "WZKPzGbmyASm2pZFO1RwoGnOhJAHiWP8OZSjki75Yu4kgtYa5JAbjGU5hrQ0az2oJltKpNDRmlud+BBsmvSv6qYP889dYU+dW3JR";
   "9dqrUSHyV/I/caliYnyd+8bZLsa4Bxk/I4HWuYOimPI5vGqaSRMEtaGC2Or5a2VpPoW5hGFF2FbiC/jvcMxQWYFii8UnnVlr6zdO";
   "d3FDsu0O3tE8Yn0EeWQznz/v3mXGjZs7go7Ys/CrnD5yDnGJG+CwIvk1MHuQ5UirN6Jmds5JdK0e6cnBL9izs9YKcoVjyb3qTSdt";
   "bhy5VzviDfqTaFB3ypZWbI3MuyHm9uOOcNcXaDP+9NztvRgs1jt2o7XRYbb7do1a4TeqvNSDloR7AYCheobt4Mtjd6uZzZyphMjM";
   "0eKER8A0ZnzJ7gjBxF1N9Vn0d/xd+5QRRFYCuFS3ZNLbp2dXVLauswD13ERBA+N3Mht7V3LpOfFajqiLTPHqn9hfwS/jaMF+sf3b";
   "t2JsGTmioH6n/yDUQkuXRwYOCSpWRy6ZKBgYNLyT7/2HJv73LZ7y+L1zH/ZkdyyBPKmUI6NyX0ZaK0X8/bin7vcJxGQ5OXL4RCC5";
   "dPTl6xGIksXjFZ3Ffx+Sr7isW9Y17v2N5ScDRmdZniPbqhRN+QUdtLOayC2M1SEjaURQ+R38Q6JIkCaPGOKPbO2kdRT1oolof8PC";
   "13dV/wjiTt9uSIV746UrzRyKccTFK8JkOzzoiuJ5h0uuJjWr1WZ0JZOjkWDFaSNJ2sBINjSTpA+TIs2+enKH8fy2Z8FCLtrNbetr";
   "6/f0+3ukubE+csXtui6CPvIoaIDe/cC+bk/TwMpcS981bhHdJjk7fi3hK2fxFx4qP4yCUPbZy6cinKFyY8gZyKpAaY9CidKAcTFr";
   "JrLGAep8Juo3Nw3+jAoR3Z8PR5ef8Gp3Xj2ZXrd2eR22nr4SiL0Wnx0Zpv7/3Ywf745isnBvcMuTjOzk0OB+aHAjHfj/ZY46OhzO";
   "7xYGrXrQuVi8Y5qqcUD2+9eavPY7LdzdrDeI+YFfcZyVsIK676IMDiQ1Dhw8Dig03DoYPTRZPz3TObjcOGi6khw/RS9/w2aoS62D";
   "TyfPcl3c9OXD3xWfgHl2effRZprr4av8M2oMeJmqJAqojHgNPjGOZEj6NRRQVgjzdgDvRpVMawJxowDvB24LEnMAz3+CHfW0B34R";
   "4AQTXXzE3fjJwYXlwcFg/G52Pg6Dx/165zz9216/zBwUqlv79SGcQxaQOca+gGcUdKV6+O2Y8veILU8CLiUq06bfVyQq6LR4GnSa";
   "yLUXOCKfUUoKSOzm1jHUZOG7eU/YVxePlabqu+FS0v+5wcTYU9voGiJRqLW8cwPQfoUAZ6YsYqtyiTcFmbua6JZ/PutI1PJwIxxq";
   "r3aOJ0EToobgOkWSHKm6TjU6bzknYb7RAYG2Uz6YKMS2";
   "P1mp0hTUfEYw06tH63aDsOmO8AfVuIbpwpsRpEiTUvmxR7Nb9oUYaE1/smH7l/X9/x9P71S9nt24P//BWeLwIlyQXIZ57E82KF+3";
   "l8/2U8J/XnhAnvOtc3BlBDFxrhnW8ef1IGGl0fTm0+izTZqRhlp0f5w4NtSn2U1DLaYgwRaX8y025ldF3pHsvRp9gec0nbPaJyUl";
   "6ClPni7zLeFTea5/9xpjdoNgd7GUdGvGYcrMfDwoEIKlj0+kpBigqWfN5ikBrMhKOZTDScwfEZPYhS5Gf+1/Q/Z4t5DAZPzCZfGZ";
   "5n4EAP6t1x/A2kfM0GXGwgwLoCIn2K2IpOkinCKXbvikhKsfg0lcKdcDzbreIrUWpJq5r711RB29OjLWSHon190eFsUbwrZoeptM";
   "2WoobLOX8gmw34cx8oUhmnK0MVcyMOx0gO7lxOfNet0XSP/CpRLCaSRZwLhGp3oa+QJ3Efcc07FPwhjN7x/kwKkC9R6Cpbwu0Le/";
   "Mjee/0+HR4qyvBln2xqAQYmo4O29CfLVYfb+edzvBgvLxTvXd3C89M2VwhnzPodoaKkZGtnWftbg3QeB0IcHoe6mowjgdyUSl1FJ";
   "0xjN75NSz+YkzK3NDz1cVoH0nuHuxs6xJjeXq9vaTz05HEOtXxmxUW6/LyqGkx3aHrGG6xCOZQOW71u4tGc1owR0wVgyGUo5VSXt";
   "MDp9+Sh/AOaNOnBcDJAAdeGIJ4KG4uqS0apdqqLq3+63UPPfTQ6oMPPnjtcfLQMaf4cY/zWPW72Wzu/vtz2SyKA10jrO+/g15CvU";
   "eKleISyRxKw4+C4oxiYnht1RtsSFRP2pBAf2cX01uu1RczCGWK60IDc/HQBrpfH6JTI50nf4fQ159WDwlMnJoJRS9f6RU/aW1Tq3";
   "qVfZsKTtCTsk2X862dqnZtW35kknGIfpev/RJ/096Kv3jAKb0DLniqsaXrE6zieC1EQdQVjsfD36RH3QPbDjDpidCAv0ilWN4S7E";
   "Ff00z09k6oeYujZXlX55HzEvMFXrVnmWSoUYey+m3SpCFQbRH0J8njYr6oQgL6BNozUn2gk/zo6U24HpSfQ/z4qngvxnRFAPB54l";
   "GQrw2uX0UHcaX1KPoJUa8hAUeFcR6rvV7H2YFxTqCPNeGo34EzhXEeR1+Dq8xLh3GeqNXqOIfrdB4h5O9CdqGXyBj+/wuiCwiSO/";
   "zkkUcW4Q8xc08+OfekiIcY9BJalWs3F3qyOohW5zCNGHEQfZ+0iTSKsJzkZDd2zz3Ze+7N3gt/9zxy3zHRaY7dlzsm1pUK4DsHfI";
   "v43WYFIk1vN0VTC4MHXoigeZ6GYyc+w3Ecc/+S+GWf+IVf9b9LV88/57DeLuILIKu4B/wd4iKiFc531nW9GHiy+P+QeAwaZHAggw";
   "c0efrGG58Gepd8ZudQVBkd2vmZtbioJVlEyQhKtqCXqoMiMnoSuRrION/F3ibZUbPWkirQoG7NR7DYgdlHHpl9IDcr2T+NKPRN6C";
   "m1S/UG/g9L7Pd3HN+Zjioj6Z3kQ9XLjt144zGMyxB/Q/+JHiAMgCu9OIW4nOSyLhXDjLL2iNdj8DN5ZkT+ibKJkNluzkYEfGnMOV";
   "rFPRUnFJnibC5Wj6PV6m+flPbqetFb6BRBvfc3XTxlgP1Zj5eJ0uLnelSRM3Hq1pW1X3Z5O/WbboK5uIPMoy3k9+TdWTw/XwfYPR";
   "j2cgN2HcAexrBXG7DLyH7cM4Ed2QbscnIQfRLD3pJhwGMO6D0MsDcbsE+RTnQZ+SrATjVgj9d4tItQyLvm+Jv0I2SeqABf8GuFQL";
   "HXHNi0QH7vLunZ+eRTRFGRkJ/dfWRuqyKxKj17FMZdI43TsWmhc2HTATJfH/c0jLsbj8PP7FvnjpBP1ccBFnEU64lpih+Eh7fsmM";
   "4pc9PAd35exNkH4++H8SJOWkK6f8dFOzYBEtBZLZUAZy/ZT3wA7GAEnIYvCA1fYD/QGuN0Tpup07IuDz/1jNUs/iT7MyVNjyYqnY";
   "HOMvks8ZAij+caD21VsTK9lEiwoHfS5i61viXfmuCafpPPanQak7lPJESZM/3YlnNgk4exvcDrr0HK6tvkwxPi+gCdBon7QV6cyy";
   "qaVrvQ9Hurxem0WFyuh+GwwG9y0GUxu1xmuK1f67SeA/tk/w9pPYdv4ad8xbQ+QDqJveSrEi3t++TY4UwmLB46s1kHB+lMBkPJZC";
   "iYDNsoiqYpyibRAv2gCfy/phXq6wv1WCw9Iq0T8YBfEPyBeNhEGc1mI2XCfvLBGk9MEgqxU8wL9eRYxUtpAz1CmV2WUB+zjovSjC";
   "LW7nSYXCaotFoM+m5j2//7+FpN/oabbBUz6f8BSFy2KQAAAAEAAAABDMxOykPSXw889QAJA+gAAAAAzZeApwAAAADNl+MY/yz+nw";
   "SoA8MAAAAJAAIAAAAAAAB4AWNgZGBgvvHvPQMDy7H/Ov++s6wAiqCCjwC7IQhSAHgBbdMDjF5BFMXxM3dq27Zt27Zt23ajblRERV";
   "xGtaOaMYuotvX6f7NW8su5w7w7m88OaZjiv3uANYj+2XANtU5qbIvJMhrq/pHLGO+jLoN3KhXvcd+Yf4kEHGF9UFKOJCurhlVRGd";
   "ujQVYq+uMrqYiVV373Nfpj5VTL8qqZNVNvd1+1ybrut2q79ipruVhrwHwOtXM5o8eWh7qgevu+6m2NUD3eTzbmzHLWTqmUm61iVk";
   "/d3HvlszeMn6lAXLuLqhL6yYLvEv0NPdJPWq5M9IseB5BfYym9ZVbfjyXpL63Q325VsFGco8es+MJqFvdNz+nlkENrlyP6itfUKT";
   "1nxXcgx7FO72mF3mG11Ci81SzedQs2qpw51UIfVEYpFEnKeklqo7orqo5omJJtNTS4pFqoz9wA9xxF1QpdqVuha2KNMmqIFu4meZ";
   "PsojrBU9Xxlcj43u7c9YVv7ab+qIsxqIFKIUcpnyKNJouHPKNG4ftG0sNr7r2ocn6umjBX1S3TEFRGRdRAhUxzk6gXq2xKjgtvUR";
   "L10RRFUALtNTYaGfO9VcGXVSvfFjVVgbUqSRqHzKwlKoW6SfjfJeAmtmE11iTNHcM5KdqA+TiD61iCWZiJKUnrs5IcSHIkuCfFv5";
   "P/4wqxBAB4AS3BA9DcSgAA4DirCzb5N5fdvFfbtm3bNgb1TQe1Oaht27Zt27b9fZIkZf23pjRc2ipdl97KQC4u15fbygPl6fJy+b";
   "qiKPmVxspc5bgaVzOqNdWu6kL1vPpWI1p5LaEt1q7qVM+vL9QP6/cNZmQ3Khr9jZnGSVMz85p1zcnmTvO2+R3kBS3BRLAYrAe7wX";
   "FwGdwHryGHaWFOWBRWhHVhS9gV9oWD4Xg4HS6G6+FueBxRVBxVRvVRa9QdJdB8dBRdRHfRS/QVA+zj3nggHoun4oV4Ld6Jj+KL+C";
   "5+jb8TRBhJSbKSgiRBzsaSxzLH8sdKx6rHGsfaxzbHnltZrc7WWVuzI7uyPdZeaz90sjoVnYXOU1dx/3czunndum5Pd7X7kkqU0I";
   "y0PK1Nm9OOtDcdTqfShXQt3UkP0vP0Ln3uWV7k5fdqe2293t5un/jcT+/n9Sv67f2j/tOkqknzGWNlWXXWkLVmXdlEtpCdDEiQPs";
   "ge5A86B1ODo3Earx2fGN8ZgrB4WD2sH3YME+HocGa4NtwdXuWIM56Zl+bNeU8+mS/mJ/llfpc/5x+FIohgIrnIKgqLiqK+6CgSYq";
   "bYL86Kz1HyqGzUORoZLf117U8RJ39QAAAAAQAAAPEAVQAHAGkABQABAAAAAAAKAAACAAFzAAMAAXgBlZCzdkRhFIW/2HmG28e22c";
   "RONbbnsk2dh85eZ8We9etsDoAe7umgrbOPNibheW5nWMhm3cesP8+d7zxdPPD4PHcz2jb8PA9z2LbMBVU8GiRJ4wjFqdDUdCquak";
   "yaMnkSQiVSnAtn8TTH5ZhinEnmdFbYYpdt9jS973xufO4b+9z3nDux5LW0hrx5aRWcD+2nSjo/OLTkyIlzSZri86zpLJhaJk6RtH";
   "kyYkv2HaY1zdlZspZWvnkOV6vGMhNaga1x4lKq8qQ1JzWVpblE8qU1lezfi+sdt3yZ0hN++EWceAFswUUBwgAAAMDbVgV3htsPd3";
   "diEowEUIA7IfB9i/3zIQiDSCQhKSUtIysnr6CopKyiKlZT19DU0tbR1dM3MDQyNjE1M7ewtLK2sbWzd3B0cnZxdXP38PT6EQQP3U";
   "IoYAAA53vv2rZv/Yy8zFpm2/bJdqts27Z5MtfZtW7GPrfcsF9PvSzT2x193HTbA3fdc19fjz30yAH9LHfQM0881d8nH3wx0ACDDD";
   "HYUBsNM8JwI40yxmhjjfPceBNNMMkUk21yyHzTTDXdDJ+d9tHXSIhEqfIVKFSkWIlSZcpVyJWtUpUEW9TZLE2i40446pirrjnvgl";
   "12y4kkhx1xxVzNpcvQWFNddZenmybeyzTHPAstUC8pkiMlUiMt0iMjMiMrsq2zPnIi10znJJttTeSZ5WzkS/HHb39l+ea7k2pUq7";
   "VSMz1sjQItLPbCS0u88ta7KIyiKI6SKI2yKI+KqIyqqI6aqI26qI8G0TChTedWrf5r0eH/vt3+NTUWRgzDMAAsk2YJ43FxjzK3YV";
   "w+YJkS2/8nvHc3nWf/l65v9ovgf1OTLEwWaREQWaXP+Iax5T3IYrT6Fgfq9R/8+gaUvqEXbCCKDb3NTqRvhjMnhywO+pWmaTi4eo";
   "u0dB0o1csppDEDKKWYCZRSzAJKKWZT+kAp5TZAKWKmB5Q8pm/06UtN408LaL+90gAAAA==) format(`woff`);"];
  ["        }"];
  [];
  ["        .app {"];
  ["            font-size: 1rem;"];
  ["            line-height: 1.375rem;"];
  ["            font-weight: 400;"];
  ["            color: #3E3832;"];
  ["            font-family: 'Source Sans Pro', Arial, sans-serif;"];
  ["        }"];
  [];
  ["        .typo-innholdstittel {"];
  ["            margin: 0;"];
  ["            font-family: 'Source Sans Pro', Arial, sans-serif;"];
  ["            font-size: 1.5rem;"];
  ["            font-weight: 600;"];
  ["        }"];
  [];
  ["        @media (min-width: 30em) {"];
  ["            .typo-innholdstittel {"];
  ["                font-size: 2rem;"];
  ["                line-height: 2.25rem;"];
  ["            }"];
  ["        }"];
  [];
  ["        .typo-normal {"];
  ["            font-family: 'Source Sans Pro', Arial, sans-serif;"];
  ["            font-size: 1rem;"];
  ["            line-height: 1.375rem;"];
  ["            font-weight: 400;"];
  ["        }"];
  ["    </style>"];
  ["    <title>Innloggingsfeil | nav.no</title>"];
  ["</head>"];
  ["<body class=`app`>"];
  ["<div class=`pagewrapper`>"];
  ["    <div class=`header`>"];
  ["        <a href=`https://www.nav.no/no/Person` title=`Hjem` class=`header--link`>"];
  ["            <svg width=`84` height=`53` xmlns=`http://www.w3.org/2000/svg` viewBox=`0 0 269 169`>"];
  ["                <defs>"];
  ["                    <path id=`nav-logo-red_svg__a` d=`M22.4 43.42V.69H.57v42.73h21.85z`/>"];
  ["                </defs>"];
  ["                <g fill=`none`>"];
  ["                    <path fill=`#c30000`"];
  ["                          d=`M125.3 168.94A84.47 84.47 0 11125.34 0a84.47 84.47 0 01-.02 168.94zM0 1";
   "21.36l17.27-42.73h16.58l-17.24 42.73zm213.04 0l17.05-42.73h9.04l-17.04 42.73z`/>"];
  ["                    <g transform=`translate(246 77.94)`>"];
  ["                        <mask id=`nav-logo-red_svg__b` fill=`#fff`>"];
  ["                            <use href=`#nav-logo-red_svg__a`/>"];
  ["                        </mask>"];
  ["                        <path fill=`#c30000` d=`M.56 43.42L17.6.69h4.8L5.37 43.42z` mask=`url(#nav-l";
   "ogo-red_svg__b)`/>"];
  ["                    </g>"];
  ["                    <path fill=`#FEFEFE`"];
  ["                          d=`M197.36 78.63h-15.02s-1.03 0-1.4.91l-8.3 25.44-8.31-25.44c-.37-.91-1.4-";
   ".91-1.4-.91h-28.88c-.62 0-1.15.52-1.15 1.14v8.64c0-6.85-7.29-9.78-11.56-9.78-9.56 0-15.96 6.3-17.96 ";
   "15.87-.1-6.35-.63-8.63-2.34-10.96a11 11 0 00-3.16-2.9c-2.55-1.48-4.84-2.01-9.75-2.01h-5.77s-1.04 0-1";
   ".41.91L75.7 92.56V79.77c0-.62-.52-1.14-1.15-1.14H61.2s-1.03 0-1.4.91l-5.47 13.53s-.54 1.36.7 1.36h5.";
   "14v25.78c0 .64.5 1.15 1.14 1.15h13.24c.63 0 1.15-.5 1.15-1.15V94.43h5.16c2.96 0 3.58.08 4.74.62.69.2";
   "6 1.32.79 1.66 1.4.7 1.31.87 2.9.87 7.54v16.22c0 .64.51 1.15 1.15 1.15h12.69s1.43 0 2-1.42l2.8-6.95c";
   "3.75 5.24 9.9 8.37 17.55 8.37h1.67s1.44 0 2.02-1.42l4.9-12.13v12.4c0 .64.52 1.15 1.14 1.15H147s1.43 ";
   "0 2-1.42c0 0 5.19-12.86 5.2-12.96h.01c.2-1.07-1.15-1.07-1.15-1.07h-4.62V83.85l14.54 36.1c.57 1.4 2 1";
   ".4 2 1.4h15.3s1.44 0 2.01-1.4L198.42 80c.56-1.38-1.06-1.38-1.06-1.38zm-64.46 27.28h-8.7a6.28 6.28 0 ";
   "110-12.55h2.44a6.29 6.29 0 016.26 6.28v6.27z`/>"];
  ["                </g>"];
  ["            </svg>"];
  ["        </a>"];
  ["    </div>"];
  ["    <div class=`content`>"];
  ["        <h1 class=`typo-innholdstittel`>Det har dessverre skjedd en feil i forbindelse med innloggin";
   "g</h1>"];
  ["        <p class=`typo-normal`>"];
  ["            <a class=`navLink` href=`{{.RetryURI}}`>Trykk her for å prøve igjen.</a>"];
  ["        </p>"];
  ["        <p class=`typo-normal`>"];
  ["            <a class=`navLink` href=`https://www.nav.no`>Trykk her for å gå tilbake til nav.no.</a>"];
  ["        </p>"];
  ["        <p class=`typo-normal`>"];
  ["            Request ID: {{.CorrelationID}}"];
  ["        </p>"];
  ["    </div>"];
  ["</div>"];
  [];
  ["<footer class=`footer`>"];
  ["    <div class=`copyright`>"];
  ["        <p>Arbeids- og velferdsetaten</p>"];
  ["    </div>"];
  ["</footer>"];
  ["</body>"];
  ["</html>"]
]).

#[global] Arguments errorGoHtml : simpl never.
