(* ===== verification/Templates.v ===== *)
(** * The built-in error page: [pkg/handler/templates]

    [error.gohtml] is parsed when the program starts; [defaultErrorResponse]
    executes it with the request id and the link to try again.  Both come from
    the request, so the page must not let them out of their places: its structure
    and its other links are the template's, whatever they are. *)

From S2P Require Import Prelude GoStrings GoStrconv GoTime GoUrl GoUrlFacts GoError GoJson Http Crypter Cookie RedirectUrl Openid ErrorHandler GoHtmlTemplate ErrorGoHtml.

(** The fields of the handler's [Page], by the actions that name them. *)
Definition page_field (action : str) : option (Page -> str) :=
  if streq action $".RetryURI" then Some RetryURI
  else if streq action $".CorrelationID" then Some CorrelationID
  else None.

(** [ErrorTemplate], as [init] sets it: [None] stands for [log.Fatalf]. *)
Definition templates_ErrorTemplate : option (list (Piece Page)) := compile page_field errorGoHtml.

(** Executing it. *)
Definition error_template : ErrorTemplate :=
  fun p => match templates_ErrorTemplate with Some t => Execute t p | None => [] end.

(** The link of a page, as a user agent reads it. *)
Definition page_link (p : Page) : str := urlNormalizer (urlFilter (RetryURI p)).

(** ** Lemmas *)

(** What the proofs need of the text, as a test of the parsed template: its two
    actions, the link's attribute, the other links, and the text of the id. *)
Definition event_links (es : list Event) : list str := omap event_link (map event_decode es).

Definition id_before : str := chr 10 :: $"            Request ID: ".
Definition id_after : str := chr 10 :: $"        ".

Definition head_ok (q : ascii) (tag : str) (es : list Event) : bool :=
  beq q dquote && HasPrefix tag (rev $" href=") && HasSuffix (reverse tag) $" href="
  && bool_decide (event_links es = [$"https://www.nav.no/no/Person"; $"#nav-logo-red_svg__a"]).
Definition middle_ok (tag acc : str) (es : list Event) : bool :=
  negb (special_tag tag) && streq (reverse acc) id_before
  && bool_decide (event_links es = [$"https://www.nav.no"]).
Definition tail_ok (c : str) : bool :=
  match Cut c "<" with
  | (ws, rest, true) =>
      streq ws id_after && bool_decide (event_links (html_scan (InTag []) rest).2 = [])
  | _ => false
  end.
Definition nodes_ok (nodes : list Node) : bool :=
  match nodes with
  | [TextNode a; ActionNode f; TextNode (d :: b); ActionNode g; TextNode c] =>
      streq f $".RetryURI" && streq g $".CorrelationID" && beq d dquote && tail_ok c
      && match html_scan html_start a with
         | (InValue q tag [], es0) =>
             head_ok q tag es0
             && match html_scan (InTag tag) b with
                | (InText tag1 acc1, es1) => middle_ok tag1 acc1 es1
                | _ => false
                end
         | _ => false
         end
  | _ => false
  end.

Lemma errorGoHtml_nodes : nodes_ok <$> template_lex false errorGoHtml = Some true.
Proof. vm_compute. reflexivity. Qed.

Lemma nodes_ok_spec (nodes : list Node) :
  nodes_ok nodes = true ->
  exists a b rest tag tag1 acc1 es0 es1,
    nodes = [TextNode a; ActionNode $".RetryURI"; TextNode (dquote :: b);
             ActionNode $".CorrelationID"; TextNode (id_after ++ "<"%char :: rest)]
    /\ html_scan html_start a = (InValue dquote tag [], es0) /\ head_ok dquote tag es0 = true
    /\ html_scan (InTag tag) b = (InText tag1 acc1, es1) /\ middle_ok tag1 acc1 es1 = true
    /\ event_links (html_scan (InTag []) rest).2 = [].
Proof.
  destruct nodes as [|[a|] [|[|f] [|[[|d b]|] [|[|g] [|[c|] [|]]]]]]; try done.
  cbn [nodes_ok]. intros H. to_prop.
  match goal with H : tail_ok _ = true |- _ => rename H into Ht end. unfold tail_ok in Ht.
  pose proof (Cut_spec c "<") as Hc. destruct (Cut c "<") as [[ws rest] []]; [|done].
  destruct Hc as [-> _]. to_prop. rewrite streq_true in *. subst.
  destruct (html_scan html_start a) as [[| |q tag [|]] es0] eqn:Ha; try done. to_prop.
  destruct (html_scan (InTag tag) b) as [[tag1 acc1| |] es1] eqn:Hb; try done.
  repeat match goal with H : beq _ dquote = true |- _ => apply beq_true in H as -> end.
  assert (q = dquote) as ->.
  { match goal with H : head_ok _ _ _ = true |- _ => unfold head_ok in H end. to_prop. by apply beq_true. }
  eauto 20.
Qed.

Section Reading.
Variables (a b rest tag tag1 acc1 : str) (es0 es1 : list Event).
Hypothesis Ha : html_scan html_start a = (InValue dquote tag [], es0).
Hypothesis Hhead : head_ok dquote tag es0 = true.
Hypothesis Hb : html_scan (InTag tag) b = (InText tag1 acc1, es1).
Hypothesis Hmiddle : middle_ok tag1 acc1 es1 = true.
Hypothesis Hrest : event_links (html_scan (InTag []) rest).2 = [].

#[local] Definition read_nodes : list Node :=
  [TextNode a; ActionNode $".RetryURI"; TextNode (dquote :: b);
   ActionNode $".CorrelationID"; TextNode (id_after ++ "<"%char :: rest)].

Lemma read_pieces :
  escapeTree page_field html_start read_nodes
  = Some [Lit a; HrefUrl RetryURI; Lit (dquote :: b); HtmlText CorrelationID;
          Lit (id_after ++ "<"%char :: rest)].
Proof.
  unfold head_ok, middle_ok in *. to_prop. unfold read_nodes. cbn [escapeTree].
  rewrite Ha. cbn [fst]. change (page_field $".RetryURI") with (Some RetryURI).
  cbn [mbind option_bind escaper_at]. rewrite beq_refl.
  match goal with H : HasPrefix _ _ = true |- _ => rewrite H end. cbn [andb mbind option_bind after_action].
  cbn [html_scan html_step]. rewrite beq_refl, Hb. cbn [fst].
  change (page_field $".CorrelationID") with (Some CorrelationID).
  cbn [mbind option_bind escaper_at].
  by match goal with H : special_tag _ = false |- _ => rewrite H end.
Qed.

(** The events of the page: the template's, around the two values. *)
Lemma read_events (p : Page) :
  page_events (Execute [Lit a; HrefUrl RetryURI; Lit (dquote :: b); HtmlText CorrelationID;
                        Lit (id_after ++ "<"%char :: rest)] p)
  = map event_decode es0 ++ [EValue (reverse tag) (page_link p)]
    ++ map event_decode es1 ++ [EText tag1 (id_before ++ shown (CorrelationID p) ++ id_after)]
    ++ map event_decode (html_scan (InTag []) rest).2.
Proof.
  unfold head_ok, middle_ok in *. to_prop. unfold page_events, Execute.
  cbn [map piece_output concat]. rewrite app_nil_r, html_scan_app, Ha. cbn [fst snd].
  rewrite html_scan_app, html_scan_value by apply htmlEscaper_safe. cbn [fst snd app].
  cbn [html_scan html_step]. rewrite beq_refl, html_scan_app, Hb. cbn [fst snd].
  rewrite html_scan_app, html_scan_text by apply htmlEscaper_safe. cbn [fst snd app].
  rewrite html_scan_app, html_scan_text by reflexivity. cbn [fst snd app html_scan html_step].
  change (beq "<" "<") with true. cbn match.
  destruct (html_scan (InTag []) rest) as [st es2]. cbn [fst snd].
  rewrite !map_app. cbn [map event_decode app]. rewrite !app_nil_r. f_equal. f_equal.
  - rewrite reverse_involutive. f_equal. unfold attrEscaper.
    rewrite <- (app_nil_r (htmlEscaper _)), html_decode_escaped, shown_normalized. apply app_nil_r.
  - rewrite map_app. cbn [map event_decode]. f_equal. f_equal. f_equal. rewrite streq_true in *.
    rewrite !reverse_app, !reverse_involutive, <- app_assoc, H1.
    rewrite html_decode_literal by reflexivity. f_equal. apply html_decode_escaped.
Qed.

Lemma read_links (p : Page) (es : list Event) :
  es = map event_decode es0 ++ [EValue (reverse tag) (page_link p)]
    ++ map event_decode es1 ++ [EText tag1 (id_before ++ shown (CorrelationID p) ++ id_after)]
    ++ map event_decode (html_scan (InTag []) rest).2 ->
  omap event_link es = [$"https://www.nav.no/no/Person"; $"#nav-logo-red_svg__a";
                        page_link p; $"https://www.nav.no"].
Proof.
  intros ->. unfold head_ok, middle_ok, event_links in *. to_prop.
  rewrite !omap_app. cbn [omap list_omap event_link].
  match goal with H : HasSuffix _ _ = true |- _ => rewrite H end.
  by rewrite H3, H0, Hrest.
Qed.
End Reading.

Lemma text_among (tag x : str) (es es1 es2 : list Event) (e : Event) :
  x ∈ omap event_text (es ++ [e] ++ es1 ++ [EText tag x] ++ es2).
Proof.
  rewrite !omap_app. apply elem_of_app. right. apply elem_of_app. right.
  apply elem_of_app. right. apply elem_of_app. left. by apply list_elem_of_singleton.
Qed.

(** The page in the user agent. *)
Lemma error_template_events :
  exists before between after tag tag1, forall p : Page,
    let es := page_events (error_template p) in
    es = before ++ [EValue tag (page_link p)] ++ between
         ++ [EText tag1 (id_before ++ shown (CorrelationID p) ++ id_after)] ++ after
    /\ omap event_link es = [$"https://www.nav.no/no/Person"; $"#nav-logo-red_svg__a";
                             page_link p; $"https://www.nav.no"].
Proof.
  pose proof errorGoHtml_nodes as H. unfold error_template, templates_ErrorTemplate, compile.
  destruct (template_lex false errorGoHtml) as [nodes|]; [|done]. injection H as H.
  destruct (nodes_ok_spec nodes H) as (a & b & rest & tag & tag1 & acc1 & es0 & es1 & -> & Ha & Hh & Hb & Hm & Hr).
  cbn [mbind option_bind]. fold (read_nodes a b rest).
  rewrite (read_pieces _ _ _ _ _ _ _ _ Ha Hh Hb Hm).
  do 5 eexists. intros p. pose proof (read_events _ _ rest _ _ _ _ _ Ha Hh Hb Hm Hr p) as He.
  split; [exact He|]. exact (read_links _ _ _ _ _ _ Hh Hm Hr p _ He).
Qed.

(** The link of an application: what [Retry] gives is shown unchanged. *)
Lemma normalized_LoginURL (prefix t : str) :
  prefix = [] \/ HasPrefix prefix $"/" = true ->
  HasPrefix (LoginURL prefix t) $"/" = true
  /\ urlNormalizer (LoginURL prefix t) = LoginURL prefix t.
Proof.
  intros Hpre. destruct (LoginURL_form prefix t) as (p & Hp & Hform).
  destruct (PathJoin_rooted prefix $"oauth2" [PathLogin] Hpre) as (s & Hs & _).
  change ("/"%char :: $"oauth2") with OAuth2 in Hs. rewrite Hs in Hp. subst p.
  rewrite Hform by done. split; [by rewrite escape_cons|].
  unfold encode_pair. rewrite normalized_escape by auto. f_equal. cbn [urlNormalizer].
  change (url_kept "?" ?t) with true. cbn [app]. f_equal.
  unfold QueryEscape. rewrite normalized_escape by auto. f_equal. cbn [urlNormalizer].
  change (url_kept "=" ?t) with true. cbn [app]. f_equal.
  rewrite <- (app_nil_r (escape _ _)) at 1. rewrite normalized_escape by auto. apply app_nil_r.
Qed.

(** A login link is the page's link as it is. *)
Lemma page_link_login {Src : ErrorSource} (r : Request) (lc : option LoginCookie) (id : str) :
  GetPath r = [] \/ HasPrefix (GetPath r) $"/" = true ->
  HasSuffix (Path (rq_URL r)) (OAuth2 ++ PathLogout) = false ->
  HasSuffix (Path (rq_URL r)) (OAuth2 ++ PathLogoutFrontChannel) = false ->
  page_link {| CorrelationID := id; RetryURI := Handler_Retry r lc |} = Handler_Retry r lc.
Proof.
  intros Hpath E1 E2. unfold page_link, Handler_Retry. cbn [RetryURI]. rewrite E1, E2. cbn [orb].
  destruct (normalized_LoginURL (GetPath r)
    (match lc with
     | Some c => if is_empty (lc_Referer c) then CanonicalRedirect r else lc_Referer c
     | None => CanonicalRedirect r end) Hpath) as [Hp Hn].
  by rewrite urlFilter_rooted.
Qed.

(** What the error handler gets from its template. *)
Definition page_reads (T : Page -> str) : Prop :=
  forall p, page_links (T p)
            = [$"https://www.nav.no/no/Person"; $"#nav-logo-red_svg__a"; page_link p; $"https://www.nav.no"]
         /\ (id_before ++ shown (CorrelationID p) ++ id_after) ∈ page_texts (T p).

Lemma error_template_reads : page_reads error_template.
Proof.
  destruct error_template_events as (before & between & after & tag & tag1 & H).
  intros p. destruct (H p) as [Hes Hlinks]. split; [exact Hlinks|].
  unfold page_texts. rewrite Hes. apply text_among.
Qed.

Lemma final_page (T : ErrorTemplate) {A : AEAD} {Src : ErrorSource} {E : Env} {S : Type}
    (r : Request) (code : Z) (w : World S) :
  page_reads T -> auto_retries r = false ->
  (if is_empty GetErrorPath then None else Parse GetErrorPath) = None ->
  let rw := (respondError r code new_response w).1 in
  rw_Status rw = Some code
  /\ page_links (rw_Body rw)
     = [$"https://www.nav.no/no/Person"; $"#nav-logo-red_svg__a";
        page_link {| CorrelationID := GetReqID r; RetryURI := Handler_Retry r (login_cookie_or_nil r) |};
        $"https://www.nav.no"]
  /\ (id_before ++ shown (GetReqID r) ++ id_after) ∈ page_texts (rw_Body rw).
Proof.
  intros HT Hlast Hpage rw.
  destruct (respondError_run r code new_response w eq_refl) as (rw1 & H1 & Hrw).
  destruct (increment_spec r (GetCookieOptsPathAware r) new_response w eq_refl) as (Hs & _ & Hb & _).
  rewrite H1 in Hs, Hb. rewrite Hlast in Hrw. fold rw in Hrw.
  destruct (final_response_spec r code rw1 Hs) as [_ Hf].
  rewrite Hpage in Hf. destruct Hf as (Hst & _ & Hbody).
  rewrite <- Hrw in Hst, Hbody. rewrite Hb in Hbody. cbn [app rw_Body new_response] in Hbody.
  clearbody rw. rewrite Hbody. split; [exact Hst|]. exact (HT _).
Qed.

(** ** Properties *)


(** The last answer to a request that keeps failing, without a configured
    error page: its status, and a page on which the user agent finds the request
    id and a link to try again.  The link leads where the automatic retries did:
    to the login of the application, with the page the user came for as its
    redirect target; after a logout, to the logout itself. *)
Theorem error_page_retries {A : AEAD} {Src : ErrorSource} {E : Env} {S : Type}
    (r : Request) (code : Z) (w : World S)
  (Hpath : GetPath r = [] \/ HasPrefix (GetPath r) $"/" = true)
  (Hrooted : HasPrefix (Path (rq_URL r)) $"/" = true)
  (Hlast : auto_retries r = false)
  (Hpage : (if is_empty GetErrorPath then None else Parse GetErrorPath) = None) :
  let rw := (respondError (T := error_template) r code new_response w).1 in
  rw_Status rw = Some code
  /\ (id_before ++ shown (GetReqID r) ++ id_after) ∈ page_texts (rw_Body rw)
  /\ exists link,
    page_links (rw_Body rw)
    = [$"https://www.nav.no/no/Person"; $"#nav-logo-red_svg__a"; link; $"https://www.nav.no"]
    /\ if HasSuffix (Path (rq_URL r)) (OAuth2 ++ PathLogout)
          || HasSuffix (Path (rq_URL r)) (OAuth2 ++ PathLogoutFrontChannel)
       then pct_decode link = pct_decode (Path (rq_URL r))
       else exists u, Parse link = Some u /\ Scheme u = [] /\ Host u = []
            /\ Path u = PathJoin [GetPath r; OAuth2; PathLogin]
            /\ RedirectDecoded (request_at u None) =
                 match login_cookie_or_nil r with
                 | Some c => if is_empty (lc_Referer c) then CanonicalRedirect r else lc_Referer c
                 | None => CanonicalRedirect r
                 end.
Proof.
  intros rw.
  destruct (final_page error_template r code w error_template_reads Hlast Hpage)
    as (Hst & Hlinks & Htext). fold rw in Hst, Hlinks, Htext. clearbody rw.
  split; [exact Hst|]. split; [exact Htext|]. eexists. split; [exact Hlinks|].
  destruct (HasSuffix _ _ || _) eqn:El.
  - unfold page_link, Handler_Retry. cbn [RetryURI]. rewrite El, urlFilter_rooted by done.
    apply pct_decode_normalized.
  - apply orb_false_iff in El as [E1 E2]. rewrite page_link_login by done.
    destruct (Handler_Retry_login r (login_cookie_or_nil r) Hpath E1 E2) as (u & Hu & Hsc & Hho & Hpa & Hd).
    exists u. eauto.
Qed.

(** ** Concrete runs *)

(** Hostile values stay in their places: a script in the request id is text, a
    quote does not end the attribute, a script URL is not a link. *)
Definition hostile_page : Page :=
  {| CorrelationID := $"<script>alert('x')</script>"; RetryURI := $"javascript:alert(1)" |}.
Definition quoting_page : Page :=
  {| CorrelationID := $"a&b+c"; RetryURI := dquote :: $"><img src=x onerror=y>" |}.

Example hostile_page_links :
  page_links (error_template hostile_page) !! 2 = Some $"#ZgotmplZ"
  /\ page_links (error_template quoting_page) !! 2 = Some $"%22%3e%3cimg%20src=x%20onerror=y%3e"
  /\ bool_decide ((id_before ++ CorrelationID hostile_page ++ id_after)
                  ∈ page_texts (error_template hostile_page)) = true.
Proof. vm_compute. done. Qed.

(** The fourth failure of the example of the error handler. *)
Lemma error_page_retries_witness :
  let r := with_retry_cookie (Some $"3") example_failing in
  let rw := (respondError (A := toy_AEAD) (T := error_template) (Src := example_source [])
               (E := toy_env unix_epoch) r 500%Z new_response toy_world).1 in
  auto_retries r = false /\ rw_Status rw = Some 500%Z.
Proof.
  destruct (error_page_retries (A := toy_AEAD) (Src := example_source []) (E := toy_env unix_epoch)
    (with_retry_cookie (Some $"3") example_failing) 500%Z toy_world
    ltac:(right; vm_compute; reflexivity) ltac:(vm_compute; reflexivity)
    ltac:(vm_compute; reflexivity) ltac:(vm_compute; reflexivity)) as [H _].
  split; [vm_compute; reflexivity|exact H].
Defined.
