(* ===== verification/AutoLogin.v ===== *)
(** * Automatic login: [pkg/handler/autologin/autologin.go]

    Unauthenticated GET requests are sent to the login endpoint, except for
    paths that match an ignore pattern.  The glob library is a parameter; what
    is used of it is that a pattern without meta characters matches itself. *)

From S2P Require Import Prelude GoStrings GoUrl GoError Config Http.

(** [doublestar.Match]: the first result; it is false when the pattern is bad. *)
Class Doublestar := doublestar_Match : str -> str -> bool.

Definition glob_meta (c : ascii) : bool := Contains $"*?[]{}\" c.
Class DoublestarLaws `{D : Doublestar} : Prop :=
  match_literal : forall p s, existsb glob_meta p = false -> doublestar_Match p s = streq p s.

Definition DefaultIgnorePatterns : list str := [$"/favicon.ico"; $"/robots.txt"].

Record AutoLogin := { al_Enabled : bool; IgnorePatterns : list str }.

(** [if path != "/" { path = strings.TrimSuffix(path, "/") }] *)
Definition trim_slash (path : str) : str :=
  if streq path $"/" then path else TrimSuffix path $"/".

(** One round of the loop of [New]; [seen] holds exactly the patterns so far. *)
Definition add_pattern (patterns : list str) (path : str) : list str :=
  if is_empty path then patterns
  else
    let p := trim_slash path in
    if existsb (streq p) patterns then patterns else patterns ++ [p].

(** [New] *)
Definition NewAutoLogin (cfg : Config) : AutoLogin :=
  {| al_Enabled := cfg_AutoLogin cfg;
     IgnorePatterns :=
       fold_left add_pattern (DefaultIgnorePatterns ++ cfg_AutoLoginIgnorePaths cfg) [] |}.

(** The request path as the patterns are matched with it. *)
Definition match_path (r : Request) : str :=
  let path := Path (rq_URL r) in
  trim_slash (if HasPrefix path $"/" then path else "/"%char :: path).

(** [NeedsLogin] *)
Definition AutoLoginNeedsLogin {D : Doublestar} (a : AutoLogin) (r : Request)
    (isAuthenticated : bool) : bool :=
  if isAuthenticated || negb (al_Enabled a) || negb (streq (rq_Method r) MethodGet) then false
  else negb (existsb (fun pattern => doublestar_Match pattern (match_path r)) (IgnorePatterns a)).

(** ** Lemmas *)

Lemma existsb_streq (p : str) (l : list str) : existsb (streq p) l = true <-> p ∈ l.
Proof.
  rewrite existsb_exists. split.
  - intros (q & Hq & ->%streq_true). by apply list_elem_of_In.
  - intros Hp. exists p. split; [by apply list_elem_of_In|by apply streq_true].
Qed.

Lemma add_patterns_spec (paths acc : list str) :
  NoDup acc ->
  NoDup (fold_left add_pattern paths acc)
  /\ forall p, p ∈ fold_left add_pattern paths acc <->
       p ∈ acc \/ exists raw, raw ∈ paths /\ raw <> [] /\ p = trim_slash raw.
Proof.
  revert acc. induction paths as [|raw paths IH]; intros acc Hacc; cbn [fold_left].
  { split; [done|]. intros p. split; [by left|]. intros [H|(raw & H & _)]; [done|].
    by apply elem_of_nil in H. }
  assert (Hstep : NoDup (add_pattern acc raw)
    /\ forall p, p ∈ add_pattern acc raw <-> p ∈ acc \/ (raw <> [] /\ p = trim_slash raw)).
  { unfold add_pattern. destruct (is_empty raw) eqn:Ee.
    - apply is_empty_true in Ee. split; [done|]. intros p. split; [by left|]. by intros [H|[H _]].
    - apply is_empty_false in Ee. destruct (existsb _ acc) eqn:Ex.
      + apply existsb_streq in Ex. split; [done|]. intros p. split; [by left|].
        by intros [H|[_ ->]].
      + split.
        * apply NoDup_app. split; [done|]. split; [|apply NoDup_singleton].
          intros q Hq ->%list_elem_of_singleton. apply existsb_streq in Hq. congruence.
        * intros p. rewrite elem_of_app, list_elem_of_singleton.
          split; (intros [H|H]; [by left|right]); [done|apply H]. }
  destruct Hstep as [Hnd Hin]. destruct (IH _ Hnd) as [H1 H2]. split; [exact H1|].
  intros p. rewrite H2, Hin. split.
  - intros [[H|[H ->]]|(q & H & ? & ?)]; [by left| |].
    + right. exists raw. split; [by apply elem_of_cons; left|done].
    + right. exists q. split; [by apply elem_of_cons; right|done].
  - intros [H|(q & Hq & Hne & ->)]; [by left; left|].
    apply elem_of_cons in Hq as [->|Hq]; [by left; right|]. right. by exists q.
Qed.

Lemma existsb_false_iff {X} (f : X -> bool) (l : list X) :
  existsb f l = false <-> forall x, x ∈ l -> f x = false.
Proof.
  induction l as [|a l IH]; cbn; [split; [intros _ x H; by apply elem_of_nil in H|done]|].
  rewrite orb_false_iff, IH. split.
  - intros [Ha Hl] x [->|Hx]%elem_of_cons; auto.
  - intros H. split; [apply H; by left|]. intros x Hx. apply H. by right.
Qed.

(** ** Properties *)

(** C38: The ignore patterns are, without duplicates, the two defaults and the
    configured ones less a trailing slash; auto-login acts exactly on
    unauthenticated GET requests whose path, rooted and less a trailing slash,
    matches none of them, so a configured literal path is never sent to login. *)
Theorem autologin_spec {D : Doublestar} (HD : DoublestarLaws) (cfg : Config) :
  let a := NewAutoLogin cfg in
  let configured p := exists raw, raw ∈ DefaultIgnorePatterns ++ cfg_AutoLoginIgnorePaths cfg
                        /\ raw <> [] /\ p = trim_slash raw in
  NoDup (IgnorePatterns a)
  /\ (forall p, p ∈ IgnorePatterns a <-> configured p)
  /\ (forall r authenticated, AutoLoginNeedsLogin a r authenticated = true <->
        authenticated = false /\ cfg_AutoLogin cfg = true /\ rq_Method r = MethodGet
        /\ forall p, configured p -> doublestar_Match p (match_path r) = false)
  /\ (forall r authenticated, configured (match_path r) ->
        existsb glob_meta (match_path r) = false ->
        AutoLoginNeedsLogin a r authenticated = false).
Proof.
  intros a configured.
  destruct (add_patterns_spec (DefaultIgnorePatterns ++ cfg_AutoLoginIgnorePaths cfg) []
              ltac:(constructor)) as [Hnd Hin].
  assert (Hc : forall p, p ∈ IgnorePatterns a <-> configured p).
  { intros p. unfold a, NewAutoLogin. cbn [IgnorePatterns]. rewrite Hin.
    split; [|by right]. intros [H|H]; [by apply elem_of_nil in H|done]. }
  assert (Hn : forall r b, AutoLoginNeedsLogin a r b = true <->
        b = false /\ cfg_AutoLogin cfg = true /\ rq_Method r = MethodGet
        /\ forall p, configured p -> doublestar_Match p (match_path r) = false).
  { intros r b. unfold AutoLoginNeedsLogin. change (al_Enabled a) with (cfg_AutoLogin cfg).
    destruct b; [split; [done|by intros []]|]. cbn [orb].
    destruct (cfg_AutoLogin cfg); cbn [negb orb]; [|split; [done|by intros (_ & ? & _)]].
    destruct (streq (rq_Method r) MethodGet) eqn:Em; cbn [negb].
    - apply streq_true in Em. rewrite negb_true_iff, existsb_false_iff.
      split; [|intros (_ & _ & _ & H) p Hp; by apply H, Hc].
      intros H. repeat (split; [done|]). intros p Hp. by apply H, Hc.
    - apply streq_false in Em. split; [done|]. by intros (_ & _ & H & _). }
  split; [exact Hnd|]. split; [exact Hc|]. split; [exact Hn|].
  intros r b Hp Hm. destruct (AutoLoginNeedsLogin a r b) eqn:E; [|done].
  apply Hn in E as (_ & _ & _ & H). specialize (H _ Hp).
  rewrite match_literal, streq_refl in H by done. done.
Qed.

(** A glob library that knows literals only. *)
#[local] Instance toy_doublestar : Doublestar := streq.
#[local] Instance toy_doublestar_laws : DoublestarLaws.
Proof. by intros p s _. Qed.

Definition example_autologin (paths : list str) : Config :=
  {| cfg_BindAddress := $"127.0.0.1:3000"; cfg_LogFormat := $"json"; cfg_LogLevel := $"info";
     cfg_MetricsBindAddress := $"127.0.0.1:3001"; cfg_AutoLogin := true; cfg_AutoLoginIgnorePaths := paths; cfg_EncryptionKey := [];
     cfg_ErrorPath := []; cfg_Ingresses := [$"https://app.example.com/app"];
     cfg_Session := {| Inactivity := false; InactivityTimeout := 0%Z; MaxLifetime := 3600%Z;
                       Refresh := false |};
     cfg_UpstreamHost := $"localhost:8080"; cfg_OpenID := example_openid;
     cfg_Redis := {| rd_Address := []; rd_Username := []; rd_Password := []; rd_TLS := false |};
     cfg_Loginstatus := {| ls_Enabled := false; ls_CookieDomain := []; ls_CookieName := [];
                           ls_ResourceIndicator := []; ls_TokenURL := [] |} |}.

Example example_patterns :
  IgnorePatterns (NewAutoLogin (example_autologin [$"/a/"; $"/a"; $""; $"/"; $"/robots.txt"]))
  = [$"/favicon.ico"; $"/robots.txt"; $"/a"; $"/"].
Proof. vm_compute. reflexivity. Qed.

Definition ignored_request : Request :=
  mkRequest MethodGet HTTP11 (URL_with_path empty_URL $"/internal/" []) $"app.example.com" ∅ []
    None None None None.

Lemma autologin_spec_witness :
  AutoLoginNeedsLogin (NewAutoLogin (example_autologin [$"/internal"])) ignored_request false = false.
Proof.
  destruct (autologin_spec (D := toy_doublestar) toy_doublestar_laws
              (example_autologin [$"/internal"])) as (_ & _ & _ & H).
  apply H.
  - exists $"/internal". split; [vm_compute; by right; right; left|].
    split; [discriminate|vm_compute; reflexivity].
  - vm_compute. reflexivity.
Defined.
