(* ===== verification/AppState.v ===== *)
(** * The state of the process: the session store beside the key set's clock

    The handlers share one world.  Its store component is what the process
    mutates: the sessions, and the time of the last refresh of the provider's
    keys.  A store of sessions is lifted to it, with its laws. *)

From S2P Require Import Prelude GoTime GoError Config Crypter Openid SessionData Store Jwks.

Section Lift.
Context {A B : Type}.

(** The world a store operation sees. *)
Definition inner (w : World (A * B)) : World A := mkWorld (w_tick w) (w_store w).1 (w_trace w).
Definition outer (b : B) (w : World A) : World (A * B) :=
  mkWorld (w_tick w) (w_store w, b) (w_trace w).
Definition lift {X} (m : M A X) : M (A * B) X :=
  fun w => let '(x, w') := m (inner w) in (x, outer (w_store w).2 w').

Lemma lift_run {X} (m : M A X) (w : World (A * B)) :
  lift m w = ((m (inner w)).1, outer (w_store w).2 (m (inner w)).2).
Proof. unfold lift. by destruct (m (inner w)). Qed.

Lemma lift_eq {X} (m : M A X) (w w' : World (A * B)) (x : X) :
  lift m w = (x, w') -> m (inner w) = (x, inner w').
Proof. rewrite lift_run. intros [= <- <-]. by destruct (m (inner w)) as [y [? ? ?]]. Qed.
End Lift.

#[export] Instance lifted_store {A B : Type} `{St : Store A} : Store (A * B) := {|
  Lock := Lock (S := A);
  store_Write k v d := lift (store_Write k v d);
  store_Read k := lift (store_Read k);
  store_Delete ks := lift (store_Delete ks);
  store_Update k v := lift (store_Update k v);
  MakeLock k := MakeLock (S := A) k;
  Lock_Acquire l d := lift (Lock_Acquire (S := A) l d);
  Lock_Release l := lift (Lock_Release (S := A) l) |}.

Lemma lifted_lock {A B : Type} `{St : Store A} (k : str) (l : Lock (S := A * B)) :
  lock_for (S := A * B) k l -> lock_for (S := A) k l.
Proof.
  induction 1 as [|l d w _ IH]; [exact (lock_made (S := A) k)|].
  cbn [Lock_Acquire lifted_store]. rewrite lift_run. cbn [fst].
  exact (lock_tried (S := A) k l d (inner w) IH).
Qed.

#[export] Instance lifted_laws {A B : Type} `{St : Store A} {view : A -> gmap str EncryptedData}
    (L : StoreLaws A view) : StoreLaws (A * B) (fun s => view s.1).
Proof.
  split.
  - intros w. destruct (store_steps (inner w)) as (H1 & H2 & H3 & H4 & H5 & H6).
    repeat split; cbn [store_Write store_Read store_Delete store_Update Lock_Acquire Lock_Release
      lifted_store]; rewrite lift_run; cbn [snd outer w_trace w_tick].
    all: first [apply H1|apply H2|apply H3|apply H4|apply H5|apply H6].
  - intros w w' k v H%lift_eq. by apply read_Ok in H.
  - intros w w' k e H%lift_eq He. exact (read_missing _ _ _ _ H He).
  - intros w k. cbn [store_Read lifted_store]. rewrite lift_run. apply (read_view (inner w)).
  - intros w w' r k v d Ht H%lift_eq. exact (write_view _ _ _ _ _ _ Ht H).
  - intros w w' r k v Ht H%lift_eq. exact (update_view _ _ _ _ _ Ht H).
  - intros w w' r ks H%lift_eq. exact (delete_view _ _ _ _ H).
  - intros w key l d k v Hl%lifted_lock Hk. cbn [Lock_Acquire Lock_Release lifted_store].
    rewrite !lift_run. exact (lock_view (inner w) key l d k v Hl Hk).
Qed.

#[export] Instance clock_state {A : Type} : JwksState (A * Time) := {|
  lastRefresh s := s.2;
  set_lastRefresh t s := (s.1, t) |}.
#[export] Instance clock_state_laws {A : Type} : JwksStateLaws (A * Time).
Proof. done. Qed.

(** The requests for fresh keys leave the sessions alone. *)
Class JwksFrame (S : Type) `{!JwksState S} (view : S -> gmap str EncryptedData) : Prop :=
  set_lastRefresh_view : forall t s, view (set_lastRefresh t s) = view s.
#[export] Instance clock_frame {A : Type} (view : A -> gmap str EncryptedData) :
  JwksFrame (A * Time) (fun s => view s.1).
Proof. done. Qed.
