(* ===== verification/Standard.v ===== *)
(** * The application: [pkg/handler/handler.go], [pkg/handler/handler_standard.go]

    [StandardHandler] bundles the components; it is the [Source] interface the
    routes and the error handler are written against. *)

From S2P Require Import Prelude GoStrings GoTime GoUrl GoError GoRfc3339 GoJson Config Http Crypter Cookie Ingress RedirectUrl Openid Loginstatus OpenidClient SessionData Store SessionHandler ErrorHandler AutoLogin.

Record StandardHandler (Key : Type) := {
  sh_autoLogin : AutoLogin;
  sh_client : OClient Key;
  sh_config : Config;
  sh_cookieOptions : Options;
  sh_crypter : str;
  sh_ingresses : Ingresses;
  sh_loginstatus : LoginstatusConfig;
  sh_openidConfig : OpenidCfg Key;
  sh_sessions : SessionHandler.Handler Key;
  sh_upstreamHost : str }.
Arguments sh_autoLogin {Key}.
Arguments sh_client {Key}.
Arguments sh_config {Key}.
Arguments sh_cookieOptions {Key}.
Arguments sh_crypter {Key}.
Arguments sh_ingresses {Key}.
Arguments sh_loginstatus {Key}.
Arguments sh_openidConfig {Key}.
Arguments sh_sessions {Key}.
Arguments sh_upstreamHost {Key}.

(** [session.NewHandler]: the choice of the store can fail. *)
Definition NewSessionHandler {Key} (cfg : Config) (client : OClient Key) (crypter : str)
    (ping : RedisOptions -> result unit) : result (SessionHandler.Handler Key * StoreChoice) :=
  store ← NewStore cfg ping;
  Ok ({| h_cfg := cfg_Session cfg; h_client := client; h_crypter := crypter |}, store).

(** [client.NewClient] *)
Definition NewClient {Key} (openidConfig : OpenidCfg Key) (loginstatus : LoginstatusConfig)
    : OClient Key :=
  {| oc_cfg := openidConfig; oc_loginstatus := loginstatus |}.

(** [NewHandler]; [autologin.New] never fails. *)
Definition NewHandler {O : MapOrder} {Key} (cfg : Config) (cookieOpts : Options)
    (openidConfig : OpenidCfg Key) (crypter : str) (ping : RedisOptions -> result unit)
    : result (StandardHandler Key * StoreChoice) :=
  let autoLogin := NewAutoLogin cfg in
  let openidClient := NewClient openidConfig (cfg_Loginstatus cfg) in
  '(sessionHandler, store) ← NewSessionHandler cfg openidClient crypter ping;
  ingresses ← ParseIngresses cfg;
  Ok ({| sh_autoLogin := autoLogin; sh_client := openidClient; sh_config := cfg;
         sh_cookieOptions := cookieOpts; sh_crypter := crypter; sh_ingresses := ingresses;
         sh_loginstatus := cfg_Loginstatus cfg; sh_openidConfig := openidConfig;
         sh_sessions := sessionHandler; sh_upstreamHost := cfg_UpstreamHost cfg |}, store).

Section Standard.
Context {Key : Type} (s : StandardHandler Key).

(** [GetPath]: the context path, else the matching ingress path. *)
Definition Standard_GetPath (r : Request) : str :=
  match PathFrom r with
  | Some path => path
  | None => MatchingPath (sh_ingresses s) r
  end.

(** [GetCookieOptsPathAware] *)
Definition Standard_GetCookieOptsPathAware (r : Request) : Options :=
  WithCookiePath (sh_cookieOptions s) (Standard_GetPath r).

(** [GetErrorHandler]: the handler as the [Source] of the error handler. *)
Definition GetErrorHandler : ErrorSource := {|
  GetCookieOptsPathAware := Standard_GetCookieOptsPathAware;
  GetCrypter := sh_crypter s;
  GetErrorPath := cfg_ErrorPath (sh_config s);
  GetPath := Standard_GetPath |}.

(** What [NewHandler] establishes: the components share configuration and key. *)
Definition standard_wf : Prop :=
  oc_cfg (sh_client s) = sh_openidConfig s
  /\ oc_loginstatus (sh_client s) = sh_loginstatus s
  /\ h_client (sh_sessions s) = sh_client s
  /\ h_crypter (sh_sessions s) = sh_crypter s
  /\ h_cfg (sh_sessions s) = cfg_Session (sh_config s).
End Standard.

(** ** Lemmas *)

Lemma NewHandler_wf {O : MapOrder} {Key} (cfg : Config) (o : Options) (oidc : OpenidCfg Key)
    (key : str) (ping : RedisOptions -> result unit) (s : StandardHandler Key) (st : StoreChoice) :
  NewHandler cfg o oidc key ping = Ok (s, st) ->
  standard_wf s /\ ParseIngresses cfg = Ok (sh_ingresses s) /\ sh_config s = cfg
  /\ sh_crypter s = key /\ sh_autoLogin s = NewAutoLogin cfg
  /\ (st = UseMemory <-> rd_Address (cfg_Redis cfg) = [])
  /\ sh_cookieOptions s = o /\ sh_openidConfig s = oidc.
Proof.
  unfold NewHandler, NewSessionHandler, NewStore.
  destruct (is_empty (rd_Address _)) eqn:Ee; cbn [mbind result_bind].
  - apply is_empty_true in Ee. destruct (ParseIngresses cfg) as [i|]; [|done]. cbn.
    intros [= <- <-]. split; [done|]. by repeat split.
  - apply is_empty_false in Ee. destruct (ping _) as [[]|]; [|done]. cbn.
    destruct (ParseIngresses cfg) as [i|]; [|done]. cbn.
    intros [= <- <-]. split; [done|]. by repeat split.
Qed.
