(* ===== verification/Example.v ===== *)
(** * A concrete application, for the witnesses of the routes

    One ingress, the in-memory store, login status enabled, and libraries that
    are simple enough to evaluate. *)

From S2P Require Import Prelude GoStrings GoTime GoUrl GoError GoRfc3339 GoJson Config Http Crypter Cookie Ingress RedirectUrl Openid Jwks Loginstatus OpenidClient SessionData Store Retry SessionHandler ErrorHandler Templates AutoLogin AppState Standard.

Module Example.

(** The state of the process: the sessions and the time of the last key refresh. *)
Definition AppStore : Type := Memory.memorySessionStore * Time.

#[export] Existing Instance toy_AEAD.
#[export] Existing Instance toy_AEAD_laws.
#[export] Existing Instance toy_jwt.
#[export] Existing Instance toy_jwt_laws.
#[export] Existing Instance toy_oauth2.
#[export] Existing Instance toy_cache.
#[export] Existing Instance Memory.memory_store.
#[export] Existing Instance Memory.memory_laws.
Lemma app_laws : StoreLaws AppStore (fun s => s.1).
Proof. exact (lifted_laws Memory.memory_laws). Qed.
#[export] Instance app_retry : Retry AppStore := toy_retry 2 _.
#[export] Instance app_retry_laws : RetryLaws AppStore := toy_retry_laws 2 _.
#[export] Instance app_template : ErrorTemplate := error_template.
#[export] Instance app_doublestar : Doublestar := toy_doublestar.
#[export] Existing Instance oslo.
#[export] Existing Instance oslo_laws.
#[export] Instance app_env : Env := answering 200 refreshed_body.
#[export] Instance app_keygen : KeygenLaw := example_keygen.

Definition app_config : Config :=
  {| cfg_BindAddress := $"127.0.0.1:3000"; cfg_LogFormat := $"json"; cfg_LogLevel := $"info";
     cfg_MetricsBindAddress := $"127.0.0.1:3001"; cfg_AutoLogin := true; cfg_AutoLoginIgnorePaths := [$"/app/public"];
     cfg_EncryptionKey := []; cfg_ErrorPath := [];
     cfg_Ingresses := [$"https://app.example.com/app"]; cfg_Session := session_config;
     cfg_UpstreamHost := $"127.0.0.1:8080"; cfg_OpenID := example_openid;
     cfg_Redis := {| rd_Address := []; rd_Username := []; rd_Password := []; rd_TLS := false |};
     cfg_Loginstatus := example_loginstatus |}.

Definition app_ingresses : Ingresses :=
  match @ParseIngresses insertion_order app_config with
  | Ok i => i
  | Err _ => {| ingressMap := []; ing_hosts := []; ing_paths := []; ing_urls := [] |}
  end.

Definition app : StandardHandler str :=
  {| sh_autoLogin := NewAutoLogin app_config; sh_client := example_client; sh_config := app_config;
     sh_cookieOptions := DefaultOptions; sh_crypter := toy_key; sh_ingresses := app_ingresses;
     sh_loginstatus := example_loginstatus; sh_openidConfig := example_cfg;
     sh_sessions := example_handler; sh_upstreamHost := $"127.0.0.1:8080" |}.

Example app_built :
  NewHandler (O := insertion_order) app_config DefaultOptions example_cfg toy_key (fun _ => Ok tt)
  = Ok (app, UseMemory).
Proof. vm_compute. reflexivity. Qed.

(** The initial state. *)
Definition world0 : World AppStore := mkWorld 0 (∅, zero_time) [].

(** A request with cookies. *)
Definition with_cookies (r : Request) (cs : list (str * str)) : Request :=
  mkRequest (rq_Method r) (rq_Proto r) (rq_URL r) (rq_Host r) (rq_Header r) (cs ++ rq_Cookies r)
    (ctx_Path r) (ctx_Ingress r) (ctx_AccessToken r) (ctx_RequestID r).

(** The value of the last cookie a response sets under a name. *)
Definition set_value (name : str) (w : Response) : str :=
  match last (List.filter (fun c => streq (ck_Name c) name) (rw_Cookies w)) with
  | Some c => ck_Value c
  | None => []
  end.

End Example.
