(* ===== verification/LoginFlow.v ===== *)
(** * Login and callback: [pkg/handler/api/login], [pkg/handler/api/logincallback]

    The login route stores the attempt in two encrypted cookies and redirects to
    the provider; the callback route turns the provider's answer into a session.
    Log entries and metrics are not modelled. *)

From S2P Require Import Prelude GoStrings GoTime GoBase64 GoUrl GoUtf8 GoError GoRfc3339 GoJson Config Http Crypter Cookie Ingress RedirectUrl Openid Jwks Loginstatus OpenidClient SessionData Store Retry SessionHandler ErrorHandler AppState Standard Example.

Definition CookieLifetime : Duration := Hour.

Section LoginFlow.
Context {L : JwtLib} {C : JwkCache} {Key : Type} {O : OAuth2 Key} {E : Env} {A : AEAD} {S : Type}.
Context {St : Store S} {R : Retry S} {J : JwksState S} {T : ErrorTemplate}.
Context {LC : Location}.
Context (s : StandardHandler Key).

(** ** [login] *)

(** The options of the two login cookies. *)
Definition login_cookie_options (r : Request) : Options :=
  WithSameSite (WithExpiresIn (Standard_GetCookieOptsPathAware s r) CookieLifetime) SameSiteNoneMode.

(** [setLoginCookies]: the response is also returned when an error is. *)
Definition setLoginCookies (r : Request) (loginCookie : LoginCookie) (w : Response)
    : M S (result unit * Response) :=
  match json_Marshal loginCookie with
  | Err e => mret (Err (Wrap "marshalling login cookie" e), w)
  | Ok value =>
      let opts := login_cookie_options r in
      '(res, w1) ← EncryptAndSet LoginCookieName value opts (sh_crypter s) w;
      match res with
      | Err e => mret (Err e, w1)
      | Ok _ => EncryptAndSet LoginLegacyCookieName value (WithSameSite opts SameSiteDefaultMode)
                  (sh_crypter s) w1
      end
  end.

(** The login route. *)
Definition login_Handler (r : Request) (w : Response) : M S Response :=
  res ← Client_Login (sh_client s) r;
  match res with
  | Err e =>
      if errors_Is e ErrInvalidSecurityLevel || errors_Is e ErrInvalidLocale
      then BadRequest (Src := GetErrorHandler s) r w
      else InternalError (Src := GetErrorHandler s) r w
  | Ok login =>
      '(res, w1) ← setLoginCookies r (lg_cookie login) w;
      match res with
      | Err _ => InternalError (Src := GetErrorHandler s) r w1
      | Ok _ => mret (http_Redirect r (lg_authCodeURL login) StatusTemporaryRedirect w1)
      end
  end.

(** ** [logincallback] *)

(** [clearLoginCookies] *)
Definition clearLoginCookies (r : Request) (w : Response) : Response :=
  let opts := Standard_GetCookieOptsPathAware s r in
  Clear LoginLegacyCookieName (WithSameSite opts SameSiteDefaultMode)
    (Clear LoginCookieName (WithSameSite opts SameSiteNoneMode) w).

(** [redeemValidTokens] *)
Definition redeemValidTokens (cb : LoginCallback) : M S (result Tokens) :=
  retry_Do (RetryableError <$> RedeemTokens (sh_client s) cb).

(** [getLoginstatusToken] *)
Definition getLoginstatusToken (tokens : Tokens) : M S (result LoginstatusTokenResponse) :=
  retry_Do (RetryableError <$> ExchangeToken (sh_loginstatus s) (tk_AccessToken tokens)).

(** The login callback that passes the checks of the route, with the error
    page to show otherwise. *)
Definition checked_callback (r : Request) : (LoginCookie * LoginCallback) + Z :=
  match GetLoginCookie r (sh_crypter s) with
  | Err _ => inr StatusUnauthorized
  | Ok loginCookie =>
      match Client_LoginCallback r (Some loginCookie) with
      | Err _ => inr StatusInternalServerError
      | Ok cb =>
          match IdentityProviderError cb with
          | Some _ => inr StatusInternalServerError
          | None =>
              match StateMismatchError cb with
              | Some _ => inr StatusUnauthorized
              | None => inl (loginCookie, cb)
              end
          end
      end
  end.

(** The login status cookie, when that is enabled. *)
Definition set_loginstatus (tokens : Tokens) (w : Response) : M S (result unit * Response) :=
  if Enabled (sh_loginstatus s) then
    t ← getLoginstatusToken tokens;
    match t with
    | Err e => mret (Err e, w)
    | Ok tokenResponse =>
        w1 ← SetCookie (sh_loginstatus s) tokenResponse (sh_cookieOptions s) w;
        mret (Ok tt, w1)
    end
  else mret (Ok tt, w).

(** The part of the callback route that creates the session. *)
Definition create_session (r : Request) (cb : LoginCallback) (w : Response)
    : M S (result Tokens * Response) :=
  tokens ← redeemValidTokens cb;
  match tokens with
  | Err e => mret (Err e, w)
  | Ok tokens =>
      let sessionLifetime := MaxLifetime (cfg_Session (sh_config s)) in
      key ← Create (sh_sessions s) r tokens sessionLifetime;
      match key with
      | Err e => mret (Err e, w)
      | Ok key =>
          let opts := WithExpiresIn (Standard_GetCookieOptsPathAware s r) sessionLifetime in
          '(res, w1) ← EncryptAndSet SessionCookie key opts (sh_crypter s) w;
          match res with
          | Err e => mret (Err e, w1)
          | Ok _ => mret (Ok tokens, w1)
          end
      end
  end.

(** The callback route. *)
Definition logincallback_Handler (r : Request) (w : Response) : M S Response :=
  let w0 := clearLoginCookies r w in
  match checked_callback r with
  | inr status => respondError (Src := GetErrorHandler s) r status w0
  | inl (loginCookie, cb) =>
      '(tokens, w1) ← create_session r cb w0;
      match tokens with
      | Err _ => InternalError (Src := GetErrorHandler s) r w1
      | Ok tokens =>
          '(res, w2) ← set_loginstatus tokens w1;
          match res with
          | Err _ => InternalError (Src := GetErrorHandler s) r w2
          | Ok _ =>
              let w3 := Clear RetryCookie (Standard_GetCookieOptsPathAware s r) w2 in
              (* loginCallback holds a pointer to the cookie, which
                 NewLoginCallback may have given a redirect URI; the referer is
                 the same. *)
              mret (http_Redirect r (lc_Referer loginCookie) StatusTemporaryRedirect w3)
          end
      end
  end.
End LoginFlow.

(** ** Lemmas *)

Section Facts.
Context {L : JwtLib} {C : JwkCache} {Key : Type} {O : OAuth2 Key} {E : Env} {A : AEAD} {S : Type}.
Context {St : Store S} {R : Retry S} {J : JwksState S} {T : ErrorTemplate}.
Context {LC : Location}.
Context {HA : AEADLaws} {HK : KeygenLaw} {HR : RetryLaws S} {HL : JwtLibLaws}.
Context (s : StandardHandler Key).
Implicit Types (w : World S) (r : Request) (rw : Response).

(** The names of the cookies [cs] besides those in [names]. *)
Definition only_named (names : list str) (cs : list HttpCookie) : Prop :=
  Forall (fun c => ck_Name c ∈ names) cs.

Lemma only_named_no (names : list str) (name : str) (cs : list HttpCookie) c :
  only_named names cs -> name ∉ names -> c ∈ cs -> ck_Name c <> name.
Proof.
  unfold only_named. rewrite Forall_forall. intros H Hn Hc Heq. apply Hn. rewrite <- Heq. auto.
Qed.

Lemma cookie_name (c : HttpCookie) (n d p : str) : cookie_identity c = (n, d, p) -> ck_Name c = n.
Proof. by intros [= -> _ _]. Qed.

Lemma can_set_fixed rw (name : str) :
  name ∈ [SessionCookie; LoginCookieName; LoginLegacyCookieName; RetryCookie] ->
  rw_Status rw = None -> can_set rw name.
Proof.
  intros Hn Hs. split; [done|]. pose proof cookie_names_valid as H. rewrite forallb_forall in H.
  by apply H, list_elem_of_In.
Qed.

(** The clearing cookies of the callback route. *)
Lemma clearLoginCookies_spec r rw :
  rw_Status rw = None ->
  rw_Status (clearLoginCookies s r rw) = None
  /\ exists c1 c2, rw_Cookies (clearLoginCookies s r rw) = rw_Cookies rw ++ [c1; c2]
       /\ ck_Name c1 = LoginCookieName /\ ck_Name c2 = LoginLegacyCookieName
       /\ Forall (fun c => (ck_MaxAge c < 0)%Z /\ ck_Value c = []
                           /\ ck_Path c = cookie_path (Standard_GetCookieOptsPathAware s r)) [c1; c2].
Proof.
  clear HA HK HR HL. intros Hs. unfold clearLoginCookies. cbv zeta.
  set (o1 := WithSameSite _ SameSiteNoneMode). set (o2 := WithSameSite _ SameSiteDefaultMode).
  destruct (Clear_cookies LoginCookieName o1 rw) as [Hc1 Hs1];
    [by apply can_set_fixed; [set_solver|]|].
  destruct (Clear_cookies LoginLegacyCookieName o2 (Clear LoginCookieName o1 rw)) as [Hc2 Hs2];
    [by apply can_set_fixed; [set_solver|]|].
  split; [exact Hs2|]. rewrite Hc2, Hc1, <- app_assoc. cbn [app]. do 2 eexists.
  split; [done|]. split; [done|]. split; [done|]. by repeat constructor.
Qed.

(** Either login cookie leads back to the attempt. *)
Lemma GetLoginCookie_carried key k value v1 v2 r :
  json_Marshal k = Ok value ->
  Cookie_Decrypt key v1 = Ok value -> Cookie_Decrypt key v2 = Ok value ->
  (lookup_cookie (rq_Cookies r) LoginCookieName = Some v1
   \/ lookup_cookie (rq_Cookies r) LoginCookieName = None
      /\ lookup_cookie (rq_Cookies r) LoginLegacyCookieName = Some v2) ->
  GetLoginCookie r key = Ok (valid_cookie k).
Proof.
  intros Hk H1 H2 Hr. unfold GetLoginCookie, GetDecrypted, Cookie.Get, Request_Cookie.
  destruct Hr as [-> | [-> ->]]; cbn; rewrite ?H1, ?H2; cbn; apply wrap_Ok;
    by eapply LoginCookie_codec_laws.
Qed.

(** What the checks of the callback route establish. *)
Lemma checked_callback_inl r lc cb :
  checked_callback s r = inl (lc, cb) ->
  GetLoginCookie r (sh_crypter s) = Ok lc /\ Client_LoginCallback r (Some lc) = Ok cb
  /\ cb_params cb = URL_Query (rq_URL r) /\ lc_Nonce (cb_cookie cb) = lc_Nonce lc
  /\ Values_Get (URL_Query (rq_URL r)) P_Error = []
  /\ Values_Get (URL_Query (rq_URL r)) P_State = lc_State lc /\ lc_State lc <> []
  /\ lc_CodeVerifier (cb_cookie cb) = lc_CodeVerifier lc.
Proof.
  unfold checked_callback. destruct (GetLoginCookie r _) as [lc'|]; [|done].
  destruct (Client_LoginCallback r (Some lc')) as [cb'|] eqn:Ecb; [|done].
  destruct (IdentityProviderError cb') eqn:Ei; [done|].
  destruct (StateMismatchError cb') eqn:Es; [done|]. intros [= -> ->].
  assert (Hcb : cb_params cb = URL_Query (rq_URL r) /\ lc_Nonce (cb_cookie cb) = lc_Nonce lc
                /\ lc_State (cb_cookie cb) = lc_State lc
                /\ lc_CodeVerifier (cb_cookie cb) = lc_CodeVerifier lc).
  { apply wrap_Ok in Ecb. unfold NewLoginCallback in Ecb.
    destruct (if is_empty _ then _ else _) as [u|]; [|done]. by injection Ecb as <-. }
  destruct Hcb as (Hp & Hn & Hst & Hcv). rewrite <- Hp, <- Hst. repeat (split; [done|]).
  unfold IdentityProviderError in Ei. destruct (is_empty (Values_Get _ P_Error)) eqn:Ee; [|done].
  apply is_empty_true in Ee. split; [done|]. unfold StateMismatchError in Es.
  destruct (is_empty (Values_Get _ P_State)) eqn:Ev; [done|]. apply is_empty_false in Ev.
  destruct (streq _ _) eqn:Eq; [|done]. apply streq_true in Eq. by rewrite Eq.
Qed.

Lemma redeemValidTokens_Ok cb t w w' :
  redeemValidTokens s cb w = (Ok t, w') ->
  exists w1, RedeemTokens (sh_client s) cb w1 = (Ok t, w').
Proof.
  unfold redeemValidTokens. intros H. eapply (retry_Do_inv _ (fun _ => True)) in H as [_ (w1 & _ & Hf)]; [|done..].
  exists w1. rewrite fmap_M_run in Hf. destruct (RedeemTokens _ _ w1) as [x w2].
  injection Hf as Hx <-. by apply RetryableError_Success in Hx as ->.
Qed.

(** The session part of the route: nothing is set, or the cookie of a session
    created for redeemed tokens. *)
Lemma create_session_spec r cb rw w res rw' w' :
  rw_Status rw = None ->
  create_session s r cb rw w = ((res, rw'), w') ->
  rw_Status rw' = None
  /\ ((rw_Cookies rw' = rw_Cookies rw /\ is_ok res = false)
      \/ exists tokens key c wa wb wc,
           res = Ok tokens /\ RedeemTokens (sh_client s) cb wa = (Ok tokens, wb)
           /\ Create (sh_sessions s) r tokens (MaxLifetime (cfg_Session (sh_config s))) wb = (Ok key, wc)
           /\ rw_Cookies rw' = rw_Cookies rw ++ [c]
           /\ Cookie_Decrypt (sh_crypter s) (ck_Value c) = Ok key
           /\ ck_Name c = SessionCookie /\ ck_HttpOnly c = true
           /\ ck_Secure c = opt_Secure (sh_cookieOptions s)
           /\ ck_Path c = cookie_path (Standard_GetCookieOptsPathAware s r)).
Proof.
  intros Hs. unfold create_session. rewrite bind_run.
  destruct (redeemValidTokens s cb w) as [[t|e] w1] eqn:Et; cbn [fst snd].
  2:{ intros [= <- <- <-]. split; [done|]. by left. }
  apply redeemValidTokens_Ok in Et as (wa & Ha). rewrite bind_run.
  destruct (Create _ r t _ w1) as [[key|e] w2] eqn:Ec; cbn [fst snd].
  2:{ intros [= <- <- <-]. split; [done|]. by left. }
  set (o := WithExpiresIn _ _). rewrite bind_run.
  destruct (EncryptAndSet SessionCookie key o (sh_crypter s) rw w2) as [[res1 rw1] w3] eqn:Es.
  cbn [fst snd].
  destruct (EncryptAndSet_spec _ _ _ _ _ _ _ _ _ (can_set_fixed rw SessionCookie ltac:(set_solver) Hs) Es)
    as [(e & -> & ->)|(-> & Hst & _ & c & Hc & Hd & Hid & Hh & Hsec & _)].
  { intros [= <- <- <-]. split; [done|]. by left. }
  intros [= <- <- <-]. split; [done|]. right. exists t, key, c, wa, w1, w2.
  repeat (split; [done|]). unfold cookie_identity in Hid. by injection Hid as -> _ ->.
Qed.

Lemma set_loginstatus_spec tokens rw w :
  rw_Status rw = None ->
  rw_Status (set_loginstatus s tokens rw w).1.2 = None
  /\ exists cs, rw_Cookies (set_loginstatus s tokens rw w).1.2 = rw_Cookies rw ++ cs
       /\ only_named (if Enabled (sh_loginstatus s) then [ls_CookieName (sh_loginstatus s)] else []) cs.
Proof.
  intros Hs. unfold set_loginstatus.
  assert (Hnil : exists cs, rw_Cookies rw = rw_Cookies rw ++ cs /\ only_named
     (if Enabled (sh_loginstatus s) then [ls_CookieName (sh_loginstatus s)] else []) cs).
  { exists []. rewrite app_nil_r. split; [done|constructor]. }
  destruct (Enabled _); [|done]. rewrite bind_run.
  destruct (getLoginstatusToken s tokens w) as [[t|e] w1]; [|done]. cbn [fst snd].
  unfold SetCookie. rewrite bind_run, bind_run, Make_run. cbn [fst snd mret M_ret].
  unfold Set_Cookie. rewrite http_SetCookie_status. split; [done|].
  unfold http_SetCookie. rewrite Hs. cbn [ck_Name].
  destruct (valid_cookie_name _); [|exact Hnil]. cbn [rw_Cookies]. eexists. split; [done|].
  constructor; [|constructor]. cbn. by left.
Qed.

(** The session cookie [c] the callback route set is that of a validated login. *)
Definition validated_login r c : Prop :=
  exists lc cb tokens key wa wb wc,
    checked_callback s r = inl (lc, cb)
    /\ RedeemTokens (sh_client s) cb wa = (Ok tokens, wb)
    /\ Create (sh_sessions s) r tokens (MaxLifetime (cfg_Session (sh_config s))) wb = (Ok key, wc)
    /\ Cookie_Decrypt (sh_crypter s) (ck_Value c) = Ok key
    /\ ck_Name c = SessionCookie /\ ck_HttpOnly c = true
    /\ ck_Secure c = opt_Secure (sh_cookieOptions s)
    /\ ck_Path c = cookie_path (Standard_GetCookieOptsPathAware s r).

(** The cookies besides those of the login and the session. *)
Definition auxiliary_names : list str :=
  RetryCookie :: (if Enabled (sh_loginstatus s) then [ls_CookieName (sh_loginstatus s)] else []).

Lemma respondError_auxiliary r code rw w :
  rw_Status rw = None ->
  exists cs, rw_Cookies (respondError (Src := GetErrorHandler s) r code rw w).1 = rw_Cookies rw ++ cs
    /\ only_named auxiliary_names cs.
Proof.
  intros Hs. destruct (respondError_cookies (Src := GetErrorHandler s) r code rw w Hs) as (c & Hc & Hn).
  exists [c]. split; [exact Hc|]. constructor; [|constructor]. rewrite Hn. by left.
Qed.

(** The last part of the route adds auxiliary cookies only. *)
Lemma callback_end r lc res rw w :
  rw_Status rw = None ->
  exists cs, rw_Cookies (match res : result Tokens with
    | Err _ => InternalError (Src := GetErrorHandler s) r rw
    | Ok tokens =>
        '(res, w2) ← set_loginstatus s tokens rw;
        match res with
        | Err _ => InternalError (Src := GetErrorHandler s) r w2
        | Ok _ => mret (http_Redirect r (lc_Referer lc) StatusTemporaryRedirect
                    (Clear RetryCookie (Standard_GetCookieOptsPathAware s r) w2))
        end
    end w).1 = rw_Cookies rw ++ cs /\ only_named auxiliary_names cs.
Proof.
  intros Hs. destruct res as [tokens|e]; [|by apply respondError_auxiliary]. rewrite bind_run.
  destruct (set_loginstatus_spec tokens rw w Hs) as (Hs2 & cs & Hc & Hn).
  destruct (set_loginstatus s tokens rw w) as [[res w2] w3]. cbn [fst snd] in *.
  assert (Hn' : only_named auxiliary_names cs).
  { eapply Forall_impl; [exact Hn|]. intros c Hin. by right. }
  destruct res as [[]|e].
  - destruct (Clear_cookies RetryCookie (Standard_GetCookieOptsPathAware s r) w2) as [Hk Hs3];
      [by apply can_set_fixed; [set_solver|]|].
    destruct (http_Redirect_fresh r (lc_Referer lc) StatusTemporaryRedirect _ Hs3) as (_ & _ & Hr).
    cbn [fst mret M_ret]. rewrite Hr, Hk, Hc, <- app_assoc. eexists. split; [done|].
    apply Forall_app. split; [exact Hn'|]. constructor; [by left|constructor].
  - destruct (respondError_auxiliary r StatusInternalServerError w2 w3 Hs2) as (cs' & Hc' & Hn2).
    unfold InternalError. rewrite Hc', Hc, <- app_assoc. eexists. split; [done|]. by apply Forall_app.
Qed.

Lemma callback_shape r w :
  exists c1 c2 sess rest,
    rw_Cookies (logincallback_Handler s r new_response w).1 = c1 :: c2 :: sess ++ rest
    /\ ck_Name c1 = LoginCookieName /\ ck_Name c2 = LoginLegacyCookieName
    /\ Forall (fun c => (ck_MaxAge c < 0)%Z /\ ck_Value c = []
                        /\ ck_Path c = cookie_path (Standard_GetCookieOptsPathAware s r)) [c1; c2]
    /\ only_named auxiliary_names rest
    /\ Forall (validated_login r) sess.
Proof.
  destruct (clearLoginCookies_spec r new_response eq_refl) as (Hs0 & c1 & c2 & Hc & H1 & H2 & Hcl).
  unfold logincallback_Handler. cbv zeta. set (w0 := clearLoginCookies s r new_response) in *.
  cbn [new_response rw_Cookies app] in Hc.
  destruct (checked_callback s r) as [[lc cb]|status] eqn:Ecb.
  2:{ destruct (respondError_auxiliary r status w0 w Hs0) as (cs & Hcs & Hn).
      exists c1, c2, [], cs. rewrite Hcs, Hc. by repeat (split; [done|]). }
  rewrite bind_run. destruct (create_session s r cb w0 w) as [[res rw1] w1] eqn:Ecs.
  destruct (create_session_spec _ _ _ _ _ _ _ Hs0 Ecs) as (Hs1 & Hrest). cbn [fst snd].
  destruct (callback_end r lc res rw1 w1 Hs1) as (cs & Hcs & Hn).
  destruct Hrest as [[Hk _]|(tokens & key & c & wa & wb & wc & _ & Ha & Hb & Hk & Hd & Hname & Hh & Hsec & Hp)].
  - exists c1, c2, [], cs. rewrite Hcs, Hk, Hc. by repeat (split; [done|]).
  - exists c1, c2, [c], cs. rewrite Hcs, Hk, Hc. repeat (split; [done|]).
    constructor; [|constructor]. by exists lc, cb, tokens, key, wa, wb, wc.
Qed.
End Facts.

(** ** Properties *)

Section Statements.
Context {L : JwtLib} {C : JwkCache} {Key : Type} {O : OAuth2 Key} {E : Env} {A : AEAD} {S : Type}.
Context {St : Store S} {R : Retry S} {J : JwksState S} {T : ErrorTemplate}.
Context {LC : Location}.
Context (HA : AEADLaws) (HK : KeygenLaw).
Context (s : StandardHandler Key).


(** A login that succeeds can be completed: the response redirects to the
    provider with two cookies, and a callback request that brings one of them
    back, the second where the first was dropped, recovers the login attempt, its
    random strings as they were (a target that is not UTF-8 has the offending
    bytes replaced); with its state and no error it passes the checks of the
    callback route. *)
Theorem login_then_callback
    (r : Request) (l : Login) (w w1 : World S)
  (Hlogin : Client_Login (sh_client s) r w = (Ok l, w1))
  (Hset : is_ok (setLoginCookies s r (lg_cookie l) new_response w1).1.1 = true) :
  let rw := (login_Handler s r new_response w).1 in
  let lc := valid_cookie (lg_cookie l) in
  rw_Status rw = Some StatusTemporaryRedirect
  /\ rw_Location rw = Some (redirect_target r (lg_authCodeURL l))
  /\ lc_State lc = lc_State (lg_cookie l) /\ lc_Nonce lc = lc_Nonce (lg_cookie l)
  /\ lc_CodeVerifier lc = lc_CodeVerifier (lg_cookie l)
  /\ exists c1 c2, rw_Cookies rw = [c1; c2]
       /\ ck_Name c1 = LoginCookieName /\ ck_SameSite c1 = SameSiteNoneMode
       /\ ck_Name c2 = LoginLegacyCookieName /\ ck_SameSite c2 = SameSiteDefaultMode
       /\ forall r',
            (lookup_cookie (rq_Cookies r') LoginCookieName = Some (ck_Value c1)
             \/ lookup_cookie (rq_Cookies r') LoginCookieName = None
                /\ lookup_cookie (rq_Cookies r') LoginLegacyCookieName = Some (ck_Value c2)) ->
            GetLoginCookie r' (sh_crypter s) = Ok lc
            /\ (lc_RedirectURI (lg_cookie l) <> [] -> lc_State (lg_cookie l) <> [] ->
                Values_Get (URL_Query (rq_URL r')) P_Error = [] ->
                Values_Get (URL_Query (rq_URL r')) P_State = lc_State (lg_cookie l) ->
                exists cb, checked_callback s r' = inl (lc, cb)).
Proof.
  intros rw lc. subst rw. pose proof (Client_Login_random _ _ _ _ _ Hlogin) as Hrand.
  assert (lc_State lc = lc_State (lg_cookie l) /\ lc_Nonce lc = lc_Nonce (lg_cookie l)
          /\ lc_CodeVerifier lc = lc_CodeVerifier (lg_cookie l)) as (Est & Eno & Ecv).
  { rewrite !Forall_cons in Hrand. destruct Hrand as (? & ? & ? & _).
    by repeat split; apply to_valid_id. }
  unfold login_Handler. rewrite bind_run, Hlogin. cbn [fst snd].
  rewrite bind_run. revert Hset. unfold setLoginCookies.
  destruct (json_Marshal (lg_cookie l)) as [value|e] eqn:Ev; [|done]. cbv zeta.
  set (o1 := login_cookie_options s r). rewrite bind_run.
  destruct (EncryptAndSet LoginCookieName value o1 _ new_response w1) as [[res1 rw1] w2] eqn:E1.
  cbn [fst snd].
  destruct (EncryptAndSet_spec _ _ _ _ _ _ _ _ _
              (can_set_fixed new_response LoginCookieName ltac:(set_solver) eq_refl) E1)
    as [(e & -> & _)|(-> & Hs1 & _ & c1 & Hc1 & Hd1 & Hi1 & _ & _ & Hss1)]; [done|].
  set (o2 := WithSameSite o1 SameSiteDefaultMode).
  destruct (EncryptAndSet LoginLegacyCookieName value o2 _ rw1 w2) as [[res2 rw2] w3] eqn:E2.
  cbn [fst snd].
  destruct (EncryptAndSet_spec _ _ _ _ _ _ _ _ _
              (can_set_fixed rw1 LoginLegacyCookieName ltac:(set_solver) Hs1) E2)
    as [(e & -> & _)|(-> & Hs2 & _ & c2 & Hc2 & Hd2 & Hi2 & _ & _ & Hss2)]; [done|]. intros _.
  cbn [fst mret M_ret].
  destruct (http_Redirect_fresh r (lg_authCodeURL l) StatusTemporaryRedirect rw2 Hs2)
    as (Hst & Hloc & Hck).
  split; [exact Hst|]. split; [exact Hloc|]. do 3 (split; [done|]). exists c1, c2.
  rewrite Hck, Hc2, Hc1.
  split; [done|]. split; [by eapply cookie_name|]. split; [done|]. split; [by eapply cookie_name|].
  split; [done|]. intros r' Hr'.
  assert (Hget : GetLoginCookie r' (sh_crypter s) = Ok lc).
  { exact (GetLoginCookie_carried _ _ _ _ _ _ Ev Hd1 Hd2 Hr'). }
  split; [exact Hget|]. intros Huri Hstate Herr Hst'.
  unfold checked_callback. rewrite Hget. unfold Client_LoginCallback, NewLoginCallback.
  assert (Huri' : lc_RedirectURI lc <> []) by (by unfold lc, valid_cookie; cbn [lc_RedirectURI]; rewrite to_valid_nil).
  rewrite (proj2 (is_empty_false _) Huri'). cbn [mbind result_bind wrap].
  unfold IdentityProviderError, StateMismatchError. cbn [cb_params cb_cookie lc_State].
  rewrite Herr, Hst', Est. cbn [is_empty].
  rewrite (proj2 (is_empty_false _) Hstate), streq_refl. cbn [negb]. eexists. done.
Qed.
End Statements.

(** ** Concrete runs *)

Import Example.

(** A login and the callback request that follows it; the id_token of the toy
    provider answers the fixed nonce of [example_cookie]. *)
Definition login_cookies : Response :=
  (setLoginCookies (S := AppStore) app (example_login_request "/path") example_cookie
     new_response world0).1.2.
Definition returning_request : Request :=
  with_cookies (callback_request "code=code&state=st")
    [(LoginCookieName, set_value LoginCookieName login_cookies)].
Definition callback_run : Response * World AppStore :=
  logincallback_Handler app returning_request new_response world0.

Example callback_answers :
  (rw_Status callback_run.1, rw_Location callback_run.1, map ck_Name (rw_Cookies callback_run.1))
  = (Some 307%Z, Some $"/path",
     [LoginCookieName; LoginLegacyCookieName; SessionCookie; $"status"; RetryCookie]).
Proof. vm_compute. reflexivity. Qed.

Lemma callback_run_sets :
  exists c, c ∈ rw_Cookies (logincallback_Handler app returning_request new_response world0).1
    /\ ck_Name c = SessionCookie.
Proof.
  destruct (nth_error (rw_Cookies callback_run.1) 2) as [c|] eqn:En.
  - exists c. split; [by apply list_elem_of_In, (nth_error_In _ 2)|].
    assert (H : ck_Name <$> nth_error (rw_Cookies callback_run.1) 2 = Some SessionCookie)
      by (vm_compute; reflexivity).
    rewrite En in H. by injection H.
  - exfalso. revert En. vm_compute. discriminate.
Qed.


Definition login_run : result Login * World AppStore :=
  Client_Login (sh_client app) (example_login_request "/path") world0.

Lemma login_run_ok : exists l w1,
  Client_Login (sh_client app) (example_login_request "/path") world0 = (Ok l, w1)
  /\ is_ok (setLoginCookies app (example_login_request "/path") (lg_cookie l) new_response w1).1.1 = true.
Proof.
  assert (H : match login_run with
              | (Ok l, w1) => is_ok (setLoginCookies app (example_login_request "/path")
                                       (lg_cookie l) new_response w1).1.1
              | _ => false
              end = true) by (vm_compute; reflexivity).
  unfold login_run in H. destruct (Client_Login _ _ world0) as [[l|e] w1]; [|discriminate H].
  by exists l, w1.
Qed.

Lemma login_then_callback_witness :
  rw_Status (login_Handler app (example_login_request "/path") new_response world0).1
  = Some StatusTemporaryRedirect.
Proof.
  destruct login_run_ok as (l & w1 & Hl & Hs).
  exact (proj1 (login_then_callback toy_AEAD_laws app_keygen app
                  (example_login_request "/path") l world0 w1 Hl Hs)).
Defined.
