(* ===== verification/LogoutFlow.v ===== *)
(** * Logout: [pkg/handler/api/logout], [logoutcallback], [logoutfrontchannel]

    Self-initiated logout (with or without single logout at the provider), the
    provider's answer to it, and logout initiated by the provider. *)

From S2P Require Import Prelude GoStrings GoTime GoUrl GoError GoRfc3339 GoJson Config Http Crypter Cookie Ingress RedirectUrl Openid Jwks Loginstatus OpenidClient SessionData Store Retry SessionHandler ErrorHandler AppState Standard Example LoginFlow.

Section LogoutFlow.
Context {L : JwtLib} {C : JwkCache} {Key : Type} {O : OAuth2 Key} {E : Env} {A : AEAD} {S : Type}.
Context {St : Store S} {R : Retry S} {T : ErrorTemplate}.
Context {LC : Location}.
Context (s : StandardHandler Key).

(** The session cookie, and the login status cookies when enabled, cleared. *)
Definition clear_session_cookies (r : Request) (w : Response) : Response :=
  let w1 := Clear SessionCookie (Standard_GetCookieOptsPathAware s r) w in
  if Enabled (sh_loginstatus s) then ClearCookie (sh_loginstatus s) (sh_cookieOptions s) w1 else w1.

(** The local part of a logout: the id_token of the session, if one was read,
    which is destroyed; a session that is already gone is no error. *)
Definition destroy_session (r : Request) : M S (result str) :=
  sessionData ← Get (sh_sessions s) r;
  match sessionData with
  | Err _ => okM []
  | Ok d =>
      res ← DestroyForID (sh_sessions s) (ExternalSessionID d);
      match res with
      | Err e => if negb (errors_Is e ErrKeyNotFound) then errM (Wrap "logout: destroying session" e)
                 else okM (IDToken d)
      | Ok _ => okM (IDToken d)
      end
  end.

(** The logout routes. *)
Definition logout_Handler (r : Request) (globalLogout : bool) (w : Response) : M S Response :=
  match Client_Logout r with
  | Err _ => InternalError (Src := GetErrorHandler s) r w
  | Ok logout =>
      idToken ← destroy_session r;
      match idToken with
      | Err _ => InternalError (Src := GetErrorHandler s) r w
      | Ok idToken =>
          let w1 := clear_session_cookies r w in
          mret (if globalLogout
                then http_Redirect r (SingleLogoutURL (sh_client s) logout idToken)
                       StatusTemporaryRedirect w1
                else w1)
      end
  end.

(** The logout callback route. *)
Definition logoutcallback_Handler (r : Request) (w : Response) : Response :=
  let redirect := LogoutCallback_PostLogoutRedirectURI (sh_client s) r in
  http_Redirect r redirect StatusTemporaryRedirect
    (Clear RetryCookie (Standard_GetCookieOptsPathAware s r) w).

(** The front-channel logout route. *)
Definition logoutfrontchannel_Handler (r : Request) (w : Response) : M S Response :=
  let w1 := clear_session_cookies r w in
  if MissingSidParameter r then mret (WriteHeader StatusAccepted w1)
  else
    let sid := LogoutFrontchannel_Sid r in
    sessionData ← GetForID (sh_sessions s) sid;
    match sessionData with
    | Err _ => mret (WriteHeader StatusAccepted w1)
    | Ok _ =>
        res ← DestroyForID (sh_sessions s) sid;
        match res with
        | Err _ => mret (WriteHeader StatusAccepted w1)
        | Ok _ => mret (WriteHeader StatusOK (Clear RetryCookie (Standard_GetCookieOptsPathAware s r) w1))
        end
    end.
End LogoutFlow.

(** ** Lemmas *)

Section Facts.
Context {L : JwtLib} {C : JwkCache} {Key : Type} {O : OAuth2 Key} {E : Env} {A : AEAD} {S : Type}.
Context {St : Store S} {R : Retry S} {LC : Location} {T : ErrorTemplate}.
Context {view : S -> gmap str EncryptedData} {HS : StoreLaws S view} {HR : RetryLaws S}.
Context (s : StandardHandler Key).
Implicit Types (w : World S) (r : Request) (rw : Response).

(** The cookie that deletes the session cookie of the request's path. *)
Definition deletes_session r (c : HttpCookie) : Prop :=
  ck_Name c = SessionCookie /\ ck_Value c = [] /\ (ck_MaxAge c < 0)%Z
  /\ ck_Path c = cookie_path (Standard_GetCookieOptsPathAware s r)
  /\ ck_Domain c = cookie_domain (sh_cookieOptions s).

Lemma Clear_prefix (name : str) (o : Options) rw :
  exists cs, rw_Cookies (Clear name o rw) = rw_Cookies rw ++ cs.
Proof.
  unfold Clear, http_SetCookie. destruct (rw_Status rw); [exists []; by rewrite app_nil_r|].
  destruct (valid_cookie_name _); [by eexists|exists []; by rewrite app_nil_r].
Qed.

Lemma clear_session_cookies_spec r rw :
  rw_Status rw = None ->
  rw_Status (clear_session_cookies s r rw) = None
  /\ exists c cs, rw_Cookies (clear_session_cookies s r rw) = rw_Cookies rw ++ c :: cs
       /\ deletes_session r c.
Proof.
  clear HS HR. intros Hs. unfold clear_session_cookies. cbv zeta.
  destruct (Clear_cookies SessionCookie (Standard_GetCookieOptsPathAware s r) rw) as [Hc Hs1];
    [by apply can_set_fixed; [set_solver|]|].
  set (w1 := Clear SessionCookie _ rw) in *.
  match type of Hc with _ = _ ++ [?k] => set (c := k) in * end.
  assert (Hd : deletes_session r c) by done.
  destruct (Enabled _).
  - unfold ClearCookie. rewrite !Clear_status. split; [exact Hs1|].
    destruct (Clear_prefix (ls_CookieName (sh_loginstatus s))
                (CookieOptions (sh_loginstatus s) (sh_cookieOptions s)) w1) as [cs1 H1].
    match goal with |- context [rw_Cookies (Clear LoginserviceCookieName ?o ?x)] =>
      destruct (Clear_prefix LoginserviceCookieName o x) as [cs2 H2] end.
    exists c, (cs1 ++ cs2). rewrite H2, H1, Hc, <- !app_assoc. done.
  - split; [exact Hs1|]. exists c, []. done.
Qed.

(** The clearing cookie stays the first one through what follows. *)
Lemma WriteHeader_prefix (code : Z) rw c cs :
  rw_Status rw = None -> rw_Cookies rw = c :: cs ->
  rw_Status (WriteHeader code rw) = Some code /\ exists cs', rw_Cookies (WriteHeader code rw) = c :: cs'.
Proof. intros Hs Hc. rewrite WriteHeader_cookies, WriteHeader_status by done. eauto. Qed.

Lemma destroy_session_spec r w res w' :
  destroy_session s r w = (res, w') ->
  match (Get (sh_sessions s) r w) with
  | (Err _, w1) => res = Ok [] /\ w' = w1
  | (Ok d, w1) =>
      (forall t, res = Ok t -> t = IDToken d)
      /\ (is_ok (DestroyForID (sh_sessions s) (ExternalSessionID d) w1).1 = true ->
          is_ok res = true
          /\ forall w2, reads view w' w2 ->
             is_ok (GetForID (sh_sessions s) (ExternalSessionID d) w2).1 = false)
  end.
Proof.
  unfold destroy_session. rewrite bind_run.
  destruct (Get (sh_sessions s) r w) as [[d|e] w1]; cbn [fst snd]; [|by intros [= <- <-]].
  rewrite bind_run.
  destruct (DestroyForID _ _ w1) as [[[]|e] w2] eqn:Ed; cbn [fst snd].
  - intros [= <- <-]. split; [by intros t [= <-]|]. intros _. split; [done|].
    intros w3 [_ Hl]. apply (destroyForKey_spec HS HR) in Ed as [_ Hn].
    destruct (GetForID _ _ w3) as [[d'|e] w4] eqn:Eg; [|done].
    apply (GetForKey_spec HS HR) in Eg as [_ Hst]. destruct (Hst d' eq_refl) as (x & Hx & _).
    apply (lookup_weaken _ _ _ _ Hx) in Hl. by rewrite Hn in Hl.
  - intros H. split; [|done]. destruct (negb _); [by injection H as <- _|].
    injection H as <- _. by intros t [= <-].
Qed.
End Facts.

(** ** Properties *)

Section Statements.
Context {L : JwtLib} {C : JwkCache} {Key : Type} {O : OAuth2 Key} {E : Env} {A : AEAD} {S : Type}.
Context {St : Store S} {R : Retry S} {LC : Location} {T : ErrorTemplate}.
Context {view : S -> gmap str EncryptedData} (HS : StoreLaws S view) (HR : RetryLaws S).
Context (s : StandardHandler Key).


(** C35: Front-channel logout: whatever the request, the response deletes the
    session cookie and is 202, or 200 in which case the session of the request's
    [sid] existed and is gone from the store. *)
Theorem frontchannel_spec (r : Request) (w w' : World S) (rw : Response)
  (Hrun : logoutfrontchannel_Handler s r new_response w = (rw, w')) :
  (exists c cs, rw_Cookies rw = c :: cs /\ deletes_session s r c)
  /\ (rw_Status rw = Some StatusAccepted
      \/ rw_Status rw = Some StatusOK /\ LogoutFrontchannel_Sid r <> []
         /\ (exists d, stored (view := view) (sh_sessions s) w
                         (session_key (sh_sessions s) (LogoutFrontchannel_Sid r)) d)
         /\ forall w2, reads view w' w2 ->
              is_ok (GetForID (sh_sessions s) (LogoutFrontchannel_Sid r) w2).1 = false).
Proof.
  revert Hrun. unfold logoutfrontchannel_Handler. cbv zeta.
  destruct (clear_session_cookies_spec s r new_response eq_refl) as (Hs1 & c & cs & Hc & Hd).
  cbn [new_response rw_Cookies app] in Hc. set (w1 := clear_session_cookies s r new_response) in *.
  destruct (WriteHeader_prefix StatusAccepted w1 c cs Hs1 Hc) as (Hacc & cs' & Hcs').
  assert (Haccepted : (exists c cs, rw_Cookies (WriteHeader StatusAccepted w1) = c :: cs
                         /\ deletes_session s r c)) by eauto.
  destruct (MissingSidParameter r) eqn:Em; [intros [= <- <-]; by split; [|left]|].
  unfold MissingSidParameter in Em. apply is_empty_false in Em. rewrite bind_run.
  set (sid := LogoutFrontchannel_Sid r) in *.
  destruct (GetForID (sh_sessions s) sid w) as [[d|e] w2] eqn:Eg; cbn [fst snd];
    [|intros [= <- <-]; by split; [|left]].
  rewrite bind_run. destruct (DestroyForID (sh_sessions s) sid w2) as [[[]|e] w3] eqn:Ed;
    cbn [fst snd]; [|intros [= <- <-]; by split; [|left]].
  intros [= <- <-]. split.
  - destruct (Clear_cookies RetryCookie (Standard_GetCookieOptsPathAware s r) w1) as [Hr Hs2];
      [by apply can_set_fixed; [set_solver|]|].
    rewrite WriteHeader_cookies, Hr, Hc. cbn [app]. eauto.
  - right. split; [by rewrite WriteHeader_status by (by rewrite Clear_status)|]. split; [done|].
    apply (GetForKey_spec HS HR) in Eg as [_ Hst]. split; [exists d; by apply Hst|].
    intros w4 [_ Hl]. apply (destroyForKey_spec HS HR) in Ed as [_ Hn].
    destruct (GetForID _ _ w4) as [[d'|e] w5] eqn:Eg'; [|done].
    apply (GetForKey_spec HS HR) in Eg' as [_ Hst']. destruct (Hst' d' eq_refl) as (x & Hx & _).
    apply (lookup_weaken _ _ _ _ Hx) in Hl. by rewrite Hn in Hl.
Qed.
End Statements.

(** ** Concrete runs *)

Import Example.

(** The request of a user agent after the login of [callback_run]. *)
Definition logged_in_request (query : string) : Request :=
  with_cookies (example_login_request query)
    [(SessionCookie, set_value SessionCookie callback_run.1)].
Definition logged_in_world : World AppStore := callback_run.2.

Definition logout_lookup : result Data * World AppStore :=
  Get example_handler (logged_in_request "/") logged_in_world.
Lemma logout_run : exists lo d w1,
  Client_Logout (logged_in_request "/") = Ok lo
  /\ Get example_handler (logged_in_request "/") logged_in_world = (Ok d, w1)
  /\ is_ok (DestroyForID example_handler (ExternalSessionID d) w1).1 = true.
Proof.
  assert (H : match logout_lookup with
              | (Ok d, w1) => is_ok (Client_Logout (logged_in_request "/"))
                              && is_ok (DestroyForID example_handler (ExternalSessionID d) w1).1
              | _ => false
              end = true) by (vm_compute; reflexivity).
  unfold logout_lookup in H. destruct (Get _ _ logged_in_world) as [[d|e] w1]; [|discriminate H].
  apply andb_true_iff in H as [H1 H2]. apply is_ok_true in H1 as [lo Hlo]. by exists lo, d, w1.
Qed.


Definition frontchannel_request : Request :=
  WithIngress (request_at (URL_with_query (URL_with_path empty_URL $"/app/oauth2/logout/frontchannel" [])
    $"sid=sid-1") (Some $"/app")) example_ingress.
Definition frontchannel_run : Response * World AppStore :=
  logoutfrontchannel_Handler app frontchannel_request new_response logged_in_world.
Lemma frontchannel_eq :
  logoutfrontchannel_Handler app frontchannel_request new_response logged_in_world
  = (frontchannel_run.1, frontchannel_run.2).
Proof. unfold frontchannel_run. by destruct (logoutfrontchannel_Handler _ _ _ _). Qed.
Lemma frontchannel_200 : rw_Status frontchannel_run.1 = Some StatusOK.
Proof. vm_compute. reflexivity. Qed.

Lemma frontchannel_spec_witness :
  is_ok (GetForID example_handler $"sid-1" frontchannel_run.2).1 = false.
Proof.
  destruct (frontchannel_spec app_laws app_retry_laws app
              frontchannel_request logged_in_world frontchannel_run.2 frontchannel_run.1
              frontchannel_eq) as [_ [H|(_ & _ & _ & H)]].
  - exfalso. rewrite frontchannel_200 in H. discriminate H.
  - exact (H frontchannel_run.2 (reads_refl _)).
Defined.
