(* ===== verification/SessionApi.v ===== *)
(** * Session metadata: [pkg/handler/api/session], [pkg/handler/api/sessionrefresh]

    Two routes that answer with the metadata of the session as JSON; the second
    refreshes it first. *)

From S2P Require Import Prelude GoStrings GoTime GoUrl GoUtf8 GoError GoJsonText GoRfc3339 GoJson Config Http Crypter Cookie Ingress RedirectUrl Openid Jwks Loginstatus OpenidClient SessionData Store Retry SessionHandler ErrorHandler AppState Standard Example LoginFlow LogoutFlow.

Section SessionApi.
Context {L : JwtLib} {C : JwkCache} {Key : Type} {O : OAuth2 Key} {E : Env} {A : AEAD} {S : Type}.
Context {St : Store S} {R : Retry S} {LC : Location}.
Context (s : StandardHandler Key).

(** The metadata response; a value that does not encode writes nothing. *)
Definition write_json (json : result str) (w : Response) : Response :=
  let w1 := SetContentType $"application/json" w in
  match json with
  | Ok body => Write body w1
  | Err _ => WriteHeader StatusInternalServerError w1
  end.

(** The metadata of the session route, with the refresh fields when enabled. *)
Definition session_json (d : Data) : M S (result str) :=
  if Refresh (cfg_Session (sh_config s))
  then json_Encode <$> VerboseWithRefresh (d_Metadata d)
  else json_Encode <$> Verbose (d_Metadata d).

(** The session route.  An inactive session would pass the switch with a nil
    session, whose metadata cannot be read: [None] is that panic. *)
Definition session_Handler (r : Request) (w : Response) : M S (option Response) :=
  data ← Get (sh_sessions s) r;
  match data with
  | Err e =>
      if errors_Is e ErrCookieNotFound || errors_Is e ErrKeyNotFound
      then mret (Some (WriteHeader StatusUnauthorized w))
      else if errors_Is e ErrSessionInactive then mret None
      else mret (Some (WriteHeader StatusInternalServerError w))
  | Ok d =>
      json ← session_json d;
      mret (Some (write_json json w))
  end.

(** The session refresh route. *)
Definition sessionrefresh_Handler (r : Request) (w : Response) : M S Response :=
  match GetKey (sh_sessions s) r with
  | Err _ => mret (WriteHeader StatusUnauthorized w)
  | Ok key =>
      data ← Get (sh_sessions s) r;
      match data with
      | Err e =>
          if errors_Is e ErrKeyNotFound || errors_Is e ErrSessionInactive
          then mret (WriteHeader StatusUnauthorized w)
          else mret (WriteHeader StatusInternalServerError w)
      | Ok data =>
          refreshed ← Handler_Refresh (sh_sessions s) key data;
          match refreshed with
          | Err e =>
              if errors_Is e ErrInvalidState then mret (WriteHeader StatusUnauthorized w)
              else mret (WriteHeader StatusInternalServerError w)
          | Ok data =>
              json ← json_Encode <$> VerboseWithRefresh (d_Metadata data);
              mret (write_json json w)
          end
      end
  end.

(** [StandardHandler.SessionRefresh] *)
Definition SessionRefresh (r : Request) (w : Response) : M S Response :=
  if negb (Refresh (cfg_Session (sh_config s))) then mret (http_NotFound w)
  else sessionrefresh_Handler r w.
End SessionApi.

(** ** Lemmas *)

Section Facts.
Context {L : JwtLib} {C : JwkCache} {Key : Type} {O : OAuth2 Key} {E : Env} {A : AEAD} {S : Type}.
Context {St : Store S} {R : Retry S} {LC : Location}.
Context {view : S -> gmap str EncryptedData} {HS : StoreLaws S view} {HR : RetryLaws S}.
Implicit Types (w : World S).

Lemma Get_spec (h : Handler Key) (r : Request) w res w' :
  Get h r w = (res, w') ->
  reads view w w'
  /\ match GetKey h r with
     | Err _ => w' = w /\ exists e, res = Err e /\ errors_Is e ErrCookieNotFound = true
     | Ok k => GetForKey h k w = (res, w') /\ forall d, res = Ok d -> stored (view := view) h w k d
     end.
Proof.
  unfold Get. destruct (GetKey h r) as [k|e] eqn:Ek.
  - unfold bindE, wrapM, fmap, M_fmap, pureR, mret, M_ret. cbn [wrap]. intros H.
    destruct (GetForKey_spec HS HR h _ _ _ _ H) as [Hr Hst]. by split.
  - unfold bindE, wrapM, fmap, M_fmap, pureR, mret, M_ret. cbn [wrap]. intros [= <- <-].
    split; [apply reads_refl|]. split; [done|]. eexists. split; [done|]. cbn.
    unfold GetKey, relabel in Ek. destruct (GetDecrypted _ _ _); [done|]. injection Ek as <-.
    cbn. by apply bool_decide_eq_true.
Qed.

(** The metadata is computed from the clock alone. *)
Lemma session_json_later (s : StandardHandler Key) (d : Data) w :
  exists n, (session_json s d w).2 = ticked n w.
Proof.
  unfold session_json. destruct (Refresh _); rewrite fmap_M_run; cbn [snd].
  - unfold VerboseWithRefresh. rewrite bind_run. cbn [fst snd time_Now step]. rewrite bind_run.
    match goal with |- context [Verbose ?m ?w1] => destruct (Verbose_run m w1) as [n ->] end.
    cbn [fst snd]. eexists (2 + (n + 1)). unfold NextRefresh, IsRefreshOnCooldown, mbind, M_bind, mret, M_ret.
    unfold ticked. cbn. f_equal. lia.
  - destruct (Verbose_run (d_Metadata d) w) as [n ->]. by exists n.
Qed.

(** The metadata a response reports, as a JSON tree. *)
Definition session_tree (s : StandardHandler Key) (d : Data) w : option json :=
  if Refresh (cfg_Session (sh_config s))
  then dump_struct MetadataVerboseWithRefresh_fields (VerboseWithRefresh (d_Metadata d) w).1
  else dump_struct MetadataVerbose_fields (Verbose (d_Metadata d) w).1.

Lemma Verbose_ints (m : Metadata) w :
  session_verbose_ints (mv_Session (Verbose m w).1) /\ tokens_verbose_ints (mv_Tokens (Verbose m w).1).
Proof.
  destruct (Verbose_run m w) as [n ->]. cbn [fst mv_Session mv_Tokens].
  split; [split|]; cbn; try apply toSeconds_Sub_int64.
  destruct (IsZero _); [by split|apply toSeconds_Sub_int64].
Qed.

Lemma VerboseWithRefresh_ints (m : Metadata) w :
  session_verbose_ints (mvr_Session (VerboseWithRefresh m w).1)
  /\ tokens_refresh_ints (mvr_Tokens (VerboseWithRefresh m w).1).
Proof.
  unfold VerboseWithRefresh. rewrite bind_run. cbn [fst snd time_Now step]. rewrite bind_run.
  match goal with |- context [Verbose m ?w1] => destruct (Verbose_ints m w1) as [Hs Ht] end.
  rewrite bind_run. cbn [fst snd]. rewrite bind_run. cbn [fst snd mret M_ret].
  split; [exact Hs|]. split; [exact Ht|]. split; apply toSeconds_Sub_int64.
Qed.

(** What the routes write is a line of JSON: that tree. *)
Lemma session_json_tree (s : StandardHandler Key) (d : Data) w (body : str) :
  (session_json s d w).1 = Ok body ->
  exists tree t, session_tree s d w = Some tree /\ body = t ++ [chr 10] /\ json_parse t = Some tree.
Proof.
  unfold session_json, session_tree. destruct (Refresh _); rewrite fmap_M_run; cbn [fst].
  - destruct (VerboseWithRefresh_ints (d_Metadata d) w). by apply MetadataVerboseWithRefresh_json.
  - destruct (Verbose_ints (d_Metadata d) w). by apply MetadataVerbose_json.
Qed.
End Facts.

(** ** Properties *)

Section Statements.
Context {L : JwtLib} {C : JwkCache} {Key : Type} {O : OAuth2 Key} {E : Env} {A : AEAD} {S : Type}.
Context {St : Store S} {R : Retry S} {LC : Location}.
Context {view : S -> gmap str EncryptedData} (HS : StoreLaws S view) (HR : RetryLaws S).
Context (s : StandardHandler Key).

(** C36: The session route never changes a session nor contacts the provider; it
    answers 401 exactly when the request has no session cookie that decrypts or
    the store reports the session missing, and 200 only with the JSON of the
    metadata of the session stored under the cookie's key: the body is one line
    that parses to the metadata's tree. *)
Theorem session_info_spec (r : Request) (w w' : World S) (rw : Response)
  (Hrun : session_Handler s r new_response w = (Some rw, w')) :
  reads view w w'
  /\ match GetKey (sh_sessions s) r with
     | Err _ => rw_Status rw = Some StatusUnauthorized
     | Ok k =>
         match (GetForKey (sh_sessions s) k w).1 with
         | Ok d => stored (view := view) (sh_sessions s) w k d /\
             match (session_json s d (GetForKey (sh_sessions s) k w).2).1 with
             | Ok body => rw_Status rw = Some StatusOK /\ rw_Body rw = body
                          /\ rw_ContentType rw = $"application/json"
                          /\ exists tree t,
                               session_tree s d (GetForKey (sh_sessions s) k w).2 = Some tree
                               /\ body = t ++ [chr 10] /\ json_parse t = Some tree
             | Err _ => rw_Status rw = Some StatusInternalServerError
             end
         | Err e =>
             rw_Body rw = []
             /\ rw_Status rw = Some (if errors_Is e ErrCookieNotFound || errors_Is e ErrKeyNotFound
                                     then StatusUnauthorized else StatusInternalServerError)
         end
     end.
Proof.
  revert Hrun. unfold session_Handler. rewrite bind_run.
  destruct (Get (sh_sessions s) r w) as [res w1] eqn:Eg. cbn [fst snd].
  destruct (Get_spec (HS := HS) (HR := HR) _ _ _ _ _ Eg) as [Hr Hk].
  destruct (GetKey (sh_sessions s) r) as [k|e0] eqn:Ek.
  - destruct Hk as [Hf Hst]. rewrite Hf. cbn [fst snd]. destruct res as [d|e].
    + rewrite bind_run. destruct (session_json_later s d w1) as [n Hn].
      pose proof (session_json_tree s d w1) as Htree.
      destruct (session_json s d w1) as [json w2]. cbn [fst snd] in *. subst w2.
      intros [= <- <-]. split; [eapply reads_trans; [exact Hr|by apply ticked_reads]|].
      split; [by apply Hst|]. destruct json as [body|]; [|done].
      repeat (split; [done|]). by apply Htree.
    + destruct (_ || _) eqn:Eb; [intros [= <- <-]; by rewrite ?Eb|].
      destruct (errors_Is e ErrSessionInactive); [done|]. by intros [= <- <-].
  - destruct Hk as [-> (e & -> & He)]. rewrite He. cbn [orb]. by intros [= <- <-].
Qed.

(** A session that timed out is "inactive" for the session route but an
    internal error for the refresh route: the route maps [ErrSessionInactive] to
    401 where it reads the session, which never reports it, and not where
    [Refresh] does. *)
Theorem inactive_refresh_is_500 (r : Request) (k : str) (d : Data) (w w1 w2 : World S)
  (Henabled : Refresh (cfg_Session (sh_config s)) = true)
  (Hkey : GetKey (sh_sessions s) r = Ok k)
  (Hread : GetForKey (sh_sessions s) k w = (Ok d, w1))
  (Hinactive : Handler_Refresh (sh_sessions s) k d w1 = (Err (Sentinel ErrSessionInactive), w2)) :
  rw_Status (SessionRefresh s r new_response w).1 = Some StatusInternalServerError.
Proof.
  unfold SessionRefresh, sessionrefresh_Handler. rewrite Henabled, Hkey. cbn [negb].
  rewrite bind_run. destruct (Get (sh_sessions s) r w) as [res w1'] eqn:Eg. cbn [fst snd].
  destruct (Get_spec (HS := HS) (HR := HR) _ _ _ _ _ Eg) as [_ Hk]. rewrite Hkey, Hread in Hk.
  destruct Hk as [[= <- <-] _]. rewrite bind_run, Hinactive. done.
Qed.
End Statements.

(** ** Concrete runs *)

Import Example.

(** Whether a metadata response reports the session as active. *)
Definition reported_active (body : str) : option bool :=
  v ← json_parse body;
  session ← member $"session" v;
  match member $"active" session with Some (JBool b) => Some b | _ => None end.

(** The state after the login, [t] seconds into the session. *)
Definition later_world (t : nat) : World AppStore := mkWorld t (w_store logged_in_world) [].
Definition info_run (t : nat) : option Response * World AppStore :=
  session_Handler app (logged_in_request "/") new_response (later_world t).

Lemma info_eq : exists rw,
  session_Handler app (logged_in_request "/") new_response (later_world 2000)
    = (Some rw, (info_run 2000).2)
  /\ rw_Status rw = Some StatusOK /\ reported_active (rw_Body rw) = Some false.
Proof.
  assert (H : match (info_run 2000).1 with
              | Some rw => bool_decide (rw_Status rw = Some StatusOK) && bool_decide (reported_active (rw_Body rw) = Some false)
              | None => false
              end = true) by (vm_compute; reflexivity).
  unfold info_run in *. destruct (session_Handler _ _ _ (later_world 2000)) as [[rw|] w']; [|discriminate H].
  cbn [fst] in H. apply andb_true_iff in H as [H1 H2]. exists rw. split; [done|].
  split; [by apply bool_decide_eq_true in H1|by apply bool_decide_eq_true in H2].
Qed.

Lemma session_info_spec_witness :
  reads (fun s : AppStore => s.1) (later_world 2000) (info_run 2000).2.
Proof.
  destruct info_eq as (rw & Heq & _).
  destruct (session_info_spec app_laws app_retry_laws app (logged_in_request "/") (later_world 2000)
              (info_run 2000).2 rw Heq) as [H _].
  exact H.
Defined.

Lemma read_then_fails {S : Type} (m : result Data * World S)
    (f : Data -> World S -> result Data * World S) (e : error) :
  match m with (Ok d, w1) => bool_decide ((f d w1).1 = Err e) | _ => false end = true ->
  exists d w1 w2, m = (Ok d, w1) /\ f d w1 = (Err e, w2).
Proof.
  destruct m as [[d|e'] w1]; [|done]. intros H%bool_decide_eq_true%run_eq. eauto.
Qed.

Lemma inactive_run : exists d w1 w2,
  GetForKey example_handler example_key (later_world 2000) = (Ok d, w1)
  /\ Handler_Refresh example_handler example_key d w1 = (Err (Sentinel ErrSessionInactive), w2).
Proof.
  apply (read_then_fails _ (Handler_Refresh example_handler example_key)). vm_compute. reflexivity.
Qed.
Lemma inactive_key : GetKey example_handler (logged_in_request "/") = Ok example_key.
Proof. vm_compute. reflexivity. Qed.

Lemma inactive_refresh_is_500_witness :
  rw_Status (SessionRefresh app (logged_in_request "/") new_response (later_world 2000)).1
  = Some StatusInternalServerError.
Proof.
  destruct inactive_run as (d & w1 & w2 & Hg & Hr).
  exact (inactive_refresh_is_500 app_laws app_retry_laws app
           (logged_in_request "/") example_key d (later_world 2000) w1 w2 eq_refl inactive_key Hg Hr).
Defined.
