(* ===== verification/ReverseProxy.v ===== *)
(** * The reverse proxy: [pkg/handler/reverseproxy/reverseproxy.go]

    Everything that is not a route of the program goes upstream, with the
    session's access token when there is one, or to the login endpoint.  The
    transport of the request itself ([httputil.ReverseProxy]) is not modelled:
    a run ends with the request handed to it. *)

From S2P Require Import Prelude GoStrings GoTime GoUrl GoUrlFacts GoError GoRfc3339 GoJson Config Http Crypter Cookie Ingress RedirectUrl Openid Jwks Loginstatus OpenidClient SessionData Store Retry SessionHandler ErrorHandler AutoLogin AppState Standard Example LoginFlow LogoutFlow.

Definition Authorization : str := $"Authorization".
Definition XForwardedFor : str := $"X-Forwarded-For".

(** [r.Header.Set] and the assignment of nil to a header's values. *)
Definition Header_Set (r : Request) (key : str) (values : list str) : Request :=
  mkRequest (rq_Method r) (rq_Proto r) (rq_URL r) (rq_Host r) (<[key := values]> (rq_Header r)) (rq_Cookies r)
    (ctx_Path r) (ctx_Ingress r) (ctx_AccessToken r) (ctx_RequestID r).

(** The request's URL with the upstream's scheme and host. *)
Definition with_upstream (r : Request) (host : str) : Request :=
  let u := rq_URL r in
  mkRequest (rq_Method r) (rq_Proto r)
    (mkURL $"http" (Opaque u) (User u) host (Path u) (RawPath u) (OmitHost u) (ForceQuery u)
       (RawQuery u) (Fragment u) (RawFragment u))
    (rq_Host r) (rq_Header r) (rq_Cookies r)
    (ctx_Path r) (ctx_Ingress r) (ctx_AccessToken r) (ctx_RequestID r).

(** The [Director] of [New]. *)
Definition Director (upstreamHost : str) (r : Request) : Request :=
  let r1 := with_upstream (Header_Set r XForwardedFor []) upstreamHost in
  match AccessTokenFrom r with
  | Some accessToken => Header_Set r1 Authorization [$"Bearer " ++ accessToken]
  | None => r1
  end.

(** The [ErrorHandler] of [New]. *)
Definition proxy_ErrorHandler (e : error) (w : Response) : Response :=
  if errors_Is e ContextCanceled then WriteHeader 499 w else WriteHeader StatusBadGateway w.

(** What becomes of a request: an answer, or the request sent upstream. *)
Inductive Served := Answered (w : Response) | Proxied (r : Request).

Section ReverseProxy.
Context {L : JwtLib} {C : JwkCache} {Key : Type} {O : OAuth2 Key} {E : Env} {A : AEAD} {S : Type}.
Context {St : Store S} {R : Retry S} {LC : Location} {D : Doublestar}.
Context (s : StandardHandler Key).

(** The token to send upstream: the session's, unless login status requires a
    new login.  Every error means an unauthenticated request. *)
Definition authenticate (r : Request) (accessToken : result str) : option str :=
  match accessToken with
  | Ok t => if LoginstatusNeedsLogin (sh_loginstatus s) r then None else Some t
  | Err _ => None
  end.

(** [ReverseProxy.Handler] *)
Definition proxy_Handler (r : Request) (w : Response) : M S Served :=
  accessToken ← GetAccessToken (sh_sessions s) r;
  let authentication := authenticate r accessToken in
  let isAuthenticated := bool_decide (is_Some authentication) in
  if AutoLoginNeedsLogin (sh_autoLogin s) r isAuthenticated then
    let redirectTarget := URL_String (rq_URL r) in
    let loginUrl := LoginURL (Standard_GetPath s r) redirectTarget in
    mret (Answered (http_Redirect r loginUrl StatusTemporaryRedirect w))
  else
    let r' := match authentication with Some t => WithAccessToken r t | None => r end in
    mret (Proxied (Director (sh_upstreamHost s) r')).
End ReverseProxy.

(** ** Lemmas *)

(** What the director keeps of a request, and what it sets. *)
Lemma Director_spec (host : str) (r : Request) :
  let r' := Director host r in
  Scheme (rq_URL r') = $"http" /\ Host (rq_URL r') = host
  /\ Path (rq_URL r') = Path (rq_URL r) /\ RawQuery (rq_URL r') = RawQuery (rq_URL r)
  /\ rq_Method r' = rq_Method r /\ rq_Host r' = rq_Host r /\ rq_Cookies r' = rq_Cookies r
  /\ rq_Header r' !! XForwardedFor = Some []
  /\ rq_Header r' !! Authorization =
       (match AccessTokenFrom r with
        | Some t => Some [$"Bearer " ++ t]
        | None => rq_Header r !! Authorization
        end)
  /\ forall k, k <> XForwardedFor -> k <> Authorization -> rq_Header r' !! k = rq_Header r !! k.
Proof.
  assert (Hne : Authorization <> XForwardedFor) by discriminate.
  unfold Director. cbv zeta. destruct (AccessTokenFrom r) as [t|]; cbn;
    repeat (split; [done|]).
  - rewrite lookup_insert_ne, lookup_insert_eq by done. split; [done|].
    rewrite lookup_insert_eq. split; [done|]. intros k H1 H2. by rewrite !lookup_insert_ne.
  - rewrite lookup_insert_eq. split; [done|]. rewrite lookup_insert_ne by done. split; [done|].
    intros k H1 _. by rewrite lookup_insert_ne.
Qed.

(** ** Properties *)

Section Statements.
Context {L : JwtLib} {C : JwkCache} {Key : Type} {O : OAuth2 Key} {E : Env} {A : AEAD} {S : Type}.
Context {St : Store S} {R : Retry S} {LC : Location} {D : Doublestar}.
Context {view : S -> gmap str EncryptedData} (HS : StoreLaws S view) (HR : RetryLaws S).
Context (HA : AEADLaws) (HK : KeygenLaw) (HZ : LocationLaws).
Context (s : StandardHandler Key).

(** A request whose session is not in the store goes upstream, if at all, with
    the credentials it came with. *)
Lemma proxy_without_session (r : Request) (v k : str) (w : World S) :
  lookup_cookie (rq_Cookies r) SessionCookie = Some v ->
  Cookie_Decrypt (h_crypter (sh_sessions s)) v = Ok k -> view (w_store w) !! k = None ->
  AccessTokenFrom r = None ->
  match (proxy_Handler s r new_response w).1 with
  | Proxied r' => rq_Header r' !! Authorization = rq_Header r !! Authorization
  | Answered rw => rw_Status rw = Some StatusTemporaryRedirect
  end.
Proof.
  intros Hv Hk Hn Hctx. unfold proxy_Handler. rewrite bind_run. cbv zeta.
  destruct (GetAccessToken (sh_sessions s) r w) as [[t|e] w1] eqn:Eg; cbn [fst snd].
  - exfalso. destruct (GetAccessToken_inv HS HR HA HK HZ (sh_sessions s) r w w1 t Eg)
      as (k' & d & i & Hk' & (e & He & _) & _).
    unfold GetDecrypted, Cookie.Get, Request_Cookie in Hk'. rewrite Hv in Hk'. cbn in Hk'.
    rewrite Hk in Hk'. congruence.
  - destruct (AutoLoginNeedsLogin _ _ _); [done|]. cbn [mret M_ret fst authenticate].
    destruct (Director_spec (sh_upstreamHost s) r) as (_ & _ & _ & _ & _ & _ & _ & _ & H & _).
    cbv zeta in H. by rewrite H, Hctx.
Qed.

End Statements.

(** ** Concrete runs *)

Import Example.

Definition proxied_request : Request :=
  with_cookies (request_at (URL_with_path empty_URL $"/app/api" []) (Some $"/app"))
    [(SessionCookie, set_value SessionCookie callback_run.1); ($"status", $"token")].
Definition proxy_run : Served * World AppStore :=
  proxy_Handler app proxied_request new_response logged_in_world.

Example proxy_answers :
  match proxy_run.1 with
  | Proxied r => (Host (rq_URL r), rq_Header r !! Authorization)
  | Answered _ => ([], None)
  end = ($"127.0.0.1:8080", Some [$"Bearer at"]).
Proof. vm_compute. reflexivity. Qed.
Lemma proxy_eq :
  exists r w', proxy_Handler app proxied_request new_response logged_in_world = (Proxied r, w').
Proof.
  assert (H : match proxy_run.1 with Proxied _ => true | Answered _ => false end = true)
    by (vm_compute; reflexivity).
  unfold proxy_run in H. destruct (proxy_Handler _ _ _ _) as [[rw|r] w']; [discriminate H|].
  by exists r, w'.
Qed.

