(* ===== verification/Completion.v ===== *)
(** * What succeeds when nothing fails

    The theorems about the routes say what an answer means; here is when there is
    one.  With random bytes, a store that answers ([StoreAvailable]), retries that
    are not cancelled ([RetryAvailable]) and a key of a valid length, sessions are
    created and looked up, cookies are set, a callback with redeemable tokens
    ends in a session, a request with its cookie goes upstream with its token,
    and a logout with it removes the session. *)

From S2P Require Import Prelude GoStrings GoTime GoBase64 GoUrl GoUtf8 GoError GoRfc3339 GoJsonText GoJson Config Http Crypter Cookie Ingress RedirectUrl Openid Jwks Loginstatus OpenidClient SessionData Store Retry SessionHandler ErrorHandler AutoLogin AppState Standard LoginFlow LogoutFlow ReverseProxy RefreshRefines.

(** ** Times that can be written *)

(** Between 1970 and 2554. *)
Definition modern (t : Time) : Prop := (unix_epoch <= t <= unix_epoch + 2 ^ 64)%Z.

Lemma civil_year (d : Z) : (0 <= d < 146097 * 24)%Z -> (1 <= (civil d).1.1 <= 9600)%Z.
Proof.
  intros Hd. unfold civil. pose proof (civil_parts d) as Hp. cbv zeta in Hp |- *.
  destruct (month_day _ _) as [m day]. cbn [fst]. destruct Hp as (H1 & H2 & H3 & _).
  assert (0 <= d / 146097 < 24)%Z by (split; [apply Z.div_pos|apply Z.div_lt_upper_bound]; lia). lia.
Qed.

Lemma modern_written `{LocationLaws} (t : Time) : modern t -> is_Some (dump_time t).
Proof.
  intros Ht. unfold dump_time, marshal_time. destruct (_ || _) eqn:E; [|by eexists]. exfalso.
  assert (Hz : exists m, zone_of t = (60 * m)%Z /\ (-1440 < m < 1440)%Z).
  { unfold zone_of. destruct (t =? zero_time)%Z; [by exists 0%Z|apply local_offset_minutes]. }
  destruct Hz as (m & Hm & Hb).
  assert (0 <= (t + zone_of t * Second) / day_ns < 146097 * 24)%Z as Hd.
  { unfold modern, day_ns, Hour, Minute, unix_epoch, Second in *. rewrite Hm.
    split; [apply Z.div_pos|apply Z.div_lt_upper_bound]; lia. }
  apply civil_year in Hd. unfold Year in E. apply orb_true_iff in E as [E|E]; to_prop; lia.
Qed.

(** ** Encryption *)

Class RandAvailable {E : Env} : Prop := {
  rand_available : forall i n, exists b, env_rand i n = Ok b;
  keygen_available : forall i n, exists b, env_keygen i n = Ok b }.

Section Encryption.
Context {E : Env} {A : AEAD} {S : Type} {HR : RandAvailable}.
Implicit Types (w : World S).

Lemma Encrypt_completes key p w :
  valid_aes_key key = true -> exists c, Encrypt key p w = (Ok c, ticked 2 w).
Proof.
  intros Hk. unfold Encrypt. rewrite Hk. unfold bindE. rewrite IV_run.
  destruct (keygen_available (1 + w_tick w) 4) as [b Hb]. rewrite Hb. by eexists.
Qed.

Lemma EncryptAndSet_completes {HA : AEADLaws} {HK : KeygenLaw} name value o key rw w :
  can_set rw name -> valid_aes_key key = true ->
  exists rw' w' c, EncryptAndSet name value o key rw w = ((Ok tt, rw'), w')
    /\ w_store w' = w_store w /\ rw_Status rw' = None
    /\ rw_Cookies rw' = rw_Cookies rw ++ [c]
    /\ Cookie_Decrypt key (ck_Value c) = Ok value
    /\ cookie_identity c = (name, cookie_domain o, cookie_path o).
Proof.
  intros Hcan Hk. pose proof (EncryptAndSet_frame w name value o key rw) as (Hst & _).
  destruct (EncryptAndSet name value o key rw w) as [[res rw'] w'] eqn:Es.
  destruct (EncryptAndSet_spec _ _ _ _ _ _ _ _ _ Hcan Es)
    as [(e & -> & ->)|(-> & Hs & _ & c & Hc & Hd & Hid & _)].
  - exfalso. revert Es. unfold EncryptAndSet. rewrite bind_run, Make_run. cbn [fst snd].
    rewrite bind_run. unfold Cookie_Encrypt, bindE, wrapM. rewrite fmap_M_run. cbn [ck_Value].
    match goal with |- context [Encrypt key value ?w0] =>
      destruct (Encrypt_completes key value w0 Hk) as [ct ->] end. discriminate.
  - by exists rw', w', c.
Qed.

Lemma Data_Encrypt_completes {HA : AEADLaws} {HK : KeygenLaw} `{!Location} {HZ : LocationLaws} key d w :
  valid_aes_key key = true ->
  Forall modern [CreatedAt (md_Session (d_Metadata d)); EndsAt (md_Session (d_Metadata d));
                 ExpireAt (md_Tokens (d_Metadata d)); RefreshedAt (md_Tokens (d_Metadata d))] ->
  (modern (TimeoutAt (md_Session (d_Metadata d))) \/ TimeoutAt (md_Session (d_Metadata d)) = zero_time) ->
  exists e, Data_Encrypt key d w = (Ok e, ticked 2 w)
    /\ EncryptedData_Decrypt key e = Ok (valid_data d).
Proof.
  intros Hk Ht Hto.
  assert (exists s, json_Marshal d = Ok s) as [s Hs].
  { destruct d as [sid at_ idt rt jti [[c e to] [x rf]]]. cbn in Ht, Hto. rewrite !Forall_cons in Ht.
    destruct Ht as ([vc Hc]%modern_written & [ve He]%modern_written & [vx Hx]%modern_written
                    & [vr Hr]%modern_written & _).
    assert (is_Some (dump_time to)) as [vt Hvt].
    { destruct Hto as [Hto| ->]; [by apply modern_written|]. by eexists. }
    unfold json_Marshal, Data_codec, struct_Marshal, dump_struct.
    cbn [Data_fields dump_members string_field struct_field field f_dump d_Metadata].
    unfold dump_struct at 1. cbn [Metadata_fields dump_members struct_field field f_dump md_Session md_Tokens].
    unfold dump_struct at 1. cbn [MetadataSession_fields dump_members time_field field f_dump CreatedAt EndsAt TimeoutAt].
    rewrite Hc, He, Hvt. unfold dump_struct at 1.
    cbn [MetadataTokens_fields dump_members time_field field f_dump ExpireAt RefreshedAt].
    rewrite Hx, Hr. by eexists. }
  destruct (Encrypt_completes key s w Hk) as [ct Hct].
  assert (Hrun : Data_Encrypt key d w = (Ok (mkEncryptedData (EncodeToString StdEncoding ct)), ticked 2 w)).
  { unfold Data_Encrypt, bindE, pureR, mret, M_ret. by rewrite Hs, Hct. }
  eexists. split; [exact Hrun|]. by eapply Decrypt_Data_Encrypt.
Qed.
End Encryption.

(** ** Sessions *)

(** A store that does what it is asked. *)
Class StoreAvailable (S : Type) {St : Store S} (view : S -> gmap str EncryptedData) : Prop := {
  write_available : forall k v d w, encrypted_text v = true ->
    exists w', store_Write k v d w = (Ok tt, w')
      /\ view (w_store w') = <[k := v]> (view (w_store w));
  read_available : forall k v w, view (w_store w) !! k = Some v ->
    exists w', store_Read k w = (Ok v, w') /\ (w_tick w' <= 4 + w_tick w)%nat
               /\ view (w_store w') = view (w_store w);
  delete_available : forall k v w, view (w_store w) !! k = Some v ->
    exists w', store_Delete [k] w = (Ok tt, w')
      /\ view (w_store w') = delete k (view (w_store w)) }.

(** [retry.Do], with a context that is not done, returns what succeeds at once. *)
Class RetryAvailable (S : Type) {R : Retry S} : Prop :=
  retry_available : forall X (f : M S (attempt X)) w x w',
    f w = (Success x, w') -> retry_Do f w = (Ok x, w').

(** A clock between 1970 and 2116. *)
Class ModernClock {E : Env} : Prop :=
  clock_modern : forall j, (unix_epoch <= env_now j <= unix_epoch + 2 ^ 62)%Z.

(** The in-memory store, also as a part of the state of the process. *)
#[export] Instance memory_available :
  StoreAvailable (St := Memory.memory_store) Memory.memorySessionStore (fun m => m).
Proof.
  split.
  - intros k v d w _. by eexists.
  - intros k v w Hv. exists w. split; [|split; [lia|done]]. cbn [store_Read Memory.memory_store].
    unfold Memory.memory_Read, on_store, Memory.Read. rewrite Hv. by destruct w.
  - intros k v w _. by eexists.
Qed.

#[export] Instance lifted_available {A B : Type} `{St : Store A} {view : A -> gmap str EncryptedData} :
  StoreAvailable A view -> StoreAvailable (A * B) (fun s => view s.1).
Proof.
  intros H. split.
  - intros k v d w Hv. destruct (write_available k v d (inner w) Hv) as (w' & Hw & Hvw).
    eexists. cbn [store_Write lifted_store]. rewrite lift_run, Hw. split; [done|]. exact Hvw.
  - intros k v w Hv. destruct (read_available k v (inner w) Hv) as (w' & Hr & Ht & Hvw).
    eexists. cbn [store_Read lifted_store]. rewrite lift_run, Hr. by split.
  - intros k v w Hv. destruct (delete_available k v (inner w) Hv) as (w' & Hw & Hvw).
    eexists. cbn [store_Delete lifted_store]. rewrite lift_run, Hw. split; [done|]. exact Hvw.
Qed.

Lemma toy_retry_available (n : nat) (S : Type) : RetryAvailable S (R := toy_retry n S).
Proof.
  intros X f w x w' Hf. unfold retry_Do, toy_retry. destruct n; cbn [retry_n]; by rewrite Hf.
Qed.

Section Sessions.
Context {L : JwtLib} {C : JwkCache} {Key : Type} {O : OAuth2 Key} {E : Env} {A : AEAD} {S : Type}.
Context {St : Store S} {R : Retry S} {LC : Location}.
Context {view : S -> gmap str EncryptedData} {HA : AEADLaws} {HK : KeygenLaw} {HZ : LocationLaws}.
Context {HR : RandAvailable} {HS : StoreAvailable S view} {HRe : RetryAvailable S}.
Context {HC : MonotoneClock} {HM : ModernClock}.
Context (h : Handler Key).
Implicit Types (w : World S).

Lemma Create_completes rq tokens lifetime w sid w1 :
  NewSessionID (oidc_Provider (h_openid h)) (tk_IDToken tokens) (URL_Query (rq_URL rq)) w
    = (Ok sid, w1) ->
  valid_aes_key (h_crypter h) = true -> Inactivity (h_cfg h) = false ->
  (0 <= lifetime <= max_int64)%Z ->
  (unix_epoch <= tk_Expiry tokens <= unix_epoch + 2 ^ 62 + Hour)%Z ->
  exists w' e md, Create h rq tokens lifetime w = (Ok (session_key h sid), w')
    /\ view (w_store w') = <[session_key h sid := e]> (view (w_store w))
    /\ EncryptedData_Decrypt (h_crypter h) e = Ok (valid_data (NewData sid tokens (Some md)))
    /\ (tk_Expiry tokens <= ExpireAt (md_Tokens md))%Z.
Proof.
  intros Hsid Hk Hina Hlife Hexp.
  pose proof (NewSessionID_frame (oidc_Provider (h_openid h)) (tk_IDToken tokens)
                (URL_Query (rq_URL rq)) w) as [Hfr _]. rewrite Hsid in Hfr. cbn [snd] in Hfr.
  destruct (initial_metadata_run h tokens lifetime w1) as (n & md & Hmd & Htok & Hcr & Hend & Hto).
  rewrite Hina in Hto.
  assert (M0 := clock_modern (w_tick w1)). assert (M1 := clock_modern (1 + w_tick w1)).
  assert (Hmono := clock_mono (w_tick w1) (1 + w_tick w1) ltac:(lia)).
  assert (Hsub : Sub (tk_Expiry tokens) (env_now (w_tick w1)) = (tk_Expiry tokens - env_now (w_tick w1))%Z).
  { unfold Sub, min_int64, max_int64, Hour, Minute, Second in *. cbv zeta.
    by rewrite !(proj2 (Z.ltb_ge _ _)) by lia. }
  destruct (Data_Encrypt_completes (h_crypter h) (NewData sid tokens (Some md)) (ticked n w1) Hk)
    as (e & He & Hdec).
  { change (d_Metadata (NewData sid tokens (Some md))) with md. rewrite Hcr, Hend, Htok, Hsub.
    unfold modern, max_int64, Hour, Minute, Second in *.
    cbn [ExpireAt RefreshedAt]. repeat (apply Forall_cons; split); [lia..|constructor]. }
  { right. exact Hto. }
  destruct (write_available (session_key h sid) e lifetime (ticked 2 (ticked n w1)))
    as (w' & Hw & Hv); [by eapply Data_Encrypt_text|].
  exists w', e, md. split; [|split; [|split; [exact Hdec|]]].
  - unfold Create, bindE at 1, wrapM at 1. rewrite fmap_M_run. unfold IDOrGenerate. rewrite Hsid.
    cbn [fst snd wrap]. rewrite bind_run, Hmd. cbn [fst snd]. unfold bindE at 1, wrapM at 1.
    rewrite fmap_M_run, He. cbn [fst snd wrap]. unfold bindE, wrapM. rewrite fmap_M_run.
    rewrite (retry_available _ _ _ tt w'); [done|]. by rewrite fmap_M_run, Hw.
  - by rewrite Hv, <- Hfr.
  - rewrite Htok, Hsub. cbn [ExpireAt]. lia.
Qed.

Lemma GetForKey_completes k e d w :
  view (w_store w) !! k = Some e -> EncryptedData_Decrypt (h_crypter h) e = Ok d ->
  exists w', GetForKey h k w = (Ok d, w') /\ (w_tick w' <= 4 + w_tick w)%nat
             /\ view (w_store w') = view (w_store w).
Proof.
  intros Hv Hd. destruct (read_available k e w Hv) as (w' & Hr & Ht). exists w'. split; [|exact Ht].
  unfold GetForKey, bindE, wrapM at 1. rewrite fmap_M_run.
  rewrite (retry_available _ _ _ e w'); [|by rewrite fmap_M_run, Hr].
  cbn [fst snd wrap]. unfold wrapM. rewrite fmap_M_run. cbn [pureR mret M_ret fst snd]. by rewrite Hd.
Qed.

Lemma DestroyForID_completes sid e w :
  view (w_store w) !! session_key h sid = Some e ->
  exists w', DestroyForID h sid w = (Ok tt, w')
    /\ view (w_store w') = delete (session_key h sid) (view (w_store w)).
Proof.
  intros He. destruct (delete_available _ e w He) as (w' & Hw & Hv). exists w'. split; [|exact Hv].
  unfold DestroyForID, destroyForKey, wrapM. rewrite fmap_M_run.
  rewrite (retry_available _ _ _ tt w'); [done|]. by rewrite fmap_M_run, Hw.
Qed.

Lemma GetAccessToken_completes rq k e d w :
  GetKey h rq = Ok k -> view (w_store w) !! k = Some e ->
  EncryptedData_Decrypt (h_crypter h) e = Ok d ->
  Inactivity (h_cfg h) = false -> Refresh (h_cfg h) = false -> AccessToken d <> [] ->
  (forall j, (j <= 4 + w_tick w)%nat -> (env_now j <= ExpireAt (md_Tokens (d_Metadata d)))%Z) ->
  exists w', GetAccessToken h rq w = (Ok (AccessToken d), w').
Proof.
  intros Hk Hv Hd Hina Href Ha Hexp.
  destruct (GetForKey_completes k e d w Hv Hd) as (w1 & Hg & Ht & _).
  exists (ticked 1 w1). unfold GetAccessToken, bindE at 1.
  assert (Hgr : GetOrRefresh h rq w = (Ok d, w1)).
  { unfold GetOrRefresh, bindE, pureR, mret, M_ret. rewrite Hk, Hg. rewrite bind_run.
    unfold isTimedOut. rewrite Hina. cbn [fst snd mret M_ret]. rewrite bind_run.
    unfold shouldRefresh. rewrite Href. done. }
  rewrite Hgr. unfold HasAccessToken. rewrite (proj2 (is_empty_false _) Ha). cbn [negb].
  rewrite bind_run, IsExpired_run. cbn [fst snd].
  assert (After (env_now (w_tick w1)) (ExpireAt (md_Tokens (d_Metadata d))) = false) as ->.
  { unfold After. apply Z.ltb_ge. by apply Hexp. }
  done.
Qed.
End Sessions.

(** ** The routes *)

Section Routes.
Context {L : JwtLib} {C : JwkCache} {Key : Type} {O : OAuth2 Key} {E : Env} {A : AEAD} {S : Type}.
Context {St : Store S} {R : Retry S} {J : JwksState S} {T : ErrorTemplate} {LC : Location} {D : Doublestar}.
Context {view : S -> gmap str EncryptedData} {HA : AEADLaws} {HK : KeygenLaw} {HZ : LocationLaws}.
Context {HR : RandAvailable} {HS : StoreAvailable S view} {HRe : RetryAvailable S}.
Context {HC : MonotoneClock} {HM : ModernClock}.
Context (s : StandardHandler Key).
Implicit Types (w : World S).

(** A deployment without inactivity, refresh and login status, and with a key
    that is one. *)
Record plain_deployment : Prop := {
  pd_wf : standard_wf s;
  pd_key : valid_aes_key (sh_crypter s) = true;
  pd_inactivity : Inactivity (cfg_Session (sh_config s)) = false;
  pd_refresh : Refresh (cfg_Session (sh_config s)) = false;
  pd_lifetime : (0 <= MaxLifetime (cfg_Session (sh_config s)) <= max_int64)%Z;
  pd_loginstatus : Enabled (sh_loginstatus s) = false }.

Context (Hp : plain_deployment).

(** The session of a login. *)
Definition session_of (m : gmap str EncryptedData) (k sid : str) (tokens : Tokens) : Prop :=
  exists e md, m !! k = Some e
    /\ EncryptedData_Decrypt (sh_crypter s) e = Ok (valid_data (NewData sid tokens (Some md)))
    /\ (tk_Expiry tokens <= ExpireAt (md_Tokens md))%Z.

(** A login that has its authorization request sends it, with two cookies that
    lead back to the attempt. *)
Lemma login_completes r l w w1 :
  Client_Login (sh_client s) r w = (Ok l, w1) ->
  let out := login_Handler s r new_response w in
  rw_Status out.1 = Some StatusTemporaryRedirect
  /\ rw_Location out.1 = Some (redirect_target r (lg_authCodeURL l))
  /\ exists c1 c2, rw_Cookies out.1 = [c1; c2]
       /\ ck_Name c1 = LoginCookieName /\ ck_Name c2 = LoginLegacyCookieName
       /\ forall r',
            (lookup_cookie (rq_Cookies r') LoginCookieName = Some (ck_Value c1)
             \/ lookup_cookie (rq_Cookies r') LoginCookieName = None
                /\ lookup_cookie (rq_Cookies r') LoginLegacyCookieName = Some (ck_Value c2)) ->
            GetLoginCookie r' (sh_crypter s) = Ok (valid_cookie (lg_cookie l)).
Proof.
  intros Hl. destruct Hp as [_ Hkey _ _ _ _].
  assert (exists value, json_Marshal (lg_cookie l) = Ok value) as [value Hv].
  { by destruct (lg_cookie l); eexists. }
  destruct (EncryptAndSet_completes LoginCookieName value (login_cookie_options s r) (sh_crypter s)
              new_response w1) as (rw1 & w2 & c1 & E1 & _ & Hs1 & Hc1 & Hd1 & Hi1);
    [by apply can_set_fixed; [set_solver|]|done|].
  destruct (EncryptAndSet_completes LoginLegacyCookieName value
              (WithSameSite (login_cookie_options s r) SameSiteDefaultMode) (sh_crypter s) rw1 w2)
    as (rw2 & w3 & c2 & E2 & _ & Hs2 & Hc2 & Hd2 & Hi2); [by apply can_set_fixed; [set_solver|]|done|].
  destruct (http_Redirect_fresh r (lg_authCodeURL l) StatusTemporaryRedirect rw2 Hs2) as (Hst & Hloc & Hck).
  assert (Hout : login_Handler s r new_response w
                 = (http_Redirect r (lg_authCodeURL l) StatusTemporaryRedirect rw2, w3)).
  { unfold login_Handler, setLoginCookies. rewrite bind_run, Hl. cbn [fst snd]. rewrite Hv. cbv zeta.
    rewrite bind_run, bind_run, E1. cbn [fst snd]. rewrite E2. done. }
  rewrite Hout. cbn [fst snd]. split; [exact Hst|]. split; [exact Hloc|]. exists c1, c2.
  rewrite Hck, Hc2, Hc1. split; [done|]. split; [by eapply cookie_name|].
  split; [by eapply cookie_name|]. intros r' Hr'.
  exact (GetLoginCookie_carried _ _ _ _ _ _ Hv Hd1 Hd2 Hr').
Qed.

Lemma callback_completes r lc cb w tokens w1 sid w2 :
  checked_callback s r = inl (lc, cb) ->
  RedeemTokens (sh_client s) cb w = (Ok tokens, w1) -> w_store w1 = w_store w ->
  NewSessionID (oidc_Provider (sh_openidConfig s)) (tk_IDToken tokens) (URL_Query (rq_URL r)) w1
    = (Ok sid, w2) ->
  (unix_epoch <= tk_Expiry tokens <= unix_epoch + 2 ^ 62 + Hour)%Z ->
  let out := logincallback_Handler s r new_response w in
  let k := session_key (sh_sessions s) sid in
  rw_Status out.1 = Some StatusTemporaryRedirect
  /\ rw_Location out.1 = Some (redirect_target r (lc_Referer lc))
  /\ (exists c, c ∈ rw_Cookies out.1 /\ Cookie_Decrypt (sh_crypter s) (ck_Value c) = Ok k
        /\ cookie_identity c = (SessionCookie, cookie_domain (sh_cookieOptions s),
                                cookie_path (Standard_GetCookieOptsPathAware s r)))
  /\ session_of (view (w_store out.2)) k sid tokens
  /\ forall k', k' <> k -> view (w_store out.2) !! k' = view (w_store w) !! k'.
Proof.
  intros Hcb Hred Hfr Hsid Hexp out k. destruct Hp as [(Hoc & _ & Hhc & Hcr & Hcfg) Hkey Hina _ Hlife Hls].
  assert (Hoid : h_openid (sh_sessions s) = sh_openidConfig s) by (unfold h_openid; by rewrite Hhc).
  destruct (Create_completes (sh_sessions s) r tokens (MaxLifetime (cfg_Session (sh_config s))) w1 sid w2)
    as (w3 & e & md & Hcreate & Hview & Hdec & Hex); rewrite ?Hoid, ?Hcr, ?Hcfg; try done.
  destruct (clearLoginCookies_spec s r new_response eq_refl) as (Hs0 & c1 & c2 & Hc0 & _).
  set (rw0 := clearLoginCookies s r new_response) in *.
  set (o := WithExpiresIn (Standard_GetCookieOptsPathAware s r) (MaxLifetime (cfg_Session (sh_config s)))).
  destruct (EncryptAndSet_completes SessionCookie k o (sh_crypter s) rw0 w3)
    as (rw1 & w4 & c & Hset & Hst4 & Hs1 & Hck & Hcd & Hci); [by apply can_set_fixed; [set_solver|]|done|].
  assert (Hcs : create_session s r cb rw0 w = ((Ok tokens, rw1), w4)).
  { unfold create_session. rewrite bind_run. unfold redeemValidTokens.
    rewrite (retry_available _ _ _ tokens w1); [|by rewrite fmap_M_run, Hred].
    cbn [fst snd]. rewrite bind_run, Hcreate. cbn [fst snd]. fold k o. by rewrite bind_run, Hset. }
  assert (Hout : out = (http_Redirect r (lc_Referer lc) StatusTemporaryRedirect
                   (Clear RetryCookie (Standard_GetCookieOptsPathAware s r) rw1), w4)).
  { unfold out, logincallback_Handler. cbv zeta. rewrite Hcb, bind_run. fold rw0. rewrite Hcs.
    cbn [fst snd]. rewrite bind_run. unfold set_loginstatus. by rewrite Hls. }
  destruct (Clear_cookies RetryCookie (Standard_GetCookieOptsPathAware s r) rw1) as [Hk2 Hs2];
    [by apply can_set_fixed; [set_solver|]|].
  destruct (http_Redirect_fresh r (lc_Referer lc) StatusTemporaryRedirect _ Hs2) as (Hst & Hloc & Hcks).
  rewrite Hout. cbn [fst snd]. split; [exact Hst|]. split; [exact Hloc|]. split; [|split].
  - exists c. split; [|by split]. rewrite Hcks, Hk2, Hck. set_solver.
  - rewrite Hst4, Hview. exists e, md. unfold k. rewrite lookup_insert_eq. split; [done|].
    rewrite <- Hcr. by split.
  - intros k' Hne. rewrite Hst4, Hview, Hfr. by apply lookup_insert_ne.
Qed.

(** A request with the cookie of a session goes upstream with its token. *)
Lemma proxy_completes r v k sid tokens w :
  lookup_cookie (rq_Cookies r) SessionCookie = Some v ->
  Cookie_Decrypt (sh_crypter s) v = Ok k ->
  session_of (view (w_store w)) k sid tokens ->
  tk_AccessToken tokens <> [] -> valid_utf8 (tk_AccessToken tokens) = true ->
  (forall j, (j <= 4 + w_tick w)%nat -> (env_now j <= tk_Expiry tokens)%Z) ->
  exists w', proxy_Handler s r new_response w
    = (Proxied (Director (sh_upstreamHost s) (WithAccessToken r (tk_AccessToken tokens))), w').
Proof.
  intros Hv Hk (e & md & He & Hd & Hex) Ha Hu Hexp.
  destruct Hp as [(_ & _ & _ & Hcr & Hcfg) _ Hina Href _ Hls].
  assert (Htok : AccessToken (valid_data (NewData sid tokens (Some md))) = tk_AccessToken tokens).
  { cbn. by apply to_valid_id. }
  destruct (GetAccessToken_completes (sh_sessions s) r k e
              (valid_data (NewData sid tokens (Some md))) w) as (w' & Hg);
    rewrite ?Hcfg, ?Hcr, ?Htok; try done.
  { unfold GetKey, GetDecrypted, Cookie.Get, Request_Cookie. rewrite Hv, Hcr. cbn. by rewrite Hk. }
  { intros j Hj. etransitivity; [by apply Hexp|]. exact Hex. }
  exists w'. unfold proxy_Handler. rewrite bind_run, Hg, Htok. cbn [fst snd].
  unfold authenticate, LoginstatusNeedsLogin, Enabled in *. by rewrite Hls.
Qed.

(** A logout with the cookie of a session redirects to the end of the session at
    the provider, with the session's id_token, and the session is gone. *)
Lemma logout_completes r v sid tokens lo w :
  lookup_cookie (rq_Cookies r) SessionCookie = Some v ->
  Cookie_Decrypt (sh_crypter s) v = Ok (session_key (sh_sessions s) sid) ->
  session_of (view (w_store w)) (session_key (sh_sessions s) sid) sid tokens ->
  valid_utf8 sid = true -> Client_Logout r = Ok lo ->
  let out := logout_Handler s r true new_response w in
  rw_Status out.1 = Some StatusTemporaryRedirect
  /\ rw_Location out.1 = Some (redirect_target r (SingleLogoutURL (sh_client s) lo
                                  (to_valid (GetSerialized (tk_IDToken tokens)))))
  /\ (exists c cs, rw_Cookies out.1 = c :: cs /\ deletes_session s r c)
  /\ view (w_store out.2) = delete (session_key (sh_sessions s) sid) (view (w_store w)).
Proof.
  intros Hv Hk (e & md & He & Hd & _) Hutf Hlo out.
  destruct Hp as [(_ & _ & _ & Hcr & _) _ _ _ _ _]. rewrite <- Hcr in Hk, Hd.
  destruct (GetForKey_completes (sh_sessions s) _ e _ w He Hd) as (w1 & Hg & _ & Hv1).
  destruct (DestroyForID_completes (sh_sessions s) sid e w1) as (w2 & Hdel & Hv2); [by rewrite Hv1|].
  assert (Hds : destroy_session s r w = (Ok (to_valid (GetSerialized (tk_IDToken tokens))), w2)).
  { unfold destroy_session. rewrite bind_run.
    assert (Get (sh_sessions s) r w = (Ok (valid_data (NewData sid tokens (Some md))), w1)) as ->.
    { unfold Get, bindE, wrapM. rewrite fmap_M_run.
      assert (GetKey (sh_sessions s) r = Ok (session_key (sh_sessions s) sid)) as ->.
      { unfold GetKey, GetDecrypted, Cookie.Get, Request_Cookie. rewrite Hv. cbn. by rewrite Hk. }
      exact Hg. }
    cbn [fst snd valid_data NewData ExternalSessionID]. rewrite to_valid_id by done.
    by rewrite bind_run, Hdel. }
  destruct (clear_session_cookies_spec s r new_response eq_refl) as (Hs1 & c & cs & Hc & Hdc).
  cbn [new_response rw_Cookies app] in Hc.
  destruct (http_Redirect_fresh r (SingleLogoutURL (sh_client s) lo
              (to_valid (GetSerialized (tk_IDToken tokens)))) StatusTemporaryRedirect _ Hs1)
    as (H1 & H2 & H3).
  unfold out, logout_Handler. rewrite Hlo, bind_run, Hds. cbn [fst snd mret M_ret].
  split; [exact H1|]. split; [exact H2|]. split; [|by rewrite Hv2, Hv1].
  exists c, cs. by rewrite H3, Hc.
Qed.
End Routes.

(** The identifier of a session: from the id_token, the callback or at random. *)
Lemma NewSessionID_completes {L : JwtLib} {E : Env} {HR : RandAvailable} {S : Type} (p : Provider)
    (t : Token) (params : Values) (w : World S) :
  (SidClaimRequired p = true -> is_ok (GetSidClaim t) = true) ->
  (SessionStateRequired p = true -> Values_Get params P_SessionState <> []) ->
  exists sid w', NewSessionID p t params w = (Ok sid, w').
Proof.
  intros Hs Hst. unfold NewSessionID. destruct (GetSidClaim t) as [sid|e]; [by eexists _, _|].
  destruct (SidClaimRequired p); [by specialize (Hs eq_refl)|].
  unfold getSessionStateFrom. destruct (is_empty _) eqn:Ee; [|by eexists _, _].
  apply is_empty_true in Ee. destruct (SessionStateRequired p); [by apply Hst in Ee|].
  unfold wrapM. rewrite fmap_M_run, GenerateBase64_run.
  destruct (rand_available (w_tick w) 64) as [b ->]. by eexists _, _.
Qed.
