(* ===== verification/Router.v ===== *)
(** * Routing: [pkg/router/router.go], [pkg/middleware/correlationid.go]

    Every ingress path has its own set of [/oauth2] routes; everything else is
    proxied.  The chi router is a parameter, with two documented behaviours: a
    request for a registered literal route runs its handler, and a request
    outside every mounted prefix reaches the catch-all. *)

From S2P Require Import Prelude GoStrings GoTime GoUrl GoError GoRfc3339 GoJson Config Http Crypter Cookie Ingress RedirectUrl Openid Jwks Loginstatus OpenidClient SessionData Store Retry SessionHandler ErrorHandler AutoLogin AppState Standard Example LoginFlow LogoutFlow SessionApi ReverseProxy.

(** The methods of [Handlers]. *)
Inductive Endpoint :=
| ToLogin | ToLoginCallback | ToLogout | ToLogoutCallback | ToLogoutFrontChannel | ToLogoutLocal
| ToSession | ToSessionRefresh.
#[global] Instance Endpoint_eq_dec : EqDecision Endpoint.
Proof. solve_decision. Defined.

Definition MethodPost : str := $"POST".
Definition RequestIDHeader : str := $"X-Request-Id".

(** The routes registered under each prefix: method, path, handler. *)
Definition oauth2_routes : list (str * str * Endpoint) :=
  [(MethodGet, PathLogin, ToLogin); (MethodGet, PathLoginCallback, ToLoginCallback);
   (MethodGet, PathLogout, ToLogout); (MethodGet, PathLogoutCallback, ToLogoutCallback);
   (MethodGet, PathLogoutFrontChannel, ToLogoutFrontChannel);
   (MethodGet, PathLogoutLocal, ToLogoutLocal); (MethodGet, PathSession, ToSession);
   (MethodGet, PathSessionRefresh, ToSessionRefresh);
   (MethodPost, PathSessionRefresh, ToSessionRefresh)].

(** The mounts of [New]: the prefix and its routes. *)
Definition Mount : Type := str * list (str * str * Endpoint).
Definition mounts (prefixes : list str) : list Mount :=
  map (fun prefix => (prefix ++ RedirectUrl.OAuth2, oauth2_routes)) prefixes.

(** Every registered method, full path and handler. *)
Definition full_routes (ms : list Mount) : list (str * str * Endpoint) :=
  ms ≫= fun '(pre, rs) => map (fun '(m, sub, e) => (m, pre ++ sub, e)) rs.

(** The answer of the chi router. *)
Inductive Dispatch := Matched (e : Endpoint) | NoSuchRoute | MethodNotAllowed | CatchAll.
#[global] Instance Dispatch_eq_dec : EqDecision Dispatch.
Proof. solve_decision. Defined.
Class Mux := mux_dispatch : list Mount -> str -> str -> Dispatch.

Definition literal_pattern (p : str) : bool := negb (existsb (fun c => Contains $"{}*" c) p).
Class MuxLaws `{X : Mux} : Prop := {
  mux_matched : forall prefixes m p e,
    forallb literal_pattern prefixes = true ->
    NoDup (map fst (full_routes (mounts prefixes))) -> (m, p, e) ∈ full_routes (mounts prefixes) ->
    mux_dispatch (mounts prefixes) m p = Matched e;
  mux_catch_all : forall prefixes m p,
    (forall q, q ∈ prefixes ->
       p <> q ++ RedirectUrl.OAuth2 /\ HasPrefix p ((q ++ RedirectUrl.OAuth2) ++ $"/") = false) ->
    mux_dispatch (mounts prefixes) m p = CatchAll;
}.

(** [CorrelationIDHandler]: the request passed on. *)
Definition CorrelationIDHandler {E : Env} {S} (r : Request) : M S Request :=
  let id := Header_Get r RequestIDHeader in
  if is_empty id then fresh ← uuid_New; mret (WithRequestID r fresh)
  else mret (WithRequestID r id).

Section Router.
Context {L : JwtLib} {C : JwkCache} {Key : Type} {O : OAuth2 Key} {E : Env} {A : AEAD} {S : Type}.
Context {St : Store S} {R : Retry S} {J : JwksState S} {T : ErrorTemplate} {D : Doublestar}.
Context {LC : Location} {X : Mux} {MO : MapOrder}.
Context (s : StandardHandler Key).

(** The methods of [StandardHandler] that are routes ([SessionRefresh] is in
    [SessionApi]); [GlobalLogout] is the option that tells two of them apart. *)
Definition Standard_Login (r : Request) (w : Response) : M S Response := login_Handler s r w.
Definition Standard_LoginCallback (r : Request) (w : Response) : M S Response :=
  logincallback_Handler s r w.
Definition Standard_Logout (r : Request) (w : Response) : M S Response := logout_Handler s r true w.
Definition Standard_LogoutLocal (r : Request) (w : Response) : M S Response :=
  logout_Handler s r false w.
Definition Standard_LogoutCallback (r : Request) (w : Response) : M S Response :=
  mret (logoutcallback_Handler s r w).
Definition Standard_LogoutFrontChannel (r : Request) (w : Response) : M S Response :=
  logoutfrontchannel_Handler s r w.
Definition Standard_Session (r : Request) (w : Response) : M S (option Response) :=
  session_Handler s r w.
Definition Standard_ReverseProxy (r : Request) (w : Response) : M S Served := proxy_Handler s r w.

(** The handlers; [Recoverer] answers a panic with 500. *)
Definition run_endpoint (e : Endpoint) (r : Request) : M S Response :=
  let w := new_response in
  match e with
  | ToLogin => Standard_Login r w
  | ToLoginCallback => Standard_LoginCallback r w
  | ToLogout => Standard_Logout r w
  | ToLogoutLocal => Standard_LogoutLocal r w
  | ToLogoutCallback => Standard_LogoutCallback r w
  | ToLogoutFrontChannel => Standard_LogoutFrontChannel r w
  | ToSession =>
      res ← Standard_Session r w;
      mret (match res with Some w' => w' | None => WriteHeader StatusInternalServerError w end)
  | ToSessionRefresh => SessionRefresh s r w
  end.

(** The request as the handlers get it. *)
Definition prepare (r : Request) : M S Request :=
  r' ← CorrelationIDHandler r;
  mret (IngressMiddleware (sh_ingresses s) r').

(** The router of [New], serving a request. *)
Definition serve (r : Request) : M S Served :=
  r' ← prepare r;
  match mux_dispatch (mounts (ing_paths (sh_ingresses s))) (rq_Method r') (Path (rq_URL r')) with
  | Matched e => Answered <$> run_endpoint e r'
  | NoSuchRoute => mret (Answered (http_NotFound new_response))
  | MethodNotAllowed => mret (Answered (WriteHeader 405 new_response))
  | CatchAll => Standard_ReverseProxy r' new_response
  end.
End Router.

(** ** Lemmas *)

(** No route path ends with another one, so the prefix of a route is determined
    by its full path. *)
Lemma oauth2_suffix_free :
  forallb (fun x => forallb (fun y =>
      streq x.1.2 y.1.2 || negb (HasSuffix (RedirectUrl.OAuth2 ++ x.1.2) (RedirectUrl.OAuth2 ++ y.1.2)))
    oauth2_routes) oauth2_routes = true.
Proof. vm_compute. reflexivity. Qed.

Lemma oauth2_keys : NoDup (map fst oauth2_routes).
Proof. by apply (bool_decide_unpack _). Qed.

Lemma app_eq_suffix {X} (a b x y : list X) :
  a ++ x = b ++ y -> (exists t, x = t ++ y) \/ (exists t, y = t ++ x).
Proof.
  revert b. induction a as [|c a IH]; intros b H; [left; by exists b|].
  destruct b as [|d b]; [right; by exists (c :: a)|]. injection H as _ H. by apply (IH b).
Qed.

Lemma route_decomposition (p q m m' sub sub' : str) (e e' : Endpoint) :
  (m, sub, e) ∈ oauth2_routes -> (m', sub', e') ∈ oauth2_routes ->
  (p ++ RedirectUrl.OAuth2) ++ sub = (q ++ RedirectUrl.OAuth2) ++ sub' -> p = q /\ sub = sub'.
Proof.
  intros H1 H2. rewrite <- !app_assoc. intros Heq.
  pose proof oauth2_suffix_free as Hf. rewrite forallb_forall in Hf.
  assert (Hs : forall x y, x ∈ oauth2_routes -> y ∈ oauth2_routes ->
     forall t, RedirectUrl.OAuth2 ++ x.1.2 = t ++ RedirectUrl.OAuth2 ++ y.1.2 -> x.1.2 = y.1.2).
  { intros x y Hx Hy t Ht. apply list_elem_of_In, Hf in Hx. rewrite forallb_forall in Hx.
    apply list_elem_of_In, Hx in Hy. apply orb_true_iff in Hy as [Hy|Hy]; [by apply streq_true|].
    apply negb_true_iff in Hy. rewrite Ht in Hy. exfalso.
    assert (HasSuffix (t ++ RedirectUrl.OAuth2 ++ y.1.2) (RedirectUrl.OAuth2 ++ y.1.2) = true)
      by (apply HasSuffix_spec; by exists t). congruence. }
  assert (Hsub : sub = sub').
  { destruct (app_eq_suffix _ _ _ _ Heq) as [[t Ht]|[t Ht]].
    - by apply (Hs _ _ H1 H2 t).
    - symmetry. by apply (Hs _ _ H2 H1 t). }
  subst sub'. split; [|done]. by apply app_inv_tail in Heq.
Qed.

(** Distinct ingress paths give distinct routes. *)
Lemma full_routes_NoDup (prefixes : list str) :
  NoDup prefixes -> NoDup (map fst (full_routes (mounts prefixes))).
Proof.
  induction prefixes as [|p prefixes IH]; intros Hnd; [constructor|].
  apply NoDup_cons in Hnd as [Hp Hnd]. unfold full_routes, mounts. cbn [map mbind list_bind].
  rewrite map_app. apply NoDup_app. split; [|split; [|by apply IH]].
  - rewrite map_map. pose proof oauth2_keys as Hk. revert Hk. generalize oauth2_routes.
    intros rs Hk. induction rs as [|[[m sub] e] rs IHr]; [constructor|].
    cbn [map] in *. apply NoDup_cons in Hk as [Hm Hk]. apply NoDup_cons. split; [|by apply IHr].
    intros Hin. apply Hm. apply list_elem_of_In, in_map_iff in Hin as ([[m' sub'] e'] & Heq & Hin).
    cbn in Heq. injection Heq as -> Hsub. apply app_inv_head in Hsub as ->.
    apply list_elem_of_In, in_map_iff. by exists (m, sub, e').
  - intros [m path] Hin Hin2.
    apply list_elem_of_In, in_map_iff in Hin as ([[m1 p1] e1] & [= -> ->] & Hin).
    apply in_map_iff in Hin as ([[m2 sub] e2] & [= -> <- ->] & Hin%list_elem_of_In).
    apply list_elem_of_In, in_map_iff in Hin2 as ([[m3 p3] e3] & [= -> ->] & Hin2%list_elem_of_In).
    apply list_elem_of_bind in Hin2 as ([pre rs] & Hr & Hm).
    apply list_elem_of_In, in_map_iff in Hm as (q & [= <- <-] & Hq%list_elem_of_In).
    apply list_elem_of_In, in_map_iff in Hr as ([[m4 sub4] e4] & [= -> Heq ->] & Hr%list_elem_of_In).
    symmetry in Heq. destruct (route_decomposition p q m m sub sub4 e1 e3 Hin Hr Heq) as [-> _]. done.
Qed.

Lemma mount_route (prefixes : list str) (p m sub : str) (e : Endpoint) :
  p ∈ prefixes -> (m, sub, e) ∈ oauth2_routes ->
  (m, p ++ RedirectUrl.OAuth2 ++ sub, e) ∈ full_routes (mounts prefixes).
Proof.
  intros Hp He. unfold full_routes. apply list_elem_of_bind.
  exists (p ++ RedirectUrl.OAuth2, oauth2_routes). split.
  - apply list_elem_of_In, in_map_iff. exists (m, sub, e). split; [by rewrite app_assoc|].
    by apply list_elem_of_In.
  - apply list_elem_of_In, in_map_iff. exists p. split; [done|]. by apply list_elem_of_In.
Qed.

Lemma prepare_run {Key} {E : Env} {S} {MO : MapOrder} (s : StandardHandler Key) (r : Request) (w : World S) :
  exists id w1, prepare s r w = (IngressMiddleware (sh_ingresses s) (WithRequestID r id), w1)
    /\ w_store w1 = w_store w /\ w_trace w1 = w_trace w
    /\ id = (let h := Header_Get r RequestIDHeader in if is_empty h then env_uuid (w_tick w) else h).
Proof.
  unfold prepare, CorrelationIDHandler. cbv zeta. rewrite bind_run.
  destruct (is_empty (Header_Get r RequestIDHeader)); [rewrite bind_run|]; cbn; by do 2 eexists.
Qed.

Lemma middleware_keeps {MO : MapOrder} (i : Ingresses) (r : Request) (id : str) :
  let r' := IngressMiddleware i (WithRequestID r id) in
  rq_Method r' = rq_Method r /\ rq_URL r' = rq_URL r /\ rq_Cookies r' = rq_Cookies r
  /\ rq_Header r' = rq_Header r /\ GetReqID r' = id
  /\ ctx_Path r' = Some (MatchingPath i r) /\ AccessTokenFrom r' = AccessTokenFrom r.
Proof.
  unfold IngressMiddleware. cbv zeta.
  change (MatchingPath i (WithRequestID r id)) with (MatchingPath i r).
  by destruct (MatchingIngress _ _).
Qed.

(** ** Requests as the server receives them

    [serve] prepares a request, then runs a handler on it. *)

Section Serving.
Context {L : JwtLib} {C : JwkCache} {Key : Type} {O : OAuth2 Key} {E : Env} {A : AEAD} {S : Type}.
Context {St : Store S} {R : Retry S} {J : JwksState S} {T : ErrorTemplate} {D : Doublestar}.
Context {LC : Location} {X : Mux} {MO : MapOrder}.
Context (s : StandardHandler Key).

(** A request for a route of some ingress path, and one outside them all. *)
Definition routed (m sub : str) (r : Request) : Prop :=
  rq_Method r = m
  /\ exists p, p ∈ ing_paths (sh_ingresses s) /\ Path (rq_URL r) = p ++ RedirectUrl.OAuth2 ++ sub.
Definition off_routes (r : Request) : Prop :=
  forall p, p ∈ ing_paths (sh_ingresses s) ->
    Path (rq_URL r) <> p ++ RedirectUrl.OAuth2
    /\ HasPrefix (Path (rq_URL r)) ((p ++ RedirectUrl.OAuth2) ++ $"/") = false.

(** A prepared request is the received one but for its context. *)
Lemma prepare_keeps (r : Request) (w : World S) :
  let r' := (prepare s r w).1 in
  let w' := (prepare s r w).2 in
  rq_Method r' = rq_Method r /\ rq_URL r' = rq_URL r /\ rq_Cookies r' = rq_Cookies r
  /\ rq_Header r' = rq_Header r /\ AccessTokenFrom r' = AccessTokenFrom r
  /\ w_store w' = w_store w /\ w_trace w' = w_trace w /\ (w_tick w' <= 1 + w_tick w)%nat
  /\ GetReqID r' = (let h := Header_Get r RequestIDHeader in
                    if is_empty h then env_uuid (w_tick w) else h)
  /\ ctx_Path r' = Some (MatchingPath (sh_ingresses s) r)
  /\ IngressFrom r' = match MatchingIngress (sh_ingresses s) r with
                      | Some ing => Some ing
                      | None => IngressFrom r
                      end.
Proof.
  unfold prepare, CorrelationIDHandler, IngressMiddleware. cbv zeta. rewrite bind_run.
  destruct (is_empty (Header_Get r RequestIDHeader)); [rewrite bind_run|]; cbn;
    match goal with |- context [MatchingPath ?i (WithRequestID ?q ?x)] =>
      change (MatchingPath i (WithRequestID q x)) with (MatchingPath i q);
      change (MatchingIngress i (WithRequestID q x)) with (MatchingIngress i q) end;
    destruct (MatchingIngress _ _); repeat (split; [done || (cbn; lia)|]); done.
Qed.

Lemma serve_routed (HX : MuxLaws) (r : Request) (w : World S) (m sub : str) (e : Endpoint) :
  NoDup (ing_paths (sh_ingresses s)) ->
  forallb literal_pattern (ing_paths (sh_ingresses s)) = true ->
  (m, sub, e) ∈ oauth2_routes -> routed m sub r ->
  serve s r w = (Answered <$> run_endpoint s e (prepare s r w).1) (prepare s r w).2.
Proof.
  intros Hnd Hlit He [Hm (p & Hp & Hpath)]. destruct (prepare_keeps r w) as (Hm' & Hu & _).
  unfold serve. rewrite bind_run, Hm', Hu, Hm, Hpath.
  by rewrite (mux_matched _ m _ e Hlit (full_routes_NoDup _ Hnd) (mount_route _ _ _ _ _ Hp He)).
Qed.

Lemma serve_off_routes (HX : MuxLaws) (r : Request) (w : World S) :
  off_routes r ->
  serve s r w = proxy_Handler s (prepare s r w).1 new_response (prepare s r w).2.
Proof.
  intros Hout. destruct (prepare_keeps r w) as (Hm & Hu & _). unfold serve. rewrite bind_run, Hm, Hu.
  by rewrite (mux_catch_all _ (rq_Method r) (Path (rq_URL r)) Hout).
Qed.
End Serving.

(** ** Properties *)

Section Statements.
Context {L : JwtLib} {C : JwkCache} {Key : Type} {O : OAuth2 Key} {E : Env} {A : AEAD} {S : Type}.
Context {St : Store S} {R : Retry S} {J : JwksState S} {T : ErrorTemplate} {D : Doublestar}.
Context {LC : Location} {X : Mux} {MO : MapOrder}.
Context (s : StandardHandler Key).

End Statements.

(** ** A router for the witness: exact routes first, then the mounts. *)

#[local] Instance toy_mux : Mux := fun ms m p =>
  match List.find (fun x => bool_decide (x.1 = (m, p))) (full_routes ms) with
  | Some x => Matched x.2
  | None => if existsb (fun mt => streq p mt.1 || HasPrefix p (mt.1 ++ $"/")) ms
            then NoSuchRoute else CatchAll
  end.

Lemma find_NoDup (l : list (str * str * Endpoint)) (k : str * str) (e : Endpoint) :
  NoDup (map fst l) -> (k, e) ∈ l -> List.find (fun x => bool_decide (x.1 = k)) l = Some (k, e).
Proof.
  induction l as [|[k' e'] l IH]; intros Hnd Hin; [by apply elem_of_nil in Hin|].
  cbn [map fst] in Hnd. apply NoDup_cons in Hnd as [Hk Hnd]. cbn.
  apply elem_of_cons in Hin as [[= -> ->]|Hin]; [by rewrite bool_decide_eq_true_2|].
  rewrite bool_decide_eq_false_2; [by apply IH|]. intros ->. apply Hk.
  apply list_elem_of_In, in_map_iff. exists (k, e). split; [done|]. by apply list_elem_of_In.
Qed.

Lemma oauth2_rooted :
  forallb (fun x => HasPrefix x.1.2 $"/") oauth2_routes = true.
Proof. vm_compute. reflexivity. Qed.

#[local] Instance toy_mux_laws : MuxLaws.
Proof.
  split.
  - intros ps m p e _ Hnd Hin. unfold mux_dispatch, toy_mux.
    by rewrite (find_NoDup _ (m, p) e Hnd Hin).
  - intros ps m p Hout. unfold mux_dispatch, toy_mux.
    destruct (List.find _ _) as [[[m' p'] e]|] eqn:Ef.
    + exfalso. apply find_some in Ef as [Hin Heq]. apply bool_decide_eq_true in Heq. cbn in Heq.
      injection Heq as -> ->. apply list_elem_of_In, list_elem_of_bind in Hin as ([pre rs] & Hr & Hm).
      apply list_elem_of_In, in_map_iff in Hm as (q & [= <- <-] & Hq%list_elem_of_In).
      apply list_elem_of_In, in_map_iff in Hr as ([[m1 sub] e1] & [= -> <- ->] & Hin1).
      destruct (Hout q Hq) as [_ Hpre]. pose proof oauth2_rooted as Hroot.
      rewrite forallb_forall in Hroot. apply Hroot in Hin1. cbn [fst snd] in Hin1.
      apply HasPrefix_spec in Hin1 as [t Ht]. subst sub.
      assert (HasPrefix ((q ++ RedirectUrl.OAuth2) ++ $"/" ++ t) ((q ++ RedirectUrl.OAuth2) ++ $"/") = true);
        [|congruence].
      apply HasPrefix_spec. exists t. by rewrite <- !app_assoc.
    + assert (existsb (fun mt => streq p mt.1 || HasPrefix p (mt.1 ++ $"/")) (mounts ps) = false)
        as ->; [|done].
      apply existsb_false_iff. intros [pre rs] Hmt.
      apply list_elem_of_In, in_map_iff in Hmt as (q & [= <- <-] & Hq%list_elem_of_In).
      destruct (Hout q Hq) as [Hne Hp]. cbn [fst]. rewrite Hp, orb_false_r. by apply streq_false.
Qed.

Import Example.

Lemma router_parse : @ParseIngresses insertion_order app_config = Ok (sh_ingresses app).
Proof. vm_compute. reflexivity. Qed.

Definition login_route_request : Request :=
  mkRequest MethodGet HTTP11 (URL_with_path empty_URL $"/app/oauth2/login" []) $"app.example.com" ∅ []
    None None None None.

