(* ===== verification/Routes.v ===== *)
(** * What the routes keep

    Every route but the callback reaches the store through the lookup, the
    deletion and the refresh of sessions: a relation that does not see what
    happens outside the store, and that these keep, is kept by serving a request.
    For the callback, it is also to be shown for the creation of the session. *)

From S2P Require Import Prelude GoStrings GoTime GoUrl GoError GoRfc3339 GoJson Config Http Crypter Cookie Ingress RedirectUrl Openid Jwks Loginstatus OpenidClient SessionData Store Retry Keeps SessionHandler Frames ErrorHandler AutoLogin AppState Standard LoginFlow LogoutFlow SessionApi ReverseProxy Router.

Section Routes.
Context {L : JwtLib} {C : JwkCache} {Key : Type} {O : OAuth2 Key} {E : Env} {A : AEAD} {S : Type}.
Context {St : Store S} {Rt : Retry S} {J : JwksState S} {T : ErrorTemplate} {D : Doublestar}.
Context {LC : Location} {X : Mux} {MO : MapOrder} {HR : RetryLaws S}.
Context (s : StandardHandler Key) (R : World S -> World S -> Prop) {HF : Framed R} {HJ : KeysFramed R}.
Implicit Types (w : World S) (r : Request) (rw : Response).
#[local] Abbreviation h := (sh_sessions s).
#[local] Abbreviation quiet := (keeps R).

Lemma respondError_quiet {Src : ErrorSource} r code rw : quiet (respondError r code rw).
Proof. unfold respondError, incrementRetryAttempt, Make. walk. Qed.
Hint Resolve respondError_quiet : keeps.

Context (HGet : forall k, quiet (GetForKey h k)) (HDel : forall k, quiet (destroyForKey k)).
Context (HRefresh : forall k d, quiet (Handler_Refresh h k d)).
Hint Resolve HGet HDel HRefresh : keeps.

Lemma Get_quiet r : quiet (Get h r).
Proof. unfold Get. walk. Qed.
Lemma GetForID_quiet id : quiet (GetForID h id).
Proof. unfold GetForID. walk. Qed.
Lemma DestroyForID_quiet id : quiet (DestroyForID h id).
Proof. unfold DestroyForID. walk. Qed.
Lemma GetAccessToken_quiet r : quiet (GetAccessToken h r).
Proof. unfold GetAccessToken, GetOrRefresh, IsExpired. walk. Qed.
Lemma VerboseWithRefresh_quiet m : quiet (VerboseWithRefresh m).
Proof. unfold VerboseWithRefresh, Verbose, NextRefresh, IsRefreshOnCooldown, IsTimedOut. walk. Qed.
Lemma session_json_quiet d : quiet (session_json s d).
Proof.
  intros w. destruct (session_json_later s d w) as [n ->]. apply patient_later. repeat split. cbn. lia.
Qed.
Hint Resolve Get_quiet GetForID_quiet DestroyForID_quiet GetAccessToken_quiet VerboseWithRefresh_quiet
  session_json_quiet : keeps.

Lemma login_quiet r rw : quiet (login_Handler s r rw).
Proof. unfold login_Handler, setLoginCookies, InternalError, BadRequest. walk. Qed.
Lemma logout_quiet r b rw : quiet (logout_Handler s r b rw).
Proof. unfold logout_Handler, destroy_session, InternalError. walk. Qed.
Lemma frontchannel_quiet r rw : quiet (logoutfrontchannel_Handler s r rw).
Proof. unfold logoutfrontchannel_Handler. walk. Qed.
Lemma session_quiet r rw : quiet (session_Handler s r rw).
Proof. unfold session_Handler. walk. Qed.
Lemma SessionRefresh_quiet r rw : quiet (SessionRefresh s r rw).
Proof. unfold SessionRefresh, sessionrefresh_Handler. walk. Qed.
Lemma proxy_quiet r rw : quiet (proxy_Handler s r rw).
Proof. unfold proxy_Handler. walk. Qed.
Hint Resolve login_quiet logout_quiet frontchannel_quiet session_quiet SessionRefresh_quiet proxy_quiet : keeps.

(** The callback, but for the session it creates. *)
Lemma redeemValidTokens_quiet cb : quiet (redeemValidTokens s cb).
Proof. unfold redeemValidTokens. walk. Qed.
Lemma callback_quiet r rw :
  (forall lc cb rw', checked_callback s r = inl (lc, cb) -> quiet (create_session s r cb rw')) ->
  quiet (logincallback_Handler s r rw).
Proof.
  intros Hc. unfold logincallback_Handler. cbv zeta. destruct (checked_callback s r) as [[lc cb]|code].
  - apply keeps_bind; [apply _|by eapply Hc|].
    unfold set_loginstatus, getLoginstatusToken, InternalError. intros [res rw1]. walk.
  - walk.
Qed.

Lemma endpoint_quiet e r : e <> ToLoginCallback -> quiet (run_endpoint s e r).
Proof. intros He. unfold run_endpoint. destruct e; try done; walk. Qed.

(** The request a handler gets differs from the one served in its context only. *)
Definition same_request r r' : Prop := rq_URL r' = rq_URL r /\ rq_Cookies r' = rq_Cookies r.

#[local] Abbreviation routed r := (mux_dispatch (mounts (ing_paths (sh_ingresses s))) (rq_Method r) (Path (rq_URL r))).

Lemma serve_keeps r :
  (forall r', same_request r r' ->
     match routed r with
     | Matched e => quiet (run_endpoint s e r')
     | CatchAll => quiet (Standard_ReverseProxy s r' new_response)
     | _ => True
     end) -> quiet (serve s r).
Proof.
  intros Hroute w. unfold serve. rewrite bind_run.
  assert (Hp : R w (prepare s r w).2).
  { assert (Hk : quiet (prepare s r)); [|apply Hk]. unfold prepare, CorrelationIDHandler. walk. }
  destruct (prepare_run s r w) as (id & w1 & Er & _). rewrite Er in *. cbn [fst snd] in *.
  destruct (middleware_keeps (sh_ingresses s) r id) as (Hm & Hu & Hc & _).
  set (r' := IngressMiddleware _ _) in *. rewrite Hm, Hu. specialize (Hroute r' (conj Hu Hc)).
  etransitivity; [exact Hp|].
  destruct (routed r) as [e| | |]; [|reflexivity|reflexivity|apply Hroute]. by apply keeps_fmap.
Qed.

(** Any route, given the callback's. *)
Lemma serve_quiet r :
  (routed r = Matched ToLoginCallback ->
   forall r' rw, same_request r r' -> quiet (logincallback_Handler s r' rw)) ->
  quiet (serve s r).
Proof.
  intros Hcb. apply serve_keeps. intros r' Hsame. destruct (routed r) as [e| | |]; try done.
  - destruct (decide (e = ToLoginCallback)) as [->|He]; [by apply Hcb|by apply endpoint_quiet].
  - apply proxy_quiet.
Qed.
End Routes.
#[export] Hint Resolve respondError_quiet : keeps.
