(* ===== verification/RequestLog.v ===== *)
(** * The request log: [pkg/middleware/logentry.go]

    Every request for a route is logged twice, when it arrives and when it was
    answered; the lines of the handlers carry the fields of the request too.  A
    log line is a level, a message and fields; writing it is logrus' business.
    The global [logger] is an argument. *)

From S2P Require Import Prelude GoStrings GoStrconv GoTime GoUrl GoUrlFacts GoError GoRfc3339 GoJson Config Http Crypter Cookie Ingress RedirectUrl Openid Jwks Loginstatus OpenidClient SessionData Store Retry SessionHandler ErrorHandler AutoLogin AppState Standard Example LoginFlow LogoutFlow.

(** ** Lines and entries *)

(** The values the program puts in [log.Fields]; [FMillis ns] is the float
    [float64(ns) / 1000000.0]. *)
Inductive FieldValue := FString (s : str) | FInt (z : Z) | FMillis (ns : Z).
Abbreviation Fields := (gmap str FieldValue).

Inductive Level := DebugLevel | InfoLevel.
Record Line := mkLine { ln_Level : Level; ln_Message : str; ln_Fields : Fields }.

(** [Entry.WithFields]: the new fields replace those of the entry. *)
Definition WithFields (entry fields : Fields) : Fields := fields ∪ entry.

Record requestLogger := { rl_Provider : str }.

Definition UserAgent (r : Request) : str := Header_Get r $"User-Agent".
Definition Referer (r : Request) : str := Header_Get r $"Referer".

(** [NewLogEntry] *)
Definition NewLogEntry (l : requestLogger) (r : Request) : Fields :=
  list_to_map [
    ($"correlation_id", FString (GetReqID r));
    ($"provider", FString (rl_Provider l));
    ($"request_host", FString (rq_Host r));
    ($"request_method", FString (rq_Method r));
    ($"request_path", FString (Path (rq_URL r)));
    ($"request_user_agent", FString (UserAgent r))].

(** [LogEntryFrom]: the entry of the context, else a new one. *)
Definition LogEntryFrom (l : requestLogger) (ctx : option Fields) (r : Request) : Fields :=
  match ctx with Some entry => entry | None => NewLogEntry l r end.

(** The referer without its query. *)
Definition logged_referer (referer : str) : str :=
  match Parse referer with
  | Some u => let u' := URL_with_query u [] in URL_String (URL_with_fragment u' (Fragment u') [])
  | None => referer
  end.

Definition isRelevantCookie (name : str) : bool :=
  streq name SessionCookie || streq name LoginCookieName || streq name LoginLegacyCookieName.

(** [nonEmptyRequestCookies] *)
Fixpoint relevant_names (cookies : list (str * str)) : list str :=
  match cookies with
  | [] => []
  | (name, value) :: cookies' =>
      if negb (isRelevantCookie name) || is_empty value then relevant_names cookies'
      else name :: relevant_names cookies'
  end.
Definition nonEmptyRequestCookies (r : Request) : str := Join (relevant_names (rq_Cookies r)) $", ".

(** [WithRequestLogFields] *)
Definition WithRequestLogFields (entry : Fields) (r : Request) : Fields :=
  WithFields entry (list_to_map [
    ($"request_cookies", FString (nonEmptyRequestCookies r));
    ($"request_host", FString (rq_Host r));
    ($"request_method", FString (rq_Method r));
    ($"request_path", FString (Path (rq_URL r)));
    ($"request_protocol", FString (rq_Proto r));
    ($"request_referer", FString (logged_referer (Referer r)));
    ($"request_user_agent", FString (UserAgent r))]).

Definition statusLabel (status : Z) : str :=
  if (100 <=? status)%Z && (status <? 300)%Z then $"OK"
  else if (300 <=? status)%Z && (status <? 400)%Z then $"Redirect"
  else if (400 <=? status)%Z && (status <? 500)%Z then $"Client Error"
  else if (500 <=? status)%Z then $"Server Error"
  else $"Unknown".

(** [requestLoggerEntry.Write] *)
Definition entry_Write (entry : Fields) (status bytes : Z) (elapsed : Duration) : Line :=
  let msg := $"response: HTTP " ++ Itoa status ++ $" (" ++ statusLabel status ++ $")" in
  let fields := list_to_map [
    ($"response_status", FInt status);
    ($"response_bytes", FInt bytes);
    ($"response_elapsed_ms", FMillis elapsed)] in
  mkLine (if (400 <=? status)%Z then InfoLevel else DebugLevel) msg (WithFields entry fields).

(** The status of chi's wrapped writer is 0 until a header was written. *)
Definition wrapped_status (w : Response) : Z := default 0%Z (rw_Status w).

(** The middleware: [next] gets the request with the entry in its context;
    [bytesWritten] is what chi's wrapped writer counted. *)
Definition LogEntry_Handler {E : Env} {S} (l : requestLogger) (bytesWritten : Response -> Z)
    (next : Fields -> Request -> M S Response) (r : Request) : M S (Response * list Line) :=
  let entry := NewLogEntry l r in
  let line := mkLine InfoLevel (rq_Method r ++ $" - " ++ Path (rq_URL r)) (WithRequestLogFields entry r) in
  t1 ← time_Now;
  ww ← next entry r;
  t2 ← time_Now;
  mret (ww, [line; entry_Write entry (wrapped_status ww) (bytesWritten ww) (Sub t2 t1)]).

(** The line of a successful login ([logSuccessfulLogin]), and the one before the
    redirect to the provider. *)
Definition logSuccessfulLogin {L : JwtLib} (entry : Fields) (tokens : Tokens) (referer : str) : Line :=
  mkLine InfoLevel $"callback: successful login" (WithFields entry (list_to_map [
    ($"redirect_to", FString referer); ($"jti", FString (GetJwtID (tk_IDToken tokens)))])).
Definition log_login (entry : Fields) (canonicalRedirect : str) : Line :=
  mkLine DebugLevel $"login: redirecting to identity provider" (WithFields entry (list_to_map [
    ($"redirect_after_login", FString canonicalRedirect)])).

(** ** Requests the log does not tell apart *)

(** Two referers that differ in their query only. *)
Definition same_referer (s t : str) : Prop :=
  s = t \/ exists b q q',
    s = b ++ "?"%char :: q /\ t = b ++ "?"%char :: q' /\ "?"%char ∉ b /\ "#"%char ∉ b
    /\ (forall x, x = q \/ x = q' ->
         x <> [] /\ "#"%char ∉ x /\ is_Some (Parse (b ++ "?"%char :: x))).

(** A cookie's name, and whether it has a value. *)
Definition same_cookie (c d : str * str) : Prop := c.1 = d.1 /\ is_empty c.2 = is_empty d.2.

(** Requests that differ only in the query of the URL, the values of cookies, the
    query of the referer, and headers that are not logged. *)
Record same_but_secrets (r r' : Request) : Prop := {
  same_method : rq_Method r = rq_Method r';
  same_proto : rq_Proto r = rq_Proto r';
  same_host : rq_Host r = rq_Host r';
  same_path : Path (rq_URL r) = Path (rq_URL r');
  same_id : GetReqID r = GetReqID r';
  same_agent : UserAgent r = UserAgent r';
  same_ref : same_referer (Referer r) (Referer r');
  same_cookies : Forall2 same_cookie (rq_Cookies r) (rq_Cookies r') }.

(** ** Lemmas *)

Lemma logged_referer_query (b q q' : str) :
  "?"%char ∉ b -> "#"%char ∉ b ->
  (forall x, x = q \/ x = q' ->
     x <> [] /\ "#"%char ∉ x /\ is_Some (Parse (b ++ "?"%char :: x))) ->
  logged_referer (b ++ "?"%char :: q) = logged_referer (b ++ "?"%char :: q').
Proof.
  intros Hq Hf H. destruct (Parse_query b Hq Hf) as [o Ho].
  assert (Hx : forall x, x = q \/ x = q' ->
            exists u, o = Some u /\ Parse (b ++ "?"%char :: x) = Some (URL_with_query u x)).
  { intros x Hx. destruct (H x Hx) as (Hne & Hh & Hs).
    assert (existsb is_ctl (b ++ "?"%char :: x) = false) as Hc.
    { apply Parse_no_ctl; [|done]. rewrite elem_of_app, elem_of_cons. by intros [?|[[=]|?]]. }
    rewrite existsb_app in Hc. apply orb_false_iff in Hc as [_ Hc].
    rewrite (Ho x Hne Hh Hc) in Hs |- *. destruct o as [u|]; [by exists u|by destruct Hs]. }
  destruct (Hx q (or_introl eq_refl)) as (u & Hu & Hp).
  destruct (Hx q' (or_intror eq_refl)) as (u' & Hu' & Hp').
  unfold logged_referer. rewrite Hp, Hp'. by simplify_eq.
Qed.

Lemma same_referer_logged (s t : str) : same_referer s t -> logged_referer s = logged_referer t.
Proof. intros [->|(b & q & q' & -> & -> & Hq & Hf & H)]; [done|]. by apply logged_referer_query. Qed.

#[export] Instance same_cookie_equiv : Equivalence same_cookie.
Proof.
  unfold same_cookie. split.
  - by intros [? ?].
  - intros c d [? ?]. split; congruence.
  - intros c d e [? ?] [? ?]. split; congruence.
Qed.

#[export] Instance same_referer_equiv : Equivalence same_referer.
Proof.
  split.
  - intros s. by left.
  - intros s t [->|(b & q & q' & -> & -> & Hq & Hf & H)]; [by left|right].
    exists b, q', q. do 4 (split; [done|]). intros x Hx. apply H. tauto.
  - intros s t u [->|(b & q & q' & -> & -> & Hq & Hf & H)]; [done|].
    intros [<-|(b2 & q2 & q2' & Heq & -> & Hq2 & _ & H2)]; right; [by exists b, q, q'|].
    pose proof (Cut_app b q' "?" Hq) as Hc. rewrite Heq, Cut_app in Hc by done.
    injection Hc as -> ->. exists b, q, q2'. do 4 (split; [done|]).
    intros x [-> | ->]; [apply H|apply H2]; auto.
Qed.

#[export] Instance same_but_secrets_equiv : Equivalence same_but_secrets.
Proof.
  split.
  - intros r. by split.
  - intros r r' []. split; by symmetry.
  - intros r r' r'' [] []. split; by etrans.
Qed.

Lemma relevant_names_same (cs ds : list (str * str)) :
  Forall2 same_cookie cs ds -> relevant_names cs = relevant_names ds.
Proof.
  induction 1 as [|[n v] [m u] cs ds [Hn Hv] _ IH]; [done|]. cbn in *. by subst; rewrite Hv, IH.
Qed.

#[export] Instance NewLogEntry_proper l : Proper (same_but_secrets ==> eq) (NewLogEntry l).
Proof. intros r r' [? ? H1 H2 ? H3 ? ?]. unfold NewLogEntry. congruence. Qed.

#[export] Instance nonEmptyRequestCookies_proper :
  Proper (same_but_secrets ==> eq) nonEmptyRequestCookies.
Proof.
  intros r r' []. unfold nonEmptyRequestCookies. by rewrite (relevant_names_same _ _ same_cookies0).
Qed.

#[export] Instance WithRequestLogFields_proper :
  Proper (eq ==> same_but_secrets ==> eq) WithRequestLogFields.
Proof.
  intros e ? <- r r' H. unfold WithRequestLogFields. rewrite (nonEmptyRequestCookies_proper r r' H).
  destruct H as [-> -> -> -> _ -> Href _]. by rewrite (same_referer_logged _ _ Href).
Qed.

(** Only names of the program's own cookies are logged, of cookies with a value. *)
Lemma relevant_names_spec (cs : list (str * str)) (n : str) :
  n ∈ relevant_names cs <->
  n ∈ [SessionCookie; LoginCookieName; LoginLegacyCookieName]
  /\ exists v, (n, v) ∈ cs /\ v <> [].
Proof.
  assert (Hrel : forall n, isRelevantCookie n = true
            <-> n ∈ [SessionCookie; LoginCookieName; LoginLegacyCookieName]).
  { intros m. unfold isRelevantCookie. rewrite !orb_true_iff, !streq_true. set_solver. }
  rewrite <- Hrel. induction cs as [|[m v] cs IH]; cbn [relevant_names].
  - split; [intros H; by apply not_elem_of_nil in H|]. intros (_ & v & H & _). by apply not_elem_of_nil in H.
  - destruct (negb (isRelevantCookie m) || is_empty v) eqn:E.
    + rewrite IH. split; intros (Hr & v' & Hin & Hne); split; try done; exists v'; (split; [|done]).
      * by right.
      * apply elem_of_cons in Hin as [[= -> ->]|Hin]; [|done]. exfalso.
        rewrite Hr in E. cbn in E. by apply is_empty_true in E.
    + to_prop. apply is_empty_false in H0. rewrite elem_of_cons, IH. split.
      * intros [->|(Hr & v' & Hin & Hne)]; [split; [done|]; exists v; split; [by left|done]|].
        split; [done|]. exists v'. split; [by right|done].
      * intros (Hr & v' & Hin & Hne). apply elem_of_cons in Hin as [[= -> ->]|Hin]; [by left|right].
        split; [done|]. by exists v'.
Qed.

(** The log does not change what is served: the handler runs as it would on its
    own, one interaction later. *)
Lemma LogEntry_Handler_run {E : Env} {S} l bytes next r (w : World S) :
  let '(ww, w1) := next (NewLogEntry l r) r (ticked 1 w) in
  LogEntry_Handler l bytes next r w
  = ((ww, [mkLine InfoLevel (rq_Method r ++ $" - " ++ Path (rq_URL r))
             (WithRequestLogFields (NewLogEntry l r) r);
           entry_Write (NewLogEntry l r) (wrapped_status ww) (bytes ww)
             (Sub (env_now (w_tick w1)) (env_now (w_tick w)))]), ticked 1 w1).
Proof.
  unfold LogEntry_Handler. cbv zeta. rewrite bind_run.
  change (time_Now w) with (env_now (w_tick w), ticked 1 w). cbv iota beta.
  cbn [fst snd]. rewrite bind_run. destruct (next _ r (ticked 1 w)) as [ww w1]. rewrite bind_run.
  reflexivity.
Qed.

(** A line but for how long the request took. *)
Definition timeless (line : Line) : Line :=
  mkLine (ln_Level line) (ln_Message line) (delete $"response_elapsed_ms" (ln_Fields line)).

(** Deleting the last of the fields forgets its value. *)
Lemma delete_last_field (k1 k2 k : str) (f1 f2 t t' : FieldValue) (e : Fields) :
  delete k (list_to_map [(k1, f1); (k2, f2); (k, t)] ∪ e)
  = delete k (list_to_map [(k1, f1); (k2, f2); (k, t')] ∪ e).
Proof.
  apply map_eq. intros i. destruct (decide (i = k)) as [->|Hne].
  - by rewrite !lookup_delete_eq.
  - rewrite !lookup_delete_ne, !lookup_union by done. cbn [list_to_map foldr uncurry fst snd].
    rewrite !lookup_insert. repeat case_decide; congruence.
Qed.

Lemma entry_Write_timeless (e : Fields) (status bytes t t' : Z) :
  timeless (entry_Write e status bytes t) = timeless (entry_Write e status bytes t').
Proof.
  unfold timeless, entry_Write, WithFields. cbn [ln_Level ln_Message ln_Fields]. cbv zeta.
  rewrite (delete_last_field $"response_status" $"response_bytes" $"response_elapsed_ms"
             (FInt status) (FInt bytes) (FMillis t) (FMillis t') e).
  reflexivity.
Qed.

(** ** Properties *)


(** ** Concrete runs *)

Import Example.
#[local] Existing Instance app_env.

Definition logger : requestLogger := {| rl_Provider := $"idporten" |}.

(** A callback request with a code, a session cookie and a referer. *)
Definition secret_request (code session referer : str) : Request :=
  mkRequest MethodGet HTTP11
    (URL_with_query (URL_with_path empty_URL $"/app/oauth2/callback" []) ($"code=" ++ code))
    $"app.example.com" (<[$"Referer" := [$"https://idp.example.com/login?" ++ referer]]> ∅)
    [(SessionCookie, session); ($"other", $"value")] None None None (Some $"corr-1").

Lemma secret_requests_same :
  same_but_secrets (secret_request $"abc" $"s1" $"state=1") (secret_request $"xyz" $"s2" $"state=2").
Proof.
  split; [done..| |repeat constructor].
  right. exists $"https://idp.example.com/login", $"state=1", $"state=2".
  split; [vm_compute; reflexivity|]. split; [vm_compute; reflexivity|].
  split; [apply (Contains_false _ _); vm_compute; reflexivity|].
  split; [apply (Contains_false _ _); vm_compute; reflexivity|].
  intros x [-> | ->].
  all: split; [done|]; split; [apply (Contains_false _ _); vm_compute; reflexivity|].
  all: vm_compute; by eexists.
Qed.

Definition found : Response := WriteHeader StatusFound new_response.
Definition answer_found (entry : Fields) (r : Request) : M AppStore Response := mret found.
Definition no_bytes (w : Response) : Z := 0%Z.

(** The log of a request that is answered with a redirect. *)
Definition logged (r : Request) : list Line :=
  (LogEntry_Handler logger no_bytes answer_found r world0).1.2.
Lemma logged_run (r : Request) :
  LogEntry_Handler logger no_bytes answer_found r world0 = ((found, logged r), ticked 2 world0).
Proof.
  unfold logged. pose proof (LogEntry_Handler_run logger no_bytes answer_found r world0) as H.
  change (answer_found (NewLogEntry logger r) r (ticked 1 world0)) with (found, ticked 1 world0) in H.
  by rewrite H.
Qed.


(** The fragment of a referer is logged: [String] prints [Fragment], and only
    [RawFragment] is cleared. *)
Lemma referer_fragment_logged :
  logged_referer $"https://idp.example.com/login?code=1#token"
  = $"https://idp.example.com/login#token".
Proof. vm_compute. reflexivity. Qed.

(** A referer that does not parse is logged with its query. *)
Lemma malformed_referer_logged :
  logged_referer $"https://idp.example.com/%?code=1" = $"https://idp.example.com/%?code=1".
Proof. vm_compute. reflexivity. Qed.

(** A handler that writes nothing is answered 200 and logged as status 0. *)
Lemma silent_response_logged {E : Env} {S} (l : requestLogger) (bytes : Response -> Z)
    (next : Fields -> Request -> M S Response) (r : Request) (w w' w1 : World S)
    (ww : Response) (lines : list Line) :
  LogEntry_Handler l bytes next r w = ((ww, lines), w1) -> rw_Status ww = None ->
  response_status ww = 200%Z
  /\ exists line, last lines = Some line /\ ln_Message line = $"response: HTTP 0 (Unknown)"
       /\ ln_Level line = DebugLevel.
Proof.
  pose proof (LogEntry_Handler_run l bytes next r w) as H. destruct (next _ r _) as [x v].
  rewrite H. intros [= <- <- <-] Hs. unfold response_status. rewrite Hs. split; [done|].
  eexists. split; [reflexivity|]. unfold entry_Write, wrapped_status. rewrite Hs. by split.
Qed.

(** So is every successful local logout. *)
Lemma local_logout_logged_unknown :
  rw_Status (logout_Handler app (logged_in_request "/") false new_response logged_in_world).1 = None.
Proof. vm_compute. reflexivity. Qed.
