(* ===== verification/Provenance.v ===== *)
(** * Where sessions come from

    The whole application over a sequence of requests: every session in the
    store was created by the callback route, for a validated login, and is well
    formed.  The routes other than the callback only remove or refresh sessions. *)

From S2P Require Import Prelude GoStrings GoTime GoBase64 GoUrl GoUtf8 GoError GoRfc3339 GoJson Config Http Crypter Cookie Ingress RedirectUrl Openid Jwks Loginstatus OpenidClient SessionData Store Retry Keeps SessionHandler Frames ErrorHandler AutoLogin AppState Standard Example LoginFlow LogoutFlow SessionApi ReverseProxy Router Routes.

(** Names in the store that stand for locks. *)
Definition is_lock (k : str) : Prop := exists k0, k = lockKey k0.

Section Shrinks.
Context {S : Type} (view : S -> gmap str EncryptedData).
Implicit Types (w : World S).

(** Events are only added; outside the locks, entries are only removed. *)
Definition shrinks w w' : Prop :=
  w_trace w `prefix_of` w_trace w'
  /\ forall k v, ~ is_lock k -> view (w_store w') !! k = Some v -> view (w_store w) !! k = Some v.

#[global] Instance shrinks_framed : Framed shrinks.
Proof.
  split; [split|].
  - intros w. by split.
  - intros w1 w2 w3 [Ht1 Hv1] [Ht2 Hv2]. split; [by etrans|eauto].
  - intros w w' Hs Ht _. split; [done|]. by rewrite Hs.
Qed.

Lemma shrinks_frame w w' :
  view (w_store w') = view (w_store w) -> w_trace w `prefix_of` w_trace w' -> shrinks w w'.
Proof. intros Hv Ht. split; [done|]. intros k v _. by rewrite Hv. Qed.

Lemma shrinks_reads w w' : reads view w w' -> shrinks w w'.
Proof.
  intros [Ht Hv]. split; [by rewrite Ht|]. intros k v _ H. by eapply lookup_weaken.
Qed.

Lemma shrinks_locks k w w' : locks (view := view) k w w' -> shrinks w w'.
Proof.
  intros [Ht Hv]. split; [by rewrite Ht|]. intros k' v Hk. apply Hv. intros ->. apply Hk. by exists k.
Qed.
End Shrinks.
(** ** Sessions evolve: what the routes besides the callback do *)

(** A session refreshed: everything but the tokens and their dates is as it was. *)
Definition evolves (cfg : SessionConfig) (d d' : Data) : Prop :=
  ExternalSessionID d' = ExternalSessionID d /\ IDToken d' = IDToken d
  /\ IDTokenJwtID d' = IDTokenJwtID d
  /\ CreatedAt (md_Session (d_Metadata d')) = CreatedAt (md_Session (d_Metadata d))
  /\ EndsAt (md_Session (d_Metadata d')) = EndsAt (md_Session (d_Metadata d))
  /\ (Inactivity cfg = false ->
      TimeoutAt (md_Session (d_Metadata d')) = TimeoutAt (md_Session (d_Metadata d))).

#[export] Instance evolves_preorder (cfg : SessionConfig) : PreOrder (evolves cfg).
Proof.
  split; [by intros d|]. unfold evolves. intros d1 d2 d3 (? & ? & ? & ? & ? & Ha) (? & ? & ? & ? & ? & Hb).
  repeat (split; [congruence|]). intros Hi. by rewrite Hb, Ha.
Qed.

Section Routes.
Context {L : JwtLib} {C : JwkCache} {Key : Type} {O : OAuth2 Key} {E : Env} {A : AEAD} {S : Type}.
Context {St : Store S} {R : Retry S} {J : JwksState S} {T : ErrorTemplate} {D : Doublestar}.
Context {LC : Location} {X : Mux} {MO : MapOrder}.
Context {view : S -> gmap str EncryptedData} {HS : StoreLaws S view} {HR : RetryLaws S}.
Context {HA : AEADLaws} {HK : KeygenLaw} {HZ : LocationLaws} {HJ : JwksFrame S view}.
Context (s : StandardHandler Key).
Implicit Types (w : World S) (d : Data) (r : Request) (rw : Response).
#[local] Abbreviation h := (sh_sessions s).
#[local] Abbreviation routed r :=
  (mux_dispatch (mounts (ing_paths (sh_ingresses s))) (rq_Method r) (Path (rq_URL r))).

(** Outside the locks every entry was there before, or is a session that was,
    refreshed. *)
Definition evolve w w' : Prop :=
  w_trace w `prefix_of` w_trace w'
  /\ forall k v, ~ is_lock k -> view (w_store w') !! k = Some v ->
       view (w_store w) !! k = Some v
       \/ exists d d', stored (view := view) h w k d /\ evolves (h_cfg h) d d'
            /\ EncryptedData_Decrypt (h_crypter h) v = Ok d'.

#[global] Instance evolve_framed : Framed evolve.
Proof.
  split; [split|].
  - intros w. split; [done|]. auto.
  - intros w1 w2 w3 [Ht1 Hv1] [Ht2 Hv2]. split; [by etrans|]. intros k v Hk Hv.
    destruct (Hv2 k v Hk Hv) as [H|(d & d' & (e & He & Hd) & Hev & Hd')]; [by apply Hv1|].
    destruct (Hv1 k e Hk He) as [H|(d0 & d1 & Hst & Hev' & Hd1)]; right.
    + exists d, d'. split; [by exists e|done].
    + rewrite Hd1 in Hd. injection Hd as ->. exists d0, d'. split; [done|]. split; [by etrans|done].
  - intros w w' Hs Ht _. split; [done|]. rewrite Hs. auto.
Qed.

Lemma shrinks_evolve w w' : shrinks view w w' -> evolve w w'.
Proof. intros [Ht Hv]. split; [done|]. intros k v Hk H. left. by apply Hv. Qed.
#[local] Instance evolve_keys : KeysFramed evolve.
Proof. intros t w. apply shrinks_evolve, shrinks_frame; [apply set_lastRefresh_view|done]. Qed.

(** *** The session handler *)

Lemma GetForKey_shrinks k : keeps (shrinks view) (GetForKey h k).
Proof.
  intros w. destruct (GetForKey h k w) as [res w'] eqn:Eg. apply (GetForKey_spec HS HR) in Eg as [Hr _].
  by apply shrinks_reads.
Qed.
Lemma destroyForKey_shrinks k : keeps (shrinks view) (destroyForKey k).
Proof.
  intros w. destruct (destroyForKey k w) as [res w'] eqn:Ed.
  apply (destroyForKey_spec HS HR) in Ed as [Hr _]. by apply shrinks_reads.
Qed.

Lemma refreshed_evolves d resp d' : refreshed_from h d resp d' -> evolves (h_cfg h) d d'.
Proof.
  intros (_ & _ & ? & ? & ? & ? & ? & i & _ & Ht). repeat (split; [done|]). intros Hi.
  by rewrite Hi in Ht.
Qed.

Lemma Refresh_evolve k d : keeps evolve (Handler_Refresh h k d).
Proof.
  intros w. destruct (Handler_Refresh h k d w) as [res w'] eqn:Er. cbn [snd].
  apply (Handler_Refresh_inv HS HR h) in Er as [[Hl _]|(_ & d0 & Ha & Hg)].
  { by eapply shrinks_evolve, shrinks_locks. }
  destruct Ha as (l0 & w0 & l1 & w1 & _ & _ & Hl & Hst). apply (locks_stored h w w1) in Hst; [|done].
  destruct Hg as (_ & _ & (evs & Ht & _) & Hres). split; [rewrite Ht; by eexists|].
  intros k' v Hk Hv. assert (Hne : k' <> lockKey k) by (intros ->; apply Hk; by exists k).
  destruct res as [d'|e].
  - destruct Hres as (resp & wa & wb & e & _ & Hfrom & Hview & Hdec).
    apply (Hview k' v Hne) in Hv. case_decide; [|by left]. subst k' v. right. exists d0, d'.
    split; [done|]. split; [by eapply refreshed_evolves|done].
  - destruct (Hres k' v Hne Hv) as [H|(-> & resp & d' & Hfrom & Hdec)]; [by left|right].
    exists d0, d'. split; [done|]. split; [by eapply refreshed_evolves|done].
Qed.
(** ** The callback creates sessions *)

(** What every session of the application satisfies: it is stored under its ID,
    it is text, it lives as long as configured, and it has a timeout only if
    inactivity is configured. *)
Definition well_formed (k : str) d : Prop :=
  data_text d = true
  /\ (exists sid, k = session_key h sid /\ ExternalSessionID d = to_valid sid)
  /\ EndsAt (md_Session (d_Metadata d))
     = (CreatedAt (md_Session (d_Metadata d)) + MaxLifetime (cfg_Session (sh_config s)))%Z
  /\ (Inactivity (h_cfg h) = false -> TimeoutAt (md_Session (d_Metadata d)) = zero_time).

(** The session [d] under [k] comes from the login that [r] completed: the
    callback had the state of the login cookie and no error; its code was
    exchanged, and the id_token it gave is verified, for this client, from the
    provider, with the nonce of the login cookie; its [sid], if any, is the
    session's ID. *)
Definition authentic (tr : list Event) r (k : str) d : Prop :=
  exists lc opts sid t tok jwks,
    GetLoginCookie r (sh_crypter s) = Ok lc
    /\ Values_Get (URL_Query (rq_URL r)) P_Error = []
    /\ Values_Get (URL_Query (rq_URL r)) P_State = lc_State lc /\ lc_State lc <> []
    /\ EvExchange (Values_Get (URL_Query (rq_URL r)) P_Code) opts ∈ tr
    /\ (P_CodeVerifier, lc_CodeVerifier lc) ∈ opts
    /\ token t = Some tok /\ jwt_Verified jwks (serialized t) tok
    /\ token_HasAudience tok (ClientID (client (sh_client s))) = true
    /\ token_Get tok $"iss" = Some (ClaimString (pm_Issuer (pr_metadata (provider (sh_client s)))))
    /\ token_Get tok $"nonce" = Some (ClaimString (lc_Nonce lc))
    /\ k = session_key h sid /\ ExternalSessionID d = to_valid sid
    /\ (forall x, GetSidClaim t = Ok x -> sid = x)
    /\ IDToken d = to_valid (serialized t).

Lemma authentic_mono tr tr' r k d : tr `prefix_of` tr' -> authentic tr r k d -> authentic tr' r k d.
Proof.
  intros [evs ->] (lc & opts & sid & t & tok & jwks & H1 & H2 & H3 & H4 & Hev & H).
  exists lc, opts, sid, t, tok, jwks. do 4 (split; [done|]). split; [|done]. apply elem_of_app. by left.
Qed.

Lemma authentic_same tr r r' k d : same_request r r' -> authentic tr r' k d -> authentic tr r k d.
Proof.
  intros [Hu Hc] (lc & opts & sid & t & tok & jwks & Hlc & H). rewrite Hu in H.
  exists lc, opts, sid, t, tok, jwks. split; [|exact H]. rewrite <- Hlc.
  unfold GetLoginCookie, GetDecrypted, Cookie.Get, Request_Cookie. by rewrite Hc.
Qed.

Lemma evolves_authentic tr r k d d' :
  evolves (h_cfg h) d d' -> authentic tr r k d -> authentic tr r k d'.
Proof.
  intros (Hs & Hi & _) (lc & opts & sid & t & tok & jwks & H).
  exists lc, opts, sid, t, tok, jwks. by rewrite Hs, Hi.
Qed.

Lemma evolves_well_formed k d d' :
  data_text d' = true -> evolves (h_cfg h) d d' -> well_formed k d -> well_formed k d'.
Proof.
  intros Ht (Hs & _ & _ & Hc & He & Hto) (_ & (sid & Hk & Hid) & Hend & Hi). split; [done|].
  split; [exists sid; by rewrite Hs|]. split; [congruence|]. intros H. by rewrite Hto, Hi.
Qed.

(** Every entry was there before, or is a session of the login [r] completed. *)
Definition creates r w w' : Prop :=
  w_trace w `prefix_of` w_trace w'
  /\ forall k v, ~ is_lock k -> view (w_store w') !! k = Some v ->
       view (w_store w) !! k = Some v
       \/ exists d, EncryptedData_Decrypt (h_crypter h) v = Ok d
            /\ well_formed k d /\ authentic (w_trace w') r k d.

#[global] Instance creates_framed r : Framed (creates r).
Proof.
  split; [split|].
  - intros w. split; [done|]. auto.
  - intros w1 w2 w3 [Ht1 Hv1] [Ht2 Hv2]. split; [by etrans|]. intros k v Hk Hv.
    destruct (Hv2 k v Hk Hv) as [H|(d & Hd & Hwf & Ha)]; [|right; by exists d].
    destruct (Hv1 k v Hk H) as [H1|(d & Hd & Hwf & Ha)]; [by left|right]. exists d.
    split; [done|]. split; [done|]. by eapply authentic_mono.
  - intros w w' Hs Ht _. split; [done|]. rewrite Hs. auto.
Qed.

Lemma shrinks_creates r w w' : shrinks view w w' -> creates r w w'.
Proof. intros [Ht Hv]. split; [done|]. intros k v Hk H. left. by apply Hv. Qed.
#[local] Instance creates_keys r : KeysFramed (creates r).
Proof. intros t w. apply shrinks_creates, shrinks_frame; [apply set_lastRefresh_view|done]. Qed.

Context {HL : JwtLibLaws}.

(** What the tokens of a login that was checked are worth: the session made from
    them is well formed and authentic. *)
Lemma redeemed_session r lc cb t w w1 :
  checked_callback s r = inl (lc, cb) -> redeemValidTokens s cb w = (Ok t, w1) ->
  forall sid w1' md w2 w2',
    NewSessionID (oidc_Provider (h_openid h)) (tk_IDToken t) (URL_Query (rq_URL r)) w1 = (Ok sid, w1') ->
    initial_metadata h t (MaxLifetime (cfg_Session (sh_config s))) w2 = (md, w2') ->
    let d := valid_data (NewData sid t (Some md)) in
    well_formed (session_key h sid) d /\ authentic (w_trace w1) r (session_key h sid) d.
Proof.
  intros Hcb Et sid w1' md w2 w2' Hsid Hmd d.
  apply redeemValidTokens_Ok in Et as (wa & Ht).
  apply (RedeemTokens_inv HL) in Ht as (a & raw & tok & jwks & Htr & Hraw & Htok & Hver & Haud & Hiss & Hnon & _).
  apply checked_callback_inl in Hcb as Hin. destruct Hin as (Hlc & _ & Hp & Hn & Herr & Hst & Hne & Hcv).
  rewrite Hp in Htr. rewrite Hn in Hnon.
  destruct (initial_metadata_run h t (MaxLifetime (cfg_Session (sh_config s))) w2)
    as (n' & md' & Hmd' & _ & Hc & He & Hto). rewrite Hmd in Hmd'. injection Hmd' as <- _.
  split.
  - split; [apply data_text_valid|]. split; [by exists sid|].
    change (d_Metadata d) with md. split; [by rewrite He, Hc|]. intros Hi. by rewrite Hto, Hi.
  - exists lc, (exchange_options cb a), sid, (tk_IDToken t), tok, jwks. do 4 (split; [done|]).
    split; [rewrite Htr; apply elem_of_app; right; by left|].
    split; [unfold exchange_options; rewrite Hcv; by left|]. rewrite Hraw.
    repeat (split; [done|]). split; [|by rewrite <- Hraw].
    intros x Hx. unfold NewSessionID in Hsid. rewrite Hx in Hsid. by injection Hsid.
Qed.

(** The end of [create_session]: the session, then the cookie. *)
Lemma create_session_keeps (Q : World S -> World S -> Prop) {HF : Framed Q} {HJQ : KeysFramed Q} r cb rw w :
  Q w (redeemValidTokens s cb w).2 ->
  (forall t w1, redeemValidTokens s cb w = (Ok t, w1) ->
     Q w1 (Create h r t (MaxLifetime (cfg_Session (sh_config s))) w1).2) ->
  Q w (create_session s r cb rw w).2.
Proof.
  intros Hq Hc. unfold create_session. rewrite bind_run.
  destruct (redeemValidTokens s cb w) as [[t|e] w1] eqn:Et; cbn [fst snd] in *; [|exact Hq].
  etransitivity; [exact Hq|]. rewrite bind_run. specialize (Hc t w1 eq_refl).
  destruct (Create h r t _ w1) as [res w2] eqn:Ec. cbn [fst snd] in *. etransitivity; [exact Hc|].
  destruct res as [key|e]; [|reflexivity].
  match goal with |- Q w2 (?m w2).2 => assert (Hq2 : keeps Q m); [|exact (Hq2 w2)] end. cbv zeta. walk.
Qed.

Lemma create_session_creates r lc cb rw :
  checked_callback s r = inl (lc, cb) -> keeps (creates r) (create_session s r cb rw).
Proof.
  intros Hcb w. apply create_session_keeps; [apply _..| |].
  { by apply redeemValidTokens_quiet; apply _. }
  intros t w1 Et. pose proof (redeemed_session r lc cb t w w1 Hcb Et) as Hnew.
  destruct (Create h r t _ w1) as [res w2] eqn:Ec. cbn [fst snd].
  apply (Create_writes HS HR h) in Ec as [Hr|(sid & w1' & md & n & e & Hsid & Hmd & Hdec & Htr2 & Hm)].
  { by apply shrinks_creates, shrinks_reads. }
  split; [by rewrite Htr2|]. intros k v Hk Hv. rewrite Htr2.
  assert (Hkv : view (w_store w1) !! k = Some v \/ k = session_key h sid /\ v = e).
  { destruct Hm as [Hm|Hm]; apply (lookup_weaken _ _ _ _ Hv) in Hm; [by left|].
    apply lookup_insert_Some in Hm as [[<- <-]|[_ Hm]]; [by right|by left]. }
  destruct Hkv as [H|[-> ->]]; [by left|right].
  eexists. split; [exact Hdec|]. by eapply Hnew.
Qed.

Lemma callback_creates r rw : keeps (creates r) (logincallback_Handler s r rw).
Proof.
  apply callback_quiet; [apply _..|]. intros lc cb rw'. by apply create_session_creates.
Qed.

(** ** Requests *)

Lemma serve_evolve r :
  routed r <> Matched ToLoginCallback -> keeps evolve (serve s r).
Proof.
  intros Hr. apply serve_quiet; [apply _..| | | |done].
  - intros k w. apply shrinks_evolve, GetForKey_shrinks.
  - intros k w. apply shrinks_evolve, destroyForKey_shrinks.
  - apply Refresh_evolve.
Qed.

Lemma serve_creates r :
  routed r = Matched ToLoginCallback -> keeps (creates r) (serve s r).
Proof.
  intros Hr. apply serve_keeps; [apply _|]. intros r' Hsame. rewrite Hr. intros w.
  destruct (callback_creates r' new_response w) as [Ht Hv]. split; [done|]. intros k v Hk H.
  destruct (Hv k v Hk H) as [|(d & Hd & Hwf & Ha)]; [by left|right]. exists d.
  split; [done|]. split; [done|]. by eapply authentic_same.
Qed.

(** The states the application reaches by serving requests, from a store
    without sessions.  Between two requests time passes, and sessions expire or
    are removed by others. *)
Inductive reached : list Request -> World S -> Prop :=
| reached_start w :
    (forall k, ~ is_lock k -> view (w_store w) !! k = None) -> reached [] w
| reached_serve rs w r : reached rs w -> reached (r :: rs) (serve s r w).2
| reached_pass rs w w' : reached rs w -> shrinks view w w' -> reached rs w'.

(** Every session has a login among the requests served. *)
Definition accounted (rs : list Request) w : Prop :=
  forall k v, ~ is_lock k -> view (w_store w) !! k = Some v ->
  exists d r, EncryptedData_Decrypt (h_crypter h) v = Ok d /\ well_formed k d
    /\ r ∈ rs /\ authentic (w_trace w) r k d.

Lemma accounted_kept rs w w' k v :
  accounted rs w -> w_trace w `prefix_of` w_trace w' -> ~ is_lock k ->
  view (w_store w) !! k = Some v ->
  exists d r, EncryptedData_Decrypt (h_crypter h) v = Ok d /\ well_formed k d
    /\ r ∈ rs /\ authentic (w_trace w') r k d.
Proof.
  intros Ha Ht Hk Hv. destruct (Ha k v Hk Hv) as (d & r & Hd & Hwf & Hin & Hau).
  exists d, r. do 3 (split; [done|]). by eapply authentic_mono.
Qed.

Lemma reached_accounted rs w : reached rs w -> accounted rs w.
Proof.
  induction 1 as [w Hw|rs w r _ IH|rs w w' _ IH [Ht Hv]]; intros k v Hk H.
  - by rewrite Hw in H.
  - destruct (decide (routed r = Matched ToLoginCallback)) as [Hr|Hr].
    + destruct (serve_creates r Hr w) as [Ht Hv]. destruct (Hv k v Hk H) as [H1|(d & Hd & Hwf & Ha)].
      * destruct (accounted_kept rs w _ k v IH Ht Hk H1) as (d & r1 & ? & ? & ? & ?).
        exists d, r1. do 2 (split; [done|]). split; [by right|done].
      * exists d, r. do 2 (split; [done|]). split; [by left|done].
    + destruct (serve_evolve r Hr w) as [Ht Hv].
      destruct (Hv k v Hk H) as [H1|(d & d' & (e & He & Hd) & Hev & Hd')].
      * destruct (accounted_kept rs w _ k v IH Ht Hk H1) as (d & r1 & ? & ? & ? & ?).
        exists d, r1. do 2 (split; [done|]). split; [by right|done].
      * destruct (accounted_kept rs w _ k e IH Ht Hk He) as (d1 & r1 & Hd1 & Hwf & Hin & Ha).
        rewrite Hd1 in Hd. injection Hd as ->. exists d', r1. split; [done|].
        split; [eapply evolves_well_formed; [by eapply Decrypt_text|done|done]|].
        split; [by right|]. by eapply evolves_authentic.
  - by apply (accounted_kept rs w w' k v IH Ht Hk), Hv.
Qed.
End Routes.

(** ** Properties *)

Section Statements.
Context {L : JwtLib} {C : JwkCache} {Key : Type} {O : OAuth2 Key} {E : Env} {A : AEAD} {S : Type}.
Context {St : Store S} {R : Retry S} {J : JwksState S} {T : ErrorTemplate} {D : Doublestar}.
Context {LC : Location} {X : Mux} {MO : MapOrder}.
Context {view : S -> gmap str EncryptedData} (HS : StoreLaws S view) (HR : RetryLaws S).
Context (HA : AEADLaws) (HK : KeygenLaw) (HZ : LocationLaws) (HJ : JwksFrame S view) (HL : JwtLibLaws).
Context (s : StandardHandler Key).


(** C6: Every session in the store of a running application is well formed: it
    decrypts, to text, is stored under its ID, ends the configured lifetime after
    it was created, and has a timeout only if inactivity is configured. *)
Theorem sessions_well_formed (rs : list Request) (w : World S) (k : str) (v : EncryptedData)
  (Hreached : reached (view := view) s rs w) (Hlock : ~ is_lock k)
  (Hstored : view (w_store w) !! k = Some v) :
  exists d, EncryptedData_Decrypt (h_crypter (sh_sessions s)) v = Ok d /\ well_formed s k d.
Proof.
  destruct (reached_accounted s rs w Hreached k v Hlock Hstored)
    as (d & r & Hd & Hwf & _). by exists d.
Qed.

(** C9: Only the callback route makes sessions: whatever else a request asks for,
    every session after it was there before, as it is or with other tokens and
    their dates, and under the same key, ID and id_token. *)
Theorem only_callback_creates (r : Request) (w : World S) (k : str) (v : EncryptedData)
  (Hroute : mux_dispatch (mounts (ing_paths (sh_ingresses s))) (rq_Method r) (Path (rq_URL r))
            <> Matched ToLoginCallback)
  (Hlock : ~ is_lock k) (Hstored : view (w_store (serve s r w).2) !! k = Some v) :
  view (w_store w) !! k = Some v
  \/ exists d d', stored (view := view) (sh_sessions s) w k d
       /\ EncryptedData_Decrypt (h_crypter (sh_sessions s)) v = Ok d'
       /\ evolves (h_cfg (sh_sessions s)) d d'.
Proof.
  destruct (serve_evolve (HS := HS) s r Hroute w) as [_ Hv].
  destruct (Hv k v Hlock Hstored) as [H|(d & d' & Hst & Hev & Hd')]; [by left|right].
  by exists d, d'.
Qed.
End Statements.

(** ** Concrete runs *)

Import Example.

#[local] Existing Instance toy_mux.
#[local] Existing Instance insertion_order.
#[local] Abbreviation sessions := (fun s : AppStore => s.1).

(** The state after the login of [returning_request] was served. *)
Definition served_world : World AppStore := (serve app returning_request world0).2.

Lemma served_reached : reached (view := sessions) app [returning_request] served_world.
Proof. apply reached_serve, reached_start. intros k _. apply lookup_empty. Qed.

Lemma example_not_lock : ~ is_lock example_key.
Proof.
  intros [k0 H]. assert (Hs : HasSuffix example_key $".lock" = true).
  { apply HasSuffix_spec. exists k0. exact H. }
  vm_compute in Hs. discriminate.
Qed.

Lemma served_stored : exists v, sessions (w_store served_world) !! example_key = Some v.
Proof.
  destruct (sessions (w_store served_world) !! example_key) as [v|] eqn:H; [by exists v|].
  apply (f_equal (fun o => bool_decide (is_Some o))) in H. vm_compute in H. discriminate.
Qed.


Lemma sessions_well_formed_witness :
  exists d, EndsAt (md_Session (d_Metadata d)) = (CreatedAt (md_Session (d_Metadata d)) + Hour)%Z.
Proof.
  destruct served_stored as (v & Hv).
  destruct (sessions_well_formed app_laws app_retry_laws toy_AEAD_laws app_keygen oslo_laws
              (clock_frame (fun m => m)) toy_jwt_laws app [returning_request] served_world example_key v
              served_reached example_not_lock Hv)
    as (d & _ & _ & _ & H & _).
  exists d. exact H.
Defined.

(** A login request after that leaves the session as it is. *)
Lemma login_keeps_session :
  exists v, sessions (w_store (serve app login_route_request served_world).2) !! example_key = Some v.
Proof.
  destruct (sessions (w_store (serve app login_route_request served_world).2) !! example_key)
    as [v|] eqn:H; [by exists v|].
  apply (f_equal (fun o => bool_decide (is_Some o))) in H. vm_compute in H. discriminate.
Qed.

Lemma login_route :
  mux_dispatch (mounts (ing_paths (sh_ingresses app))) (rq_Method login_route_request)
    (Path (rq_URL login_route_request)) <> Matched ToLoginCallback.
Proof. vm_compute. discriminate. Qed.

Lemma only_callback_creates_witness :
  exists v, sessions (w_store served_world) !! example_key = Some v
    \/ exists d d' : Data, ExternalSessionID d' = ExternalSessionID d.
Proof.
  destruct login_keeps_session as (v & Hv). exists v.
  destruct (only_callback_creates app_laws app_retry_laws toy_AEAD_laws app_keygen oslo_laws
              app login_route_request served_world example_key v
              login_route example_not_lock Hv)
    as [H|(d & d' & _ & _ & H & _)]; [left; exact H|right; exists d, d'; exact H].
Defined.
