(* ===== verification/Concurrent.v ===== *)
(** * Requests that run at once

    Any number of requests, at any number of instances of the program, share one
    Redis.  A request is the code of [serve], run against a script: the replies
    its commands have had so far.  Where the script ends, the next command is the
    one that has no reply yet.  A step of the system carries out the next command
    of some request on the server, so the commands of the requests interleave in
    any order; between its commands a request's code runs on its own, with its own
    environment. *)

From S2P Require Import Prelude GoStrings GoTime GoUrl GoUtf8 GoError GoRfc3339 GoJson Config Http Crypter Cookie Ingress RedirectUrl Openid Jwks Loginstatus OpenidClient SessionData Store Retry Keeps SessionHandler Frames ErrorHandler AutoLogin AppState Standard Example LoginFlow LogoutFlow SessionApi ReverseProxy Router Routes Provenance.

(** ** A request between its commands *)

Section Local.
Context {Token : Type} `{!EqDecision Token}.

(** The commands of go-redis and redislock that the program uses, and replies. *)
Inductive Command :=
| CmdGet (key : str) | CmdSet (key value : str) (d : Duration) | CmdDel (keys : list str)
| CmdObtain (key : str) (d : Duration) | CmdRelease (t : Token).
#[global] Instance Command_eq_dec : EqDecision Command.
Proof. solve_decision. Defined.
Inductive Reply :=
| ReplyValue (r : result str) | ReplyDone (r : result unit) | ReplyToken (r : result Token).

(** The script that is left, the command without a reply with the events until
    then, and the time of the last refresh of the provider's keys. *)
Record Local := mkLocal {
  lo_script : list (Command * Reply);
  lo_next : option (Command * list Event);
  lo_lastRefresh : Time }.

(** A command: its reply from the script, or the end of the run.  What the code
    does after that is of no consequence. *)
Definition ask {X} (c : Command) (accept : Reply -> option (result X)) : M Local (result X) := fun w =>
  let s := w_store w in
  match lo_next s, lo_script s with
  | Some _, _ => (Err (New "suspended"), w)
  | None, [] =>
      (Err (New "suspended"),
       mkWorld (w_tick w) (mkLocal [] (Some (c, w_trace w)) (lo_lastRefresh s)) (w_trace w))
  | None, (c', a) :: script =>
      (match accept a with
       | Some r => if decide (c' = c) then r else Err (New "diverged")
       | None => Err (New "diverged")
       end, mkWorld (1 + w_tick w) (mkLocal script None (lo_lastRefresh s)) (w_trace w))
  end.

#[global] Instance local_redis : RedisClient Local := {|
  LockToken := Token;
  redis_Get k := ask (CmdGet k) (fun a => match a with ReplyValue r => Some r | _ => None end);
  redis_Set k v d := ask (CmdSet k v d) (fun a => match a with ReplyDone r => Some r | _ => None end);
  redis_Del ks := ask (CmdDel ks) (fun a => match a with ReplyDone r => Some r | _ => None end);
  redislock_Obtain k d := ask (CmdObtain k d) (fun a => match a with ReplyToken r => Some r | _ => None end);
  redislock_Release t := ask (CmdRelease t) (fun a => match a with ReplyDone r => Some r | _ => None end) |}.

#[global] Instance local_keys : JwksState Local := {|
  lastRefresh := lo_lastRefresh;
  set_lastRefresh t s := mkLocal (lo_script s) (lo_next s) t |}.
End Local.
Arguments Command : clear implicits.
Arguments Reply : clear implicits.
Arguments Local : clear implicits.
#[local] Existing Instance Redis.redis_store.

(** ** What a request relies on, and what it guarantees

    [good k d]: session data that replies may hold under the key [k];
    [mine tr k d]: data the request may create after the events [tr]. *)

Section Guarantee.
Context {L : JwtLib} {C : JwkCache} {Key : Type} {O : OAuth2 Key} {E : Env} {A : AEAD}.
Context {Token : Type} `{!EqDecision Token}.
#[local] Abbreviation Local := (Local Token).
Context {Rt : Retry Local} {LC : Location} {HR : RetryLaws Local}.
Context {HA : AEADLaws} {HK : KeygenLaw} {HZ : LocationLaws}.
Context (h : Handler Key) (good : str -> Data -> Prop) (mine : list Event -> str -> Data -> Prop).
Context (good_text : forall k d, good k d -> data_text d = true).
Context (good_evolves : forall k d d', good k d -> evolves (h_cfg h) d d' -> data_text d' = true -> good k d').
Context (mine_mono : forall tr tr' k d, tr `prefix_of` tr' -> mine tr k d -> mine tr' k d).
Implicit Types (w : World Local) (l : Local) (d : Data).

(** The session in a value, if it is one. *)
Definition holds (b : str) (P : Data -> Prop) : Prop :=
  forall v, UnmarshalBinary b = Ok v -> exists d, EncryptedData_Decrypt (h_crypter h) v = Ok d /\ P d.

Definition reads_good l : Prop := forall k b,
  (CmdGet k, ReplyValue (Ok b)) ∈ lo_script l -> ~ is_lock k -> holds b (good k).
Definition admissible (c : Command Token) (tr : list Event) : Prop :=
  match c with
  | CmdSet k b _ => ~ is_lock k -> holds b (fun d => good k d \/ mine tr k d)
  | CmdObtain k _ => is_lock k
  | _ => True
  end.
Definition tame l : Prop :=
  reads_good l /\ forall c tr, lo_next l = Some (c, tr) -> admissible c tr.
Definition fine w w' : Prop :=
  tame (w_store w) -> w_trace w `prefix_of` w_trace w' /\ tame (w_store w').

#[global] Instance fine_framed : Framed fine.
Proof.
  split; [split|].
  - intros w. by split.
  - intros w1 w2 w3 H1 H2 Ht. destruct (H1 Ht) as [Hp1 Ht2]. destruct (H2 Ht2) as [Hp2 Ht3].
    split; [by etrans|done].
  - intros w w' Hs Ht _ H. by rewrite Hs.
Qed.
#[global] Instance fine_keys : KeysFramed fine.
Proof. intros t w H. by split. Qed.

(** In a sequence, with what the first part gave. *)
Lemma fine_bindE {X Y} (m : M Local (result X)) (f : X -> M Local (result Y)) w :
  fine w (m w).2 ->
  (forall x w1, tame (w_store w) -> m w = (Ok x, w1) -> fine w1 (f x w1).2) ->
  fine w (bindE m f w).2.
Proof.
  intros Hm Hf Ht. destruct (Hm Ht) as [Hp Ht1]. unfold bindE.
  destruct (m w) as [[x|e] w1]; [|by split]. destruct (Hf x w1 Ht eq_refl Ht1) as [Hp2 Ht2].
  split; [by etrans|done].
Qed.

Lemma ask_fine {X} c (accept : Reply Token -> option (result X)) w :
  admissible c (w_trace w) -> fine w (ask c accept w).2.
Proof.
  intros Hc [Hr Hn]. unfold ask. destruct w as [tick [script next t] tr]. cbn in *.
  destruct next as [[c' tr']|]; [done|].
  destruct script as [|[c' a] script]; cbn; (split; [done|split; cbn]).
  - intros k b Hin. by apply elem_of_nil in Hin.
  - by intros ? ? [= <- <-].
  - intros k b Hin. apply Hr. by right.
  - done.
Qed.

Lemma redis_Get_good w w' k b :
  tame (w_store w) -> ~ is_lock k -> redis_Get k w = (Ok b, w') -> holds b (good k).
Proof.
  intros [Hr _] Hk. cbn. unfold ask. destruct w as [tick [script next t] tr]. cbn in *.
  destruct next as [[c' tr']|]; [done|]. destruct script as [|[c' a] script]; [done|].
  destruct a as [r|r|r]; [|done..]. case_decide as Hc; [subst c'|done]. intros [= -> _].
  apply (Hr k b); [by left|done].
Qed.

(** *** The store *)

Lemma redis_Read_fine k : keeps fine (Redis.redis_Read k).
Proof.
  unfold Redis.redis_Read, Redis.redis_Scan. apply keeps_fmap, keeps_bindE; [apply _| |walk].
  intros w. by apply ask_fine.
Qed.

Lemma redis_Read_good w w' k v :
  tame (w_store w) -> ~ is_lock k -> Redis.redis_Read k w = (Ok v, w') ->
  exists d, EncryptedData_Decrypt (h_crypter h) v = Ok d /\ good k d.
Proof.
  intros Ht Hk. unfold Redis.redis_Read. rewrite Redis.fmap_run. intros [= Hr _].
  unfold Redis.redis_Scan, bindE in Hr. destruct (redis_Get k w) as [[b|e] w1] eqn:Eg.
  - cbn in Hr. destruct (UnmarshalBinary b) as [v'|e] eqn:Eu.
    + injection Hr as <-. by apply (redis_Get_good w w1 k b Ht Hk Eg).
    + cbn in Hr. by destruct (errors_Is _ _).
  - cbn in Hr. by destruct (errors_Is _ _).
Qed.

(** A value that may be written after the events [tr]. *)
Definition allowed (tr : list Event) (k : str) (v : EncryptedData) : Prop :=
  encrypted_text v = true
  /\ (~ is_lock k -> exists d, EncryptedData_Decrypt (h_crypter h) v = Ok d /\ (good k d \/ mine tr k d)).

Lemma allowed_mono tr tr' k v : tr `prefix_of` tr' -> allowed tr k v -> allowed tr' k v.
Proof.
  intros Ht [Htext Hv]. split; [done|]. intros Hk. destruct (Hv Hk) as (d & Hd & Hg).
  exists d. split; [done|]. destruct Hg as [Hg|Hm]; [by left|right]. by eapply mine_mono.
Qed.

Lemma redis_SetBinary_fine w k v x : allowed (w_trace w) k v -> fine w (Redis.redis_SetBinary k v x w).2.
Proof.
  intros [Htext Hv]. unfold Redis.redis_SetBinary, bindE, pureR, mret, M_ret.
  destruct (MarshalBinary v) as [b|e] eqn:Eb; [|reflexivity].
  apply ask_fine. cbn. intros Hk v' Hv'. rewrite (encrypted_roundtrip v b Htext Eb) in Hv'.
  injection Hv' as <-. by apply Hv.
Qed.

Lemma redis_Write_fine w k v x : allowed (w_trace w) k v -> fine w (Redis.redis_Write k v x w).2.
Proof. intros Hv. unfold Redis.redis_Write. rewrite Redis.fmap_run. by apply redis_SetBinary_fine. Qed.

Lemma redis_Update_fine w k v : allowed (w_trace w) k v -> fine w (Redis.redis_Update k v w).2.
Proof.
  intros Hv Ht. unfold Redis.redis_Update, bindE. pose proof (redis_Read_fine k w Ht) as Hr.
  destruct (Redis.redis_Read k w) as [[v0|e] w1]; [|exact Hr]. rewrite Redis.fmap_run.
  destruct Hr as [Hp Ht1]. destruct (redis_SetBinary_fine w1 k v KeepTTL) as [Hp2 Ht2]; [|done|].
  - by eapply allowed_mono.
  - split; [by etrans|done].
Qed.

Lemma redis_Delete_fine ks : keeps fine (Redis.redis_Delete ks).
Proof. unfold Redis.redis_Delete. apply keeps_fmap. intros w. by apply ask_fine. Qed.
Lemma redis_Acquire_fine (l : Redis.RedisLock) x : keeps fine (Redis.Acquire l x).
Proof.
  unfold Redis.Acquire. apply keeps_bind; [apply _| |intros ?; walk].
  intros w. apply ask_fine. by eexists.
Qed.
Lemma redis_Release_fine (l : Redis.RedisLock) : keeps fine (Redis.Release l).
Proof. unfold Redis.Release. destruct (Redis.rl_lock l); [|walk]. intros w. by apply ask_fine. Qed.

(** *** The session handler *)

(** What every attempt guarantees, whatever came before. *)
Lemma retry_fine {X} (m : M Local (attempt X)) w :
  (forall w1, w_trace w `prefix_of` w_trace w1 -> fine w1 (m w1).2) -> fine w (retry_Do m w).2.
Proof.
  intros Hm Ht. destruct (retry_Do m w) as [r w'] eqn:Er.
  eapply (retry_Do_inv m (fun w1 => w_trace w `prefix_of` w_trace w1 /\ tame (w_store w1))) in Er as [H _];
    [exact H| | |by split].
  - intros w1 [Hp Ht1]. destruct (Hm w1 Hp Ht1) as [Hp' Ht']. split; [by etrans|done].
  - intros w1 w2 [Hp Ht1] (Hs & Htr & _). by rewrite Hs, Htr.
Qed.

Lemma GetForKey_fine k : keeps fine (GetForKey h k).
Proof. apply GetForKey_quiet; [apply _..|]. apply redis_Read_fine. Qed.
Lemma destroyForKey_fine k : keeps fine (destroyForKey k).
Proof. apply destroyForKey_quiet; [apply _..|]. apply redis_Delete_fine. Qed.

Lemma GetForKey_good w w' k d :
  tame (w_store w) -> ~ is_lock k -> GetForKey h k w = (Ok d, w') -> good k d.
Proof.
  intros Ht Hk. unfold GetForKey. intros (v & w1 & Hr%wrapM_Ok & Hd%wrapM_Ok)%bindE_Ok.
  eapply (retry_Do_inv _ (fun w1 => tame (w_store w1))) in Hr as [_ (w2 & Ht2 & Hf)].
  - rewrite fmap_M_run in Hf. destruct (store_Read k w2) as [r w3] eqn:Er. injection Hf as Hf _.
    apply retry_unless_Success in Hf. cbn in Hf. subst r.
    destruct (redis_Read_good w2 w3 k v Ht2 Hk Er) as (d' & Hd' & Hg).
    unfold pureR, mret, M_ret in Hd. rewrite Hd' in Hd. by injection Hd as ->.
  - intros w2 Ht2. rewrite fmap_M_run. by apply (redis_Read_fine k w2).
  - intros w2 w3 Ht2 (Hs & _). by rewrite Hs.
  - done.
Qed.

Lemma Update_fine k d w : (~ is_lock k -> good k (valid_data d)) -> fine w (Update h k d w).2.
Proof.
  intros Hg. destruct (Update h k d w) as [r w'] eqn:Eu.
  destruct (Update_run h w r w' k d Eu) as [[Hl _]|(e & w1 & r1 & Hd & Htext & Hl & Hw & _)].
  { by apply patient_later. }
  transitivity w1; [by apply patient_later|].
  replace w' with (retry_Do (retry_unless ErrKeyNotFound <$> store_Update k e) w1).2 by (by rewrite Hw).
  apply retry_fine. intros w2 _. rewrite fmap_M_run. apply redis_Update_fine. split; [done|].
  intros Hk. exists (valid_data d). split; [done|]. left. by apply Hg.
Qed.

(** Refreshed data of a session is good. *)
Lemma refreshed_good k d t resp m n w :
  good k d -> refreshed_metadata h (d_Metadata d) (tr_ExpiresIn resp) w = (m, ticked n w) ->
  forall d', d' = valid_data (Data_with_metadata (Data_with_tokens d (tr_AccessToken resp) t) m) -> good k d'.
Proof.
  intros Hg Hm d' ->.
  destruct (refreshed_metadata_run h (d_Metadata d) (tr_ExpiresIn resp) w)
    as (n' & m' & Hm' & _ & Hc & He & Hto). rewrite Hm' in Hm. injection Hm as -> _.
  eapply good_evolves; [exact Hg| |apply data_text_valid].
  pose proof (valid_data_id d (good_text k d Hg)) as Hid. destruct d as [sid at_ idt rt jti md].
  injection Hid as Hsid _ Hidt _ Hjti.
  do 3 (split; [done|]). split; [exact Hc|]. split; [exact He|]. intros Hi. cbn. by rewrite Hto, Hi.
Qed.

(** Only what the lookup found is written back, with other tokens. *)
Lemma refresh_locked_fine k : keeps fine (refresh_locked h k).
Proof.
  intros w. apply fine_bindE; [apply GetForKey_fine|]. intros d w1 Ht Eg.
  assert (Hg : ~ is_lock k -> good k d) by (intros Hk; by eapply GetForKey_good).
  match goal with |- fine w1 (?m w1).2 => enough (Hm : keeps fine m) by exact (Hm w1) end.
  apply keeps_bind; [apply _|walk|]. intros can. destruct (negb can); [walk|].
  apply keeps_bind; [apply _|walk|]. intros out. destruct out; [walk|].
  apply keeps_bindE; [apply _|walk|]. intros resp.
  apply keeps_bind_val; [apply _|walk|]. intros m [wm Hm].
  apply keeps_bindE; [apply _| |intros ?; walk]. intros w2. apply Update_fine. intros Hk.
  destruct (refreshed_metadata_run h (d_Metadata d) (tr_ExpiresIn resp) wm) as (n & m' & Hm' & _).
  rewrite Hm' in Hm. cbn in Hm. subst m'. by eapply (refreshed_good k d); [apply Hg| |].
Qed.

Lemma Handler_Refresh_fine k d : keeps fine (Handler_Refresh h k d).
Proof.
  unfold Handler_Refresh. apply keeps_bind; [apply _|walk|]. intros can. destruct (negb can); [walk|].
  apply keeps_bind; [apply _| |].
  { apply acquire_quiet; [apply _|]. intros l x _. apply redis_Acquire_fine. }
  intros [[[]|e] l]; [|walk]. apply keeps_bind; [apply _|apply refresh_locked_fine|]. intros res.
  apply keeps_bind; [apply _|apply redis_Release_fine|]. intros ?. walk.
Qed.

(** *** What a request gets to know *)

Lemma refresh_locked_good k w w' d' :
  tame (w_store w) -> ~ is_lock k -> refresh_locked h k w = (Ok d', w') -> good k d'.
Proof.
  intros Ht Hk. unfold refresh_locked. intros (d & w1 & Eg & H)%bindE_Ok.
  pose proof (GetForKey_good w w1 k d Ht Hk Eg) as Hg. rewrite bind_run in H.
  destruct (canRefresh_run h d w1) as [n1 Hcan]. rewrite Hcan in H. cbn [fst snd] in H.
  destruct (can_refresh _ _ _); cbn [negb] in H; [|by injection H as ->].
  rewrite bind_run in H. destruct (isTimedOut_run h d (ticked n1 w1)) as [n2 Hout]. rewrite Hout in H.
  cbn [fst snd] in H. destruct (timed_out _ _ _); [discriminate H|].
  apply bindE_Ok in H as (resp & w2 & Hr & H).
  apply (refresh_grant_spec HR h) in Hr as (_ & _ & wg & Hgr).
  rewrite bind_run in H. destruct (refreshed_metadata_run h (d_Metadata d) (tr_ExpiresIn resp) w2)
    as (n3 & m & Hm & _). rewrite Hm in H. cbn [fst snd] in H.
  apply bindE_Ok in H as (_ & w3 & _ & [= <- _]).
  rewrite <- (refreshed_text h d _ _ _ resp m (good_text k d Hg) Hgr).
  by eapply refreshed_good.
Qed.

Lemma Handler_Refresh_good k d w w' d' :
  tame (w_store w) -> ~ is_lock k -> good k d -> Handler_Refresh h k d w = (Ok d', w') -> good k d'.
Proof.
  intros Ht Hk Hg. unfold Handler_Refresh. rewrite bind_run.
  destruct (canRefresh_run h d w) as [n ->]. cbn [fst snd].
  destruct (can_refresh _ _ _); cbn [negb]; [|by intros [= <- _]]. rewrite bind_run.
  assert (Ha : keeps fine (acquire (MakeLock k))).
  { apply acquire_quiet; [apply _|]. intros l x _. apply redis_Acquire_fine. }
  destruct (Ha (ticked n w) Ht) as [_ Ht1].
  destruct (acquire (MakeLock k) (ticked n w)) as [[[[]|e] l] w1]; cbn [fst snd] in *; [|discriminate].
  rewrite bind_run. destruct (refresh_locked h k w1) as [res w2] eqn:Er. cbn [fst snd].
  rewrite bind_run. cbn [fst snd]. intros [= -> _]. by eapply refresh_locked_good.
Qed.

Lemma GetOrRefresh_good r w w' d :
  tame (w_store w) -> GetOrRefresh h r w = (Ok d, w') ->
  exists k, GetKey h r = Ok k /\ (~ is_lock k -> good k d).
Proof.
  intros Ht. unfold GetOrRefresh. intros (k & w0 & [= Hk <-] & H)%bindE_Ok. exists k. split; [done|].
  intros Hl. apply bindE_Ok in H as (d0 & w1 & Eg & H).
  pose proof (GetForKey_good w w1 k d0 Ht Hl Eg) as Hg.
  destruct (GetForKey_fine k w Ht) as [_ Ht1]. rewrite Eg in Ht1. cbn [snd] in Ht1.
  rewrite bind_run in H. destruct (isTimedOut_run h d0 w1) as [n1 Hout]. rewrite Hout in H.
  cbn [fst snd] in H. destruct (timed_out _ _ _); [discriminate H|].
  rewrite bind_run in H. destruct (shouldRefresh_run h d0 (ticked n1 w1)) as (b & n2 & Hsh).
  rewrite Hsh in H. cbn [fst snd] in H. destruct b; cbn [negb] in H; [|by injection H as ->].
  rewrite bind_run in H. destruct (Handler_Refresh h k d0 _) as [res w3] eqn:Er. cbn [fst snd] in H.
  destruct res as [d'|e]; [|destruct (_ || _); [discriminate H|by injection H as ->]].
  injection H as -> _. eapply Handler_Refresh_good; [|done|exact Hg|exact Er]. exact Ht1.
Qed.

Lemma GetAccessToken_good r w w' tok :
  tame (w_store w) -> GetAccessToken h r w = (Ok tok, w') ->
  tok <> [] /\ exists k d, GetKey h r = Ok k /\ AccessToken d = tok /\ (~ is_lock k -> good k d).
Proof.
  intros Ht. unfold GetAccessToken. intros (d & w1 & Hg & H)%bindE_Ok.
  destruct (HasAccessToken d) eqn:Ea; cbn [negb] in H; [|discriminate H].
  rewrite bind_run, IsExpired_run in H. cbn [fst snd] in H. destruct (After _ _); [discriminate H|].
  injection H as <- _. destruct (GetOrRefresh_good r w w1 d Ht Hg) as (k & Hk & Hd).
  split; [by unfold HasAccessToken in Ea; apply negb_true_iff, is_empty_false in Ea|].
  by exists k, d.
Qed.

Lemma Create_fine r t lifetime w :
  (forall sid w1 md w2 w2',
     NewSessionID (oidc_Provider (h_openid h)) (tk_IDToken t) (URL_Query (rq_URL r)) w = (Ok sid, w1) ->
     initial_metadata h t lifetime w2 = (md, w2') ->
     mine (w_trace w) (session_key h sid) (valid_data (NewData sid t (Some md)))) ->
  fine w (Create h r t lifetime w).2.
Proof.
  intros Hm. destruct (Create h r t lifetime w) as [res w'] eqn:Ec.
  destruct (Create_run h r t lifetime w res w' Ec)
    as [[Hl _]|(sid & w1 & md & n & e & w2 & r2 & Hsid & Hmd & Hd & Htext & Hl & Hw & _)].
  { by apply patient_later. }
  transitivity w2; [by apply patient_later|].
  replace w' with (retry_Do (RetryableError <$> store_Write (session_key h sid) e lifetime) w2).2
    by (by rewrite Hw).
  apply retry_fine. intros w3 Hp. rewrite fmap_M_run. apply redis_Write_fine. split; [done|].
  intros _. eexists. split; [exact Hd|]. right.
  eapply mine_mono; [|by eapply Hm]. destruct Hl as (_ & <- & _). exact Hp.
Qed.
End Guarantee.

(** ** The system *)

Section System.
Context {L : JwtLib} {C : JwkCache} {Key : Type} {O : OAuth2 Key} {A : AEAD}.
Context {S : Type} {RC : RedisClient S} `{!EqDecision (LockToken (S := S))}.
Context {Rt : Retry (Local (LockToken (S := S)))} {T : ErrorTemplate} {D : Doublestar}.
Context {LC : Location} {X : Mux} {MO : MapOrder}.
Context (s : StandardHandler Key).
#[local] Abbreviation Token := (LockToken (S := S)).
#[local] Abbreviation h := (sh_sessions s).
Implicit Types (w : World S) (d : Data) (r : Request).

(** A request in flight: its environment, what it knows of the provider's keys,
    and the replies it has had. *)
Record Thread := mkThread {
  th_request : Request;
  th_env : Env;
  th_lastRefresh : Time;
  th_script : list (Command Token * Reply Token) }.

(** The server, the requests in the order they arrived, and the commands so far:
    whose they were, and the events of that request until then. *)
Record System := mkSystem {
  sys_redis : World S;
  sys_threads : list Thread;
  sys_log : list (Request * list Event) }.

(** The run of a request, and the command it gets to. *)
Definition run_thread (th : Thread) : Served * World (Local Token) :=
  serve (E := th_env th) s (th_request th)
    (mkWorld 0 (mkLocal (th_script th) None (th_lastRefresh th)) []).
Definition next_command (th : Thread) : option (Command Token * list Event) :=
  lo_next (w_store (run_thread th).2).
Definition replied (th : Thread) (c : Command Token) (a : Reply Token) : Thread :=
  mkThread (th_request th) (th_env th) (th_lastRefresh th) (th_script th ++ [(c, a)]).

(** A command on the server. *)
Definition perform (c : Command Token) : M S (Reply Token) :=
  match c with
  | CmdGet k => ReplyValue <$> redis_Get k
  | CmdSet k v x => ReplyDone <$> redis_Set k v x
  | CmdDel ks => ReplyDone <$> redis_Del ks
  | CmdObtain k x => ReplyToken <$> redislock_Obtain k x
  | CmdRelease t => ReplyDone <$> redislock_Release t
  end.

(** The next step of the [i]-th request, if there is one. *)
Definition thread_step (i : nat) (c : System) : System :=
  match sys_threads c !! i with
  | Some th =>
      match next_command th with
      | Some (cmd, tr) =>
          let '(a, w) := perform cmd (sys_redis c) in
          mkSystem w (<[i := replied th cmd a]> (sys_threads c)) (sys_log c ++ [(th_request th, tr)])
      | None => c
      end
  | None => c
  end.
Definition run_schedule (c : System) (schedule : list nat) : System :=
  fold_left (fun c i => thread_step i c) schedule c.

Context (rview : S -> RedisState).

(** The sessions the program finds in the server. *)
Definition session_at_server w (k : str) (v : EncryptedData) : Prop :=
  Redis.session_view (rview (w_store w)) !! k = Some v.

Inductive system_step : System -> System -> Prop :=
| system_arrives c th :                      (* a request arrives *)
    th_script th = [] -> KeygenLaw (E := th_env th) ->
    system_step c (mkSystem (sys_redis c) (sys_threads c ++ [th]) (sys_log c))
| system_command c i : system_step c (thread_step i c)
| system_passes c w :                        (* entries expire, or are removed *)
    (forall k e, ~ is_lock k -> rview (w_store w) !! k = Some e -> rview (w_store (sys_redis c)) !! k = Some e) ->
    system_step c (mkSystem w (sys_threads c) (sys_log c)).

(** From a server without sessions. *)
Definition system_start (c : System) : Prop :=
  (forall k, ~ is_lock k -> rview (w_store (sys_redis c)) !! k = None)
  /\ sys_threads c = [] /\ sys_log c = [].

(** ** The invariant *)

Context {token_key : Token -> str} {HRL : RedisLaws S rview token_key}.
Context {HR : RetryLaws (Local Token)} {HA : AEADLaws} {HZ : LocationLaws} {HL : JwtLibLaws}.

(** A session that a request of the system created. *)
Definition created (log : list (Request * list Event)) (k : str) d : Prop :=
  well_formed s k d /\ exists r tr, (r, tr) ∈ log /\ authentic s tr r k d.
Definition creating r (tr : list Event) (k : str) d : Prop := well_formed s k d /\ authentic s tr r k d.

Lemma created_evolves log k d d' :
  created log k d -> evolves (h_cfg h) d d' -> data_text d' = true -> created log k d'.
Proof.
  intros (Hwf & r & tr & Hin & Ha) He Ht. split; [by eapply evolves_well_formed|].
  exists r, tr. split; [done|]. by eapply evolves_authentic.
Qed.

Lemma created_more log e k d : created log k d -> created (log ++ [e]) k d.
Proof. intros (Hwf & r & tr & Hin & Ha). split; [done|]. exists r, tr. split; [set_solver|done]. Qed.

(** A request relies on the sessions of the others and guarantees its own. *)
Lemma serve_fine {E : Env} {HK : KeygenLaw} log r :
  keeps (fine h (created log) (creating r)) (serve (S := Local Token) s r).
Proof.
  assert (Htext : forall k d, created log k d -> data_text d = true) by (by intros k d ((? & _) & _)).
  assert (Hmono : forall tr tr' k d, tr `prefix_of` tr' -> creating r tr k d -> creating r tr' k d).
  { intros tr tr' k d Hp [Hwf Ha]. split; [done|]. by eapply authentic_mono. }
  apply serve_quiet; [apply _..| | | |].
  - apply GetForKey_fine.
  - apply destroyForKey_fine.
  - apply Handler_Refresh_fine; [exact Htext|apply created_evolves|exact Hmono].
  - intros _ r' rw Hsame. apply callback_quiet; [apply _..|]. intros lc cb rw' Hcb w.
    apply create_session_keeps; [apply _..|by apply redeemValidTokens_quiet; apply _|].
    intros t w1 Et. apply Create_fine; [exact Hmono|]. intros sid w1' md w2 w2' Hsid Hmd.
    destruct (redeemed_session s r' lc cb t w w1 Hcb Et sid w1' md w2 w2' Hsid Hmd) as [Hwf Ha].
    split; [exact Hwf|by eapply authentic_same].
Qed.

(** Sessions on the server, and in the replies, are created by requests. *)
Record sound (c : System) : Prop := {
  sound_redis : forall k b x, ~ is_lock k -> rview (w_store (sys_redis c)) !! k = Some (b, x) ->
    holds h b (created (sys_log c) k);
  sound_scripts : forall th, th ∈ sys_threads c ->
    KeygenLaw (E := th_env th)
    /\ forall k b, (CmdGet k, ReplyValue (Ok b)) ∈ th_script th -> ~ is_lock k ->
         holds h b (created (sys_log c) k) }.

Lemma holds_mono b (P Q : Data -> Prop) : (forall d, P d -> Q d) -> holds h b P -> holds h b Q.
Proof. intros H Hb v Hv. destruct (Hb v Hv) as (d & Hd & HP). exists d. auto. Qed.

Lemma next_admissible c i th cmd tr :
  sound c -> sys_threads c !! i = Some th -> next_command th = Some (cmd, tr) ->
  admissible h (created (sys_log c)) (creating (th_request th)) cmd tr.
Proof.
  intros Hc Hi Hn. apply list_elem_of_lookup_2 in Hi. destruct (sound_scripts c Hc th Hi) as [HK Hs].
  assert (Ht : tame h (created (sys_log c)) (creating (th_request th)) (w_store (run_thread th).2)).
  { apply (serve_fine (E := th_env th) (sys_log c) (th_request th)
             (mkWorld 0 (mkLocal (th_script th) None (th_lastRefresh th)) [])).
    split; [|done]. intros k b Hin Hk. by apply (Hs k b Hin Hk). }
  by apply (proj2 Ht).
Qed.

(** A command of a sound system keeps the sessions of the server sound, and its
    reply is one. *)
Lemma perform_sound log r cmd tr w w' a :
  (forall k b x, ~ is_lock k -> rview (w_store w) !! k = Some (b, x) -> holds h b (created log k)) ->
  admissible h (created log) (creating r) cmd tr -> perform cmd w = (a, w') ->
  (forall k b x, ~ is_lock k -> rview (w_store w') !! k = Some (b, x) ->
     holds h b (created (log ++ [(r, tr)]) k))
  /\ (forall k b, cmd = CmdGet k -> a = ReplyValue (Ok b) -> ~ is_lock k -> holds h b (created log k)).
Proof.
  intros Hw Hadm Hp.
  assert (Hmore : forall k b x, ~ is_lock k -> rview (w_store w) !! k = Some (b, x) ->
            holds h b (created (log ++ [(r, tr)]) k)).
  { intros k b x Hk Hb. eapply holds_mono; [|by eapply Hw]. intros d. apply created_more. }
  assert (Hsub : rview (w_store w') ⊆ rview (w_store w) ->
            forall k b x, ~ is_lock k -> rview (w_store w') !! k = Some (b, x) ->
            holds h b (created (log ++ [(r, tr)]) k)).
  { intros Hs k b x Hk Hb. eapply Hmore; [done|]. by eapply lookup_weaken. }
  destruct cmd as [k0|k0 v x0|ks|k0 x0|t]; cbn [perform] in Hp; rewrite Redis.fmap_run in Hp;
    injection Hp as <- <-; (split; [|try done]).
  - apply Hsub. by eapply (redis_Get_spec w), surjective_pairing.
  - intros k b [= <-] [= Hr] Hk. destruct (redis_Get k0 w) as [r0 w1] eqn:Eg. cbn in Hr. subst r0.
    destruct (redis_Get_spec w w1 k0 _ Eg) as [_ [x Hx]]. by eapply Hw.
  - destruct (redis_Set_spec w _ k0 v x0 _ (surjective_pairing _)) as (_ & x & _ & _ & [Hv|[_ Hv]]);
      [|by apply Hsub]. intros k b x1 Hk Hb. apply (lookup_weaken _ _ _ _ Hb) in Hv.
    apply lookup_insert_Some in Hv as [[<- [= -> _]]|[_ Hv]]; [|by eapply Hmore].
    intros v' Hv'. destruct (Hadm Hk v' Hv') as (d & Hd & Hg). exists d. split; [done|].
    destruct Hg as [Hg|[Hwf Ha]]; [by apply created_more|]. split; [done|].
    exists r, tr. split; [set_solver|done].
  - apply Hsub. by eapply (redis_Del_spec w), surjective_pairing.
  - destruct (redislock_spec w _ k0 x0 _ (surjective_pairing _)) as [Hv _].
    intros k b x Hk Hb. eapply Hmore; [done|]. eapply lookup_weaken; [|exact Hv].
    rewrite lookup_delete_ne; [exact Hb|]. by intros ->.
  - apply Hsub. apply redislock_release_spec.
Qed.

Lemma thread_step_sound c i : sound c -> sound (thread_step i c).
Proof.
  intros Hc. unfold thread_step. destruct (sys_threads c !! i) as [th|] eqn:Ei; [|done].
  destruct (next_command th) as [[cmd tr]|] eqn:En; [|done].
  pose proof (next_admissible c i th cmd tr Hc Ei En) as Hadm.
  destruct (perform cmd (sys_redis c)) as [a w'] eqn:Ep.
  destruct (perform_sound _ _ cmd tr _ w' a (sound_redis c Hc) Hadm Ep) as [Hw Ha].
  split; cbn [sys_redis sys_threads sys_log]; [exact Hw|].
  assert (Hold : forall th', th' ∈ sys_threads c -> forall k b,
            (CmdGet k, ReplyValue (Ok b)) ∈ th_script th' -> ~ is_lock k ->
            holds h b (created (sys_log c ++ [(th_request th, tr)]) k)).
  { intros th' Hin k b Hkb Hk. eapply holds_mono; [|by eapply (sound_scripts c Hc th' Hin)].
    intros d. apply created_more. }
  intros th' Hin. apply list_elem_of_lookup_1 in Hin as [j Hj].
  apply list_lookup_insert_Some in Hj as [(<- & <- & _)|[Hne Hj]].
  - apply list_elem_of_lookup_2 in Ei. split; [apply (sound_scripts c Hc th Ei)|].
    intros k b [Hkb|Hkb]%elem_of_app Hk; [by eapply Hold|].
    apply list_elem_of_singleton in Hkb. injection Hkb as <- <-.
    eapply holds_mono; [intros d; apply created_more|by apply (Ha k b)].
  - apply list_elem_of_lookup_2 in Hj. split; [apply (sound_scripts c Hc th' Hj)|by apply Hold].
Qed.

Lemma system_step_sound c c' : sound c -> system_step c c' -> sound c'.
Proof.
  intros Hc Hs. destruct Hs as [c th Hth HK|c i|c w Hw].
  - split; cbn; [apply (sound_redis c Hc)|]. intros th' [Hin|Hin]%elem_of_app.
    + apply (sound_scripts c Hc th' Hin).
    + apply list_elem_of_singleton in Hin. subst th'. split; [done|].
      rewrite Hth. intros k b Hin. by apply elem_of_nil in Hin.
  - by apply thread_step_sound.
  - split; cbn; [|apply (sound_scripts c Hc)]. intros k b x Hk Hb.
    by eapply (sound_redis c Hc), Hw.
Qed.

Lemma system_reachable_sound c0 c : system_start c0 -> rtc system_step c0 c -> sound c.
Proof.
  intros (Hw & Ht & Hl) Hr. assert (H0 : sound c0).
  { split; [|by rewrite Ht; intros th Hin%elem_of_nil]. intros k b x Hk Hb. by rewrite Hw in Hb. }
  clear Hw Ht Hl. induction Hr as [|c0 c1 c Hs _ IH]; [done|]. by eapply IH, system_step_sound.
Qed.

(** A reachable system starts each run of a request from tame replies. *)
Lemma thread_start_tame c th :
  sound c -> th ∈ sys_threads c ->
  tame h (created (sys_log c)) (creating (th_request th))
    (mkLocal (th_script th) None (th_lastRefresh th)).
Proof.
  intros Hc Hin. split; [|done]. intros k b Hkb Hk. by apply (sound_scripts c Hc th Hin).
Qed.

(** The session whose token a request sends upstream. *)
Lemma thread_token c th r' :
  sound c -> th ∈ sys_threads c -> AccessTokenFrom (th_request th) = None ->
  (run_thread th).1 = Proxied r' ->
  rq_Header r' !! Authorization = rq_Header (th_request th) !! Authorization
  \/ exists tok k d,
       rq_Header r' !! Authorization = Some [$"Bearer " ++ tok] /\ tok <> [] /\ AccessToken d = tok
       /\ GetKey h (th_request th) = Ok k /\ (~ is_lock k -> created (sys_log c) k d).
Proof.
  intros Hc Hin Hctx. pose proof (thread_start_tame c th Hc Hin) as Ht.
  destruct (sound_scripts c Hc th Hin) as [HK _]. unfold run_thread, serve. rewrite bind_run.
  set (r := th_request th) in *. set (w := mkWorld 0 _ _).
  destruct (prepare_run (E := th_env th) s r w) as (id & w1 & Hp & Hs & _). rewrite Hp. cbn [fst snd].
  destruct (middleware_keeps (sh_ingresses s) r id) as (Hm & Hu & Hck & Hh & _ & _ & Ha).
  set (r1 := IngressMiddleware _ _) in *.
  destruct (mux_dispatch _ _ _) as [e| | |]; [rewrite fmap_M_run; discriminate|discriminate..|].
  unfold Standard_ReverseProxy, proxy_Handler. rewrite bind_run. cbv zeta.
  destruct (GetAccessToken h r1 w1) as [res w2] eqn:Eg. cbn [fst snd].
  destruct (AutoLoginNeedsLogin _ _ _); [discriminate|]. cbn [fst mret M_ret]. intros [= <-].
  set (r2 := match authenticate s r1 res with Some t => _ | None => _ end).
  destruct (Director_spec (sh_upstreamHost s) r2) as (_ & _ & _ & _ & _ & _ & _ & _ & Hauth & _).
  cbv zeta in Hauth. rewrite Hauth. unfold r2. clear Hauth r2.
  destruct (authenticate s r1 res) as [tok|] eqn:Eauth; [right|left; by rewrite Ha, Hctx, Hh].
  unfold authenticate in Eauth. destruct res as [t|e]; [|done].
  destruct (LoginstatusNeedsLogin _ _); [done|]. injection Eauth as ->.
  destruct (GetAccessToken_good (E := th_env th) h (created (sys_log c)) (creating r)
              ltac:(by intros k d ((? & _) & _)) (created_evolves _) r1 w1 w2 tok)
    as (Hne & k & d & Hk & Hd & Hg); [|exact Eg|].
  { by rewrite Hs. }
  exists tok, k, d. split; [done|]. split; [done|]. split; [done|]. split; [|exact Hg].
  unfold GetKey, GetDecrypted, Cookie.Get, Request_Cookie in *. by rewrite <- Hck.
Qed.
End System.

(** ** Properties *)



(** ** A concrete system *)

Import Example.

#[local] Existing Instance toy_mux.
#[local] Existing Instance insertion_order.
#[local] Instance server : RedisClient RedisState := toy_redis (E := answering 200 refreshed_body).
#[local] Instance server_tokens : EqDecision (LockToken (S := RedisState)).
Proof. apply _. Defined.
#[local] Instance local_retry : Retry (Local (LockToken (S := RedisState))) := toy_retry 2 _.

(** An environment whose clock starts [n] seconds into the run. *)
Definition env_from (n : nat) : Env := {|
  env_now i := (unix_epoch + Z.of_nat (n + i) * Second)%Z;
  env_rand := env_rand (Env := answering 200 refreshed_body);
  env_keygen := env_keygen (Env := answering 200 refreshed_body);
  env_uuid := env_uuid (Env := answering 200 refreshed_body);
  env_http := env_http (Env := answering 200 refreshed_body);
  env_select := env_select (Env := answering 200 refreshed_body) |}.

Definition route_request (path : str) (cookies : list (str * str)) : Request :=
  mkRequest MethodGet HTTP11 (URL_with_path empty_URL path []) $"app.example.com" ∅ cookies
    None None None None.
Definition arriving (r : Request) (n : nat) : Thread :=
  mkThread r (env_from n) zero_time [].

(** A login, then a refresh and a logout of its session at once; later, a request
    of the same browser to the application. *)
Definition callback_thread : Thread := arriving returning_request 0.
Definition refresh_thread : Thread :=
  arriving (route_request $"/app/oauth2/session/refresh" [(SessionCookie, example_session_cookie)]) 100.
Definition logout_thread : Thread :=
  arriving (route_request $"/app/oauth2/logout/local" [(SessionCookie, example_session_cookie)]) 100.

Definition api_thread : Thread :=
  arriving (route_request $"/app/api" [(SessionCookie, set_value SessionCookie callback_run.1); ($"status", $"token")]) 300.
Definition start : System := mkSystem (mkWorld 0 ∅ []) [] [].
Definition arrived : System :=
  mkSystem (mkWorld 0 ∅ []) [callback_thread; refresh_thread; logout_thread; api_thread] [].
Definition logged_out : System := run_schedule app arrived [0; 1; 1; 1; 1; 2; 2].
Definition refreshed : System := run_schedule app logged_out [1; 1].
Definition used : System := run_schedule app refreshed [3; 3; 3; 3; 3; 3; 3; 3; 3].

Definition answer_of (c : System) (i : nat) : option Served :=
  th ← sys_threads c !! i;
  if decide (next_command app th = None) then Some (run_thread app th).1 else None.

Lemma env_from_keygen (n : nat) : KeygenLaw (E := env_from n).
Proof. exact example_keygen. Qed.

#[local] Abbreviation view := (fun m : RedisState => m).

Lemma start_empty : system_start view start.
Proof. split; [|done]. intros k _. apply lookup_empty. Qed.

Lemma run_schedule_steps (c : System) (l : list nat) : rtc (system_step app view) c (run_schedule app c l).
Proof.
  revert c. induction l as [|i l IH]; intros c; [apply rtc_refl|].
  eapply rtc_l; [apply system_command|]. apply IH.
Qed.

Lemma arrived_steps : rtc (system_step app view) start arrived.
Proof.
  eapply rtc_l; [apply (system_arrives _ _ _ callback_thread); [done|apply env_from_keygen]|].
  eapply rtc_l; [apply (system_arrives _ _ _ refresh_thread); [done|apply env_from_keygen]|].
  eapply rtc_l; [apply (system_arrives _ _ _ logout_thread); [done|apply env_from_keygen]|].
  eapply rtc_l; [apply (system_arrives _ _ _ api_thread); [done|apply env_from_keygen]|].
  apply rtc_refl.
Qed.

Lemma logged_out_steps : rtc (system_step app view) start logged_out.
Proof. etransitivity; [exact arrived_steps|]. unfold logged_out. apply run_schedule_steps. Qed.
Lemma refreshed_steps : rtc (system_step app view) logged_out refreshed.
Proof. unfold refreshed. apply run_schedule_steps. Qed.
Lemma used_after : rtc (system_step app view) refreshed used.
Proof. unfold used. apply run_schedule_steps. Qed.
Lemma used_steps : rtc (system_step app view) start used.
Proof. etransitivity; [exact logged_out_steps|]. etransitivity; [exact refreshed_steps|exact used_after]. Qed.

(** What became of it, computed. *)
Definition undone_check (c1 c2 c3 : System) : bool :=
  match w_store (sys_redis c1) !! example_key, answer_of c1 2, w_store (sys_redis c2) !! example_key,
        answer_of c2 1, answer_of c3 3 with
  | None, Some (Answered out), Some (_, None), Some (Answered fresh), Some (Proxied r) =>
      bool_decide (rw_Status out = None) && bool_decide (rw_Status fresh = Some StatusOK)
      && bool_decide (rq_Header r !! Authorization = Some [$"Bearer at2"])
  | _, _, _, _, _ => false
  end.

Lemma undone_intro (c1 c2 c3 : System) :
  undone_check c1 c2 c3 = true ->
  exists b out fresh r,
    w_store (sys_redis c1) !! example_key = None
    /\ answer_of c1 2 = Some (Answered out) /\ rw_Status out = None
    /\ w_store (sys_redis c2) !! example_key = Some (b, None)
    /\ answer_of c2 1 = Some (Answered fresh) /\ rw_Status fresh = Some StatusOK
    /\ answer_of c3 3 = Some (Proxied r) /\ rq_Header r !! Authorization = Some [$"Bearer at2"].
Proof.
  unfold undone_check. intros H.
  destruct (w_store (sys_redis c1) !! example_key) as [e1|]; [discriminate H|].
  destruct (answer_of c1 2) as [[out|out]|]; [|discriminate H..].
  destruct (w_store (sys_redis c2) !! example_key) as [[b [x|]]|]; [discriminate H| |discriminate H].
  destruct (answer_of c2 1) as [[fresh|fresh]|]; [|discriminate H..].
  destruct (answer_of c3 3) as [[r|r]|]; [discriminate H| |discriminate H].
  to_prop. by exists b, out, fresh, r.
Qed.

Lemma undone_checks : undone_check logged_out refreshed used = true.
Proof. vm_compute. reflexivity. Qed.

(** C32: A logout can be undone by a refresh that is in flight: there is an
    interleaving after which the logout has deleted the session and has answered
    (with the implicit 200), and the refresh that had read the session before
    writes it back, without an expiry; a later request with the same session
    cookie is sent upstream with its access token. *)
Theorem logout_undone : exists c1 c2 c3 b out fresh r,
  rtc (system_step app view) start c1 /\ rtc (system_step app view) c1 c2
  /\ rtc (system_step app view) c2 c3
  /\ w_store (sys_redis c1) !! example_key = None
  /\ answer_of c1 2 = Some (Answered out) /\ rw_Status out = None
  /\ w_store (sys_redis c2) !! example_key = Some (b, None)
  /\ answer_of c2 1 = Some (Answered fresh) /\ rw_Status fresh = Some StatusOK
  /\ answer_of c3 3 = Some (Proxied r) /\ rq_Header r !! Authorization = Some [$"Bearer at2"].
Proof.
  destruct (undone_intro logged_out refreshed used undone_checks) as (b & out & fresh & r & H).
  exists logged_out, refreshed, used, b, out, fresh, r.
  split; [exact logged_out_steps|]. split; [exact refreshed_steps|]. split; [exact used_after|].
  exact H.
Qed.

(** The witnesses: the session that was written back, and the token sent. *)
Lemma session_found (c : System) (k : str) :
  bool_decide (is_Some (Redis.session_view (w_store (sys_redis c)) !! k)) = true ->
  exists v, session_at_server view (sys_redis c) k v.
Proof. intros [v Hv]%bool_decide_eq_true. by exists v. Qed.
Lemma used_session : exists v, session_at_server view (sys_redis used) example_key v.
Proof. apply session_found. vm_compute. reflexivity. Qed.


Definition sends_token (th : Thread) : bool :=
  match AccessTokenFrom (th_request th), (run_thread app th).1 with
  | None, Proxied r => bool_decide (rq_Header r !! Authorization <> rq_Header (th_request th) !! Authorization)
  | _, _ => false
  end.
Lemma sender_found (c : System) :
  existsb sends_token (sys_threads c) = true ->
  exists th r, th ∈ sys_threads c /\ AccessTokenFrom (th_request th) = None
    /\ (run_thread app th).1 = Proxied r
    /\ rq_Header r !! Authorization <> rq_Header (th_request th) !! Authorization.
Proof.
  intros (th & Hin%list_elem_of_In & H)%existsb_exists. unfold sends_token in H.
  destruct (AccessTokenFrom (th_request th)) eqn:Ea; [discriminate H|].
  destruct (run_thread app th).1 as [rw|r] eqn:Er; [discriminate H|].
  exists th, r. by apply bool_decide_eq_true in H.
Qed.
Lemma used_api : existsb sends_token (sys_threads used) = true.
Proof. vm_compute. reflexivity. Qed.

