(* ===== verification/Main.v ===== *)
(** * The process: [run] of [cmd/wonderwall]

    From the configuration to the handler the server is given.  A run ends with
    what is handed to [server.Start], which [Server] models. *)

From S2P Require Import Prelude GoStrings GoTime GoBase64 GoUrl GoError GoRfc3339 GoJson Config Initialize Http Crypter Cookie Ingress RedirectUrl Openid Jwks Loginstatus OpenidClient SessionData Store Retry SessionHandler ErrorHandler AutoLogin AppState Standard Example LoginFlow LogoutFlow SessionApi ReverseProxy Router Provenance.

(** What [server.Start] gets, and the store that was chosen. *)
Record Server (Key : Type) := mkServer {
  sv_Addr : str;
  sv_handler : StandardHandler Key;
  sv_store : StoreChoice }.
Arguments mkServer {Key}.
Arguments sv_Addr {Key}.
Arguments sv_handler {Key}.
Arguments sv_store {Key}.

Section Main.
Context {V : Type} `{Viper V} `{Logrus}.
Context {L : JwtLib} {C : JwkCache} {E : Env} {S : Type} `{!JwksState S} {MO : MapOrder} {Key : Type}.
Context (parseKey : str -> result Key).            (* jwk.ParseKey *)
Context (ping : RedisOptions -> result unit).      (* the PING of a Redis client *)

(** [run], from the configuration on. *)
Definition start (cfg : Config) : M S (result (Server Key)) :=
  key ←? EncryptionKeyOrGenerate cfg;
  openidConfig ←? NewConfig parseKey cfg;
  _ ←? NewJwksProvider (oidc_Provider openidConfig);
  '(h, store) ←? wrapM "initializing routing handler"
                   (pureR (NewHandler cfg DefaultOptions openidConfig key ping));
  okM (mkServer (cfg_BindAddress cfg) h store).

Definition run : M S (outcome (Server Key)) :=
  match Initialize with
  | Returned (Ok cfg) => Returned <$> start cfg
  | Returned (Err e) => mret (Returned (Err e))
  | Panics => mret Panics
  | Exits => mret Exits
  end.
End Main.

(** ** Lemmas *)

Lemma EncryptionKeyOrGenerate_Ok {E : Env} {S} (cfg : Config) (w w' : World S) (key : str) :
  EncryptionKeyOrGenerate cfg w = (Ok key, w') ->
  w_store w' = w_store w /\ w_trace w' = w_trace w
  /\ match DecodeString StdEncoding (cfg_EncryptionKey cfg) with
     | Some (c :: k) => key = c :: k
     | _ => KeygenLaw -> length key = 32%nat
     end.
Proof.
  assert (Hgen : wrapM "generate random encryption key" (Keygen 32) w = (Ok key, w') ->
            w_store w' = w_store w /\ w_trace w' = w_trace w /\ (KeygenLaw -> length key = 32%nat)).
  { intros H%wrapM_Ok. injection H as Hk <-. split; [done|]. split; [done|].
    intros HK. by apply (keygen_length _ _ _ Hk). }
  unfold EncryptionKeyOrGenerate.
  destruct (DecodeString StdEncoding _) as [[|c k]|]; cbn [is_empty]; [exact Hgen| |].
  - by intros [= <- <-].
  - destruct (is_empty _); [exact Hgen|done].
Qed.

Lemma NewJwksProvider_Ok {L : JwtLib} {C : JwkCache} {E : Env} {S} `{!JwksState S}
    {view : S -> gmap str EncryptedData} (HJ : JwksFrame S view) (p : Provider) (w w' : World S) :
  NewJwksProvider p w = (Ok tt, w') ->
  view (w_store w') = view (w_store w) /\ w_trace w' = w_trace w ++ [EvJwksRefresh].
Proof.
  intros (x & w1 & H1 & (y & w2 & H2 & H3)%bindE_Ok)%bindE_Ok.
  apply wrapM_Ok in H1. injection H1 as _ <-.
  apply wrapM_Ok in H2. unfold cache_Refresh in H2. injection H2 as _ <-.
  injection H3 as <-. cbn. split; [apply set_lastRefresh_view|done].
Qed.

(** ** Properties *)


(** ** A concrete start *)

Import Example ToyViper.

#[local] Instance main_env : Env := {|
  env_now _ := unix_epoch; env_rand _ n := Ok (replicate n "0"%char);
  env_keygen _ n := Ok (replicate n "k"%char); env_uuid _ := $"uuid";
  env_http _ _ := Ok {| rs_status := 200; rs_body := Ok example_document |};
  env_select _ := [] |}.
#[local] Instance main_keygen : KeygenLaw (E := main_env).
Proof. intros i n b [= <-]. apply length_replicate. Qed.
#[local] Existing Instance insertion_order.
#[local] Existing Instance toy_mux.
#[local] Abbreviation sessions := (fun s : AppStore => s.1).

Definition started : outcome (Server str) * World AppStore :=
  run (E := main_env) Ok (fun _ => Ok tt) world0.

Lemma started_ok : exists sv, run (E := main_env) Ok (fun _ => Ok tt) world0 = (Returned (Ok sv), started.2).
Proof.
  destruct started as [o w] eqn:Es. unfold started in Es. rewrite Es. cbn [snd].
  apply (f_equal (fun x => match x.1 with Returned (Ok _) => true | _ => false end)) in Es as Eo.
  cbn [fst] in Eo. vm_compute in Eo. destruct o as [[sv|]| |]; try discriminate. by exists sv.
Qed.


(** The length of a configured key is not checked: the process starts, and every
    encryption fails. *)
Definition short_key_config : Config :=
  let c := app_config in
  {| cfg_BindAddress := cfg_BindAddress c; cfg_LogFormat := cfg_LogFormat c; cfg_LogLevel := cfg_LogLevel c;
     cfg_MetricsBindAddress := cfg_MetricsBindAddress c; cfg_AutoLogin := cfg_AutoLogin c;
     cfg_AutoLoginIgnorePaths := cfg_AutoLoginIgnorePaths c; cfg_EncryptionKey := $"c2hvcnQ=";
     cfg_ErrorPath := cfg_ErrorPath c; cfg_Ingresses := cfg_Ingresses c; cfg_Session := cfg_Session c;
     cfg_UpstreamHost := cfg_UpstreamHost c; cfg_OpenID := cfg_OpenID c; cfg_Redis := cfg_Redis c;
     cfg_Loginstatus := cfg_Loginstatus c |}.

Lemma short_key_starts :
  match (start (E := main_env) Ok (fun _ => Ok tt) short_key_config world0).1 with
  | Ok sv => sh_crypter (sv_handler sv) = $"short"
             /\ forall p w, is_ok (Encrypt (S := AppStore) (sh_crypter (sv_handler sv)) p w).1 = false
  | Err _ => False
  end.
Proof.
  assert (H : match (start (E := main_env) Ok (fun _ => Ok tt) short_key_config world0).1 with
              | Ok sv => streq (sh_crypter (sv_handler sv)) $"short" = true | Err _ => False end)
    by (vm_compute; reflexivity).
  destruct (start _ _ _ _).1 as [sv|]; [|done]. apply streq_true in H. split; [done|].
  intros p w. by rewrite H.
Qed.
