(* ===== verification/Server.v ===== *)
(** * The server: [Start] of [pkg/server/server.go]

    [Start] is three goroutines over a [net/http] server and two contexts: the
    caller's, which serves and then waits for the shutdown to end; one that
    waits for a signal and shuts the server down; and one, started by the
    second, that ends the process when the shutdown takes too long.  A step is
    one operation of one goroutine, or something outside the program: a signal,
    a connection, time.  Steps are executable ([step]); a run is a list of
    them, in the order they happened, so every interleaving is one.

    Of [net/http.Server] the model has what its documentation says:
    [ListenAndServe] returns [ErrServerClosed] as soon as [Shutdown] is called;
    [Shutdown] closes the listeners, waits for the connections to become idle
    and returns the error of closing the listeners, or that of its context if
    that is done first.  Hijacked connections are not waited for, nor counted
    here. *)

From S2P Require Import Prelude GoTime GoError.
#[local] Open Scope Z_scope.

(** [http.ErrServerClosed] *)
Definition ErrServerClosed : error := New "http: Server closed".
Definition shutdownTimeout : Duration := 20 * Second.

(** Where the caller of [Start] is: about to call [ListenAndServe], in it, or
    at [<-serverCtx.Done()]. *)
Inductive ServePC := AtListen | Serving | AtServerDone.
(** Where the goroutine of the signals is: at [<-sig], about to call
    [server.Shutdown], in it, about to cancel one context, then the other. *)
Inductive SignalPC := AtSignal | AtShutdown | Draining | AtStopShutdown | AtStopServer | SignalEnd.
(** Where the goroutine that watches the shutdown is. *)
Inductive WatchPC := NotStarted | Watching | WatchEnd.

#[global] Instance ServePC_eq_dec : EqDecision ServePC.
Proof. solve_decision. Defined.
#[global] Instance SignalPC_eq_dec : EqDecision SignalPC.
Proof. solve_decision. Defined.
#[global] Instance WatchPC_eq_dec : EqDecision WatchPC.
Proof. solve_decision. Defined.

(** How it ends: [Start] returns, or [log.Fatal] ends the process. *)
Inductive Ending := StartReturns (err : option error) | Fatal (err : error).

(** [shutdownCtx]: its deadline, and its error once it is done. *)
Record ShutdownCtx := mkShutdownCtx { sc_deadline : Time; sc_Err : option sentinel }.

Record ServerState := mkServerState {
  ss_now : Time;
  ss_sig : bool;                     (* the channel of capacity one holds a signal *)
  ss_listening : bool;
  ss_inShutdown : bool;
  ss_active : nat;                   (* connections that are not idle *)
  ss_idle : nat;                     (* connections kept alive *)
  ss_serverDone : bool;              (* serverCtx is cancelled *)
  ss_shutdownCtx : option ShutdownCtx;
  ss_serve : ServePC;
  ss_signal : SignalPC;
  ss_watch : WatchPC;
  ss_ending : option Ending }.

Inductive ServerEvent :=
(* outside the program *)
| SignalArrives
| TimePasses (d : Duration)
| Connects                 (* a request on a new connection *)
| Reuses                   (* on one kept alive *)
| RequestEnds (keep : bool)
| IdleCloses
(* the caller of Start *)
| ListenAndServe (listen : result unit)   (* with the outcome of net.Listen *)
| ServeFails (err : error)                (* the listener fails for good *)
| ServeReturns                            (* the server is shut down *)
| ServerDone
(* the goroutine of the signals *)
| SignalReceived
| ShutdownCalled
| ShutdownIdle (lnerr : option error)     (* every connection is idle *)
| ShutdownCut                             (* the context is done *)
| StopShutdown
| StopServer
(* the timer of shutdownCtx, and the goroutine that watches it *)
| DeadlineReached
| WatchReceives.

(** The steps of the program. *)
Definition own (ev : ServerEvent) : bool :=
  match ev with SignalArrives | TimePasses _ | Connects | Reuses | RequestEnds _ | IdleCloses => false | _ => true end.

(** ** Steps *)

Definition with_serve (pc : ServePC) (s : ServerState) : ServerState :=
  mkServerState (ss_now s) (ss_sig s) (ss_listening s) (ss_inShutdown s) (ss_active s) (ss_idle s)
    (ss_serverDone s) (ss_shutdownCtx s) pc (ss_signal s) (ss_watch s) (ss_ending s).
Definition with_signal (pc : SignalPC) (s : ServerState) : ServerState :=
  mkServerState (ss_now s) (ss_sig s) (ss_listening s) (ss_inShutdown s) (ss_active s) (ss_idle s)
    (ss_serverDone s) (ss_shutdownCtx s) (ss_serve s) pc (ss_watch s) (ss_ending s).
Definition with_watch (pc : WatchPC) (s : ServerState) : ServerState :=
  mkServerState (ss_now s) (ss_sig s) (ss_listening s) (ss_inShutdown s) (ss_active s) (ss_idle s)
    (ss_serverDone s) (ss_shutdownCtx s) (ss_serve s) (ss_signal s) pc (ss_ending s).
Definition with_sig (b : bool) (s : ServerState) : ServerState :=
  mkServerState (ss_now s) b (ss_listening s) (ss_inShutdown s) (ss_active s) (ss_idle s)
    (ss_serverDone s) (ss_shutdownCtx s) (ss_serve s) (ss_signal s) (ss_watch s) (ss_ending s).
Definition with_connections (n k : nat) (s : ServerState) : ServerState :=
  mkServerState (ss_now s) (ss_sig s) (ss_listening s) (ss_inShutdown s) n k
    (ss_serverDone s) (ss_shutdownCtx s) (ss_serve s) (ss_signal s) (ss_watch s) (ss_ending s).
Definition with_listener (listening inShutdown : bool) (s : ServerState) : ServerState :=
  mkServerState (ss_now s) (ss_sig s) listening inShutdown (ss_active s) (ss_idle s)
    (ss_serverDone s) (ss_shutdownCtx s) (ss_serve s) (ss_signal s) (ss_watch s) (ss_ending s).
Definition with_shutdownCtx (c : option ShutdownCtx) (s : ServerState) : ServerState :=
  mkServerState (ss_now s) (ss_sig s) (ss_listening s) (ss_inShutdown s) (ss_active s) (ss_idle s)
    (ss_serverDone s) c (ss_serve s) (ss_signal s) (ss_watch s) (ss_ending s).
Definition with_serverDone (s : ServerState) : ServerState :=
  mkServerState (ss_now s) (ss_sig s) (ss_listening s) (ss_inShutdown s) (ss_active s) (ss_idle s)
    true (ss_shutdownCtx s) (ss_serve s) (ss_signal s) (ss_watch s) (ss_ending s).
Definition later_now (t : Time) (s : ServerState) : ServerState :=
  mkServerState t (ss_sig s) (ss_listening s) (ss_inShutdown s) (ss_active s) (ss_idle s)
    (ss_serverDone s) (ss_shutdownCtx s) (ss_serve s) (ss_signal s) (ss_watch s) (ss_ending s).
Definition ended (e : Ending) (s : ServerState) : ServerState :=
  mkServerState (ss_now s) (ss_sig s) (ss_listening s) (ss_inShutdown s) (ss_active s) (ss_idle s)
    (ss_serverDone s) (ss_shutdownCtx s) (ss_serve s) (ss_signal s) (ss_watch s) (Some e).

(** Cancelling a context that is done already changes nothing. *)
Definition ctx_cancel (e : sentinel) (c : ShutdownCtx) : ShutdownCtx :=
  match sc_Err c with
  | None => mkShutdownCtx (sc_deadline c) (Some e)
  | Some _ => c
  end.

(** What [Start] does with the error of [ListenAndServe]. *)
Definition after_serve (err : error) (s : ServerState) : ServerState :=
  if bool_decide (err = ErrServerClosed) then with_serve AtServerDone s
  else ended (StartReturns (Some err)) s.

(** The goroutine of the signals takes one: [shutdownCtx] begins, a goroutine
    to watch it starts. *)
Definition begin_shutdown (s : ServerState) : ServerState :=
  with_signal AtShutdown (with_watch Watching (with_sig false
    (with_shutdownCtx (Some (mkShutdownCtx (ss_now s + shutdownTimeout) None)) s))).

(** What it does with the error of [Shutdown]. *)
Definition after_shutdown (err : option error) (s : ServerState) : ServerState :=
  match err with
  | Some e => ended (Fatal e) s
  | None => with_signal AtStopShutdown s
  end.

(** The watching goroutine, when [shutdownCtx] is done with [err]. *)
Definition after_watch (err : sentinel) (s : ServerState) : ServerState :=
  if bool_decide (err = ContextDeadlineExceeded)
  then ended (Fatal (New "graceful shutdown timed out.. forcing exit.")) s
  else with_watch WatchEnd s.

(** One step; [None] where it is not possible. *)
Definition step (ev : ServerEvent) (s : ServerState) : option ServerState :=
  if ss_ending s is Some _ then None else
  match ev with
  | SignalArrives => Some (with_sig true s)
  | TimePasses d => if 0 <=? d then Some (later_now (ss_now s + d) s) else None
  | Connects =>
      if ss_listening s then Some (with_connections (S (ss_active s)) (ss_idle s) s) else None
  | Reuses =>
      match ss_idle s with 0%nat => None | S k => Some (with_connections (S (ss_active s)) k s) end
  | RequestEnds keep =>
      match ss_active s with
      | 0%nat => None
      | S n => Some (with_connections n (if keep then S (ss_idle s) else ss_idle s) s)
      end
  | IdleCloses =>
      match ss_idle s with 0%nat => None | S k => Some (with_connections (ss_active s) k s) end
  | ListenAndServe listen =>
      match ss_serve s with
      | AtListen =>
          if ss_inShutdown s then Some (after_serve ErrServerClosed s) else
          match listen with
          | Err e => Some (after_serve e s)
          | Ok _ => Some (with_serve Serving (with_listener true false s))
          end
      | _ => None
      end
  | ServeFails e =>
      match ss_serve s with
      | Serving => if ss_inShutdown s then None else Some (after_serve e (with_listener false false s))
      | _ => None
      end
  | ServeReturns =>
      match ss_serve s with
      | Serving => if ss_inShutdown s then Some (after_serve ErrServerClosed s) else None
      | _ => None
      end
  | ServerDone =>
      match ss_serve s with
      | AtServerDone => if ss_serverDone s then Some (ended (StartReturns None) s) else None
      | _ => None
      end
  | SignalReceived =>
      match ss_signal s with
      | AtSignal => if ss_sig s then Some (begin_shutdown s) else None
      | _ => None
      end
  | ShutdownCalled =>
      match ss_signal s with
      | AtShutdown => Some (with_signal Draining (with_listener false true s))
      | _ => None
      end
  | ShutdownIdle lnerr =>
      match ss_signal s, ss_active s with
      | Draining, 0%nat => Some (after_shutdown lnerr (with_connections 0 0 s))
      | _, _ => None
      end
  | ShutdownCut =>
      match ss_signal s, ss_shutdownCtx s ≫= sc_Err with
      | Draining, Some e => Some (after_shutdown (Some (Sentinel e)) s)
      | _, _ => None
      end
  | StopShutdown =>
      match ss_signal s with
      | AtStopShutdown =>
          Some (with_signal AtStopServer
                  (with_shutdownCtx (ctx_cancel ContextCanceled <$> ss_shutdownCtx s) s))
      | _ => None
      end
  | StopServer =>                      (* cancels shutdownCtx, its child, too *)
      match ss_signal s with
      | AtStopServer =>
          Some (with_signal SignalEnd (with_serverDone
                  (with_shutdownCtx (ctx_cancel ContextCanceled <$> ss_shutdownCtx s) s)))
      | _ => None
      end
  | DeadlineReached =>
      match ss_shutdownCtx s with
      | Some (mkShutdownCtx t None) =>
          if t <=? ss_now s
          then Some (with_shutdownCtx (Some (mkShutdownCtx t (Some ContextDeadlineExceeded))) s)
          else None
      | _ => None
      end
  | WatchReceives =>
      match ss_watch s, ss_shutdownCtx s ≫= sc_Err with
      | Watching, Some e => Some (after_watch e s)
      | _, _ => None
      end
  end.

(** A run. *)
Fixpoint run (evs : list ServerEvent) (s : ServerState) : option ServerState :=
  match evs with
  | [] => Some s
  | ev :: evs' => s' ← step ev s; run evs' s'
  end.

(** [Start] called at [t]. *)
Definition start_state (t : Time) : ServerState :=
  mkServerState t false false false 0 0 false None AtListen AtSignal NotStarted None.

(** ** Lemmas *)

Lemma run_app evs evs' s : run (evs ++ evs') s = run evs s ≫= run evs'.
Proof.
  revert s. induction evs as [|ev evs IH]; intros s; cbn; [done|].
  destruct (step ev s) as [s1|]; cbn; [apply IH|done].
Qed.

Lemma run_snoc evs ev s s' :
  run (evs ++ [ev]) s = Some s' <-> exists s1, run evs s = Some s1 /\ step ev s1 = Some s'.
Proof.
  rewrite run_app. destruct (run evs s) as [s1|]; cbn; [|split; intros; break; done].
  destruct (step ev s1) as [s2|] eqn:Es; cbn; split; intros H; break; eauto; congruence.
Qed.

(** The steps of a process that goes on, one case for each way to take one. *)
Ltac step_cases Hs :=
  unfold step in Hs; cbn in Hs; repeat case_hyp Hs; simplify_eq;
  unfold after_serve, after_shutdown, after_watch, begin_shutdown; repeat case_match.

(** What the goroutine of the signals has done so far, by where it is. *)
Definition phase (s : ServerState) : Prop :=
  match ss_signal s with
  | AtSignal =>
      ss_shutdownCtx s = None /\ ss_watch s = NotStarted
      /\ ss_inShutdown s = false /\ ss_serverDone s = false
  | AtShutdown =>
      is_Some (ss_shutdownCtx s) /\ ss_watch s <> NotStarted
      /\ ss_inShutdown s = false /\ ss_serverDone s = false
  | Draining =>
      is_Some (ss_shutdownCtx s) /\ ss_watch s <> NotStarted
      /\ ss_inShutdown s = true /\ ss_listening s = false /\ ss_serverDone s = false
  | AtStopShutdown | AtStopServer =>
      is_Some (ss_shutdownCtx s) /\ ss_watch s <> NotStarted
      /\ ss_inShutdown s = true /\ ss_listening s = false /\ ss_serverDone s = false
      /\ ss_active s = 0%nat /\ ss_idle s = 0%nat
  | SignalEnd =>
      is_Some (ss_shutdownCtx s) /\ ss_watch s <> NotStarted
      /\ ss_inShutdown s = true /\ ss_listening s = false /\ ss_serverDone s = true
      /\ ss_active s = 0%nat /\ ss_idle s = 0%nat
  end.

(** Case analysis of a step, on the components of the state. *)
Ltac destruct_step Hs s ev :=
  destruct s as [now sig li sh ac id sd c sv sg wa en], ev; cbn in *; step_cases Hs; cbn in *;
  simplify_eq; try done.

Lemma phase_start t : phase (start_state t).
Proof. done. Qed.

Lemma phase_step ev s s' : phase s -> step ev s = Some s' -> phase s'.
Proof.
  unfold phase. intros H Hs. destruct_step Hs s ev.
  all: try (destruct sg; try done).
  all: rewrite ?fmap_is_Some; intuition (simplify_eq; eauto).
Qed.

(** [shutdownCtx] is done at its deadline, or because it was cancelled after
    the shutdown. *)
Definition timed (s : ServerState) : Prop :=
  forall c e, ss_shutdownCtx s = Some c -> sc_Err c = Some e ->
    e = ContextDeadlineExceeded /\ sc_deadline c <= ss_now s
    \/ e = ContextCanceled
       /\ (ss_signal s = AtStopServer \/ ss_signal s = SignalEnd).

Lemma ctx_cancel_Err e c e' :
  sc_Err (ctx_cancel e c) = Some e' -> sc_Err c = Some e' \/ e' = e.
Proof. unfold ctx_cancel. destruct (sc_Err c) eqn:E; cbn; [rewrite E; auto|intros [= ->]; auto]. Qed.
Lemma ctx_cancel_deadline e c : sc_deadline (ctx_cancel e c) = sc_deadline c.
Proof. unfold ctx_cancel. by destruct (sc_Err c). Qed.

Lemma timed_step ev s s' : phase s -> timed s -> step ev s = Some s' -> timed s'.
Proof.
  unfold timed, phase. intros Hp H Hs. destruct_step Hs s ev; intros c' e Hc He.
  all: try (destruct c as [c|]; [|done]; cbn in *; injection Hc as <-).
  all: try (apply ctx_cancel_Err in He as [He| ->]; rewrite ?ctx_cancel_deadline; [|by auto]).
  all: try (destruct (H _ _ eq_refl He) as [[-> Hq]|[ -> [Hq|Hq]]]).
  all: to_prop; naive_solver lia.
Qed.

Lemma elem_of_snoc {A} (x y : A) (l : list A) : x ∈ l ++ [y] <-> x ∈ l \/ x = y.
Proof. set_solver. Qed.

(** The deadline of [shutdownCtx] is that of the time a signal was received. *)
Definition deadline_of (t : Time) (evs : list ServerEvent) (deadline : Time) : Prop :=
  exists before after s0, evs = before ++ SignalReceived :: after
    /\ run before (start_state t) = Some s0 /\ deadline = ss_now s0 + shutdownTimeout.

Lemma deadline_of_snoc t evs ev d : deadline_of t evs d -> deadline_of t (evs ++ [ev]) d.
Proof.
  intros (before & after & s0 & -> & H). exists before, (after ++ [ev]), s0.
  by rewrite <- app_assoc.
Qed.

Record recorded (t : Time) (evs : list ServerEvent) (s : ServerState) : Prop := {
  rc_sig : ss_sig s = true \/ ss_signal s <> AtSignal -> SignalArrives ∈ evs;
  rc_deadline : forall c, ss_shutdownCtx s = Some c -> deadline_of t evs (sc_deadline c);
  rc_drained :
    match ss_signal s with
    | AtStopShutdown | AtStopServer | SignalEnd => ShutdownIdle None ∈ evs
    | _ => True
    end }.

Lemma recorded_step t evs ev s s' :
  run evs (start_state t) = Some s -> recorded t evs s -> step ev s = Some s' ->
  recorded t (evs ++ [ev]) s'.
Proof.
  intros Hrun [Hsig Hd Hdr] Hs.
  assert (Hd' : forall c, ss_shutdownCtx s = Some c -> deadline_of t (evs ++ [ev]) (sc_deadline c))
    by (intros c Hc; apply deadline_of_snoc, Hd, Hc).
  assert (Hnew : ev = SignalReceived -> deadline_of t (evs ++ [ev]) (ss_now s + shutdownTimeout))
    by (intros ->; by exists evs, [], s).
  clear Hd Hrun. destruct_step Hs s ev; split; cbn; try setoid_rewrite elem_of_snoc.
  all: try solve [intuition congruence].
  all: intros c' Hc; try (destruct c as [c|]; [cbn in Hc|done]); simplify_eq; cbn;
    rewrite ?ctx_cancel_deadline; solve [by auto | apply (Hd' _ eq_refl)].
Qed.

(** How the process ends. *)
Definition justified (evs : list ServerEvent) (s : ServerState) : Prop :=
  match ss_ending s with
  | None => True
  | Some (StartReturns None) => ss_serverDone s = true
  | Some (StartReturns (Some err)) =>
      err <> ErrServerClosed /\ (ListenAndServe (Err err) ∈ evs \/ ServeFails err ∈ evs)
  | Some (Fatal err) =>
      ss_signal s <> AtSignal
      /\ ((exists c, ss_shutdownCtx s = Some c /\ sc_deadline c <= ss_now s)
          \/ ShutdownIdle (Some err) ∈ evs /\ ss_active s = 0%nat)
  end.

Lemma justified_step evs ev s s' :
  phase s -> timed s -> step ev s = Some s' -> justified (evs ++ [ev]) s'.
Proof.
  unfold phase, timed, justified. intros Hp Ht Hs. destruct_step Hs s ev.
  all: to_prop; rewrite ?elem_of_snoc; try solve [intuition discriminate].
  all: destruct c as [c|]; [cbn in *|done].
  all: split; [intros ?; simplify_eq; by destruct Hp|]; left; exists c; split; [done|].
  all: match goal with H : sc_Err ?x = Some _ |- _ => destruct (Ht x _ eq_refl H) as [[_ ?]|[? Hq]] end.
  all: solve [done | congruence | by destruct Hq].
Qed.

(** All of it, for every run. *)
Lemma run_inv t evs s :
  run evs (start_state t) = Some s ->
  phase s /\ timed s /\ recorded t evs s /\ justified evs s.
Proof.
  revert s. induction evs as [|ev evs IH] using rev_ind; intros s Hrun.
  { injection Hrun as <-. do 2 (split; [done|]). split; [|done]. split; cbn; [by intros [?|?]|done|done]. }
  apply run_snoc in Hrun as (s1 & H1 & Hs). destruct (IH _ H1) as (Hp & Ht & Hr & _).
  split; [by eapply phase_step|]. split; [by eapply timed_step|].
  split; [by eapply recorded_step|]. by eapply justified_step.
Qed.

(** ** The steps that are left *)

Definition serve_left (pc : ServePC) : nat :=
  match pc with AtListen => 2 | Serving => 1 | AtServerDone => 0 end.
Definition signal_left (pc : SignalPC) : nat :=
  match pc with
  | AtSignal => 5 | AtShutdown => 4 | Draining => 3 | AtStopShutdown => 2 | AtStopServer => 1
  | SignalEnd => 0
  end.
Definition watch_left (pc : WatchPC) : nat := match pc with WatchEnd => 0 | _ => 1 end.
Definition timer_left (c : option ShutdownCtx) : nat :=
  match c with Some (mkShutdownCtx _ (Some _)) => 0 | _ => 1 end.
Definition steps_left (s : ServerState) : nat :=
  match ss_ending s with
  | Some _ => 0
  | None => 1 + serve_left (ss_serve s) + signal_left (ss_signal s) + watch_left (ss_watch s)
            + timer_left (ss_shutdownCtx s)
  end.

Lemma timer_left_cancel e c : (timer_left (ctx_cancel e <$> c) <= timer_left c)%nat.
Proof. destruct c as [[d [x|]]|]; cbn; lia. Qed.

Lemma own_step_decreases ev s s' :
  own ev = true -> phase s -> step ev s = Some s' -> (steps_left s' < steps_left s)%nat.
Proof.
  unfold phase, steps_left. intros Ho Hp Hs.
  destruct_step Hs s ev; try lia; try (pose proof (timer_left_cancel ContextCanceled c); lia).
  destruct Hp as (-> & -> & _). cbn. lia.
Qed.

Lemma steps_left_bound s : (steps_left s <= 10)%nat.
Proof.
  unfold steps_left. destruct (ss_ending s); [lia|].
  destruct (ss_serve s), (ss_signal s), (ss_watch s), (ss_shutdownCtx s) as [[d [x|]]|]; cbn; lia.
Qed.

Lemma own_run_bounded evs s s' :
  forallb own evs = true -> phase s -> run evs s = Some s' ->
  (length evs + steps_left s' <= steps_left s)%nat.
Proof.
  revert s. induction evs as [|ev evs IH]; cbn; intros s Ho Hp Hrun.
  { injection Hrun as <-. done. }
  apply andb_true_iff in Ho as [Hev Ho]. destruct (step ev s) as [s1|] eqn:Es; [|done]. cbn in Hrun.
  pose proof (own_step_decreases _ _ _ Hev Hp Es).
  specialize (IH s1 Ho (phase_step _ _ _ Hp Es) Hrun). lia.
Qed.

(** A shutdown that nothing holds up: every connection is idle, or the time for
    it is over. *)
Definition unhindered (s : ServerState) : Prop :=
  (ss_sig s = true \/ ss_signal s <> AtSignal)
  /\ (ss_active s = 0%nat \/ exists c, ss_shutdownCtx s = Some c /\ sc_deadline c <= ss_now s).

Lemma unhindered_step ev s s' :
  own ev = true -> phase s -> unhindered s -> step ev s = Some s' -> unhindered s'.
Proof.
  unfold unhindered, phase. intros Ho Hp [Hsig Hq] Hs. destruct_step Hs s ev; try (by split).
  all: try (split; [naive_solver|]; destruct Hq as [?|(x & -> & ?)]; [by left|]; right; cbn;
            eexists; split; [done|]; by rewrite ?ctx_cancel_deadline).
  all: split; [naive_solver|]; destruct Hq as [?|(x & Hc & ?)]; [by left|]; naive_solver.
Qed.

Lemma unhindered_run evs s s' :
  forallb own evs = true -> phase s -> unhindered s -> run evs s = Some s' ->
  phase s' /\ unhindered s'.
Proof.
  revert s. induction evs as [|ev evs IH]; cbn; intros s Ho Hp Hu Hrun.
  { by injection Hrun as <-. }
  apply andb_true_iff in Ho as [Hev Ho]. destruct (step ev s) as [s1|] eqn:Es; [|done].
  apply (IH s1); [done|by eapply phase_step|by eapply unhindered_step|done].
Qed.

(** While such a shutdown has not ended the process, some goroutine can go on. *)
Lemma unhindered_progress s :
  phase s -> unhindered s -> ss_ending s = None ->
  exists ev, own ev = true /\ is_Some (step ev s).
Proof.
  unfold phase, unhindered, step. intros Hp [Hsig Hq] He. rewrite He.
  destruct (ss_signal s) eqn:Epc; destruct Hp as (Hc & _ & Hp).
  - exists SignalReceived. destruct Hsig as [->|]; [by eauto|done].
  - exists ShutdownCalled. by eauto.
  - destruct (ss_active s) eqn:Ea; [exists (ShutdownIdle None); by eauto|].
    destruct Hq as [?|([d [e|]] & Hc' & Hd)]; [done| |].
    + exists ShutdownCut. rewrite Hc'. by eauto.
    + exists DeadlineReached. rewrite Hc'. cbn in Hd. rewrite (proj2 (Z.leb_le _ _) Hd). by eauto.
  - exists StopShutdown. by eauto.
  - exists StopServer. by eauto.
  - destruct Hp as (Hsh & _ & Hd & _). destruct (ss_serve s) eqn:Es.
    + exists (ListenAndServe (Ok tt)). rewrite Hsh. by eauto.
    + exists ServeReturns. rewrite Hsh. by eauto.
    + exists ServerDone. rewrite Hd. by eauto.
Qed.

Lemma unhindered_ends s :
  phase s -> unhindered s ->
  exists evs s', forallb own evs = true /\ run evs s = Some s' /\ is_Some (ss_ending s').
Proof.
  remember (steps_left s) as n eqn:Hn. revert s Hn.
  induction (lt_wf n) as [n _ IH]. intros s -> Hp Hu.
  destruct (ss_ending s) eqn:Ee; [by exists [], s; rewrite Ee|].
  destruct (unhindered_progress s Hp Hu Ee) as (ev & Hev & [s1 Hs]).
  destruct (IH _ (own_step_decreases _ _ _ Hev Hp Hs) s1 eq_refl (phase_step _ _ _ Hp Hs)
              (unhindered_step _ _ _ Hev Hp Hu Hs)) as (evs & s2 & Ho & Hr & He).
  exists (ev :: evs), s2. cbn. by rewrite Hev, Hs.
Qed.

(** ** Properties *)

(** C24: How [Start] ends, under every interleaving of its goroutines with signals
    and connections.  It returns nil only after a signal, when the server has
    been shut down and no connection is left, so that no request was cut; it
    returns an error only if the listener failed, and never [ErrServerClosed];
    the process is ended by force only if the 20 seconds since a signal was
    received are over, or if closing the listeners failed, when no request is
    left. *)
Theorem Start_ending (t : Time) (evs : list ServerEvent) (s : ServerState) (e : Ending)
  (Hrun : run evs (start_state t) = Some s) (He : ss_ending s = Some e) :
  match e with
  | StartReturns None =>
      SignalArrives ∈ evs /\ ShutdownIdle None ∈ evs
      /\ ss_listening s = false /\ ss_active s = 0%nat /\ ss_idle s = 0%nat
  | StartReturns (Some err) =>
      err <> ErrServerClosed /\ (ListenAndServe (Err err) ∈ evs \/ ServeFails err ∈ evs)
  | Fatal err =>
      SignalArrives ∈ evs
      /\ ((exists before after s0, evs = before ++ SignalReceived :: after
              /\ run before (start_state t) = Some s0 /\ ss_now s0 + 20 * Second <= ss_now s)
          \/ ShutdownIdle (Some err) ∈ evs /\ ss_active s = 0%nat)
  end.
Proof.
  destruct (run_inv _ _ _ Hrun) as (Hp & _ & [Hsig Hd Hdr] & Hj).
  unfold justified in Hj. rewrite He in Hj. destruct e as [[err|]|err]; [done| |].
  - unfold phase in Hp. destruct (ss_signal s) eqn:Epc; break; try congruence.
    split; [apply Hsig; by right|]. by split.
  - destruct Hj as [Hpc Hj]. split; [apply Hsig; by right|].
    destruct Hj as [(c & Hc & Hn)|Hj]; [left|by right].
    destruct (Hd c Hc) as (before & after & s0 & -> & H0 & E). exists before, after, s0.
    unfold shutdownTimeout in E. split; [done|]. split; [done|lia].
Qed.

(** C25: The shutdown ends: once a signal has arrived and every connection is idle,
    or the time for the shutdown is over, the goroutines take at most ten more
    steps, in whatever order they are scheduled, and if they stop, the process
    has ended; so it can always be brought to its end without anything else
    happening. *)
Theorem shutdown_ends (t : Time) (evs : list ServerEvent) (s : ServerState)
  (Hrun : run evs (start_state t) = Some s)
  (Hsig : ss_sig s = true \/ ss_signal s <> AtSignal)
  (Hfree : ss_active s = 0%nat
           \/ exists c, ss_shutdownCtx s = Some c /\ sc_deadline c <= ss_now s) :
  (forall evs' s', forallb own evs' = true -> run evs' s = Some s' ->
     (length evs' <= 10)%nat
     /\ ((forall ev, own ev = true -> step ev s' = None) -> is_Some (ss_ending s')))
  /\ exists evs' s', forallb own evs' = true /\ run evs' s = Some s' /\ is_Some (ss_ending s').
Proof.
  destruct (run_inv _ _ _ Hrun) as (Hp & _). pose proof (conj Hsig Hfree : unhindered s) as Hu.
  split.
  - intros evs' s' Ho Hr. pose proof (own_run_bounded _ _ _ Ho Hp Hr) as Hb.
    pose proof (steps_left_bound s). split; [lia|]. intros Hstuck.
    destruct (unhindered_run _ _ _ Ho Hp Hu Hr) as [Hp' Hu'].
    destruct (ss_ending s') eqn:Ee; [done|].
    destruct (unhindered_progress s' Hp' Hu' Ee) as (ev & Hev & [x Hx]).
    by rewrite (Hstuck ev Hev) in Hx.
  - by apply unhindered_ends.
Qed.

(** ** Concrete runs *)

(** A request is being served when the signal arrives: the shutdown waits for it. *)
Definition graceful_run : list ServerEvent :=
  [ListenAndServe (Ok tt); Connects; SignalArrives; SignalReceived; ShutdownCalled; ServeReturns;
   TimePasses (5 * Second); RequestEnds true; ShutdownIdle None; StopShutdown; WatchReceives;
   StopServer; ServerDone].
(** It takes longer than that. *)
Definition forced_run : list ServerEvent :=
  [ListenAndServe (Ok tt); Connects; SignalArrives; SignalReceived; ShutdownCalled; ServeReturns;
   TimePasses (20 * Second); DeadlineReached; WatchReceives].

Example runs_end :
  (ss_ending <$> run graceful_run (start_state 0)) = Some (Some (StartReturns None))
  /\ (ss_ending <$> run forced_run (start_state 0))
     = Some (Some (Fatal (New "graceful shutdown timed out.. forcing exit.")))
  (* a second signal, and a return before the shutdown is over, change nothing *)
  /\ run (take 6 graceful_run ++ [ServerDone]) (start_state 0) = None
  /\ (ss_ending <$> run (take 6 graceful_run ++ [SignalArrives]) (start_state 0)) = Some None.
Proof. vm_compute. repeat split. Qed.

Lemma graceful_run_ends : exists s, run graceful_run (start_state 0) = Some s
  /\ ss_ending s = Some (StartReturns None).
Proof. eexists. split; [vm_compute; reflexivity|reflexivity]. Qed.

Lemma Start_ending_witness : SignalArrives ∈ graceful_run.
Proof.
  destruct graceful_run_ends as (s & Hr & He). exact (proj1 (Start_ending 0 graceful_run s _ Hr He)).
Defined.

Lemma graceful_run_half : exists s, run (take 8 graceful_run) (start_state 0) = Some s
  /\ ss_signal s = Draining /\ ss_active s = 0%nat.
Proof. eexists. split; [vm_compute; reflexivity|]. split; reflexivity. Qed.

Lemma shutdown_ends_witness :
  exists evs s, forallb own evs = true /\ is_Some (ss_ending s)
    /\ run (take 8 graceful_run ++ evs) (start_state 0) = Some s.
Proof.
  destruct graceful_run_half as (s & Hr & Hs & Ha).
  destruct (shutdown_ends 0 (take 8 graceful_run) s Hr) as [_ (evs & s' & Ho & Hr' & He)].
  - right. rewrite Hs. discriminate.
  - left. exact Ha.
  - exists evs, s'. split; [exact Ho|]. split; [exact He|]. rewrite run_app, Hr. exact Hr'.
Defined.
