(* ===== verification/MockProvider.v ===== *)
(** * The test provider: [pkg/mock], [pkg/crypto/jwk.go], [jwks.go]

    The identity provider the program's own tests log in with: it keeps the
    authorization requests by their codes, its sessions and its refresh tokens
    in Go maps, checks PKCE, redirect URI and client assertion when a code is
    redeemed, and rotates refresh tokens.  Its handlers run in the same monad as
    the program's, over their own state and environment.  Keys, signatures and
    the parsing of assertions are the jwx library's ([Jwx]); the test servers of
    [net/http/httptest] are not modelled. *)

From S2P Require Import Prelude GoStrings GoTime GoBase64 GoUrl GoUrlFacts GoUtf8 GoStrconv GoError GoJsonText GoJsonFacts GoJson Config Initialize Http Cookie Ingress Openid Loginstatus OpenidClient SessionData SessionHandler AutoLogin Store Standard.

(** ** The libraries *)

(** A claim as [token.Set] is given it. *)
Inductive SetClaim := SetString (s : str) | SetNumber (n : Z).
Abbreviation Claims := (list (str * SetClaim)).

Class Jwx (Key : Type) {L : JwtLib} := {
  RSAKey : Type;
  rsa_GenerateKey : nat -> Z -> result RSAKey;        (* rsa.GenerateKey(rand.Reader, bits) *)
  jwk_FromRaw : RSAKey -> result Key;
  key_Set : str -> str -> Key -> Key;
  jwk_AssignKeyID : Key -> Key;
  jwk_PublicSetOf : list Key -> result JwkSet;
  token_Sign : Key -> Claims -> result str;           (* jwt.Sign(token, WithKey(RS256, key)) *)
  (* jwt.Parse(raw, WithValidate(true), WithKeySet(jwks), opts...) at a time *)
  jwt_ParseValidate : JwkSet -> list ValidateOption -> Time -> str -> result JwtToken;
  error_Error : error -> str;                         (* the text of a library's error *)
}.

(** The order in which the [i]-th [range] loop over a map of strings visits it. *)
Class LoopOrder := {
  loop : forall A, nat -> list (str * A) -> list (str * A);
  loop_perm : forall A i (l : list (str * A)), loop A i l ≡ₚ l }.
Arguments loop {_ A}.

(** ** [pkg/crypto/jwk.go], [jwks.go] *)

Section Keys.
Context {Key : Type} {L : JwtLib} {X : Jwx Key}.

(** [NewJwk], with the [i]-th key; a failing generator panics. *)
Definition NewJwk (i : nat) : outcome Key :=
  match rsa_GenerateKey i 2048 with
  | Err _ => Panics
  | Ok privateKey =>
      Returned (key ← jwk_FromRaw privateKey;
                Ok (jwk_AssignKeyID (key_Set $"kty" $"RSA" (key_Set $"alg" $"RS256" key))))
  end.

(** [JwkSet]: the set of private keys has the one key. *)
Record KeyPair := mkKeyPair { kp_Private : list Key; kp_Public : JwkSet }.

(** [NewJwkSet] *)
Definition NewJwkSet (i : nat) : outcome KeyPair :=
  match NewJwk i with
  | Panics => Panics
  | Exits => Exits
  | Returned (Err e) => Returned (Err e)
  | Returned (Ok key) =>
      Returned (publicKeys ← jwk_PublicSetOf [key]; Ok (mkKeyPair [key] publicKeys))
  end.
End Keys.

(** ** [mock/provider.go], [client.go], [config.go] *)

Definition providerConfiguration : ProviderMetadata :=
  Build_ProviderMetadata [] [] [] [] []
    [$"nb"; $"nb"; $"en"; $"se"] [$"Level3"; $"Level4"] false false [].

Definition SetAuthorizationEndpoint (url : str) (m : ProviderMetadata) : ProviderMetadata :=
  Build_ProviderMetadata (pm_Issuer m) url (pm_TokenEndpoint m) (pm_EndSessionEndpoint m)
    (pm_JwksURI m) (pm_UILocalesSupported m) (pm_ACRValuesSupported m)
    (pm_FrontchannelLogoutSupported m) (pm_FrontchannelLogoutSessionSupported m)
    (pm_CheckSessionIframe m).
Definition SetEndSessionEndpoint (url : str) (m : ProviderMetadata) : ProviderMetadata :=
  Build_ProviderMetadata (pm_Issuer m) (pm_AuthorizationEndpoint m) (pm_TokenEndpoint m) url
    (pm_JwksURI m) (pm_UILocalesSupported m) (pm_ACRValuesSupported m)
    (pm_FrontchannelLogoutSupported m) (pm_FrontchannelLogoutSessionSupported m)
    (pm_CheckSessionIframe m).
Definition SetIssuer (url : str) (m : ProviderMetadata) : ProviderMetadata :=
  Build_ProviderMetadata url (pm_AuthorizationEndpoint m) (pm_TokenEndpoint m)
    (pm_EndSessionEndpoint m) (pm_JwksURI m) (pm_UILocalesSupported m) (pm_ACRValuesSupported m)
    (pm_FrontchannelLogoutSupported m) (pm_FrontchannelLogoutSessionSupported m)
    (pm_CheckSessionIframe m).
Definition SetJwksURI (url : str) (m : ProviderMetadata) : ProviderMetadata :=
  Build_ProviderMetadata (pm_Issuer m) (pm_AuthorizationEndpoint m) (pm_TokenEndpoint m)
    (pm_EndSessionEndpoint m) url (pm_UILocalesSupported m) (pm_ACRValuesSupported m)
    (pm_FrontchannelLogoutSupported m) (pm_FrontchannelLogoutSessionSupported m)
    (pm_CheckSessionIframe m).
Definition SetTokenEndpoint (url : str) (m : ProviderMetadata) : ProviderMetadata :=
  Build_ProviderMetadata (pm_Issuer m) (pm_AuthorizationEndpoint m) url
    (pm_EndSessionEndpoint m) (pm_JwksURI m) (pm_UILocalesSupported m) (pm_ACRValuesSupported m)
    (pm_FrontchannelLogoutSupported m) (pm_FrontchannelLogoutSessionSupported m)
    (pm_CheckSessionIframe m).
Definition WithCheckSessionIFrameSupport (url : str) (m : ProviderMetadata) : ProviderMetadata :=
  Build_ProviderMetadata (pm_Issuer m) (pm_AuthorizationEndpoint m) (pm_TokenEndpoint m)
    (pm_EndSessionEndpoint m) (pm_JwksURI m) (pm_UILocalesSupported m) (pm_ACRValuesSupported m)
    (pm_FrontchannelLogoutSupported m) (pm_FrontchannelLogoutSessionSupported m) url.
Definition WithFrontChannelLogoutSupport (m : ProviderMetadata) : ProviderMetadata :=
  Build_ProviderMetadata (pm_Issuer m) (pm_AuthorizationEndpoint m) (pm_TokenEndpoint m)
    (pm_EndSessionEndpoint m) (pm_JwksURI m) (pm_UILocalesSupported m) (pm_ACRValuesSupported m)
    true true (pm_CheckSessionIframe m).

(** The configuration as the handlers see it; [EndSessionEndpointURL], which
    drops the error of its parse, would panic where this is none. *)
Definition TestProviderConfiguration (cfg : Config) (m : ProviderMetadata) : option Provider :=
  u ← Parse (pm_EndSessionEndpoint m);
  Some {| pr_endSessionEndpointURL := u; pr_metadata := m; pr_name := oc_Provider (cfg_OpenID cfg) |}.

(** [clientConfiguration]: the scopes are those of the plain client. *)
Definition clientConfiguration {Key} (cfg : Config) (clientJwk : Key) : Config.Client Key :=
  {| cl_kind := KindOpenID; cl_OpenID := cfg_OpenID cfg; cl_jwk := clientJwk |}.

Definition TestConfiguration {Key} (cfg : Config) (clientJwk : Key) (m : ProviderMetadata)
    : option (OpenidCfg Key) :=
  p ← TestProviderConfiguration cfg m;
  Some {| oidc_Client := clientConfiguration cfg clientJwk; oidc_Provider := p |}.

Definition mock_Ingress : str := $"http://wonderwall".

(** [Config()] *)
Definition mock_Config : Config :=
  {| cfg_BindAddress := []; cfg_LogFormat := []; cfg_LogLevel := []; cfg_MetricsBindAddress := [];
     cfg_AutoLogin := false; cfg_AutoLoginIgnorePaths := [];
     cfg_EncryptionKey := $"G8Roe6AcoBpdr5GhO3cs9iORl4XIC8eq"; cfg_ErrorPath := [];
     cfg_Ingresses := [mock_Ingress];
     cfg_Session := {| Inactivity := false; InactivityTimeout := 0%Z; MaxLifetime := Hour;
                       Refresh := false |};
     cfg_UpstreamHost := [];
     cfg_OpenID := {| oc_Provider := $"test"; oc_ClientID := $"client-id"; oc_ClientJWK := [];
                      oc_PostLogoutRedirectURI := $"https://google.com"; oc_Scopes := [$"some-scope"];
                      oc_WellKnownURL := []; oc_ACRValues := $"Level4"; oc_UILocales := $"nb" |};
     cfg_Redis := {| rd_Address := []; rd_Username := []; rd_Password := []; rd_TLS := false |};
     cfg_Loginstatus := {| ls_Enabled := false; ls_CookieDomain := []; ls_CookieName := [];
                           ls_ResourceIndicator := []; ls_TokenURL := [] |} |}.

(** ** [mock/openid.go]: the provider's state *)

Record AuthorizeRequest := mkAuthorizeRequest {
  ar_AcrLevel : str;
  ar_ClientID : str;
  ar_CodeChallenge : str;
  ar_Locale : str;
  ar_Nonce : str;
  ar_RedirectUri : str;
  ar_SessionID : str }.

Record RefreshTokenData := mkRefreshTokenData {
  rt_ClientID : str;
  rt_RefreshToken : str;
  rt_OriginalIDToken : Claims;
  rt_SessionID : str }.

(** The maps of [IdentityProviderHandler]. *)
Record IdpState := mkIdpState {
  Codes : gmap str AuthorizeRequest;
  Sessions : gmap str str;
  RefreshTokens : gmap str RefreshTokenData }.

(** Its other fields, and the keys of its [Provider]. *)
Record IdentityProviderHandler (Key : Type) := mkIdentityProviderHandler {
  ip_Config : OpenidCfg Key;
  ip_Private : list Key;
  ip_TokenDuration : Duration }.
Arguments mkIdentityProviderHandler {Key}.
Arguments ip_Config {Key}.
Arguments ip_Private {Key}.
Arguments ip_TokenDuration {Key}.

Definition newIdentityProviderHandler {Key} (private : list Key) (cfg : OpenidCfg Key)
    : IdentityProviderHandler Key * IdpState :=
  (mkIdentityProviderHandler cfg private Minute, mkIdpState ∅ ∅ ∅).

(** [tokenResponse] *)
Record tokenResponse := mkTokenResponse {
  tk_access_token : str;
  tk_token_type : str;
  tk_refresh_token : str;
  tk_expires_in : Z;
  tk_id_token : str }.

Definition tokenResponse_fields : list (Field tokenResponse) := [
  field $"access_token" store_string dump_string tk_access_token
    (fun x t => mkTokenResponse x (tk_token_type t) (tk_refresh_token t) (tk_expires_in t) (tk_id_token t));
  field $"token_type" store_string dump_string tk_token_type
    (fun x t => mkTokenResponse (tk_access_token t) x (tk_refresh_token t) (tk_expires_in t) (tk_id_token t));
  field $"refresh_token" store_string dump_string tk_refresh_token
    (fun x t => mkTokenResponse (tk_access_token t) (tk_token_type t) x (tk_expires_in t) (tk_id_token t));
  field $"expires_in" store_int dump_int tk_expires_in
    (fun x t => mkTokenResponse (tk_access_token t) (tk_token_type t) (tk_refresh_token t) x (tk_id_token t));
  field $"id_token" store_string dump_string tk_id_token
    (fun x t => mkTokenResponse (tk_access_token t) (tk_token_type t) (tk_refresh_token t) (tk_expires_in t) x)].

(** ** Forms *)

(** The error of [url.ParseQuery]. *)
Definition bad_setting (setting : str) : bool :=
  Contains setting ";"
  || negb (is_empty setting)
     && (let '(k, v, _) := Cut setting "=" in
         match QueryUnescape k, QueryUnescape v with Some _, Some _ => false | _, _ => true end).
Definition bad_query (query : str) : bool := existsb bad_setting (Split query "&").

(** A request to the token endpoint: [rq_Header]'s media type as
    [mime.ParseMediaType] finds it, the query and the body. *)
Record FormRequest := mkFormRequest { fr_MediaType : result str; fr_RawQuery : str; fr_Body : str }.

(** [r.ParseForm()] of a POST: the error, and [r.PostForm]. *)
Definition ParseForm (r : FormRequest) : result Values :=
  let query_error (v : Values) := if bad_query (fr_RawQuery r) then Err (New "url") else Ok v in
  match fr_MediaType r with
  | Err e => Err e
  | Ok mt =>
      if streq mt $"application/x-www-form-urlencoded"
      then if bad_query (fr_Body r) then Err (New "url") else query_error (ParseQuery (fr_Body r))
      else query_error ∅
  end.

Section Provider.
Context {Key : Type} {L : JwtLib} {X : Jwx Key} {LO : LoopOrder} {E : Env}.
Context (ip : IdentityProviderHandler Key).

(** [w.WriteHeader(code); w.Write(...)] *)
Definition answer (code : Z) (text : str) (w : Response) : Response := Write text (WriteHeader code w).

(** Assignments to the maps. *)
Definition modify (f : IdpState -> IdpState) : M IdpState unit := on_store (fun s => (tt, f s)).
Definition set_Session (id clientId : str) (s : IdpState) : IdpState :=
  mkIdpState (Codes s) (<[id := clientId]> (Sessions s)) (RefreshTokens s).
Definition set_Code (code : str) (a : AuthorizeRequest) (s : IdpState) : IdpState :=
  mkIdpState (<[code := a]> (Codes s)) (Sessions s) (RefreshTokens s).
Definition set_RefreshToken (t : str) (d : RefreshTokenData) (s : IdpState) : IdpState :=
  mkIdpState (Codes s) (Sessions s) (<[t := d]> (RefreshTokens s)).
Definition delete_RefreshToken (t : str) (s : IdpState) : IdpState :=
  mkIdpState (Codes s) (Sessions s) (delete t (RefreshTokens s)).
Definition get_state : M IdpState IdpState := fun w => (w_store w, w).

(** [signToken] *)
Definition signToken (token : Claims) : result str :=
  match ip_Private ip with
  | [] => Err (New "could not get signer")
  | signer :: _ => token_Sign signer token
  end.

(** [fmt.Sprintf("%s", list)] *)
Definition print_list (l : list str) : str := $"[" ++ Join l $" " ++ $"]".

(** The parameters [Authorize] requires, and those it restricts. *)
Definition required_params (query : Values) : list (str * str) :=
  [($"state", Values_Get query $"state"); ($"nonce", Values_Get query $"nonce");
   ($"redirect", Values_Get query $"redirect_uri");
   ($"response_type", Values_Get query $"response_type");
   ($"response_mode", Values_Get query $"response_mode");
   ($"client_id", Values_Get query $"client_id"); ($"scope", Values_Get query $"scope");
   ($"code_challenge", Values_Get query $"code_challenge");
   ($"code_challenge_method", Values_Get query $"code_challenge_method")].
Definition allowedParamValues : list (str * list str) :=
  [($"code_challenge_method", [$"S256"]); ($"response_type", [$"code"]);
   ($"response_mode", [$"query"]); ($"acr_values", [[]; $"Level3"; $"Level4"]);
   ($"ui_locales", [[]; $"nb"; $"nn"; $"en"; $"se"])].

(** The first complaint of the two loops, in the order the maps are visited. *)
Definition first_missing (query : Values) : option str :=
  fst <$> List.find (fun '(_, value) => is_empty value) (loop 0 (required_params query)).
Definition first_invalid (query : Values) : option (str * list str) :=
  List.find (fun '(param, allowed) => negb (existsb (streq (Values_Get query param)) allowed))
    (loop 1 allowedParamValues).

Definition missing_text (param : str) : str := $"missing required field '" ++ param ++ $"'".
Definition invalid_text (param actual : str) (expected : list str) : str :=
  $"'" ++ actual ++ $"' is an invalid value for '" ++ param ++ $"', must be '"
  ++ print_list expected ++ $"'".
Definition scope_text (scope : str) : str :=
  $"'scope' parameter must contain 'openid', was '" ++ scope ++ $"'".

(** The authorization request a code is kept for. *)
Definition authorize_request (query : Values) (sessionID : str) : AuthorizeRequest :=
  mkAuthorizeRequest (Values_Get query $"acr_values") (Values_Get query $"client_id")
    (Values_Get query $"code_challenge") (Values_Get query $"ui_locales")
    (Values_Get query $"nonce") (Values_Get query $"redirect_uri") sessionID.

(** The query of the redirect back. *)
Definition authorize_answer (code state sessionID : str) : Values :=
  let v := Values_Set (Values_Set ∅ $"code" code) $"state" state in
  if SessionStateRequired (oidc_Provider (ip_Config ip))
  then Values_Set v $"session_state" sessionID else v.

(** [Authorize] *)
Definition Authorize (r : Request) (w : Response) : M IdpState Response :=
  let query := URL_Query (rq_URL r) in
  let scope := Values_Get query $"scope" in
  match first_missing query with
  | Some param => mret (answer StatusBadRequest (missing_text param) w)
  | None =>
  match first_invalid query with
  | Some (param, allowed) =>
      mret (answer StatusBadRequest (invalid_text param (Values_Get query param) allowed) w)
  | None =>
  if negb (existsb (streq $"openid") (Split scope " "))
  then mret (answer StatusBadRequest (scope_text scope) w)
  else
    sessionID ← uuid_New;
    _ ← modify (set_Session sessionID (Values_Get query $"client_id"));
    code ← uuid_New;
    _ ← modify (set_Code code (authorize_request query sessionID));
    match Parse (Values_Get query $"redirect_uri") with
    | None => mret (answer StatusBadRequest $"couldn't parse redirect uri" w)
    | Some u =>
        let v := authorize_answer code (Values_Get query $"state") sessionID in
        mret (http_Redirect r (URL_String (URL_with_query u (Values_Encode v)))
                StatusTemporaryRedirect w)
    end
  end
  end.

(** [Jwks]: the text of the public key set is the library's. *)
Definition Jwks (public_text : str) (w : Response) : M IdpState Response :=
  mret (Write (public_text ++ [chr 10]) w).

(** [validateClientAuthentication]: the error's text and the response. *)
Definition assertion_options : list ValidateOption :=
  [WithIssuer (ClientID (oidc_Client (ip_Config ip)));
   WithSubject (ClientID (oidc_Client (ip_Config ip)));
   WithAudience (pm_Issuer (pr_metadata (oidc_Provider (ip_Config ip))))].
Definition unauthenticated : Values :=
  Values_Set (Values_Set ∅ $"error" $"Unauthenticated")
    $"error_description" $"invalid client assertion".
Definition validateClientAuthentication (form : Values) (expectedClientID : str) (w : Response)
    : M IdpState (option str * Response) :=
  let clientID := Values_Get form $"client_id" in
  let clientAssertion := Values_Get form $"client_assertion" in
  if is_empty clientID then mret (Some $"missing client_id", WriteHeader StatusBadRequest w)
  else if negb (streq expectedClientID clientID)
  then mret (Some $"client_id does not match client_id for original authorization",
             WriteHeader StatusBadRequest w)
  else if is_empty clientAssertion
  then mret (Some $"missing client_assertion", WriteHeader StatusBadRequest w)
  else
    match jwk_PublicSetOf [ClientJWK (oidc_Client (ip_Config ip))] with
    | Err _ => mret (Some $"failed to create public client jwk set",
                     WriteHeader StatusInternalServerError w)
    | Ok jwks =>
        now ← time_Now;
        match jwt_ParseValidate jwks assertion_options now clientAssertion with
        | Err err => mret (Some (Values_Encode unauthenticated ++ $": " ++ error_Error err),
                           WriteHeader StatusUnauthorized w)
        | Ok _ => mret (None, w)
        end
    end.

(** The claims of the tokens; [Unix] counts whole seconds since 1970. *)
Definition Unix (t : Time) : Z := ((t - unix_epoch) / Second)%Z.
Definition issuer : str := pm_Issuer (pr_metadata (oidc_Provider (ip_Config ip))).
Definition access_claims (sub acr : str) (iat exp : Time) (jti : str) : Claims :=
  [($"sub", SetString sub); ($"iss", SetString issuer); ($"acr", SetString acr);
   ($"iat", SetNumber (Unix iat)); ($"exp", SetNumber (Unix exp)); ($"jti", SetString jti)].
Definition id_claims (sub : str) (auth : AuthorizeRequest) (iat exp : Time) (jti : str) : Claims :=
  [($"sub", SetString sub); ($"iss", SetString issuer); ($"aud", SetString (ar_ClientID auth));
   ($"locale", SetString (ar_Locale auth)); ($"nonce", SetString (ar_Nonce auth));
   ($"acr", SetString (ar_AcrLevel auth)); ($"iat", SetNumber (Unix iat));
   ($"exp", SetNumber (Unix exp)); ($"jti", SetString jti)]
  ++ (if SidClaimRequired (oidc_Provider (ip_Config ip))
      then [($"sid", SetString (ar_SessionID auth))] else []).
Definition refreshed_claims (sub : str) (iat exp : Time) (jti : str) : Claims :=
  [($"sub", SetString sub); ($"iss", SetString issuer);
   ($"iat", SetNumber (Unix iat)); ($"exp", SetNumber (Unix exp)); ($"jti", SetString jti)].

(** [token.Subject()] *)
Definition Subject (t : Claims) : str :=
  match List.find (fun kv => streq kv.1 $"sub") t with
  | Some (_, SetString s) => s
  | _ => []
  end.

(** [int64(ip.TokenDuration.Seconds())] *)
Definition expires_in : Z := float_to_int (Seconds (ip_TokenDuration ip)).

(** [json.NewEncoder(w).Encode(token)], after the headers *)
Definition write_token (t : tokenResponse) (w : Response) : Response :=
  let w1 := WriteHeader StatusOK (SetContentType $"application/json" w) in
  match struct_Encode tokenResponse_fields t with Ok text => Write text w1 | Err _ => w1 end.

Definition sign_failure (err : error) (w : Response) : Response :=
  answer StatusInternalServerError ($"could not sign access token: " ++ error_Error err) w.

(** The checks of [TokenCodeGrant] after the client's authentication. *)
Definition code_complaint (form : Values) (auth : AuthorizeRequest) : option str :=
  let redirect := Values_Get form $"redirect_uri" in
  let codeVerifier := Values_Get form $"code_verifier" in
  if is_empty redirect then Some $"missing redirect_uri"
  else if is_empty (ar_RedirectUri auth) then Some $"redirect_uri was not set in auth code request"
  else if negb (streq (ar_RedirectUri auth) redirect)
  then Some $"redirect_uri does not match redirect_uri used to acquire code"
  else if is_empty codeVerifier then Some $"missing code_verifier"
  else if negb (streq (CodeChallenge codeVerifier) (ar_CodeChallenge auth))
  then Some $"code_verifier is invalid"
  else None.

(** [TokenCodeGrant] *)
Definition TokenCodeGrant (form : Values) (w : Response) : M IdpState Response :=
  let code := Values_Get form $"code" in
  if is_empty code then mret (answer StatusBadRequest $"missing code" w)
  else
    s ← get_state;
    match Codes s !! code with
    | None => mret (answer StatusInternalServerError $"no matching code" w)
    | Some auth =>
        '(err, w1) ← validateClientAuthentication form (ar_ClientID auth) w;
        match err with
        | Some text => mret (Write text w1)
        | None =>
        match code_complaint form auth with
        | Some text => mret (answer StatusBadRequest text w1)
        | None =>
            now ← time_Now;
            let iat := Truncate now Second in
            let exp := Add iat (ip_TokenDuration ip) in
            sub ← uuid_New;
            jti ← uuid_New;
            match signToken (access_claims sub (ar_AcrLevel auth) iat exp jti) with
            | Err err => mret (sign_failure err w1)
            | Ok signedAccessToken =>
                jti' ← uuid_New;
                let idToken := id_claims sub auth iat exp jti' in
                match signToken idToken with
                | Err err => mret (sign_failure err w1)
                | Ok signedIdToken =>
                    let refreshToken := code ++ $"some-refresh-token" in
                    _ ← modify (set_RefreshToken refreshToken
                          (mkRefreshTokenData (ar_ClientID auth) refreshToken idToken
                             (ar_SessionID auth)));
                    mret (write_token (mkTokenResponse signedAccessToken $"Bearer" refreshToken
                                         expires_in signedIdToken) w1)
                end
            end
        end
        end
    end.

(** [RefreshTokenGrant] *)
Definition RefreshTokenGrant (form : Values) (w : Response) : M IdpState Response :=
  let refreshToken := Values_Get form $"refresh_token" in
  if is_empty refreshToken then mret (answer StatusBadRequest $"missing refresh_token" w)
  else
    s ← get_state;
    match RefreshTokens s !! refreshToken with
    | None => mret (answer StatusInternalServerError $"no matching refresh_token" w)
    | Some data =>
        '(err, w1) ← validateClientAuthentication form (rt_ClientID data) w;
        match err with
        | Some text => mret (Write text w1)
        | None =>
            now ← time_Now;
            let iat := Truncate now Second in
            let exp := Add iat (ip_TokenDuration ip) in
            jti ← uuid_New;
            match signToken (refreshed_claims (Subject (rt_OriginalIDToken data)) iat exp jti) with
            | Err err => mret (sign_failure err w1)
            | Ok signedAccessToken =>
                _ ← modify (delete_RefreshToken refreshToken);
                id ← uuid_New;
                let newToken := id ++ $"some-new-refresh-token" in
                _ ← modify (set_RefreshToken newToken
                      (mkRefreshTokenData (rt_ClientID data) newToken (rt_OriginalIDToken data)
                         (rt_SessionID data)));
                mret (write_token (mkTokenResponse signedAccessToken $"Bearer" newToken
                                     expires_in []) w1)
            end
        end
    end.

(** [Token] *)
Definition Token_endpoint (r : FormRequest) (w : Response) : M IdpState Response :=
  match ParseForm r with
  | Err _ => mret (answer StatusBadRequest $"malformed payload?" w)
  | Ok form =>
      let grantType := Values_Get form P_GrantType in
      if streq grantType $"authorization_code" then TokenCodeGrant form w
      else if streq grantType $"refresh_token" then RefreshTokenGrant form w
      else mret (answer StatusBadRequest ($"unsupported grant_type: " ++ grantType) w)
  end.

(** [EndSession] *)
Definition EndSession (r : Request) (w : Response) : M IdpState Response :=
  let postLogoutRedirectURI := Values_Get (URL_Query (rq_URL r)) $"post_logout_redirect_uri" in
  if is_empty postLogoutRedirectURI
  then mret (answer StatusBadRequest $"missing required parameters" w)
  else match Parse postLogoutRedirectURI with
       | None => mret (answer StatusBadRequest $"couldn't parse post_logout_redirect_uri" w)
       | Some u => mret (http_Redirect r (URL_String u) StatusTemporaryRedirect w)
       end.
End Provider.

(** [identityProviderRouter] *)
Inductive IdpRoute := RouteAuthorize | RouteToken | RouteJwks | RouteEndSession.
Definition identityProviderRouter : list (str * str * IdpRoute) :=
  [($"GET", $"/authorize", RouteAuthorize); ($"POST", $"/token", RouteToken);
   ($"GET", $"/jwks", RouteJwks); ($"GET", $"/endsession", RouteEndSession)].

(** [SetIngresses]: also the configuration the handlers hold is changed. *)
Definition with_ingresses (ingresses : list str) (cfg : Config) : Config :=
  {| cfg_BindAddress := cfg_BindAddress cfg; cfg_LogFormat := cfg_LogFormat cfg;
     cfg_LogLevel := cfg_LogLevel cfg; cfg_MetricsBindAddress := cfg_MetricsBindAddress cfg;
     cfg_AutoLogin := cfg_AutoLogin cfg; cfg_AutoLoginIgnorePaths := cfg_AutoLoginIgnorePaths cfg;
     cfg_EncryptionKey := cfg_EncryptionKey cfg; cfg_ErrorPath := cfg_ErrorPath cfg;
     cfg_Ingresses := ingresses; cfg_Session := cfg_Session cfg;
     cfg_UpstreamHost := cfg_UpstreamHost cfg; cfg_OpenID := cfg_OpenID cfg;
     cfg_Redis := cfg_Redis cfg; cfg_Loginstatus := cfg_Loginstatus cfg |}.
Definition SetIngresses {MO : MapOrder} {Key} (ingresses : list str) (h : StandardHandler Key)
    : result (StandardHandler Key) :=
  let cfg := with_ingresses ingresses (sh_config h) in
  parsed ← ParseIngresses cfg;
  Ok {| sh_autoLogin := sh_autoLogin h; sh_client := sh_client h; sh_config := cfg;
        sh_cookieOptions := sh_cookieOptions h; sh_crypter := sh_crypter h; sh_ingresses := parsed;
        sh_loginstatus := sh_loginstatus h; sh_openidConfig := sh_openidConfig h;
        sh_sessions := sh_sessions h; sh_upstreamHost := sh_upstreamHost h |}.

(** The metadata of [NewIdentityProvider], for the test server's URL. *)
Definition idp_metadata (serverURL : str) : ProviderMetadata :=
  SetTokenEndpoint (serverURL ++ $"/token") (SetJwksURI (serverURL ++ $"/jwks")
    (SetIssuer serverURL (SetEndSessionEndpoint (serverURL ++ $"/endsession")
      (SetAuthorizationEndpoint (serverURL ++ $"/authorize") providerConfiguration)))).

(** [NewIdentityProvider]: the provider, and the program configured for it; any
    failure panics. *)
Definition NewIdentityProvider {MO : MapOrder} {Key} (cfg : Config) (serverURL rpURL : str)
    (private : list Key) (clientJwk : Key) (ping : RedisOptions -> result unit)
    : option (IdentityProviderHandler Key * IdpState * StandardHandler Key) :=
  openidConfig ← TestConfiguration cfg clientJwk (idp_metadata serverURL);
  match NewHandler cfg (WithSecure DefaultOptions false) openidConfig (cfg_EncryptionKey cfg) ping with
  | Err _ => None
  | Ok (h, _) =>
      match SetIngresses [rpURL] h with
      | Err _ => None
      | Ok h' => Some (newIdentityProviderHandler private openidConfig, h')
      end
  end.

(** [NewGetRequest]: the context a request of the tests gets. *)
Definition NewGetRequest {MO : MapOrder} (i : Ingresses) (r : Request) : Request :=
  match MatchingIngress i r with
  | Some match_ => WithPath (WithIngress r match_) (ingress_Path match_)
  | None => r
  end.

(** ** Lemmas *)

Section Facts.
Context {Key : Type} {L : JwtLib} {X : Jwx Key} {LO : LoopOrder} {E : Env}.
Context (ip : IdentityProviderHandler Key).
Implicit Types (w : World IdpState) (form : Values) (rw : Response).

(** A refusal: an error status, and nothing changed. *)
Definition refused w (out : Response * World IdpState) : Prop :=
  (exists c, rw_Status out.1 = Some c /\ (400 <= c)%Z) /\ w_store out.2 = w_store w.

(** The client of the request proved who it is. *)
Definition authenticated form (clientID : str) : Prop :=
  Values_Get form $"client_id" = clientID /\ clientID <> []
  /\ exists jwks now t, jwk_PublicSetOf [ClientJWK (oidc_Client (ip_Config ip))] = Ok jwks
       /\ jwt_ParseValidate jwks (assertion_options ip) now (Values_Get form $"client_assertion")
          = Ok t.

Lemma answer_status c text rw : rw_Status rw = None -> rw_Status (answer c text rw) = Some c.
Proof. intros H. unfold answer, Write, WriteHeader. by rewrite H. Qed.

Lemma answer_refused c text rw w :
  rw_Status rw = None -> (400 <= c)%Z -> refused w (answer c text rw, w).
Proof. intros H Hc. split; [exists c; split; [by apply answer_status|done]|done]. Qed.

Lemma Write_status text rw c : rw_Status rw = Some c -> rw_Status (Write text rw) = Some c.
Proof. intros H. unfold Write, WriteHeader. by rewrite H. Qed.

Lemma validateClientAuthentication_spec form cid rw w out w' :
  rw_Status rw = None ->
  validateClientAuthentication ip form cid rw w = (out, w') ->
  w_store w' = w_store w
  /\ (out = (None, rw) /\ authenticated form cid
      \/ exists text c, out = (Some text, WriteHeader c rw) /\ (400 <= c)%Z).
Proof.
  intros Hs. unfold validateClientAuthentication.
  assert (Hbad : forall text c w1, w_store w1 = w_store w -> (400 <= c)%Z ->
            ((Some text : option str, WriteHeader c rw), w1) = (out, w') ->
            w_store w' = w_store w
            /\ (out = (None, rw) /\ authenticated form cid
                \/ exists text c, out = (Some text, WriteHeader c rw) /\ (400 <= c)%Z)).
  { intros text c w1 Hw Hc [= <- <-]. split; [done|]. right. eauto. }
  destruct (is_empty (Values_Get form _)) eqn:E1; [by apply Hbad|].
  destruct (streq cid _) eqn:E2; cbn [negb]; [|by apply Hbad].
  apply streq_true in E2. apply is_empty_false in E1.
  destruct (is_empty (Values_Get form $"client_assertion")) eqn:E3; [by apply Hbad|].
  destruct (jwk_PublicSetOf _) as [jwks|e] eqn:E4; [|by apply Hbad].
  rewrite bind_run. cbn [fst snd time_Now step].
  destruct (jwt_ParseValidate _ _ _ _) as [t|e] eqn:E5; [|by apply Hbad].
  intros [= <- <-]. split; [done|]. left. split; [done|]. split; [done|]. split; [congruence|].
  exists jwks, (env_now (w_tick w)), t. by split.
Qed.

Lemma validateClientAuthentication_ok form cid rw w jwks t :
  Values_Get form $"client_id" = cid -> cid <> [] ->
  Values_Get form $"client_assertion" <> [] ->
  jwk_PublicSetOf [ClientJWK (oidc_Client (ip_Config ip))] = Ok jwks ->
  jwt_ParseValidate jwks (assertion_options ip) (env_now (w_tick w))
    (Values_Get form $"client_assertion") = Ok t ->
  validateClientAuthentication ip form cid rw w
  = ((None, rw), mkWorld (1 + w_tick w) (w_store w) (w_trace w)).
Proof.
  intros H1 H2 H3 H4 H5. unfold validateClientAuthentication.
  rewrite H1, (proj2 (is_empty_false _) H2), streq_refl, (proj2 (is_empty_false _) H3), H4.
  cbn [negb]. rewrite bind_run. cbn [fst snd time_Now step]. by rewrite H5.
Qed.
(** A code was redeemed: by its client, with the redirect URI of the
    authorization request and the verifier of its challenge; the id_token has
    its nonce. *)
Definition code_granted form rw w (out : Response * World IdpState) : Prop :=
  exists auth now sub jti jti' accessToken idToken,
    let code := Values_Get form $"code" in
    let iat := Truncate now Second in
    let exp := Add iat (ip_TokenDuration ip) in
    let refreshToken := code ++ $"some-refresh-token" in
    let claims := id_claims ip sub auth iat exp jti' in
    Codes (w_store w) !! code = Some auth
    /\ authenticated form (ar_ClientID auth)
    /\ Values_Get form $"redirect_uri" = ar_RedirectUri auth
    /\ CodeChallenge (Values_Get form $"code_verifier") = ar_CodeChallenge auth
    /\ signToken ip (access_claims ip sub (ar_AcrLevel auth) iat exp jti) = Ok accessToken
    /\ signToken ip claims = Ok idToken
    /\ out.1 = write_token (mkTokenResponse accessToken $"Bearer" refreshToken (expires_in ip) idToken) rw
    /\ w_store out.2 = set_RefreshToken refreshToken
         (mkRefreshTokenData (ar_ClientID auth) refreshToken claims (ar_SessionID auth)) (w_store w).

(** A refresh token was used: it is replaced by a new one for the same client,
    session and subject. *)
Definition refresh_granted form rw w (out : Response * World IdpState) : Prop :=
  exists data now jti id accessToken,
    let refreshToken := Values_Get form $"refresh_token" in
    let iat := Truncate now Second in
    let newToken := id ++ $"some-new-refresh-token" in
    RefreshTokens (w_store w) !! refreshToken = Some data
    /\ authenticated form (rt_ClientID data)
    /\ signToken ip (refreshed_claims ip (Subject (rt_OriginalIDToken data)) iat
                       (Add iat (ip_TokenDuration ip)) jti) = Ok accessToken
    /\ out.1 = write_token (mkTokenResponse accessToken $"Bearer" newToken (expires_in ip) []) rw
    /\ w_store out.2 = set_RefreshToken newToken
         (mkRefreshTokenData (rt_ClientID data) newToken (rt_OriginalIDToken data) (rt_SessionID data))
         (delete_RefreshToken refreshToken (w_store w)).

Lemma code_complaint_None form auth :
  code_complaint form auth = None <->
  Values_Get form $"redirect_uri" = ar_RedirectUri auth /\ ar_RedirectUri auth <> []
  /\ Values_Get form $"code_verifier" <> []
  /\ CodeChallenge (Values_Get form $"code_verifier") = ar_CodeChallenge auth.
Proof.
  unfold code_complaint. rewrite <- !is_empty_false.
  destruct (is_empty (Values_Get form $"redirect_uri")) eqn:E1.
  { apply is_empty_true in E1. rewrite E1. split; [done|]. by intros (<- & ? & _). }
  destruct (is_empty (ar_RedirectUri auth)) eqn:E2; [by split; [|intros (_ & ? & _)]|].
  destruct (streq (ar_RedirectUri auth) _) eqn:E3; cbn [negb].
  2:{ apply streq_false in E3. split; [done|]. intros (H & _). by rewrite H in E3. }
  destruct (is_empty (Values_Get form $"code_verifier")) eqn:E4; [by split; [|intros (_ & _ & ? & _)]|].
  apply streq_true in E3.
  destruct (streq (CodeChallenge _) _) eqn:E5; cbn [negb].
  - apply streq_true in E5. by split.
  - apply streq_false in E5. split; [done|]. by intros (_ & _ & _ & ?).
Qed.

(** The grants when nothing stands in the way. *)
Lemma TokenCodeGrant_run form auth rw w jwks tok accessToken idToken :
  let code := Values_Get form $"code" in
  let now := env_now (1 + w_tick w) in
  let iat := Truncate now Second in
  let exp := Add iat (ip_TokenDuration ip) in
  let sub := env_uuid (2 + w_tick w) in
  let refreshToken := code ++ $"some-refresh-token" in
  let claims := id_claims ip sub auth iat exp (env_uuid (4 + w_tick w)) in
  code <> [] -> Codes (w_store w) !! code = Some auth ->
  Values_Get form $"client_id" = ar_ClientID auth -> ar_ClientID auth <> [] ->
  Values_Get form $"client_assertion" <> [] ->
  jwk_PublicSetOf [ClientJWK (oidc_Client (ip_Config ip))] = Ok jwks ->
  jwt_ParseValidate jwks (assertion_options ip) (env_now (w_tick w))
    (Values_Get form $"client_assertion") = Ok tok ->
  code_complaint form auth = None ->
  signToken ip (access_claims ip sub (ar_AcrLevel auth) iat exp (env_uuid (3 + w_tick w)))
    = Ok accessToken ->
  signToken ip claims = Ok idToken ->
  TokenCodeGrant ip form rw w
  = (write_token (mkTokenResponse accessToken $"Bearer" refreshToken (expires_in ip) idToken) rw,
     mkWorld (5 + w_tick w)
       (set_RefreshToken refreshToken
          (mkRefreshTokenData (ar_ClientID auth) refreshToken claims (ar_SessionID auth)) (w_store w))
       (w_trace w)).
Proof.
  intros code now iat exp sub refreshToken claims Hc Hcode Hid Hne Ha Hj Ht Hcc Hs1 Hs2.
  unfold TokenCodeGrant. fold code. rewrite (proj2 (is_empty_false _) Hc).
  rewrite bind_run. cbn [fst snd get_state]. rewrite Hcode.
  rewrite bind_run, (validateClientAuthentication_ok _ _ _ _ jwks tok Hid Hne Ha Hj Ht).
  cbn [fst snd]. rewrite Hcc.
  do 3 (rewrite bind_run; cbn [fst snd time_Now uuid_New step w_tick w_store w_trace]).
  unfold sub, exp, iat, now in Hs1. cbn [Nat.add] in Hs1 |- *. rewrite Hs1.
  rewrite bind_run; cbn [fst snd uuid_New step w_tick w_store w_trace].
  unfold claims, sub, exp, iat, now in *. cbn [Nat.add] in *. by rewrite Hs2.
Qed.

Lemma RefreshTokenGrant_run form data rw w jwks tok accessToken :
  let refreshToken := Values_Get form $"refresh_token" in
  let iat := Truncate (env_now (1 + w_tick w)) Second in
  let newToken := env_uuid (3 + w_tick w) ++ $"some-new-refresh-token" in
  refreshToken <> [] -> RefreshTokens (w_store w) !! refreshToken = Some data ->
  Values_Get form $"client_id" = rt_ClientID data -> rt_ClientID data <> [] ->
  Values_Get form $"client_assertion" <> [] ->
  jwk_PublicSetOf [ClientJWK (oidc_Client (ip_Config ip))] = Ok jwks ->
  jwt_ParseValidate jwks (assertion_options ip) (env_now (w_tick w))
    (Values_Get form $"client_assertion") = Ok tok ->
  signToken ip (refreshed_claims ip (Subject (rt_OriginalIDToken data)) iat
    (Add iat (ip_TokenDuration ip)) (env_uuid (2 + w_tick w))) = Ok accessToken ->
  RefreshTokenGrant ip form rw w
  = (write_token (mkTokenResponse accessToken $"Bearer" newToken (expires_in ip) []) rw,
     mkWorld (4 + w_tick w)
       (set_RefreshToken newToken
          (mkRefreshTokenData (rt_ClientID data) newToken (rt_OriginalIDToken data)
             (rt_SessionID data)) (delete_RefreshToken refreshToken (w_store w)))
       (w_trace w)).
Proof.
  intros refreshToken iat newToken Hr Hdata Hid Hne Ha Hj Ht Hs.
  unfold RefreshTokenGrant. fold refreshToken. rewrite (proj2 (is_empty_false _) Hr).
  rewrite bind_run. cbn [fst snd get_state]. rewrite Hdata.
  rewrite bind_run, (validateClientAuthentication_ok _ _ _ _ jwks tok Hid Hne Ha Hj Ht).
  cbn [fst snd].
  do 2 (rewrite bind_run; cbn [fst snd time_Now uuid_New step w_tick w_store w_trace]).
  unfold iat in Hs. cbn [Nat.add] in Hs |- *. by rewrite Hs.
Qed.

Lemma sign_failure_refused e rw w w' :
  rw_Status rw = None -> w_store w' = w_store w -> refused w (sign_failure e rw, w').
Proof.
  intros Hs Hw. split; [|done]. eexists. split; [by apply answer_status|].
  by unfold StatusInternalServerError.
Qed.

Lemma TokenCodeGrant_spec form rw w :
  rw_Status rw = None ->
  refused w (TokenCodeGrant ip form rw w) \/ code_granted form rw w (TokenCodeGrant ip form rw w).
Proof.
  intros Hs. unfold TokenCodeGrant.
  destruct (is_empty (Values_Get form $"code")) eqn:E1; [left; by apply answer_refused|].
  rewrite bind_run. cbn [fst snd get_state].
  destruct (Codes (w_store w) !! _) as [auth|] eqn:E2; [|left; by apply answer_refused].
  rewrite bind_run. destruct (validateClientAuthentication ip form _ rw w) as [[err w1] w2] eqn:E3.
  destruct (validateClientAuthentication_spec _ _ _ _ _ _ Hs E3) as [Hw Hout].
  cbn [fst snd]. destruct Hout as [[[= -> ->] Hauth]|(text & c & [= -> ->] & Hc)].
  2:{ left. split; [|done]. exists c. split; [|done]. by apply Write_status, WriteHeader_status. }
  destruct (code_complaint form auth) as [text|] eqn:E4.
  { left. split; [|done]. exists StatusBadRequest. split; [by apply answer_status|done]. }
  apply code_complaint_None in E4 as (Hr & _ & _ & Hv).
  do 3 (rewrite bind_run; cbn [fst snd time_Now uuid_New step w_tick w_store w_trace]).
  destruct (signToken ip (access_claims _ _ _ _ _ _)) as [a|e] eqn:E5;
    [|left; by apply sign_failure_refused].
  rewrite bind_run; cbn [fst snd uuid_New step w_tick w_store w_trace].
  destruct (signToken ip (id_claims _ _ _ _ _ _)) as [i|e] eqn:E6;
    [|left; by apply sign_failure_refused].
  right. do 7 eexists. cbn zeta. split; [exact E2|]. split; [exact Hauth|]. split; [exact Hr|].
  split; [exact Hv|]. split; [exact E5|]. split; [exact E6|]. split; [done|]. cbn. by rewrite Hw.
Qed.

Lemma RefreshTokenGrant_spec form rw w :
  rw_Status rw = None ->
  refused w (RefreshTokenGrant ip form rw w)
  \/ refresh_granted form rw w (RefreshTokenGrant ip form rw w).
Proof.
  intros Hs. unfold RefreshTokenGrant.
  destruct (is_empty (Values_Get form $"refresh_token")) eqn:E1; [left; by apply answer_refused|].
  rewrite bind_run. cbn [fst snd get_state].
  destruct (RefreshTokens (w_store w) !! _) as [data|] eqn:E2; [|left; by apply answer_refused].
  rewrite bind_run. destruct (validateClientAuthentication ip form _ rw w) as [[err w1] w2] eqn:E3.
  destruct (validateClientAuthentication_spec _ _ _ _ _ _ Hs E3) as [Hw Hout].
  cbn [fst snd]. destruct Hout as [[[= -> ->] Hauth]|(text & c & [= -> ->] & Hc)].
  2:{ left. split; [|done]. exists c. split; [|done]. by apply Write_status, WriteHeader_status. }
  do 2 (rewrite bind_run; cbn [fst snd time_Now uuid_New step w_tick w_store w_trace]).
  destruct (signToken ip (refreshed_claims _ _ _ _ _)) as [a|e] eqn:E5;
    [|left; by apply sign_failure_refused].
  right. do 5 eexists. cbn zeta. split; [exact E2|]. split; [exact Hauth|]. split; [exact E5|].
  split; [done|]. cbn. by rewrite Hw.
Qed.
End Facts.

(** ** The answer with the tokens *)

Definition text_response (t : tokenResponse) : Prop :=
  Forall (fun s => valid_utf8 s = true)
    [tk_access_token t; tk_token_type t; tk_refresh_token t; tk_id_token t]
  /\ in_int64 (tk_expires_in t).

(** A line written by an encoder parses to its tree. *)
Lemma struct_Encode_line {A} (fs : list (Field A)) (n : Z) (a : A) (s : str) :
  (0 <= n < 100)%Z -> Forall (field_ok n a) fs -> struct_Encode fs a = Ok s ->
  exists v, dump_struct fs a = Some v /\ json_parse s = Some v.
Proof.
  intros Hn Hfs. unfold struct_Encode, struct_Marshal.
  destruct (dump_struct fs a) as [v|] eqn:E; [|done]. intros [= <-].
  destruct (dump_struct_canonical fs n a v ltac:(lia) Hfs E) as [Hc Hd].
  exists v. split; [done|]. unfold json_parse.
  rewrite (parse_text v Hc _ maxNestingDepth [chr 10]); [by vm_compute|done| |].
  - unfold maxNestingDepth. lia.
  - rewrite length_app. lia.
Qed.

Lemma encode_token t :
  text_response t ->
  exists body, struct_Encode tokenResponse_fields t = Ok body
    /\ struct_Decode tokenResponse_fields (mkTokenResponse [] [] [] 0 []) body = Ok t
    /\ (json_Decode body : result TokenResponse)
       = Ok (Build_TokenResponse (tk_access_token t) (tk_expires_in t) (tk_refresh_token t)
               (tk_token_type t)).
Proof.
  destruct t as [a ty r e i]. intros [Hu Hi]. cbn in Hu, Hi.
  rewrite !Forall_cons in Hu. destruct Hu as (Ha & Hty & Hr & Hid & _).
  destruct (struct_Encode tokenResponse_fields (mkTokenResponse a ty r e i)) as [body|] eqn:E; [|done].
  assert (Hok : Forall (field_ok 0 (mkTokenResponse a ty r e i)) tokenResponse_fields).
  { unfold tokenResponse_fields.
    fields_ok; eauto using canonical_dump_int; by eapply canonical_dump_string. }
  exists body. split; [done|]. split.
  - apply (struct_stream_roundtrip _ _ (mkTokenResponse a ty r e i) _ 0); [lia|exact Hok| |exact E].
    intros v [= <-]. cbn [store_struct tokenResponse_fields].
    store_fields ltac:(rewrite ?unquote_quote, ?Atoi_Itoa by done).
  - destruct (struct_Encode_line _ 0 _ _ ltac:(lia) Hok E) as (v & [= <-] & Hp).
    unfold json_Decode, TokenResponse_decoder, struct_Unmarshal. rewrite Hp.
    cbn [store_struct].
    store_fields ltac:(rewrite ?unquote_quote, ?Atoi_Itoa by done).
Qed.

Lemma write_token_run t :
  text_response t ->
  exists body, write_token t new_response
      = mkResponse [] None $"application/json" (Some StatusOK) body
    /\ struct_Decode tokenResponse_fields (mkTokenResponse [] [] [] 0 []) body = Ok t
    /\ (json_Decode body : result TokenResponse)
       = Ok (Build_TokenResponse (tk_access_token t) (tk_expires_in t) (tk_refresh_token t)
               (tk_token_type t)).
Proof.
  intros (body & Hb & Hd)%encode_token. exists body. split; [|exact Hd].
  unfold write_token. by rewrite Hb.
Qed.

(** ** Properties *)

(** C23: The token endpoint, on every request: it refuses with an error status and
    changes nothing, or it redeems a code or uses a refresh token.  A code is
    redeemed only by the client it was issued to, authenticated by an assertion,
    with the redirect URI and the verifier of the authorization request, and the
    id_token has its nonce; a refresh token is used only by its client and is
    replaced. *)
Theorem Token_endpoint_spec {Key : Type} {L : JwtLib} {X : Jwx Key} {E : Env}
    (ip : IdentityProviderHandler Key) (r : FormRequest) (w : World IdpState) :
  let out := Token_endpoint ip r new_response w in
  refused w out
  \/ exists form, ParseForm r = Ok form
       /\ (Values_Get form P_GrantType = $"authorization_code"
           /\ code_granted ip form new_response w out
           \/ Values_Get form P_GrantType = $"refresh_token"
              /\ refresh_granted ip form new_response w out).
Proof.
  cbn zeta. unfold Token_endpoint. destruct (ParseForm r) as [form|e] eqn:Ef;
    [|left; by apply answer_refused].
  destruct (streq _ $"authorization_code") eqn:E1.
  { apply streq_true in E1. destruct (TokenCodeGrant_spec ip form new_response w eq_refl); eauto 6. }
  destruct (streq _ $"refresh_token") eqn:E2; [|left; by apply answer_refused].
  apply streq_true in E2. destruct (RefreshTokenGrant_spec ip form new_response w eq_refl); eauto 6.
Qed.
