(* ===== verification/Interop.v ===== *)
(** * The program and the test provider, together

    [MockProvider]'s provider and the program, composed as the tests compose
    them: the authorization request of a login is accepted, the provider's
    redirect is a callback that passes, the code is redeemed, the id_token is
    accepted, and a session made whose token goes upstream; later the refresh
    token is exchanged for another one, and the session is logged out of.
    Of jwx the composition needs that what is signed parses and validates when
    its claims are as asked and the time is right ([JwxLaws]), of oauth2 how the
    requests are written and the answers read ([OAuth2Laws]). *)

From S2P Require Import Prelude GoStrings GoTime GoBase64 GoUrl GoUrlFacts GoUtf8 GoError GoRfc3339 GoSha256 GoJsonText GoJsonFacts GoJson Config Initialize Http Crypter Cookie Ingress RedirectUrl Openid Jwks Loginstatus OpenidClient SessionData Store Retry SessionHandler ErrorHandler AutoLogin AppState Standard Example LoginFlow LogoutFlow ReverseProxy RefreshRefines Completion MockProvider.

(** ** The libraries *)

(** The claim a token has under a name. *)
Definition claim (t : Claims) (k : str) : option SetClaim :=
  snd <$> List.find (fun kv => streq kv.1 k) t.

(** What the options of a validation ask of the claims. *)
Definition claims_hold (t : Claims) (o : ValidateOption) : Prop :=
  match o with
  | WithAudience a => claim t $"aud" = Some (SetString a)
  | WithClaimValue k v => claim t k = Some (SetString v)
  | WithIssuer i => claim t $"iss" = Some (SetString i)
  | WithSubject i => claim t $"sub" = Some (SetString i)
  | WithAcceptableSkew _ => True
  | WithRequiredClaim k => is_Some (claim t k)
  end.

(** A token issued at [iat] that ends at [exp], both in seconds, at a time. *)
Definition timely (t : Claims) (skew now : Z) : Prop :=
  exists iat exp, claim t $"iat" = Some (SetNumber iat) /\ claim t $"exp" = Some (SetNumber exp)
    /\ claim t $"nbf" = None
    /\ (unix_epoch + iat * Second <= now + skew)%Z /\ (now < unix_epoch + exp * Second + skew)%Z.

(** The skew a list of options allows. *)
Fixpoint options_skew (opts : list ValidateOption) : Duration :=
  match opts with
  | [] => 0%Z
  | WithAcceptableSkew d :: _ => d
  | _ :: rest => options_skew rest
  end.

(** A time is set in whole seconds. *)
Definition set_claim (c : AssertionClaim) : SetClaim :=
  match c with ACString s => SetString s | ACTime t => SetNumber (Unix t) end.

Class JwxLaws (Key : Type) {L : JwtLib} {X : Jwx Key} {O : OAuth2 Key} : Prop := {
  (* a client assertion, parsed with the public half of the key that signed it *)
  assertion_accepted : forall key claims raw jwks opts now,
    jwt_Sign key claims = Ok raw -> jwk_PublicSetOf [key] = Ok jwks ->
    let t := prod_map id set_claim <$> claims in
    Forall (claims_hold t) opts -> timely t 0 now ->
    is_ok (jwt_ParseValidate jwks opts now raw) = true;
  (* a signed token, parsed and validated *)
  token_accepted : forall key claims raw jwks skew now,
    token_Sign key claims = Ok raw -> jwk_PublicSetOf [key] = Ok jwks -> timely claims skew now ->
    exists t, jwt_ParseString jwks skew now raw = Ok t
      /\ (forall k s, claim claims k = Some (SetString s) -> token_Get t k = Some (ClaimString s))
      /\ (forall opts now', Forall (claims_hold claims) opts ->
            timely claims (options_skew opts) now' -> jwt_Validate opts now' t = Ok tt);
}.

(** The form values oauth2 sends, the later of two under a name. *)
Definition set_all (l : list (str * str)) : Values :=
  fold_left (fun v '(k, x) => Values_Set v k x) l ∅.
Definition authcode_params (clientID : str) (scopes : Scopes) (state : str) (opts : list (str * str))
    : Values :=
  set_all ([($"response_type", $"code"); (P_ClientID, clientID)]
           ++ (if is_empty scopes then [] else [($"scope", Scopes_String scopes)])
           ++ (if is_empty state then [] else [(P_State, state)]) ++ opts).
Definition exchange_params (clientID code : str) (opts : list (str * str)) : Values :=
  set_all ([(P_GrantType, $"authorization_code"); (P_Code, code)] ++ opts
           ++ [(P_ClientID, clientID)]).

(** [AuthCodeURL] writes its parameters as the query; [Exchange] posts them, here
    to a server that gives the [i]-th request the answer [answers i], and reads
    the tokens from a JSON answer of status 200 that has an access token; they
    expire as many seconds later as the answer says. *)
Class OAuth2Laws (Key : Type) {O : OAuth2 Key} {E : Env} (answers : nat -> Values -> Response) : Prop := {
  AuthCodeURL_query : forall authURL cid scopes state opts,
    "?"%char ∉ authURL ->
    oauth2_AuthCodeURL authURL cid scopes state opts
    = authURL ++ "?"%char :: Values_Encode (authcode_params cid scopes state opts);
  Exchange_answer : forall i url cid code opts t,
    let resp := answers i (exchange_params cid code opts) in
    rw_Status resp = Some StatusOK -> rw_ContentType resp = $"application/json" ->
    struct_Decode tokenResponse_fields (mkTokenResponse [] [] [] 0 []) (rw_Body resp) = Ok t ->
    tk_access_token t <> [] ->
    oauth2_Exchange i url cid code opts
    = Ok {| o2_AccessToken := tk_access_token t; o2_TokenType := tk_token_type t;
            o2_RefreshToken := tk_refresh_token t;
            o2_Expiry := (env_now i + tk_expires_in t * Second)%Z;
            o2_IDToken := Some (tk_id_token t) |};
}.

(** [io.ReadFull] fills the buffer or fails. *)
Class RandLaw {E : Env} : Prop := rand_length : forall i n b, env_rand i n = Ok b -> length b = n.

(** ** Forms *)

(** The last value under a key. *)
Fixpoint last_of (k : str) (l : list (str * str)) : option str :=
  match l with
  | [] => None
  | (k', v) :: l' =>
      match last_of k l' with Some x => Some x | None => if streq k' k then Some v else None end
  end.

Lemma set_all_snoc l k v : set_all (l ++ [(k, v)]) = Values_Set (set_all l) k v.
Proof. unfold set_all. by rewrite fold_left_app. Qed.

Lemma last_of_snoc k l k' v :
  last_of k (l ++ [(k', v)]) = if streq k' k then Some v else last_of k l.
Proof.
  induction l as [|[k1 v1] l IH]; cbn; [by destruct (streq k' k)|].
  rewrite IH. destruct (streq k' k); [done|]. done.
Qed.

Lemma Values_Get_set_all k l : Values_Get (set_all l) k = default [] (last_of k l).
Proof.
  induction l as [|[k' v] l IH] using rev_ind; [done|].
  rewrite set_all_snoc, last_of_snoc. unfold Values_Get, Values_Set in *.
  destruct (streq k' k) eqn:E.
  - apply streq_true in E as ->. by rewrite lookup_insert_eq.
  - apply streq_false in E. by rewrite lookup_insert_ne by done.
Qed.

Lemma set_all_nonempty l : map_Forall (fun _ vs => vs <> []) (set_all l).
Proof.
  induction l as [|[k v] l IH] using rev_ind; [apply map_Forall_empty|].
  rewrite set_all_snoc. by apply map_Forall_insert_2.
Qed.

Lemma ParseQuery_set_all l : ParseQuery (Values_Encode (set_all l)) = set_all l.
Proof. apply ParseQuery_Encode, set_all_nonempty. Qed.

(** What is printed has no malformed setting. *)
Lemma bad_setting_pair k v : bad_setting (encode_pair k v) = false.
Proof.
  unfold bad_setting.
  assert (Contains (encode_pair k v) ";" = false) as ->.
  { apply Contains_false. unfold encode_pair. rewrite elem_of_app, elem_of_cons.
    intros [H|[H|H]]; [|done|]; revert H; by apply QueryEscape_not_in. }
  unfold encode_pair. rewrite Cut_app by by apply QueryEscape_not_in.
  unfold QueryUnescape, QueryEscape. rewrite !unescape_escape by done. apply andb_false_r.
Qed.

Lemma bad_settings_pairs (l : list (str * str)) :
  existsb bad_setting (map (fun '(k, v) => encode_pair k v) l) = false.
Proof. induction l as [|[k v] l IH]; [done|]. cbn. by rewrite bad_setting_pair. Qed.

Lemma bad_query_Encode v : bad_query (Values_Encode v) = false.
Proof.
  unfold bad_query, Values_Encode. rewrite entry_pairs_encode.
  destruct (entry_pairs _) as [|p l]; [done|]. change $"&" with ["&"%char].
  rewrite Split_Join; [apply bad_settings_pairs|done|].
  apply Forall_map, Forall_true. intros [k x]. apply encode_pair_no_amp.
Qed.

(** A posted form arrives. *)
Definition form_request (v : Values) : FormRequest :=
  mkFormRequest (Ok $"application/x-www-form-urlencoded") [] (Values_Encode v).

Lemma ParseForm_set_all l : ParseForm (form_request (set_all l)) = Ok (set_all l).
Proof.
  unfold ParseForm, form_request. cbn [fr_MediaType fr_Body fr_RawQuery].
  rewrite streq_refl, bad_query_Encode, ParseQuery_set_all. by vm_compute (bad_query []).
Qed.

(** ** The authorization request *)

Definition optional (k : str) (o : option str) : list (str * str) :=
  match o with Some v => [(k, v)] | None => [] end.

Lemma chosen_optional opts k fallback supported :
  chosen opts k fallback supported ->
  exists o, opts = optional k o /\ default [] o ∈ [] :: supported.
Proof.
  intros [[_ ->]|(_ & v & Hv & ->)]; [exists None|exists (Some v)]; (split; [done|]); set_solver.
Qed.

(** The parameters as the provider reads them. *)
Lemma authorize_params (cid scope state nonce challenge redirect : str)
    (resource level locale : option str) :
  let q := set_all ([($"response_type", $"code"); (P_ClientID, cid)] ++ [($"scope", scope)]
    ++ [(P_State, state)]
    ++ ([(P_Nonce, nonce); (P_ResponseMode, ResponseModeQuery); (P_CodeChallenge, challenge);
         (P_CodeChallengeMethod, CodeChallengeMethodS256); (P_RedirectURI, redirect)]
        ++ optional P_Resource resource)
    ++ optional P_ACRValues level ++ optional P_UILocales locale) in
  let get := Values_Get q in
  get $"state" = state /\ get $"nonce" = nonce /\ get $"redirect_uri" = redirect
  /\ get $"response_type" = $"code" /\ get $"response_mode" = $"query"
  /\ get $"client_id" = cid /\ get $"scope" = scope
  /\ get $"code_challenge" = challenge /\ get $"code_challenge_method" = $"S256"
  /\ get $"acr_values" = default [] level /\ get $"ui_locales" = default [] locale.
Proof.
  intros q get. subst q get. cbv beta. rewrite !Values_Get_set_all.
  destruct resource, level, locale; vm_compute; repeat (split; [done|]); done.
Qed.

Lemma find_none {A} (f : A -> bool) (l : list A) :
  Forall (fun x => f x = false) l -> List.find f l = None.
Proof. induction 1 as [|x l Hx _ IH]; [done|]. cbn. by rewrite Hx. Qed.

Lemma first_missing_None `{LoopOrder} q :
  Forall (fun kv => kv.2 <> []) (required_params q) -> first_missing q = None.
Proof.
  intros Hq. unfold first_missing. rewrite find_none; [done|]. rewrite loop_perm.
  eapply Forall_impl; [exact Hq|]. intros [k v]. cbn. apply is_empty_false.
Qed.

Lemma first_invalid_None `{LoopOrder} q :
  Forall (fun '(k, allowed) => Values_Get q k ∈ allowed) allowedParamValues ->
  first_invalid q = None.
Proof.
  intros Hq. unfold first_invalid. apply find_none. rewrite loop_perm.
  eapply Forall_impl; [exact Hq|]. intros [k allowed]. cbn. intros Hin.
  apply negb_false_iff, existsb_exists. exists (Values_Get q k).
  split; [by apply list_elem_of_In|apply streq_refl].
Qed.

(** Whatever the client, its scopes begin with [openid]. *)
Lemma ClientScopes_openid {Key} (c : Config.Client Key) :
  exists rest, ClientScopes c = $"openid" :: rest.
Proof. unfold ClientScopes. destruct (cl_kind c); by eexists. Qed.

Lemma scope_openid (rest : list str) :
  existsb (streq $"openid") (Split (Scopes_String ($"openid" :: rest)) " ") = true.
Proof.
  unfold Scopes_String. destruct rest as [|s rest]; [by vm_compute|].
  change (Join ($"openid" :: s :: rest) $" ") with ($"openid" ++ " "%char :: Join (s :: rest) $" ").
  rewrite Split_app; [done|]. by apply Contains_false; vm_compute.
Qed.

Section Login.
Context {Key : Type} {L : JwtLib} {X : Jwx Key} {O : OAuth2 Key} {LO : LoopOrder}.
Context {Ew : Env} {HR : RandLaw (E := Ew)} {S : Type}.   (* the program's environment *)
Context {answers : nat -> Values -> Response} {HO : OAuth2Laws Key (E := Ew) answers}.
Context (c : OClient Key).
Implicit Types (w : World S).

(** The query of a login's authorization request, for the values of its cookie. *)
Definition login_query (k : LoginCookie) (resource level locale : option str) : Values :=
  set_all ([($"response_type", $"code"); (P_ClientID, ClientID (client c))]
    ++ [($"scope", Scopes_String (ClientScopes (client c)))] ++ [(P_State, lc_State k)]
    ++ ([(P_Nonce, lc_Nonce k); (P_ResponseMode, ResponseModeQuery);
         (P_CodeChallenge, CodeChallenge (lc_CodeVerifier k));
         (P_CodeChallengeMethod, CodeChallengeMethodS256); (P_RedirectURI, lc_RedirectURI k)]
        ++ optional P_Resource resource)
    ++ optional P_ACRValues level ++ optional P_UILocales locale).

Lemma CodeChallenge_nonempty v : CodeChallenge v <> [].
Proof.
  unfold CodeChallenge. apply (Encode_nonempty RawURLEncoding). intros H.
  pose proof (length_sha256 v) as Hl. by rewrite H in Hl.
Qed.

(** The random strings of a login are there. *)
Lemma newLoginParameters_nonempty w w' p :
  newLoginParameters (E := Ew) w = (Ok p, w') ->
  lp_State p <> [] /\ lp_Nonce p <> [] /\ lp_CodeVerifier p <> []
  /\ lp_CodeChallenge p = CodeChallenge (lp_CodeVerifier p).
Proof.
  intros (v & n & s & Hv & Hn & Hs & -> & -> & -> & -> & _)%newLoginParameters_Ok.
  apply rand_length in Hv, Hn, Hs.
  repeat split; apply (Encode_nonempty RawURLEncoding); by intros ->.
Qed.

Lemma Client_Login_query r w w' l :
  "?"%char ∉ pm_AuthorizationEndpoint (pr_metadata (provider c)) ->
  Client_Login (E := Ew) c r w = (Ok l, w') ->
  let k := lg_cookie l in
  LoginCallbackURL r = Ok (lc_RedirectURI k)
  /\ lc_State k <> [] /\ lc_Nonce k <> [] /\ lc_CodeVerifier k <> []
  /\ exists resource level locale,
       lg_authCodeURL l = pm_AuthorizationEndpoint (pr_metadata (provider c))
         ++ "?"%char :: Values_Encode (login_query k resource level locale)
       /\ default [] level ∈ [] :: ACRValuesSupported (provider c)
       /\ default [] locale ∈ [] :: UILocalesSupported (provider c).
Proof.
  intros Hq Hl%wrapM_Ok. apply NewLogin_inv in Hl as (p & level & locale & Hp & Hcb & Hk & Hu & Hlev & Hloc).
  apply newLoginParameters_nonempty in Hp as (Hs & Hn & Hv & Hch).
  apply chosen_optional in Hlev as (lev & -> & Hlev), Hloc as (loc & -> & Hloc). cbn zeta.
  split; [exact Hcb|]. rewrite Hu, Hk. cbn [login_cookie lc_State lc_Nonce lc_CodeVerifier lc_RedirectURI].
  do 3 (split; [done|]).
  exists (if NeedsResourceIndicator (oc_loginstatus c)
          then Some (ResourceIndicator (oc_loginstatus c)) else None), lev, loc.
  split; [|done]. rewrite AuthCodeURL_query by exact Hq. unfold login_query, authcode_params, base_options.
  rewrite (proj2 (is_empty_false _) Hs), Hch. cbn [login_cookie lc_State lc_Nonce lc_CodeVerifier lc_RedirectURI].
  destruct (ClientScopes_openid (client c)) as [rest ->]. cbn [is_empty].
  by destruct (NeedsResourceIndicator _).
Qed.

(** ** The provider's answer *)

Context {Ei : Env} (ip : IdentityProviderHandler Key).     (* the provider's *)

(** What the provider supports, and the handler accepts. *)
Definition supported_here (p : Provider) : Prop :=
  ACRValuesSupported p ⊆ [$"Level3"; $"Level4"]
  /\ UILocalesSupported p ⊆ [$"nb"; $"nn"; $"en"; $"se"].

Lemma Authorize_run (k : LoginCookie) resource level locale ra rw (wi : World IdpState) u :
  ClientID (client c) <> [] -> supported_here (provider c) ->
  lc_State k <> [] -> lc_Nonce k <> [] -> lc_RedirectURI k <> [] ->
  default [] level ∈ [] :: ACRValuesSupported (provider c) ->
  default [] locale ∈ [] :: UILocalesSupported (provider c) ->
  Parse (lc_RedirectURI k) = Some u ->
  RawQuery (rq_URL ra) = Values_Encode (login_query k resource level locale) ->
  let sid := env_uuid (Env := Ei) (w_tick wi) in
  let code := env_uuid (Env := Ei) (1 + w_tick wi) in
  let auth := mkAuthorizeRequest (default [] level) (ClientID (client c))
                (CodeChallenge (lc_CodeVerifier k)) (default [] locale) (lc_Nonce k)
                (lc_RedirectURI k) sid in
  Authorize (E := Ei) ip ra rw wi
  = (http_Redirect ra (URL_String (URL_with_query u
        (Values_Encode (authorize_answer ip code (lc_State k) sid)))) StatusTemporaryRedirect rw,
     mkWorld (2 + w_tick wi)
       (set_Code code auth (set_Session sid (ClientID (client c)) (w_store wi))) (w_trace wi)).
Proof.
  intros Hcid [Hacr Hloc] Hst Hno Hru Hlev Hlc Hu Hq sid code auth.
  unfold Authorize, URL_Query. rewrite Hq.
  assert (Hparse : ParseQuery (Values_Encode (login_query k resource level locale))
                   = login_query k resource level locale) by apply ParseQuery_set_all.
  rewrite Hparse.
  destruct (authorize_params (ClientID (client c)) (Scopes_String (ClientScopes (client c)))
              (lc_State k) (lc_Nonce k) (CodeChallenge (lc_CodeVerifier k)) (lc_RedirectURI k)
              resource level locale)
    as (E1 & E2 & E3 & E4 & E5 & E6 & E7 & E8 & E9 & E10 & E11).
  fold (login_query k resource level locale) in E1, E2, E3, E4, E5, E6, E7, E8, E9, E10, E11.
  set (q := login_query k resource level locale) in *.
  destruct (ClientScopes_openid (client c)) as [rest Hsc].
  pose proof (CodeChallenge_nonempty (lc_CodeVerifier k)) as Hch.
  rewrite first_missing_None, first_invalid_None.
  - rewrite E7, Hsc, scope_openid. cbn [negb].
    do 4 (rewrite bind_run; cbn [fst snd uuid_New step modify on_store w_tick w_store w_trace]).
    unfold authorize_request. rewrite E1, E2, E3, E6, E8, E10, E11, Hu. done.
  - unfold allowedParamValues. rewrite !Forall_cons, E4, E5, E9, E10, E11. set_solver.
  - unfold required_params. rewrite !Forall_cons, E1, E2, E3, E4, E5, E6, E7, E8, E9, Hsc.
    repeat split; try done. unfold Scopes_String. by destruct rest.
Qed.
End Login.

(** ** The redemption of the code *)

Lemma Unix_bounds t :
  (unix_epoch + Unix t * Second <= t < unix_epoch + (Unix t + 1) * Second)%Z.
Proof.
  unfold Unix. pose proof (Z.div_mod (t - unix_epoch) Second ltac:(done)) as H.
  pose proof (Z.mod_pos_bound (t - unix_epoch) Second ltac:(done)). lia.
Qed.

(** Two clocks read close to [t]: within four seconds of it, in the reads of the
    ticks from [i] on. *)
Definition near (E : Env) (t : Time) (i : nat) : Prop :=
  forall j, (i <= j < i + 8)%nat -> (t <= env_now j <= t + 4 * Second)%Z.

(** A new token, read by a clock that is close, is in time. *)
Lemma timely_new (cs : Claims) now d now' skew :
  claim cs $"iat" = Some (SetNumber (Unix (Truncate now Second))) ->
  claim cs $"exp" = Some (SetNumber (Unix (Add (Truncate now Second) d))) ->
  claim cs $"nbf" = None ->
  (now <= now' + skew)%Z -> (now' + 2 * Second <= now + d + skew)%Z ->
  timely cs skew now'.
Proof.
  intros Hi He Hn H1 H2. do 2 eexists. split; [exact Hi|]. split; [exact He|]. split; [exact Hn|].
  pose proof (Truncate_bounds now Second ltac:(done)).
  pose proof (Unix_bounds (Truncate now Second)). pose proof (Unix_bounds (Add (Truncate now Second) d)).
  unfold Add in *. lia.
Qed.

(** Text of ASCII bytes. *)
Definition ascii_text (s : str) : bool := forallb (fun c => ord c <? 128)%Z s.

(** What the token endpoint reads of an exchange. *)
Lemma exchange_values (cid code : str) (cb : LoginCallback) (a : str) :
  let get := Values_Get (exchange_params cid code (exchange_options cb a)) in
  get P_GrantType = $"authorization_code" /\ get $"code" = code /\ get $"client_id" = cid
  /\ get $"client_assertion" = a /\ get $"redirect_uri" = lc_RedirectURI (cb_cookie cb)
  /\ get $"code_verifier" = lc_CodeVerifier (cb_cookie cb).
Proof.
  intros get. subst get. unfold exchange_params, exchange_options. cbv beta.
  rewrite !Values_Get_set_all. generalize (lc_RedirectURI (cb_cookie cb)) as u.
  generalize (lc_CodeVerifier (cb_cookie cb)) as v. intros v u. vm_compute.
  repeat (split; [done|]). done.
Qed.

Section Redeem.
Context {Key : Type} {L : JwtLib} {C : JwkCache} {X : Jwx Key} {O : OAuth2 Key}.
Context {Ew Ei : Env} {S : Type} {J : JwksState S} {answers : nat -> Values -> Response}.
Context {HO : OAuth2Laws Key (E := Ew) answers} {HX : JwxLaws Key}.
Context (c : OClient Key) (ip : IdentityProviderHandler Key).
Implicit Types (w : World S).

(** The program is configured for the provider, the keys work, and the program
    has the provider's public key. *)
Record connected (signer : Key) (jwks : JwkSet) : Prop := {
  cn_config : ip_Config ip = oc_cfg c;
  cn_duration : ip_TokenDuration ip = Minute;
  cn_signer : exists rest, ip_Private ip = signer :: rest;
  cn_public : jwk_PublicSetOf [signer] = Ok jwks;
  cn_cache : forall i, jwk_cache_Get i (pm_JwksURI (pr_metadata (provider c))) = Ok jwks;
  cn_sign : forall cs, exists raw, token_Sign signer cs = Ok raw /\ raw <> [] /\ valid_utf8 raw = true;
  cn_set : forall k v, token_Set (Key := Key) k v = Ok tt;
  cn_client_sign : forall cs, exists raw, jwt_Sign (ClientJWK (client c)) cs = Ok raw /\ raw <> [];
  cn_client_public : exists cj, jwk_PublicSetOf [ClientJWK (client c)] = Ok cj;
  cn_client : ClientID (client c) <> [];
  cn_uuid : forall i, ascii_text (env_uuid (Env := Ei) i) = true /\ env_uuid (Env := Ei) i <> [] }.

Context {signer : Key} {jwks : JwkSet} (Hc : connected signer jwks).

Lemma first_error_ok (cs : list (str * AssertionClaim)) :
  first_error (map (fun '(k, v) => token_Set (Key := Key) k v) cs) = Ok tt.
Proof. induction cs as [|[k v] cs IH]; [done|]. cbn. by rewrite (cn_set _ _ Hc). Qed.

Lemma MakeAssertion_run d w :
  exists raw, raw <> []
    /\ jwt_Sign (ClientJWK (client c))
         (assertion_claims c (Truncate (env_now (Env := Ew) (w_tick w) - 5 * Second)%Z Second)
            (Truncate (env_now (Env := Ew) (w_tick w) - 5 * Second)%Z Second + d)%Z
            (env_uuid (Env := Ew) (1 + w_tick w))) = Ok raw
    /\ MakeAssertion (E := Ew) c d w
       = (Ok raw, mkWorld (2 + w_tick w) (w_store w) (w_trace w)).
Proof.
  edestruct (cn_client_sign _ _ Hc) as (raw & Hs & Hr). exists raw. split; [exact Hr|].
  split; [exact Hs|]. unfold MakeAssertion. rewrite bind_run. cbn [fst snd time_Now step].
  rewrite bind_run. cbn [fst snd uuid_New step w_tick w_store w_trace].
  unfold bindE at 1. unfold wrapM at 1. rewrite fmap_M_run. cbn [pureR mret M_ret fst snd].
  rewrite first_error_ok. cbn [wrap]. unfold wrapM. rewrite fmap_M_run. cbn [pureR mret M_ret fst snd].
  match goal with |- context [jwt_Sign ?k ?cs] =>
    assert (Hs' : jwt_Sign k cs = Ok raw) by exact Hs; by rewrite Hs' end.
Qed.

(** The provider accepts the assertion. *)
Lemma assertion_authenticates d now jti raw now' :
  jwt_Sign (ClientJWK (client c))
    (assertion_claims c (Truncate (now - 5 * Second)%Z Second)
       (Truncate (now - 5 * Second)%Z Second + d)%Z jti) = Ok raw ->
  (now - 5 * Second <= now')%Z -> (now' + 7 * Second <= now + d)%Z ->
  exists cj t, jwk_PublicSetOf [ClientJWK (oidc_Client (ip_Config ip))] = Ok cj
    /\ jwt_ParseValidate cj (assertion_options ip) now' raw = Ok t.
Proof.
  intros Hs H1 H2. destruct (cn_client_public _ _ Hc) as [cj Hcj]. exists cj.
  rewrite (cn_config _ _ Hc). fold (client c).
  pose proof (assertion_accepted _ _ _ cj (assertion_options ip) now' Hs Hcj) as Ha. cbn zeta in Ha.
  destruct (jwt_ParseValidate _ _ _ _) as [t|e]; [by exists t|]. exfalso.
  assert (false = true) as [=]. apply Ha.
  - unfold assertion_options. rewrite (cn_config _ _ Hc). by repeat constructor.
  - eapply timely_new; [reflexivity|reflexivity|reflexivity|lia|]. lia.
Qed.
Lemma signs (cs : Claims) :
  exists raw, signToken ip cs = Ok raw /\ token_Sign signer cs = Ok raw /\ raw <> []
    /\ valid_utf8 raw = true.
Proof.
  destruct (cn_signer _ _ Hc) as [rest Hs], (cn_sign _ _ Hc cs) as (raw & Hr & Hne & Hu).
  exists raw. unfold signToken. by rewrite Hs.
Qed.

Lemma expires_in_minute : expires_in ip = 60%Z.
Proof. unfold expires_in. rewrite (cn_duration _ _ Hc). by vm_compute. Qed.

Lemma ascii_app (s t : str) : ascii_text s = true -> ascii_text t = true -> valid_utf8 (s ++ t) = true.
Proof.
  intros Hs Ht. apply valid_utf8_ascii. rewrite forallb_app. apply andb_true_iff. by split.
Qed.

(** An access token of the provider for a subject. *)
Definition access_token_of (sub raw : str) : Prop :=
  exists acr iat exp jti, token_Sign signer (access_claims ip sub acr iat exp jti) = Ok raw.

(** The provider redeems a code for what it was issued for. *)
Lemma code_redeemed (wi : World IdpState) auth cb code a cj tok :
  let form := exchange_params (ClientID (client c)) code (exchange_options cb a) in
  let out := Token_endpoint (E := Ei) ip (form_request form) new_response wi in
  Codes (w_store wi) !! code = Some auth -> code <> [] -> ascii_text code = true ->
  ar_ClientID auth = ClientID (client c) ->
  ar_RedirectUri auth = lc_RedirectURI (cb_cookie cb) -> ar_RedirectUri auth <> [] ->
  ar_CodeChallenge auth = CodeChallenge (lc_CodeVerifier (cb_cookie cb)) ->
  lc_CodeVerifier (cb_cookie cb) <> [] -> a <> [] ->
  jwk_PublicSetOf [ClientJWK (oidc_Client (ip_Config ip))] = Ok cj ->
  jwt_ParseValidate cj (assertion_options ip) (env_now (Env := Ei) (w_tick wi)) a = Ok tok ->
  exists accessToken idToken sub jti,
    let now := env_now (Env := Ei) (1 + w_tick wi) in
    let claims := id_claims ip sub auth (Truncate now Second) (Add (Truncate now Second) Minute) jti in
    let refreshToken := code ++ $"some-refresh-token" in
    let t := mkTokenResponse accessToken $"Bearer" refreshToken 60 idToken in
    accessToken <> [] /\ access_token_of sub accessToken /\ text_response t
    /\ token_Sign signer claims = Ok idToken
    /\ out.1 = write_token t new_response
    /\ w_store out.2 = set_RefreshToken refreshToken
         (mkRefreshTokenData (ar_ClientID auth) refreshToken claims (ar_SessionID auth)) (w_store wi).
Proof.
  intros form out Hcode Hne Hascii Hcid Hred Hredne Hch Hv Ha Hcj Htok.
  destruct (exchange_values (ClientID (client c)) code cb a) as (E1 & E2 & E3 & E4 & E5 & E6).
  fold form in E1, E2, E3, E4, E5, E6. subst out. unfold Token_endpoint.
  assert (ParseForm (form_request form) = Ok form) as -> by apply ParseForm_set_all.
  rewrite E1, streq_refl.
  set (now := env_now (Env := Ei) (1 + w_tick wi)).
  set (iat := Truncate now Second). set (exp := Add iat (ip_TokenDuration ip)).
  set (sub := env_uuid (Env := Ei) (2 + w_tick wi)).
  destruct (signs (access_claims ip sub (ar_AcrLevel auth) iat exp (env_uuid (Env := Ei) (3 + w_tick wi))))
    as (at_ & Hat & Hat' & Hatne & Hatu).
  destruct (signs (id_claims ip sub auth iat exp (env_uuid (Env := Ei) (4 + w_tick wi))))
    as (it & Hit & Hit' & _ & Hitu).
  rewrite (TokenCodeGrant_run ip form auth new_response wi cj tok at_ it); try done.
  - rewrite E2, expires_in_minute. cbn [fst snd w_store].
    exists at_, it, sub, (env_uuid (Env := Ei) (4 + w_tick wi)). cbn zeta.
    split; [exact Hatne|]. split; [by do 4 eexists|]. split.
    { split; [|by vm_compute]. rewrite !Forall_cons. cbn [tk_access_token tk_token_type tk_refresh_token tk_id_token].
      split; [done|]. split; [by vm_compute|]. split; [by apply ascii_app|]. done. }
    unfold exp in Hit' |- *. rewrite (cn_duration _ _ Hc) in *. done.
  - rewrite Hcid. apply (cn_client _ _ Hc).
  - apply code_complaint_None. by rewrite E5, E6.
Qed.
(** What a code was issued for is what the callback presents. *)
Definition issued_for (auth : AuthorizeRequest) (k : LoginCookie) : Prop :=
  ar_ClientID auth = ClientID (client c) /\ ar_RedirectUri auth = lc_RedirectURI k
  /\ ar_RedirectUri auth <> [] /\ ar_CodeChallenge auth = CodeChallenge (lc_CodeVerifier k)
  /\ lc_CodeVerifier k <> [] /\ ar_Nonce auth = lc_Nonce k.

(** The id_token of the provider passes the program's checks. *)
Lemma id_token_accepted now sub auth jti raw k :
  issued_for auth k ->
  let claims := id_claims ip sub auth (Truncate now Second) (Add (Truncate now Second) Minute) jti in
  token_Sign signer claims = Ok raw ->
  forall now1, (now - 4 * Second <= now1 <= now + 4 * Second)%Z ->
  exists tok, jwt_ParseString jwks AcceptableClockSkew now1 raw = Ok tok
    /\ token_Get tok $"nonce" = Some (ClaimString (lc_Nonce k))
    /\ token_Get tok $"sub" = Some (ClaimString sub)
    /\ (SidClaimRequired (provider c) = true ->
        token_Get tok SidClaim = Some (ClaimString (ar_SessionID auth)))
    /\ forall now2, (now - 4 * Second <= now2 <= now + 4 * Second)%Z ->
         jwt_Validate (validate_options (oc_cfg c) (lc_Nonce k)) now2 tok = Ok tt.
Proof.
  intros (Hid & _ & _ & _ & _ & Hno) claims Hs now1 H1.
  assert (Ht : forall now', (now - 4 * Second <= now' <= now + 4 * Second)%Z ->
            timely claims AcceptableClockSkew now').
  { intros now' H. apply (timely_new _ now Minute); [reflexivity|reflexivity| | |].
    - unfold claims, id_claims. by destruct (SidClaimRequired _).
    - unfold AcceptableClockSkew. lia.
    - unfold AcceptableClockSkew, Minute. lia. }
  destruct (token_accepted _ _ _ _ _ _ Hs (cn_public _ _ Hc) (Ht now1 H1)) as (tok & Hp & Hg & Hv).
  exists tok. split; [exact Hp|]. split; [apply Hg; rewrite <- Hno; reflexivity|].
  split; [by apply Hg|]. split.
  { intros Hs'. apply Hg. unfold claims, id_claims. unfold provider in Hs'.
    rewrite (cn_config _ _ Hc), Hs'. reflexivity. }
  intros now2 H2. apply Hv; [|exact (Ht now2 H2)].
  unfold validate_options. rewrite <- (cn_config _ _ Hc), !Forall_app. split; [|split].
  - rewrite !Forall_cons. cbn [claims_hold]. rewrite <- Hno. unfold client in Hid.
    rewrite <- (cn_config _ _ Hc) in Hid. rewrite <- Hid. by repeat split.
  - destruct (SidClaimRequired _) eqn:E; [|done]. repeat constructor. unfold claims, id_claims.
    rewrite E. by eexists.
  - destruct (negb _); repeat constructor. by eexists.
Qed.

(** The redemption succeeds when the token endpoint is the provider's. *)
Lemma RedeemTokens_completes w (wi : World IdpState) cb auth t0 :
  (forall form, answers (2 + w_tick w) form
     = (Token_endpoint (E := Ei) ip (form_request form) new_response wi).1) ->
  near Ew t0 (w_tick w) -> near Ei t0 (w_tick wi) ->
  let code := Values_Get (cb_params cb) P_Code in
  Codes (w_store wi) !! code = Some auth -> code <> [] -> ascii_text code = true ->
  issued_for auth (cb_cookie cb) ->
  exists tokens w' tok sub a,
    RedeemTokens (E := Ew) c cb w = (Ok tokens, w') /\ w_store w' = w_store w
    /\ token (tk_IDToken tokens) = Some tok
    /\ token_Get tok $"nonce" = Some (ClaimString (lc_Nonce (cb_cookie cb)))
    /\ token_Get tok $"sub" = Some (ClaimString sub)
    /\ (SidClaimRequired (provider c) = true ->
        token_Get tok SidClaim = Some (ClaimString (ar_SessionID auth)))
    /\ tk_AccessToken tokens <> [] /\ valid_utf8 (tk_AccessToken tokens) = true
    /\ access_token_of sub (tk_AccessToken tokens)
    /\ tk_Expiry tokens = (env_now (Env := Ew) (2 + w_tick w) + 60 * Second)%Z
    /\ tk_RefreshToken tokens = code ++ $"some-refresh-token"
    /\ let form := exchange_params (ClientID (client c)) code (exchange_options cb a) in
       exists claims, RefreshTokens (w_store (Token_endpoint (E := Ei) ip (form_request form)
                          new_response wi).2) !! tk_RefreshToken tokens
         = Some (mkRefreshTokenData (ClientID (client c)) (tk_RefreshToken tokens) claims
                   (ar_SessionID auth))
         /\ Subject claims = sub.
Proof.
  intros Hans Hnw Hni code Hcode Hne Hascii Hfor. pose proof Hfor as (Hid & Hru & Hrune & Hch & Hv & Hno).
  destruct (MakeAssertion_run DefaultClientAssertionLifetime w) as (a & Hane & Hsig & Hma).
  assert (B0 := Hnw (w_tick w) ltac:(lia)). assert (B4 := Hnw (4 + w_tick w)%nat ltac:(lia)).
  assert (B5 := Hnw (5 + w_tick w)%nat ltac:(lia)).
  assert (C0 := Hni (w_tick wi) ltac:(lia)). assert (C1 := Hni (1 + w_tick wi)%nat ltac:(lia)).
  destruct (assertion_authenticates _ _ _ _ (env_now (Env := Ei) (w_tick wi)) Hsig) as (cj & jt & Hcj & Hjt).
  { lia. }
  { unfold DefaultClientAssertionLifetime. lia. }
  destruct (code_redeemed wi auth cb code a cj jt Hcode Hne Hascii Hid Hru Hrune Hch Hv Hane Hcj Hjt)
    as (at_ & it & sub & jti & Hatne & Hat & Htext & Hit & Hout & Hst).
  set (t := mkTokenResponse at_ _ _ 60 it) in *.
  destruct (write_token_run t Htext) as (body & Hw & Hd & _).
  pose proof (Exchange_answer (2 + w_tick w) (pm_TokenEndpoint (pr_metadata (provider c)))
                (ClientID (client c)) code (exchange_options cb a) t) as Hex.
  cbn zeta in Hex. rewrite Hans, Hout, Hw in Hex. specialize (Hex eq_refl eq_refl Hd Hatne).
  destruct (id_token_accepted (env_now (Env := Ei) (1 + w_tick wi)) sub auth jti it (cb_cookie cb) Hfor Hit
              (env_now (Env := Ew) (4 + w_tick w))) as (tok & Hp & Hn & Hsub & Hsid & Hval); [lia|].
  set (tokens := {| tk_AccessToken := at_;
                    tk_Expiry := (env_now (Env := Ew) (2 + w_tick w) + 60 * Second)%Z;
                    tk_IDToken := NewIDToken it tok;
                    tk_RefreshToken := code ++ $"some-refresh-token"; tk_TokenType := $"Bearer" |}).
  set (w' := mkWorld (6 + w_tick w) (w_store w)
               (w_trace w ++ [EvExchange code (exchange_options cb a)])).
  assert (Hrun : RedeemTokens (E := Ew) c cb w = (Ok tokens, w')).
  { unfold RedeemTokens, bindE, wrapM. rewrite fmap_M_run, Hma. cbn [wrap fst snd].
    rewrite fmap_M_run, AuthCodeGrant_run. fold code. cbn [fst snd w_tick w_store w_trace].
    rewrite Hex. cbn [wrap]. rewrite fmap_M_run, GetPublicJwkSet_run. cbn [fst snd w_tick w_store w_trace].
    rewrite (cn_cache _ _ Hc). cbn [wrap]. unfold parse_tokens. rewrite bind_run.
    unfold NewTokens, ParseIDTokenFrom, ParseIDToken, jwt_Parse, bindE, wrapM. cbn [o2_IDToken].
    change (tk_id_token t) with it. rewrite fmap_M_run, bind_run.
    cbn [fst snd time_Now step pureR mret M_ret w_tick w_store w_trace Nat.add].
    cbn [Nat.add] in Hp. rewrite Hp. cbn [wrap okM mret M_ret fst snd].
    rewrite fmap_M_run. unfold IDToken_Validate. rewrite bind_run.
    cbn [fst snd time_Now step w_tick w_store w_trace tk_IDToken NewIDToken GetToken token pureR mret M_ret].
    rewrite Hval by (cbn [Nat.add] in B5; lia). done. }
  exists tokens, w', tok, sub, a. split; [exact Hrun|]. split; [done|]. split; [done|].
  split; [exact Hn|]. split; [exact Hsub|]. split; [exact Hsid|]. split; [exact Hatne|].
  split; [by destruct Htext as [[? _]%Forall_cons _]|]. split; [exact Hat|]. split; [done|].
  split; [done|]. cbn zeta. rewrite Hst. eexists. cbn [RefreshTokens set_RefreshToken tk_RefreshToken tokens].
  rewrite lookup_insert_eq, Hid. split; [done|]. done.
Qed.
(** *** The refresh token *)

(** How [net/http] brings back the answer of the token endpoint. *)
Definition http_answer (rw : Response) : HTTPResponse :=
  {| rs_status := default StatusOK (rw_Status rw); rs_body := Ok (rw_Body rw) |}.

Lemma refresh_response_OK contentType body resp :
  (json_Decode body : result TokenResponse) = Ok resp ->
  refresh_response (http_answer (mkResponse [] None contentType (Some StatusOK) body)) = Ok resp.
Proof. intros H. unfold refresh_response, http_answer. cbn -[json_Decode]. by rewrite H. Qed.

(** What the token endpoint reads of a refresh. *)
Lemma refresh_values (token a : str) :
  let form := refresh_form c token a in
  let get := Values_Get form in
  get P_GrantType = $"refresh_token" /\ get $"refresh_token" = token
  /\ get $"client_id" = ClientID (client c) /\ get $"client_assertion" = a
  /\ form = set_all [(P_GrantType, RefreshTokenValue); (P_RefreshToken, token);
                     (P_ClientID, ClientID (client c)); (P_ClientAssertion, a);
                     (P_ClientAssertionType, ClientAssertionTypeJwtBearer)].
Proof.
  intros form get. subst get.
  match goal with |- _ /\ _ /\ _ /\ _ /\ form = ?l => assert (form = l) as E by reflexivity; revert E;
    generalize form; intros f -> end.
  do 4 (split; [rewrite Values_Get_set_all; by vm_compute|]). done.
Qed.

(** The provider replaces a refresh token of the client. *)
Lemma token_rotated (wi : World IdpState) data token a cj tok :
  let out := Token_endpoint (E := Ei) ip (form_request (refresh_form c token a)) new_response wi in
  RefreshTokens (w_store wi) !! token = Some data -> token <> [] ->
  rt_ClientID data = ClientID (client c) -> a <> [] ->
  jwk_PublicSetOf [ClientJWK (oidc_Client (ip_Config ip))] = Ok cj ->
  jwt_ParseValidate cj (assertion_options ip) (env_now (Env := Ei) (w_tick wi)) a = Ok tok ->
  exists accessToken,
    let newToken := env_uuid (Env := Ei) (3 + w_tick wi) ++ $"some-new-refresh-token" in
    let t := mkTokenResponse accessToken $"Bearer" newToken 60 [] in
    accessToken <> [] /\ text_response t
    /\ out.1 = write_token t new_response
    /\ w_store out.2 = set_RefreshToken newToken
         (mkRefreshTokenData (rt_ClientID data) newToken (rt_OriginalIDToken data) (rt_SessionID data))
         (delete_RefreshToken token (w_store wi)).
Proof.
  intros out Hdata Hne Hcid Ha Hcj Htok.
  destruct (refresh_values token a) as (E1 & E2 & E3 & E4 & Eform).
  subst out. unfold Token_endpoint.
  assert (ParseForm (form_request (refresh_form c token a)) = Ok (refresh_form c token a)) as ->.
  { rewrite Eform. apply ParseForm_set_all. }
  rewrite E1, streq_refl. change (streq $"refresh_token" $"authorization_code") with false. cbv match.
  destruct (signs (refreshed_claims ip (Subject (rt_OriginalIDToken data))
    (Truncate (env_now (Env := Ei) (1 + w_tick wi)) Second)
    (Add (Truncate (env_now (Env := Ei) (1 + w_tick wi)) Second) (ip_TokenDuration ip))
    (env_uuid (Env := Ei) (2 + w_tick wi)))) as (at_ & Hat & _ & Hatne & Hatu).
  rewrite (RefreshTokenGrant_run ip _ data new_response wi cj tok at_);
    rewrite ?E2, ?E3, ?E4; try done.
  - rewrite expires_in_minute. cbn [fst snd w_store]. exists at_. cbn zeta.
    split; [exact Hatne|]. split; [|done].
    destruct (cn_uuid _ _ Hc (3 + w_tick wi)) as [Hu _].
    split; [|by vm_compute]. rewrite !Forall_cons.
    cbn [tk_access_token tk_token_type tk_refresh_token tk_id_token].
    split; [done|]. split; [by vm_compute|]. split; [by apply ascii_app|]. done.
  - rewrite Hcid. apply (cn_client _ _ Hc).
Qed.

(** The refresh succeeds when the token endpoint is the provider's. *)
Lemma RefreshGrant_completes w (wi : World IdpState) data token t0 u :
  Parse (pm_TokenEndpoint (pr_metadata (provider c))) = Some u ->
  (forall rq form, rq_method rq = $"POST" -> rq_url rq = pm_TokenEndpoint (pr_metadata (provider c)) ->
     ($"Content-Type", $"application/x-www-form-urlencoded") ∈ rq_header rq ->
     rq_body rq = Values_Encode form ->
     env_http (Env := Ew) (2 + w_tick w) rq
     = Ok (http_answer (Token_endpoint (E := Ei) ip (form_request form) new_response wi).1)) ->
  near Ew t0 (w_tick w) -> near Ei t0 (w_tick wi) ->
  RefreshTokens (w_store wi) !! token = Some data -> token <> [] ->
  rt_ClientID data = ClientID (client c) ->
  exists resp w' a,
    RefreshGrant (E := Ew) c token w = (Ok resp, w') /\ w_store w' = w_store w
    /\ tr_AccessToken resp <> [] /\ tr_ExpiresIn resp = 60%Z /\ tr_RefreshToken resp <> []
    /\ let out := Token_endpoint (E := Ei) ip (form_request (refresh_form c token a)) new_response wi in
       w_store out.2 = set_RefreshToken (tr_RefreshToken resp)
         (mkRefreshTokenData (rt_ClientID data) (tr_RefreshToken resp) (rt_OriginalIDToken data)
            (rt_SessionID data)) (delete_RefreshToken token (w_store wi)).
Proof.
  intros Hu Hans Hnw Hni Hdata Hne Hcid.
  destruct (MakeAssertion_run DefaultClientAssertionLifetime w) as (a & Hane & Hsig & Hma).
  assert (B0 := Hnw (w_tick w) ltac:(lia)). assert (C0 := Hni (w_tick wi) ltac:(lia)).
  destruct (assertion_authenticates _ _ _ _ (env_now (Env := Ei) (w_tick wi)) Hsig) as (cj & jt & Hcj & Hjt).
  { lia. }
  { unfold DefaultClientAssertionLifetime. lia. }
  destruct (token_rotated wi data token a cj jt Hdata Hne Hcid Hane Hcj Hjt)
    as (at_ & Hatne & Htext & Hout & Hst).
  set (t := mkTokenResponse at_ _ _ 60 []) in *.
  destruct (write_token_run t Htext) as (body & Hw & _ & Hd).
  eexists {| tr_AccessToken := at_; tr_ExpiresIn := 60; tr_RefreshToken := tk_refresh_token t;
             tr_TokenType := $"Bearer" |}, _, a.
  split; [|split; [|split; [exact Hatne|split; [done|split; [|exact Hst]]]]].
  - unfold RefreshGrant, bindE, wrapM. rewrite fmap_M_run, Hma. cbn [wrap fst snd].
    rewrite fmap_M_run. cbn [pureR mret M_ret fst snd]. rewrite Hu. cbn [of_option wrap].
    rewrite fmap_M_run. unfold http_Do. rewrite bind_run.
    cbn [fst snd log_event step w_tick w_store w_trace].
    rewrite (Hans _ (refresh_form c token a)); [|done|done|by apply list_elem_of_here|done].
    rewrite Hout, Hw. cbn [wrap].
    rewrite (refresh_response_OK _ body _ Hd). reflexivity.
  - done.
  - cbn [tr_RefreshToken tk_refresh_token t]. by destruct (env_uuid (Env := Ei) (3 + w_tick wi)).
Qed.
End Redeem.

(** ** The callback *)

(** A callback URL is made of ASCII bytes. *)
Lemma escape_ascii s mode : ascii_text (escape s mode) = true.
Proof. apply escape_forallb. destruct mode; vm_compute; reflexivity. Qed.

Lemma makeCallbackURL_ascii r path u :
  (forall m, IngressFrom r = Some m -> exists raw, ParseIngress raw = Ok m) ->
  makeCallbackURL r path = Ok u -> valid_utf8 u = true /\ u <> [].
Proof.
  intros Hctx Hu. pose proof (makeCallbackURL_spec r path Hctx) as H.
  destruct (IngressFrom r) as [m|].
  - destruct H as (Hs & _ & t & _ & E). rewrite E in Hu. injection Hu as <-. split.
    + apply valid_utf8_ascii. pose proof (escape_ascii (ingress_Host m) encodeHost) as H1.
      pose proof (escape_ascii t encodePath) as H2. unfold ascii_text in H1, H2.
      repeat (progress (rewrite ?forallb_app; cbn [forallb])). rewrite H1, H2.
      by destruct Hs as [-> | ->].
    + by destruct Hs as [-> | ->].
  - by rewrite Hu in H.
Qed.

(** The query of the provider's redirect, as the callback reads it. *)
Lemma callback_values {Key} (ip : IdentityProviderHandler Key) code state sid :
  let q := ParseQuery (Values_Encode (authorize_answer ip code state sid)) in
  Values_Get q P_Code = code /\ Values_Get q P_State = state /\ Values_Get q P_Error = []
  /\ (SessionStateRequired (oidc_Provider (ip_Config ip)) = true -> Values_Get q P_SessionState = sid).
Proof.
  cbn zeta.
  assert (authorize_answer ip code state sid
          = set_all ([($"code", code); ($"state", state)]
                     ++ (if SessionStateRequired (oidc_Provider (ip_Config ip))
                         then [($"session_state", sid)] else []))) as ->.
  { unfold authorize_answer. by destruct (SessionStateRequired _). }
  rewrite ParseQuery_set_all, !Values_Get_set_all.
  destruct (SessionStateRequired _); vm_compute; repeat (split; [done|]); done.
Qed.

Lemma callback_passes rc k q state :
  RawQuery (rq_URL rc) = q -> lc_RedirectURI k <> [] -> lc_State k <> [] -> state = lc_State k ->
  Values_Get (ParseQuery q) P_State = state -> Values_Get (ParseQuery q) P_Error = [] ->
  exists cb, Client_LoginCallback rc (Some k) = Ok cb /\ cb_cookie cb = k
    /\ cb_params cb = ParseQuery q
    /\ IdentityProviderError cb = None /\ StateMismatchError cb = None.
Proof.
  intros <- Hru Hst -> Hs He. unfold Client_LoginCallback, NewLoginCallback.
  rewrite (proj2 (is_empty_false _) Hru). cbn [mbind result_bind wrap]. eexists.
  split; [done|]. cbn [cb_cookie cb_params]. split; [by destruct k|]. split; [done|].
  unfold IdentityProviderError, StateMismatchError. cbn [cb_cookie cb_params lc_State].
  unfold URL_Query. rewrite He, Hs, (proj2 (is_empty_false _) Hst), streq_refl. done.
Qed.

(** ** A provider and a client that satisfy the hypotheses *)

Module Toy.

#[local] Instance SetClaim_eq_dec : EqDecision SetClaim.
Proof. solve_decision. Defined.
#[local] Instance SetClaim_countable : Countable SetClaim.
Proof.
  refine (inj_countable'
    (fun c => match c with SetString s => inl s | SetNumber n => inr n end)
    (fun x => match x with inl s => SetString s | inr n => SetNumber n end) _).
  by intros [].
Defined.

(** A signed token: its key and its claims, as a string of binary digits. *)
Fixpoint bits (p : positive) : str :=
  match p with
  | xH => $"1"
  | xO p => "0"%char :: bits p
  | xI p => "1"%char :: bits p
  end.
Fixpoint of_bits (s : str) : option positive :=
  match s with
  | [] => None
  | c :: [] => if Ascii.eqb c "1" then Some xH else None
  | c :: s => if Ascii.eqb c "1" then xI <$> of_bits s else xO <$> of_bits s
  end.

Lemma bits_nonempty p : bits p <> [].
Proof. by destruct p. Qed.

Lemma of_bits_bits p : of_bits (bits p) = Some p.
Proof.
  induction p as [p IH|p IH|]; [| |done]; cbn [bits of_bits];
    pose proof (bits_nonempty p); destruct (bits p); try done; by rewrite IH.
Qed.

Lemma bits_ascii p : ascii_text (bits p) = true.
Proof. by induction p as [p IH|p IH|]; cbn. Qed.

Lemma bits_utf8 p : valid_utf8 (bits p) = true.
Proof. apply valid_utf8_ascii, bits_ascii. Qed.

Definition signed (key : str) (cs : Claims) : str := bits (encode (key, cs)).
Definition opened (raw : str) : option (str * Claims) := of_bits raw ≫= decode.

Lemma opened_signed key cs : opened (signed key cs) = Some (key, cs).
Proof. unfold opened, signed. rewrite of_bits_bits. cbn [mbind option_bind]. apply decode_encode. Qed.

(** The claims and the time as the library checks them. *)
Definition holds (t : Claims) (o : ValidateOption) : bool :=
  match o with
  | WithAudience a => bool_decide (claim t $"aud" = Some (SetString a))
  | WithClaimValue k v => bool_decide (claim t k = Some (SetString v))
  | WithIssuer i => bool_decide (claim t $"iss" = Some (SetString i))
  | WithSubject i => bool_decide (claim t $"sub" = Some (SetString i))
  | WithAcceptableSkew _ => true
  | WithRequiredClaim k => bool_decide (is_Some (claim t k))
  end.
Definition in_time (t : Claims) (skew now : Z) : bool :=
  match claim t $"iat", claim t $"exp", claim t $"nbf" with
  | Some (SetNumber iat), Some (SetNumber exp), None =>
      (unix_epoch + iat * Second <=? now + skew)%Z && (now <? unix_epoch + exp * Second + skew)%Z
  | _, _, _ => false
  end.

Lemma claims_hold_holds t opts : Forall (claims_hold t) opts -> forallb (holds t) opts = true.
Proof.
  intros H. apply forallb_forall. intros o Ho%list_elem_of_In.
  rewrite Forall_forall in H. specialize (H o Ho).
  destruct o; cbn in H |- *; try done; by apply bool_decide_eq_true.
Qed.

Lemma timely_in_time t skew now : timely t skew now -> in_time t skew now = true.
Proof.
  intros (iat & exp & Hi & He & Hn & H1 & H2). unfold in_time. rewrite Hi, He, Hn.
  apply andb_true_iff. split; [by apply Z.leb_le|by apply Z.ltb_lt].
Qed.

#[local] Instance jwt_lib : JwtLib := {|
  JwkSet := list str;
  JwtToken := Claims;
  token_Get t k := (fun c => match c with SetString s => ClaimString s | SetNumber _ => ClaimOther end)
                     <$> claim t k;
  token_Expiration t := match claim t $"exp" with Some (SetNumber n) => (unix_epoch + n * Second)%Z
                        | _ => zero_time end;
  token_HasAudience t a := bool_decide (claim t $"aud" = Some (SetString a));
  jwt_ParseString jwks skew now raw :=
    match opened raw with
    | Some (key, t) => if existsb (streq key) jwks && in_time t skew now then Ok t else Err (New "jwt")
    | None => Err (New "jws")
    end;
  jwt_Validate opts now t :=
    if forallb (holds t) opts && in_time t (options_skew opts) now then Ok tt else Err (New "jwt");
  jwt_Verified jwks raw t := exists key, key ∈ jwks /\ raw = signed key t |}.

#[local] Instance jwx : Jwx str := {|
  RSAKey := str;
  rsa_GenerateKey _ _ := Ok $"rsa";
  jwk_FromRaw k := Ok k;
  key_Set _ _ k := k;
  jwk_AssignKeyID k := k;
  jwk_PublicSetOf keys := Ok keys;
  token_Sign key cs := Ok (signed key cs);
  jwt_ParseValidate jwks opts now raw :=
    t ← jwt_ParseString jwks 0%Z now raw;
    if forallb (holds t) opts then Ok t else Err (New "jwt");
  error_Error _ := $"error" |}.

(** oauth2, against a server that gives these answers. *)
Definition oauth2 {E : Env} (answers : nat -> Values -> Response) : OAuth2 str := {|
  oauth2_AuthCodeURL url cid scopes state opts :=
    url ++ "?"%char :: Values_Encode (authcode_params cid scopes state opts);
  oauth2_Exchange i _ cid code opts :=
    let resp := answers i (exchange_params cid code opts) in
    match struct_Decode tokenResponse_fields (mkTokenResponse [] [] [] 0 []) (rw_Body resp) with
    | Err e => Err e
    | Ok t =>
        if bool_decide (rw_Status resp = Some StatusOK) && negb (is_empty (tk_access_token t))
        then Ok {| o2_AccessToken := tk_access_token t; o2_TokenType := tk_token_type t;
                   o2_RefreshToken := tk_refresh_token t;
                   o2_Expiry := (env_now i + tk_expires_in t * Second)%Z; o2_IDToken := Some (tk_id_token t) |}
        else Err (New "oauth2")
    end;
  token_Set _ _ := Ok tt;
  jwt_Sign key cs := Ok (signed key (prod_map id set_claim <$> cs)) |}.

Lemma oauth2_laws (E : Env) answers : OAuth2Laws str (O := oauth2 answers) answers.
Proof.
  split; [done|]. intros i url cid code opts t resp Hs _ Hd Ha. cbn [oauth2_Exchange oauth2].
  fold resp. by rewrite Hd, Hs, bool_decide_true, (proj2 (is_empty_false _) Ha) by done.
Qed.

Lemma jwx_laws (E : Env) answers : JwxLaws str (O := oauth2 answers).
Proof.
  split.
  - intros key claims raw jwks opts now [= <-] [= <-] t Ho Ht.
    cbn [jwt_ParseValidate jwx jwt_ParseString jwt_lib]. rewrite opened_signed. cbn [existsb].
    rewrite streq_refl. fold t. rewrite (timely_in_time _ _ _ Ht). cbn [orb andb mbind result_bind].
    by rewrite claims_hold_holds.
  - intros key claims raw jwks skew now [= <-] [= <-] Ht. exists claims. split; [|split].
    + cbn [jwt_ParseString jwt_lib]. rewrite opened_signed. cbn [existsb].
      by rewrite streq_refl, (timely_in_time _ _ _ Ht).
    + intros k s Hk. cbn [token_Get jwt_lib]. by rewrite Hk.
    + intros opts now' Ho Ht'. cbn [jwt_Validate jwt_lib].
      by rewrite claims_hold_holds, (timely_in_time _ _ _ Ht').
Qed.

(** The provider of the tests and the program configured for it. *)
#[local] Instance as_written : LoopOrder := {| loop _ _ l := l; loop_perm _ _ l := Permutation_refl l |}.

Definition idp_url : str := $"http://idp".
Definition built : option (IdentityProviderHandler str * IdpState * StandardHandler str) :=
  NewIdentityProvider (MO := insertion_order) mock_Config idp_url mock_Ingress [$"idp-jwk"]
    $"client-jwk" (fun _ => Ok tt).
Definition cfg : OpenidCfg str :=
  match TestConfiguration mock_Config $"client-jwk" (idp_metadata idp_url) with
  | Some c => c
  | None => example_cfg
  end.
Definition idp : IdentityProviderHandler str := (newIdentityProviderHandler [$"idp-jwk"] cfg).1.
Definition app : StandardHandler str :=
  match built with Some (_, h) => h | None => Example.app end.
Definition rp : OClient str := sh_client app.

Lemma idp_built : built = Some (idp, mkIdpState ∅ ∅ ∅, app).
Proof. vm_compute. reflexivity. Qed.

#[local] Instance cache : JwkCache := {|
  jwk_cache_Register _ := Ok tt;
  jwk_cache_Get _ _ := Ok [$"idp-jwk"];
  jwk_cache_Refresh _ _ := Ok [$"idp-jwk"] |}.

(** A clock that stands still, and a network with this answer. *)
Definition still (net : HTTPRequest -> result HTTPResponse) : Env := {|
  env_now _ := (unix_epoch + Hour)%Z;
  env_rand _ n := Ok (replicate n "r"%char);
  env_keygen _ n := Ok (replicate n "k"%char);
  env_uuid _ := $"uuid";
  env_http _ rq := net rq;
  env_select _ := [TickerFired] |}.
Definition offline : Env := still (fun _ => Err (New "network")).

Lemma still_rand net : RandLaw (E := still net).
Proof. intros i n b [= <-]. apply length_replicate. Qed.
Lemma still_keygen net : KeygenLaw (E := still net).
Proof. intros i n b [= <-]. apply length_replicate. Qed.
Lemma still_available net : RandAvailable (E := still net).
Proof. split; intros i n; by eexists. Qed.
Lemma still_monotone net : MonotoneClock (E := still net).
Proof. intros i j _. cbn [env_now still]. lia. Qed.
Lemma still_modern net : ModernClock (E := still net).
Proof. intros j. by vm_compute. Qed.
Lemma still_near net i : near (still net) (unix_epoch + Hour)%Z i.
Proof. intros j _. cbn [env_now still]. by vm_compute. Qed.

Lemma rp_connected (E : Env) answers net :
  connected (O := oauth2 answers) (Ei := still net) rp idp $"idp-jwk" [$"idp-jwk"].
Proof.
  split.
  - by vm_compute.
  - done.
  - by exists [].
  - done.
  - done.
  - intros cs. exists (signed $"idp-jwk" cs). split; [done|].
    split; [apply bits_nonempty|apply bits_utf8].
  - done.
  - intros cs. exists (signed (ClientJWK (client rp)) (prod_map id set_claim <$> cs)).
    split; [done|apply bits_nonempty].
  - by eexists.
  - by vm_compute.
  - intros i. by split.
Qed.

Lemma rp_supported : supported_here (provider rp).
Proof. split; vm_compute; set_solver. Qed.

Lemma rp_endpoint : "?"%char ∉ pm_AuthorizationEndpoint (pr_metadata (provider rp)).
Proof. apply Contains_false. vm_compute. reflexivity. Qed.

Lemma app_deployed : plain_deployment app.
Proof. split; vm_compute; repeat split; done. Qed.

Definition silent : nat -> Values -> Response := fun _ _ => new_response.

(** A provider with a refresh token, and a network that leads to it. *)
Definition rt_data : RefreshTokenData :=
  mkRefreshTokenData $"client-id" $"rt" [($"sub", SetString $"uuid")] $"session".
Definition logged_in : World IdpState := mkWorld 0 (mkIdpState ∅ ∅ {[ $"rt" := rt_data ]}) [].
Definition refreshing : Env := still (fun rq =>
  Ok (http_answer (Token_endpoint (E := offline) idp
    (mkFormRequest (Ok $"application/x-www-form-urlencoded") [] (rq_body rq))
    new_response logged_in).1)).

Lemma refreshing_net i rq form :
  rq_method rq = $"POST" -> rq_url rq = pm_TokenEndpoint (pr_metadata (provider rp)) ->
  ($"Content-Type", $"application/x-www-form-urlencoded") ∈ rq_header rq ->
  rq_body rq = Values_Encode form ->
  env_http (Env := refreshing) i rq
  = Ok (http_answer (Token_endpoint (E := offline) idp (form_request form) new_response logged_in).1).
Proof. intros _ _ _ H. cbn [env_http refreshing still]. by rewrite H. Qed.

Definition token_url : URL :=
  match Parse (pm_TokenEndpoint (pr_metadata (provider rp))) with Some u => u | None => empty_URL end.
Lemma token_endpoint : Parse (pm_TokenEndpoint (pr_metadata (provider rp))) = Some token_url.
Proof. vm_compute. reflexivity. Qed.

End Toy.

(** ** Properties *)

(** A cookie of text is read as it was written. *)
Lemma valid_cookie_same k :
  Forall (fun x => valid_utf8 x = true) [lc_State k; lc_Nonce k; lc_CodeVerifier k] ->
  valid_utf8 (lc_RedirectURI k) = true ->
  lc_State (valid_cookie k) = lc_State k /\ lc_Nonce (valid_cookie k) = lc_Nonce k
  /\ lc_CodeVerifier (valid_cookie k) = lc_CodeVerifier k
  /\ lc_RedirectURI (valid_cookie k) = lc_RedirectURI k.
Proof.
  rewrite !Forall_cons. intros (? & ? & ? & _) ?. by repeat split; apply to_valid_id.
Qed.

(** The query of the single logout URL, as the provider reads it. *)
Lemma logout_values {Key} (c : OClient Key) (lo : Logout) (hint : str) :
  RawQuery (pr_endSessionEndpointURL (provider c)) = [] ->
  exists q, SingleLogoutURL c lo hint
            = URL_String (URL_with_query (pr_endSessionEndpointURL (provider c)) q)
    /\ Values_Get (ParseQuery q) $"post_logout_redirect_uri" = lo_logoutCallbackURL lo
    /\ Values_Get (ParseQuery q) P_IDTokenHint = hint.
Proof.
  intros Hq. destruct (SingleLogoutURL_query c lo hint) as (q & Hurl & Hpost & Hhint & Hnone & _).
  exists q. split; [exact Hurl|]. unfold URL_Query in *. rewrite Hq in *.
  change (ParseQuery []) with (∅ : Values) in *. rewrite !lookup_empty in *. cbn [default app] in *.
  unfold Values_Get. change $"post_logout_redirect_uri" with P_PostLogoutRedirectURI.
  rewrite Hpost. split; [done|]. destruct hint as [|x hint]; [by rewrite Hnone|].
  by rewrite Hhint.
Qed.

Section Statements.
Context {Key : Type} {L : JwtLib} {C : JwkCache} {X : Jwx Key} {O : OAuth2 Key} {LO : LoopOrder}.
Context {Ew Ei : Env} {S : Type} {J : JwksState S} {St : Store S} {R : Retry S} {A : AEAD}.
Context {T : ErrorTemplate} {LC : Location} {D : Doublestar} {view : S -> gmap str EncryptedData}.
Context {HR : RandLaw (E := Ew)} {HRa : RandAvailable (E := Ew)} {HK : KeygenLaw (E := Ew)}.
Context {HC : MonotoneClock (E := Ew)} {HM : ModernClock (E := Ew)}.
Context {HA : AEADLaws} {HZ : LocationLaws} {HS : StoreAvailable S view} {HRe : RetryAvailable S}.
Context {answers : nat -> Values -> Response} {HO : OAuth2Laws Key (E := Ew) answers}.
Context {HX : JwxLaws Key}.

(** The cookie [c] of an answer names a stored session with these tokens. *)
Definition session_names (s : StandardHandler Key) (store : S) (c : HttpCookie) (sid : str)
    (tokens : Tokens) : Prop :=
  Cookie_Decrypt (sh_crypter s) (ck_Value c) = Ok (session_key (sh_sessions s) sid)
  /\ session_of s (view store) (session_key (sh_sessions s) sid) sid tokens.

(** A request with the session cookie [c] of an answer, while the session is
    stored and its access token lives, goes upstream with that token. *)
Definition session_serves (s : StandardHandler Key) (store : S) (deadline : Time) (c : HttpCookie)
    (tok : str) : Prop :=
  exists k, Cookie_Decrypt (sh_crypter s) (ck_Value c) = Ok k
    /\ forall rp (wp : World S),
         lookup_cookie (rq_Cookies rp) SessionCookie = Some (ck_Value c) ->
         view (w_store wp) !! k = view store !! k ->
         (forall j, (j <= 4 + w_tick wp)%nat -> (env_now (Env := Ew) j <= deadline)%Z) ->
         exists rq wp', proxy_Handler (E := Ew) s rp new_response wp = (Proxied rq, wp')
           /\ rq_Header rq !! Authorization = Some [$"Bearer " ++ tok].

(** The callback of a request that passes its checks, with a code the provider
    issued for it. *)
Lemma callback_interoperates (s : StandardHandler Key) (ip : IdentityProviderHandler Key)
    (signer : Key) (jwks : JwkSet) rc k cb auth (wc : World S) (wi : World IdpState) t0 :
  plain_deployment s -> connected (Ei := Ei) (sh_client s) ip signer jwks ->
  checked_callback s rc = inl (k, cb) -> issued_for (sh_client s) auth (cb_cookie cb) ->
  let code := Values_Get (cb_params cb) P_Code in
  Codes (w_store wi) !! code = Some auth -> code <> [] -> ascii_text code = true ->
  (SessionStateRequired (provider (sh_client s)) = true ->
   Values_Get (URL_Query (rq_URL rc)) P_SessionState <> []) ->
  (forall form, answers (2 + w_tick wc)%nat form
     = (Token_endpoint (E := Ei) ip (form_request form) new_response wi).1) ->
  near Ew t0 (w_tick wc) -> near Ei t0 (w_tick wi) ->
  let out := logincallback_Handler (E := Ew) s rc new_response wc in
  rw_Status out.1 = Some StatusTemporaryRedirect
  /\ rw_Location out.1 = Some (redirect_target rc (lc_Referer k))
  /\ exists c sub sid tokens, c ∈ rw_Cookies out.1 /\ ck_Name c = SessionCookie
       /\ access_token_of ip (signer := signer) sub (tk_AccessToken tokens)
       /\ session_names s (w_store out.2) c sid tokens
       /\ session_serves s (w_store out.2) (env_now (Env := Ew) (2 + w_tick wc) + 60 * Second)%Z c
            (tk_AccessToken tokens).
Proof.
  intros Hdeployed Hconnected Hchk Hfor code Hcode Hne Hascii Hstate Hans Hnear1 Hnear2.
  destruct (RedeemTokens_completes (sh_client s) ip Hconnected wc wi cb auth t0 Hans Hnear1 Hnear2
              Hcode Hne Hascii Hfor)
    as (tokens & wc1 & tok & sub & a & Hrun & Hfr & Htok & _ & _ & Hsid & Hat & Hutf & Hacc & Hexp & _).
  destruct (pd_wf s Hdeployed) as (Hoc & _).
  assert (Hprov : oidc_Provider (sh_openidConfig s) = provider (sh_client s))
    by (unfold provider; by rewrite Hoc).
  destruct (NewSessionID_completes (E := Ew) (oidc_Provider (sh_openidConfig s)) (tk_IDToken tokens)
              (URL_Query (rq_URL rc)) wc1) as (id & wc2 & Hid).
  { intros Hreq. rewrite Hprov in Hreq. unfold GetSidClaim, GetStringClaim.
    by rewrite Htok, (Hsid Hreq). }
  { by rewrite Hprov. }
  pose proof (clock_modern (E := Ew) (2 + w_tick wc)) as Hmod.
  destruct (callback_completes (E := Ew) s Hdeployed rc k cb wc tokens wc1 id wc2 Hchk Hrun Hfr Hid)
    as (Hs & Hl & (c & Hin & Hdec & Hcid) & (e & md & He & Hses) & _).
  { rewrite Hexp. unfold Hour, Minute, Second in *. lia. }
  split; [exact Hs|]. split; [exact Hl|]. exists c, sub, id, tokens.
  split; [exact Hin|]. split; [by eapply cookie_name|]. split; [exact Hacc|].
  split; [split; [exact Hdec|exists e, md; exact (conj He Hses)]|]. exists (session_key (sh_sessions s) id). split; [exact Hdec|]. intros rp wp Hv Hkeep Htime.
  destruct (proxy_completes (E := Ew) s Hdeployed rp (ck_Value c) (session_key (sh_sessions s) id) id
              tokens wp Hv Hdec) as (wp' & Hproxy); try done.
  { exists e, md. by rewrite Hkeep. }
  { intros j Hj. rewrite Hexp. by apply Htime. }
  eexists _, wp'. split; [exact Hproxy|].
  destruct (Director_spec (sh_upstreamHost s) (WithAccessToken rp (tk_AccessToken tokens)))
    as (_ & _ & _ & _ & _ & _ & _ & _ & Hau & _). exact Hau.
Qed.

(** A login, handler by handler: the login route redirects to the provider's
    authorization endpoint with two cookies; the provider accepts the request and
    redirects back; the callback redeems the code and sets the cookie of a
    session, which serves requests.  [Served] has the requests as the server
    receives them. *)
Lemma login_flow (s : StandardHandler Key) (ip : IdentityProviderHandler Key)
    (signer : Key) (jwks : JwkSet) (r : Request) (w w1 : World S) (l : Login) (u : URL)
  (Hdeployed : plain_deployment s)
  (Hconnected : connected (Ei := Ei) (sh_client s) ip signer jwks)
  (Hsupported : supported_here (provider (sh_client s)))
  (Hendpoint : "?"%char ∉ pm_AuthorizationEndpoint (pr_metadata (provider (sh_client s))))
  (Hctx : forall m, IngressFrom r = Some m -> exists raw, ParseIngress raw = Ok m)
  (Hlogin : Client_Login (E := Ew) (sh_client s) r w = (Ok l, w1))
  (Hu : Parse (lc_RedirectURI (lg_cookie l)) = Some u) :
  let out1 := login_Handler (E := Ew) s r new_response w in
  rw_Status out1.1 = Some StatusTemporaryRedirect
  /\ exists q c1 c2,
    rw_Location out1.1 = Some (redirect_target r (lg_authCodeURL l))
    /\ lg_authCodeURL l
       = pm_AuthorizationEndpoint (pr_metadata (provider (sh_client s))) ++ "?"%char :: q
    /\ rw_Cookies out1.1 = [c1; c2]
    /\ ck_Name c1 = LoginCookieName /\ ck_Name c2 = LoginLegacyCookieName
    /\ forall ra wi, RawQuery (rq_URL ra) = q ->
       let out2 := Authorize (E := Ei) ip ra new_response wi in
       rw_Status out2.1 = Some StatusTemporaryRedirect
       /\ exists q',
          rw_Location out2.1 = Some (redirect_target ra (URL_String (URL_with_query u q')))
          /\ forall rc (wc : World S) wi2 t0, RawQuery (rq_URL rc) = q' ->
             (lookup_cookie (rq_Cookies rc) LoginCookieName = Some (ck_Value c1)
              \/ lookup_cookie (rq_Cookies rc) LoginCookieName = None
                 /\ lookup_cookie (rq_Cookies rc) LoginLegacyCookieName = Some (ck_Value c2)) ->
             (forall form, answers (2 + w_tick wc)%nat form
                = (Token_endpoint (E := Ei) ip (form_request form) new_response wi2).1) ->
             Codes (w_store out2.2) ⊆ Codes (w_store wi2) ->
             near Ew t0 (w_tick wc) -> near Ei t0 (w_tick wi2) ->
             let out3 := logincallback_Handler (E := Ew) s rc new_response wc in
             rw_Status out3.1 = Some StatusTemporaryRedirect
             /\ rw_Location out3.1
                = Some (redirect_target rc (lc_Referer (valid_cookie (lg_cookie l))))
             /\ exists c sub sid tokens, c ∈ rw_Cookies out3.1 /\ ck_Name c = SessionCookie
                  /\ access_token_of ip (signer := signer) sub (tk_AccessToken tokens)
                  /\ session_names s (w_store out3.2) c sid tokens
                  /\ session_serves s (w_store out3.2)
                       (env_now (Env := Ew) (2 + w_tick wc) + 60 * Second)%Z c (tk_AccessToken tokens).
Proof.
  pose proof (Client_Login_random _ _ _ _ _ Hlogin) as Hrand.
  destruct (login_completes (E := Ew) s Hdeployed r l w w1 Hlogin) as (Hs1 & Hl1 & c1 & c2 & Hc & Hn1 & Hn2 & Hget).
  cbn zeta. split; [exact Hs1|].
  apply Client_Login_query in Hlogin as (Hcb & Hst & Hno & Hcv & res & lev & loc & Hurl & Hlev & Hloc);
    [|exact Hendpoint].
  destruct (makeCallbackURL_ascii r _ _ Hctx Hcb) as [Htext Hru].
  set (k0 := lg_cookie l) in *.
  destruct (valid_cookie_same k0 Hrand Htext) as (K1 & K2 & K3 & K4).
  eexists _, c1, c2. split; [exact Hl1|]. split; [exact Hurl|]. do 3 (split; [done|]).
  intros ra wi Hra.
  pose proof (Authorize_run (Ei := Ei) (sh_client s) ip k0 res lev loc ra new_response wi u
                (cn_client _ _ _ _ Hconnected) Hsupported Hst Hno Hru Hlev Hloc Hu Hra) as Ha.
  cbn zeta in Ha. rewrite Ha. cbn [fst snd w_store].
  set (sid := env_uuid (Env := Ei) (w_tick wi)) in *.
  set (code := env_uuid (Env := Ei) (1 + w_tick wi)) in *.
  destruct (http_Redirect_fresh ra (URL_String (URL_with_query u
     (Values_Encode (authorize_answer ip code (lc_State k0) sid)))) StatusTemporaryRedirect
     new_response eq_refl) as (Hs2 & Hl2 & _).
  split; [exact Hs2|]. eexists. split; [exact Hl2|].
  intros rc wc wi2 t0 Hrc Hcar Hans Hsub Hnear1 Hnear2.
  destruct (callback_values ip code (lc_State k0) sid) as (V1 & V2 & V3 & V4).
  destruct (callback_passes rc (valid_cookie k0) _ (lc_State k0) Hrc)
    as (cb & Hcbk & Hkk & Hpp & Hie & Hsm); [by rewrite K4|by rewrite K1|done|done|done|].
  assert (Hchk : checked_callback s rc = inl (valid_cookie k0, cb)).
  { unfold checked_callback. by rewrite (Hget rc Hcar), Hcbk, Hie, Hsm. }
  destruct (cn_uuid _ _ _ _ Hconnected (1 + w_tick wi)) as [Hascii Hne]. fold code in Hascii, Hne.
  destruct (cn_uuid _ _ _ _ Hconnected (w_tick wi)) as [_ Hsidne]. fold sid in Hsidne.
  apply (callback_interoperates s ip signer jwks rc (valid_cookie k0) cb
           (mkAuthorizeRequest (default [] lev) (ClientID (client (sh_client s)))
              (CodeChallenge (lc_CodeVerifier k0)) (default [] loc) (lc_Nonce k0)
              (lc_RedirectURI k0) sid) wc wi2 t0); try done; rewrite ?Hpp, ?V1; try done.
  - rewrite Hkk. unfold issued_for. rewrite K2, K3, K4. by repeat split.
  - eapply lookup_weaken; [|exact Hsub]. apply lookup_insert_eq.
  - intros Hreq. unfold URL_Query. rewrite Hrc, V4; [done|].
    by rewrite (cn_config _ _ _ _ Hconnected).
Qed.

(** C5: A refresh goes all the way: the refresh token of a session, which the test
    provider has stored for this client, is exchanged for an access token and
    another refresh token, if the clocks are within four seconds; the provider
    then has the new one, for the same client, subject and session, in the place
    of the old, so that the next refresh is in the same position. *)
Theorem refresh_interoperates (c : OClient Key) (ip : IdentityProviderHandler Key)
    (signer : Key) (jwks : JwkSet) (w : World S) (wi : World IdpState) (data : RefreshTokenData)
    (token : str) (t0 : Time) (u : URL)
  (Hconnected : connected (Ei := Ei) c ip signer jwks)
  (Hendpoint : Parse (pm_TokenEndpoint (pr_metadata (provider c))) = Some u)
  (Hnet : forall rq form, rq_method rq = $"POST" ->
     rq_url rq = pm_TokenEndpoint (pr_metadata (provider c)) ->
     ($"Content-Type", $"application/x-www-form-urlencoded") ∈ rq_header rq ->
     rq_body rq = Values_Encode form ->
     env_http (Env := Ew) (2 + w_tick w) rq
     = Ok (http_answer (Token_endpoint (E := Ei) ip (form_request form) new_response wi).1))
  (Hclock : near Ew t0 (w_tick w)) (Hclock' : near Ei t0 (w_tick wi))
  (Hdata : RefreshTokens (w_store wi) !! token = Some data) (Hne : token <> [])
  (Hclient : rt_ClientID data = ClientID (client c)) :
  exists resp w' a,
    RefreshGrant (E := Ew) c token w = (Ok resp, w')
    /\ tr_AccessToken resp <> [] /\ tr_ExpiresIn resp = 60%Z /\ tr_RefreshToken resp <> []
    /\ let s' := w_store (Token_endpoint (E := Ei) ip (form_request (refresh_form c token a))
                            new_response wi).2 in
       exists data', RefreshTokens s' !! tr_RefreshToken resp = Some data'
         /\ rt_ClientID data' = ClientID (client c)
         /\ Subject (rt_OriginalIDToken data') = Subject (rt_OriginalIDToken data)
         /\ rt_SessionID data' = rt_SessionID data
         /\ (tr_RefreshToken resp <> token -> RefreshTokens s' !! token = None)
         /\ (forall t, t <> token -> t <> tr_RefreshToken resp ->
              RefreshTokens s' !! t = RefreshTokens (w_store wi) !! t).
Proof.
  destruct (RefreshGrant_completes c ip Hconnected w wi data token t0 u Hendpoint Hnet Hclock
              Hclock' Hdata Hne Hclient) as (resp & w' & a & Hrun & _ & Ha & He & Hr & Hst).
  exists resp, w', a. do 4 (split; [done|]). cbn zeta in Hst |- *. rewrite Hst.
  cbn [RefreshTokens set_RefreshToken delete_RefreshToken]. eexists.
  rewrite lookup_insert_eq. split; [done|]. do 3 (split; [done|]). split.
  - intros Hd. rewrite lookup_insert_ne by done. apply lookup_delete_eq.
  - intros t H1 H2. by rewrite lookup_insert_ne, lookup_delete_ne by done.
Qed.

(** A logout, handler by handler: with the cookie of a session, to the end of
    that session at the provider and back. *)
Lemma logout_flow `{HSL : !StoreLaws S view} `{HRL : !RetryLaws S}
    (s : StandardHandler Key) (r : Request) (w : World S) (c : HttpCookie) (sid : str)
    (tokens : Tokens) (lo : Logout) (u : URL)
  (Hdeployed : plain_deployment s)
  (Hendpoint : RawQuery (pr_endSessionEndpointURL (provider (sh_client s))) = [])
  (Hctx : forall m, IngressFrom r = Some m -> exists raw, ParseIngress raw = Ok m)
  (Hcookie : lookup_cookie (rq_Cookies r) SessionCookie = Some (ck_Value c))
  (Hsession : session_names s (w_store w) c sid tokens) (Hsid : valid_utf8 sid = true)
  (Hlo : Client_Logout r = Ok lo) (Hu : Parse (lo_logoutCallbackURL lo) = Some u) :
  let key := session_key (sh_sessions s) sid in
  let out := logout_Handler (E := Ew) s r true new_response w in
  rw_Status out.1 = Some StatusTemporaryRedirect
  /\ (exists q, rw_Location out.1 = Some (redirect_target r
          (URL_String (URL_with_query (pr_endSessionEndpointURL (provider (sh_client s))) q)))
       /\ Values_Get (ParseQuery q) P_IDTokenHint = to_valid (GetSerialized (tk_IDToken tokens))
       /\ forall re (wi : World IdpState), RawQuery (rq_URL re) = q ->
            let out2 := EndSession re new_response wi in
            rw_Status out2.1 = Some StatusTemporaryRedirect
            /\ rw_Location out2.1 = Some (redirect_target re (URL_String u)))
  /\ (exists d cs, rw_Cookies out.1 = d :: cs /\ deletes_session s r d)
  /\ view (w_store out.2) = delete key (view (w_store w))
  /\ forall rp (wp : World S),
       lookup_cookie (rq_Cookies rp) SessionCookie = Some (ck_Value c) ->
       AccessTokenFrom rp = None -> view (w_store wp) !! key = view (w_store out.2) !! key ->
       match (proxy_Handler (E := Ew) s rp new_response wp).1 with
       | Proxied rq => rq_Header rq !! Authorization = rq_Header rp !! Authorization
       | Answered rw => rw_Status rw = Some StatusTemporaryRedirect
       end.
Proof.
  destruct Hsession as [Hk Hses]. intros key out.
  destruct (logout_completes (E := Ew) s Hdeployed r (ck_Value c) sid tokens lo w Hcookie Hk Hses Hsid Hlo)
    as (Hs & Hl & Hd & Hv). fold out in Hs, Hl, Hd, Hv.
  split; [exact Hs|]. split; [|split; [exact Hd|split; [exact Hv|]]].
  - destruct (logout_values (sh_client s) lo (to_valid (GetSerialized (tk_IDToken tokens))) Hendpoint)
      as (q & Hq & Hpost & Hhint). exists q. rewrite <- Hq. split; [exact Hl|]. split; [exact Hhint|].
    intros re wi Hre. apply wrap_Ok in Hlo. unfold NewLogout in Hlo.
    destruct (LogoutCallbackURL r) as [cb|e] eqn:Hcb; [|discriminate Hlo].
    injection Hlo as <-. cbn [lo_logoutCallbackURL] in *.
    destruct (makeCallbackURL_ascii r _ _ Hctx Hcb) as [_ Hne].
    unfold EndSession, URL_Query. rewrite Hre, Hpost, (proj2 (is_empty_false _) Hne), Hu.
    by destruct (http_Redirect_fresh re (URL_String u) StatusTemporaryRedirect new_response eq_refl)
      as (H1 & H2 & _).
  - intros rp wp Hrp Hat Hkeep. rewrite Hv, lookup_delete_eq in Hkeep.
    destruct (pd_wf s Hdeployed) as (_ & _ & _ & Hcr & _). rewrite <- Hcr in Hk.
    exact (proxy_without_session HSL HRL HA HK HZ s rp (ck_Value c) key wp Hrp Hk Hkeep Hat).
Qed.
End Statements.

Import Example.

Lemma refresh_interoperates_witness :
  exists resp w',
    RefreshGrant (O := Toy.oauth2 (E := Toy.offline) Toy.silent) (E := Toy.refreshing) Toy.rp $"rt" toy_world
    = (Ok resp, w') /\ tr_RefreshToken resp <> [].
Proof.
  destruct (refresh_interoperates (L := Toy.jwt_lib) (C := Toy.cache) (X := Toy.jwx)
              (O := Toy.oauth2 (E := Toy.offline) Toy.silent) (HX := Toy.jwx_laws Toy.offline Toy.silent)
              (Ew := Toy.refreshing) (Ei := Toy.offline)
              Toy.rp Toy.idp $"idp-jwk" [$"idp-jwk"] toy_world Toy.logged_in Toy.rt_data $"rt"
              (unix_epoch + Hour)%Z Toy.token_url (Toy.rp_connected _ _ _) Toy.token_endpoint
              (Toy.refreshing_net _) (Toy.still_near _ _) (Toy.still_near _ _) ltac:(reflexivity)
              ltac:(discriminate) ltac:(reflexivity)) as (resp & w' & a & Hrun & _ & _ & Hr & _).
  exists resp, w'. split; [exact Hrun|exact Hr].
Defined.
