(* ===== verification/Served.v ===== *)
(** * A login and a logout, as the server receives their requests

    The flows of [Interop] through the router: each request of the user agent to
    the program is one that [serve] gets, for a route of one of the ingresses or
    outside of them, without any context; the provider's requests go to the test
    provider. *)

From S2P Require Import Prelude GoStrings GoTime GoUrl GoUtf8 GoError GoRfc3339 GoJson Config Http Crypter Cookie Ingress RedirectUrl Openid Jwks Loginstatus OpenidClient SessionData Store Retry SessionHandler ErrorHandler AutoLogin AppState Standard Example LoginFlow LogoutFlow ReverseProxy RefreshRefines Completion Router MockProvider Interop.

Section Served.
Context {Key : Type} {L : JwtLib} {C : JwkCache} {X : Jwx Key} {O : OAuth2 Key} {LO : LoopOrder}.
Context {Ew Ei : Env} {S : Type} {J : JwksState S} {St : Store S} {R : Retry S} {A : AEAD}.
Context {T : ErrorTemplate} {LC : Location} {D : Doublestar} {view : S -> gmap str EncryptedData}.
Context {M : Mux} {HMux : MuxLaws} {MO : MapOrder}.
Context {HR : RandLaw (E := Ew)} {HRa : RandAvailable (E := Ew)} {HK : KeygenLaw (E := Ew)}.
Context {HC : MonotoneClock (E := Ew)} {HM : ModernClock (E := Ew)}.
Context {HA : AEADLaws} {HZ : LocationLaws} {HS : StoreAvailable S view} {HRe : RetryAvailable S}.
Context {answers : nat -> Values -> Response} {HO : OAuth2Laws Key (E := Ew) answers}.
Context {HX : JwxLaws Key}.

(** A plain deployment under the ingresses of a configuration. *)
Record deployed (s : StandardHandler Key) : Prop := {
  dp_plain : plain_deployment s;
  dp_ingresses : exists cfg, ParseIngresses cfg = Ok (sh_ingresses s);
  dp_literal : forallb literal_pattern (ing_paths (sh_ingresses s)) = true }.

(** The program's clock and randomness. *)
#[local] Abbreviation serve := (serve (E := Ew)).
#[local] Abbreviation received s r w := (prepare (E := Ew) s r w).1.
#[local] Abbreviation arrived s r w := (prepare (E := Ew) s r w).2.

(** A request off the routes with the session cookie [c] goes upstream with the
    token [tok] as long as the session is stored and the deadline is not over. *)
Definition served_upstream (s : StandardHandler Key) (store : S) (deadline : Time) (c : HttpCookie)
    (tok : str) : Prop :=
  exists k, Cookie_Decrypt (sh_crypter s) (ck_Value c) = Ok k
    /\ forall rp (wp : World S),
         off_routes s rp -> lookup_cookie (rq_Cookies rp) SessionCookie = Some (ck_Value c) ->
         view (w_store wp) !! k = view store !! k ->
         (forall j, (j <= 5 + w_tick wp)%nat -> (env_now (Env := Ew) j <= deadline)%Z) ->
         exists rq wp', serve s rp wp = (Proxied rq, wp')
           /\ rq_Header rq !! Authorization = Some [$"Bearer " ++ tok].

Context (s : StandardHandler Key) (Hdeployed : deployed s).

(** ** Lemmas *)

Lemma received_context r (w : World S) :
  IngressFrom r = None ->
  forall m, IngressFrom (received s r w) = Some m -> exists raw, ParseIngress raw = Ok m.
Proof.
  intros Hr m. destruct (prepare_keeps (E := Ew) s r w) as (_ & _ & _ & _ & _ & _ & _ & _ & _ & _ & ->).
  destruct (MatchingIngress _ _) as [ing|] eqn:E; [|by rewrite Hr]. intros [= <-].
  destruct (dp_ingresses s Hdeployed) as [cfg Hcfg]. by eapply MatchingIngress_raw.
Qed.

Lemma serve_get sub e r (w : World S) :
  (MethodGet, sub, e) ∈ oauth2_routes -> routed s MethodGet sub r ->
  let out := run_endpoint (E := Ew) s e (received s r w) (arrived s r w) in
  serve s r w = (Answered out.1, out.2).
Proof.
  intros He Hr out. destruct (dp_ingresses s Hdeployed) as [cfg Hcfg].
  rewrite (serve_routed s HMux r w MethodGet sub e); [by rewrite fmap_M_run| |apply (dp_literal s Hdeployed)|done|done].
  by eapply ParseIngresses_NoDup.
Qed.

Lemma redirect_target_received r (w : World S) url :
  redirect_target (received s r w) url = redirect_target r url.
Proof.
  unfold redirect_target, redirect_reference.
  by destruct (prepare_keeps (E := Ew) s r w) as (_ & -> & _).
Qed.

Lemma session_serves_served store deadline c tok :
  session_serves (Ew := Ew) (view := view) s store deadline c tok ->
  served_upstream s store deadline c tok.
Proof.
  intros (k & Hk & H). exists k. split; [exact Hk|]. intros rp wp Hoff Hck Hview Htime.
  destruct (prepare_keeps (E := Ew) s rp wp) as (_ & _ & Hc & _ & _ & Hst & _ & Ht & _).
  rewrite serve_off_routes by done.
  apply H; [by rewrite Hc|by rewrite Hst|]. intros j Hj. apply Htime. lia.
Qed.

(** ** Properties *)

(** C7: A login goes all the way, through the program's router and the test
    provider: a request for the login route of an ingress is redirected to the
    provider's authorization endpoint with two cookies; the provider accepts the
    request, whatever the order its checks are made in, and redirects back; a
    request for the callback route, with one of the cookies, has the code
    redeemed, if the provider still has it and the clocks are within four
    seconds, and is answered with a redirect and the cookie of a session; and a
    request off the routes with that cookie, as long as the session is stored and
    the minute of the access token is not over, is sent upstream with an access
    token the provider signed. *)
Theorem login_interoperates (ip : IdentityProviderHandler Key) (signer : Key) (jwks : JwkSet)
    (r : Request) (w w1 : World S) (l : Login) (u : URL)
  (Hconnected : connected (Ei := Ei) (sh_client s) ip signer jwks)
  (Hsupported : supported_here (provider (sh_client s)))
  (Hendpoint : "?"%char ∉ pm_AuthorizationEndpoint (pr_metadata (provider (sh_client s))))
  (Hroute : routed s MethodGet PathLogin r) (Hfresh : IngressFrom r = None)
  (Hlogin : Client_Login (E := Ew) (sh_client s) (received s r w) (arrived s r w) = (Ok l, w1))
  (Hu : Parse (lc_RedirectURI (lg_cookie l)) = Some u) :
  exists rw1 ww1, serve s r w = (Answered rw1, ww1)
  /\ rw_Status rw1 = Some StatusTemporaryRedirect
  /\ exists q c1 c2,
    rw_Location rw1 = Some (redirect_target r (lg_authCodeURL l))
    /\ lg_authCodeURL l
       = pm_AuthorizationEndpoint (pr_metadata (provider (sh_client s))) ++ "?"%char :: q
    /\ rw_Cookies rw1 = [c1; c2]
    /\ ck_Name c1 = LoginCookieName /\ ck_Name c2 = LoginLegacyCookieName
    /\ forall ra wi, RawQuery (rq_URL ra) = q ->
       let out2 := Authorize (E := Ei) ip ra new_response wi in
       rw_Status out2.1 = Some StatusTemporaryRedirect
       /\ exists q',
          rw_Location out2.1 = Some (redirect_target ra (URL_String (URL_with_query u q')))
          /\ forall rc (wc : World S) wi2 t0,
             routed s MethodGet PathLoginCallback rc -> RawQuery (rq_URL rc) = q' ->
             (lookup_cookie (rq_Cookies rc) LoginCookieName = Some (ck_Value c1)
              \/ lookup_cookie (rq_Cookies rc) LoginCookieName = None
                 /\ lookup_cookie (rq_Cookies rc) LoginLegacyCookieName = Some (ck_Value c2)) ->
             let i := w_tick (arrived s rc wc) in
             (forall form, answers (2 + i)%nat form
                = (Token_endpoint (E := Ei) ip (form_request form) new_response wi2).1) ->
             Codes (w_store out2.2) ⊆ Codes (w_store wi2) ->
             near Ew t0 i -> near Ei t0 (w_tick wi2) ->
             exists rw3 ww3, serve s rc wc = (Answered rw3, ww3)
             /\ rw_Status rw3 = Some StatusTemporaryRedirect
             /\ rw_Location rw3 = Some (redirect_target rc (lc_Referer (valid_cookie (lg_cookie l))))
             /\ exists c sub sid tokens, c ∈ rw_Cookies rw3 /\ ck_Name c = SessionCookie
                  /\ access_token_of ip (signer := signer) sub (tk_AccessToken tokens)
                  /\ session_names (view := view) s (w_store ww3) c sid tokens
                  /\ served_upstream s (w_store ww3)
                       (env_now (Env := Ew) (2 + i) + 60 * Second)%Z c (tk_AccessToken tokens).
Proof.
  destruct (login_flow (view := view) s ip signer jwks (received s r w) (arrived s r w) w1 l u
              (dp_plain s Hdeployed) Hconnected Hsupported Hendpoint (received_context r w Hfresh)
              Hlogin Hu) as (Hs1 & q & c1 & c2 & Hl1 & Hq & Hc & Hn1 & Hn2 & Hrest).
  do 2 eexists. split; [apply (serve_get PathLogin ToLogin); [clear; set_solver|done]|].
  split; [exact Hs1|]. exists q, c1, c2. rewrite redirect_target_received in Hl1.
  do 5 (split; [done|]). intros ra wi Hra. destruct (Hrest ra wi Hra) as (Hs2 & q' & Hl2 & Hcall).
  split; [exact Hs2|]. exists q'. split; [exact Hl2|].
  intros rc wc wi2 t0 Hrt Hrc Hck i Hans Hcodes Hnear1 Hnear2.
  destruct (prepare_keeps (E := Ew) s rc wc) as (_ & Hurl & Hcks & _).
  destruct (Hcall (received s rc wc) (arrived s rc wc) wi2 t0)
    as (Hs3 & Hl3 & c & sub & sid & tokens & Hin & Hn & Hacc & Hnames & Hserves);
    try done; rewrite ?Hurl, ?Hcks; try done.
  do 2 eexists. split; [apply (serve_get PathLoginCallback ToLoginCallback); [clear; set_solver|done]|].
  rewrite redirect_target_received in Hl3. split; [exact Hs3|]. split; [exact Hl3|].
  exists c, sub, sid, tokens. do 4 (split; [done|]). by apply session_serves_served.
Qed.

(** C8: A logout goes all the way: a request for the logout route with the cookie
    of a session is redirected to the provider's end session endpoint with the
    session's id_token as the hint, the cookie is deleted, and that session, no
    other, is gone from the store; the test provider redirects back to the logout
    callback; and a request off the routes that still carries the cookie goes
    upstream, if at all, without a token of the program. *)
Theorem logout_interoperates `{HSL : !StoreLaws S view} `{HRL : !RetryLaws S}
    (r : Request) (w : World S) (c : HttpCookie) (sid : str) (tokens : Tokens) (lo : Logout) (u : URL)
  (Hendpoint : RawQuery (pr_endSessionEndpointURL (provider (sh_client s))) = [])
  (Hroute : routed s MethodGet PathLogout r) (Hfresh : IngressFrom r = None)
  (Hcookie : lookup_cookie (rq_Cookies r) SessionCookie = Some (ck_Value c))
  (Hsession : session_names (view := view) s (w_store w) c sid tokens)
  (Hsid : valid_utf8 sid = true)
  (Hlo : Client_Logout (received s r w) = Ok lo) (Hu : Parse (lo_logoutCallbackURL lo) = Some u) :
  let key := session_key (sh_sessions s) sid in
  exists rw ww, serve s r w = (Answered rw, ww)
  /\ rw_Status rw = Some StatusTemporaryRedirect
  /\ (exists q, rw_Location rw = Some (redirect_target r
          (URL_String (URL_with_query (pr_endSessionEndpointURL (provider (sh_client s))) q)))
       /\ Values_Get (ParseQuery q) P_IDTokenHint = to_valid (GetSerialized (tk_IDToken tokens))
       /\ forall re (wi : World IdpState), RawQuery (rq_URL re) = q ->
            let out2 := EndSession re new_response wi in
            rw_Status out2.1 = Some StatusTemporaryRedirect
            /\ rw_Location out2.1 = Some (redirect_target re (URL_String u)))
  /\ (exists d cs, rw_Cookies rw = d :: cs
       /\ deletes_session s (received s r w) d)
  /\ view (w_store ww) = delete key (view (w_store w))
  /\ forall rp (wp : World S), off_routes s rp ->
       lookup_cookie (rq_Cookies rp) SessionCookie = Some (ck_Value c) ->
       AccessTokenFrom rp = None -> view (w_store wp) !! key = view (w_store ww) !! key ->
       match (serve s rp wp).1 with
       | Proxied rq => rq_Header rq !! Authorization = rq_Header rp !! Authorization
       | Answered rw => rw_Status rw = Some StatusTemporaryRedirect
       end.
Proof.
  intros key. destruct (prepare_keeps (E := Ew) s r w) as (_ & _ & Hcks & _ & _ & Hst & _).
  destruct (logout_flow s (received s r w) (arrived s r w) c sid tokens lo u (dp_plain s Hdeployed)
              Hendpoint (received_context r w Hfresh) ltac:(by rewrite Hcks)
              ltac:(by rewrite Hst) Hsid Hlo Hu) as (Hs & (q & Hl & Hh & Hend) & Hd & Hv & Hafter).
  rewrite redirect_target_received in Hl. rewrite Hst in Hv.
  do 2 eexists. split; [apply (serve_get PathLogout ToLogout); [clear; set_solver|done]|].
  split; [exact Hs|]. split; [by exists q|]. split; [exact Hd|]. split; [exact Hv|].
  intros rp wp Hoff Hck Hat Hkeep.
  destruct (prepare_keeps (E := Ew) s rp wp) as (_ & _ & Hc & Hhd & Ha & Hs2 & _).
  rewrite serve_off_routes by done. rewrite <- Hhd. apply Hafter; [by rewrite Hc|by rewrite Ha|].
  by rewrite Hs2.
Qed.
End Served.

(** ** Concrete runs

    The program and the provider of [Interop.Toy], behind a router. *)

Import Example.

Module Run.
Import Toy.
#[local] Existing Instances jwt_lib cache jwx as_written insertion_order toy_mux toy_mux_laws.
#[local] Abbreviation app := Toy.app.

Lemma app_served : deployed app.
Proof.
  split; [exact app_deployed| |vm_compute; reflexivity].
  exists mock_Config. vm_compute. reflexivity.
Qed.

Definition get_request (host path query : str) (cookies : list (str * str)) : Request :=
  mkRequest MethodGet HTTP11 (URL_with_query (URL_with_path empty_URL path []) query) host ∅ cookies
    None None None None.
Definition login_request : Request :=
  get_request $"wonderwall" $"/oauth2/login"
    (Values_Encode (<[RedirectURLParameter := [$"/"]]> ∅)) [].
Definition callback_request (query : str) (c : HttpCookie) : Request :=
  get_request $"wonderwall" $"/oauth2/callback" query [(LoginCookieName, ck_Value c)].
Definition api_request (c : HttpCookie) : Request :=
  get_request $"wonderwall" $"/api" [] [(SessionCookie, ck_Value c)].
Definition logout_request (c : HttpCookie) : Request :=
  get_request $"wonderwall" $"/oauth2/logout" [] [(SessionCookie, ck_Value c)].

Lemma routes_there sub :
  routed app MethodGet sub (get_request $"wonderwall" (RedirectUrl.OAuth2 ++ sub) [] []).
Proof. split; [done|]. exists []. split; [by left|]. done. Qed.
Lemma api_off c : off_routes app (api_request c).
Proof. intros p [->|[]%not_elem_of_nil]%elem_of_cons. by vm_compute. Qed.

Definition start : World AppStore := mkWorld 0 (∅, zero_time) [].
Definition login answers : result Login * World AppStore :=
  let '(r, w) := prepare (E := offline) app login_request start in
  Client_Login (O := oauth2 (E := offline) answers) (E := offline) rp r w.
Definition authorize_query : str :=
  match (login silent).1 with Ok l => (Cut (lg_authCodeURL l) "?").1.2 | Err _ => [] end.

(** The provider after the authorization request, and its answers. *)
Definition authorize : Request := get_request $"idp" $"/authorize" authorize_query [].
Definition authorized : World IdpState :=
  (Authorize (E := offline) idp authorize new_response (mkWorld 0 (mkIdpState ∅ ∅ ∅) [])).2.
Definition answers : nat -> Values -> Response := fun _ form =>
  (Token_endpoint (E := offline) idp (form_request form) new_response authorized).1.

Lemma in_a_minute : (unix_epoch + Hour <= unix_epoch + Hour + 60 * Second)%Z.
Proof. by vm_compute. Qed.

Lemma login_runs :
  match login answers with
  | (Ok l, _) =>
      streq (lg_authCodeURL l)
        (pm_AuthorizationEndpoint (pr_metadata (provider rp)) ++ "?"%char :: authorize_query)
      && match Parse (lc_RedirectURI (lg_cookie l)) with Some _ => true | None => false end
  | _ => false
  end = true.
Proof. vm_compute. reflexivity. Qed.

(** A stored session and its cookie. *)
Definition tokens : Tokens := {|
  tk_AccessToken := $"at"; tk_Expiry := (unix_epoch + 2 * Hour)%Z; tk_IDToken := NewToken $"idt" None;
  tk_RefreshToken := []; tk_TokenType := $"Bearer" |}.
Definition metadata : Metadata :=
  mkMetadata (mkMetadataSession (unix_epoch + Hour)%Z (unix_epoch + 2 * Hour)%Z zero_time)
    (mkMetadataTokens (unix_epoch + 2 * Hour)%Z (unix_epoch + Hour)%Z).

Lemma session_exists :
  exists (store : AppStore) c, session_names (view := fun m => m.1) app store c $"sid" tokens.
Proof.
  destruct (Data_Encrypt_completes (E := offline) (HR := still_available _) (HA := toy_AEAD_laws)
              (HK := still_keygen _) (sh_crypter app) (NewData $"sid" tokens (Some metadata)) start)
    as (e & _ & He).
  { by vm_compute. }
  { repeat (apply Forall_cons; split); [by vm_compute..|constructor]. }
  { by right. }
  destruct (EncryptAndSet_completes (E := offline) (HR := still_available _) (HA := toy_AEAD_laws)
              (HK := still_keygen _) SessionCookie (session_key (sh_sessions app) $"sid") DefaultOptions
              (sh_crypter app) new_response start) as (_ & _ & c & _ & _ & _ & _ & Hc & _);
    [by apply can_set_fixed; [set_solver|]|by vm_compute|].
  exists ({[ session_key (sh_sessions app) $"sid" := e ]}, zero_time), c. split; [exact Hc|].
  exists e, metadata. split; [apply lookup_singleton_eq|]. split; [exact He|]. by vm_compute.
Qed.

Lemma logout_runs c w : exists lo u,
  Client_Logout (prepare (E := offline) (S := AppStore) app (logout_request c) w).1 = Ok lo
  /\ Parse (lo_logoutCallbackURL lo) = Some u.
Proof.
  assert (H : match Client_Logout (prepare (E := offline) (S := AppStore) app (logout_request c) w).1 with
              | Ok lo => match Parse (lo_logoutCallbackURL lo) with Some _ => true | None => false end
              | Err _ => false
              end = true) by (vm_compute; reflexivity).
  destruct (Client_Logout _) as [lo|e]; [|discriminate H]. exists lo.
  destruct (Parse _) as [u|]; [by exists u|discriminate H].
Qed.
End Run.

Lemma same_query (url q q' : str) (x : ascii) : url ++ x :: q = url ++ x :: q' -> q' = q.
Proof. intros H%app_inv_head. congruence. Qed.

Lemma login_interoperates_witness :
  exists rw1 code c1 rw3 c rq ww wp wc wa,
    serve (E := Toy.offline) (O := Toy.oauth2 (E := Toy.offline) Run.answers) (X := toy_mux) (L := Toy.jwt_lib)
      (C := Toy.cache)
      (MO := insertion_order) Toy.app Run.login_request Run.start = (Answered rw1, ww)
    /\ serve (E := Toy.offline) (O := Toy.oauth2 (E := Toy.offline) Run.answers) (X := toy_mux) (L := Toy.jwt_lib)
      (C := Toy.cache)
         (MO := insertion_order) Toy.app (Run.callback_request code c1) Run.start = (Answered rw3, wc)
    /\ serve (E := Toy.offline) (O := Toy.oauth2 (E := Toy.offline) Run.answers) (X := toy_mux) (L := Toy.jwt_lib)
      (C := Toy.cache)
         (MO := insertion_order) Toy.app (Run.api_request c) wp = (Proxied rq, wa)
    /\ exists tok, rq_Header rq !! Authorization = Some [$"Bearer " ++ tok].
Proof.
  destruct (Run.login Run.answers) as [[l|e] w1] eqn:Hl.
  2:{ exfalso. pose proof Run.login_runs as H. rewrite Hl in H. discriminate H. }
  pose proof Run.login_runs as H. rewrite Hl in H. apply andb_true_iff in H as [Hurl Hp].
  apply streq_true in Hurl. destruct (Parse (lc_RedirectURI (lg_cookie l))) as [u|] eqn:Hu; [|discriminate Hp].
  destruct (login_interoperates (L := Toy.jwt_lib) (C := Toy.cache) (X := Toy.jwx)
              (O := Toy.oauth2 (E := Toy.offline) Run.answers) (LO := Toy.as_written)
              (Ew := Toy.offline) (Ei := Toy.offline) (S := Example.AppStore)
              (M := toy_mux) (HMux := toy_mux_laws) (MO := insertion_order)
              (view := fun s => s.1) (answers := Run.answers)
              (HR := Toy.still_rand _) (HRa := Toy.still_available _) (HK := Toy.still_keygen _)
              (HC := Toy.still_monotone _) (HM := Toy.still_modern _)
              (HA := toy_AEAD_laws) (HZ := oslo_laws) (HS := lifted_available memory_available)
              (HRe := toy_retry_available 2 _)
              (HO := Toy.oauth2_laws _ Run.answers) (HX := Toy.jwx_laws _ Run.answers)
              Toy.app Run.app_served Toy.idp $"idp-jwk" [$"idp-jwk"] Run.login_request Run.start w1 l u
              (Toy.rp_connected _ _ _) Toy.rp_supported Toy.rp_endpoint
              (Run.routes_there PathLogin) eq_refl Hl Hu)
    as (rw1 & ww & Hrun1 & _ & q & c1 & c2 & _ & Hq & _ & _ & _ & H).
  rewrite Hurl in Hq. apply same_query in Hq. subst q.
  destruct (H Run.authorize (mkWorld 0 (mkIdpState ∅ ∅ ∅) []) eq_refl) as (_ & code & _ & H1).
  destruct (H1 (Run.callback_request code c1) Run.start Run.authorized
              (unix_epoch + Hour)%Z (Run.routes_there PathLoginCallback) eq_refl (or_introl eq_refl)
              (fun _ => eq_refl) (reflexivity _) (Toy.still_near _ _) (Toy.still_near _ _))
    as (rw3 & wc & Hrun3 & _ & _ & c & sub & sid & tokens & _ & _ & _ & _ & k & _ & H2).
  destruct (H2 (Run.api_request c) wc (Run.api_off c) eq_refl eq_refl
              (fun _ _ => Run.in_a_minute)) as (rq & wa & Hrun & Hau).
  exists rw1, code, c1, rw3, c, rq, ww, wc, wc, wa.
  exact (conj Hrun1 (conj Hrun3 (conj Hrun (ex_intro _ (tk_AccessToken tokens) Hau)))).
Defined.

Lemma logout_interoperates_witness :
  exists c store rw ww,
    serve (E := Toy.offline) (O := Toy.oauth2 (E := Toy.offline) Toy.silent) (X := toy_mux)
      (C := Toy.cache) (L := Toy.jwt_lib)
      (MO := insertion_order) Toy.app (Run.logout_request c) (mkWorld 0 store []) = (Answered rw, ww)
    /\ rw_Status rw = Some StatusTemporaryRedirect
    /\ match (serve (E := Toy.offline) (O := Toy.oauth2 (E := Toy.offline) Toy.silent) (X := toy_mux)
                (C := Toy.cache) (L := Toy.jwt_lib)
                (MO := insertion_order) Toy.app (Run.api_request c) ww).1 with
       | Proxied rq => rq_Header rq !! Authorization = None
       | Answered rw => rw_Status rw = Some StatusTemporaryRedirect
       end.
Proof.
  destruct Run.session_exists as (store & c & Hses).
  destruct (Run.logout_runs c (mkWorld 0 store [])) as (lo & u & Hlo & Hu).
  destruct (logout_interoperates (L := Toy.jwt_lib) (C := Toy.cache)
              (O := Toy.oauth2 (E := Toy.offline) Toy.silent)
              (Ew := Toy.offline) (S := Example.AppStore) (view := fun s => s.1)
              (M := toy_mux) (HMux := toy_mux_laws) (MO := insertion_order)
              (HK := Toy.still_keygen _) (HA := toy_AEAD_laws) (HZ := oslo_laws)
              (HS := lifted_available memory_available) (HRe := toy_retry_available 2 _)
              (HSL := app_laws) (HRL := app_retry_laws)
              Toy.app Run.app_served (Run.logout_request c) (mkWorld 0 store []) c $"sid" Run.tokens lo u
              eq_refl (Run.routes_there PathLogout) eq_refl eq_refl Hses eq_refl Hlo Hu)
    as (rw & ww & Hrun & Hs & _ & _ & _ & H).
  exists c, store, rw, ww. split; [exact Hrun|]. split; [exact Hs|].
  exact (H (Run.api_request c) ww (Run.api_off c) eq_refl eq_refl eq_refl).
Defined.
