(* ===== verification/Metrics.v ===== *)
(** * Metrics: [pkg/metrics/metrics.go], [pkg/middleware/prometheus.go]

    The program's metrics are output: a metric is described by its options and
    labels, and an observation names a series of it.  What the Prometheus library
    does with observations is not modelled; that it panics when a vector is given
    the wrong number of label values is. *)

From S2P Require Import Prelude GoStrings GoStrconv GoTime GoUrl GoError Http RequestLog SessionData.
#[local] Open Scope Z_scope.

(** ** Metrics and observations *)

Abbreviation Labels := (list (str * str)).

(** Upper bounds of buckets, in milliseconds. *)
Inductive Buckets := Exponential (start factor count : Z) | Listed (bounds : list Z).
Inductive Kind := Counter | Histogram (b : Buckets).

(** A metric: its options, and the names of its variable labels. *)
Record Metric := mkMetric {
  mt_Namespace : str;
  mt_Name : str;
  mt_ConstLabels : Labels;
  mt_Kind : Kind;
  mt_Labels : list str }.

(** What happens to a series, named by its metric and label values: it is made,
    counted up, or given a duration. *)
Inductive Observation :=
| Touch (m : Metric) (values : list str)
| Inc (m : Metric) (values : list str)
| Observe (m : Metric) (values : list str) (d : Duration).

(** [WithLabelValues] panics unless there is a value for every label. *)
Definition WithLabelValues (m : Metric) (values : list str) : option (list str) :=
  if (length values =? length (mt_Labels m))%nat then Some values else None.

(** ** [pkg/metrics] *)

Definition Namespace : str := $"wonderwall".
Definition LabelHpa : str := $"hpa".
Definition LabelOperation : str := $"operation".
Definition LabelProvider : str := $"provider".
Definition HpaRate : str := $"rate".
Definition LogoutOperationFrontChannel : str := $"front_channel".
Definition LogoutOperationLocal : str := $"local".
Definition LogoutOperationSelfInitiated : str := $"self_initiated".

(** [redisLatency], [logins] and [logouts], with optional constant labels. *)
Definition redisLatency (constLabels : option Labels) : Metric :=
  mkMetric Namespace $"redis_latency" (default [] constLabels) (Histogram (Exponential 1 2 16))
    [LabelOperation].
Definition logins (constLabels : option Labels) : Metric :=
  mkMetric Namespace $"logins" (default [(LabelHpa, HpaRate)] constLabels) Counter [].
Definition logouts (constLabels : option Labels) : Metric :=
  mkMetric Namespace $"logouts" (default [(LabelHpa, HpaRate)] constLabels) Counter [LabelOperation].

(** The package's variables. *)
Record Metrics := mkMetrics { RedisLatency : Metric; Logins : Metric; Logouts : Metric }.
Definition initial_metrics : Metrics := mkMetrics (redisLatency None) (logins None) (logouts None).

(** [WithProvider] replaces them. *)
Definition WithProvider (provider : str) : Metrics :=
  mkMetrics (redisLatency (Some [(LabelProvider, provider)]))
    (logins (Some [(LabelHpa, HpaRate); (LabelProvider, provider)]))
    (logouts (Some [(LabelHpa, HpaRate); (LabelProvider, provider)])).

Definition InitLabels (ms : Metrics) : list Observation :=
  let logoutOperations := [LogoutOperationSelfInitiated; LogoutOperationFrontChannel] in
  map (fun operation => Touch (Logouts ms) [operation]) logoutOperations.

Definition ObserveLogin (ms : Metrics) : Observation := Inc (Logins ms) [].
Definition ObserveLogout (ms : Metrics) (operation : str) : Observation :=
  Inc (Logouts ms) [operation].

(** [ObserveRedisLatency]: [fun] between two readings of the clock. *)
Definition ObserveRedisLatency {E : Env} {S A} (ms : Metrics) (operation : str)
    (fn : M S (result A)) : M S (result A * Observation) :=
  timer ← time_Now;
  err ← fn;
  now ← time_Now;
  mret (err, Observe (RedisLatency ms) [operation] (Sub now timer)).

(** [Handle], up to the listener: the metrics registered, and the first
    observations. *)
Definition Handle_metrics (providerName : str) : Metrics * list Metric * list Observation :=
  let ms := WithProvider providerName in
  (ms, [RedisLatency ms; Logins ms; Logouts ms], InitLabels ms).

(** ** [pkg/middleware/prometheus.go] *)

Definition defaultBuckets : list Z :=
  [1; 10; 50; 100; 500; 1000; 1500; 2000; 2500; 3000; 3500; 4000; 4500; 5000].
Definition serviceName : str := $"wonderwall".

Record PrometheusMiddleware := mkPrometheus { pm_reqs : Metric; pm_latency : Metric }.

(** [Prometheus]; the program gives no buckets. *)
Definition Prometheus (provider : str) (buckets : list Z) : PrometheusMiddleware :=
  let constLabels := [($"service", serviceName); (LabelProvider, provider)] in
  let labels := [$"code"; $"method"; $"path"; $"host"] in
  mkPrometheus (mkMetric [] $"requests_total" constLabels Counter labels)
    (mkMetric [] $"request_duration_seconds" constLabels
       (Histogram (Listed (if is_empty buckets then defaultBuckets else buckets))) labels).

(** [Initialize]: [None] is a panic. *)
Definition Prometheus_Initialize (m : PrometheusMiddleware) (path method : str) (code : Z)
    : option Observation :=
  Touch (pm_reqs m) <$> WithLabelValues (pm_reqs m) [Itoa code; method; path].

(** [Handler] around [next]: the observations after the response. *)
Definition Prometheus_Handler {E : Env} {S} (m : PrometheusMiddleware)
    (next : Request -> M S Response) (r : Request)
    : M S (Response * option (list Observation)) :=
  start ← time_Now;
  ww ← next r;
  let statusCode := Itoa (wrapped_status ww) in
  now ← time_Now;
  let duration := Sub now start in
  let values := [statusCode; rq_Method r; Path (rq_URL r); rq_Host r] in
  mret (ww, match WithLabelValues (pm_reqs m) values, WithLabelValues (pm_latency m) values with
            | Some v1, Some v2 => Some [Inc (pm_reqs m) v1; Observe (pm_latency m) v2 duration]
            | _, _ => None
            end).

(** ** Facts *)

(** The labels made at the start are not all that logouts are counted under. *)
Lemma InitLabels_misses_local (ms : Metrics) :
  map (fun o => match o with Touch _ v => v | _ => [] end) (InitLabels ms)
    = [[LogoutOperationSelfInitiated]; [LogoutOperationFrontChannel]]
  /\ [LogoutOperationLocal] ∉ [[LogoutOperationSelfInitiated]; [LogoutOperationFrontChannel]].
Proof. split; [done|]. apply (bool_decide_unpack _). vm_compute. exact I. Qed.

(** [Initialize] of the middleware always panics: it has no value for the host. *)
Lemma Prometheus_Initialize_panics provider buckets path method code :
  Prometheus_Initialize (Prometheus provider buckets) path method code = None.
Proof. done. Qed.

(** Observing a Redis call changes neither its result nor its effect: it runs one
    reading of the clock later, and is observed once, with the time it took. *)
Lemma ObserveRedisLatency_run {E : Env} {S A} (ms : Metrics) (op : str) (fn : M S (result A))
    (w : World S) :
  let '(r, w1) := fn (ticked 1 w) in
  ObserveRedisLatency ms op fn w
  = ((r, Observe (RedisLatency ms) [op] (Sub (env_now (w_tick w1)) (env_now (w_tick w)))), ticked 1 w1).
Proof.
  unfold ObserveRedisLatency. rewrite bind_run.
  change (time_Now w) with (env_now (w_tick w), ticked 1 w). cbn [fst snd].
  rewrite bind_run. destruct (fn (ticked 1 w)) as [r w1]. by rewrite bind_run.
Qed.

(** The middleware answers as the handler does, never panics, and counts every
    request once: under the status that was written (0 if none was), the method,
    path and host. *)
Lemma Prometheus_Handler_run {E : Env} {S} (provider : str) (buckets : list Z)
    (next : Request -> M S Response) (r : Request) (w : World S) :
  let m := Prometheus provider buckets in
  let '(ww, w1) := next r (ticked 1 w) in
  let values := [Itoa (wrapped_status ww); rq_Method r; Path (rq_URL r); rq_Host r] in
  Prometheus_Handler m next r w
  = ((ww, Some [Inc (pm_reqs m) values;
                Observe (pm_latency m) values (Sub (env_now (w_tick w1)) (env_now (w_tick w)))]),
     ticked 1 w1).
Proof.
  intros m. unfold Prometheus_Handler. rewrite bind_run.
  change (time_Now w) with (env_now (w_tick w), ticked 1 w). cbn [fst snd].
  rewrite bind_run. destruct (next r (ticked 1 w)) as [ww w1]. by rewrite bind_run.
Qed.

(** With a clock that does not run backwards, no observed duration is negative. *)
Lemma elapsed_nonneg {E : Env} {S} (w w1 : World S) :
  (forall i j, (i <= j)%nat -> env_now i <= env_now j) -> (w_tick w <= w_tick w1)%nat ->
  0 <= Sub (env_now (w_tick w1)) (env_now (w_tick w)).
Proof.
  intros Hc Hw%Hc. unfold Sub, min_int64, max_int64. repeat case_goal; lia.
Qed.
